(* ===== verification/_CoqProject ===== *)
-Q . S2P
Prelude.v
GoStrings.v
Json.v
Proto.v
Store.v
StoreFacts.v
Columns.v
Lww.v
Engine.v
EngineFacts.v
PairLock.v
Hub.v
HubFacts.v
Demo.v
SyncSpec.v
DiffSpec.v
Sha256.v
BlobStore.v
BlobFacts.v
BlobSpec.v
Http.v
HttpBlobs.v
HttpSpec.v
Session.v
SessionFacts.v
Paths.v
Ignore.v
Registry.v
Suppress.v
Scheduler.v
ListDir.v
Disk.v
Jail.v
JailSpec.v
JailCalm.v
CaseCheck.v
Watcher.v
WatcherSpec.v
Transfer.v
TransferSpec.v
Fetches.v
Exchange.v
Runner.v
Pipeline.v
Lifecycle.v
RunnerSpec.v
SnapshotSpec.v
EndToEnd.v
ConflictEnd.v
DeleteEnd.v
Backoff.v
Conn.v
ConnSpec.v
ClientApp.v
Web.v
WebSpec.v
ServerApp.v
Migrations.v
Identity.v
Router.v
Broadcast.v
Startup.v
ClientStart.v
CommandLine.v
