(* ===== verification/Prelude.v ===== *)
(** * Axion: a verification development

    Axion keeps directories of several machines in step.  A server holds a database of
    clients, pairs (two directories of two clients, one-way or bidirectional) and the last
    known state of every file, a content-addressed store of file contents, and one WebSocket
    per connected client.  A client watches its directory, uploads changed contents over
    HTTP, reports changes over its WebSocket, and carries out the commands it receives.
    This library models the parts of that program that decide what is kept, sent and
    served, and proves what makes them correct.  This file is its root: the list of its
    parts, then what they share.

    ** How the parts fit together

<<
      frame  ->  Session.read_frame  ->  Engine.HandleFileChanged  ->  Store (rows)
                     |                        |  Lww.decideLWW
                     |                        '->  Hub.hub_Send  ->  the peer's socket
                     '->  Hub.Pending_Resolve  ->  a waiting SendAndWait
      HTTP   ->  Http (middleware)  ->  HttpBlobs.ServeBlobs  ->  BlobStore
                                   |->  ListDir  ->  Hub (SendAndWait)
                                   '->  Web (pages)  ->  Store, Engine.Publish...
      notification  ->  Watcher  ->  Registry.Resolve  ->  Runner.handleLocalChange
                                         Suppress.HitWithSHA  <-'   '->  Transfer.Upload, Send
      command  ->  Conn.readLoop  ->  Runner.HandleEnvelope  ->  Transfer.Download  ->  Jail  ->  Disk
>>

    A Go function that has side effects or fails is a program of the monad [M S A] below:
    state passing, with the state kept when an error is returned.  The state is the
    component's: the tables behind SQL, the directory tree of the blob store, the hub's
    heap of connections.  The environment is explicit data: [db_faults] and [os_faults] are
    the failures of the driver and of the operating system to come, [Clock] what successive
    readings of the clock return, a [reader] the bytes a body will deliver and the error it
    ends with.  Blocking calls are split where others can run in between, and the
    interleavings are inductive step relations ([Hub.hub_step], [Scheduler.scheduler_step],
    [Session.server_step], [PairLock.locks_step], [Pipeline.pipeline_step],
    [Lifecycle.running_step], histories in Suppress.v) or runs of a schedule ([Fetches.run_schedule]).

    ** Files

    - Prelude.v (this one): errors, the monad and its rules [preserves] and [triple], int64.
    - GoStrings.v, Json.v, Paths.v: what the program uses of [strings], [strconv],
      [encoding/hex], [encoding/json] and [path/filepath].
    - Proto.v: internal/proto, the messages and their encoding; [message_roundtrip].
    - Store.v: internal/server/store, rows and one definition per method of [SQLite];
      StoreFacts.v: the integrity invariant [tables_ok] under every call, last writer wins
      on file_state, optimistic locking of names.  Columns.v: the columns each statement
      binds and each scan reads, as a class with a round-trip law.
    - Lww.v, Engine.v: internal/server/syncengine (lww.go, mirror.go; engine.go,
      conflict.go, diff.go, subscriber.go), against the interface [Sender] with its laws
      [SenderLaws].  EngineFacts.v: what each program sends and records ([runs_to]) and
      what it leaves alone ([engine_frame]).  PairLock.v: the mutex of each pair, which is
      what lets the other files take the handling of a report as one step.
    - Hub.v: internal/server/hub (hub.go, conn.go, pending.go) as a heap of connections and
      channels; it is the instance of [Sender] the server uses.  HubFacts.v: its invariants
      over all interleavings.
    - SyncSpec.v: what handling one event does, for one-way and bidirectional pairs,
      conflicts, deletions, echoes.  DiffSpec.v: reconciliation with a snapshot, and the
      publication of subscriptions.  Demo.v: the small system the witnesses evaluate.
    - Session.v: the handshake of internal/server/http/ws.go, the callbacks of
      internal/server/app/app.go and the read loop of hub/conn.go on the whole server
      state; SessionFacts.v: integrity of the server in every interleaving, registration,
      disconnection, and a change followed from one socket to the other.
    - Sha256.v: SHA-256, executable.  BlobStore.v: internal/server/blobstore (fs.go, gc.go);
      BlobFacts.v, BlobSpec.v: contents hash to their names under every failure, uploads
      whole and in chunks, garbage collection.
    - Http.v, HttpBlobs.v: internal/server/http (middleware.go, blobs.go) against the
      interface [BlobStoreI]; HttpSpec.v: a 201 means stored, downloads, ranges, quota,
      guards.  ListDir.v: api.go, a request that waits for a client's answer.
    - Scheduler.v: syncengine/scheduler.go against the interface [Weighted] of the
      semaphore.
    - Registry.v, Suppress.v: internal/client/runner (subscription.go, suppress.go).
    - Ignore.v: the ignore patterns (internal/watcher, internal/client/app).
    - Disk.v: a client's file system with symbolic links, whose calls may fail.  Jail.v:
      internal/clientfs; JailSpec.v: it stays in its directory when the lookups of its paths
      do not fail, and how it leaves it when they do; JailCalm.v: what each of its
      operations does on a path without links when no call fails; CaseCheck.v: whether the
      names of the disk fold case.
    - Watcher.v: internal/watcher on a parameter for fsnotify; WatcherSpec.v: bursts are
      processed, changes are reported, the walk over the directories ends.
    - Transfer.v: internal/client/transfer against the interface [Network];
      TransferSpec.v: a download is all or nothing; Fetches.v: downloads that run at the
      same time, on files with an identity apart from their names.  Exchange.v: the server's HTTP API as
      the instance of [Network], and what one client uploads another downloads.
    - Runner.v: internal/client/runner (app.go, listdir.go, snapshot.go, watcher.go);
      RunnerSpec.v: reports, acknowledgements and echoes; SnapshotSpec.v: a snapshot lists
      what is there.  Pipeline.v: the channels between the watcher and the handling of a
      change, and the loops that empty them.  Lifecycle.v: the goroutines of a runner, on a
      heap: which calls start them, what ends them, and that none is left.
    - EndToEnd.v: the composition: a change on one client's disk arrives on the other's,
      through both runners, the HTTP API, the sockets, the engine and the stores.
      ConflictEnd.v: the same for two changes in conflict, and what becomes of them when
      the commands run in the other order.  DeleteEnd.v: the same for a deletion.
    - Backoff.v, Conn.v: internal/client/conn, with the float64 arithmetic of the wait;
      ConnSpec.v: dials are spaced, the two ends agree on registering.  ClientApp.v:
      internal/client/app, the runner of each connection and those it leaves behind.
    - Web.v: internal/server/web, every page and form; WebSpec.v: what they change, publish
      and refuse, and that nothing changes without the CSRF token.  Broadcast.v: web/htmx.go,
      the rows pushed to the browsers.
    - Router.v: internal/server/http/router.go, every route with its middleware: nobody gets
      in without credentials.
    - ServerApp.v: the settings of internal/server/app/app.go and a round of the garbage
      collection.  Migrations.v: store/migrations.go.  Identity.v: internal/client/id,
      on the disk of Disk.v.
    - Startup.v: the server from its flags to listening, [store.Open] included, and its end.
      ClientStart.v: the client from its flags to dialling, and what that does to its disk.
      CommandLine.v: cmd/axion, the flags and their defaults, and the two commands of the
      quick start together.

    ** Conventions and bounds

    int64 values are integers; where the code's arithmetic can leave the range the wrap is
    written ([wrap64]).  Times are nanoseconds.  SHA-256 is computed, not assumed; the
    theorems use only that it has 32 bytes.  Fuel is in [GoStrings.format_digits] (one more
    than the binary logarithm, enough for every digit, [ParseInt_FormatInt]), in Sha256.v
    (the number of blocks and rounds), in [Runner.walkScan] (the code's own limit on the
    depth) and in [Watcher.add_dirs], for which the depth of the disk is enough
    ([watch_walk_terminates]); [GoStrings.TrimSpace] takes off no more than the length of
    the text; [Disk.walk] counts the symbolic links it follows, as the
    kernel does.  [Conn.Run] runs over the turns the environment gives.  JSON is modelled as trees: its byte
    syntax is not.  The SQL statements are modelled by their meaning on the tables, the
    order of rows with equal sort keys left to no theorem.

    ** Not modelled

    Logging (the access log and pkg/logctx), static files, and listening itself, which is
    net/http's.  The limit of 64 KiB both ends of a WebSocket set on a message: a message
    that exceeds it is, in the model, a read that fails, and nothing says which do.  The
    goroutines of the libraries (fsnotify, net/http).  The redirects of [ServeMux].
    Two goroutines of a client working on the same file at once are interleaved
    for downloads only (Fetches.v, and ConflictEnd.v for whole commands): elsewhere a command
    or a change is one step.  URLs are parsed by a parameter.
    What is third-party (WebSocket, UUID, file system notification, semaphore, SQL driver)
    is a parameter: a fresh identifier, a failure to come, or a class with its laws; so are
    html/template's output and the local rendering of a time.

    ** Where the program does something else than it means to

    Theorems that show it: [HttpSpec.empty_upload_is_refused],
    [HttpSpec.range_past_end_overstates], [HttpSpec.size_limit_is_per_chunk],
    [HttpSpec.empty_key_lets_everyone_in], [SessionFacts.stale_disconnection_marks_offline],
    [SessionFacts.self_pair_sides_differ], [DiffSpec.recreated_file_is_missed],
    [DiffSpec.empty_snapshot_deletes_everything], [DiffSpec.unsubscribe_after_delete_fails],
    [SyncSpec.edit_beats_delete], [SyncSpec.bidirectional_peer_offline],
    [BlobSpec.reupload_does_not_protect], [Suppress.any_content_is_narrowed],
    [RunnerSpec.fetch_under_a_subpath_is_echoed], [ClientApp.reconnected_client_reports_twice],
    [ClientApp.reconnected_client_echoes], [ConnSpec.refused_client_does_not_back_off],
    [JailSpec.create_escapes_through_dangling_link], [JailSpec.failing_lstat_escapes], [Exchange.empty_file_is_not_uploaded],
    [SnapshotSpec.snapshot_uploads_nothing], [SnapshotSpec.unreadable_root_is_reported_empty],
    [WatcherSpec.write_then_remove_is_missed], [WatcherSpec.full_queue_loses_the_change],
    [WatcherSpec.new_directory_is_not_scanned], [Ignore.default_list_drops_more],
    [WebSpec.browsing_says_offline], [WebSpec.concurrent_pair_edits_lose_one],
    [WebSpec.client_deletion], [ServerApp.huge_gc_age_deletes_new_blobs],
    [Identity.torn_identity_is_fatal], [ConflictEnd.swapped_commands_lose_the_content],
    [Fetches.overlapping_downloads_corrupt], [Lifecycle.failed_start_is_not_retried],
    [Startup.late_connection_survives], [CommandLine.default_key_files_differ],
    [CaseCheck.left_over_file_says_insensitive]. *)

From Stdlib Require Export ZArith Lia.
From stdpp Require Export base gmap strings list fin_maps fin_sets sorting.

(** ** Errors

    Go errors as values.  [Sentinel] is a package-level [errors.New] variable
    (compared by identity in Go; every sentinel of the program has a text of its
    own, so the text identifies it), [Errorf] an error built from a format
    string with no [%w], [Wrap] one built with [%w], and [PathError] and [LinkError] an
    [*os.PathError] and an [*os.LinkError] carrying an errno. *)
Inductive error : Type :=
| Sentinel (text : string)
| Errorf (text : string)
| Wrap (prefix : string) (inner : error)
| PathError (op : string) (errno : string)
| LinkError (op : string) (errno : string).

#[export] Instance error_eq_dec : EqDecision error.
Proof. solve_decision. Defined.

(** [err.Error()] *)
Fixpoint error_text (e : error) : string :=
  match e with
  | Sentinel s | Errorf s => s
  | Wrap p e' => p +:+ ": " +:+ error_text e'
  | PathError op en | LinkError op en => op +:+ ": " +:+ en
  end.

(** [errors.Is(e, target)]: the unwrapping chain is searched. *)
Fixpoint errors_Is (e target : error) : bool :=
  bool_decide (e = target) ||
  match e with
  | Wrap _ e' => errors_Is e' target
  | _ => false
  end.

(** [errors.As(err, *os.PathError)]: the first path error of the chain. *)
Fixpoint errors_As_PathError (e : error) : option string :=
  match e with
  | PathError _ en => Some en
  | Wrap _ e' => errors_As_PathError e'
  | _ => None
  end.

Lemma errors_Is_refl e : errors_Is e e = true.
Proof. destruct e; simpl; by rewrite bool_decide_true. Qed.

Lemma errors_Is_Wrap p e t :
  errors_Is e t = true -> errors_Is (Wrap p e) t = true.
Proof. intros H. simpl. rewrite H. apply orb_true_r. Qed.

(** ** Results and the state-and-error monad

    [M S A] is a Go function that may change the state [S] and returns a value or
    an error.  The state is threaded through the error case too: a Go function
    that returns an error keeps the side effects it has already had. *)
Inductive result (A : Type) : Type :=
| Ok (a : A)
| Err (e : error).
Arguments Ok {A} _.
Arguments Err {A} _.

#[export] Instance result_eq_dec `{EqDecision A} : EqDecision (result A).
Proof. solve_decision. Defined.

Definition is_ok {A} (r : result A) : bool :=
  match r with Ok _ => true | Err _ => false end.

Definition M (S A : Type) : Type := S -> result A * S.

Section Monad.
Context {S : Type}.

Definition ret {A} (a : A) : M S A := fun s => (Ok a, s).
Definition throw {A} (e : error) : M S A := fun s => (Err e, s).

(** [x, err := m; if err != nil { return err }; k(x)] *)
Definition bind {A B} (m : M S A) (k : A -> M S B) : M S B := fun s =>
  match m s with
  | (Ok a, s') => k a s'
  | (Err e, s') => (Err e, s')
  end.

(** [x, err := m; k(x, err)]: the caller inspects the error itself. *)
Definition try {A B} (m : M S A) (k : result A -> M S B) : M S B := fun s =>
  let '(r, s') := m s in k r s'.

Definition get : M S S := fun s => (Ok s, s).
Definition modify (f : S -> S) : M S unit := fun s => (Ok tt, f s).

(** A call whose outcome is known. *)
Definition of_result {A} (r : result A) : M S A := fun s => (r, s).

(** [fmt.Errorf("prefix: %w", err)] on the error of [m]. *)
Definition wrapped {A} (prefix : string) (m : M S A) : M S A := fun s =>
  match m s with
  | (Ok a, s') => (Ok a, s')
  | (Err e, s') => (Err (Wrap prefix e), s')
  end.

(** A call on two paths reports an [*os.LinkError]. *)
Definition link_error {A} (m : M S A) : M S A := fun s =>
  match m s with
  | (Err (PathError op en), s') => (Err (LinkError op en), s')
  | p => p
  end.

(** [for _, x := range l { body(x) }] where the body returns no error (or the
    loop logs it and continues). *)
Fixpoint for_each {A} (l : list A) (body : A -> M S unit) : M S unit :=
  match l with
  | [] => ret tt
  | x :: l' => try (body x) (fun _ => for_each l' body)
  end.

(** [for _, x := range l { if err := body(x); err != nil { return err } }] *)
Fixpoint each {A} (body : A -> M S unit) (l : list A) : M S unit :=
  match l with
  | [] => ret tt
  | x :: l' => bind (body x) (fun _ => each body l')
  end.

(** Two bodies that agree on the states [P] keep in [P] make the same loop. *)
Lemma each_ext {A} (P : S -> Prop) (f g : A -> M S unit) (l : list A) :
  (forall x s, x ∈ l -> P s -> f x s = g x s /\ P (snd (g x s))) ->
  forall s, P s -> each f l s = each g l s.
Proof.
  induction l as [|x l IH]; intros H s HP; [done|]. cbn [each]. unfold bind.
  destruct (H x s ltac:(by left) HP) as [E HP']. rewrite E.
  destruct (g x s) as [[u|e] s']; [|done]. apply IH; [|exact HP']. intros y t Hy. apply H. by right.
Qed.

Lemma for_each_app {A} (l1 l2 : list A) body s :
  for_each (l1 ++ l2) body s = for_each l2 body (snd (for_each l1 body s)).
Proof.
  revert s; induction l1 as [|x l1 IH]; intros s; simpl; [done|].
  unfold try. destruct (body x s) as [r s']. apply IH.
Qed.

(** Loop rule: an invariant of the body is an invariant of the loop. *)
Lemma for_each_inv {A} (P : S -> Prop) (l : list A) body :
  (forall x s, x ∈ l -> P s -> P (snd (body x s))) ->
  forall s, P s -> P (snd (for_each l body s)).
Proof.
  induction l as [|x l IH]; intros Hb s HP; simpl; [done|].
  unfold try. destruct (body x s) as [r s'] eqn:E.
  apply IH; [intros y t Hy; apply Hb; by right|].
  specialize (Hb x s (list_elem_of_here _ _) HP). by rewrite E in Hb.
Qed.

Lemma for_each_ok {A} (l : list A) body s :
  fst (for_each l body s) = Ok tt.
Proof.
  revert s; induction l as [|x l IH]; intros s; simpl; [done|].
  unfold try. destruct (body x s) as [r s']. apply IH.
Qed.
End Monad.

(** [preserves P m]: running [m] keeps the state predicate [P], whatever [m]
    returns.  The rules below walk through a monadic program. *)
Definition preserves {S A} (P : S -> Prop) (m : M S A) : Prop :=
  forall s, P s -> P (snd (m s)).

Section Preserves.
Context {S : Type} (P : S -> Prop).

Lemma preserves_ret {A} (a : A) : preserves P (ret a).
Proof. intros s HP. done. Qed.
Lemma preserves_throw {A} e : preserves P (throw (A:=A) e).
Proof. intros s HP. done. Qed.
Lemma preserves_bind {A B} (m : M S A) (k : A -> M S B) :
  preserves P m -> (forall a, preserves P (k a)) -> preserves P (bind m k).
Proof.
  intros Hm Hk s HP. unfold bind. specialize (Hm s HP).
  destruct (m s) as [[a|e] s']; [by apply Hk|done].
Qed.
Lemma preserves_try {A B} (m : M S A) (k : result A -> M S B) :
  preserves P m -> (forall r, preserves P (k r)) -> preserves P (try m k).
Proof.
  intros Hm Hk s HP. unfold try. specialize (Hm s HP).
  destruct (m s) as [r s']. by apply Hk.
Qed.
Lemma preserves_wrapped {A} p (m : M S A) : preserves P m -> preserves P (wrapped p m).
Proof.
  intros Hm s HP. unfold wrapped. specialize (Hm s HP). by destruct (m s) as [[a|e] s'].
Qed.
Lemma preserves_link_error {A} (m : M S A) : preserves P m -> preserves P (link_error m).
Proof.
  intros Hm s HP. unfold link_error. specialize (Hm s HP). by destruct (m s) as [[a|[]] s'].
Qed.
Lemma preserves_for_each {A} (l : list A) body :
  (forall x, x ∈ l -> preserves P (body x)) -> preserves P (for_each l body).
Proof. intros Hb s HP. apply for_each_inv; [|done]. intros x t Hx. by apply Hb. Qed.
Lemma preserves_each {A} (body : A -> M S unit) (l : list A) :
  (forall x, x ∈ l -> preserves P (body x)) -> preserves P (each body l).
Proof.
  induction l as [|x l IH]; intros H; [apply preserves_ret|]. apply preserves_bind; [apply H; by left|].
  intros _. apply IH. intros y Hy. apply H. by right.
Qed.
End Preserves.

(** [triple P m Q]: from a state in [P], [m] ends with a result and a state in [Q]. *)
Definition triple {S A} (P : S -> Prop) (m : M S A) (Q : result A -> S -> Prop) : Prop :=
  forall s, P s -> Q (fst (m s)) (snd (m s)).

Section Triple.
Context {S : Type}.
Implicit Types P : S -> Prop.

Lemma triple_ret {A} P (a : A) (Q : result A -> S -> Prop) :
  (forall s, P s -> Q (Ok a) s) -> triple P (ret a) Q.
Proof. intros H s HP. by apply H. Qed.
Lemma triple_throw {A} P e (Q : result A -> S -> Prop) :
  (forall s, P s -> Q (Err e) s) -> triple P (throw e) Q.
Proof. intros H s HP. by apply H. Qed.
Lemma triple_bind {A B} P (m : M S A) (k : A -> M S B) R Q :
  triple P m R -> (forall a, triple (R (Ok a)) (k a) Q) ->
  (forall e s, R (Err e) s -> Q (Err e) s) -> triple P (bind m k) Q.
Proof.
  intros Hm Hk He s HP. unfold bind. specialize (Hm s HP).
  destruct (m s) as [[a|e] s']; [by apply Hk|by apply He].
Qed.
Lemma triple_try {A B} P (m : M S A) (k : result A -> M S B) R Q :
  triple P m R -> (forall r, triple (R r) (k r) Q) -> triple P (try m k) Q.
Proof.
  intros Hm Hk s HP. unfold try. specialize (Hm s HP).
  destruct (m s) as [r s']. by apply Hk.
Qed.
(** The common case: an error of [m] is returned, in a state [E] describes. *)
Lemma triple_seq {A B} P (m : M S A) (k : A -> M S B) (R : A -> S -> Prop) (E : S -> Prop) Q :
  triple P m (fun r s => match r with Ok a => R a s | Err _ => E s end) ->
  (forall a, triple (R a) (k a) Q) -> (forall e s, E s -> Q (Err e) s) -> triple P (bind m k) Q.
Proof. intros Hm Hk He. eapply triple_bind; [exact Hm|exact Hk|intros e s; apply He]. Qed.
Lemma triple_wrapped {A} P x (m : M S A) Q :
  triple P m (fun r => Q (match r with Ok a => Ok a | Err e => Err (Wrap x e) end)) ->
  triple P (wrapped x m) Q.
Proof. intros Hm s HP. unfold wrapped. specialize (Hm s HP). by destruct (m s) as [[a|e] s']. Qed.
Lemma triple_link_error {A} P (m : M S A) (Q : result A -> S -> Prop) :
  (forall op en s, Q (Err (PathError op en)) s -> Q (Err (LinkError op en)) s) ->
  triple P m Q -> triple P (link_error m) Q.
Proof. intros He Hm s HP. specialize (Hm s HP). unfold link_error. destruct (m s) as [[a|[]] s']; cbn in *; auto. Qed.
Lemma triple_weaken {A} P P' (m : M S A) Q Q' :
  triple P' m Q' -> (forall s, P s -> P' s) -> (forall r s, Q' r s -> Q r s) -> triple P m Q.
Proof. intros H HP HQ s Hs. by apply HQ, H, HP. Qed.
End Triple.

Declare Scope go_scope.
Delimit Scope go_scope with go.
Notation "x <- m ;; k" := (bind m (fun x => k))
  (at level 100, m at next level, k at level 200, right associativity, only parsing) : go_scope.
Notation "x <-? m ;; k" := (try m (fun x => k))
  (at level 100, m at next level, k at level 200, right associativity, only parsing) : go_scope.
Notation "m ;; k" := (bind m (fun _ => k))
  (at level 100, k at level 200, right associativity, only parsing) : go_scope.

(** ** Machine integers: Go's [int64] *)
Section Int64.
Local Open Scope Z_scope.
Definition int64_min : Z := -2^63.
Definition int64_max : Z := 2^63 - 1.
Definition in_int64 (z : Z) : bool := (int64_min <=? z) && (z <=? int64_max).

(** The value of an [int64] expression whose mathematical value is [z]. *)
Definition wrap64 (z : Z) : Z := (z + 2^63) mod 2^64 - 2^63.

Lemma in_int64_spec z : in_int64 z = true <-> int64_min <= z <= int64_max.
Proof. unfold in_int64. rewrite andb_true_iff, !Z.leb_le. done. Qed.

Lemma wrap64_id z : int64_min <= z <= int64_max -> wrap64 z = z.
Proof.
  unfold wrap64, int64_min, int64_max. intros H.
  rewrite Z.mod_small; lia.
Qed.

Lemma wrap64_range z : int64_min <= wrap64 z <= int64_max.
Proof.
  unfold wrap64, int64_min, int64_max.
  pose proof (Z.mod_pos_bound (z + 2^63) (2^64) ltac:(lia)). lia.
Qed.

Lemma wrap64_cong z : exists k, wrap64 z = z + k * 2^64.
Proof.
  exists (- ((z + 2^63) / 2^64)). unfold wrap64.
  pose proof (Z.div_mod (z + 2^63) (2^64) ltac:(lia)). lia.
Qed.
End Int64.

(** ** Generic lemmas on lists and maps *)
Section Generic.
Context {A : Type}.

Lemma Forall_filter_weaken (P Q : A -> Prop) `{!forall x, Decision (Q x)} l :
  Forall P l -> Forall P (filter Q l).
Proof. rewrite !Forall_forall. intros HP x Hx. apply list_elem_of_filter in Hx. naive_solver. Qed.

Lemma list_filter_id (P : A -> Prop) `{!forall x, Decision (P x)} (l : list A) :
  (forall x, x ∈ l -> P x) -> filter P l = l.
Proof.
  induction l as [|x l IH]; intros Hl; [done|].
  rewrite filter_cons_True by (apply Hl; by left). f_equal. apply IH. intros y Hy. apply Hl. by right.
Qed.

Lemma foldl_app_snoc {B} (f : B -> A -> B) b l x :
  foldl f b (l ++ [x]) = f (foldl f b l) x.
Proof. by rewrite foldl_app. Qed.
End Generic.

(** [ORDER BY f]: the order on [A] by a key. *)
Definition by_key {A B} (R : relation B) (f : A -> B) : relation A := fun a b => R (f a) (f b).

Section ByKey.
Context {A B : Type} (R : relation B) (f : A -> B).
#[export] Instance by_key_dec `{!RelDecision R} : RelDecision (by_key R f).
Proof. intros a b. unfold by_key. apply _. Defined.
#[export] Instance by_key_total `{!Total R} : Total (by_key R f).
Proof. intros a b. apply (total R (f a) (f b)). Qed.
#[export] Instance by_key_trans `{!Transitive R} : Transitive (by_key R f).
Proof. intros a b c. unfold by_key. apply transitivity. Qed.
End ByKey.

Lemma elem_of_sorted {A} (R : relation A) `{!RelDecision R} (l : list A) x :
  x ∈ merge_sort R l <-> x ∈ l.
Proof. by rewrite (merge_sort_Permutation R l). Qed.

(** ** Automation *)

(** Unfold the monadic plumbing of a goal. *)
Ltac unfold_monad :=
  unfold ret, throw, bind, try, get, modify, wrapped in *.

(** Decide the equations between closed terms that a goal tests. *)
Ltac decide_closed :=
  repeat match goal with
  | |- context [bool_decide (?a = ?b)] =>
      first [rewrite (bool_decide_true (a = b)) by reflexivity
            |rewrite (bool_decide_false (a = b)) by discriminate]; cbv iota
  end.

Create HintDb axion discriminated.
#[export] Hint Resolve errors_Is_refl wrap64_range : axion.
#[export] Hint Resolve preserves_ret preserves_throw preserves_bind preserves_try
  preserves_wrapped preserves_link_error preserves_for_each preserves_each : axion.
#[export] Hint Rewrite @bool_decide_eq_true @bool_decide_eq_false : axion.
