(* ===== verification/GoStrings.v ===== *)
(** Go's [strings] and [strconv] functions as the program uses them: prefixes and
    suffixes, [SplitN(s, sep, 2)], ASCII case folding, decimal integers of 64 bits
    ([ParseInt], [FormatInt]) and lower-case hexadecimal ([hex.EncodeToString]).
    A Go string is a sequence of bytes: Rocq's [string]. *)
From S2P Require Import Prelude.
From Stdlib Require Import Ascii.
Local Open Scope Z_scope.

(** ** Prefixes, suffixes, substrings *)
Fixpoint sdrop (n : nat) (s : string) : string :=
  match n, s with
  | O, _ => s
  | S n', String _ s' => sdrop n' s'
  | S _, EmptyString => EmptyString
  end.

Fixpoint stake (n : nat) (s : string) : string :=
  match n, s with
  | S n', String c s' => String c (stake n' s')
  | _, _ => EmptyString
  end.

Definition slen (s : string) : nat := String.length s.

Fixpoint HasPrefix (s p : string) {struct p} : bool :=
  match p, s with
  | EmptyString, _ => true
  | String a p', String b s' => bool_decide (a = b) && HasPrefix s' p'
  | String _ _, EmptyString => false
  end.

Definition TrimPrefix (s p : string) : string :=
  if HasPrefix s p then sdrop (slen p) s else s.

Definition HasSuffix (s p : string) : bool :=
  (slen p <=? slen s)%nat && bool_decide (sdrop (slen s - slen p) s = p).

Definition TrimSuffix (s p : string) : string :=
  if HasSuffix s p then stake (slen s - slen p) s else s.

(** Cut around the first occurrence of a byte. *)
Fixpoint cut (c : ascii) (s : string) : option (string * string) :=
  match s with
  | EmptyString => None
  | String a s' =>
      if bool_decide (a = c) then Some (EmptyString, s')
      else match cut c s' with
           | Some (x, y) => Some (String a x, y)
           | None => None
           end
  end.

(** [strings.SplitN(s, sep, 2)] for a one-byte separator. *)
Definition SplitN2 (s : string) (c : ascii) : list string :=
  match cut c s with
  | Some (a, b) => [a; b]
  | None => [s]
  end.

Fixpoint sall (P : ascii -> bool) (s : string) : bool :=
  match s with
  | EmptyString => true
  | String c s' => P c && sall P s'
  end.

Fixpoint smap (f : ascii -> ascii) (s : string) : string :=
  match s with
  | EmptyString => EmptyString
  | String c s' => String (f c) (smap f s')
  end.

Definition code (c : ascii) : Z := Z.of_N (N_of_ascii c).

(** [string(b)] and [[]byte(s)] *)
Definition text_of (b : list Z) : string := foldr (fun c s => String (ascii_of_N (Z.to_N c)) s) "" b.
Fixpoint bytes_of (s : string) : list Z :=
  match s with EmptyString => [] | String c s' => code c :: bytes_of s' end.

Lemma text_of_bytes_of s : text_of (bytes_of s) = s.
Proof. induction s as [|c s IH]; [done|]. cbn. unfold text_of in IH. rewrite IH. unfold code. by rewrite N2Z.id, ascii_N_embedding. Qed.

(** [strings.ToLower] on ASCII letters (its callers pass hexadecimal digits). *)
Definition lower_ascii (c : ascii) : ascii :=
  if (65 <=? code c) && (code c <=? 90) then ascii_of_N (Z.to_N (code c + 32)) else c.
Definition ToLower (s : string) : string := smap lower_ascii s.

Lemma sapp_nil_r s : s +:+ EmptyString = s.
Proof. induction s as [|c s IH]; [done|]. change (String c (s +:+ EmptyString) = String c s). by rewrite IH. Qed.

Lemma sapp_cons c s t : String c s +:+ t = String c (s +:+ t).
Proof. done. Qed.

Lemma sapp_assoc s t u : s +:+ (t +:+ u) = (s +:+ t) +:+ u.
Proof. induction s as [|c s IH]; [done|]. by rewrite !sapp_cons, IH. Qed.

Lemma slen_app s t : slen (s +:+ t) = (slen s + slen t)%nat.
Proof. induction s as [|c s IH]; [done|]. rewrite sapp_cons. unfold slen in *. simpl. by rewrite IH. Qed.

Lemma sdrop_app s t : sdrop (slen s) (s +:+ t) = t.
Proof. induction s as [|c s IH]; [done|]. rewrite sapp_cons. exact IH. Qed.

Lemma stake_app s t : stake (slen s) (s +:+ t) = s.
Proof.
  induction s as [|c s IH]; [by destruct t|].
  rewrite sapp_cons. unfold slen in *. simpl. by rewrite IH.
Qed.

Lemma stake_sdrop n s : stake n s +:+ sdrop n s = s.
Proof.
  revert s; induction n as [|n IH]; intros [|c s]; try done.
  simpl. rewrite sapp_cons. by rewrite IH.
Qed.

Lemma sapp_inj_l s t u : s +:+ t = s +:+ u -> t = u.
Proof. induction s as [|c s IH]; [done|]. rewrite !sapp_cons. intros [=]; auto. Qed.

Lemma sapp_inj_r s t u : t +:+ s = u +:+ s -> t = u.
Proof.
  revert u; induction t as [|c t IH]; intros [|d u] H; try done.
  - exfalso. apply (f_equal slen) in H. rewrite sapp_cons in H. cbn [slen] in H.
    change (EmptyString +:+ s) with s in H. unfold slen in H. simpl in H.
    fold (slen (u +:+ s)) in H. rewrite slen_app in H. unfold slen in H. lia.
  - exfalso. apply (f_equal slen) in H. rewrite sapp_cons in H.
    change (EmptyString +:+ s) with s in H. unfold slen in H. simpl in H.
    fold (slen (t +:+ s)) in H. rewrite slen_app in H. unfold slen in H. lia.
  - rewrite !sapp_cons in H. injection H as -> H. by rewrite (IH _ H).
Qed.

Lemma HasPrefix_spec s p : HasPrefix s p = true <-> exists t, s = p +:+ t.
Proof.
  revert s; induction p as [|a p IH]; intros s; simpl.
  - split; [intros _; by exists s|done].
  - destruct s as [|b s]; [split; [done|intros [t Ht]; discriminate Ht]|].
    rewrite andb_true_iff, bool_decide_eq_true, IH. split.
    + intros [-> [t ->]]. by exists t.
    + intros [t Ht]. rewrite sapp_cons in Ht. injection Ht as -> ->. eauto.
Qed.

Lemma HasPrefix_app p t : HasPrefix (p +:+ t) p = true.
Proof. apply HasPrefix_spec. eauto. Qed.

Lemma TrimPrefix_app p t : TrimPrefix (p +:+ t) p = t.
Proof. unfold TrimPrefix. by rewrite HasPrefix_app, sdrop_app. Qed.

Lemma HasSuffix_app s p : HasSuffix (s +:+ p) p = true.
Proof.
  unfold HasSuffix. rewrite slen_app. replace (slen s + slen p - slen p)%nat with (slen s) by lia.
  rewrite sdrop_app, bool_decide_true by done. apply andb_true_iff. split; [apply Nat.leb_le; lia|done].
Qed.

Lemma HasSuffix_spec s p : HasSuffix s p = true <-> exists t, s = t +:+ p.
Proof.
  split; [|intros [t ->]; apply HasSuffix_app].
  unfold HasSuffix. rewrite andb_true_iff, bool_decide_eq_true. intros [_ H].
  exists (stake (slen s - slen p) s). rewrite <- H at 2. by rewrite stake_sdrop.
Qed.

Lemma TrimSuffix_app s p : TrimSuffix (s +:+ p) p = s.
Proof.
  unfold TrimSuffix. rewrite HasSuffix_app, slen_app.
  replace (slen s + slen p - slen p)%nat with (slen s) by lia. apply stake_app.
Qed.

Lemma cut_spec c s a b :
  cut c s = Some (a, b) <-> s = a +:+ String c b /\ sall (fun x => bool_decide (x <> c)) a = true.
Proof.
  revert a b; induction s as [|x s IH]; intros a b; simpl.
  - split; [done|]. intros [H _]. by destruct a.
  - case_bool_decide as Hx; [subst x|].
    + split; [intros [= <- <-]; done|].
      intros [H Ha]. destruct a as [|y a]; [by injection H as <-|].
      rewrite sapp_cons in H. injection H as <- _. simpl in Ha.
      by rewrite bool_decide_false in Ha by naive_solver.
    + transitivity (exists a', a = String x a' /\ cut c s = Some (a', b)).
      * destruct (cut c s) as [[u v]|]; split; try naive_solver.
      * split.
        -- intros (a' & -> & [-> Ha]%IH). split; [done|]. simpl.
           by rewrite bool_decide_true.
        -- intros [H Ha]. destruct a as [|y a]; [by injection H as H _|].
           rewrite sapp_cons in H. injection H as <- H. simpl in Ha.
           apply andb_true_iff in Ha as [_ Ha]. exists a. split; [done|]. by apply IH.
Qed.

Lemma cut_None c s : cut c s = None <-> sall (fun x => bool_decide (x <> c)) s = true.
Proof.
  induction s as [|x s IH]; simpl; [done|].
  case_bool_decide as Hx; [subst x|].
  - rewrite bool_decide_false by naive_solver. done.
  - rewrite bool_decide_true by done. simpl. rewrite <- IH.
    destruct (cut c s) as [[]|]; done.
Qed.

Lemma sall_app P s t : sall P (s +:+ t) = sall P s && sall P t.
Proof. induction s as [|c s IH]; [done|]. rewrite sapp_cons. simpl. by rewrite IH, andb_assoc. Qed.

Lemma slen_smap f s : slen (smap f s) = slen s.
Proof. induction s as [|c s IH]; [done|]. unfold slen in *. simpl. by rewrite IH. Qed.

(** ** strconv *)
Definition digit_val (c : ascii) : option Z :=
  let n := code c in
  if (48 <=? n) && (n <=? 57) then Some (n - 48) else None.

Definition digit_char (d : Z) : ascii := ascii_of_N (Z.to_N (d + 48)).

Fixpoint parse_digits (acc : Z) (s : string) : option Z :=
  match s with
  | EmptyString => Some acc
  | String c s' =>
      match digit_val c with
      | Some d => parse_digits (acc * 10 + d) s'
      | None => None
      end
  end.

(** [strconv.ParseInt(s, 10, 64)] ([strconv.Atoi] on a 64-bit platform): [None]
    is its error (no digit, a character that is no digit, or out of range); every
    caller treats its two kinds of error alike. *)
Definition ParseInt (s : string) : option Z :=
  let '(neg, body) :=
    match s with
    | String c r =>
        if bool_decide (c = "-"%char) then (true, r)
        else if bool_decide (c = "+"%char) then (false, r)
        else (false, s)
    | EmptyString => (false, s)
    end in
  match body with
  | EmptyString => None
  | String _ _ =>
      match parse_digits 0 body with
      | None => None
      | Some n => let v := if (neg : bool) then - n else n in
                  if in_int64 v then Some v else None
      end
  end.

(** [strconv.FormatInt(n, 10)], [fmt.Sprint(n)] and the [%d] verb. *)
Fixpoint format_digits (fuel : nat) (n : Z) (acc : string) : string :=
  match fuel with
  | O => acc
  | S f =>
      let acc' := String (digit_char (n mod 10)) acc in
      if n / 10 =? 0 then acc' else format_digits f (n / 10) acc'
  end.

Definition FormatInt (n : Z) : string :=
  let digits m := format_digits (S (Z.to_nat (Z.log2 m))) m EmptyString in
  if n <? 0 then String "-"%char (digits (- n)) else digits n.

Lemma digit_val_char d : 0 <= d < 10 -> digit_val (digit_char d) = Some d.
Proof.
  intros H. unfold digit_val, digit_char, code.
  rewrite N_ascii_embedding by lia. rewrite Z2N.id by lia.
  rewrite (proj2 (Z.leb_le _ _)), (proj2 (Z.leb_le _ _)) by lia. simpl. f_equal. lia.
Qed.

Lemma digit_char_not_sign d : 0 <= d < 10 -> digit_char d <> "-"%char /\ digit_char d <> "+"%char.
Proof.
  intros H. unfold digit_char.
  assert (Z.of_N (N_of_ascii (ascii_of_N (Z.to_N (d + 48)))) = d + 48) as Hc
    by (rewrite N_ascii_embedding by lia; lia).
  split; intros E; rewrite E in Hc; cbn in Hc; lia.
Qed.

Lemma format_digits_shape fuel n acc :
  (0 < fuel)%nat -> 0 <= n ->
  exists d s, format_digits fuel n acc = String (digit_char d) s /\ 0 <= d < 10.
Proof.
  revert n acc; induction fuel as [|f IH]; intros n acc Hf Hn; [lia|]. simpl.
  pose proof (Z.mod_pos_bound n 10 ltac:(lia)).
  destruct (n / 10 =? 0) eqn:E; [eauto|].
  apply Z.eqb_neq in E. destruct f as [|f].
  - simpl. eauto.
  - apply IH; [lia|]. apply Z.div_pos; lia.
Qed.

Lemma parse_format_digits fuel n acc :
  0 <= n < 2 ^ Z.of_nat fuel -> (0 < fuel)%nat ->
  parse_digits 0 (format_digits fuel n acc) = parse_digits n acc.
Proof.
  revert n acc; induction fuel as [|f IH]; intros n acc Hn Hf; [lia|]. simpl format_digits.
  pose proof (Z.mod_pos_bound n 10 ltac:(lia)).
  pose proof (Z.div_mod n 10 ltac:(lia)).
  destruct (n / 10 =? 0) eqn:E.
  - apply Z.eqb_eq in E. simpl. rewrite digit_val_char by done. f_equal. lia.
  - apply Z.eqb_neq in E.
    assert (0 <= n / 10) by (apply Z.div_pos; lia).
    rewrite Nat2Z.inj_succ, Z.pow_succ_r in Hn by lia.
    assert (2 ^ Z.of_nat f > 0) by (apply Z.lt_gt, Z.pow_pos_nonneg; lia).
    destruct f as [|f]; [simpl in Hn; lia|].
    rewrite IH by lia. simpl. rewrite digit_val_char by done. f_equal. lia.
Qed.

Lemma parse_FormatInt_nat n :
  0 <= n -> parse_digits 0 (format_digits (S (Z.to_nat (Z.log2 n))) n EmptyString) = Some n.
Proof.
  intros Hn. rewrite parse_format_digits; [done| |lia]. split; [done|].
  rewrite Nat2Z.inj_succ, Z2Nat.id by apply Z.log2_nonneg.
  destruct (Z.eq_dec n 0) as [->|]; [done|]. apply Z.log2_spec. lia.
Qed.

(** [ParseInt] undoes [FormatInt] on 64-bit integers. *)
Lemma ParseInt_FormatInt n : int64_min <= n <= int64_max -> ParseInt (FormatInt n) = Some n.
Proof.
  intros Hn. pose proof (proj2 (in_int64_spec n) Hn) as Hr. unfold FormatInt.
  destruct (n <? 0) eqn:E.
  - apply Z.ltb_lt in E.
    destruct (format_digits_shape (S (Z.to_nat (Z.log2 (-n)))) (-n) EmptyString)
      as (d & s & Hs & Hd); [lia..|].
    pose proof (parse_FormatInt_nat (-n) ltac:(lia)) as Hp.
    unfold ParseInt. rewrite bool_decide_true by done. rewrite Hs in *.
    rewrite Hp. rewrite Z.opp_involutive, Hr. done.
  - apply Z.ltb_ge in E.
    destruct (format_digits_shape (S (Z.to_nat (Z.log2 n))) n EmptyString)
      as (d & s & Hs & Hd); [lia..|].
    destruct (digit_char_not_sign d Hd).
    pose proof (parse_FormatInt_nat n ltac:(lia)) as Hp. rewrite Hs in *.
    unfold ParseInt. rewrite !bool_decide_false by done.
    rewrite Hp, Hr. done.
Qed.

Lemma parse_digits_nonneg s : forall acc n, 0 <= acc -> parse_digits acc s = Some n -> 0 <= n.
Proof.
  induction s as [|c s IH]; intros acc n Ha; simpl; [by intros [= <-]|].
  unfold digit_val. destruct ((48 <=? code c) && (code c <=? 57)) eqn:E; [|done].
  apply andb_true_iff in E as [E1%Z.leb_le E2%Z.leb_le]. apply IH. lia.
Qed.

Lemma ParseInt_range s n : ParseInt s = Some n -> int64_min <= n <= int64_max.
Proof.
  unfold ParseInt. intros H. repeat case_match; simplify_eq; by apply in_int64_spec.
Qed.

(** A string with no minus sign never parses to a negative integer. *)
Lemma ParseInt_no_minus s n :
  sall (fun c => bool_decide (c <> "-"%char)) s = true -> ParseInt s = Some n -> 0 <= n.
Proof.
  destruct s as [|c s]; [done|]. simpl. intros [Hc _]%andb_true_iff.
  apply bool_decide_eq_true in Hc. unfold ParseInt. rewrite (bool_decide_false (c = _)) by done.
  intros H. repeat case_match; simplify_eq; eapply parse_digits_nonneg; try eassumption; lia.
Qed.

(** ** Hexadecimal ([encoding/hex]) *)
Definition hex_digit (n : Z) : ascii :=
  ascii_of_N (Z.to_N (if n <? 10 then n + 48 else n + 87)).

(** [hex.EncodeToString] on a list of byte values. *)
Fixpoint hex_encode (bs : list Z) : string :=
  match bs with
  | [] => EmptyString
  | b :: bs' => String (hex_digit (b / 16)) (String (hex_digit (b mod 16)) (hex_encode bs'))
  end.

Definition is_hex (c : ascii) : bool :=
  ((48 <=? code c) && (code c <=? 57)) || ((97 <=? code c) && (code c <=? 102))
  || ((65 <=? code c) && (code c <=? 70)).

Definition is_lower_hex (c : ascii) : bool :=
  ((48 <=? code c) && (code c <=? 57)) || ((97 <=? code c) && (code c <=? 102)).

Lemma slen_hex_encode bs : slen (hex_encode bs) = (2 * length bs)%nat.
Proof. induction bs as [|b bs IH]; [done|]. unfold slen in *. simpl. rewrite IH. lia. Qed.

Lemma hex_digit_lower n : 0 <= n < 16 -> is_lower_hex (hex_digit n) = true.
Proof.
  intros H. unfold is_lower_hex, hex_digit, code.
  destruct (n <? 10) eqn:E; [apply Z.ltb_lt in E|apply Z.ltb_ge in E];
    rewrite N_ascii_embedding by lia; rewrite Z2N.id by lia;
    apply orb_true_iff; [left|right]; apply andb_true_iff; rewrite !Z.leb_le; lia.
Qed.

Lemma hex_encode_lower bs :
  Forall (fun b => 0 <= b < 256) bs -> sall is_lower_hex (hex_encode bs) = true.
Proof.
  induction 1 as [|b bs Hb _ IH]; [done|]. simpl.
  pose proof (Z.mod_pos_bound b 16 ltac:(lia)). pose proof (Z.div_mod b 16 ltac:(lia)).
  rewrite !hex_digit_lower by lia. done.
Qed.

Lemma lower_hex_is_hex c : is_lower_hex c = true -> is_hex c = true.
Proof. unfold is_lower_hex, is_hex. intros ->. done. Qed.

Lemma sall_impl (P Q : ascii -> bool) s :
  (forall c, P c = true -> Q c = true) -> sall P s = true -> sall Q s = true.
Proof.
  intros HPQ. induction s as [|c s IH]; simpl; [done|].
  rewrite !andb_true_iff. naive_solver.
Qed.

Lemma lower_hex_ToLower s : sall is_lower_hex s = true -> ToLower s = s.
Proof.
  induction s as [|c s IH]; [done|]. simpl. intros [Hc Hs]%andb_true_iff.
  unfold ToLower in *. simpl. rewrite (IH Hs). f_equal.
  unfold is_lower_hex in Hc. unfold lower_ascii.
  destruct ((65 <=? code c) && (code c <=? 90)) eqn:E; [|done].
  apply andb_true_iff in E as [E1%Z.leb_le E2%Z.leb_le].
  apply orb_true_iff in Hc as [Hc|Hc]; apply andb_true_iff in Hc as [H1%Z.leb_le H2%Z.leb_le]; lia.
Qed.

(** ** [strings.TrimSpace] *)
Definition utf8 (l : list nat) : string := foldr (fun n s => String (ascii_of_nat n) s) "" l.

(** Unicode's White_Space. *)
Definition spaces : list string := map utf8
  ([[9]; [10]; [11]; [12]; [13]; [32]; [194; 133]; [194; 160]; [225; 154; 128]] ++
   map (fun n => [226; 128; n]) (seq 128 11) ++
   [[226; 128; 168]; [226; 128; 169]; [226; 128; 175]; [226; 129; 159]; [227; 128; 128]])%nat.

Fixpoint TrimLeft (fuel : nat) (s : string) : string :=
  match fuel, List.find (HasPrefix s) spaces with
  | S fuel', Some w => TrimLeft fuel' (TrimPrefix s w)
  | _, _ => s
  end.
Fixpoint TrimRight (fuel : nat) (s : string) : string :=
  match fuel, List.find (HasSuffix s) spaces with
  | S fuel', Some w => TrimRight fuel' (TrimSuffix s w)
  | _, _ => s
  end.
Definition TrimSpace (s : string) : string := let s := TrimLeft (slen s) s in TrimRight (slen s) s.
