(* ===== verification/Json.v ===== *)
(** JSON values and Go's [encoding/json] on them, as far as the program uses it:
    structs with string, int64, bool, raw, map and slice fields, [omitempty],
    unknown keys ignored, missing keys left at their zero value, [null] a no-op on
    a scalar, a kind mismatch an error, and keys matched without regard to (ASCII)
    case.  A document is its tree: the byte syntax of JSON is not modelled, so a
    string here is a Go string that is valid UTF-8. *)
From S2P Require Import Prelude GoStrings.
From Stdlib Require Import Ascii.
Local Open Scope Z_scope.

Inductive json : Type :=
| JNull
| JBool (b : bool)
| JNum (n : Z)                 (* an integer literal *)
| JReal (literal : string)     (* a literal with a fraction or an exponent *)
| JStr (s : string)
| JArr (l : list json)
| JObj (ms : list (string * json)).

(** The key of a member selects a struct field when the names agree up to case. *)
Definition key_eq (name key : string) : bool := bool_decide (ToLower name = ToLower key).

(** One field of a Go struct of type [A]: [f_enc] gives its encoding, or [None]
    when [omitempty] leaves it out; [f_dec] stores a decoded value. *)
Record field (A : Type) : Type := Field {
  f_name : string;
  f_enc : A -> option json;
  f_dec : json -> A -> option A
}.
Arguments Field {A} _ _ _.
Arguments f_name {A} _.
Arguments f_enc {A} _ _.
Arguments f_dec {A} _ _ _.

Section Fields.
Context {A : Type} (name : string).

Definition dec_str (set : string -> A -> A) (j : json) (a : A) : option A :=
  match j with JStr s => Some (set s a) | JNull => Some a | _ => None end.
Definition dec_int (set : Z -> A -> A) (j : json) (a : A) : option A :=
  match j with
  | JNum n => if in_int64 n then Some (set n a) else None
  | JNull => Some a
  | _ => None
  end.
Definition dec_bool (set : bool -> A -> A) (j : json) (a : A) : option A :=
  match j with JBool b => Some (set b a) | JNull => Some a | _ => None end.

Definition fstr (get : A -> string) (set : string -> A -> A) : field A :=
  Field name (fun a => Some (JStr (get a))) (dec_str set).
Definition fstr_omit (get : A -> string) (set : string -> A -> A) : field A :=
  Field name (fun a => if bool_decide (get a = "") then None else Some (JStr (get a))) (dec_str set).
Definition fint (get : A -> Z) (set : Z -> A -> A) : field A :=
  Field name (fun a => Some (JNum (get a))) (dec_int set).
Definition fint_omit (get : A -> Z) (set : Z -> A -> A) : field A :=
  Field name (fun a => if get a =? 0 then None else Some (JNum (get a))) (dec_int set).
Definition fbool (get : A -> bool) (set : bool -> A -> A) : field A :=
  Field name (fun a => Some (JBool (get a))) (dec_bool set).
Definition fbool_omit (get : A -> bool) (set : bool -> A -> A) : field A :=
  Field name (fun a => if get a then Some (JBool true) else None) (dec_bool set).

(** A [json.RawMessage] with [omitempty]: any value is kept as it is, [null]
    included. *)
Definition fraw_omit (get : A -> option json) (set : option json -> A -> A) : field A :=
  Field name get (fun j a => Some (set (Some j) a)).
End Fields.

(** Structs. *)
Section Struct.
Context {A : Type} (fs : list (field A)) (zero : A).

Definition enc_struct (a : A) : json :=
  JObj (omap (fun f => (fun j => (f_name f, j)) <$> f_enc f a) fs).

Fixpoint find_field (k : string) (l : list (field A)) : option (field A) :=
  match l with
  | [] => None
  | f :: l' => if key_eq (f_name f) k then Some f else find_field k l'
  end.

Fixpoint dec_members (ms : list (string * json)) (a : A) : option A :=
  match ms with
  | [] => Some a
  | (k, j) :: ms' =>
      match find_field k fs with
      | Some f => match f_dec f j a with Some a' => dec_members ms' a' | None => None end
      | None => dec_members ms' a
      end
  end.

Definition dec_struct (j : json) : option A :=
  match j with
  | JNull => Some zero
  | JObj ms => dec_members ms zero
  | _ => None
  end.
End Struct.

(** A Go type with its JSON encoding.  The law is what the program relies on when
    one side marshals and the other unmarshals. *)
Class JsonCodec (A : Type) := {
  encode_json : A -> json;
  decode_json : json -> option A;
  json_wf : A -> Prop;
  decode_encode_json : forall a, json_wf a -> decode_json (encode_json a) = Some a
}.
#[export] Hint Mode JsonCodec ! : typeclass_instances.

(** Slices: a nil slice is [null], an empty one is an empty array. *)
Section Slices.
Context {A : Type} `{!JsonCodec A}.

Definition slice : Type := option (list A).

Definition enc_slice (s : slice) : json :=
  match s with None => JNull | Some l => JArr (encode_json <$> l) end.

Definition dec_slice (j : json) : option slice :=
  match j with
  | JNull => Some None
  | JArr l => Some <$> mapM decode_json l
  | _ => None
  end.

Lemma dec_enc_slice s :
  (forall l, s = Some l -> Forall json_wf l) -> dec_slice (enc_slice s) = Some s.
Proof.
  destruct s as [l|]; [|done]. intros H. specialize (H l eq_refl). simpl.
  enough (mapM decode_json (encode_json <$> l) = Some l) as -> by done.
  induction H as [|a l Ha _ IH]; [done|].
  cbn. rewrite decode_encode_json by done. cbn in IH. by rewrite IH.
Qed.
End Slices.
Arguments slice : clear implicits.

(** [map[string]string]: the keys are written in increasing byte order. *)
Definition enc_strmap (m : gmap string string) : json :=
  JObj ((fun '(k, v) => (k, JStr v)) <$> merge_sort (by_key String.le fst) (map_to_list m)).

Fixpoint dec_strmap_members (ms : list (string * json)) (m : gmap string string)
  : option (gmap string string) :=
  match ms with
  | [] => Some m
  | (k, JStr v) :: ms' => dec_strmap_members ms' (<[k := v]> m)
  | (k, JNull) :: ms' => dec_strmap_members ms' (<[k := ""]> m)
  | _ :: _ => None
  end.

Definition dec_strmap (j : json) : option (gmap string string) :=
  match j with
  | JNull => Some ∅
  | JObj ms => dec_strmap_members ms ∅
  | _ => None
  end.

Lemma dec_strmap_members_spec (l : list (string * string)) m :
  NoDup l.*1 ->
  dec_strmap_members ((fun '(k, v) => (k, JStr v)) <$> l) m = Some (list_to_map l ∪ m).
Proof.
  revert m; induction l as [|[k v] l IH]; intros m Hnd; simpl.
  - by rewrite map_empty_union.
  - apply NoDup_cons in Hnd as [Hk Hnd]. cbn in IH. rewrite IH by done. f_equal.
    rewrite <- insert_union_l, insert_union_r; [done|].
    by apply not_elem_of_list_to_map.
Qed.

Lemma dec_enc_strmap m : dec_strmap (enc_strmap m) = Some m.
Proof.
  unfold enc_strmap. cbn [dec_strmap].
  pose proof (merge_sort_Permutation (by_key String.le fst) (map_to_list m)) as Hp.
  rewrite dec_strmap_members_spec.
  - rewrite map_union_empty. f_equal.
    rewrite (list_to_map_proper _ (map_to_list m)); [apply list_to_map_to_list| |done].
    rewrite Hp. apply NoDup_fst_map_to_list.
  - rewrite Hp. apply NoDup_fst_map_to_list.
Qed.

(** ** Text

    The bytes [json.Marshal] writes for a value (strings are valid UTF-8; [<], [>]
    and [&] are escaped as Go does by default). *)
Definition dquote : string := String (ascii_of_nat 34) EmptyString.

Definition escape_char (c : ascii) : string :=
  let n := code c in
  if n =? 34 then "\" +:+ dquote
  else if n =? 92 then "\\"
  else if n =? 8 then "\b"
  else if n =? 12 then "\f"
  else if n =? 10 then "\n"
  else if n =? 13 then "\r"
  else if n =? 9 then "\t"
  else if (n <? 32) || (n =? 60) || (n =? 62) || (n =? 38)
  then "\u00" +:+ hex_encode [n]
  else String c EmptyString.

Fixpoint escape (s : string) : string :=
  match s with
  | EmptyString => EmptyString
  | String c s' => escape_char c +:+ escape s'
  end.

Definition str_text (s : string) : string := dquote +:+ escape s +:+ dquote.

(** [strconv.Quote] and the [%q] verb (a byte above 0x7e is taken for a part of a
    printable rune, except DEL). *)
Definition quote_char (c : ascii) : string :=
  let n := code c in
  if n =? 34 then "\" +:+ dquote
  else if n =? 92 then "\\"
  else if n =? 7 then "\a"
  else if n =? 8 then "\b"
  else if n =? 12 then "\f"
  else if n =? 10 then "\n"
  else if n =? 13 then "\r"
  else if n =? 9 then "\t"
  else if n =? 11 then "\v"
  else if (n <? 32) || (n =? 127) then "\x" +:+ hex_encode [n]
  else String c EmptyString.

Fixpoint quote_body (s : string) : string :=
  match s with
  | EmptyString => EmptyString
  | String c s' => quote_char c +:+ quote_body s'
  end.

Definition Quote (s : string) : string := dquote +:+ quote_body s +:+ dquote.

(** The text of a failed [strconv.ParseInt(s, 10, 64)]. *)
Definition ParseInt_error (s : string) : error :=
  let digits := match s with
                | String c r => if bool_decide (c = "-"%char) || bool_decide (c = "+"%char) then r else s
                | EmptyString => s
                end in
  let why := match digits with
             | EmptyString => "invalid syntax"
             | _ => match parse_digits 0 digits with
                    | None => "invalid syntax"
                    | Some _ => "value out of range"
                    end
             end in
  Errorf ("strconv.ParseInt: parsing " +:+ Quote s +:+ ": " +:+ why).

Fixpoint sjoin (sep : string) (l : list string) : string :=
  match l with
  | [] => EmptyString
  | [x] => x
  | x :: l' => x +:+ sep +:+ sjoin sep l'
  end.

Fixpoint json_text (j : json) : string :=
  match j with
  | JNull => "null"
  | JBool true => "true"
  | JBool false => "false"
  | JNum n => FormatInt n
  | JReal s => s
  | JStr s => str_text s
  | JArr l => "[" +:+ sjoin "," (map json_text l) +:+ "]"
  | JObj ms => "{" +:+ sjoin "," (map (fun '(k, v) => str_text k +:+ ":" +:+ json_text v) ms) +:+ "}"
  end.
