(* ===== verification/Proto.v ===== *)
(** internal/proto: the message types of the WebSocket protocol (messages.go), the
    envelope and its marshalling (codec.go, version.go).

    Every message is a record with the struct's fields, its JSON form given by the
    struct tags ([<name>_fields]); [JsonCodec] instances carry the proof that
    unmarshalling a marshalled message gives it back.  A [json.RawMessage] payload
    is [option json]: [None] is the empty message. *)
From S2P Require Import Prelude GoStrings Json.
Local Open Scope Z_scope.

Definition ProtoVersion : string := "1".

Definition TypeRegisterRequest   : string := "register_request".
Definition TypeRegisterResponse  : string := "register_response".
Definition TypeSubscribePair     : string := "subscribe_pair".
Definition TypeSubscribePairAck  : string := "subscribe_pair_ack".
Definition TypeFileChangedEvent  : string := "file_changed_event".
Definition TypeFileSyncCommand   : string := "file_sync_command".
Definition TypeFileSyncAck       : string := "file_sync_ack".
Definition TypeListDirRequest    : string := "list_dir_request".
Definition TypeListDirResponse   : string := "list_dir_response".
Definition TypeListFilesRequest  : string := "list_files_request".
Definition TypeListFilesResponse : string := "list_files_response".
Definition TypePing              : string := "ping".
Definition TypePong              : string := "pong".

(** Proves that decoding an encoded struct gives it back: the record is opened, each
    [omitempty] test decided, and the members decoded one by one. *)
Ltac codec_step :=
  match goal with
  | |- context [key_eq ?a ?b] =>
      let v := eval vm_compute in (key_eq a b) in change (key_eq a b) with v
  | |- context [bool_decide (?x = "")] => destruct (bool_decide_reflect (x = "")); subst
  | |- context [bool_decide (?x = ∅)] => destruct (bool_decide_reflect (x = ∅)); subst
  | |- context [?x =? 0] => destruct (Z.eqb_spec x 0); subst
  | |- context [if ?b then None else _] => destruct b
  | |- context [if ?b then Some _ else None] => is_var b; destruct b
  | H : in_int64 ?x = true |- context [in_int64 ?x] => rewrite H
  | H : forall l, ?s = Some l -> _ |- context [dec_slice (enc_slice ?s)] =>
      erewrite (dec_enc_slice s) by exact H
  | |- context [dec_strmap (enc_strmap ?m)] => rewrite (dec_enc_strmap m)
  end.

Ltac codec_tac :=
  let m := fresh "m" in let Hwf := fresh "Hwf" in
  intros m Hwf; destruct m; cbn in Hwf; destruct_and?;
  cbn -[in_int64 enc_slice dec_slice enc_strmap dec_strmap Z.eqb];
  repeat (codec_step; cbn -[in_int64 enc_slice dec_slice enc_strmap dec_strmap Z.eqb]);
  reflexivity.

(** ** [RegisterRequest] *)
Record RegisterRequest : Type := MkRegisterRequest {
  rr_ClientID : string;
  rr_Hostname : string;
  rr_RootPath : string;
  rr_Version : string;
  rr_ProtoVersion : string
}.
#[export] Instance RegisterRequest_eq_dec : EqDecision RegisterRequest.
Proof. solve_decision. Defined.
Definition RegisterRequest_fields : list (field RegisterRequest) := [
  fstr "client_id" rr_ClientID (fun x m => MkRegisterRequest x (rr_Hostname m) (rr_RootPath m) (rr_Version m) (rr_ProtoVersion m));
  fstr "hostname" rr_Hostname (fun x m => MkRegisterRequest (rr_ClientID m) x (rr_RootPath m) (rr_Version m) (rr_ProtoVersion m));
  fstr "root_path" rr_RootPath (fun x m => MkRegisterRequest (rr_ClientID m) (rr_Hostname m) x (rr_Version m) (rr_ProtoVersion m));
  fstr "version" rr_Version (fun x m => MkRegisterRequest (rr_ClientID m) (rr_Hostname m) (rr_RootPath m) x (rr_ProtoVersion m));
  fstr "proto_version" rr_ProtoVersion (fun x m => MkRegisterRequest (rr_ClientID m) (rr_Hostname m) (rr_RootPath m) (rr_Version m) x)
].
Definition RegisterRequest_zero : RegisterRequest := MkRegisterRequest "" "" "" "" "".
#[export, program] Instance RegisterRequest_codec : JsonCodec RegisterRequest := {|
  encode_json := enc_struct RegisterRequest_fields;
  decode_json := dec_struct RegisterRequest_fields RegisterRequest_zero;
  json_wf m := True
|}.
Next Obligation. codec_tac. Qed.

(** ** [RegisterResponse] *)
Record RegisterResponse : Type := MkRegisterResponse {
  rs_OK : bool;
  rs_ServerTime : Z;
  rs_Settings : gmap string string;
  rs_Reason : string
}.
#[export] Instance RegisterResponse_eq_dec : EqDecision RegisterResponse.
Proof. solve_decision. Defined.
Definition RegisterResponse_fields : list (field RegisterResponse) := [
  fbool "ok" rs_OK (fun x m => MkRegisterResponse x (rs_ServerTime m) (rs_Settings m) (rs_Reason m));
  fint "server_time" rs_ServerTime (fun x m => MkRegisterResponse (rs_OK m) x (rs_Settings m) (rs_Reason m));
  Field "settings" (fun m => if bool_decide (rs_Settings m = ∅) then None else Some (enc_strmap (rs_Settings m)))
    (fun j m => (fun x => (fun x m => MkRegisterResponse (rs_OK m) (rs_ServerTime m) x (rs_Reason m)) x m) <$> dec_strmap j);
  fstr_omit "reason" rs_Reason (fun x m => MkRegisterResponse (rs_OK m) (rs_ServerTime m) (rs_Settings m) x)
].
Definition RegisterResponse_zero : RegisterResponse := MkRegisterResponse false 0 ∅ "".
#[export, program] Instance RegisterResponse_codec : JsonCodec RegisterResponse := {|
  encode_json := enc_struct RegisterResponse_fields;
  decode_json := dec_struct RegisterResponse_fields RegisterResponse_zero;
  json_wf m := in_int64 (rs_ServerTime m) = true
|}.
Next Obligation. codec_tac. Qed.

(** ** [SubscribePair] *)
Record SubscribePair : Type := MkSubscribePair {
  sp_PairID : string;
  sp_Side : string;
  sp_RootSubpath : string;
  sp_Direction : string
}.
#[export] Instance SubscribePair_eq_dec : EqDecision SubscribePair.
Proof. solve_decision. Defined.
Definition SubscribePair_fields : list (field SubscribePair) := [
  fstr "pair_id" sp_PairID (fun x m => MkSubscribePair x (sp_Side m) (sp_RootSubpath m) (sp_Direction m));
  fstr "side" sp_Side (fun x m => MkSubscribePair (sp_PairID m) x (sp_RootSubpath m) (sp_Direction m));
  fstr "root_subpath" sp_RootSubpath (fun x m => MkSubscribePair (sp_PairID m) (sp_Side m) x (sp_Direction m));
  fstr "direction" sp_Direction (fun x m => MkSubscribePair (sp_PairID m) (sp_Side m) (sp_RootSubpath m) x)
].
Definition SubscribePair_zero : SubscribePair := MkSubscribePair "" "" "" "".
#[export, program] Instance SubscribePair_codec : JsonCodec SubscribePair := {|
  encode_json := enc_struct SubscribePair_fields;
  decode_json := dec_struct SubscribePair_fields SubscribePair_zero;
  json_wf m := True
|}.
Next Obligation. codec_tac. Qed.

(** ** [SubscribePairAck] *)
Record SubscribePairAck : Type := MkSubscribePairAck {
  spa_PairID : string;
  spa_OK : bool;
  spa_Reason : string
}.
#[export] Instance SubscribePairAck_eq_dec : EqDecision SubscribePairAck.
Proof. solve_decision. Defined.
Definition SubscribePairAck_fields : list (field SubscribePairAck) := [
  fstr "pair_id" spa_PairID (fun x m => MkSubscribePairAck x (spa_OK m) (spa_Reason m));
  fbool "ok" spa_OK (fun x m => MkSubscribePairAck (spa_PairID m) x (spa_Reason m));
  fstr_omit "reason" spa_Reason (fun x m => MkSubscribePairAck (spa_PairID m) (spa_OK m) x)
].
Definition SubscribePairAck_zero : SubscribePairAck := MkSubscribePairAck "" false "".
#[export, program] Instance SubscribePairAck_codec : JsonCodec SubscribePairAck := {|
  encode_json := enc_struct SubscribePairAck_fields;
  decode_json := dec_struct SubscribePairAck_fields SubscribePairAck_zero;
  json_wf m := True
|}.
Next Obligation. codec_tac. Qed.

(** ** [FileChangedEvent] *)
Record FileChangedEvent : Type := MkFileChangedEvent {
  ev_PairID : string;
  ev_Side : string;
  ev_RelPath : string;
  ev_SHA256 : string;
  ev_Size : Z;
  ev_ModTime : Z;
  ev_Op : string;
  ev_IsDir : bool
}.
#[export] Instance FileChangedEvent_eq_dec : EqDecision FileChangedEvent.
Proof. solve_decision. Defined.
Definition FileChangedEvent_fields : list (field FileChangedEvent) := [
  fstr "pair_id" ev_PairID (fun x m => MkFileChangedEvent x (ev_Side m) (ev_RelPath m) (ev_SHA256 m) (ev_Size m) (ev_ModTime m) (ev_Op m) (ev_IsDir m));
  fstr "side" ev_Side (fun x m => MkFileChangedEvent (ev_PairID m) x (ev_RelPath m) (ev_SHA256 m) (ev_Size m) (ev_ModTime m) (ev_Op m) (ev_IsDir m));
  fstr "rel_path" ev_RelPath (fun x m => MkFileChangedEvent (ev_PairID m) (ev_Side m) x (ev_SHA256 m) (ev_Size m) (ev_ModTime m) (ev_Op m) (ev_IsDir m));
  fstr_omit "sha256" ev_SHA256 (fun x m => MkFileChangedEvent (ev_PairID m) (ev_Side m) (ev_RelPath m) x (ev_Size m) (ev_ModTime m) (ev_Op m) (ev_IsDir m));
  fint_omit "size" ev_Size (fun x m => MkFileChangedEvent (ev_PairID m) (ev_Side m) (ev_RelPath m) (ev_SHA256 m) x (ev_ModTime m) (ev_Op m) (ev_IsDir m));
  fint "mod_time" ev_ModTime (fun x m => MkFileChangedEvent (ev_PairID m) (ev_Side m) (ev_RelPath m) (ev_SHA256 m) (ev_Size m) x (ev_Op m) (ev_IsDir m));
  fstr "op" ev_Op (fun x m => MkFileChangedEvent (ev_PairID m) (ev_Side m) (ev_RelPath m) (ev_SHA256 m) (ev_Size m) (ev_ModTime m) x (ev_IsDir m));
  fbool_omit "is_dir" ev_IsDir (fun x m => MkFileChangedEvent (ev_PairID m) (ev_Side m) (ev_RelPath m) (ev_SHA256 m) (ev_Size m) (ev_ModTime m) (ev_Op m) x)
].
Definition FileChangedEvent_zero : FileChangedEvent := MkFileChangedEvent "" "" "" "" 0 0 "" false.
#[export, program] Instance FileChangedEvent_codec : JsonCodec FileChangedEvent := {|
  encode_json := enc_struct FileChangedEvent_fields;
  decode_json := dec_struct FileChangedEvent_fields FileChangedEvent_zero;
  json_wf m := in_int64 (ev_Size m) = true /\ in_int64 (ev_ModTime m) = true
|}.
Next Obligation. codec_tac. Qed.

(** ** [FileSyncCommand] *)
Record FileSyncCommand : Type := MkFileSyncCommand {
  cmd_PairID : string;
  cmd_Side : string;
  cmd_RelPath : string;
  cmd_SHA256 : string;
  cmd_Op : string;
  cmd_NewRelPath : string;
  cmd_OriginatorClientID : string
}.
#[export] Instance FileSyncCommand_eq_dec : EqDecision FileSyncCommand.
Proof. solve_decision. Defined.
Definition FileSyncCommand_fields : list (field FileSyncCommand) := [
  fstr "pair_id" cmd_PairID (fun x m => MkFileSyncCommand x (cmd_Side m) (cmd_RelPath m) (cmd_SHA256 m) (cmd_Op m) (cmd_NewRelPath m) (cmd_OriginatorClientID m));
  fstr "side" cmd_Side (fun x m => MkFileSyncCommand (cmd_PairID m) x (cmd_RelPath m) (cmd_SHA256 m) (cmd_Op m) (cmd_NewRelPath m) (cmd_OriginatorClientID m));
  fstr "rel_path" cmd_RelPath (fun x m => MkFileSyncCommand (cmd_PairID m) (cmd_Side m) x (cmd_SHA256 m) (cmd_Op m) (cmd_NewRelPath m) (cmd_OriginatorClientID m));
  fstr_omit "sha256" cmd_SHA256 (fun x m => MkFileSyncCommand (cmd_PairID m) (cmd_Side m) (cmd_RelPath m) x (cmd_Op m) (cmd_NewRelPath m) (cmd_OriginatorClientID m));
  fstr "op" cmd_Op (fun x m => MkFileSyncCommand (cmd_PairID m) (cmd_Side m) (cmd_RelPath m) (cmd_SHA256 m) x (cmd_NewRelPath m) (cmd_OriginatorClientID m));
  fstr_omit "new_rel_path" cmd_NewRelPath (fun x m => MkFileSyncCommand (cmd_PairID m) (cmd_Side m) (cmd_RelPath m) (cmd_SHA256 m) (cmd_Op m) x (cmd_OriginatorClientID m));
  fstr "originator_client_id" cmd_OriginatorClientID (fun x m => MkFileSyncCommand (cmd_PairID m) (cmd_Side m) (cmd_RelPath m) (cmd_SHA256 m) (cmd_Op m) (cmd_NewRelPath m) x)
].
Definition FileSyncCommand_zero : FileSyncCommand := MkFileSyncCommand "" "" "" "" "" "" "".
#[export, program] Instance FileSyncCommand_codec : JsonCodec FileSyncCommand := {|
  encode_json := enc_struct FileSyncCommand_fields;
  decode_json := dec_struct FileSyncCommand_fields FileSyncCommand_zero;
  json_wf m := True
|}.
Next Obligation. codec_tac. Qed.

(** ** [FileSyncAck] *)
Record FileSyncAck : Type := MkFileSyncAck {
  ack_PairID : string;
  ack_Side : string;
  ack_RelPath : string;
  ack_SHA256 : string;
  ack_Status : string;
  ack_Error : string
}.
#[export] Instance FileSyncAck_eq_dec : EqDecision FileSyncAck.
Proof. solve_decision. Defined.
Definition FileSyncAck_fields : list (field FileSyncAck) := [
  fstr "pair_id" ack_PairID (fun x m => MkFileSyncAck x (ack_Side m) (ack_RelPath m) (ack_SHA256 m) (ack_Status m) (ack_Error m));
  fstr "side" ack_Side (fun x m => MkFileSyncAck (ack_PairID m) x (ack_RelPath m) (ack_SHA256 m) (ack_Status m) (ack_Error m));
  fstr "rel_path" ack_RelPath (fun x m => MkFileSyncAck (ack_PairID m) (ack_Side m) x (ack_SHA256 m) (ack_Status m) (ack_Error m));
  fstr_omit "sha256" ack_SHA256 (fun x m => MkFileSyncAck (ack_PairID m) (ack_Side m) (ack_RelPath m) x (ack_Status m) (ack_Error m));
  fstr "status" ack_Status (fun x m => MkFileSyncAck (ack_PairID m) (ack_Side m) (ack_RelPath m) (ack_SHA256 m) x (ack_Error m));
  fstr_omit "error" ack_Error (fun x m => MkFileSyncAck (ack_PairID m) (ack_Side m) (ack_RelPath m) (ack_SHA256 m) (ack_Status m) x)
].
Definition FileSyncAck_zero : FileSyncAck := MkFileSyncAck "" "" "" "" "" "".
#[export, program] Instance FileSyncAck_codec : JsonCodec FileSyncAck := {|
  encode_json := enc_struct FileSyncAck_fields;
  decode_json := dec_struct FileSyncAck_fields FileSyncAck_zero;
  json_wf m := True
|}.
Next Obligation. codec_tac. Qed.

(** ** [ListDirRequest] *)
Record ListDirRequest : Type := MkListDirRequest {
  ldq_RelPath : string
}.
#[export] Instance ListDirRequest_eq_dec : EqDecision ListDirRequest.
Proof. solve_decision. Defined.
Definition ListDirRequest_fields : list (field ListDirRequest) := [
  fstr "rel_path" ldq_RelPath (fun x _ => MkListDirRequest x)
].
Definition ListDirRequest_zero : ListDirRequest := MkListDirRequest "".
#[export, program] Instance ListDirRequest_codec : JsonCodec ListDirRequest := {|
  encode_json := enc_struct ListDirRequest_fields;
  decode_json := dec_struct ListDirRequest_fields ListDirRequest_zero;
  json_wf m := True
|}.
Next Obligation. codec_tac. Qed.

(** ** [DirEntry] *)
Record DirEntry : Type := MkDirEntry {
  de_Name : string;
  de_IsDir : bool;
  de_Size : Z;
  de_ModTime : Z
}.
#[export] Instance DirEntry_eq_dec : EqDecision DirEntry.
Proof. solve_decision. Defined.
Definition DirEntry_fields : list (field DirEntry) := [
  fstr "name" de_Name (fun x m => MkDirEntry x (de_IsDir m) (de_Size m) (de_ModTime m));
  fbool "is_dir" de_IsDir (fun x m => MkDirEntry (de_Name m) x (de_Size m) (de_ModTime m));
  fint_omit "size" de_Size (fun x m => MkDirEntry (de_Name m) (de_IsDir m) x (de_ModTime m));
  fint_omit "mod_time" de_ModTime (fun x m => MkDirEntry (de_Name m) (de_IsDir m) (de_Size m) x)
].
Definition DirEntry_zero : DirEntry := MkDirEntry "" false 0 0.
#[export, program] Instance DirEntry_codec : JsonCodec DirEntry := {|
  encode_json := enc_struct DirEntry_fields;
  decode_json := dec_struct DirEntry_fields DirEntry_zero;
  json_wf m := in_int64 (de_Size m) = true /\ in_int64 (de_ModTime m) = true
|}.
Next Obligation. codec_tac. Qed.

(** ** [ListDirResponse] *)
Record ListDirResponse : Type := MkListDirResponse {
  ldr_Entries : slice DirEntry;
  ldr_Error : string
}.
#[export] Instance ListDirResponse_eq_dec : EqDecision ListDirResponse.
Proof. solve_decision. Defined.
Definition ListDirResponse_fields : list (field ListDirResponse) := [
  Field "entries" (fun m => Some (enc_slice (ldr_Entries m)))
    (fun j m => (fun x => (fun x m => MkListDirResponse x (ldr_Error m)) x m) <$> dec_slice j);
  fstr_omit "error" ldr_Error (fun x m => MkListDirResponse (ldr_Entries m) x)
].
Definition ListDirResponse_zero : ListDirResponse := MkListDirResponse None "".
#[export, program] Instance ListDirResponse_codec : JsonCodec ListDirResponse := {|
  encode_json := enc_struct ListDirResponse_fields;
  decode_json := dec_struct ListDirResponse_fields ListDirResponse_zero;
  json_wf m := (forall l, ldr_Entries m = Some l -> Forall json_wf l)
|}.
Next Obligation. codec_tac. Qed.

(** ** [ListFilesRequest] *)
Record ListFilesRequest : Type := MkListFilesRequest {
  lfq_PairID : string;
  lfq_Side : string
}.
#[export] Instance ListFilesRequest_eq_dec : EqDecision ListFilesRequest.
Proof. solve_decision. Defined.
Definition ListFilesRequest_fields : list (field ListFilesRequest) := [
  fstr "pair_id" lfq_PairID (fun x m => MkListFilesRequest x (lfq_Side m));
  fstr "side" lfq_Side (fun x m => MkListFilesRequest (lfq_PairID m) x)
].
Definition ListFilesRequest_zero : ListFilesRequest := MkListFilesRequest "" "".
#[export, program] Instance ListFilesRequest_codec : JsonCodec ListFilesRequest := {|
  encode_json := enc_struct ListFilesRequest_fields;
  decode_json := dec_struct ListFilesRequest_fields ListFilesRequest_zero;
  json_wf m := True
|}.
Next Obligation. codec_tac. Qed.

(** ** [FileSnapshot] *)
Record FileSnapshot : Type := MkFileSnapshot {
  snap_RelPath : string;
  snap_SHA256 : string;
  snap_Size : Z;
  snap_ModTime : Z;
  snap_IsDir : bool
}.
#[export] Instance FileSnapshot_eq_dec : EqDecision FileSnapshot.
Proof. solve_decision. Defined.
Definition FileSnapshot_fields : list (field FileSnapshot) := [
  fstr "rel_path" snap_RelPath (fun x m => MkFileSnapshot x (snap_SHA256 m) (snap_Size m) (snap_ModTime m) (snap_IsDir m));
  fstr_omit "sha256" snap_SHA256 (fun x m => MkFileSnapshot (snap_RelPath m) x (snap_Size m) (snap_ModTime m) (snap_IsDir m));
  fint_omit "size" snap_Size (fun x m => MkFileSnapshot (snap_RelPath m) (snap_SHA256 m) x (snap_ModTime m) (snap_IsDir m));
  fint "mod_time" snap_ModTime (fun x m => MkFileSnapshot (snap_RelPath m) (snap_SHA256 m) (snap_Size m) x (snap_IsDir m));
  fbool_omit "is_dir" snap_IsDir (fun x m => MkFileSnapshot (snap_RelPath m) (snap_SHA256 m) (snap_Size m) (snap_ModTime m) x)
].
Definition FileSnapshot_zero : FileSnapshot := MkFileSnapshot "" "" 0 0 false.
#[export, program] Instance FileSnapshot_codec : JsonCodec FileSnapshot := {|
  encode_json := enc_struct FileSnapshot_fields;
  decode_json := dec_struct FileSnapshot_fields FileSnapshot_zero;
  json_wf m := in_int64 (snap_Size m) = true /\ in_int64 (snap_ModTime m) = true
|}.
Next Obligation. codec_tac. Qed.

(** ** [ListFilesResponse] *)
Record ListFilesResponse : Type := MkListFilesResponse {
  lfr_Entries : slice FileSnapshot
}.
#[export] Instance ListFilesResponse_eq_dec : EqDecision ListFilesResponse.
Proof. solve_decision. Defined.
Definition ListFilesResponse_fields : list (field ListFilesResponse) := [
  Field "entries" (fun m => Some (enc_slice (lfr_Entries m)))
    (fun j m => (fun x => (fun x _ => MkListFilesResponse x) x m) <$> dec_slice j)
].
Definition ListFilesResponse_zero : ListFilesResponse := MkListFilesResponse None.
#[export, program] Instance ListFilesResponse_codec : JsonCodec ListFilesResponse := {|
  encode_json := enc_struct ListFilesResponse_fields;
  decode_json := dec_struct ListFilesResponse_fields ListFilesResponse_zero;
  json_wf m := (forall l, lfr_Entries m = Some l -> Forall json_wf l)
|}.
Next Obligation. codec_tac. Qed.
(** ** Payloads *)
Definition RawMessage : Type := option json.

(** [MarshalPayload]: the program's message types always marshal. *)
Definition MarshalPayload {A} `{!JsonCodec A} (v : A) : result RawMessage :=
  Ok (Some (encode_json v)).

Definition UnmarshalPayload {A} `{!JsonCodec A} (raw : RawMessage) : result A :=
  match raw with
  | None => Err (Errorf "unexpected end of JSON input")
  | Some j => match decode_json j with
              | Some a => Ok a
              | None => Err (Errorf "json: cannot unmarshal")
              end
  end.

(** ** [Envelope] *)
Record Envelope : Type := MkEnvelope {
  env_Type : string;
  env_CorrelationID : string;
  env_Payload : RawMessage
}.

Definition Envelope_fields : list (field Envelope) := [
  fstr "type" env_Type (fun x e => MkEnvelope x (env_CorrelationID e) (env_Payload e));
  fstr_omit "correlation_id" env_CorrelationID
    (fun x e => MkEnvelope (env_Type e) x (env_Payload e));
  fraw_omit "payload" env_Payload
    (fun x e => MkEnvelope (env_Type e) (env_CorrelationID e) x)
].

Definition Envelope_zero : Envelope := MkEnvelope "" "" None.

#[export, program] Instance Envelope_codec : JsonCodec Envelope := {|
  encode_json := enc_struct Envelope_fields;
  decode_json := dec_struct Envelope_fields Envelope_zero;
  json_wf _ := True
|}.
Next Obligation.
  intros [t c [p|]] _; cbn; repeat (codec_step; cbn); reflexivity.
Qed.

(** [Marshal] *)
Definition Marshal (e : Envelope) : result json := Ok (encode_json e).

(** [Unmarshal]: a frame that is no JSON document is [None]. *)
Definition Unmarshal (data : option json) : result Envelope :=
  match data with
  | None => Err (Errorf "invalid character")
  | Some j => match decode_json j with
              | Some e => Ok e
              | None => Err (Errorf "json: cannot unmarshal")
              end
  end.

(** ** Typed messages

    The protocol as one sum: what an envelope of each [Type] carries. *)
Inductive message : Type :=
| MsgRegisterRequest (m : RegisterRequest)
| MsgRegisterResponse (m : RegisterResponse)
| MsgSubscribePair (m : SubscribePair)
| MsgSubscribePairAck (m : SubscribePairAck)
| MsgFileChangedEvent (m : FileChangedEvent)
| MsgFileSyncCommand (m : FileSyncCommand)
| MsgFileSyncAck (m : FileSyncAck)
| MsgListDirRequest (m : ListDirRequest)
| MsgListDirResponse (m : ListDirResponse)
| MsgListFilesRequest (m : ListFilesRequest)
| MsgListFilesResponse (m : ListFilesResponse)
| MsgPing
| MsgPong.

Definition message_wf (m : message) : Prop :=
  match m with
  | MsgRegisterRequest m => json_wf m
  | MsgRegisterResponse m => json_wf m
  | MsgSubscribePair m => json_wf m
  | MsgSubscribePairAck m => json_wf m
  | MsgFileChangedEvent m => json_wf m
  | MsgFileSyncCommand m => json_wf m
  | MsgFileSyncAck m => json_wf m
  | MsgListDirRequest m => json_wf m
  | MsgListDirResponse m => json_wf m
  | MsgListFilesRequest m => json_wf m
  | MsgListFilesResponse m => json_wf m
  | MsgPing | MsgPong => True
  end.

(** The envelope a sender builds for a message. *)
Definition envelope_of (corr : string) (m : message) : Envelope :=
  let mk {A} `{!JsonCodec A} (t : string) (a : A) := MkEnvelope t corr (Some (encode_json a)) in
  match m with
  | MsgRegisterRequest m => mk TypeRegisterRequest m
  | MsgRegisterResponse m => mk TypeRegisterResponse m
  | MsgSubscribePair m => mk TypeSubscribePair m
  | MsgSubscribePairAck m => mk TypeSubscribePairAck m
  | MsgFileChangedEvent m => mk TypeFileChangedEvent m
  | MsgFileSyncCommand m => mk TypeFileSyncCommand m
  | MsgFileSyncAck m => mk TypeFileSyncAck m
  | MsgListDirRequest m => mk TypeListDirRequest m
  | MsgListDirResponse m => mk TypeListDirResponse m
  | MsgListFilesRequest m => mk TypeListFilesRequest m
  | MsgListFilesResponse m => mk TypeListFilesResponse m
  | MsgPing => MkEnvelope TypePing corr None
  | MsgPong => MkEnvelope TypePong corr None
  end.

(** How a receiver reads an envelope: by its type, then the payload. *)
Definition message_of (e : Envelope) : result message :=
  let as_ {A} `{!JsonCodec A} (f : A -> message) : result message :=
    match UnmarshalPayload (env_Payload e) with Ok a => Ok (f a) | Err x => Err x end in
  let t := env_Type e in
  if bool_decide (t = TypeRegisterRequest) then as_ MsgRegisterRequest
  else if bool_decide (t = TypeRegisterResponse) then as_ MsgRegisterResponse
  else if bool_decide (t = TypeSubscribePair) then as_ MsgSubscribePair
  else if bool_decide (t = TypeSubscribePairAck) then as_ MsgSubscribePairAck
  else if bool_decide (t = TypeFileChangedEvent) then as_ MsgFileChangedEvent
  else if bool_decide (t = TypeFileSyncCommand) then as_ MsgFileSyncCommand
  else if bool_decide (t = TypeFileSyncAck) then as_ MsgFileSyncAck
  else if bool_decide (t = TypeListDirRequest) then as_ MsgListDirRequest
  else if bool_decide (t = TypeListDirResponse) then as_ MsgListDirResponse
  else if bool_decide (t = TypeListFilesRequest) then as_ MsgListFilesRequest
  else if bool_decide (t = TypeListFilesResponse) then as_ MsgListFilesResponse
  else if bool_decide (t = TypePing) then Ok MsgPing
  else if bool_decide (t = TypePong) then Ok MsgPong
  else Err (Errorf "unknown message type").

Lemma UnmarshalPayload_encode {A} `{!JsonCodec A} (a : A) :
  json_wf a -> UnmarshalPayload (Some (encode_json a)) = Ok a.
Proof. intros H. unfold UnmarshalPayload. by rewrite decode_encode_json. Qed.

Lemma Unmarshal_encode (e : Envelope) : Unmarshal (Some (encode_json e)) = Ok e.
Proof. unfold Unmarshal. by rewrite decode_encode_json. Qed.

Lemma message_of_envelope_of corr m :
  message_wf m -> message_of (envelope_of corr m) = Ok m.
Proof.
  intros H. destruct m; cbn [message_wf] in H;
    unfold message_of, envelope_of; cbn -[UnmarshalPayload encode_json];
    rewrite ?(UnmarshalPayload_encode _ H); reflexivity.
Qed.

#[export] Hint Resolve UnmarshalPayload_encode Unmarshal_encode message_of_envelope_of : axion.

(** C39. Every message of the protocol survives the wire: what one end marshals into an
    envelope, with any correlation id, the other end unmarshals to an envelope with that
    id and that type, and to an equal message, for all thirteen kinds. *)
Theorem message_roundtrip corr m :
  message_wf m ->
  exists data e, Marshal (envelope_of corr m) = Ok data /\ Unmarshal (Some data) = Ok e /\
    env_CorrelationID e = corr /\ env_Type e = env_Type (envelope_of corr m) /\ message_of e = Ok m.
Proof.
  intros H. exists (encode_json (envelope_of corr m)), (envelope_of corr m).
  split; [done|]. split; [apply Unmarshal_encode|].
  split; [by destruct m|]. split; [done|]. by apply message_of_envelope_of.
Qed.

Lemma message_roundtrip_witness : exists data,
  Marshal (envelope_of "r1" (MsgFileChangedEvent
    (MkFileChangedEvent "p1" "a" "n.txt" "abc" 3 17 "write" false))) = Ok data.
Proof.
  destruct (message_roundtrip "r1" (MsgFileChangedEvent
    (MkFileChangedEvent "p1" "a" "n.txt" "abc" 3 17 "write" false))) as (data & e & H & _).
  - split; reflexivity.
  - exists data. exact H.
Defined.
