(* ===== verification/Store.v ===== *)
(** internal/server/store: the rows (store.go), the tables and the statements
    (sqlite.go, migrations/*.sql).

    [tables] is the content of the database; each Go method is the meaning of its
    SQL statement on it, run through [sql] which also lets the driver fail: the
    list [db_faults] holds, for the statements to come, the driver's error if any
    (closed handle, cancelled context, I/O).  Foreign keys are enforced
    ([foreign_keys(on)]) with their [ON DELETE CASCADE].  Times are nanoseconds
    since the epoch; [clock n] is what the [n]-th call of [time.Now] returns.
    [ORDER BY] leaves the order of equal keys open: no theorem depends on it. *)
From S2P Require Import Prelude GoStrings Json.
Local Open Scope Z_scope.
Local Open Scope go_scope.

(** ** Rows (store.go) *)
Record Client : Type := MkClient {
  c_ID : string; c_DisplayName : string; c_Hostname : string; c_RootPath : string;
  c_Version : string; c_ProtoVersion : string; c_Status : string;
  c_LastSeen : Z; c_CreatedAt : Z; c_UpdatedAt : Z; c_Etag : Z
}.

Record SyncPair : Type := MkSyncPair {
  p_ID : string; p_Name : string;
  p_ClientAID : string; p_PathA : string; p_ClientBID : string; p_PathB : string;
  p_Direction : string; p_Enabled : bool;
  p_CreatedAt : Z; p_UpdatedAt : Z; p_Etag : Z
}.

Record FileState : Type := MkFileState {
  fs_PairID : string; fs_Side : string; fs_RelPath : string;
  fs_SHA256 : option string; fs_Size : option Z; fs_ModTime : option Z;
  fs_ServerModTime : Z; fs_Op : string; fs_IsDir : bool
}.

Record SyncRun : Type := MkSyncRun {
  r_ID : Z; r_PairID : string; r_SrcClientID : string; r_DstClientID : string;
  r_RelPath : string; r_SHA256 : option string; r_Bytes : Z; r_Status : string;
  r_Error : option string; r_StartedAt : Z; r_FinishedAt : Z
}.

Record AuditEntry : Type := MkAuditEntry {
  a_TS : Z; a_Kind : string; a_ClientID : option string; a_PairID : option string;
  a_RelPath : option string; a_Detail : option string
}.

#[export] Instance Client_eq_dec : EqDecision Client. Proof. solve_decision. Defined.
#[export] Instance SyncPair_eq_dec : EqDecision SyncPair. Proof. solve_decision. Defined.
#[export] Instance FileState_eq_dec : EqDecision FileState. Proof. solve_decision. Defined.
#[export] Instance SyncRun_eq_dec : EqDecision SyncRun. Proof. solve_decision. Defined.
#[export] Instance AuditEntry_eq_dec : EqDecision AuditEntry. Proof. solve_decision. Defined.

(** ** Tables *)
Notation file_key := (string * string * string)%type.

Record tables : Type := MkTables {
  t_clients : gmap string Client;
  t_pairs : gmap string SyncPair;
  t_files : gmap file_key FileState;
  t_runs : list SyncRun;            (* in increasing id *)
  t_next_run : Z;                   (* AUTOINCREMENT *)
  t_audit : list AuditEntry;        (* in increasing id *)
  t_settings : gmap string (string * Z)
}.

Definition empty_tables : tables := MkTables ∅ ∅ ∅ [] 1 [] ∅.

Definition set_clients f t := MkTables (f (t_clients t)) (t_pairs t) (t_files t) (t_runs t) (t_next_run t) (t_audit t) (t_settings t).
Definition set_pairs f t := MkTables (t_clients t) (f (t_pairs t)) (t_files t) (t_runs t) (t_next_run t) (t_audit t) (t_settings t).
Definition set_files f t := MkTables (t_clients t) (t_pairs t) (f (t_files t)) (t_runs t) (t_next_run t) (t_audit t) (t_settings t).
Definition set_audit f t := MkTables (t_clients t) (t_pairs t) (t_files t) (t_runs t) (t_next_run t) (f (t_audit t)) (t_settings t).
Definition set_settings f t := MkTables (t_clients t) (t_pairs t) (t_files t) (t_runs t) (t_next_run t) (t_audit t) (f (t_settings t)).

(** A database handle: the content, the driver's failures to come, and how many
    times the clock has been read. *)
Record store : Type := MkStore {
  db : tables;
  db_faults : list (option error);
  tick : nat
}.

(** What [time.Now().UnixNano()] returns at its [n]-th call. *)
Class Clock : Type := clock : nat -> Z.

Definition ErrNoRows : error := Sentinel "sql: no rows in result set".
Definition ErrEtagMismatch : error := Sentinel "store: etag mismatch".
Definition ErrForeignKey : error := Errorf "constraint failed: FOREIGN KEY constraint failed".

Definition fileKey (fs : FileState) : file_key := (fs_PairID fs, fs_Side fs, fs_RelPath fs).

Section Store.
Context {clk : Clock}.

Definition now : M store Z := fun s =>
  (Ok (clock (tick s)), MkStore (db s) (db_faults s) (S (tick s))).

(** One statement sent to the driver. *)
Definition sql {A} (stmt : tables -> result A * tables) : M store A := fun s =>
  match db_faults s with
  | Some e :: fl => (Err e, MkStore (db s) fl (tick s))
  | None :: fl => let '(r, t) := stmt (db s) in (r, MkStore t fl (tick s))
  | [] => let '(r, t) := stmt (db s) in (r, MkStore t [] (tick s))
  end.

Definition query {A} (q : tables -> A) : M store A := sql (fun t => (Ok (q t), t)).
Definition query_row {A} (q : tables -> option A) : M store A :=
  sql (fun t => (match q t with Some a => Ok a | None => Err ErrNoRows end, t)).
Definition exec (f : tables -> tables) : M store unit := sql (fun t => (Ok tt, f t)).

(** *** clients *)
Definition upsert_client_row (c : Client) (m : gmap string Client) : gmap string Client :=
  match m !! c_ID c with
  | None => <[c_ID c := c]> m
  | Some o =>
      <[c_ID c := MkClient (c_ID o) (c_DisplayName c) (c_Hostname c) (c_RootPath c)
          (c_Version c) (c_ProtoVersion c) (c_Status c) (c_LastSeen c)
          (c_CreatedAt o) (c_UpdatedAt c) (c_Etag o + 1)]> m
  end.

Definition UpsertClient (c : Client) : M store unit :=
  wrapped "upsert client" (exec (set_clients (upsert_client_row c))).

Definition GetClient (id : string) : M store (option Client) :=
  c <- wrapped "scan client" (query_row (fun t => t_clients t !! id));;
  ret (Some c).

Definition ListClients : M store (list Client) :=
  wrapped "list clients" (query (fun t =>
    merge_sort (by_key Z.le c_CreatedAt) (map_to_list (t_clients t)).*2)).

Definition UpdateClientStatus (id status : string) (lastSeen : Z) : M store unit :=
  n <- now;;
  wrapped "update client status" (exec (set_clients (alter (fun o =>
    MkClient (c_ID o) (c_DisplayName o) (c_Hostname o) (c_RootPath o) (c_Version o)
      (c_ProtoVersion o) status lastSeen (c_CreatedAt o) n (c_Etag o)) id))).

(** [SET display_name = ?, etag = etag + 1, updated_at = ?] *)
Definition renamed_client (o : Client) (displayName : string) (n : Z) : Client :=
  MkClient (c_ID o) displayName (c_Hostname o) (c_RootPath o) (c_Version o)
    (c_ProtoVersion o) (c_Status o) (c_LastSeen o) (c_CreatedAt o) n (c_Etag o + 1).

Definition UpdateClientDisplayName (id displayName : string) (expectedEtag : Z) : M store Z :=
  n <- now;;
  affected <- wrapped "update client display name" (sql (fun t =>
    match t_clients t !! id with
    | Some o =>
        if c_Etag o =? expectedEtag
        then (Ok 1, set_clients (insert id (renamed_client o displayName n)) t)
        else (Ok 0, t)
    | None => (Ok 0, t)
    end));;
  if affected =? 0 then throw ErrEtagMismatch
  else wrapped "fetch new etag" (query_row (fun t => c_Etag <$> t_clients t !! id)).

(** Removing pairs removes their file states and their runs. *)
Definition delete_pairs_where (P : SyncPair -> bool) (t : tables) : tables :=
  let gone := filter (fun kv => P kv.2 = true) (t_pairs t) in
  MkTables (t_clients t)
    (filter (fun kv => P kv.2 = false) (t_pairs t))
    (filter (fun kv => gone !! kv.1.1.1 = None) (t_files t))
    (filter (fun r => gone !! r_PairID r = None) (t_runs t))
    (t_next_run t) (t_audit t) (t_settings t).

Definition DeleteClient (id : string) : M store unit :=
  wrapped "delete client" (exec (fun t =>
    delete_pairs_where
      (fun p => bool_decide (p_ClientAID p = id) || bool_decide (p_ClientBID p = id))
      (set_clients (delete id) t))).

(** *** sync_pairs *)
Definition UpsertPair (p : SyncPair) : M store unit :=
  wrapped "upsert pair" (sql (fun t =>
    match t_pairs t !! p_ID p with
    | None =>
        match t_clients t !! p_ClientAID p, t_clients t !! p_ClientBID p with
        | Some _, Some _ => (Ok tt, set_pairs (insert (p_ID p) p) t)
        | _, _ => (Err ErrForeignKey, t)
        end
    | Some o =>
        (Ok tt, set_pairs (insert (p_ID p)
           (MkSyncPair (p_ID o) (p_Name p) (p_ClientAID o) (p_PathA p) (p_ClientBID o)
              (p_PathB p) (p_Direction p) (p_Enabled p) (p_CreatedAt o) (p_UpdatedAt p)
              (p_Etag o + 1))) t)
    end)).

Definition GetPair (id : string) : M store (option SyncPair) :=
  p <- wrapped "scan pair" (query_row (fun t => t_pairs t !! id));;
  ret (Some p).

Definition sort_pairs (l : list SyncPair) : list SyncPair :=
  merge_sort (by_key Z.le p_CreatedAt) l.

Definition ListPairs : M store (list SyncPair) :=
  wrapped "list pairs" (query (fun t => sort_pairs (map_to_list (t_pairs t)).*2)).

Definition pair_of_client (id : string) (p : SyncPair) : bool :=
  bool_decide (p_ClientAID p = id) || bool_decide (p_ClientBID p = id).

Definition ListPairsForClient (id : string) : M store (list SyncPair) :=
  wrapped "list pairs for client" (query (fun t =>
    sort_pairs (filter (fun p => pair_of_client id p = true) (map_to_list (t_pairs t)).*2))).

Definition DeletePair (id : string) : M store unit :=
  wrapped "delete pair" (exec (delete_pairs_where (fun p => bool_decide (p_ID p = id)))).

(** *** file_state *)

(** [ON CONFLICT ... DO UPDATE ... WHERE excluded.server_mod_time >
    file_state.server_mod_time] *)
Definition upsert_file_row (fs : FileState) (m : gmap file_key FileState)
  : gmap file_key FileState :=
  match m !! fileKey fs with
  | None => <[fileKey fs := fs]> m
  | Some o => if fs_ServerModTime o <? fs_ServerModTime fs then <[fileKey fs := fs]> m else m
  end.

Definition UpsertFileState (fs : FileState) : M store unit :=
  wrapped "upsert file state" (sql (fun t =>
    match t_pairs t !! fs_PairID fs with
    | Some _ => (Ok tt, set_files (upsert_file_row fs) t)
    | None => (Err ErrForeignKey, t)
    end)).

Definition GetFileState (pairID side relPath : string) : M store (option FileState) :=
  f <- wrapped "scan file state" (query_row (fun t => t_files t !! (pairID, side, relPath)));;
  ret (Some f).

Definition files_of (pairID side : string) (t : tables) : list FileState :=
  merge_sort (by_key String.le fs_RelPath)
    (filter (fun f => fs_PairID f = pairID /\ fs_Side f = side) (map_to_list (t_files t)).*2).

Definition ListFileStates (pairID side : string) : M store (list FileState) :=
  wrapped "list file states" (query (files_of pairID side)).

Definition DeleteFileState (pairID side relPath : string) : M store unit :=
  wrapped "delete file state" (exec (set_files (delete (pairID, side, relPath)))).

(** *** sync_runs *)
Definition InsertSyncRun (r : SyncRun) : M store Z :=
  wrapped "insert sync run" (sql (fun t =>
    match t_pairs t !! r_PairID r with
    | None => (Err ErrForeignKey, t)
    | Some _ =>
        let id := t_next_run t in
        let row := MkSyncRun id (r_PairID r) (r_SrcClientID r) (r_DstClientID r) (r_RelPath r)
                     (r_SHA256 r) (r_Bytes r) (r_Status r) (r_Error r)
                     (r_StartedAt r) (r_FinishedAt r) in
        (Ok id, MkTables (t_clients t) (t_pairs t) (t_files t) (t_runs t ++ [row]) (id + 1)
                  (t_audit t) (t_settings t))
    end)).

(** [LIMIT n]: a negative limit is no limit. *)
Definition sql_limit {A} (n : Z) (l : list A) : list A :=
  if n <? 0 then l else take (Z.to_nat n) l.

Definition ListRecentSyncRuns (pairID : string) (limit : Z) : M store (list SyncRun) :=
  wrapped "list recent sync runs" (query (fun t =>
    sql_limit limit (merge_sort (by_key Z.ge r_StartedAt)
      (if bool_decide (pairID = "") then t_runs t
       else filter (fun r => r_PairID r = pairID) (t_runs t))))).

(** *** audit_log *)
Definition AppendAuditLog (e : AuditEntry) : M store unit :=
  wrapped "append audit log" (exec (set_audit (fun l => l ++ [e]))).

Definition ListRecentAuditLog (limit : Z) : M store (list AuditEntry) :=
  wrapped "list recent audit log" (query (fun t =>
    sql_limit limit (merge_sort (by_key Z.ge a_TS) (t_audit t)))).

(** *** settings *)
Definition GetSetting (key : string) : M store string :=
  wrapped ("get setting " +:+ Quote key) (query_row (fun t => fst <$> t_settings t !! key)).

Definition SetSetting (key value : string) : M store unit :=
  n <- now;;
  wrapped ("set setting " +:+ Quote key) (exec (set_settings (insert key (value, n)))).

Definition LoadAllSettings : M store (gmap string string) :=
  wrapped "load all settings" (query (fun t => fst <$> t_settings t)).

(** *** Opening: the clock must not be behind the newest [server_mod_time]. *)
Definition max_server_mod_time (t : tables) : option Z :=
  map_fold (fun _ f acc => Some (match acc with
                                 | None => fs_ServerModTime f
                                 | Some m => Z.max (fs_ServerModTime f) m
                                 end)) None (t_files t).

Definition checkMonotonic : M store unit :=
  m <- wrapped "monotonic check failed" (query max_server_mod_time);;
  match m with
  | None => ret tt
  | Some x =>
      n <- now;;
      if n <? x then
        _ <- now;;
        throw (Errorf "system clock regression detected")
      else ret tt
  end.
End Store.
