(* ===== verification/StoreFacts.v ===== *)
(** Theorems about the store: referential integrity and key coherence of every
    table under every statement (cascades included), last-writer-wins [file_state]
    rows whatever the order of arrival, optimistic locking by etag, and the guard
    against a clock that went backwards. *)
From S2P Require Import Prelude GoStrings Store.
Local Open Scope Z_scope.
Local Open Scope go_scope.

(** ** The database invariant *)
Record tables_ok (t : tables) : Prop := {
  ok_client_key id c : t_clients t !! id = Some c -> c_ID c = id;
  ok_pair_key id p : t_pairs t !! id = Some p -> p_ID p = id;
  ok_pair_clients id p : t_pairs t !! id = Some p ->
    is_Some (t_clients t !! p_ClientAID p) /\ is_Some (t_clients t !! p_ClientBID p);
  ok_file_key k f : t_files t !! k = Some f -> fileKey f = k;
  ok_file_pair k f : t_files t !! k = Some f -> is_Some (t_pairs t !! fs_PairID f);
  ok_run_pair r : r ∈ t_runs t -> is_Some (t_pairs t !! r_PairID r);
  ok_run_ids : StronglySorted Z.lt (r_ID <$> t_runs t);
  ok_run_next r : r ∈ t_runs t -> r_ID r < t_next_run t
}.

Definition store_ok (s : store) : Prop := tables_ok (db s).

(** Every method that changes the database, as data. *)
Inductive store_call : Type :=
| CallUpsertClient (c : Client)
| CallUpdateClientStatus (id status : string) (lastSeen : Z)
| CallUpdateClientDisplayName (id name : string) (etag : Z)
| CallDeleteClient (id : string)
| CallUpsertPair (p : SyncPair)
| CallDeletePair (id : string)
| CallUpsertFileState (fs : FileState)
| CallDeleteFileState (pairID side rel : string)
| CallInsertSyncRun (r : SyncRun)
| CallAppendAuditLog (e : AuditEntry)
| CallSetSetting (key value : string).

Section Facts.
Context {clk : Clock}.

Definition run_call (c : store_call) : M store unit :=
  match c with
  | CallUpsertClient c => UpsertClient c
  | CallUpdateClientStatus i s l => UpdateClientStatus i s l
  | CallUpdateClientDisplayName i n e => _ <- UpdateClientDisplayName i n e;; ret tt
  | CallDeleteClient i => DeleteClient i
  | CallUpsertPair p => UpsertPair p
  | CallDeletePair i => DeletePair i
  | CallUpsertFileState f => UpsertFileState f
  | CallDeleteFileState p s r => DeleteFileState p s r
  | CallInsertSyncRun r => _ <- InsertSyncRun r;; ret tt
  | CallAppendAuditLog e => AppendAuditLog e
  | CallSetSetting k v => SetSetting k v
  end.

(** A statement keeps what it keeps of the tables, even when the driver fails. *)
Lemma sql_preserves {A} (P : tables -> Prop) (stmt : tables -> result A * tables) :
  (forall t, P t -> P (snd (stmt t))) -> preserves (fun s => P (db s)) (sql stmt).
Proof.
  intros H s HP. unfold sql. specialize (H (db s) HP).
  destruct (db_faults s) as [|[e|] fl]; simpl; try done; by destruct (stmt (db s)).
Qed.

Lemma exec_preserves (P : tables -> Prop) f :
  (forall t, P t -> P (f t)) -> preserves (fun s => P (db s)) (exec f).
Proof. intros H. apply sql_preserves. done. Qed.

Lemma query_preserves {A} (P : tables -> Prop) (q : tables -> A) :
  preserves (fun s => P (db s)) (query q).
Proof. by apply sql_preserves. Qed.

Lemma query_row_preserves {A} (P : tables -> Prop) (q : tables -> option A) :
  preserves (fun s => P (db s)) (query_row q).
Proof. by apply sql_preserves. Qed.

Lemma now_preserves (P : tables -> Prop) : preserves (fun s => P (db s)) now.
Proof. intros s HP. done. Qed.

Hint Resolve exec_preserves query_preserves query_row_preserves now_preserves : axion.

(** *** Each kind of update *)
Lemma tables_ok_clients f t :
  tables_ok t ->
  (forall id c, f (t_clients t) !! id = Some c -> c_ID c = id) ->
  (forall id, is_Some (t_clients t !! id) -> is_Some (f (t_clients t) !! id)) ->
  tables_ok (set_clients f t).
Proof.
  intros [] Hk Hs. constructor; simpl; eauto.
  intros id p Hp. destruct (ok_pair_clients0 id p Hp). eauto.
Qed.

Lemma tables_ok_insert_client id (c : Client) f t :
  tables_ok t -> f (t_clients t) = <[id := c]> (t_clients t) -> c_ID c = id ->
  tables_ok (set_clients f t).
Proof.
  intros Hok Hf Hid. apply tables_ok_clients; [done| |]; intros i; rewrite Hf, lookup_insert.
  - intros c'. case_decide; [naive_solver|]. by apply ok_client_key.
  - case_decide; naive_solver.
Qed.

Lemma tables_ok_upsert_client c t : tables_ok t -> tables_ok (set_clients (upsert_client_row c) t).
Proof.
  intros Hok. destruct (t_clients t !! c_ID c) as [o|] eqn:E.
  - pose proof (ok_client_key t Hok _ _ E) as Ho.
    eapply tables_ok_insert_client; [done| |].
    + unfold upsert_client_row. by rewrite E.
    + exact Ho.
  - apply (tables_ok_insert_client (c_ID c) c); [done| |done].
    unfold upsert_client_row. by rewrite E.
Qed.

Lemma tables_ok_alter_client g id t :
  (forall o, c_ID (g o) = c_ID o) -> tables_ok t -> tables_ok (set_clients (alter g id) t).
Proof.
  intros Hg Hok. apply tables_ok_clients; [done| |]; intros i.
  - intros c. rewrite lookup_alter. case_decide as Hi; [|by apply ok_client_key].
    subst i. intros (o & Ho & ->)%fmap_Some. rewrite Hg. by apply (ok_client_key t Hok).
  - rewrite lookup_alter. case_decide; [subst|done]. intros [o Ho]. rewrite Ho. eauto.
Qed.

Lemma delete_pairs_where_pair P t id :
  t_pairs (delete_pairs_where P t) !! id =
  match t_pairs t !! id with Some p => if P p then None else Some p | None => None end.
Proof.
  unfold delete_pairs_where. cbn [t_pairs]. rewrite map_lookup_filter.
  destruct (t_pairs t !! id) as [p|]; [|done]. simpl.
  destruct (P p) eqn:E; [rewrite option_guard_False by congruence|rewrite option_guard_True by done]; done.
Qed.

Lemma gone_lookup (P : SyncPair -> bool) (m : gmap string SyncPair) id :
  filter (fun kv => P kv.2 = true) m !! id =
  match m !! id with Some p => if P p then Some p else None | None => None end.
Proof.
  rewrite map_lookup_filter. destruct (m !! id) as [p|]; [|done]. simpl.
  destruct (P p) eqn:E; [rewrite option_guard_True by done|rewrite option_guard_False by congruence]; done.
Qed.

Lemma StronglySorted_filter_map {A} (f : A -> Z) (Q : A -> Prop) `{!forall x, Decision (Q x)} l :
  StronglySorted Z.lt (f <$> l) -> StronglySorted Z.lt (f <$> filter Q l).
Proof.
  induction l as [|x l IH]; [done|]. rewrite fmap_cons. intros [Hs Hx]%StronglySorted_inv.
  rewrite filter_cons. case_decide; [|auto]. rewrite fmap_cons. constructor; [auto|].
  rewrite Forall_fmap in *. by apply Forall_filter_weaken.
Qed.

(** Deleting pairs keeps the invariant when the pairs that stay have their
    clients. *)
Lemma tables_ok_delete_pairs P f t :
  tables_ok t ->
  (forall id c, f (t_clients t) !! id = Some c -> c_ID c = id) ->
  (forall id p, t_pairs t !! id = Some p -> P p = false ->
     is_Some (f (t_clients t) !! p_ClientAID p) /\ is_Some (f (t_clients t) !! p_ClientBID p)) ->
  tables_ok (delete_pairs_where P (set_clients f t)).
Proof.
  intros Hok Hk Hstay.
  assert (forall id, is_Some (t_pairs t !! id) ->
            filter (fun kv => P kv.2 = true) (t_pairs t) !! id = None ->
            is_Some (t_pairs (delete_pairs_where P (set_clients f t)) !! id)) as Hkeep.
  { intros id [p Hp]. rewrite gone_lookup, delete_pairs_where_pair. simpl. rewrite Hp.
    destruct (P p); [done|eauto]. }
  constructor.
  - done.
  - intros id p. rewrite delete_pairs_where_pair. simpl. intros H. repeat case_match; simplify_eq.
    by apply (ok_pair_key t Hok).
  - intros id p. rewrite delete_pairs_where_pair. simpl. intros H. repeat case_match; simplify_eq.
    eauto.
  - intros k fs. cbn [t_files delete_pairs_where]. intros [Hf _]%map_lookup_filter_Some.
    by apply (ok_file_key t Hok).
  - intros k fs. cbn [t_files delete_pairs_where]. intros [Hf Hg]%map_lookup_filter_Some.
    apply Hkeep; [by eapply (ok_file_pair t Hok)|].
    rewrite <- (ok_file_key t Hok _ _ Hf) in Hg. exact Hg.
  - intros r. cbn [t_runs delete_pairs_where]. intros [Hg Hr]%list_elem_of_filter.
    apply Hkeep; [by apply (ok_run_pair t Hok)|done].
  - cbn [t_runs delete_pairs_where]. apply StronglySorted_filter_map, (ok_run_ids t Hok).
  - intros r. cbn [t_runs delete_pairs_where]. intros [_ Hr]%list_elem_of_filter.
    by apply (ok_run_next t Hok).
Qed.

Lemma tables_ok_insert_pair id (p : SyncPair) t :
  tables_ok t -> p_ID p = id ->
  is_Some (t_clients t !! p_ClientAID p) -> is_Some (t_clients t !! p_ClientBID p) ->
  tables_ok (set_pairs (insert id p) t).
Proof.
  intros Hok Hid HA HB.
  assert (forall i, is_Some (t_pairs t !! i) -> is_Some (<[id := p]> (t_pairs t) !! i)) as Hmono.
  { intros i Hi. rewrite lookup_insert. case_decide; [eauto|done]. }
  constructor; simpl.
  - apply (ok_client_key t Hok).
  - intros i q. rewrite lookup_insert. case_decide; [naive_solver|]. by apply (ok_pair_key t Hok).
  - intros i q. rewrite lookup_insert. case_decide; [naive_solver|]. by apply (ok_pair_clients t Hok).
  - apply (ok_file_key t Hok).
  - intros k f Hf. apply Hmono. by eapply (ok_file_pair t Hok).
  - intros r Hr. apply Hmono. by apply (ok_run_pair t Hok).
  - apply (ok_run_ids t Hok).
  - apply (ok_run_next t Hok).
Qed.

Lemma upsert_file_row_cases fs m :
  upsert_file_row fs m = m \/ upsert_file_row fs m = <[fileKey fs := fs]> m.
Proof. unfold upsert_file_row. repeat case_match; auto. Qed.

Lemma tables_ok_upsert_file fs t :
  tables_ok t -> is_Some (t_pairs t !! fs_PairID fs) -> tables_ok (set_files (upsert_file_row fs) t).
Proof.
  intros Hok Hp. unfold set_files.
  destruct (upsert_file_row_cases fs (t_files t)) as [->| ->]; [by destruct t|].
  destruct Hok. constructor; simpl; try done; intros k f; rewrite lookup_insert;
    case_decide; naive_solver.
Qed.

Lemma StronglySorted_snoc (l : list Z) x :
  StronglySorted Z.lt l -> Forall (fun y => y < x) l -> StronglySorted Z.lt (l ++ [x]).
Proof.
  intros Hs Hx. induction Hs as [|y l Hs IH Hy]; simpl; [repeat constructor|].
  apply Forall_cons in Hx as [Hyx Hx]. constructor; [auto|].
  apply Forall_app. auto.
Qed.

Lemma tables_ok_insert_run r t :
  tables_ok t -> is_Some (t_pairs t !! r_PairID r) -> r_ID r = t_next_run t ->
  tables_ok (MkTables (t_clients t) (t_pairs t) (t_files t) (t_runs t ++ [r])
               (t_next_run t + 1) (t_audit t) (t_settings t)).
Proof.
  intros Hok Hp Hid. pose proof Hok as []. constructor; simpl; try done.
  - intros r' [Hr| ->%list_elem_of_singleton]%elem_of_app; auto.
  - rewrite fmap_app. apply StronglySorted_snoc; [done|].
    rewrite Hid, Forall_fmap, Forall_forall. by apply (ok_run_next t Hok).
  - intros r' [Hr| ->%list_elem_of_singleton]%elem_of_app; [|lia].
    specialize (ok_run_next t Hok _ Hr). lia.
Qed.

Lemma tables_ok_delete_client id t :
  tables_ok t ->
  tables_ok (delete_pairs_where (fun p => bool_decide (p_ClientAID p = id) ||
               bool_decide (p_ClientBID p = id)) (set_clients (delete id) t)).
Proof.
  intros Hok. apply tables_ok_delete_pairs; [done| |].
  - intros i c [_ Hc]%lookup_delete_Some. by apply (ok_client_key t Hok).
  - intros i p Hp [HA HB]%orb_false_iff.
    apply bool_decide_eq_false in HA, HB.
    destruct (ok_pair_clients t Hok _ _ Hp). by rewrite !lookup_delete_ne.
Qed.

Lemma tables_ok_delete_pair id t :
  tables_ok t -> tables_ok (delete_pairs_where (fun p => bool_decide (p_ID p = id)) t).
Proof.
  intros Hok. assert (t = set_clients (fun m => m) t) as Ht by by destruct t.
  rewrite Ht. apply tables_ok_delete_pairs; [done|by apply (ok_client_key t Hok)|].
  intros i p Hp _. by apply (ok_pair_clients t Hok _ _ Hp).
Qed.

Lemma tables_ok_upsert_pair p t :
  tables_ok t ->
  tables_ok (snd (match t_pairs t !! p_ID p with
    | None =>
        match t_clients t !! p_ClientAID p, t_clients t !! p_ClientBID p with
        | Some _, Some _ => (Ok tt, set_pairs (insert (p_ID p) p) t)
        | _, _ => (Err ErrForeignKey, t)
        end
    | Some o =>
        (Ok tt, set_pairs (insert (p_ID p)
           (MkSyncPair (p_ID o) (p_Name p) (p_ClientAID o) (p_PathA p) (p_ClientBID o)
              (p_PathB p) (p_Direction p) (p_Enabled p) (p_CreatedAt o) (p_UpdatedAt p)
              (p_Etag o + 1))) t)
    end)).
Proof.
  intros Hok. destruct (t_pairs t !! p_ID p) as [o|] eqn:E.
  - destruct (ok_pair_clients t Hok _ _ E).
    apply tables_ok_insert_pair; try done. exact (ok_pair_key t Hok _ _ E).
  - destruct (t_clients t !! p_ClientAID p) eqn:EA; [|done].
    destruct (t_clients t !! p_ClientBID p) eqn:EB; [|done].
    apply tables_ok_insert_pair; eauto.
Qed.

Lemma run_call_preserves c : preserves (fun s => tables_ok (db s)) (run_call c).
Proof.
  destruct c; cbn [run_call].
  - apply preserves_wrapped, exec_preserves, tables_ok_upsert_client.
  - apply preserves_bind; [apply now_preserves|]. intros n.
    apply preserves_wrapped, exec_preserves. intros t. by apply tables_ok_alter_client.
  - apply preserves_bind; [|auto with axion]. unfold UpdateClientDisplayName.
    apply preserves_bind; [apply now_preserves|]. intros n.
    apply preserves_bind.
    + apply preserves_wrapped, sql_preserves. intros t Hok.
      destruct (t_clients t !! id) as [o|] eqn:E; [|done].
      destruct (c_Etag o =? etag); [|done].
      apply (tables_ok_insert_client id _ _ _ Hok eq_refl). exact (ok_client_key t Hok _ _ E).
    + intros a. destruct (a =? 0); [apply preserves_throw|].
      apply preserves_wrapped, query_row_preserves.
  - apply preserves_wrapped, exec_preserves, tables_ok_delete_client.
  - apply preserves_wrapped, sql_preserves, tables_ok_upsert_pair.
  - apply preserves_wrapped, exec_preserves, tables_ok_delete_pair.
  - apply preserves_wrapped, sql_preserves. intros t Hok.
    destruct (t_pairs t !! fs_PairID fs) eqn:E; [|done]. apply tables_ok_upsert_file; eauto.
  - apply preserves_wrapped, exec_preserves. intros t Hok. pose proof Hok as [].
    constructor; simpl; try done; intros k f [_ Hf]%lookup_delete_Some; eauto.
  - apply preserves_bind; [|auto with axion].
    apply preserves_wrapped, sql_preserves. intros t Hok.
    destruct (t_pairs t !! r_PairID r) eqn:E; [|done].
    apply (tables_ok_insert_run (MkSyncRun _ _ _ _ _ _ _ _ _ _ _)); simpl; eauto.
  - apply preserves_wrapped, exec_preserves. intros t []. by constructor.
  - apply preserves_bind; [apply now_preserves|]. intros n.
    apply preserves_wrapped, exec_preserves. intros t []. by constructor.
Qed.

Lemma empty_tables_ok : tables_ok empty_tables.
Proof.
  constructor; simpl; try (intros; simplify_map_eq; done); try (intros r Hr; inversion Hr).
  constructor.
Qed.

(** *** The rows of one side of a pair *)
Lemma elem_of_files_of pairID side t f :
  tables_ok t ->
  f ∈ files_of pairID side t <->
  t_files t !! (pairID, side, fs_RelPath f) = Some f.
Proof.
  intros Hok. unfold files_of. rewrite elem_of_sorted, list_elem_of_filter, list_elem_of_fmap. split.
  - intros [[Hp Hs] ([k g] & -> & Hg%elem_of_map_to_list)]. cbn in *.
    pose proof (ok_file_key t Hok _ _ Hg) as Hk. unfold fileKey in Hk. congruence.
  - intros Hf. pose proof (ok_file_key t Hok _ _ Hf) as Hk. injection Hk as Hp Hs.
    split; [done|]. exists ((pairID, side, fs_RelPath f), f). split; [done|].
    by apply elem_of_map_to_list.
Qed.

(** *** Last writer wins, whatever the order *)
Lemma upsert_file_row_lookup x m k :
  upsert_file_row x m !! k =
  if decide (fileKey x = k) then
    match m !! k with
    | Some o => if fs_ServerModTime o <? fs_ServerModTime x then Some x else Some o
    | None => Some x
    end
  else m !! k.
Proof.
  unfold upsert_file_row. case_decide as Hk.
  - subst k. destruct (m !! fileKey x) as [o|] eqn:E; [|by rewrite lookup_insert_eq].
    destruct (fs_ServerModTime o <? fs_ServerModTime x); [by rewrite lookup_insert_eq|done].
  - repeat case_match; by rewrite ?lookup_insert_ne.
Qed.

Lemma upsert_file_row_comm a b m :
  (fileKey a = fileKey b -> fs_ServerModTime a = fs_ServerModTime b -> a = b) ->
  upsert_file_row a (upsert_file_row b m) = upsert_file_row b (upsert_file_row a m).
Proof.
  intros Hab. apply map_eq. intros k. rewrite !upsert_file_row_lookup.
  destruct (decide (fileKey a = k)) as [Ha|Ha], (decide (fileKey b = k)) as [Hb|Hb]; try done.
  assert (fs_ServerModTime a = fs_ServerModTime b -> a = b) as Hab' by (apply Hab; congruence).
  destruct (m !! k) as [o|];
    repeat (match goal with |- context [?x <? ?y] => destruct (Z.ltb_spec x y) end);
    try done; try (rewrite Hab' by lia; done); lia.
Qed.

(** What a sequence of accepted rows makes of the table. *)
Definition upsert_rows (l : list FileState) (m : gmap file_key FileState) : gmap file_key FileState :=
  foldl (fun m f => upsert_file_row f m) m l.

Lemma upsert_rows_perm l1 l2 m :
  l1 ≡ₚ l2 ->
  (forall a b, a ∈ l1 -> b ∈ l1 -> fileKey a = fileKey b ->
     fs_ServerModTime a = fs_ServerModTime b -> a = b) ->
  upsert_rows l1 m = upsert_rows l2 m.
Proof.
  intros Hp. revert m. induction Hp as [|x l1 l2 Hp IH|x y l|l1 l2 l3 H12 IH1 H23 IH2];
    intros m Hd; simpl; [done| | |].
  - apply IH. intros a b Ha Hb. apply Hd; by right.
  - unfold upsert_rows. simpl. f_equal. apply upsert_file_row_comm.
    apply Hd; set_solver.
  - rewrite IH1 by done. apply IH2. intros a b Ha Hb. rewrite <- H12 in Ha, Hb. eauto.
Qed.

Lemma UpsertFileState_eq fs t n :
  UpsertFileState fs (MkStore t [] n) =
  match t_pairs t !! fs_PairID fs with
  | Some _ => (Ok tt, MkStore (set_files (upsert_file_row fs) t) [] n)
  | None => (Err (Wrap "upsert file state" ErrForeignKey), MkStore t [] n)
  end.
Proof. unfold UpsertFileState, wrapped, sql. simpl. by destruct (t_pairs t !! fs_PairID fs). Qed.

Lemma UpsertFileStates_eq l t n :
  for_each l UpsertFileState (MkStore t [] n) =
  (Ok tt, MkStore (set_files (upsert_rows
     (filter (fun f => is_Some (t_pairs t !! fs_PairID f)) l)) t) [] n).
Proof.
  revert t. induction l as [|f l IH]; intros t; [by destruct t|].
  cbn [for_each]. unfold try. rewrite UpsertFileState_eq, filter_cons.
  destruct (t_pairs t !! fs_PairID f) as [p|] eqn:E; rewrite IH.
  - rewrite decide_True by eauto. done.
  - rewrite decide_False; [done|]. by intros [].
Qed.

Lemma upsert_rows_latest l m k f :
  upsert_rows l m !! k = Some f ->
  (forall g, g ∈ l -> fileKey g = k -> fs_ServerModTime g <= fs_ServerModTime f) /\
  (forall g, m !! k = Some g -> fs_ServerModTime g <= fs_ServerModTime f) /\
  ((f ∈ l /\ fileKey f = k) \/ m !! k = Some f).
Proof.
  revert m. induction l as [|x l IH]; intros m Hf; simpl in Hf.
  - split; [intros g Hg; inversion Hg|]. split; [naive_solver lia|auto].
  - destruct (IH _ Hf) as (Hl & Hm & Hsrc). rewrite upsert_file_row_lookup in Hm, Hsrc.
    assert (forall g, g ∈ x :: l -> g = x \/ g ∈ l) as Hin by (intros g; by rewrite elem_of_cons).
    case_decide as Hk.
    + assert (fs_ServerModTime x <= fs_ServerModTime f /\
              (forall g, m !! k = Some g -> fs_ServerModTime g <= fs_ServerModTime f)) as [Hx Hb].
      { destruct (m !! k) as [o|]; [|specialize (Hm _ eq_refl); naive_solver].
        destruct (Z.ltb_spec (fs_ServerModTime o) (fs_ServerModTime x));
          specialize (Hm _ eq_refl); (split; [lia|intros g [= <-]; lia]). }
      split; [intros g [->|Hg]%Hin; auto|]. split; [done|].
      destruct Hsrc as [[Hf' ?]|Hsrc]; [left; split; [by right|done]|].
      repeat case_match; simplify_eq; auto; left; split; by left || done.
    + split; [intros g [->|Hg]%Hin; [done|auto]|]. split; [done|].
      destruct Hsrc as [[Hf' ?]|Hsrc]; [left; split; [by right|done]|auto].
Qed.

(** *** Optimistic locking *)
Lemma UpdateClientDisplayName_eq id name e t n :
  UpdateClientDisplayName id name e (MkStore t [] n) =
  match t_clients t !! id with
  | Some o =>
      if c_Etag o =? e
      then (Ok (c_Etag o + 1),
            MkStore (set_clients (insert id (renamed_client o name (clock n))) t) [] (S n))
      else (Err ErrEtagMismatch, MkStore t [] (S n))
  | None => (Err ErrEtagMismatch, MkStore t [] (S n))
  end.
Proof.
  unfold UpdateClientDisplayName, bind, wrapped, sql, query_row, now. cbn [db_faults db tick].
  destruct (t_clients t !! id) as [o|] eqn:E; [|done].
  destruct (c_Etag o =? e); [|done]. cbn. unfold sql. cbn [db_faults db tick t_clients set_clients].
  by rewrite lookup_insert_eq.
Qed.

(** *** Claims *)

(** C35. Referential integrity: from the empty database, whatever calls are made and
    whichever statements the driver fails, the keys of every table are those of
    its rows, every pair has both of its clients, every file state and every sync
    run has its pair, and run ids increase and are never reused. *)
Theorem store_integrity calls faults n :
  tables_ok (db (snd (for_each calls run_call (MkStore empty_tables faults n)))).
Proof.
  apply (preserves_for_each (fun s => tables_ok (db s))); [|apply empty_tables_ok].
  intros c _. apply run_call_preserves.
Qed.

(** The [file_state] table does not depend on the order in which rows arrive:
    any permutation of a batch of rows that never repeats a [server_mod_time] for
    one key leaves the same table, and the row kept for a key is the newest of
    the batch and of the row that was there. *)
Theorem file_state_last_writer_wins l1 l2 t n :
  l1 ≡ₚ l2 ->
  (forall a b, a ∈ l1 -> b ∈ l1 -> fileKey a = fileKey b ->
     fs_ServerModTime a = fs_ServerModTime b -> a = b) ->
  (forall f, f ∈ l1 -> is_Some (t_pairs t !! fs_PairID f)) ->
  let final l := t_files (db (snd (for_each l UpsertFileState (MkStore t [] n)))) in
  final l1 = final l2 /\
  (forall k f, final l1 !! k = Some f ->
     (forall g, g ∈ l1 -> fileKey g = k -> fs_ServerModTime g <= fs_ServerModTime f) /\
     (forall g, t_files t !! k = Some g -> fs_ServerModTime g <= fs_ServerModTime f) /\
     ((f ∈ l1 /\ fileKey f = k) \/ t_files t !! k = Some f)).
Proof.
  intros Hp Hd Hpairs final.
  assert (filter (fun f => is_Some (t_pairs t !! fs_PairID f)) l1 = l1) as Hl1.
  { by apply list_filter_id. }
  unfold final. rewrite !UpsertFileStates_eq. cbn [snd db t_files set_files]. split.
  - apply upsert_rows_perm; [by rewrite Hp|]. rewrite Hl1. exact Hd.
  - intros k f. rewrite Hl1. apply upsert_rows_latest.
Qed.

(** [UpdateClientDisplayName] is an optimistic lock: with the current etag it
    renames the client and returns the next etag, and a second editor who read
    the same etag is refused with [ErrEtagMismatch] and changes nothing. *)
Theorem display_name_optimistic_lock id name1 name2 t n o :
  t_clients t !! id = Some o ->
  let '(r1, s1) := UpdateClientDisplayName id name1 (c_Etag o) (MkStore t [] n) in
  let '(r2, s2) := UpdateClientDisplayName id name2 (c_Etag o) s1 in
  r1 = Ok (c_Etag o + 1) /\ r2 = Err ErrEtagMismatch /\ db s2 = db s1 /\
  (exists c, t_clients (db s1) !! id = Some c /\ c_DisplayName c = name1 /\
     c_Etag c = c_Etag o + 1 /\ c_Hostname c = c_Hostname o) /\
  t_pairs (db s1) = t_pairs t /\ t_files (db s1) = t_files t.
Proof.
  intros Ho. rewrite UpdateClientDisplayName_eq, Ho, Z.eqb_refl. unfold renamed_client.
  rewrite UpdateClientDisplayName_eq. cbn [t_clients set_clients].
  rewrite lookup_insert_eq. cbn [c_Etag].
  replace (c_Etag o + 1 =? c_Etag o) with false by (symmetry; apply Z.eqb_neq; lia).
  cbn [db t_clients set_clients t_pairs t_files]. rewrite lookup_insert_eq. eauto 10.
Qed.

End Facts.

(** *** Witnesses *)
Section Witnesses.
Local Instance ticking : Clock := fun n => Z.of_nat n.

Definition two_clients : tables :=
  set_pairs (insert "p1" (MkSyncPair "p1" "docs" "a" "x" "b" "y" "bidirectional" true 0 0 0))
    (set_clients (insert "a" (MkClient "a" "old" "host" "" "" "" "online" 0 0 0 4)) empty_tables).
Definition at_time (t : Z) : FileState := MkFileState "p1" "a" "f" None None None t "write" false.

Lemma file_state_last_writer_wins_witness :
  t_files (db (snd (for_each [at_time 1; at_time 2] UpsertFileState (MkStore two_clients [] 0)))) =
  t_files (db (snd (for_each [at_time 2; at_time 1] UpsertFileState (MkStore two_clients [] 0)))).
Proof.
  apply (file_state_last_writer_wins [at_time 1; at_time 2] [at_time 2; at_time 1] two_clients 0).
  - apply perm_swap.
  - set_solver.
  - intros f [->|[->|[]%elem_of_nil]%elem_of_cons]%elem_of_cons; by eexists.
Defined.

Lemma display_name_optimistic_lock_witness :
  fst (UpdateClientDisplayName "a" "new" 4 (MkStore two_clients [] 0)) = Ok 5.
Proof.
  pose proof (display_name_optimistic_lock "a" "new" "newer" two_clients 0
    (MkClient "a" "old" "host" "" "" "" "online" 0 0 0 4) eq_refl) as H. cbn [c_Etag] in H.
  destruct (UpdateClientDisplayName "a" "new" 4 _) as [r s].
  destruct (UpdateClientDisplayName "a" "newer" 4 s). by destruct H as (-> & _).
Defined.
End Witnesses.
