(* ===== verification/Columns.v ===== *)
(** internal/server/store/sqlite.go: how rows travel between Go values and columns.

    A row is the list of its columns' values.  [Scan] converts each into the type of its
    destination, as database/sql does, or fails; the arguments of the [INSERT] statements
    are the other direction.  The statements themselves are in Store.v, on Go values: what
    is proved here is that nothing is lost on the way. *)
From S2P Require Import Prelude GoStrings Store.
Local Open Scope Z_scope.
Local Open Scope go_scope.

(** What the driver delivers for INTEGER, TEXT and NULL. *)
Inductive sqlval : Type := SInt (n : Z) | SText (s : string) | SNull.

(** A type that arguments and destinations may have. *)
Class Column (A : Type) := {
  column : A -> sqlval;
  convertAssign : sqlval -> result A
}.

Definition unsupported_null (type : string) : error := Errorf ("converting NULL to " +:+ type +:+ " is unsupported").

#[export] Instance string_column : Column string := {
  column := SText;
  convertAssign v := match v with
                     | SText s => Ok s
                     | SInt n => Ok (FormatInt n)
                     | SNull => Err (unsupported_null "string")
                     end
}.

#[export] Instance int_column : Column Z := {
  column := SInt;
  convertAssign v := match v with
                     | SInt n => Ok n
                     | SText s => match ParseInt s with
                                  | Some n => Ok n
                                  | None => Err (Errorf "converting driver.Value type string to a int64: invalid syntax")
                                  end
                     | SNull => Err (unsupported_null "int64")
                     end
}.

(** A pointer: nil is NULL. *)
#[export] Instance option_column `{!Column A} : Column (option A) := {
  column o := match o with Some a => column a | None => SNull end;
  convertAssign v := match v with
                     | SNull => Ok None
                     | _ => match convertAssign v with Ok a => Ok (Some a) | Err e => Err e end
                     end
}.

(** A conversion gives back what was written. *)
Class ColumnLaws (A : Type) `{!Column A} : Prop := convert_column (a : A) : convertAssign (column a) = Ok a.
#[export] Instance string_laws : ColumnLaws string. Proof. done. Qed.
#[export] Instance int_laws : ColumnLaws Z. Proof. done. Qed.

(** A pointer needs values that are not written as NULL. *)
Lemma option_laws `{!Column A} : ColumnLaws A -> (forall a : A, column a <> SNull) -> ColumnLaws (option A).
Proof.
  intros HA Hn [a|]; [|done]. unfold convertAssign, column, option_column. pose proof (HA a) as E. pose proof (Hn a) as H.
  destruct (column a); by rewrite ?E.
Qed.
#[export] Instance option_string_laws : ColumnLaws (option string). Proof. by apply option_laws. Qed.
#[export] Instance option_int_laws : ColumnLaws (option Z). Proof. by apply option_laws. Qed.

(** ** Scan *)
Notation sqlrow := (list sqlval).

(** One destination after another; [k] has what is left of the row. *)
Definition next_column {A B} `{!Column A} (k : A -> sqlrow -> result B) (r : sqlrow) : result B :=
  match r with
  | [] => Err (Errorf "sql: too few columns")
  | v :: r' => match convertAssign v with Ok a => k a r' | Err e => Err (Wrap "sql: Scan error" e) end
  end.
Definition scanned {B} (b : B) (r : sqlrow) : result B :=
  match r with [] => Ok b | _ => Err (Errorf "sql: too many columns") end.
Notation "'scan' x 'as' A ;; k" := (next_column (A:=A) (fun x => k)) (at level 100, x name, A at level 0, right associativity).

Definition wrap_scan {A} (what : string) (r : result A) : result A :=
  match r with Ok a => Ok a | Err e => Err (Wrap what e) end.

Definition scanClient (row : sqlrow) : result Client :=
  wrap_scan "scan client"
    ((scan id as string;; scan displayName as string;; scan hostname as string;; scan rootPath as string;;
      scan version as string;; scan protoVersion as string;; scan status as string;;
      scan lastSeen as Z;; scan createdAt as Z;; scan updatedAt as Z;; scan etag as Z;;
      scanned (MkClient id displayName hostname rootPath version protoVersion status lastSeen createdAt updatedAt etag)) row).

Definition scanPair (row : sqlrow) : result SyncPair :=
  wrap_scan "scan pair"
    ((scan id as string;; scan name as string;; scan clientA as string;; scan pathA as string;;
      scan clientB as string;; scan pathB as string;; scan direction as string;;
      scan enabled as Z;; scan createdAt as Z;; scan updatedAt as Z;; scan etag as Z;;
      scanned (MkSyncPair id name clientA pathA clientB pathB direction (negb (enabled =? 0)) createdAt updatedAt etag)) row).

Definition scanFileState (row : sqlrow) : result FileState :=
  wrap_scan "scan file state"
    ((scan pairID as string;; scan side as string;; scan relPath as string;; scan sha as (option string);;
      scan size as (option Z);; scan modTime as (option Z);; scan serverModTime as Z;; scan op as string;;
      scan isDir as Z;;
      scanned (MkFileState pairID side relPath sha size modTime serverModTime op (negb (isDir =? 0)))) row).

Definition scanSyncRun (row : sqlrow) : result SyncRun :=
  wrap_scan "scan sync run"
    ((scan id as Z;; scan pairID as string;; scan src as string;; scan dst as string;; scan relPath as string;;
      scan sha as (option string);; scan bytes as Z;; scan status as string;; scan err as (option string);;
      scan startedAt as Z;; scan finishedAt as Z;;
      scanned (MkSyncRun id pairID src dst relPath sha bytes status err startedAt finishedAt)) row).

Definition scanAuditEntry (row : sqlrow) : result AuditEntry :=
  wrap_scan "scan audit entry"
    ((scan ts as Z;; scan kind as string;; scan clientID as (option string);; scan pairID as (option string);;
      scan relPath as (option string);; scan detail as (option string);;
      scanned (MkAuditEntry ts kind clientID pairID relPath detail)) row).

(** What a query's rows are: those that arrive, and the error they break off with. *)
Record sqlrows : Type := MkRows { rs_rows : list sqlrow; rs_Err : option error }.

(** The loop over [rows.Next]. *)
Fixpoint scan_all {A} (scan1 : sqlrow -> result A) (l : list sqlrow) : result (list A) :=
  match l with
  | [] => Ok []
  | r :: l' => match scan1 r with
               | Err e => Err e
               | Ok a => match scan_all scan1 l' with Ok as' => Ok (a :: as') | Err e => Err e end
               end
  end.
Definition scan_rows {A} (what : string) (scan1 : sqlrow -> result A) (rs : sqlrows) : result (list A) :=
  match scan_all scan1 (rs_rows rs) with
  | Err e => Err e
  | Ok l => match rs_Err rs with Some e => Err (Wrap what e) | None => Ok l end
  end.

Definition scanClients : sqlrows -> result (list Client) := scan_rows "iterate clients" scanClient.
Definition scanPairs : sqlrows -> result (list SyncPair) := scan_rows "iterate pairs" scanPair.
Definition scanFileStates : sqlrows -> result (list FileState) := scan_rows "iterate file states" scanFileState.
Definition scanSyncRuns : sqlrows -> result (list SyncRun) := scan_rows "iterate sync runs" scanSyncRun.
Definition scanAuditEntries : sqlrows -> result (list AuditEntry) := scan_rows "iterate audit entries" scanAuditEntry.

(** ** Arguments of the statements that write a row *)
Definition of_bool (b : bool) : Z := if b then 1 else 0.

Definition client_args (c : Client) : sqlrow :=
  [column (c_ID c); column (c_DisplayName c); column (c_Hostname c); column (c_RootPath c); column (c_Version c);
   column (c_ProtoVersion c); column (c_Status c); column (c_LastSeen c); column (c_CreatedAt c);
   column (c_UpdatedAt c); column (c_Etag c)].
Definition pair_args (p : SyncPair) : sqlrow :=
  [column (p_ID p); column (p_Name p); column (p_ClientAID p); column (p_PathA p); column (p_ClientBID p);
   column (p_PathB p); column (p_Direction p); column (of_bool (p_Enabled p)); column (p_CreatedAt p);
   column (p_UpdatedAt p); column (p_Etag p)].
Definition file_args (f : FileState) : sqlrow :=
  [column (fs_PairID f); column (fs_Side f); column (fs_RelPath f); column (fs_SHA256 f); column (fs_Size f);
   column (fs_ModTime f); column (fs_ServerModTime f); column (fs_Op f); column (of_bool (fs_IsDir f))].
(** The id is the database's. *)
Definition run_args (r : SyncRun) : sqlrow :=
  [column (r_PairID r); column (r_SrcClientID r); column (r_DstClientID r); column (r_RelPath r); column (r_SHA256 r);
   column (r_Bytes r); column (r_Status r); column (r_Error r); column (r_StartedAt r); column (r_FinishedAt r)].
Definition audit_args (a : AuditEntry) : sqlrow :=
  [column (a_TS a); column (a_Kind a); column (a_ClientID a); column (a_PairID a); column (a_RelPath a); column (a_Detail a)].

(** ** Round trips *)
Lemma next_column_eq {A B} `{!Column A, !ColumnLaws A} (k : A -> sqlrow -> result B) (a : A) (r : sqlrow) :
  next_column k (column a :: r) = k a r.
Proof. unfold next_column. by rewrite convert_column. Qed.

Lemma of_bool_back b : negb (of_bool b =? 0) = b.
Proof. by destruct b. Qed.

Ltac scan_back := unfold scanClient, scanPair, scanFileState, scanSyncRun, scanAuditEntry;
  rewrite !next_column_eq, ?of_bool_back.

Lemma scanClient_args c : scanClient (client_args c) = Ok c.
Proof. unfold client_args. scan_back. by destruct c. Qed.
Lemma scanPair_args p : scanPair (pair_args p) = Ok p.
Proof. unfold pair_args. scan_back. by destruct p. Qed.
Lemma scanFileState_args f : scanFileState (file_args f) = Ok f.
Proof. unfold file_args. scan_back. by destruct f. Qed.
Lemma scanSyncRun_args r : scanSyncRun (column (r_ID r) :: run_args r) = Ok r.
Proof. unfold run_args. scan_back. by destruct r. Qed.
Lemma scanAuditEntry_args a : scanAuditEntry (audit_args a) = Ok a.
Proof. unfold audit_args. scan_back. by destruct a. Qed.

Lemma scan_rows_args {A} (what : string) (scan1 : sqlrow -> result A) (args : A -> sqlrow) (l : list A) (err : option error) :
  (forall a, scan1 (args a) = Ok a) ->
  scan_rows what scan1 (MkRows (map args l) err) = match err with None => Ok l | Some e => Err (Wrap what e) end.
Proof.
  intros H. unfold scan_rows. cbn. assert (scan_all scan1 (map args l) = Ok l) as ->; [|done].
  induction l as [|a l IH]; [done|]. cbn. by rewrite H, IH.
Qed.

(** C40. What is written to the database is what is read back: for each of the five tables,
    the columns a row is written with are scanned into the row they came from, in order;
    rows that break off with an error give that error and no rows at all. *)
Theorem rows_roundtrip (cs : list Client) (ps : list SyncPair) (fs : list FileState) (rs : list SyncRun)
    (es : list AuditEntry) (err : option error) :
  let read {A} (what : string) (l : list A) := match err with None => Ok l | Some e => Err (Wrap what e) end in
  scanClients (MkRows (map client_args cs) err) = read "iterate clients" cs /\
  scanPairs (MkRows (map pair_args ps) err) = read "iterate pairs" ps /\
  scanFileStates (MkRows (map file_args fs) err) = read "iterate file states" fs /\
  scanSyncRuns (MkRows (map (fun r => column (r_ID r) :: run_args r) rs) err) = read "iterate sync runs" rs /\
  scanAuditEntries (MkRows (map audit_args es) err) = read "iterate audit entries" es.
Proof.
  split; [|split; [|split; [|split]]]; apply scan_rows_args;
    auto using scanClient_args, scanPair_args, scanFileState_args, scanSyncRun_args, scanAuditEntry_args.
Qed.

(** A NULL where the schema does not let one be fails the whole query. *)
Lemma null_id_fails (r : sqlrow) (l : list sqlrow) (err : option error) :
  scanClients (MkRows ((SNull :: r) :: l) err) =
  Err (Wrap "scan client" (Wrap "sql: Scan error" (unsupported_null "string"))).
Proof. done. Qed.
