(* ===== verification/Lww.v ===== *)
(** internal/server/syncengine: the last-writer-wins decision (lww.go) and the
    targets of a one-way mirror (mirror.go). *)
From S2P Require Import Prelude GoStrings Store.
Local Open Scope Z_scope.

(** [5 * time.Second] *)
Definition defaultConflictWindowNs : Z := 5 * 1000000000.

Inductive LWWAction : Type :=
| LWWActionNone | LWWActionDispatch | LWWActionConflict | LWWActionDeleteWins | LWWActionEditWins.
#[export] Instance LWWAction_eq_dec : EqDecision LWWAction. Proof. solve_decision. Defined.

Record LWWDecision : Type := MkLWWDecision {
  dec_Action : LWWAction;
  dec_OtherSide : string; dec_OtherClient : string; dec_OtherPath : string;
  dec_LosingSHA : string; dec_LosingMTime : Z
}.

(** [LWWDecision{Action: a}] *)
Definition decision (a : LWWAction) : LWWDecision := MkLWWDecision a "" "" "" "" 0.

Definition otherSide (s : string) : string := if bool_decide (s = "a") then "b" else "a".

Record fileStateView : Type := MkView {
  v_Op : string; v_SHA256 : option string; v_ServerModTime : Z
}.

Definition toView (fs : FileState) : fileStateView :=
  MkView (fs_Op fs) (fs_SHA256 fs) (fs_ServerModTime fs).

(** [x := a - b; if x < 0 { x = -x }] on int64. *)
Definition abs_diff64 (a b : Z) : Z :=
  let diff := wrap64 (a - b) in if diff <? 0 then wrap64 (- diff) else diff.

Definition same_sha (a b : option string) : bool :=
  match a, b with Some x, Some y => bool_decide (x = y) | _, _ => false end.

Definition decideLWW (srcSide : string) (ev : fileStateView) (otherState : option fileStateView)
    (conflictWindowNs : Z) : LWWDecision :=
  match otherState with
  | None => decision LWWActionDispatch
  | Some o =>
      let evOp := v_Op ev in
      let otherOp := v_Op o in
      if bool_decide (evOp = "delete") && bool_decide (otherOp = "delete")
      then decision LWWActionNone
      else if bool_decide (evOp = "delete") && bool_decide (otherOp = "write")
      then decision LWWActionEditWins
      else if bool_decide (evOp = "write") && bool_decide (otherOp = "delete")
      then decision LWWActionEditWins
      else if same_sha (v_SHA256 ev) (v_SHA256 o)
      then decision LWWActionNone
      else if abs_diff64 (v_ServerModTime ev) (v_ServerModTime o) <? conflictWindowNs
      then decision LWWActionConflict
      else decision LWWActionDispatch
  end.

(** ** Mirror targets *)
Record Target : Type := MkTarget { tg_ClientID : string; tg_Side : string; tg_Path : string }.

Definition resolveMirrorTargets (p : SyncPair) (srcSide : string) : list Target :=
  if bool_decide (p_Direction p = "a_to_b") then
    if bool_decide (srcSide = "a") then [MkTarget (p_ClientBID p) "b" (p_PathB p)] else []
  else if bool_decide (p_Direction p = "b_to_a") then
    if bool_decide (srcSide = "b") then [MkTarget (p_ClientAID p) "a" (p_PathA p)] else []
  else [].

Definition pathFor (pair : SyncPair) (side : string) : string :=
  if bool_decide (side = "a") then p_PathA pair else p_PathB pair.

(** ** Properties of the decision *)

(** The views the engine compares: operations are "write" or "delete" and times are
    wall-clock nanoseconds after the epoch. *)
Definition view_ok (v : fileStateView) : Prop :=
  (v_Op v = "write" \/ v_Op v = "delete") /\ 0 <= v_ServerModTime v <= int64_max.

Lemma abs_diff64_ok a b :
  0 <= a <= int64_max -> 0 <= b <= int64_max -> abs_diff64 a b = Z.abs (a - b).
Proof.
  intros Ha Hb. unfold abs_diff64, int64_max in *.
  rewrite wrap64_id by (unfold int64_min, int64_max; lia).
  destruct (a - b <? 0) eqn:E; [apply Z.ltb_lt in E|apply Z.ltb_ge in E].
  - rewrite wrap64_id by (unfold int64_min, int64_max; lia). lia.
  - lia.
Qed.

Lemma abs_diff64_sym a b :
  0 <= a <= int64_max -> 0 <= b <= int64_max -> abs_diff64 a b = abs_diff64 b a.
Proof. intros. rewrite !abs_diff64_ok by done. lia. Qed.

Lemma same_sha_sym a b : same_sha a b = same_sha b a.
Proof. destruct a as [x|], b as [y|]; simpl; try done. apply bool_decide_ext. split; congruence. Qed.

Lemma same_sha_true a b : same_sha a b = true <-> exists x, a = Some x /\ b = Some x.
Proof.
  destruct a as [x|], b as [y|]; simpl; rewrite ?bool_decide_eq_true; naive_solver.
Qed.

Lemma decideLWW_table side ev o w :
  view_ok ev -> view_ok o ->
  dec_Action (decideLWW side ev (Some o) w) =
  (if bool_decide (v_Op ev = v_Op o) then
     if bool_decide (v_Op ev = "delete") || same_sha (v_SHA256 ev) (v_SHA256 o) then LWWActionNone
     else if Z.abs (v_ServerModTime ev - v_ServerModTime o) <? w then LWWActionConflict
     else LWWActionDispatch
   else LWWActionEditWins).
Proof.
  intros [Hev Ht1] [Ho Ht2]. unfold decideLWW. rewrite abs_diff64_ok by done.
  destruct Hev as [->| ->], Ho as [->| ->]; cbn; repeat case_match; done.
Qed.
