(* ===== verification/Engine.v ===== *)
(** internal/server/syncengine: the engine (engine.go), conflict handling
    (conflict.go), snapshot reconciliation (diff.go) and pair subscriptions
    (subscriber.go).

    The engine runs on a [world]: the store, and the network behind its [Sender]
    interface, of which it knows only [Sender] and the laws [SenderLaws].  A method
    is a program of the state-and-error monad; what it only logs is dropped.
    [HandleFileChanged] holds the pair's mutex from its first line to its return, so
    for one pair it is one step. *)
From S2P Require Import Prelude GoStrings Json Proto Store Lww.
Local Open Scope Z_scope.
Local Open Scope go_scope.

(** ** The [Sender] interface *)
Class Sender (N : Type) := net_send : string -> Envelope -> M N unit.

(** What the engine may assume of a sender: [net_up n c] tells whether a message for
    client [c] can be written, [net_log n] is what has been written so far; a send
    either appends to the log or fails and leaves it, and never changes who is up. *)
Class SenderLaws (N : Type) `{!Sender N} := {
  net_log : N -> list (string * Envelope);
  net_up : N -> string -> bool;
  net_send_ok c e n : net_up n c = true ->
    exists n', net_send c e n = (Ok tt, n') /\ net_log n' = net_log n ++ [(c, e)] /\
               net_up n' = net_up n;
  net_send_fail c e n : net_up n c = false ->
    exists err n', net_send c e n = (Err err, n') /\ net_log n' = net_log n /\
                   net_up n' = net_up n
}.

Record world (N : Type) : Type := MkWorld { w_store : store; w_net : N }.
Arguments MkWorld {N} _ _.
Arguments w_store {N} _.
Arguments w_net {N} _.

Section Engine.
Context {N : Type} `{!Sender N} {clk : Clock}.
Notation W := (world N).

Definition on_store {A} (m : M store A) : M W A := fun w =>
  let '(r, s) := m (w_store w) in (r, MkWorld s (w_net w)).

(** [e.sender.Send] *)
Definition Send (clientID : string) (e : Envelope) : M W unit := fun w =>
  let '(r, n) := net_send clientID e (w_net w) in (r, MkWorld (w_store w) n).

Definition lift {A} (r : result A) : M W A :=
  match r with Ok a => ret a | Err e => throw e end.

(** [proto.MarshalPayload], its error wrapped with [ctx]. *)
Definition marshal {A} `{!JsonCodec A} (ctx : string) (v : A) : M W RawMessage :=
  wrapped ctx (lift (MarshalPayload v)).

(** *** Audit and run records *)
Definition audit (kind : string) (clientID pairID relPath : option string) (detail : string)
  : M W unit :=
  t <- on_store now;;
  _ <-? on_store (AppendAuditLog (MkAuditEntry t kind clientID pairID relPath
          (if bool_decide (detail = "") then None else Some detail)));;
  ret tt.

Definition auditConflictDetected (pairID relPath : string) : M W unit :=
  audit "conflict_detected" None (Some pairID) (Some relPath) "".
Definition auditConflictRenamed (pairID relPath newName : string) : M W unit :=
  audit "conflict_renamed" None (Some pairID) (Some relPath)
    (json_text (JObj [("new_name", JStr newName)])).
Definition auditDeleteVsEdit (pairID relPath srcClient : string) : M W unit :=
  audit "delete_vs_edit" None (Some pairID) (Some relPath)
    (json_text (JObj [("deleted_by", JStr srcClient)])).

Definition recordSyncRun (pair : SyncPair) (src dst rel sha status errMsg : string) : M W unit :=
  t <- on_store now;;
  _ <-? on_store (InsertSyncRun (MkSyncRun 0 (p_ID pair) src dst rel
          (if bool_decide (sha = "") then None else Some sha) 0 status
          (if bool_decide (errMsg = "") then None else Some errMsg) t t));;
  ret tt.

(** *** Dispatching one command *)
Definition command_for (pair : SyncPair) (t : Target) (srcClientID : string)
    (ev : FileChangedEvent) : FileSyncCommand :=
  MkFileSyncCommand (p_ID pair) (tg_Side t) (ev_RelPath ev) (ev_SHA256 ev)
    (if bool_decide (ev_Op ev = "delete") then "delete" else "fetch") "" srcClientID.

Definition dispatchSync (srcClientID : string) (pair : SyncPair) (t : Target)
    (ev : FileChangedEvent) : M W unit :=
  payload <- marshal "marshal payload" (command_for pair t srcClientID ev);;
  Send (tg_ClientID t) (MkEnvelope TypeFileSyncCommand "" payload);;
  recordSyncRun pair srcClientID (tg_ClientID t) (ev_RelPath ev) (ev_SHA256 ev) "ok" "".

Definition dispatchFetch (srcClientID : string) (pair : SyncPair) (t : Target)
    (relPath sha : string) : M W unit :=
  payload <- marshal "marshal fetch payload"
    (MkFileSyncCommand (p_ID pair) (tg_Side t) relPath sha "fetch" "" srcClientID);;
  Send (tg_ClientID t) (MkEnvelope TypeFileSyncCommand "" payload).

(** *** Conflicts *)
Definition conflictFilename (rel clientID : string) (ts : Z) : string :=
  rel +:+ ".conflict-" +:+ stake 8 clientID +:+ "-" +:+ FormatInt ts.

Definition dispatchConflict (pair : SyncPair) (winnerSide : string) (winner : FileState)
    (loserSide loserClient loserSHA : string) : M W unit :=
  let loserName := fs_RelPath winner in
  n <- on_store now;;
  let newName := conflictFilename loserName loserClient n in
  payload <- marshal "marshal rename"
    (MkFileSyncCommand (p_ID pair) loserSide loserName "" "rename" newName loserClient);;
  wrapped "send rename" (Send loserClient (MkEnvelope TypeFileSyncCommand "" payload));;
  let winnerSHA := default "" (fs_SHA256 winner) in
  payload <- marshal "marshal loser fetch"
    (MkFileSyncCommand (p_ID pair) loserSide loserName winnerSHA "fetch" "" loserClient);;
  wrapped "send loser fetch" (Send loserClient (MkEnvelope TypeFileSyncCommand "" payload));;
  let winnerClient := if bool_decide (winnerSide = "b") then p_ClientBID pair else p_ClientAID pair in
  payload <- marshal "marshal winner fetch"
    (MkFileSyncCommand (p_ID pair) winnerSide loserName winnerSHA "fetch" "" winnerClient);;
  wrapped "send winner fetch" (Send winnerClient (MkEnvelope TypeFileSyncCommand "" payload));;
  auditConflictRenamed (p_ID pair) loserName newName.

(** *** Bidirectional pairs *)
Definition handleEditWins (srcClientID : string) (pair : SyncPair) (ev : FileChangedEvent)
    (src : FileState) (otherState : option FileState)
    (otherClient otherSideName otherPath : string) : M W unit :=
  if bool_decide (ev_Op ev = "write")
  then dispatchSync srcClientID pair (MkTarget otherClient otherSideName otherPath) ev
  else
    auditDeleteVsEdit (p_ID pair) (ev_RelPath ev) srcClientID;;
    match otherState with
    | Some o =>
        match fs_SHA256 o with
        | Some sha => dispatchFetch otherClient pair
                        (MkTarget srcClientID (ev_Side ev) (pathFor pair (ev_Side ev)))
                        (ev_RelPath ev) sha
        | None => ret tt
        end
    | None => ret tt
    end.

Definition other_client (pair : SyncPair) (otherSideName : string) : string :=
  if bool_decide (otherSideName = "b") then p_ClientBID pair else p_ClientAID pair.
Definition other_path (pair : SyncPair) (otherSideName : string) : string :=
  if bool_decide (otherSideName = "b") then p_PathB pair else p_PathA pair.

(** [otherState], nil when there is no row. *)
Definition get_other_state (pair : SyncPair) (side relPath : string) : M W (option FileState) :=
  r <-? on_store (GetFileState (p_ID pair) side relPath);;
  match r with
  | Ok st => ret st
  | Err e => if errors_Is e ErrNoRows then ret None else throw (Wrap "get other side state" e)
  end.

Definition handleBidirectional (srcClientID : string) (pair : SyncPair) (ev : FileChangedEvent)
    (src : FileState) : M W unit :=
  let otherSideName := otherSide (ev_Side ev) in
  otherState <- get_other_state pair otherSideName (ev_RelPath ev);;
  let otherClient := other_client pair otherSideName in
  let otherPath := other_path pair otherSideName in
  match dec_Action (decideLWW (ev_Side ev) (toView src) (toView <$> otherState)
                      defaultConflictWindowNs) with
  | LWWActionNone => ret tt
  | LWWActionDispatch =>
      dispatchSync srcClientID pair (MkTarget otherClient otherSideName otherPath) ev
  | LWWActionEditWins =>
      handleEditWins srcClientID pair ev src otherState otherClient otherSideName otherPath
  | LWWActionConflict =>
      auditConflictDetected (p_ID pair) (ev_RelPath ev);;
      match otherState with
      | Some o =>
          if fs_ServerModTime o <=? fs_ServerModTime src
          then dispatchConflict pair (ev_Side ev) src otherSideName otherClient
                 (default "" (fs_SHA256 o))
          else dispatchConflict pair otherSideName o (ev_Side ev) srcClientID (ev_SHA256 ev)
      | None => throw (Errorf "runtime error: invalid memory address or nil pointer dereference")
      end
  | LWWActionDeleteWins => ret tt
  end.

(** *** The entry point *)
Definition file_state_of (ev : FileChangedEvent) (n : Z) : FileState :=
  MkFileState (ev_PairID ev) (ev_Side ev) (ev_RelPath ev)
    (if bool_decide (ev_SHA256 ev = "") then None else Some (ev_SHA256 ev))
    (if 0 <? ev_Size ev then Some (ev_Size ev) else None)
    (Some (ev_ModTime ev)) n (ev_Op ev) (ev_IsDir ev).

Definition upsertFileState (ev : FileChangedEvent) : M W FileState :=
  n <- on_store now;;
  let fs := file_state_of ev n in
  wrapped "upsert file_state" (on_store (UpsertFileState fs));;
  ret fs.

Definition mirror_dispatch (srcClientID : string) (pair : SyncPair) (ev : FileChangedEvent)
  : M W unit :=
  for_each (resolveMirrorTargets pair (ev_Side ev)) (fun t =>
    r <-? dispatchSync srcClientID pair t ev;;
    match r with
    | Ok _ => ret tt
    | Err e => recordSyncRun pair srcClientID (tg_ClientID t) (ev_RelPath ev) (ev_SHA256 ev)
                 "failed" (error_text e)
    end).

Definition HandleFileChanged (srcClientID : string) (ev : FileChangedEvent) : M W unit :=
  r <-? on_store (GetPair (ev_PairID ev));;
  match r with
  | Err e =>
      if errors_Is e ErrNoRows then ret tt
      else throw (Wrap ("get pair " +:+ ev_PairID ev) e)
  | Ok None => ret tt
  | Ok (Some pr) =>
      fs <- upsertFileState ev;;
      if negb (p_Enabled pr) then ret tt
      else if bool_decide (p_Direction pr = "bidirectional")
      then handleBidirectional srcClientID pr ev fs
      else if bool_decide (p_Direction pr = "a_to_b") || bool_decide (p_Direction pr = "b_to_a")
      then mirror_dispatch srcClientID pr ev
      else throw (Errorf ("unknown direction: " +:+ p_Direction pr))
  end.

(** [HandleFileSyncAck] does nothing. *)
Definition HandleFileSyncAck (clientID : string) (a : FileSyncAck) : M W unit := ret tt.

(** *** Snapshot reconciliation (diff.go) *)
Definition write_event (pairID side : string) (snap : FileSnapshot) : FileChangedEvent :=
  MkFileChangedEvent pairID side (snap_RelPath snap) (snap_SHA256 snap) (snap_Size snap)
    (snap_ModTime snap) "write" false.
Definition delete_event (pairID side relPath : string) : FileChangedEvent :=
  MkFileChangedEvent pairID side relPath "" 0 0 "delete" false.

Definition by_path {A} (f : A -> string) (l : list A) : gmap string A :=
  foldl (fun m x => <[f x := x]> m) ∅ l.

Definition need_update (dbByPath : gmap string FileState) (snap : FileSnapshot) : bool :=
  match dbByPath !! snap_RelPath snap with
  | None => true
  | Some st => match fs_SHA256 st with
               | Some sha => negb (bool_decide (sha = snap_SHA256 snap))
               | None => false
               end
  end.

Definition diff_snapshot (clientID pairID side : string) (dbByPath : gmap string FileState)
    (snap : FileSnapshot) : M W unit :=
  if snap_IsDir snap then ret tt
  else if negb (need_update dbByPath snap) then ret tt
  else HandleFileChanged clientID (write_event pairID side snap).

Definition diff_db_state (clientID pairID side : string) (clientByPath : gmap string FileSnapshot)
    (st : FileState) : M W unit :=
  if fs_IsDir st then ret tt
  else match clientByPath !! fs_RelPath st with
  | Some _ => ret tt
  | None =>
      if bool_decide (fs_Op st = "delete") then ret tt
      else HandleFileChanged clientID (delete_event pairID side (fs_RelPath st))
  end.

Definition applyDiff (clientID pairID side : string) (snapshots : list FileSnapshot) : M W unit :=
  dbStates <- on_store (ListFileStates pairID side);;
  let dbByPath := by_path fs_RelPath dbStates in
  let clientByPath := by_path snap_RelPath snapshots in
  for_each snapshots (diff_snapshot clientID pairID side dbByPath);;
  for_each dbStates (diff_db_state clientID pairID side clientByPath).

(** [requester] is [SyncRequester.SendAndWait] with its 30 s timeout, [corrID] the
    fresh UUID of the request. *)
Definition RequestSnapshotAndDiff (requester : string -> Envelope -> M W Envelope)
    (corrID clientID pairID side : string) : M W unit :=
  pair <- on_store (GetPair pairID);;
  match pair with
  | None => ret tt
  | Some _ =>
      payload <- marshal "marshal list files request" (MkListFilesRequest pairID side);;
      respEnv <- wrapped "send list files"
                   (requester clientID (MkEnvelope TypeListFilesRequest corrID payload));;
      resp <- lift (UnmarshalPayload (A:=ListFilesResponse) (env_Payload respEnv));;
      applyDiff clientID pairID side (default [] (lfr_Entries resp))
  end.

(** *** Subscriptions (subscriber.go) *)
Definition sideAndPathFor (p : SyncPair) (clientID : string) : string * string :=
  if bool_decide (clientID = p_ClientAID p) then ("a", p_PathA p)
  else if bool_decide (clientID = p_ClientBID p) then ("b", p_PathB p)
  else ("", "").

Definition sendSubscribe (clientID : string) (p : SyncPair) (side path : string) : M W unit :=
  payload <- lift (MarshalPayload (MkSubscribePair (p_ID p) side path (p_Direction p)));;
  Send clientID (MkEnvelope TypeSubscribePair "" payload).

Definition PublishSubscriptions (clientID : string) : M W unit :=
  pairs <- wrapped ("list pairs for client " +:+ clientID) (on_store (ListPairsForClient clientID));;
  for_each pairs (fun p =>
    if negb (p_Enabled p) then ret tt
    else let '(side, path) := sideAndPathFor p clientID in
         if bool_decide (side = "") then ret tt
         else sendSubscribe clientID p side path).

Definition PublishPairUnsubscribe (pairID : string) : M W unit :=
  pair <- wrapped ("get pair " +:+ pairID) (on_store (GetPair pairID));;
  match pair with
  | None => ret tt
  | Some pr =>
      for_each [p_ClientAID pr; p_ClientBID pr] (fun clientID =>
        let '(side, _) := sideAndPathFor pr clientID in
        payload <- lift (MarshalPayload (MkSubscribePair (p_ID pr) side "" ""));;
        Send clientID (MkEnvelope TypeSubscribePair "" payload))
  end.

Definition PublishPairUpdate (pairID : string) : M W unit :=
  pair <- wrapped ("get pair " +:+ pairID) (on_store (GetPair pairID));;
  match pair with
  | None => ret tt
  | Some pr =>
      if negb (p_Enabled pr) then PublishPairUnsubscribe pairID
      else for_each [p_ClientAID pr; p_ClientBID pr] (fun clientID =>
        let '(side, path) := sideAndPathFor pr clientID in
        sendSubscribe clientID pr side path)
  end.
End Engine.
