(* ===== verification/EngineFacts.v ===== *)
(** Lemmas on the engine's programs: what each sends and records when no statement
    fails ([runs_to]), and what every one of them leaves alone, failures included
    ([engine_frame]). *)
From S2P Require Import Prelude GoStrings Json Proto Store StoreFacts Lww Engine.
Local Open Scope Z_scope.
Local Open Scope go_scope.

Section EngineFacts.
Context {N : Type} `{HS : !Sender N} `{HL : !SenderLaws N} {clk : Clock}.
Notation W := (world N).

(** The world with content [t], no failure to come, [n] clock readings made. *)
Definition quiet (t : tables) (n : nat) (net : N) : W := MkWorld (MkStore t [] n) net.

(** [m] started in [quiet t n net] returns [r], leaves the content [t'] after
    reading the clock up to [n'], and has sent exactly [msgs], in this order. *)
Definition runs_to {A} (m : M W A) (t : tables) (n : nat) (net : N)
    (r : result A) (t' : tables) (n' : nat) (msgs : list (string * Envelope)) : Prop :=
  exists net', m (quiet t n net) = (r, quiet t' n' net') /\
    net_log net' = net_log net ++ msgs /\ net_up net' = net_up net.

Lemma runs_to_done {A} (m : M W A) t n net r t' n' :
  m (quiet t n net) = (r, quiet t' n' net) -> runs_to m t n net r t' n' [].
Proof. intros H. exists net. by rewrite app_nil_r. Qed.

Lemma runs_to_ret {A} (a : A) t n net : runs_to (ret a) t n net (Ok a) t n [].
Proof. by apply runs_to_done. Qed.

Lemma runs_to_bind {A B} (m : M W A) (k : A -> M W B) t n net a t1 n1 l1 r t2 n2 l2 :
  runs_to m t n net (Ok a) t1 n1 l1 ->
  (forall net1, net_up net1 = net_up net -> runs_to (k a) t1 n1 net1 r t2 n2 l2) ->
  runs_to (bind m k) t n net r t2 n2 (l1 ++ l2).
Proof.
  intros (net1 & H1 & Hl1 & Hu1) Hk. destruct (Hk net1 Hu1) as (net2 & H2 & Hl2 & Hu2).
  exists net2. unfold bind. rewrite H1, H2, Hl2, Hl1, app_assoc. repeat split; congruence.
Qed.

Lemma runs_to_bind_err {A B} (m : M W A) (k : A -> M W B) t n net e t1 n1 l1 :
  runs_to m t n net (Err e) t1 n1 l1 -> runs_to (bind m k) t n net (Err e) t1 n1 l1.
Proof. intros (net1 & H1 & ? & ?). exists net1. unfold bind. by rewrite H1. Qed.

Lemma runs_to_try {A B} (m : M W A) (k : result A -> M W B) t n net r1 t1 n1 l1 r t2 n2 l2 :
  runs_to m t n net r1 t1 n1 l1 ->
  (forall net1, net_up net1 = net_up net -> runs_to (k r1) t1 n1 net1 r t2 n2 l2) ->
  runs_to (try m k) t n net r t2 n2 (l1 ++ l2).
Proof.
  intros (net1 & H1 & Hl1 & Hu1) Hk. destruct (Hk net1 Hu1) as (net2 & H2 & Hl2 & Hu2).
  exists net2. unfold try. rewrite H1, H2, Hl2, Hl1, app_assoc. repeat split; congruence.
Qed.

Lemma runs_to_wrapped {A} p (m : M W A) t n net a t' n' l :
  runs_to m t n net (Ok a) t' n' l -> runs_to (wrapped p m) t n net (Ok a) t' n' l.
Proof. intros (net' & H & ? & ?). exists net'. unfold wrapped. by rewrite H. Qed.

(** One step of a program: a first part that sends nothing, or one message. *)
Ltac step := eapply (runs_to_bind _ _ _ _ _ _ _ _ []).
Ltac step_send := eapply (runs_to_bind _ _ _ _ _ tt _ _ [_]).

(** *** Primitive steps *)
Lemma runs_now t n net : runs_to (on_store now) t n net (Ok (clock n)) t (S n) [].
Proof. by apply runs_to_done. Qed.

Lemma runs_marshal {A} `{!JsonCodec A} ctx (v : A) t n net :
  runs_to (marshal ctx v) t n net (Ok (Some (encode_json v))) t n [].
Proof. by apply runs_to_done. Qed.

Lemma runs_send_up c e t n net :
  net_up net c = true -> runs_to (Send c e) t n net (Ok tt) t n [(c, e)].
Proof.
  intros H. destruct (net_send_ok c e net H) as (net' & Hs & Hl & Hu).
  exists net'. unfold Send, quiet. cbn. by rewrite Hs.
Qed.

Lemma runs_send_down c e t n net :
  net_up net c = false -> exists err, runs_to (Send c e) t n net (Err err) t n [].
Proof.
  intros H. destruct (net_send_fail c e net H) as (err & net' & Hs & Hl & Hu).
  exists err, net'. unfold Send, quiet. cbn. by rewrite Hs, app_nil_r.
Qed.

Lemma runs_audit kind c p r d t n net :
  runs_to (audit kind c p r d) t n net (Ok tt)
    (set_audit (fun l => l ++ [MkAuditEntry (clock n) kind c p r
       (if bool_decide (d = "") then None else Some d)]) t) (S n) [].
Proof. by apply runs_to_done. Qed.

(** A run row of the engine, as it is stored. *)
Definition run_row (id : Z) (pairID src dst rel sha status errMsg : string) (ts : Z) : SyncRun :=
  MkSyncRun id pairID src dst rel (if bool_decide (sha = "") then None else Some sha) 0 status
    (if bool_decide (errMsg = "") then None else Some errMsg) ts ts.

Definition add_run (row : Z -> SyncRun) (t : tables) : tables :=
  MkTables (t_clients t) (t_pairs t) (t_files t) (t_runs t ++ [row (t_next_run t)])
    (t_next_run t + 1) (t_audit t) (t_settings t).

Lemma runs_record p src dst rel sha status err t n net :
  is_Some (t_pairs t !! p_ID p) ->
  runs_to (recordSyncRun p src dst rel sha status err) t n net (Ok tt)
    (add_run (fun id => run_row id (p_ID p) src dst rel sha status err (clock n)) t) (S n) [].
Proof.
  intros [q Hq]. apply runs_to_done.
  unfold recordSyncRun, on_store, InsertSyncRun, bind, try, wrapped, sql, now, quiet. cbn.
  rewrite Hq. done.
Qed.

(** *** Commands *)
Definition command_envelope (c : FileSyncCommand) : Envelope :=
  MkEnvelope TypeFileSyncCommand "" (Some (encode_json c)).

Definition ok_run (p : SyncPair) (src dst : string) (ev : FileChangedEvent) (ts id : Z) : SyncRun :=
  run_row id (p_ID p) src dst (ev_RelPath ev) (ev_SHA256 ev) "ok" "" ts.

Lemma runs_dispatchSync src p tg ev t n net :
  net_up net (tg_ClientID tg) = true -> is_Some (t_pairs t !! p_ID p) ->
  runs_to (dispatchSync src p tg ev) t n net (Ok tt)
    (add_run (ok_run p src (tg_ClientID tg) ev (clock n)) t) (S n)
    [(tg_ClientID tg, command_envelope (command_for p tg src ev))].
Proof.
  intros Hup Hp. step; [apply runs_marshal|]. intros net1 Hn1.
  step_send; [apply runs_send_up; congruence|]. intros net2 Hn2. by apply runs_record.
Qed.

Lemma runs_dispatchSync_down src p tg ev t n net :
  net_up net (tg_ClientID tg) = false ->
  exists err, runs_to (dispatchSync src p tg ev) t n net (Err err) t n [].
Proof.
  intros Hup.
  destruct (runs_send_down (tg_ClientID tg) (command_envelope (command_for p tg src ev)) t n net Hup)
    as [err Hs].
  exists err. by apply (runs_to_bind_err (Send _ (command_envelope (command_for p tg src ev)))).
Qed.

Lemma runs_dispatchFetch src p tg rel sha t n net :
  net_up net (tg_ClientID tg) = true ->
  runs_to (dispatchFetch src p tg rel sha) t n net (Ok tt) t n
    [(tg_ClientID tg, command_envelope
        (MkFileSyncCommand (p_ID p) (tg_Side tg) rel sha "fetch" "" src))].
Proof.
  intros Hup. step; [apply runs_marshal|]. intros net1 Hn1. apply runs_send_up. congruence.
Qed.

(** The three commands of a conflict, for the client that keeps its content and the
    one that has to move its own aside. *)
Definition conflict_messages (p : SyncPair) (rel newName winnerSHA : string)
    (winnerSide winnerClient loserSide loserClient : string) : list (string * Envelope) :=
  [ (loserClient, command_envelope
       (MkFileSyncCommand (p_ID p) loserSide rel "" "rename" newName loserClient));
    (loserClient, command_envelope
       (MkFileSyncCommand (p_ID p) loserSide rel winnerSHA "fetch" "" loserClient));
    (winnerClient, command_envelope
       (MkFileSyncCommand (p_ID p) winnerSide rel winnerSHA "fetch" "" winnerClient)) ].

Definition renamed_entry (p : SyncPair) (rel newName : string) (ts : Z) : AuditEntry :=
  MkAuditEntry ts "conflict_renamed" None (Some (p_ID p)) (Some rel)
    (Some (json_text (JObj [("new_name", JStr newName)]))).

Lemma json_text_obj_ne ms : json_text (JObj ms) <> "".
Proof. done. Qed.

Lemma runs_dispatchConflict p ws w ls lc lsha t n net :
  net_up net lc = true -> net_up net (other_client p ws) = true ->
  let newName := conflictFilename (fs_RelPath w) lc (clock n) in
  runs_to (dispatchConflict p ws w ls lc lsha) t n net (Ok tt)
    (set_audit (fun l => l ++ [renamed_entry p (fs_RelPath w) newName (clock (S n))]) t) (S (S n))
    (conflict_messages p (fs_RelPath w) newName (default "" (fs_SHA256 w))
       ws (other_client p ws) ls lc).
Proof.
  intros Hl Hw newName. unfold dispatchConflict, conflict_messages.
  step; [apply runs_now|]. intros n1 H1.
  step; [apply runs_marshal|]. intros n2 H2.
  step_send; [apply runs_to_wrapped, runs_send_up; congruence|]. intros n3 H3.
  step; [apply runs_marshal|]. intros n4 H4.
  step_send; [apply runs_to_wrapped, runs_send_up; congruence|]. intros n5 H5.
  step; [apply runs_marshal|]. intros n6 H6.
  step_send; [apply runs_to_wrapped, runs_send_up; unfold other_client in *; congruence|].
  intros n7 H7. unfold auditConflictRenamed.
  pose proof (runs_audit "conflict_renamed" None (Some (p_ID p)) (Some (fs_RelPath w))
    (json_text (JObj [("new_name", JStr newName)])) t (S n) n7) as Ha.
  rewrite (bool_decide_false _ (json_text_obj_ne _)) in Ha. exact Ha.
Qed.

(** *** What no program of the engine touches *)

(** A command about [rel] of pair [p], for a member of the pair or for [src]. *)
Definition member_message (p : SyncPair) (src rel : string) (m : string * Envelope) : Prop :=
  (m.1 = p_ClientAID p \/ m.1 = p_ClientBID p \/ m.1 = src) /\
  exists c, m.2 = command_envelope c /\ cmd_PairID c = p_ID p /\ cmd_RelPath c = rel.

Record engine_frame (p : SyncPair) (src rel : string) (w0 w : W) : Prop := {
  fr_files : t_files (db (w_store w)) = t_files (db (w_store w0));
  fr_pairs : t_pairs (db (w_store w)) = t_pairs (db (w_store w0));
  fr_clients : t_clients (db (w_store w)) = t_clients (db (w_store w0));
  fr_faults : db_faults (w_store w0) = [] -> db_faults (w_store w) = [];
  fr_tick : (tick (w_store w0) <= tick (w_store w))%nat;
  fr_up : net_up (w_net w) = net_up (w_net w0);
  fr_log : exists l, net_log (w_net w) = net_log (w_net w0) ++ l /\
                     Forall (member_message p src rel) l
}.

Lemma engine_frame_refl p src rel w : engine_frame p src rel w w.
Proof. constructor; try done. exists []. by rewrite app_nil_r. Qed.

Section Frame.
Context (p : SyncPair) (src rel : string) (w0 : W).
Notation framed := (preserves (engine_frame p src rel w0)).

Lemma frame_now : framed (on_store now).
Proof. intros w []. constructor; simpl; try done. lia. Qed.

Lemma frame_sql {A} (stmt : tables -> result A * tables) :
  (forall t, t_files (snd (stmt t)) = t_files t /\ t_pairs (snd (stmt t)) = t_pairs t /\
             t_clients (snd (stmt t)) = t_clients t) ->
  framed (on_store (sql stmt)).
Proof.
  intros H w []. unfold on_store, sql.
  destruct (H (db (w_store w))) as (Hf & Hp & Hc).
  destruct (db_faults (w_store w)) as [|[e|] fl] eqn:E; [| |];
    try (destruct (stmt (db (w_store w))) as [r t'] eqn:Es; simpl in Hf, Hp, Hc);
    constructor; simpl; try congruence; try done;
    intros Hq; specialize (fr_faults0 Hq); discriminate.
Qed.

Lemma frame_Send c e : member_message p src rel (c, e) -> framed (Send c e).
Proof.
  intros Hm w Hw. destruct Hw. unfold Send.
  destruct (net_up (w_net w) c) eqn:E.
  - destruct (net_send_ok c e _ E) as (n' & -> & Hl & Hu).
    constructor; simpl; try done; [by rewrite Hu|].
    destruct fr_log0 as (l & Hl0 & Hall). exists (l ++ [(c, e)]).
    rewrite Hl, Hl0, app_assoc. split; [done|]. apply Forall_app. by split; [|constructor].
  - destruct (net_send_fail c e _ E) as (err & n' & -> & Hl & Hu).
    constructor; simpl; try done; [by rewrite Hu|by rewrite Hl].
Qed.

Lemma on_store_wrapped {A} x (m : M store A) :
  framed (on_store m) -> framed (on_store (wrapped x m)).
Proof.
  intros H w Hw. specialize (H w Hw). unfold on_store, wrapped in *.
  by destruct (m (w_store w)) as [[a|e] s].
Qed.

Lemma frame_marshal {A} `{!JsonCodec A} ctx (v : A) : framed (marshal ctx v).
Proof. intros w Hw. done. Qed.

Lemma frame_audit k c q r d : framed (audit k c q r d).
Proof.
  apply preserves_bind; [apply frame_now|]. intros t.
  apply preserves_try; [|intros; apply preserves_ret].
  by apply on_store_wrapped, frame_sql.
Qed.

Lemma frame_record q s d r sha st e : framed (recordSyncRun q s d r sha st e).
Proof.
  apply preserves_bind; [apply frame_now|]. intros t.
  apply preserves_try; [|intros; apply preserves_ret].
  apply on_store_wrapped, frame_sql. intros t'. cbn [p_ID r_PairID].
  by destruct (t_pairs t' !! p_ID q).
Qed.

Lemma frame_command c s : s = p_ClientAID p \/ s = p_ClientBID p \/ s = src ->
  cmd_PairID c = p_ID p -> cmd_RelPath c = rel ->
  framed (Send s (command_envelope c)).
Proof. intros Hs Hp Hr. apply frame_Send. split; [done|]. by exists c. Qed.

Lemma frame_dispatchSync s tg ev :
  (tg_ClientID tg = p_ClientAID p \/ tg_ClientID tg = p_ClientBID p \/ tg_ClientID tg = src) ->
  ev_RelPath ev = rel -> framed (dispatchSync s p tg ev).
Proof.
  intros Hc Hr.
  apply (preserves_bind _ (Send _ (command_envelope (command_for p tg s ev)))
           (fun _ => recordSyncRun _ _ _ _ _ _ _)).
  - by apply frame_command.
  - intros _. apply frame_record.
Qed.

Lemma frame_dispatchFetch s tg r sha :
  (tg_ClientID tg = p_ClientAID p \/ tg_ClientID tg = p_ClientBID p \/ tg_ClientID tg = src) ->
  r = rel -> framed (dispatchFetch s p tg r sha).
Proof.
  intros Hc Hr.
  by apply (frame_command (MkFileSyncCommand (p_ID p) (tg_Side tg) r sha "fetch" "" s)).
Qed.

Lemma other_client_member s : other_client p s = p_ClientAID p \/ other_client p s = p_ClientBID p.
Proof. unfold other_client. case_bool_decide; auto. Qed.

Lemma frame_dispatchConflict ws w ls lc lsha :
  (lc = p_ClientAID p \/ lc = p_ClientBID p \/ lc = src) -> fs_RelPath w = rel ->
  framed (dispatchConflict p ws w ls lc lsha).
Proof.
  intros Hc Hr. destruct (other_client_member ws) as [Ho|Ho]; unfold other_client in Ho;
  (apply preserves_bind; [apply frame_now|]; intros n;
   apply (preserves_bind _ (wrapped _ (Send _ (command_envelope _))) (fun _ => _));
     [by apply preserves_wrapped, frame_command|]; intros _;
   apply (preserves_bind _ (wrapped _ (Send _ (command_envelope _))) (fun _ => _));
     [by apply preserves_wrapped, frame_command|]; intros _;
   apply (preserves_bind _ (wrapped _ (Send _ (command_envelope _))) (fun _ => _));
     [apply preserves_wrapped, frame_command; auto|]; intros _; apply frame_audit).
Qed.

Lemma frame_handleEditWins s ev st o oc on op :
  s = src -> ev_RelPath ev = rel ->
  (oc = p_ClientAID p \/ oc = p_ClientBID p \/ oc = src) ->
  framed (handleEditWins s p ev st o oc on op).
Proof.
  intros Hs Hr Hc. unfold handleEditWins. case_bool_decide; [by apply frame_dispatchSync|].
  apply preserves_bind; [apply frame_audit|]. intros _.
  destruct o as [o|]; [|apply preserves_ret].
  destruct (fs_SHA256 o); [|apply preserves_ret]. apply frame_dispatchFetch; simpl; auto.
Qed.

Lemma frame_mirror_dispatch ev :
  ev_RelPath ev = rel -> framed (mirror_dispatch src p ev).
Proof.
  intros Hr. apply preserves_for_each. intros tg Htg.
  apply preserves_try.
  - apply frame_dispatchSync; [|done].
    unfold resolveMirrorTargets in Htg. repeat case_bool_decide;
      try (by apply elem_of_nil in Htg); apply list_elem_of_singleton in Htg as ->; simpl; auto.
  - intros [?|e]; [apply preserves_ret|apply frame_record].
Qed.
End Frame.

(** *** The entry point *)
Lemma get_other_state_eq p side rel t n net :
  get_other_state p side rel (quiet t n net) = (Ok (t_files t !! (p_ID p, side, rel)), quiet t n net).
Proof.
  unfold get_other_state, on_store, GetFileState, try, bind, wrapped, query_row, sql, quiet. cbn.
  by destruct (t_files t !! (p_ID p, side, rel)).
Qed.

(** [handleBidirectional] with its database read done. *)
Definition bidirectional_action (src : string) (p : SyncPair) (ev : FileChangedEvent)
    (st : FileState) (o : option FileState) : M W unit :=
  let side := otherSide (ev_Side ev) in
  let oc := other_client p side in
  match dec_Action (decideLWW (ev_Side ev) (toView st) (toView <$> o) defaultConflictWindowNs) with
  | LWWActionNone | LWWActionDeleteWins => ret tt
  | LWWActionDispatch => dispatchSync src p (MkTarget oc side (other_path p side)) ev
  | LWWActionEditWins => handleEditWins src p ev st o oc side (other_path p side)
  | LWWActionConflict =>
      bind (auditConflictDetected (p_ID p) (ev_RelPath ev)) (fun _ =>
      match o with
      | Some o =>
          if fs_ServerModTime o <=? fs_ServerModTime st
          then dispatchConflict p (ev_Side ev) st side oc (default "" (fs_SHA256 o))
          else dispatchConflict p side o (ev_Side ev) src (ev_SHA256 ev)
      | None => throw (Errorf "runtime error: invalid memory address or nil pointer dereference")
      end)
  end.

Lemma handleBidirectional_eq src p ev st t n net :
  handleBidirectional src p ev st (quiet t n net) =
  bidirectional_action src p ev st
    (t_files t !! (p_ID p, otherSide (ev_Side ev), ev_RelPath ev)) (quiet t n net).
Proof.
  unfold handleBidirectional, bind at 1. rewrite get_other_state_eq.
  unfold bidirectional_action. by destruct (dec_Action _).
Qed.

Lemma frame_bidirectional_action w0 src p ev st o :
  fs_RelPath st = ev_RelPath ev -> (forall x, o = Some x -> fs_RelPath x = ev_RelPath ev) ->
  preserves (engine_frame p src (ev_RelPath ev) w0) (bidirectional_action src p ev st o).
Proof.
  intros Hst Ho.
  assert (forall s, other_client p s = p_ClientAID p \/ other_client p s = p_ClientBID p \/
            other_client p s = src) as Hoc.
  { intros s. destruct (other_client_member p s); auto. }
  unfold bidirectional_action. destruct (dec_Action _);
    try apply preserves_ret; try (apply frame_dispatchSync; simpl; auto);
    try (apply frame_handleEditWins; auto).
  apply preserves_bind; [apply frame_audit|]. intros _.
  destruct o as [o|]; [|apply preserves_throw].
  destruct (fs_ServerModTime o <=? fs_ServerModTime st); apply frame_dispatchConflict; auto.
Qed.

(** What [HandleFileChanged] does once the pair is read and the row stored. *)
Definition distribute (src : string) (p : SyncPair) (ev : FileChangedEvent) (st : FileState)
  : M W unit :=
  if negb (p_Enabled p) then ret tt
  else if bool_decide (p_Direction p = "bidirectional") then handleBidirectional src p ev st
  else if bool_decide (p_Direction p = "a_to_b") || bool_decide (p_Direction p = "b_to_a")
  then mirror_dispatch src p ev
  else throw (Errorf ("unknown direction: " +:+ p_Direction p)).

Definition store_event (ev : FileChangedEvent) (n : nat) (t : tables) : tables :=
  set_files (upsert_file_row (file_state_of ev (clock n))) t.

Lemma GetPair_eq id t n net :
  on_store (GetPair id) (quiet t n net) =
  (match t_pairs t !! id with Some p => Ok (Some p) | None => Err (Wrap "scan pair" ErrNoRows) end,
   quiet t n net).
Proof.
  unfold on_store, GetPair, bind, wrapped, query_row, sql, quiet. cbn.
  by destruct (t_pairs t !! id).
Qed.

Lemma upsertFileState_eq ev t n net :
  is_Some (t_pairs t !! ev_PairID ev) ->
  upsertFileState ev (quiet t n net) =
  (Ok (file_state_of ev (clock n)), quiet (store_event ev n t) (S n) net).
Proof.
  intros [p Hp]. unfold upsertFileState, bind, on_store, wrapped, now, quiet, store_event.
  cbn [w_store w_net tick db db_faults]. rewrite UpsertFileState_eq. cbn. by rewrite Hp.
Qed.

Lemma HandleFileChanged_eq src p ev t n net :
  t_pairs t !! ev_PairID ev = Some p ->
  HandleFileChanged src ev (quiet t n net) =
  distribute src p ev (file_state_of ev (clock n)) (quiet (store_event ev n t) (S n) net).
Proof.
  intros Hp. unfold HandleFileChanged, try. rewrite GetPair_eq, Hp.
  unfold bind at 1. rewrite upsertFileState_eq by eauto. done.
Qed.

Lemma HandleFileChanged_unknown src ev t n net :
  t_pairs t !! ev_PairID ev = None ->
  HandleFileChanged src ev (quiet t n net) = (Ok tt, quiet t n net).
Proof. intros Hp. unfold HandleFileChanged, try. by rewrite GetPair_eq, Hp. Qed.

(** The effect common to every outcome. *)
Lemma HandleFileChanged_effect src ev t n net p :
  tables_ok t -> t_pairs t !! ev_PairID ev = Some p ->
  exists r t' n' net' l,
    HandleFileChanged src ev (quiet t n net) = (r, quiet t' n' net') /\
    t_files t' = upsert_file_row (file_state_of ev (clock n)) (t_files t) /\
    t_pairs t' = t_pairs t /\ t_clients t' = t_clients t /\ (S n <= n')%nat /\
    net_up net' = net_up net /\ net_log net' = net_log net ++ l /\
    Forall (member_message p src (ev_RelPath ev)) l.
Proof.
  intros Hok Hp. rewrite (HandleFileChanged_eq src p) by done.
  set (st := file_state_of ev (clock n)). set (w0 := quiet (store_event ev n t) (S n) net).
  assert (engine_frame p src (ev_RelPath ev) w0 (snd (distribute src p ev st w0))) as Hf.
  { pose proof (engine_frame_refl p src (ev_RelPath ev) w0) as H0. unfold distribute.
    destruct (negb (p_Enabled p)); [done|]. case_bool_decide.
    - unfold w0. rewrite handleBidirectional_eq. apply frame_bidirectional_action; [done| |done].
      intros x. unfold store_event. cbn [t_files set_files]. fold st. intros Hx.
      assert (tables_ok (store_event ev n t)) as Hok' by (apply tables_ok_upsert_file; eauto).
      pose proof (ok_file_key _ Hok' _ _ Hx) as Hk. by injection Hk.
    - destruct (_ || _); [|done]. by apply frame_mirror_dispatch. }
  destruct (distribute src p ev st w0) as [r [[t' fl n'] net']] eqn:E.
  destruct Hf as [Hfi Hpa Hcl Hfa Hti Hup (l & Hlo & Hall)]. simpl in *.
  rewrite (Hfa eq_refl) in E |- *. exists r, t', n', net', l. done.
Qed.
End EngineFacts.
