(* ===== verification/PairLock.v ===== *)
(** internal/server/syncengine/engine.go: the mutex each pair has, which makes one
    [HandleFileChanged] at a time of those for the same pair.

    Any number of goroutines are in [HandleFileChanged], each before [LoadOrStore], before
    [Lock], inside, or out again.  [sync.Map] and [sync.Mutex] are atomic; a mutex says who
    holds it only here.  What the body does is in Engine.v. *)
From S2P Require Import Prelude.

Inductive position : Type :=
| Entering
| Locking (mu : nat)
| Inside (mu : nat)
| Left.

Record caller : Type := MkCaller { cl_pair : string; cl_at : position }.

(** [e.pairMu], the mutexes by identity with their holder, and the goroutines. *)
Record engine_locks : Type := MkLocks {
  pairMu : gmap string nat;
  holder : gmap nat (option nat);
  callers : gmap nat caller
}.

Definition New_locks : engine_locks := MkLocks ∅ ∅ ∅.

Definition set_caller (g : nat) (p : position) (s : engine_locks) : engine_locks :=
  MkLocks (pairMu s) (holder s) (alter (fun c => MkCaller (cl_pair c) p) g (callers s)).

(** [LoadOrStore(pairID, &sync.Mutex{})]: the mutex there is, or the fresh one. *)
Definition load_or_store (pairID : string) (s : engine_locks) : nat * engine_locks :=
  match pairMu s !! pairID with
  | Some mu => (mu, s)
  | None => let mu := fresh (dom (holder s)) in
            (mu, MkLocks (<[pairID := mu]> (pairMu s)) (<[mu := None]> (holder s)) (callers s))
  end.

(** One step of the goroutine [g]; [None] when it has to wait, or has none to take. *)
Definition pairLock_step (g : nat) (s : engine_locks) : option engine_locks :=
  c ← callers s !! g;
  match cl_at c with
  | Entering => let '(mu, s') := load_or_store (cl_pair c) s in Some (set_caller g (Locking mu) s')
  | Locking mu =>
      match holder s !! mu with
      | Some None => Some (set_caller g (Inside mu) (MkLocks (pairMu s) (<[mu := Some g]> (holder s)) (callers s)))
      | _ => None
      end
  | Inside mu => Some (set_caller g Left (MkLocks (pairMu s) (<[mu := None]> (holder s)) (callers s)))
  | Left => None
  end.

Inductive locks_step : engine_locks -> engine_locks -> Prop :=
| step_call g pairID s : callers s !! g = None ->
    locks_step s (MkLocks (pairMu s) (holder s) (<[g := MkCaller pairID Entering]> (callers s)))
| step_caller g s s' : pairLock_step g s = Some s' -> locks_step s s'.

Inductive locks_reachable : engine_locks -> Prop :=
| locks_init : locks_reachable New_locks
| locks_next s s' : locks_reachable s -> locks_step s s' -> locks_reachable s'.

(** A pair's mutex is its own; who waits for a mutex or holds it waits for his pair's; a
    mutex is held by the one who is inside. *)
Record locks_ok (s : engine_locks) : Prop := {
  lo_known p mu : pairMu s !! p = Some mu -> is_Some (holder s !! mu);
  lo_inj p q mu : pairMu s !! p = Some mu -> pairMu s !! q = Some mu -> p = q;
  lo_mine g c mu : callers s !! g = Some c -> cl_at c = Locking mu \/ cl_at c = Inside mu -> pairMu s !! cl_pair c = Some mu;
  lo_held g mu : holder s !! mu = Some (Some g) <-> exists c, callers s !! g = Some c /\ cl_at c = Inside mu
}.

Lemma callers_set g p s k :
  callers (set_caller g p s) !! k =
  if decide (g = k) then (fun c => MkCaller (cl_pair c) p) <$> callers s !! k else callers s !! k.
Proof. unfold set_caller. cbn. destruct (decide (g = k)) as [->|Hne]; [by rewrite lookup_alter_eq|by rewrite lookup_alter_ne]. Qed.

Lemma load_or_store_ok pairID s :
  locks_ok s -> let '(mu, s') := load_or_store pairID s in
  locks_ok s' /\ pairMu s' !! pairID = Some mu /\ callers s' = callers s /\
  (forall nu, is_Some (holder s !! nu) -> holder s' !! nu = holder s !! nu).
Proof.
  intros Hok. unfold load_or_store. destruct (pairMu s !! pairID) as [mu|] eqn:E; [done|].
  set (mu := fresh (dom (holder s))). assert (holder s !! mu = None) as Hmu by (apply not_elem_of_dom, is_fresh).
  assert (forall p nu, pairMu s !! p = Some nu -> nu <> mu) as Hne.
  { intros p nu Hp ->. destruct (lo_known s Hok p mu Hp) as [x Hx]. by rewrite Hmu in Hx. }
  split; [|split; [apply lookup_insert_eq|split; [done|]]].
  - split; cbn.
    + intros p nu [[_ <-]|[_ Hp]]%lookup_insert_Some; [rewrite lookup_insert_eq; by eexists|].
      rewrite lookup_insert_ne by by apply not_eq_sym, (Hne p). by apply (lo_known s Hok p).
    + intros p q nu [[<- <-]|[H1 Hp]]%lookup_insert_Some [[<- E']|[H2 Hq]]%lookup_insert_Some; try done.
      * by destruct (Hne q mu Hq).
      * subst nu. by destruct (Hne p mu Hp).
      * by apply (lo_inj s Hok p q nu).
    + intros g c nu Hg Hc. pose proof (lo_mine s Hok g c nu Hg Hc) as Hp.
      rewrite lookup_insert_ne; [done|]. intros E'. by rewrite E', Hp in E.
    + intros g nu. destruct (decide (mu = nu)) as [<-|Hn].
      * rewrite lookup_insert_eq. split; [done|]. intros (c & Hg & Hc).
        by destruct (Hne _ mu (lo_mine s Hok g c mu Hg (or_intror Hc))).
      * rewrite lookup_insert_ne by done. apply (lo_held s Hok).
  - intros nu [x Hx]. cbn. rewrite lookup_insert_ne; [done|]. intros E'. by rewrite <- E', Hmu in Hx.
Qed.

(** A goroutine that moves, with the holder of its mutex as the move leaves it. *)
Lemma position_ok g c p s (h : gmap nat (option nat)) :
  locks_ok s -> callers s !! g = Some c ->
  (forall mu, p = Locking mu \/ p = Inside mu -> pairMu s !! cl_pair c = Some mu) ->
  (forall q mu, pairMu s !! q = Some mu -> is_Some (h !! mu)) ->
  (forall k mu, h !! mu = Some (Some k) <->
     if decide (g = k) then p = Inside mu else exists d, callers s !! k = Some d /\ cl_at d = Inside mu) ->
  locks_ok (set_caller g p (MkLocks (pairMu s) h (callers s))).
Proof.
  intros Hok Hg Hp Hk Hh. split; cbn [pairMu holder set_caller].
  - done.
  - apply Hok.
  - intros k d mu. rewrite callers_set. cbn [callers]. destruct (decide (g = k)) as [<-|Hne].
    + rewrite Hg. intros [= <-]. apply Hp.
    + apply (lo_mine s Hok).
  - intros k mu. rewrite Hh. rewrite callers_set. cbn [callers]. destruct (decide (g = k)) as [<-|Hne]; [|done].
    rewrite Hg. cbn. split; [intros ->; by eexists|]. by intros (d & [= <-] & H).
Qed.

Lemma locks_step_ok s s' : locks_step s s' -> locks_ok s -> locks_ok s'.
Proof.
  intros [g pairID s0 Hnew|g s0 s1 Hs] Hok.
  - split; cbn; [apply Hok..| |].
    + intros k c mu [[_ <-]|[_ Hk]]%lookup_insert_Some; [by intros [H|H]|by apply (lo_mine s0 Hok k)].
    + intros k mu. rewrite (lo_held s0 Hok). destruct (decide (g = k)) as [<-|Hne].
      * rewrite lookup_insert_eq, Hnew. split; intros (c & H1 & H2); [done|]. injection H1 as <-. done.
      * by rewrite lookup_insert_ne.
  - unfold pairLock_step in Hs. destruct (callers s0 !! g) as [c|] eqn:Hg; [|done]. cbn in Hs.
    assert (forall mu k, (cl_at c = Locking mu \/ cl_at c = Entering) -> holder s0 !! mu = Some (Some k) -> k <> g) as Hout.
    { intros mu k Hc Hh ->. apply (lo_held s0 Hok) in Hh as (d & Hd & H). rewrite Hg in Hd. injection Hd as <-.
      destruct Hc as [Hc|Hc]; by rewrite Hc in H. }
    destruct (cl_at c) as [|mu|mu|] eqn:Hc.
    + pose proof (load_or_store_ok (cl_pair c) s0 Hok) as H. destruct (load_or_store (cl_pair c) s0) as [mu s2].
      destruct H as (H2 & Hp & Hcl & _). injection Hs as <-. rewrite <- Hcl in Hg. destruct s2 as [pm h cs]. cbn in *. subst cs.
      apply (position_ok g c _ (MkLocks pm h (callers s0)) h H2 Hg).
      * by intros nu [[= <-]|H].
      * apply (lo_known _ H2).
      * intros k nu. rewrite (lo_held _ H2). destruct (decide (g = k)) as [<-|Hne]; [|done].
        split; [|done]. intros (d & Hd & H). cbn in Hd. rewrite Hg in Hd. injection Hd as <-. by rewrite Hc in H.
    + destruct (holder s0 !! mu) as [[|]|] eqn:Hh; try done. injection Hs as <-.
      apply (position_ok g c _ s0 _ Hok Hg).
      * intros nu [H|[= <-]]; [done|]. apply (lo_mine s0 Hok g c mu Hg). rewrite Hc. by left.
      * intros q nu Hq. destruct (decide (mu = nu)) as [<-|Hn]; [rewrite lookup_insert_eq; by eexists|].
        rewrite lookup_insert_ne by done. by apply (lo_known s0 Hok q).
      * intros k nu. destruct (decide (mu = nu)) as [<-|Hn].
        -- rewrite lookup_insert_eq. destruct (decide (g = k)) as [<-|Hne]; [done|].
           split; [by intros [= ->]|]. intros Hd. apply (lo_held s0 Hok) in Hd. by rewrite Hh in Hd.
        -- rewrite lookup_insert_ne by done. rewrite (lo_held s0 Hok). destruct (decide (g = k)) as [<-|Hne]; [|done].
           split; [|by intros [= E]]. intros (d & Hd & H). rewrite Hg in Hd. injection Hd as <-. by rewrite Hc in H.
    + injection Hs as <-. assert (holder s0 !! mu = Some (Some g)) as Hh by (apply (lo_held s0 Hok); by exists c).
      apply (position_ok g c _ s0 _ Hok Hg).
      * by intros nu [H|H].
      * intros q nu Hq. destruct (decide (mu = nu)) as [<-|Hn]; [rewrite lookup_insert_eq; by eexists|].
        rewrite lookup_insert_ne by done. by apply (lo_known s0 Hok q).
      * intros k nu. destruct (decide (mu = nu)) as [<-|Hn].
        -- rewrite lookup_insert_eq. destruct (decide (g = k)) as [<-|Hne]; [done|]. split; [done|].
           intros Hd. apply (lo_held s0 Hok) in Hd. rewrite Hh in Hd. by injection Hd as ->.
        -- rewrite lookup_insert_ne by done. rewrite (lo_held s0 Hok). destruct (decide (g = k)) as [<-|Hne]; [|done].
           split; [|done]. intros (d & Hd & H). rewrite Hg in Hd. injection Hd as <-. rewrite Hc in H. by injection H as ->.
    + done.
Qed.

Lemma locks_reachable_ok s : locks_reachable s -> locks_ok s.
Proof.
  induction 1 as [|s s' _ IH Hs]; [|by eapply locks_step_ok].
  split; cbn; [by intros p mu; rewrite lookup_empty|by intros p q mu; rewrite lookup_empty|by intros g c mu; rewrite lookup_empty|].
  intros g mu. split; [by rewrite lookup_empty|]. by intros (c & Hc & _); rewrite lookup_empty in Hc.
Qed.

(** C12. One report of a pair is handled at a time, and none waits for another pair's: in
    every interleaving of calls of [HandleFileChanged], two that are inside for the same
    pair are one and the same, and a call that cannot go on waits at the mutex of its pair
    while another call for that pair is inside. *)
Theorem pairs_are_serialized s :
  locks_reachable s ->
  (forall g k c d mu nu, callers s !! g = Some c -> callers s !! k = Some d -> cl_pair c = cl_pair d ->
     cl_at c = Inside mu -> cl_at d = Inside nu -> g = k) /\
  (forall g c, callers s !! g = Some c -> cl_at c <> Left -> pairLock_step g s = None ->
     exists k d mu, callers s !! k = Some d /\ k <> g /\ cl_pair d = cl_pair c /\ cl_at d = Inside mu /\ is_Some (pairLock_step k s)).
Proof.
  intros Hok%locks_reachable_ok. split.
  - intros g k c d mu nu Hg Hk Hp Hc Hd. pose proof (lo_mine s Hok g c mu Hg (or_intror Hc)) as H1.
    pose proof (lo_mine s Hok k d nu Hk (or_intror Hd)) as H2. rewrite Hp, H2 in H1. injection H1 as ->.
    assert (holder s !! mu = Some (Some g)) as H3 by (apply (lo_held s Hok); by exists c).
    assert (holder s !! mu = Some (Some k)) as H4 by (apply (lo_held s Hok); by exists d).
    rewrite H3 in H4. by injection H4.
  - intros g c Hg Hl Hs. unfold pairLock_step in Hs. rewrite Hg in Hs. cbn in Hs.
    destruct (cl_at c) as [|mu|mu|] eqn:Hc; [by destruct (load_or_store _ _)| |done|done].
    pose proof (lo_mine s Hok g c mu Hg (or_introl Hc)) as Hp. destruct (lo_known s Hok _ mu Hp) as [h Hh].
    rewrite Hh in Hs. destruct h as [k|]; [|done]. pose proof Hh as (d & Hd & Hin)%(lo_held s Hok).
    exists k, d, mu. split; [done|]. split; [intros ->; rewrite Hg in Hd; injection Hd as <-; by rewrite Hc in Hin|].
    split; [|split; [done|]].
    + pose proof (lo_mine s Hok k d mu Hd (or_intror Hin)) as Hq. by apply (lo_inj s Hok _ _ mu).
    + unfold pairLock_step. rewrite Hd. cbn. rewrite Hin. by eexists.
Qed.

(** A call arrives; a goroutine goes on, if it can. *)
Definition arrive (g : nat) (pairID : string) (s : engine_locks) : engine_locks :=
  if decide (callers s !! g = None)
  then MkLocks (pairMu s) (holder s) (<[g := MkCaller pairID Entering]> (callers s)) else s.
Definition go_on (g : nat) (s : engine_locks) : engine_locks := default s (pairLock_step g s).

Lemma arrive_reachable g p s : locks_reachable s -> locks_reachable (arrive g p s).
Proof. intros H. unfold arrive. destruct (decide _); [|done]. eapply locks_next; [exact H|by apply step_call]. Qed.
Lemma go_on_reachable g s : locks_reachable s -> locks_reachable (go_on g s).
Proof.
  intros H. unfold go_on. destruct (pairLock_step g s) as [s'|] eqn:E; [|done]. by eapply locks_next, step_caller.
Qed.

(** Two reports of one pair and one of another: the second waits for the first. *)
Definition three_reports : engine_locks :=
  go_on 2 (go_on 1 (go_on 0 (go_on 0 (arrive 2 "q" (arrive 1 "p" (arrive 0 "p" New_locks)))))).

Lemma pairs_are_serialized_witness :
  is_Some (pairLock_step 2 three_reports) /\
  exists k d mu, callers three_reports !! k = Some d /\ k <> 1 /\ cl_pair d = "p" /\ cl_at d = Inside mu /\
    is_Some (pairLock_step k three_reports).
Proof.
  split; [eexists; vm_compute; reflexivity|].
  assert (locks_reachable three_reports) as Hr by (repeat apply go_on_reachable; repeat apply arrive_reachable; apply locks_init).
  apply (proj2 (pairs_are_serialized three_reports Hr) 1 (MkCaller "p" (Locking 0))); [vm_compute; reflexivity|done|vm_compute; reflexivity].
Defined.
