(* ===== verification/Hub.v ===== *)
(** internal/server/hub: the registry of WebSocket connections (hub.go, conn.go) and
    the table of pending requests (pending.go).

    Connections and channels are objects with an identity: [h_objs] and [h_chans] are
    the heap, [h_conns] and [h_pending] hold references into it.  The blocking
    [SendAndWait] is split at the points where it can be interleaved: [wait_begin]
    (register the channel, send), then one of [wait_receive], [wait_timeout],
    [wait_cancelled].  [hub_step] is the interleaving of all of these with accepted
    connections, received frames, broken sockets and shutdown.  The socket itself is
    the environment: a write succeeds on a socket that is neither closed nor broken. *)
From S2P Require Import Prelude GoStrings Json Proto Store Engine.
Local Open Scope Z_scope.

Definition ErrClientOffline : error := Sentinel "hub: client offline".
Definition ErrTimeout : error := Sentinel "hub: response timeout".
Definition ErrCtxCanceled : error := Sentinel "context canceled".
Definition ErrWrite : error := Errorf "failed to write msg".

Record conn : Type := MkConn {
  k_client : string;
  k_closed : bool;     (* Close was called (closeOnce) *)
  k_broken : bool;     (* the peer is gone *)
  k_running : bool     (* Run has not returned *)
}.
#[export] Instance conn_eq_dec : EqDecision conn. Proof. solve_decision. Defined.

Inductive wait_state : Type := Waiting | Finished (r : result Envelope).
Record waiter : Type := MkWaiter { wt_corr : string; wt_chan : nat; wt_state : wait_state }.

Record hub : Type := MkHub {
  h_conns : gmap string nat;             (* clientID -> *Conn *)
  h_objs : gmap nat conn;
  h_pending : gmap string nat;           (* corrID -> chan *)
  h_chans : gmap nat (list Envelope);    (* buffered, capacity 1 *)
  h_waiters : gmap nat waiter;           (* running or finished SendAndWait calls *)
  h_wg : Z;
  h_fresh : nat;
  h_sent : list (string * Envelope)      (* what has been written to sockets *)
}.

Definition New : hub := MkHub ∅ ∅ ∅ ∅ ∅ 0 0 [].

(** Field updates. *)
Definition set_conns f h := MkHub (f (h_conns h)) (h_objs h) (h_pending h) (h_chans h) (h_waiters h) (h_wg h) (h_fresh h) (h_sent h).
Definition set_objs f h := MkHub (h_conns h) (f (h_objs h)) (h_pending h) (h_chans h) (h_waiters h) (h_wg h) (h_fresh h) (h_sent h).
Definition set_pending f h := MkHub (h_conns h) (h_objs h) (f (h_pending h)) (h_chans h) (h_waiters h) (h_wg h) (h_fresh h) (h_sent h).
Definition set_chans f h := MkHub (h_conns h) (h_objs h) (h_pending h) (f (h_chans h)) (h_waiters h) (h_wg h) (h_fresh h) (h_sent h).
Definition set_waiters f h := MkHub (h_conns h) (h_objs h) (h_pending h) (h_chans h) (f (h_waiters h)) (h_wg h) (h_fresh h) (h_sent h).
Definition set_wg f h := MkHub (h_conns h) (h_objs h) (h_pending h) (h_chans h) (h_waiters h) (f (h_wg h)) (h_fresh h) (h_sent h).
Definition set_fresh f h := MkHub (h_conns h) (h_objs h) (h_pending h) (h_chans h) (h_waiters h) (h_wg h) (f (h_fresh h)) (h_sent h).
Definition set_sent f h := MkHub (h_conns h) (h_objs h) (h_pending h) (h_chans h) (h_waiters h) (h_wg h) (h_fresh h) (f (h_sent h)).

(** ** Connections *)
Definition NewConn (clientID : string) (h : hub) : nat * hub :=
  (h_fresh h, set_fresh S (set_objs (insert (h_fresh h) (MkConn clientID false false false)) h)).

Definition close_conn (k : conn) : conn := MkConn (k_client k) true (k_broken k) (k_running k).

(** [Conn.Close]: idempotent. *)
Definition Conn_Close (c : nat) (h : hub) : hub := set_objs (alter close_conn c) h.

(** [Register]: an older connection of the same client is closed and replaced; [Run]
    is about to start. *)
Definition Register (c : nat) (h : hub) : hub :=
  match h_objs h !! c with
  | None => h
  | Some k =>
      let h := match h_conns h !! k_client k with
               | Some old => Conn_Close old h
               | None => h
               end in
      set_wg (Z.add 1) (set_objs (alter (fun k => MkConn (k_client k) (k_closed k) (k_broken k) true) c)
        (set_conns (insert (k_client k) c) h))
  end.

(** [Unregister]: only if [c] is still the registered connection of its client. *)
Definition Unregister (c : nat) (h : hub) : hub :=
  match h_objs h !! c with
  | None => h
  | Some k =>
      if bool_decide (h_conns h !! k_client k = Some c)
      then set_conns (delete (k_client k)) h else h
  end.

(** The end of [Run], once the read loop has returned: close, unregister, [onDisc],
    and the deferred [wg.Done]. *)
Definition run_exit (c : nat) (h : hub) : hub :=
  set_wg (fun n => n - 1)
    (set_objs (alter (fun k => MkConn (k_client k) (k_closed k) (k_broken k) false) c)
       (Unregister c (Conn_Close c h))).

Definition writable (k : conn) : bool := negb (k_closed k) && negb (k_broken k).

(** [Conn.WriteEnvelope] on the registered connection of [clientID]. *)
Definition hub_Send (clientID : string) (e : Envelope) : M hub unit := fun h =>
  match h_conns h !! clientID with
  | None => (Err ErrClientOffline, h)
  | Some c =>
      match h_objs h !! c with
      | Some k => if writable k then (Ok tt, set_sent (fun l => l ++ [(clientID, e)]) h)
                  else (Err ErrWrite, h)
      | None => (Err ErrWrite, h)
      end
  end.

Definition IsOnline (clientID : string) (h : hub) : bool :=
  match h_conns h !! clientID with Some _ => true | None => false end.

Definition OnlineClients (h : hub) : list string := (map_to_list (h_conns h)).*1.

(** [Hub.Close]: every registered connection is closed; the read loops end by
    themselves ([run_exit]), which the wait group tells. *)
Definition Hub_Close (h : hub) : hub :=
  foldr (fun c h => Conn_Close c h) h (map_to_list (h_conns h)).*2.

(** ** Pending requests *)
Definition Pending_Register (corrID : string) (h : hub) : nat * hub :=
  (h_fresh h, set_fresh S (set_chans (insert (h_fresh h) [])
                (set_pending (insert corrID (h_fresh h)) h))).

(** [Resolve]: the entry is removed, then the envelope put in the channel. *)
Definition Pending_Resolve (corrID : string) (env : Envelope) (h : hub) : bool * hub :=
  match h_pending h !! corrID with
  | None => (false, h)
  | Some ch => (true, set_chans (alter (fun b => b ++ [env]) ch)
                        (set_pending (delete corrID) h))
  end.

Definition Pending_Cancel (corrID : string) (h : hub) : hub := set_pending (delete corrID) h.

(** ** SendAndWait *)
Definition finish (w : nat) (r : result Envelope) (h : hub) : hub :=
  match h_waiters h !! w with
  | None => h
  | Some x => Pending_Cancel (wt_corr x)
                (set_waiters (insert w (MkWaiter (wt_corr x) (wt_chan x) (Finished r))) h)
  end.

Definition wait_begin (w : nat) (clientID : string) (env : Envelope) (h : hub) : hub :=
  let '(ch, h) := Pending_Register (env_CorrelationID env) h in
  let h := set_waiters (insert w (MkWaiter (env_CorrelationID env) ch Waiting)) h in
  match hub_Send clientID env h with
  | (Ok _, h) => h
  | (Err e, h) => finish w (Err e) h
  end.

Definition wait_receive (w : nat) (h : hub) : option hub :=
  match h_waiters h !! w with
  | Some (MkWaiter corr ch Waiting) =>
      match h_chans h !! ch with
      | Some (resp :: rest) => Some (finish w (Ok resp) (set_chans (insert ch rest) h))
      | _ => None
      end
  | _ => None
  end.

Definition wait_fail (w : nat) (e : error) (h : hub) : option hub :=
  match h_waiters h !! w with
  | Some (MkWaiter corr ch Waiting) => Some (finish w (Err e) h)
  | _ => None
  end.
Definition wait_timeout (w : nat) : hub -> option hub := wait_fail w ErrTimeout.
Definition wait_cancelled (w : nat) : hub -> option hub := wait_fail w ErrCtxCanceled.

(** ** The read loop: one frame received on connection [c]; [handler] is the server's
    message handler, [None] an unreadable frame or a read error. *)
Definition on_frame (handler : string -> Envelope -> bool) (c : nat) (frame : option Envelope)
    (h : hub) : hub :=
  match h_objs h !! c with
  | None => h
  | Some k =>
      match frame with
      | None => run_exit c h
      | Some env =>
          if bool_decide (env_Type env = TypePong) then h
          else if bool_decide (env_CorrelationID env <> "") && fst (Pending_Resolve (env_CorrelationID env) env h)
          then snd (Pending_Resolve (env_CorrelationID env) env h)
          else if handler (k_client k) env then h else run_exit c h
      end
  end.

(** ** Interleavings

    The correlation id of a request is a fresh UUID: no other call has used it. *)
Inductive hub_step : hub -> hub -> Prop :=
| step_accept clientID h c h' :
    NewConn clientID h = (c, h') -> hub_step h (Register c h')
| step_frame handler c k frame h :
    h_objs h !! c = Some k -> k_running k = true ->
    hub_step h (on_frame handler c frame h)
| step_break c h :
    hub_step h (set_objs (alter (fun k => MkConn (k_client k) (k_closed k) true (k_running k)) c) h)
| step_send clientID env h : hub_step h (snd (hub_Send clientID env h))
| step_wait_begin w clientID env h :
    h_waiters h !! w = None ->
    (forall v x, h_waiters h !! v = Some x -> wt_corr x <> env_CorrelationID env) ->
    hub_step h (wait_begin w clientID env h)
| step_wait_receive w h h' : wait_receive w h = Some h' -> hub_step h h'
| step_wait_timeout w h h' : wait_timeout w h = Some h' -> hub_step h h'
| step_wait_cancelled w h h' : wait_cancelled w h = Some h' -> hub_step h h'
| step_close h : hub_step h (Hub_Close h).

Inductive hub_reachable : hub -> Prop :=
| reach_init : hub_reachable New
| reach_step h h' : hub_reachable h -> hub_step h h' -> hub_reachable h'.

(** ** The hub as the engine's [Sender] *)
#[export] Instance hub_sender : Sender hub := hub_Send.

Definition hub_up (h : hub) (clientID : string) : bool :=
  match h_conns h !! clientID with
  | Some c => match h_objs h !! c with Some k => writable k | None => false end
  | None => false
  end.

#[export, program] Instance hub_sender_laws : SenderLaws hub := {|
  net_log := h_sent;
  net_up := hub_up
|}.
Next Obligation.
  intros c e h H. unfold hub_up in H. unfold net_send, hub_sender, hub_Send.
  destruct (h_conns h !! c) as [k|]; [|done].
  destruct (h_objs h !! k) as [o|]; [|done]. rewrite H. eexists. done.
Qed.
Next Obligation.
  intros c e h H. unfold hub_up in H. unfold net_send, hub_sender, hub_Send.
  destruct (h_conns h !! c) as [k|]; [|by eexists _, h].
  destruct (h_objs h !! k) as [o|]; [rewrite H|]; by eexists _, h.
Qed.
