(* ===== verification/HubFacts.v ===== *)
(** Invariants of the hub over every interleaving ([hub_reachable]): the registry of
    connections and the table of pending requests. *)
From S2P Require Import Prelude GoStrings Json Proto Store Engine Hub.
Local Open Scope Z_scope.

(** ** The registry of connections *)

(** The connections whose [Run] has not returned. *)
Definition running (h : hub) : gset nat :=
  dom (filter (fun p => k_running p.2 = true) (h_objs h)).

Record conns_ok (h : hub) : Prop := {
  co_registered : forall id c, h_conns h !! id = Some c ->
    exists k, h_objs h !! c = Some k /\ k_client k = id /\ k_running k = true;
  co_live : forall c k, h_objs h !! c = Some k -> k_running k = true -> k_closed k = false ->
    h_conns h !! k_client k = Some c;
  co_fresh : forall c k, h_objs h !! c = Some k -> (c < h_fresh h)%nat;
  co_wg : h_wg h = Z.of_nat (size (running h))
}.

Lemma elem_of_running c h :
  c ∈ running h <-> exists k, h_objs h !! c = Some k /\ k_running k = true.
Proof.
  unfold running. rewrite elem_of_dom. split.
  - intros [k Hk]. apply map_lookup_filter_Some in Hk. eauto.
  - intros (k & Hk & Hr). exists k. by apply map_lookup_filter_Some.
Qed.

(** A change of one object that leaves [k_running] alone leaves [running] alone. *)
Lemma running_alter f c h :
  (forall k, k_running (f k) = k_running k) ->
  running (set_objs (alter f c) h) = running h.
Proof.
  intros Hf. apply set_eq. intros d. rewrite !elem_of_running. cbn [h_objs set_objs].
  destruct (decide (c = d)) as [->|Hn].
  - rewrite lookup_alter_eq. destruct (h_objs h !! d) as [k|]; simpl; [|naive_solver].
    split; intros (k' & [= <-] & Hr); eexists; (split; [done|]); [by rewrite <- Hf|by rewrite Hf].
  - by rewrite lookup_alter_ne.
Qed.

(** A change of one object that keeps its client and whether it runs, and never
    reopens it. *)
Lemma conns_ok_alter f c h :
  (forall k, k_client (f k) = k_client k /\ k_running (f k) = k_running k /\
             (k_closed (f k) = false -> k_closed k = false)) ->
  conns_ok h -> conns_ok (set_objs (alter f c) h).
Proof.
  intros Hf [H1 H2 H3 H4]. constructor; cbn [h_conns h_objs h_wg h_fresh set_objs].
  - intros id d Hd. destruct (H1 _ _ Hd) as (k & Hk & Hc & Hr).
    destruct (decide (c = d)) as [->|Hn].
    + rewrite lookup_alter_eq, Hk. destruct (Hf k) as (E1 & E2 & _).
      exists (f k). rewrite E1, E2. done.
    + rewrite lookup_alter_ne by done. eauto.
  - intros d k Hk Hr Hcl. destruct (decide (c = d)) as [->|Hn].
    + rewrite lookup_alter_eq in Hk. destruct (h_objs h !! d) as [k0|] eqn:E; [|done].
      injection Hk as <-. destruct (Hf k0) as (Hc & Hr' & Hcl'). rewrite Hc.
      apply (H2 d k0 E); [congruence|auto].
    + rewrite lookup_alter_ne in Hk by done. eauto.
  - intros d k Hk. destruct (decide (c = d)) as [->|Hn].
    + rewrite lookup_alter_eq in Hk. destruct (h_objs h !! d) eqn:E; [eauto|done].
    + rewrite lookup_alter_ne in Hk by done. eauto.
  - rewrite running_alter by (intros k; apply Hf). done.
Qed.

Lemma conns_ok_close c h : conns_ok h -> conns_ok (Conn_Close c h).
Proof. apply conns_ok_alter. by intros k. Qed.

Lemma conns_ok_Hub_Close h : conns_ok h -> conns_ok (Hub_Close h).
Proof.
  intros Hok. unfold Hub_Close. generalize (map_to_list (h_conns h)).*2.
  intros l. induction l; simpl; [done|]. by apply conns_ok_close.
Qed.

(** The parts of the hub the registry lives in. *)
Lemma conns_ok_ext h h' :
  h_conns h' = h_conns h -> h_objs h' = h_objs h -> h_wg h' = h_wg h ->
  (h_fresh h <= h_fresh h')%nat -> conns_ok h -> conns_ok h'.
Proof.
  intros E1 E2 E3 Hf [H1 H2 H3 H4]. constructor; unfold running; rewrite ?E1, ?E2, ?E3; try done.
  intros c k Hk. specialize (H3 _ _ Hk). lia.
Qed.

(** An accepted connection: the new object, the older one closed. *)
Lemma conns_ok_accept id h c h' :
  NewConn id h = (c, h') -> conns_ok h -> conns_ok (Register c h').
Proof.
  intros [= <- <-] Hok. unfold Register. cbn [h_objs set_objs set_fresh h_conns].
  rewrite lookup_insert_eq. cbn [k_client].
  set (n := h_fresh h).
  assert (h_objs h !! n = None) as Hnew.
  { apply eq_None_not_Some. intros [k Hk]. apply (co_fresh h Hok) in Hk. unfold n in Hk. lia. }
  (* the heap after the older connection, if any, is closed *)
  assert (exists h1, conns_ok h1 /\ h_conns h1 = h_conns h /\ h_fresh h1 = h_fresh h /\
            h_objs h1 !! n = None /\ h_wg h1 = h_wg h /\
            (forall o, h_conns h !! id = Some o -> exists k, h_objs h1 !! o = Some k /\ k_closed k = true) /\
            match h_conns h !! id with
            | Some old => Conn_Close old (set_fresh S (set_objs (insert n (MkConn id false false false)) h))
            | None => set_fresh S (set_objs (insert n (MkConn id false false false)) h)
            end = set_fresh S (set_objs (insert n (MkConn id false false false)) h1))
    as (h1 & Hok1 & Hc1 & Hf1 & Hn1 & Hw1 & Hcl1 & ->).
  { destruct (h_conns h !! id) as [old|] eqn:E.
    - exists (Conn_Close old h). destruct (co_registered h Hok _ _ E) as (k & Hk & _).
      assert (old <> n) by congruence.
      split; [by apply conns_ok_close|]. do 2 (split; [done|]).
      split; [by cbn; rewrite lookup_alter_ne|]. split; [done|]. split.
      + intros o [= <-]. exists (close_conn k). split; [|done]. cbn. by rewrite lookup_alter_eq, Hk.
      + unfold Conn_Close, set_fresh, set_objs. simpl. f_equal. by rewrite alter_insert_ne.
    - exists h. split_and!; try done. }
  destruct Hok1 as [H1 H2 H3 H4].
  constructor; cbn [h_conns h_objs h_wg h_fresh set_objs set_conns set_wg set_fresh].
  - intros i d. rewrite lookup_insert. case_decide as Hi.
    + intros [= <-]. rewrite lookup_alter_eq, lookup_insert_eq. subst i. eexists. done.
    + intros Hd. destruct (H1 _ _ Hd) as (k & Hk & ? & ?). assert (n <> d) by congruence.
      rewrite lookup_alter_ne, lookup_insert_ne by done. eauto.
  - intros d k. destruct (decide (n = d)) as [<-|Hn].
    + rewrite lookup_alter_eq, lookup_insert_eq. intros [= <-] _ _. by rewrite lookup_insert_eq.
    + rewrite lookup_alter_ne, lookup_insert_ne by done. intros Hk Hr Hcl.
      specialize (H2 _ _ Hk Hr Hcl). rewrite lookup_insert_ne; [done|]. intros ->.
      rewrite Hc1 in H2. destruct (Hcl1 _ H2) as (k' & Hk' & ?). congruence.
  - intros d k. destruct (decide (n = d)) as [<-|Hn]; [unfold n; lia|].
    rewrite lookup_alter_ne, lookup_insert_ne by done. intros Hk. specialize (H3 _ _ Hk). lia.
  - rewrite H4. assert (n ∉ running h1) as Hnr by (rewrite elem_of_running; naive_solver congruence).
    match goal with |- _ = Z.of_nat (size (running ?g)) =>
      assert (running g = {[n]} ∪ running h1) as -> end.
    { apply set_eq. intros d. rewrite elem_of_union, elem_of_singleton, !elem_of_running.
      cbn [h_objs set_objs set_conns set_wg set_fresh]. destruct (decide (n = d)) as [<-|Hn].
      - rewrite lookup_alter_eq, lookup_insert_eq. naive_solver.
      - rewrite lookup_alter_ne, lookup_insert_ne by done. naive_solver. }
    rewrite size_union, size_singleton by set_solver. lia.
Qed.

(** The end of [Run] on a connection that was running. *)
Lemma conns_ok_exit c k h :
  h_objs h !! c = Some k -> k_running k = true -> conns_ok h -> conns_ok (run_exit c h).
Proof.
  intros Hk Hr Hok. pose proof (conns_ok_close c h Hok) as Hok1.
  assert (h_objs (Conn_Close c h) !! c = Some (close_conn k)) as Hk1.
  { cbn. by rewrite lookup_alter_eq, Hk. }
  assert (k_running (close_conn k) = true) as Hr1 by done.
  assert (k_closed (close_conn k) = true) as Hcl1 by done.
  unfold run_exit. revert Hok1 Hk1 Hr1 Hcl1.
  generalize (Conn_Close c h), (close_conn k). clear. intros h k [H1 H2 H3 H4] Hk Hr Hcl.
  set (h' := Unregister c h).
  assert (h_objs h' = h_objs h /\ h_fresh h' = h_fresh h /\ h_wg h' = h_wg h /\ running h' = running h)
    as (Ho & Hf & Hw & Hru).
  { unfold h', Unregister. rewrite Hk. by case_bool_decide. }
  assert (forall i d, h_conns h' !! i = Some d <-> h_conns h !! i = Some d /\ d <> c) as Hconn.
  { intros i d. unfold h', Unregister. rewrite Hk. case_bool_decide as Hb; cbn [h_conns set_conns].
    - rewrite lookup_delete_Some. split; [|intros [Hi Hd]].
      + intros [Hi Hd]. split; [done|]. intros ->.
        destruct (H1 _ _ Hd) as (k' & Hk' & Hc & _). congruence.
      + split; [intros <-; congruence|done].
    - split; [|naive_solver]. intros Hi. split; [done|]. intros ->.
      destruct (H1 _ _ Hi) as (k' & Hk' & Hc & _). naive_solver congruence. }
  constructor; cbn [h_conns h_objs h_wg h_fresh set_objs set_conns set_wg].
  - intros i d [Hi Hd]%Hconn. rewrite lookup_alter_ne, Ho by done. eauto.
  - intros d k'. rewrite Ho. destruct (decide (c = d)) as [<-|Hn].
    + rewrite lookup_alter_eq, Hk. intros [= <-]. done.
    + rewrite lookup_alter_ne by done. intros Hk' Hr' Hc'. apply Hconn. eauto.
  - intros d k'. rewrite Ho, Hf. destruct (decide (c = d)) as [<-|Hn].
    + rewrite lookup_alter_eq, Hk. eauto.
    + rewrite lookup_alter_ne by done. eauto.
  - rewrite Hw, H4. assert (c ∈ running h) as Hin by (rewrite elem_of_running; eauto).
    match goal with |- _ = Z.of_nat (size (running ?g)) =>
      assert (running h = {[c]} ∪ running g /\ c ∉ running g) as [-> Hnot] end.
    { split.
      - apply set_eq. intros d. rewrite elem_of_union, elem_of_singleton, !elem_of_running.
        cbn [h_objs set_objs set_wg]. rewrite Ho. destruct (decide (c = d)) as [<-|Hn].
        + naive_solver.
        + rewrite lookup_alter_ne by done. naive_solver.
      - rewrite elem_of_running. cbn [h_objs set_objs set_wg]. rewrite Ho, lookup_alter_eq, Hk.
        naive_solver. }
    rewrite size_union, size_singleton by set_solver. lia.
Qed.

(** ** Pending requests *)

(** What a call of [SendAndWait] has: it waits with its entry in the table, or with
    the response in its channel, or it has finished, its entry gone, with the
    response to its own request if it got one. *)
Definition waiter_ok (h : hub) (x : waiter) : Prop :=
  (wt_chan x < h_fresh h)%nat /\
  match wt_state x with
  | Waiting =>
      (h_pending h !! wt_corr x = Some (wt_chan x) /\ h_chans h !! wt_chan x = Some []) \/
      (h_pending h !! wt_corr x = None /\
       exists env, h_chans h !! wt_chan x = Some [env] /\ env_CorrelationID env = wt_corr x)
  | Finished r =>
      h_pending h !! wt_corr x = None /\
      (forall env, r = Ok env -> env_CorrelationID env = wt_corr x)
  end.

Record pending_ok (h : hub) : Prop := {
  po_entry : forall corr ch, h_pending h !! corr = Some ch ->
    exists w, h_waiters h !! w = Some (MkWaiter corr ch Waiting);
  po_waiter : forall w x, h_waiters h !! w = Some x -> waiter_ok h x;
  po_distinct : forall v w x y, h_waiters h !! v = Some x -> h_waiters h !! w = Some y ->
    v <> w -> wt_corr x <> wt_corr y /\ wt_chan x <> wt_chan y
}.

(** The parts of the hub the table of pending requests lives in. *)
Lemma pending_ok_ext h h' :
  h_pending h' = h_pending h -> h_chans h' = h_chans h -> h_waiters h' = h_waiters h ->
  (h_fresh h <= h_fresh h')%nat -> pending_ok h -> pending_ok h'.
Proof.
  intros E1 E2 E3 Hf [H1 H2 H3]. constructor; rewrite ?E1, ?E3; [done| |done].
  intros w x Hx. destruct (H2 _ _ Hx) as [Hc Hst]. unfold waiter_ok. rewrite E1, E2. split; [lia|done].
Qed.

(** A waiter that finishes: its entry goes, the others keep theirs. *)
Lemma pending_ok_finish w x r h :
  h_waiters h !! w = Some x ->
  (forall env, r = Ok env -> env_CorrelationID env = wt_corr x) ->
  (wt_chan x < h_fresh h)%nat ->
  (forall corr ch, h_pending h !! corr = Some ch ->
     exists w, h_waiters h !! w = Some (MkWaiter corr ch Waiting)) ->
  (forall v y, h_waiters h !! v = Some y -> v <> w -> waiter_ok h y) ->
  (forall u v a b, h_waiters h !! u = Some a -> h_waiters h !! v = Some b ->
    u <> v -> wt_corr a <> wt_corr b /\ wt_chan a <> wt_chan b) ->
  pending_ok (finish w r h).
Proof.
  intros Hx Hr Hf H1 H2 H3. unfold finish. rewrite Hx. unfold Pending_Cancel.
  constructor; cbn [h_pending h_waiters h_fresh set_pending set_waiters].
  - intros corr ch [Hn Hp]%lookup_delete_Some. destruct (H1 _ _ Hp) as [v Hv].
    exists v. rewrite lookup_insert_ne; [done|]. intros ->. rewrite Hx in Hv. naive_solver.
  - intros v y. rewrite lookup_insert. case_decide as Hv.
    + intros [= <-]. split; [done|]. cbn. rewrite lookup_delete_eq. done.
    + intros Hy. destruct (H2 _ _ Hy) as [Hc Hst]; [done|]. split; [done|].
      destruct (H3 _ _ _ _ Hx Hy Hv) as [Hne _].
      cbn [h_pending h_chans set_pending set_waiters]. by rewrite lookup_delete_ne.
  - intros u v a b. rewrite !lookup_insert.
    repeat case_decide; intros; simplify_eq; cbn [wt_corr wt_chan]; eauto.
Qed.

Lemma pending_ok_wait_begin w id env h :
  h_waiters h !! w = None ->
  (forall v x, h_waiters h !! v = Some x -> wt_corr x <> env_CorrelationID env) ->
  pending_ok h -> pending_ok (wait_begin w id env h).
Proof.
  intros Hw Hnew [H1 H2 H3]. unfold wait_begin, Pending_Register. set (corr := env_CorrelationID env).
  set (n := h_fresh h).
  match goal with |- context [hub_Send id env ?g] => set (h1 := g) end.
  assert (pending_ok h1) as Hok.
  { constructor; unfold h1; cbn [h_pending h_waiters h_chans h_fresh set_pending set_waiters set_chans set_fresh].
    - intros c ch. rewrite lookup_insert. case_decide as Hc.
      + intros [= <-]. exists w. subst c. by rewrite lookup_insert_eq.
      + intros Hp. destruct (H1 _ _ Hp) as [v Hv]. exists v. rewrite lookup_insert_ne by naive_solver. done.
    - intros v x. rewrite lookup_insert. case_decide as Hv.
      + intros [= <-]. split; [cbn; lia|]. left. cbn. by rewrite !lookup_insert_eq.
      + intros Hx. destruct (H2 _ _ Hx) as [Hc Hst]. split; [cbn; lia|].
        cbn [h_pending h_chans set_pending set_waiters set_chans set_fresh].
        rewrite !lookup_insert_ne; [done|unfold n; lia|]. intros He. by apply (Hnew _ _ Hx).
    - intros u v a b. rewrite !lookup_insert.
      repeat case_decide; intros Ha Hb Huv; simplify_eq; cbn [wt_corr wt_chan]; eauto.
      + destruct (H2 _ _ Hb) as [Hc _]. specialize (Hnew _ _ Hb). split; [done|unfold n; lia].
      + destruct (H2 _ _ Ha) as [Hc _]. specialize (Hnew _ _ Ha). split; [done|unfold n; lia]. }
  assert (h_waiters h1 !! w = Some (MkWaiter corr n Waiting)) as Hw1
    by (unfold h1; cbn; by rewrite lookup_insert_eq).
  assert (n < h_fresh h1)%nat as Hf1 by (unfold h1, n; cbn; lia).
  clearbody h1. destruct (hub_Send id env h1) as [[a|e] h2] eqn:E; unfold hub_Send in E;
    repeat case_match; simplify_eq; try by (eapply pending_ok_ext; [..|exact Hok]).
  all: apply (pending_ok_finish w (MkWaiter corr n Waiting)); [done|done|done|..];
       try (apply Hok); intros v y Hv _; by apply (po_waiter _ Hok v).
Qed.

Lemma pending_ok_fail w e h h' :
  wait_fail w e h = Some h' -> pending_ok h -> pending_ok h'.
Proof.
  unfold wait_fail. destruct (h_waiters h !! w) as [[corr ch [|r]]|] eqn:E; [|done..].
  intros [= <-] Hok. pose proof Hok as [H1 H2 H3].
  apply (pending_ok_finish w (MkWaiter corr ch Waiting)); try done.
  - apply (H2 _ _ E).
  - intros v y Hy _. eauto.
Qed.

Lemma pending_ok_receive w h h' :
  wait_receive w h = Some h' -> pending_ok h -> pending_ok h'.
Proof.
  unfold wait_receive. destruct (h_waiters h !! w) as [[corr ch [|r]]|] eqn:E; [|done..].
  destruct (h_chans h !! ch) as [[|resp rest]|] eqn:Ec; [done| |done].
  intros [= <-] [H1 H2 H3].
  destruct (H2 _ _ E) as [Hf [[_ Hc]|(Hp & env & Hc & Henv)]]; cbn in *; [congruence|].
  rewrite Ec in Hc. injection Hc as -> ->.
  apply (pending_ok_finish w (MkWaiter corr ch Waiting)); cbn [h_waiters h_fresh h_pending set_chans];
    try done; [naive_solver|].
  intros v y Hy Hv. destruct (H2 _ _ Hy) as [Hfy Hst]. split; [done|].
  destruct (H3 _ _ _ _ Hy E Hv) as [_ Hne]. cbn in Hne.
  cbn [h_pending h_chans set_chans]. by rewrite lookup_insert_ne by congruence.
Qed.

(** The channel of a pending request is empty: [Resolve]'s send does not block. *)
Lemma pending_ok_resolve env h :
  pending_ok h -> pending_ok (snd (Pending_Resolve (env_CorrelationID env) env h)).
Proof.
  intros [H1 H2 H3]. unfold Pending_Resolve. set (corr := env_CorrelationID env).
  destruct (h_pending h !! corr) as [ch|] eqn:E; [|done].
  destruct (H1 _ _ E) as [w Hw].
  constructor; cbn [snd h_pending h_waiters h_chans set_pending set_chans].
  - intros c ch' [_ Hp]%lookup_delete_Some. eauto.
  - intros v y Hy. destruct (H2 _ _ Hy) as [Hf Hst]. split; [done|].
    cbn [h_pending h_chans set_pending set_chans].
    destruct (decide (v = w)) as [->|Hv].
    + rewrite Hw in Hy. injection Hy as <-. cbn in Hst |- *.
      destruct Hst as [[_ Hc]|[Hp _]]; [|congruence].
      right. rewrite lookup_delete_eq, lookup_alter_eq, Hc. split; [done|]. by exists env.
    + destruct (H3 _ _ _ _ Hy Hw Hv) as [Hn1 Hn2]. cbn in Hn1, Hn2.
      rewrite lookup_delete_ne, lookup_alter_ne by congruence. done.
  - done.
Qed.

(** ** Every interleaving *)
Definition hub_ok (h : hub) : Prop := conns_ok h /\ pending_ok h.

Lemma hub_ok_init : hub_ok New.
Proof. split; constructor; simpl; try done. Qed.

Lemma hub_ok_exit c k h :
  h_objs h !! c = Some k -> k_running k = true -> hub_ok h -> hub_ok (run_exit c h).
Proof.
  intros Hk Hr [Hc Hp]. split; [by eapply conns_ok_exit|].
  eapply pending_ok_ext; [..|exact Hp]; unfold run_exit, Unregister; repeat case_match; done.
Qed.

Lemma hub_ok_frame handler c k frame h :
  h_objs h !! c = Some k -> k_running k = true -> hub_ok h -> hub_ok (on_frame handler c frame h).
Proof.
  intros Hk Hr Hok. unfold on_frame. rewrite Hk.
  destruct frame as [env|]; [|by eapply hub_ok_exit].
  case_bool_decide; [done|].
  destruct (bool_decide _ && _).
  - destruct Hok as [Hc Hp]. split; [|by apply pending_ok_resolve].
    unfold Pending_Resolve. by destruct (h_pending h !! _); destruct Hc.
  - destruct (handler _ env); [done|by eapply hub_ok_exit].
Qed.

Lemma hub_ok_step h h' : hub_step h h' -> hub_ok h -> hub_ok h'.
Proof.
  intros Hs Hok. pose proof Hok as [Hc Hp]. destruct Hs as
    [id h c h' Hn|handler c k frame h Hk Hr|c h|id env h|w id env h Hw Hnew|w h h' H|w h h' H|w h h' H|h].
  - split; [by eapply conns_ok_accept|]. injection Hn as <- <-.
    unfold Register. repeat case_match; (eapply pending_ok_ext; [..|exact Hp]; cbn; lia || done).
  - by eapply hub_ok_frame.
  - split; [apply conns_ok_alter; [|done]; by intros|]. by eapply pending_ok_ext; [..|exact Hp].
  - unfold hub_Send. repeat case_match; try done. split; [by destruct Hc|].
    by eapply pending_ok_ext; [..|exact Hp].
  - split; [|by apply pending_ok_wait_begin].
    eapply conns_ok_ext; [..|exact Hc];
      unfold wait_begin, Pending_Register, hub_Send, finish, Pending_Cancel;
      repeat case_match; simplify_eq; done || (cbn; lia).
  - split; [|by eapply pending_ok_receive]. unfold wait_receive, finish in H.
    repeat case_match; simplify_eq; by eapply conns_ok_ext; [..|exact Hc].
  - split; [|by eapply pending_ok_fail]. unfold wait_timeout, wait_fail, finish in H.
    repeat case_match; simplify_eq; by eapply conns_ok_ext; [..|exact Hc].
  - split; [|by eapply pending_ok_fail]. unfold wait_cancelled, wait_fail, finish in H.
    repeat case_match; simplify_eq; by eapply conns_ok_ext; [..|exact Hc].
  - split; [by apply conns_ok_Hub_Close|]. unfold Hub_Close. generalize (map_to_list (h_conns h)).*2.
    intros l. induction l; simpl; [done|]. by eapply pending_ok_ext; [..|exact IHl].
Qed.

Lemma hub_reachable_ok h : hub_reachable h -> hub_ok h.
Proof. induction 1; [apply hub_ok_init|by eapply hub_ok_step]. Qed.

(** ** Claims *)

(** C11. Whatever the interleaving of connections, frames, broken sockets, requests and
    shutdown: a registered connection belongs to its client and is running, a client
    never has two running connections that are not closed, and the wait group
    [Hub.Close] waits on counts exactly the connections whose [Run] has not returned. *)
Theorem one_live_connection h :
  hub_reachable h ->
  (forall id c, h_conns h !! id = Some c ->
     exists k, h_objs h !! c = Some k /\ k_client k = id /\ k_running k = true) /\
  (forall c d k l, h_objs h !! c = Some k -> h_objs h !! d = Some l ->
     k_client k = k_client l -> k_running k = true -> k_running l = true ->
     k_closed k = false -> k_closed l = false -> c = d) /\
  h_wg h = Z.of_nat (size (running h)).
Proof.
  intros [[H1 H2 _ H4] _]%hub_reachable_ok. split; [done|]. split; [|done].
  intros c d k l Hk Hl He Hrk Hrl Hck Hcl.
  pose proof (H2 _ _ Hk Hrk Hck) as Hc. pose proof (H2 _ _ Hl Hrl Hcl) as Hd. congruence.
Qed.

(** C13. [SendAndWait] in every interleaving: the channel of a pending request is empty,
    so [Resolve] never blocks the read loop; a call that returned a response returned
    the one that carries its own correlation id; and a call that returned, response,
    timeout, cancellation or failed send alike, left no entry behind. *)
Theorem response_matches_request h :
  hub_reachable h ->
  (forall corr ch, h_pending h !! corr = Some ch -> h_chans h !! ch = Some []) /\
  (forall w corr ch env, h_waiters h !! w = Some (MkWaiter corr ch (Finished (Ok env))) ->
     env_CorrelationID env = corr) /\
  (forall w corr ch r, h_waiters h !! w = Some (MkWaiter corr ch (Finished r)) ->
     h_pending h !! corr = None).
Proof.
  intros [_ [H1 H2 H3]]%hub_reachable_ok. split_and!.
  - intros corr ch Hp. destruct (H1 _ _ Hp) as [w Hw].
    destruct (H2 _ _ Hw) as [_ [[_ Hc]|[Hn _]]]; cbn in *; congruence.
  - intros w corr ch env Hw. destruct (H2 _ _ Hw) as [_ [_ Hr]]. by apply Hr.
  - intros w corr ch r Hw. by destruct (H2 _ _ Hw) as [_ [Hn _]].
Qed.

(** The answer to a pending request reaches its caller: a frame with the request's
    correlation id, on whichever connection it arrives and whatever the message
    handler does, makes the waiting call return that frame. *)
Theorem response_delivered h handler c k w corr ch env :
  hub_reachable h -> h_objs h !! c = Some k ->
  h_waiters h !! w = Some (MkWaiter corr ch Waiting) -> h_pending h !! corr = Some ch ->
  env_CorrelationID env = corr -> corr <> "" -> env_Type env <> TypePong ->
  exists h', wait_receive w (on_frame handler c (Some env) h) = Some h' /\
             h_waiters h' !! w = Some (MkWaiter corr ch (Finished (Ok env))) /\
             h_pending h' !! corr = None.
Proof.
  intros [_ [H1 H2 H3]]%hub_reachable_ok Hk Hw Hp He Hne Ht.
  destruct (H2 _ _ Hw) as [_ [[_ Hc]|[Hn _]]]; cbn in *; [|congruence].
  unfold on_frame. rewrite Hk, (bool_decide_false (_ = TypePong)) by done.
  unfold Pending_Resolve. rewrite He, Hp, (bool_decide_true (corr <> "")) by done. cbn.
  unfold wait_receive. cbn. rewrite Hw, lookup_alter_eq, Hc. cbn. eexists. split; [done|].
  unfold finish. cbn. rewrite Hw. cbn. by rewrite lookup_insert_eq, lookup_delete_eq.
Qed.

(** A client that reconnects before its old connection has wound down keeps its new
    connection: the end of the old [Run] does not unregister it, and a message sent
    to the client afterwards is written to the new socket. *)
Theorem stale_exit_keeps_new_connection h id old c h1 env :
  hub_reachable h -> h_conns h !! id = Some old -> NewConn id h = (c, h1) ->
  let h2 := run_exit old (Register c h1) in
  h_conns h2 !! id = Some c /\ hub_up h2 id = true /\
  exists h3, hub_Send id env h2 = (Ok tt, h3) /\ h_sent h3 = h_sent h ++ [(id, env)].
Proof.
  intros Hre Hold Hn. destruct (hub_reachable_ok _ Hre) as [Hc _].
  destruct (co_registered h Hc _ _ Hold) as (k & Hk & Hkid & Hrun).
  pose proof (co_fresh h Hc _ _ Hk) as Hlt. injection Hn as <- <-.
  assert (h_fresh h <> old) by lia.
  intros h2.
  assert (h_conns h2 !! id = Some (h_fresh h) /\ h_sent h2 = h_sent h /\
          h_objs h2 !! h_fresh h = Some (MkConn id false false true)) as (E1 & E3 & E2).
  { unfold h2, Register. cbn [h_objs set_objs set_fresh h_conns]. rewrite lookup_insert_eq. cbn [k_client].
    rewrite Hold. unfold run_exit, Unregister, Conn_Close. cbn.
    rewrite lookup_alter_eq, lookup_alter_ne, lookup_alter_eq, lookup_insert_ne, Hk by done. cbn.
    rewrite Hkid, lookup_insert_eq, bool_decide_false by congruence. cbn.
    rewrite lookup_insert_eq, !lookup_alter_ne, lookup_alter_eq, lookup_alter_ne, lookup_insert_eq
      by done. done. }
  clearbody h2. split; [done|]. unfold hub_up, hub_Send. rewrite E1, E2. cbn. split; [done|].
  eexists. split; [done|]. cbn. by rewrite E3.
Qed.

(** *** Witnesses *)
Section Witnesses.
Definition demo_ping : Envelope := MkEnvelope "snapshot_request" "r1" None.
Definition demo_pong : Envelope := MkEnvelope "snapshot_response" "r1" None.
(* a client connects, and a request to it is sent *)
Definition demo_online : hub := Register 0 (snd (NewConn "c1" New)).
Definition demo_waiting : hub := wait_begin 7 "c1" demo_ping demo_online.

Lemma demo_online_reachable : hub_reachable demo_online.
Proof. apply (reach_step New); [constructor|]. by apply (step_accept "c1"). Qed.

Lemma demo_waiting_reachable : hub_reachable demo_waiting.
Proof.
  apply (reach_step demo_online); [apply demo_online_reachable|].
  apply step_wait_begin; [done|]. intros v x Hx.
  change ((∅ : gmap nat waiter) !! v = Some x) in Hx. by rewrite lookup_empty in Hx.
Qed.

Lemma one_live_connection_witness : h_wg demo_waiting = 1.
Proof. rewrite (proj2 (proj2 (one_live_connection _ demo_waiting_reachable))). reflexivity. Defined.

Lemma response_matches_request_witness : h_chans demo_waiting !! 1%nat = Some [].
Proof. by apply (proj1 (response_matches_request _ demo_waiting_reachable) "r1"). Defined.

Lemma response_delivered_witness : exists h',
  wait_receive 7 (on_frame (fun _ _ => false) 0 (Some demo_pong) demo_waiting) = Some h'.
Proof.
  destruct (response_delivered demo_waiting (fun _ _ => false) 0
    (MkConn "c1" false false true) 7 "r1" 1 demo_pong) as (h' & Hh & _);
    [apply demo_waiting_reachable|reflexivity..|done|done|]. by exists h'.
Defined.

Lemma stale_exit_keeps_new_connection_witness :
  IsOnline "c1" (run_exit 0 (Register 1 (snd (NewConn "c1" demo_online)))) = true.
Proof.
  destruct (stale_exit_keeps_new_connection demo_online "c1" 0 1 (snd (NewConn "c1" demo_online))
    demo_ping demo_online_reachable eq_refl eq_refl) as (H & _).
  unfold IsOnline. by rewrite H.
Defined.
End Witnesses.
