(* ===== verification/Demo.v ===== *)
(** A small concrete system the witnesses of the theorems evaluate: two registered
    clients, one pair between them, a hub with or without the clients connected, and a
    clock that advances one second per reading. *)
From S2P Require Import Prelude GoStrings Json Proto Store StoreFacts Lww Engine Hub.
Local Open Scope Z_scope.

Module Demo.
(** 2023-11-14 and one second per reading. *)
#[export] Instance demo_clock : Clock := fun n => 1700000000000000000 + Z.of_nat n * 1000000000.

Definition client (id : string) : Client :=
  MkClient id id "host" "/data" "0.1" "1.0" "online" 0 0 0 0.
Definition the_pair (direction : string) : SyncPair :=
  MkSyncPair "p1" "docs" "alice" "docs" "bob" "mirror/docs" direction true 0 0 0.

(** The database after the calls that create the clients, the pair and [rows]. *)
Definition calls (direction : string) (rows : list FileState) : list store_call :=
  [CallUpsertClient (client "alice"); CallUpsertClient (client "bob");
   CallUpsertPair (the_pair direction)] ++ map CallUpsertFileState rows.
Definition content (direction : string) (rows : list FileState) : tables :=
  db (snd (for_each (calls direction rows) run_call (MkStore empty_tables [] 0))).

Lemma content_ok direction rows : tables_ok (content direction rows).
Proof.
  apply (preserves_for_each (fun s => tables_ok (db s))); [|apply empty_tables_ok].
  intros c _. apply run_call_preserves.
Qed.

Definition row (side rel op : string) (sha : option string) (t : Z) : FileState :=
  MkFileState "p1" side rel sha None (Some 0) t op false.

Definition event (side rel sha op : string) : FileChangedEvent :=
  MkFileChangedEvent "p1" side rel sha 3 0 op false.

Definition accept (id : string) (h : hub) : hub :=
  let '(c, h) := NewConn id h in Register c h.
Definition both_online : hub := accept "bob" (accept "alice" New).
Definition alice_online : hub := accept "alice" New.
End Demo.
