(* ===== verification/SyncSpec.v ===== *)
(** What [Engine.HandleFileChanged] does with a file change: the decision, the
    commands it sends, the rows it writes.  Every statement is over an arbitrary
    [Sender] that keeps the laws, and is instantiated on the hub by its witness. *)
From S2P Require Import Prelude GoStrings Json Proto Store StoreFacts Lww Engine EngineFacts Hub Demo.
Local Open Scope Z_scope.

Section Sync.
Context {N : Type} `{HS : !Sender N} `{HL : !SenderLaws N} {clk : Clock}.
Notation W := (world N).

(** *** Helpers *)
Lemma otherSide_ne s : otherSide s <> s.
Proof. unfold otherSide. case_bool_decide; congruence. Qed.

Lemma runs_to_eq {A} (m m' : M W A) t n t1 n1 net r t' n' l :
  m (quiet t n net) = m' (quiet t1 n1 net) ->
  runs_to m' t1 n1 net r t' n' l -> runs_to m t n net r t' n' l.
Proof. intros He (net' & H & ? & ?). exists net'. by rewrite He. Qed.

Lemma store_event_pairs ev n t : t_pairs (store_event ev n t) = t_pairs t.
Proof. done. Qed.

Lemma store_event_lookup ev n t k :
  t_files (store_event ev n t) !! k = upsert_file_row (file_state_of ev (clock n)) (t_files t) !! k.
Proof. done. Qed.

Lemma HandleFileChanged_mirror src p ev t n net :
  t_pairs t !! ev_PairID ev = Some p -> p_Enabled p = true ->
  p_Direction p = "a_to_b" \/ p_Direction p = "b_to_a" ->
  HandleFileChanged src ev (quiet t n net) =
  mirror_dispatch src p ev (quiet (store_event ev n t) (S n) net).
Proof.
  intros Hp He Hd. rewrite (HandleFileChanged_eq src p) by done.
  unfold distribute. rewrite He. by destruct Hd as [-> | ->].
Qed.

Lemma HandleFileChanged_bidirectional src p ev t n net :
  tables_ok t -> t_pairs t !! ev_PairID ev = Some p -> p_Enabled p = true ->
  p_Direction p = "bidirectional" ->
  HandleFileChanged src ev (quiet t n net) =
  bidirectional_action src p ev (file_state_of ev (clock n))
    (t_files t !! (ev_PairID ev, otherSide (ev_Side ev), ev_RelPath ev))
    (quiet (store_event ev n t) (S n) net).
Proof.
  intros Hok Hp He Hd. rewrite (HandleFileChanged_eq src p) by done.
  unfold distribute. rewrite He, Hd. cbn [negb]. rewrite bool_decide_true by done.
  rewrite handleBidirectional_eq, store_event_lookup, upsert_file_row_lookup.
  rewrite <- (ok_pair_key t Hok _ _ Hp). rewrite decide_False; [done|].
  intros [= Hs]. by apply (otherSide_ne (ev_Side ev)).
Qed.

(** The end of a mirror [ev] comes from, and the one it goes to. *)
Definition mirror_route (p : SyncPair) (ev : FileChangedEvent) (dst side path : string) : Prop :=
  (p_Direction p = "a_to_b" /\ ev_Side ev = "a" /\
     dst = p_ClientBID p /\ side = "b" /\ path = p_PathB p) \/
  (p_Direction p = "b_to_a" /\ ev_Side ev = "b" /\
     dst = p_ClientAID p /\ side = "a" /\ path = p_PathA p).

Lemma mirror_route_targets p ev dst side path :
  mirror_route p ev dst side path ->
  resolveMirrorTargets p (ev_Side ev) = [MkTarget dst side path] /\
  (p_Direction p = "a_to_b" \/ p_Direction p = "b_to_a").
Proof.
  unfold resolveMirrorTargets.
  intros [(-> & -> & -> & -> & ->)|(-> & -> & -> & -> & ->)]; cbn; auto.
Qed.

(** The failed run a mirror records when the peer cannot be reached. *)
Definition failed_run (p : SyncPair) (src dst : string) (ev : FileChangedEvent) (why : string)
    (ts id : Z) : SyncRun :=
  run_row id (p_ID p) src dst (ev_RelPath ev) (ev_SHA256 ev) "failed" why ts.

(** The view the decision has of an event. *)
Definition event_view (ev : FileChangedEvent) (n : nat) : fileStateView :=
  toView (file_state_of ev (clock n)).

(** The one command a change of the source side of a one-way pair makes. *)
Definition mirror_command (src side : string) (ev : FileChangedEvent) : FileSyncCommand :=
  MkFileSyncCommand (ev_PairID ev) side (ev_RelPath ev) (ev_SHA256 ev)
    (if bool_decide (ev_Op ev = "delete") then "delete" else "fetch") "" src.

Lemma runs_mirror src p ev t n net dst side path :
  t_pairs t !! ev_PairID ev = Some p -> tables_ok t ->
  mirror_route p ev dst side path -> net_up net dst = true ->
  runs_to (mirror_dispatch src p ev) (store_event ev n t) (S n) net (Ok tt)
    (add_run (ok_run p src dst ev (clock (S n))) (store_event ev n t)) (S (S n))
    [(dst, command_envelope (mirror_command src side ev))].
Proof.
  intros Hp Hok [Hr Hd]%mirror_route_targets Hup.
  unfold mirror_dispatch. rewrite Hr. cbn [for_each].
  pose proof (runs_dispatchSync src p (MkTarget dst side path) ev (store_event ev n t) (S n) net) as H.
  unfold command_for in H. rewrite (ok_pair_key t Hok _ _ Hp) in H.
  eapply (runs_to_try _ _ _ _ _ _ _ _ [_]); [|intros; apply runs_to_ret].
  eapply (runs_to_try _ _ _ _ _ _ _ _ [_]); [apply H|intros; apply runs_to_ret]; [done|].
  rewrite store_event_pairs. eauto.
Qed.

(** *** Claims *)

(** The decision of the last-writer-wins comparison, complete: two deletes and two
    writes of the same content need nothing; a write against a delete, in either
    order, is an edit that wins; two writes of different content are a conflict
    inside the window and a dispatch outside it.  It does not depend on which of the
    two sides reported last. *)
Theorem lww_decision side side' ev o w :
  view_ok ev -> view_ok o ->
  dec_Action (decideLWW side ev (Some o) w) =
    (if bool_decide (v_Op ev = v_Op o) then
       if bool_decide (v_Op ev = "delete") || same_sha (v_SHA256 ev) (v_SHA256 o) then LWWActionNone
       else if Z.abs (v_ServerModTime ev - v_ServerModTime o) <? w then LWWActionConflict
       else LWWActionDispatch
     else LWWActionEditWins) /\
  dec_Action (decideLWW side ev (Some o) w) = dec_Action (decideLWW side' o (Some ev) w).
Proof.
  intros He Ho. split; [by apply decideLWW_table|].
  rewrite !decideLWW_table by done. rewrite (same_sha_sym (v_SHA256 o)).
  replace (Z.abs (v_ServerModTime o - v_ServerModTime ev))
    with (Z.abs (v_ServerModTime ev - v_ServerModTime o)) by lia.
  destruct (decide (v_Op ev = v_Op o)) as [E|E].
  - by rewrite E.
  - by rewrite !bool_decide_false by congruence.
Qed.

(** A one-way pair forwards a change of its source side: the row is stored, the
    other client gets exactly one command for the path, [delete] for a deletion and
    [fetch] with the content hash otherwise, and one run is recorded as [ok]. *)
Theorem mirror_forwards src p ev t n net dst side path :
  t_pairs t !! ev_PairID ev = Some p -> tables_ok t -> p_Enabled p = true ->
  mirror_route p ev dst side path -> net_up net dst = true ->
  runs_to (HandleFileChanged src ev) t n net (Ok tt)
    (add_run (ok_run p src dst ev (clock (S n))) (store_event ev n t)) (S (S n))
    [(dst, command_envelope (mirror_command src side ev))].
Proof.
  intros Hp Hok He Hr Hup. destruct (mirror_route_targets _ _ _ _ _ Hr) as [_ Hd].
  eapply runs_to_eq; [by apply HandleFileChanged_mirror|].
  by eapply runs_mirror.
Qed.

(** When the destination of a one-way pair cannot be reached nothing is sent, the
    caller sees no error, the row is stored all the same, and one run is recorded as
    [failed] with the sender's error. *)
Theorem mirror_records_failure src p ev t n net dst side path :
  t_pairs t !! ev_PairID ev = Some p -> tables_ok t -> p_Enabled p = true ->
  mirror_route p ev dst side path -> net_up net dst = false ->
  exists why,
    runs_to (HandleFileChanged src ev) t n net (Ok tt)
      (add_run (failed_run p src dst ev why (clock (S n))) (store_event ev n t)) (S (S n)) [].
Proof.
  intros Hp Hok He [Hr Hd]%mirror_route_targets Hup.
  destruct (runs_dispatchSync_down src p (MkTarget dst side path) ev (store_event ev n t) (S n) net)
    as [err Herr]; [done|]. exists (error_text err).
  eapply runs_to_eq; [by apply HandleFileChanged_mirror|].
  unfold mirror_dispatch. rewrite Hr. cbn [for_each].
  eapply (runs_to_try _ _ _ _ _ _ _ _ []); [|intros; apply runs_to_ret].
  eapply (runs_to_try _ _ _ _ _ _ _ _ []); [exact Herr|]. intros net1 Hn1.
  apply (runs_record p). rewrite store_event_pairs, (ok_pair_key t Hok _ _ Hp). eauto.
Qed.

(** The destination side of a one-way pair has no say: its changes are stored and
    go nowhere, with no message, run or audit entry. *)
Theorem mirror_ignores_destination src p ev t n net :
  t_pairs t !! ev_PairID ev = Some p -> p_Enabled p = true ->
  (p_Direction p = "a_to_b" /\ ev_Side ev <> "a") \/ (p_Direction p = "b_to_a" /\ ev_Side ev <> "b") ->
  HandleFileChanged src ev (quiet t n net) = (Ok tt, quiet (store_event ev n t) (S n) net).
Proof.
  intros Hp He Hd. rewrite (HandleFileChanged_mirror src p) by naive_solver.
  unfold mirror_dispatch, resolveMirrorTargets.
  destruct Hd as [[-> Hs]|[-> Hs]]; cbn [bool_decide decide_rel]; by rewrite (bool_decide_false _ Hs).
Qed.

(** Two writes of different content inside the window: the conflict is audited, the
    side with the later server time keeps the path (the one that just wrote, on a
    tie), the other is told to move its file to the conflict name and then to fetch
    the winner's content, and the renaming is audited; nothing else happens. *)
Theorem conflict_keeps_both src p ev t n net o sha osha :
  tables_ok t -> t_pairs t !! ev_PairID ev = Some p -> p_Enabled p = true ->
  p_Direction p = "bidirectional" -> src = other_client p (ev_Side ev) -> ev_SHA256 ev = sha ->
  ev_Op ev = "write" -> sha <> "" -> sha <> osha ->
  t_files t !! (ev_PairID ev, otherSide (ev_Side ev), ev_RelPath ev) = Some o ->
  fs_Op o = "write" -> fs_SHA256 o = Some osha ->
  view_ok (event_view ev n) -> view_ok (toView o) ->
  Z.abs (clock n - fs_ServerModTime o) < defaultConflictWindowNs ->
  (ev_Side ev = "a" \/ ev_Side ev = "b") ->
  net_up net (p_ClientAID p) = true -> net_up net (p_ClientBID p) = true ->
  let here_wins := fs_ServerModTime o <=? clock n in
  let winnerSide := if here_wins then ev_Side ev else otherSide (ev_Side ev) in
  let loserSide := if here_wins then otherSide (ev_Side ev) else ev_Side ev in
  let loser := other_client p loserSide in
  let winnerSHA := if here_wins then sha else osha in
  let newName := conflictFilename (ev_RelPath ev) loser (clock (S (S n))) in
  runs_to (HandleFileChanged src ev) t n net (Ok tt)
    (set_audit (fun l => (l ++
        [MkAuditEntry (clock (S n)) "conflict_detected" None (Some (ev_PairID ev)) (Some (ev_RelPath ev)) None]) ++
        [renamed_entry p (ev_RelPath ev) newName (clock (S (S (S n))))])
       (store_event ev n t))
    (S (S (S (S n))))
    (conflict_messages p (ev_RelPath ev) newName winnerSHA
       winnerSide (other_client p winnerSide) loserSide loser).
Proof.
  intros Hok Hp He Hd Hsrc Hsha Hop Hne Hdiff Ho Hoop Hosha Hv1 Hv2 Hw Hside Ha Hb
    here_wins winnerSide loserSide loser winnerSHA newName.
  eapply runs_to_eq; [by apply HandleFileChanged_bidirectional|]. rewrite Ho.
  unfold bidirectional_action. cbn [fmap option_fmap option_map].
  rewrite decideLWW_table by done. cbn [v_Op v_SHA256 v_ServerModTime toView file_state_of
    fs_Op fs_SHA256 fs_ServerModTime].
  rewrite Hop, Hoop, Hosha, Hsha, (bool_decide_false (sha = "")) by done.
  cbn [bool_decide decide_rel orb same_sha]. rewrite (bool_decide_false (sha = osha)) by done.
  apply Z.ltb_lt in Hw. rewrite Hw.
  assert (p_ID p = ev_PairID ev) as Hid by apply (ok_pair_key t Hok _ _ Hp).
  assert (fs_RelPath o = ev_RelPath ev) as Hrel.
  { pose proof (ok_file_key t Hok _ _ Ho) as Hk. by injection Hk. }
  assert (forall s, net_up net (other_client p s) = true) as Hup.
  { intros s. unfold other_client. by case_bool_decide. }
  eapply (runs_to_bind _ _ _ _ _ tt _ _ []); [apply runs_audit|].
  intros net1 Hn1.
  match goal with |- runs_to _ ?t1 _ _ _ _ _ _ =>
    pose proof (fun ws w ls lc lsha => runs_dispatchConflict p ws w ls lc lsha t1 (S (S n)) net1) as Hc end.
  unfold conflict_messages, renamed_entry, winnerSide, loser, loserSide, winnerSHA, newName, here_wins in *.
  rewrite Hid in *. destruct (fs_ServerModTime o <=? clock n).
  - specialize (Hc (ev_Side ev) (file_state_of ev (clock n)) (otherSide (ev_Side ev))
      (other_client p (otherSide (ev_Side ev))) osha).
    cbn [fs_RelPath fs_SHA256 file_state_of] in Hc.
    rewrite Hsha, (bool_decide_false (sha = "")) in Hc by done. apply Hc; by rewrite Hn1.
  - specialize (Hc (otherSide (ev_Side ev)) o (ev_Side ev) src (ev_SHA256 ev)).
    rewrite Hrel, Hosha in Hc. rewrite Hsrc in Hc |- *. cbn [default] in Hc.
    rewrite Hsha in Hc. apply Hc; by rewrite Hn1.
Qed.

(** C37. An edit beats a deletion: when the other side's stored row is a write, a delete
    of a bidirectional pair never reaches the other client; the deletion is audited and
    the deleting client is told to fetch the content of that row back, however old
    the row is. *)
Theorem edit_beats_delete src p ev t n net o osha :
  tables_ok t -> t_pairs t !! ev_PairID ev = Some p -> p_Enabled p = true ->
  p_Direction p = "bidirectional" -> ev_Op ev = "delete" ->
  t_files t !! (ev_PairID ev, otherSide (ev_Side ev), ev_RelPath ev) = Some o ->
  fs_Op o = "write" -> fs_SHA256 o = Some osha -> net_up net src = true ->
  runs_to (HandleFileChanged src ev) t n net (Ok tt)
    (set_audit (fun l => l ++
        [MkAuditEntry (clock (S n)) "delete_vs_edit" None (Some (ev_PairID ev)) (Some (ev_RelPath ev))
           (Some (json_text (JObj [("deleted_by", JStr src)])))])
       (store_event ev n t)) (S (S n))
    [(src, command_envelope
        (MkFileSyncCommand (ev_PairID ev) (ev_Side ev) (ev_RelPath ev) osha "fetch" ""
           (other_client p (otherSide (ev_Side ev)))))].
Proof.
  intros Hok Hp He Hd Hop Ho Hoop Hosha Hup.
  eapply runs_to_eq; [by apply HandleFileChanged_bidirectional|]. rewrite Ho.
  unfold bidirectional_action. cbn [fmap option_fmap option_map].
  unfold decideLWW. cbn [v_Op toView file_state_of fs_Op]. rewrite Hop, Hoop. cbn.
  unfold handleEditWins. rewrite Hop. cbn [bool_decide decide_rel]. unfold auditDeleteVsEdit.
  rewrite Hosha, (ok_pair_key t Hok _ _ Hp).
  pose proof (runs_audit "delete_vs_edit" None (Some (ev_PairID ev)) (Some (ev_RelPath ev))
    (json_text (JObj [("deleted_by", JStr src)])) (store_event ev n t) (S n) net) as Ha.
  rewrite (bool_decide_false _ (json_text_obj_ne _)) in Ha.
  eapply (runs_to_bind _ _ _ _ _ tt _ _ []); [exact Ha|]. intros net1 Hn1.
  pose proof (runs_dispatchFetch (other_client p (otherSide (ev_Side ev))) p
    (MkTarget src (ev_Side ev) (pathFor p (ev_Side ev))) (ev_RelPath ev) osha) as Hf.
  rewrite (ok_pair_key t Hok _ _ Hp) in Hf. apply Hf. by rewrite Hn1.
Qed.

(** A bidirectional pair forwards a write to the other client when that side has no
    row for the path, when its row is a deletion, and when its row is a different
    content last written outside the conflict window: one command, one [ok] run. *)
Theorem bidirectional_forwards_write src p ev t n net :
  tables_ok t -> t_pairs t !! ev_PairID ev = Some p -> p_Enabled p = true ->
  p_Direction p = "bidirectional" -> ev_Op ev = "write" -> view_ok (event_view ev n) ->
  (forall o, t_files t !! (ev_PairID ev, otherSide (ev_Side ev), ev_RelPath ev) = Some o ->
     fs_Op o = "delete" \/
     (fs_Op o = "write" /\ fs_SHA256 o <> Some (ev_SHA256 ev) /\ view_ok (toView o) /\
      defaultConflictWindowNs <= Z.abs (clock n - fs_ServerModTime o))) ->
  let dst := other_client p (otherSide (ev_Side ev)) in
  net_up net dst = true ->
  runs_to (HandleFileChanged src ev) t n net (Ok tt)
    (add_run (ok_run p src dst ev (clock (S n))) (store_event ev n t)) (S (S n))
    [(dst, command_envelope
        (MkFileSyncCommand (ev_PairID ev) (otherSide (ev_Side ev)) (ev_RelPath ev) (ev_SHA256 ev)
           "fetch" "" src))].
Proof.
  intros Hok Hp He Hd Hop Hv Ho dst Hup.
  eapply runs_to_eq; [by apply HandleFileChanged_bidirectional|].
  pose proof (runs_dispatchSync src p (MkTarget dst (otherSide (ev_Side ev))
    (other_path p (otherSide (ev_Side ev)))) ev (store_event ev n t) (S n) net) as Hdisp.
  unfold command_for in Hdisp. rewrite (ok_pair_key t Hok _ _ Hp), Hop in Hdisp.
  specialize (Hdisp Hup ltac:(rewrite store_event_pairs; eauto)).
  unfold bidirectional_action. destruct (t_files t !! _) as [o|]; [|exact Hdisp].
  cbn [fmap option_fmap option_map].
  destruct (Ho o eq_refl) as [Hoop|(Hoop & Hsha & Hvo & Hw)].
  - unfold decideLWW. cbn [v_Op toView file_state_of fs_Op]. rewrite Hop, Hoop. cbn.
    unfold handleEditWins. rewrite Hop. exact Hdisp.
  - rewrite decideLWW_table by done.
    cbn [v_Op v_SHA256 v_ServerModTime toView file_state_of fs_Op fs_SHA256 fs_ServerModTime].
    rewrite Hop, Hoop. cbn [bool_decide decide_rel orb].
    replace (same_sha _ (fs_SHA256 o)) with false.
    + apply Z.ltb_ge in Hw. rewrite Hw. exact Hdisp.
    + symmetry. apply not_true_iff_false. rewrite same_sha_true. intros (x & Hx & Hy).
      case_bool_decide; congruence.
Qed.

(** When the other client of a bidirectional pair is unreachable the change is an
    error for the caller: the row is stored, but no message is sent and no run is
    recorded, whereas a one-way pair records the failure and reports success. *)
Theorem bidirectional_peer_offline src p ev t n net :
  tables_ok t -> t_pairs t !! ev_PairID ev = Some p -> p_Enabled p = true ->
  p_Direction p = "bidirectional" ->
  t_files t !! (ev_PairID ev, otherSide (ev_Side ev), ev_RelPath ev) = None ->
  net_up net (other_client p (otherSide (ev_Side ev))) = false ->
  exists err, runs_to (HandleFileChanged src ev) t n net (Err err) (store_event ev n t) (S n) [].
Proof.
  intros Hok Hp He Hd Ho Hup.
  destruct (runs_dispatchSync_down src p (MkTarget (other_client p (otherSide (ev_Side ev)))
    (otherSide (ev_Side ev)) (other_path p (otherSide (ev_Side ev)))) ev (store_event ev n t) (S n) net)
    as [err Herr]; [done|]. exists err.
  eapply runs_to_eq; [by apply HandleFileChanged_bidirectional|]. rewrite Ho. exact Herr.
Qed.

(** An event for a pair the store does not know has no effect at all, and one for a
    disabled pair is stored and goes no further. *)
Theorem unknown_or_disabled_pair src ev t n net :
  match t_pairs t !! ev_PairID ev with
  | None => HandleFileChanged src ev (quiet t n net) = (Ok tt, quiet t n net)
  | Some p =>
      p_Enabled p = false ->
      HandleFileChanged src ev (quiet t n net) = (Ok tt, quiet (store_event ev n t) (S n) net)
  end.
Proof.
  destruct (t_pairs t !! ev_PairID ev) as [p|] eqn:Hp; [|by apply HandleFileChanged_unknown].
  intros He. rewrite (HandleFileChanged_eq src p) by done. unfold distribute. by rewrite He.
Qed.

(** C10. Whatever the pair's direction, the event and who is reachable: handling an event
    only appends commands about that pair and that path, addressed to the pair's two
    clients or to the reporting one; it writes that one file row by the last-writer
    rule and touches no other row, pair or client. *)
Theorem handling_is_confined src ev t n net p :
  tables_ok t -> t_pairs t !! ev_PairID ev = Some p ->
  let w := snd (HandleFileChanged src ev (quiet t n net)) in
  (exists l, net_log (w_net w) = net_log net ++ l /\
             Forall (member_message p src (ev_RelPath ev)) l) /\
  t_pairs (db (w_store w)) = t_pairs t /\ t_clients (db (w_store w)) = t_clients t /\
  (forall k, k <> (ev_PairID ev, ev_Side ev, ev_RelPath ev) ->
     t_files (db (w_store w)) !! k = t_files t !! k) /\
  (forall o, t_files t !! (ev_PairID ev, ev_Side ev, ev_RelPath ev) = Some o ->
     clock n <= fs_ServerModTime o -> t_files (db (w_store w)) = t_files t).
Proof.
  intros Hok Hp.
  destruct (HandleFileChanged_effect src ev t n net p Hok Hp)
    as (r & t' & n' & net' & l & -> & Hf & Hpa & Hcl & _ & _ & Hlog & Hall).
  cbn. split_and!; [by exists l|done|done| |].
  - intros k Hk. rewrite Hf, upsert_file_row_lookup, decide_False; [done|].
    intros <-. by apply Hk.
  - intros o Ho Hle. rewrite Hf. unfold upsert_file_row, fileKey. cbn. rewrite Ho.
    by destruct (Z.ltb_spec (fs_ServerModTime o) (clock n)); [lia|].
Qed.

(** C5. No echo: once a write from one side has been handled, the other side's report of
    the same content, which is what its own watcher produces when it has applied the
    command, is only stored: no message, no run, no audit entry. *)
Theorem echo_is_absorbed src src' p ev ev' t n net :
  tables_ok t -> t_pairs t !! ev_PairID ev = Some p -> p_Enabled p = true ->
  p_Direction p = "bidirectional" -> ev_Side ev = "a" \/ ev_Side ev = "b" ->
  ev_Op ev = "write" -> ev_SHA256 ev <> "" ->
  (forall o, t_files t !! (ev_PairID ev, ev_Side ev, ev_RelPath ev) = Some o ->
     fs_ServerModTime o < clock n) ->
  ev_PairID ev' = ev_PairID ev -> ev_Side ev' = otherSide (ev_Side ev) ->
  ev_RelPath ev' = ev_RelPath ev -> ev_Op ev' = "write" -> ev_SHA256 ev' = ev_SHA256 ev ->
  let w1 := snd (HandleFileChanged src ev (quiet t n net)) in
  exists t1 n1 net1, w1 = quiet t1 n1 net1 /\
    HandleFileChanged src' ev' w1 = (Ok tt, quiet (store_event ev' n1 t1) (S n1) net1).
Proof.
  intros Hok Hp He Hd Hside Hop Hne Hnew Hpid Hs' Hr' Hop' Hsha w1.
  destruct (HandleFileChanged_effect src ev t n net p Hok Hp)
    as (r & t1 & n1 & net1 & l & Heq & Hf & Hpa & _ & _ & _ & _ & _).
  exists t1, n1, net1. unfold w1. rewrite Heq. split; [done|]. cbn [snd].
  assert (t_files t1 !! (ev_PairID ev', otherSide (ev_Side ev'), ev_RelPath ev') =
          Some (file_state_of ev (clock n))) as Hrow.
  { rewrite Hpid, Hs', Hr', Hf, upsert_file_row_lookup.
    assert (otherSide (otherSide (ev_Side ev)) = ev_Side ev) as -> by by destruct Hside as [-> | ->].
    rewrite decide_True by done. destruct (t_files t !! _) as [o|]; [|done].
    specialize (Hnew o eq_refl). apply Z.ltb_lt in Hnew. cbn. by rewrite Hnew. }
  rewrite (HandleFileChanged_eq src' p) by (by rewrite Hpa, Hpid).
  unfold distribute. rewrite He, Hd. cbn [negb]. rewrite bool_decide_true by done.
  rewrite handleBidirectional_eq, store_event_lookup, upsert_file_row_lookup.
  rewrite (ok_pair_key t Hok _ _ Hp), <- Hpid.
  rewrite decide_False by (intros [= H]; by apply (otherSide_ne (ev_Side ev'))).
  rewrite Hrow. unfold bidirectional_action, decideLWW. cbn.
  rewrite Hop, Hop', Hsha, (bool_decide_false (ev_SHA256 ev = "")) by done. cbn.
  by rewrite (bool_decide_true (ev_SHA256 ev = ev_SHA256 ev)) by done.
Qed.
End Sync.

(** *** Witnesses *)
Section Witnesses.
Import Demo.

Lemma lww_decision_witness :
  dec_Action (decideLWW "a" (MkView "delete" None 7) (Some (MkView "write" (Some "s") 5)) 10)
    = LWWActionEditWins.
Proof. by rewrite (proj1 (lww_decision "a" "b" (MkView "delete" None 7) (MkView "write" (Some "s") 5) 10
  ltac:(split; [by right|done]) ltac:(split; [by left|done]))). Defined.

Lemma mirror_forwards_witness :
  runs_to (HandleFileChanged "alice" (event "a" "n.txt" "abc" "write"))
    (content "a_to_b" []) 0 both_online (Ok tt)
    (add_run (ok_run (the_pair "a_to_b") "alice" "bob" (event "a" "n.txt" "abc" "write") (clock 1))
       (store_event (event "a" "n.txt" "abc" "write") 0 (content "a_to_b" []))) 2
    [("bob", command_envelope (MkFileSyncCommand "p1" "b" "n.txt" "abc" "fetch" "" "alice"))].
Proof.
  apply (mirror_forwards "alice" (the_pair "a_to_b") (event "a" "n.txt" "abc" "write")
    (content "a_to_b" []) 0 both_online "bob" "b" "mirror/docs");
    [vm_compute; reflexivity|apply content_ok|reflexivity|by left|vm_compute; reflexivity].
Defined.

Lemma mirror_records_failure_witness : exists why,
  runs_to (HandleFileChanged "alice" (event "a" "n.txt" "" "delete"))
    (content "a_to_b" []) 0 alice_online (Ok tt)
    (add_run (failed_run (the_pair "a_to_b") "alice" "bob" (event "a" "n.txt" "" "delete") why (clock 1))
       (store_event (event "a" "n.txt" "" "delete") 0 (content "a_to_b" []))) 2 [].
Proof.
  apply (mirror_records_failure "alice" (the_pair "a_to_b") (event "a" "n.txt" "" "delete")
    (content "a_to_b" []) 0 alice_online "bob" "b" "mirror/docs");
    [vm_compute; reflexivity|apply content_ok|reflexivity|by left|vm_compute; reflexivity].
Defined.

Lemma mirror_ignores_destination_witness :
  fst (HandleFileChanged "bob" (event "b" "n.txt" "abc" "write") (quiet (content "a_to_b" []) 0 both_online))
  = Ok tt.
Proof.
  rewrite (mirror_ignores_destination "bob" (the_pair "a_to_b")); [reflexivity|vm_compute; reflexivity..|].
  by left.
Defined.

(* bob wrote two seconds before alice *)
Definition bob_row : FileState := row "b" "n.txt" "write" (Some "old") 1699999998000000000.

Lemma conflict_keeps_both_witness : exists r,
  HandleFileChanged "alice" (event "a" "n.txt" "new" "write")
         (quiet (content "bidirectional" [bob_row]) 0 both_online) = r /\
  fst r = Ok tt /\
  h_sent (w_net (snd r)) = conflict_messages (the_pair "bidirectional") "n.txt"
    (conflictFilename "n.txt" "bob" (clock 2)) "new" "a" "alice" "b" "bob".
Proof.
  assert (view_ok (event_view (event "a" "n.txt" "new" "write") 0)) as Hv1
    by (split; [by left|done]).
  assert (view_ok (toView bob_row)) as Hv2 by (split; [by left|done]).
  pose proof (conflict_keeps_both "alice" (the_pair "bidirectional")
    (event "a" "n.txt" "new" "write") (content "bidirectional" [bob_row]) 0 both_online bob_row
    "new" "old" (content_ok _ _) ltac:(vm_compute; reflexivity)
    eq_refl eq_refl eq_refl eq_refl eq_refl ltac:(done) ltac:(done) ltac:(vm_compute; reflexivity)
    eq_refl eq_refl Hv1 Hv2 ltac:(vm_compute; reflexivity) (or_introl eq_refl)
    ltac:(vm_compute; reflexivity) ltac:(vm_compute; reflexivity)) as (net' & H & Hl & _).
  eexists. split; [exact H|]. split; [reflexivity|exact Hl].
Defined.

(* an hour before alice *)
Definition old_row : FileState := row "b" "n.txt" "write" (Some "old") 1699996400000000000.

Lemma edit_beats_delete_witness : exists t,
  runs_to (HandleFileChanged "alice" (event "a" "n.txt" "" "delete"))
    (content "bidirectional" [old_row]) 0 both_online (Ok tt) t 2
    [("alice", command_envelope (MkFileSyncCommand "p1" "a" "n.txt" "old" "fetch" "" "bob"))].
Proof.
  pose proof (edit_beats_delete "alice" (the_pair "bidirectional") (event "a" "n.txt" "" "delete")
    (content "bidirectional" [old_row]) 0 both_online old_row "old" (content_ok _ _)
    ltac:(vm_compute; reflexivity) eq_refl eq_refl eq_refl ltac:(vm_compute; reflexivity)
    eq_refl eq_refl ltac:(vm_compute; reflexivity)) as H.
  eexists. exact H.
Defined.

Lemma bidirectional_forwards_write_witness : exists t,
  runs_to (HandleFileChanged "alice" (event "a" "n.txt" "new" "write"))
    (content "bidirectional" [old_row]) 0 both_online (Ok tt) t 2
    [("bob", command_envelope (MkFileSyncCommand "p1" "b" "n.txt" "new" "fetch" "" "alice"))].
Proof.
  assert (view_ok (event_view (event "a" "n.txt" "new" "write") 0)) as Hv1
    by (split; [by left|done]).
  assert (view_ok (toView old_row)) as Hv2 by (split; [by left|done]).
  assert (t_files (content "bidirectional" [old_row]) !! ("p1", "b", "n.txt") = Some old_row) as Hrow
    by (vm_compute; reflexivity).
  assert (defaultConflictWindowNs <= Z.abs (clock 0 - fs_ServerModTime old_row)) as Hw
    by (vm_compute; discriminate).
  pose proof (bidirectional_forwards_write "alice" (the_pair "bidirectional")
    (event "a" "n.txt" "new" "write") (content "bidirectional" [old_row]) 0 both_online (content_ok _ _)
    ltac:(vm_compute; reflexivity) eq_refl eq_refl eq_refl Hv1) as H.
  eexists. apply H; [|vm_compute; reflexivity].
  intros o Ho. pose proof (eq_trans (eq_sym Hrow) Ho) as E. injection E as <-. right. split_and!; done.
Defined.

Lemma bidirectional_peer_offline_witness : exists err t,
  runs_to (HandleFileChanged "alice" (event "a" "n.txt" "new" "write"))
    (content "bidirectional" []) 0 alice_online (Err err) t 1 [].
Proof.
  destruct (bidirectional_peer_offline "alice" (the_pair "bidirectional")
    (event "a" "n.txt" "new" "write") (content "bidirectional" []) 0 alice_online) as [err H];
    try (vm_compute; reflexivity); try apply content_ok. by do 2 eexists.
Defined.

Lemma unknown_or_disabled_pair_witness :
  HandleFileChanged "alice" (event "a" "n.txt" "new" "write") (quiet empty_tables 0 alice_online) =
  (Ok tt, quiet empty_tables 0 alice_online).
Proof.
  exact (unknown_or_disabled_pair "alice" (event "a" "n.txt" "new" "write") empty_tables 0 alice_online).
Defined.

Lemma handling_is_confined_witness :
  t_pairs (db (w_store (snd (HandleFileChanged "alice" (event "a" "n.txt" "new" "write")
    (quiet (content "bidirectional" [bob_row]) 0 both_online))))) =
  t_pairs (content "bidirectional" [bob_row]).
Proof.
  by apply (handling_is_confined "alice" (event "a" "n.txt" "new" "write")
    (content "bidirectional" [bob_row]) 0 both_online (the_pair "bidirectional"));
    [apply content_ok|vm_compute; reflexivity].
Defined.

Lemma echo_is_absorbed_witness :
  fst (HandleFileChanged "bob" (event "b" "n.txt" "new" "write")
    (snd (HandleFileChanged "alice" (event "a" "n.txt" "new" "write")
       (quiet (content "bidirectional" []) 0 both_online)))) = Ok tt.
Proof.
  assert (t_files (content "bidirectional" []) !! ("p1", "a", "n.txt") = None) as Hrow
    by (vm_compute; reflexivity).
  pose proof (echo_is_absorbed "alice" "bob" (the_pair "bidirectional")
    (event "a" "n.txt" "new" "write") (event "b" "n.txt" "new" "write")
    (content "bidirectional" []) 0 both_online (content_ok _ _)
    ltac:(vm_compute; reflexivity) eq_refl eq_refl (or_introl eq_refl) eq_refl ltac:(done)) as H.
  destruct H as (t1 & n1 & net1 & _ & E); [|done..|].
  - intros o Ho. by pose proof (eq_trans (eq_sym Hrow) Ho) as E.
  - by rewrite E.
Defined.
End Witnesses.
