(* ===== verification/DiffSpec.v ===== *)
(** Snapshot reconciliation ([applyDiff]): which events it makes of a client's snapshot
    and what it leaves in the store; and pair subscriptions. *)
From S2P Require Import Prelude GoStrings Json Proto Store StoreFacts Lww Engine EngineFacts Hub Demo.
Local Open Scope Z_scope.
Local Open Scope go_scope.

Section Diff.
Context {N : Type} `{HS : !Sender N} `{HL : !SenderLaws N} {clk : Clock}.
Notation W := (world N).
Notation integrity := (fun w : W => tables_ok (db (w_store w))).

(** *** The engine keeps the store's integrity, driver failures included. *)
Lemma integrity_on_store {A} (m : M store A) :
  preserves (fun s => tables_ok (db s)) m -> preserves integrity (on_store m).
Proof.
  intros H w Hw. unfold on_store. specialize (H (w_store w) Hw).
  by destruct (m (w_store w)).
Qed.

Lemma integrity_Send c e : preserves integrity (Send c e).
Proof. intros w Hw. unfold Send. by destruct (net_send c e (w_net w)). Qed.

Lemma integrity_lift {A} (r : result A) : preserves integrity (lift (N:=N) r).
Proof. intros w Hw. by destruct r. Qed.

Lemma integrity_call c : preserves integrity (on_store (run_call c)).
Proof. apply integrity_on_store, run_call_preserves. Qed.

Lemma integrity_now : preserves integrity (on_store now).
Proof. apply integrity_on_store, now_preserves. Qed.

Lemma integrity_query_row {A} x (q : tables -> option A) :
  preserves integrity (on_store (wrapped x (query_row q))).
Proof. apply integrity_on_store, preserves_wrapped, query_row_preserves. Qed.

Lemma integrity_audit k c p r d : preserves integrity (audit k c p r d).
Proof.
  apply preserves_bind; [apply integrity_now|]. intros n.
  apply preserves_try; [apply (integrity_call (CallAppendAuditLog _))|auto with axion].
Qed.

Lemma integrity_record p s d r sha st e : preserves integrity (recordSyncRun p s d r sha st e).
Proof.
  apply preserves_bind; [apply integrity_now|]. intros n.
  apply preserves_try; [|auto with axion]. intros w Hw.
  pose proof (integrity_call (CallInsertSyncRun (MkSyncRun 0 (p_ID p) s d r
    (if bool_decide (sha = "") then None else Some sha) 0 st
    (if bool_decide (e = "") then None else Some e) n n)) w Hw) as H.
  revert H. unfold on_store, run_call, bind. by destruct (InsertSyncRun _ (w_store w)) as [[a|e'] s'].
Qed.

Create HintDb integrity discriminated.
Hint Resolve integrity_Send integrity_lift integrity_now integrity_audit integrity_record
  preserves_ret preserves_throw preserves_wrapped preserves_bind preserves_try : integrity.
Hint Extern 1 (preserves _ (if ?b then _ else _)) => destruct b : integrity.
Hint Extern 1 (preserves _ (match ?o with Some _ => _ | None => _ end)) => destruct o : integrity.
Hint Extern 1 (preserves _ (match ?r with Ok _ => _ | Err _ => _ end)) => destruct r : integrity.

Lemma integrity_marshal {A} `{!JsonCodec A} ctx (v : A) : preserves integrity (marshal (N:=N) ctx v).
Proof. apply preserves_wrapped, integrity_lift. Qed.
Hint Resolve integrity_marshal : integrity.

Lemma integrity_dispatchSync s p tg ev : preserves integrity (dispatchSync s p tg ev).
Proof. unfold dispatchSync. eauto 8 with integrity. Qed.
Lemma integrity_dispatchFetch s p tg r sha : preserves integrity (dispatchFetch s p tg r sha).
Proof. unfold dispatchFetch. eauto 8 with integrity. Qed.
Lemma integrity_dispatchConflict p ws w ls lc lsha :
  preserves integrity (dispatchConflict p ws w ls lc lsha).
Proof. unfold dispatchConflict, auditConflictRenamed. eauto 20 with integrity. Qed.
Hint Resolve integrity_dispatchSync integrity_dispatchFetch integrity_dispatchConflict : integrity.

Lemma integrity_mirror s p ev : preserves integrity (mirror_dispatch s p ev).
Proof. apply preserves_for_each. intros tg _. eauto 8 with integrity. Qed.

Lemma integrity_EditWins s p ev st o oc on op :
  preserves integrity (handleEditWins s p ev st o oc on op).
Proof. unfold handleEditWins, auditDeleteVsEdit. eauto 8 with integrity. Qed.

Lemma integrity_bidirectional s p ev st : preserves integrity (handleBidirectional s p ev st).
Proof.
  apply preserves_bind.
  - apply preserves_try; [|eauto with integrity].
    apply integrity_on_store, preserves_bind; [|auto with axion].
    apply preserves_wrapped, query_row_preserves.
  - intros o. destruct (dec_Action _); eauto using integrity_EditWins with integrity.
Qed.

Lemma integrity_HandleFileChanged s ev : preserves integrity (HandleFileChanged s ev).
Proof.
  apply preserves_try.
  - apply integrity_on_store, preserves_bind; [|auto with axion].
    apply preserves_wrapped, query_row_preserves.
  - intros [[p|]|e]; [|eauto with integrity..]. apply preserves_bind.
    + apply preserves_bind; [apply integrity_now|]. intros n.
      apply preserves_bind; [|auto with integrity].
      apply preserves_wrapped, (integrity_call (CallUpsertFileState _)).
    + intros st. repeat (match goal with |- context [if ?b then _ else _] => destruct b end);
      eauto using integrity_mirror, integrity_bidirectional with integrity.
Qed.

(** *** A sequence of events on distinct paths *)
Definition ev_key (ev : FileChangedEvent) : file_key := (ev_PairID ev, ev_Side ev, ev_RelPath ev).

(** Every clock reading to come is newer than the row [k] has. *)
Definition clock_ahead (t : tables) (n : nat) (k : file_key) : Prop :=
  forall f m, t_files t !! k = Some f -> (n <= m)%nat -> fs_ServerModTime f < clock m.

(** The row an event leaves when it is newer than what was there. *)
Definition handled_at (t' : tables) (n n' : nat) (ev : FileChangedEvent) : Prop :=
  exists m, (n <= m < n')%nat /\ t_files t' !! ev_key ev = Some (file_state_of ev (clock m)).

Lemma HandleFileChanged_step src ev t n net :
  tables_ok t -> is_Some (t_pairs t !! ev_PairID ev) -> clock_ahead t n (ev_key ev) ->
  exists r t' n' net',
    HandleFileChanged src ev (quiet t n net) = (r, quiet t' n' net') /\ tables_ok t' /\
    t_pairs t' = t_pairs t /\ (S n <= n')%nat /\ net_up net' = net_up net /\
    t_files t' = <[ev_key ev := file_state_of ev (clock n)]> (t_files t).
Proof.
  intros Hok [p Hp] Hn.
  destruct (HandleFileChanged_effect src ev t n net p Hok Hp)
    as (r & t' & n' & net' & l & E & Hf & Hpa & Hcl & Hn' & Hup & _ & _).
  exists r, t', n', net'. split; [done|].
  pose proof (integrity_HandleFileChanged src ev (quiet t n net) Hok) as Hok'. rewrite E in Hok'.
  split_and!; [done..|].
  rewrite Hf. unfold upsert_file_row. change (fileKey _) with (ev_key ev).
  destruct (t_files t !! ev_key ev) as [o|] eqn:Ho; [|done].
  specialize (Hn o n Ho ltac:(lia)). apply Z.ltb_lt in Hn. cbn. by rewrite Hn.
Qed.

Lemma handle_events src evs t n net :
  tables_ok t -> Forall (fun ev => is_Some (t_pairs t !! ev_PairID ev)) evs ->
  NoDup (map ev_key evs) -> Forall (fun ev => clock_ahead t n (ev_key ev)) evs ->
  exists t' n' net',
    for_each evs (HandleFileChanged src) (quiet t n net) = (Ok tt, quiet t' n' net') /\
    tables_ok t' /\ t_pairs t' = t_pairs t /\ (n <= n')%nat /\
    Forall (handled_at t' n n') evs /\
    (forall k, k ∉ map ev_key evs -> t_files t' !! k = t_files t !! k).
Proof.
  revert t n net. induction evs as [|ev evs IH]; intros t n net Hok Hp Hd Hc.
  { exists t, n, net. split_and!; auto with lia. }
  apply Forall_cons in Hp as [Hp Hps], Hc as [Hc Hcs]. cbn in Hd. apply NoDup_cons in Hd as [Hnot Hd].
  destruct (HandleFileChanged_step src ev t n net Hok Hp Hc)
    as (r & t1 & n1 & net1 & E & Hok1 & Hp1 & Hn1 & _ & Hf1).
  destruct (IH t1 n1 net1) as (t' & n' & net' & E' & Hok' & Hp' & Hn' & Hall & Hother); [done| |done| |].
  { by rewrite Hp1. }
  { apply Forall_forall. intros e He. rewrite Forall_forall in Hcs. specialize (Hcs e He).
    intros f m Hf Hm. rewrite Hf1, lookup_insert_ne in Hf.
    - apply (Hcs f m Hf). lia.
    - intros Heq. apply Hnot. rewrite Heq. by apply list_elem_of_fmap_2. }
  exists t', n', net'. cbn [for_each]. unfold try. rewrite E, E'. split_and!; try done; [congruence|lia| |].
  - constructor.
    + exists n. split; [lia|]. rewrite Hother, Hf1, lookup_insert_eq; [done|exact Hnot].
    + eapply Forall_impl; [exact Hall|]. intros e (m & Hm & He). exists m. split; [lia|done].
  - intros k Hk. cbn in Hk. apply not_elem_of_cons in Hk as [Hk1 Hk2].
    by rewrite Hother, Hf1, lookup_insert_ne by done.
Qed.

(** *** The events of a snapshot *)
Lemma by_path_lookup {A} (f : A -> string) (l : list A) k :
  (forall x, by_path f l !! k = Some x -> x ∈ l /\ f x = k) /\
  (by_path f l !! k = None -> k ∉ map f l).
Proof.
  unfold by_path. induction l as [|x l IH] using rev_ind.
  { cbn. split; [by intros x ?|]. intros _. apply not_elem_of_nil. }
  rewrite foldl_app_snoc, map_app. cbn. rewrite lookup_insert.
  destruct IH as [IH1 IH2]. case_decide as Hk.
  - split; [|done]. intros y [= <-]. split; [set_solver|done].
  - split.
    + intros y Hy. destruct (IH1 y Hy). split; [set_solver|done].
    + intros Hn. specialize (IH2 Hn). set_solver.
Qed.

Lemma by_path_NoDup {A} (f : A -> string) (l : list A) x :
  NoDup (map f l) -> x ∈ l -> by_path f l !! f x = Some x.
Proof.
  intros Hd Hx. destruct (by_path_lookup f l (f x)) as [H1 H2].
  destruct (by_path f l !! f x) as [y|] eqn:E.
  - destruct (H1 y eq_refl) as [Hy Hf].
    apply list_elem_of_lookup in Hx as [i Hi], Hy as [j Hj].
    assert (i = j) as <-; [|congruence].
    eapply (NoDup_lookup (map f l)); [done|by rewrite list_lookup_fmap, Hi|by rewrite list_lookup_fmap, Hj, <- Hf].
  - destruct (H2 eq_refl). by apply list_elem_of_fmap_2.
Qed.

Definition write_needed (dbByPath : gmap string FileState) (snap : FileSnapshot) : bool :=
  negb (snap_IsDir snap) && need_update dbByPath snap.
Definition delete_needed (clientByPath : gmap string FileSnapshot) (st : FileState) : bool :=
  negb (fs_IsDir st) && bool_decide (clientByPath !! fs_RelPath st = None) &&
  bool_decide (fs_Op st <> "delete").

(** The events [applyDiff] makes, in its order. *)
Definition diff_events (pairID side : string) (dbStates : list FileState)
    (snapshots : list FileSnapshot) : list FileChangedEvent :=
  map (write_event pairID side)
    (filter (fun s => write_needed (by_path fs_RelPath dbStates) s = true) snapshots) ++
  map (fun st => delete_event pairID side (fs_RelPath st))
    (filter (fun st => delete_needed (by_path snap_RelPath snapshots) st = true) dbStates).

(** A loop that skips some elements is the loop over the others. *)
Lemma for_each_skip {A} (l : list A) (c : A -> bool) body ev src w :
  (forall x w, body x w = if c x then HandleFileChanged (N:=N) src (ev x) w else ret tt w) ->
  for_each l body w = for_each (map ev (filter (fun x => c x = true) l)) (HandleFileChanged src) w.
Proof.
  intros Hb. revert w. induction l as [|x l IH]; intros w; [done|].
  cbn [for_each]. unfold try. rewrite Hb, filter_cons. destruct (c x).
  - rewrite decide_True by done. cbn. unfold try. by destruct (HandleFileChanged src (ev x) w).
  - rewrite decide_False by done. apply IH.
Qed.

Lemma applyDiff_events clientID pairID side snaps t n net :
  applyDiff clientID pairID side snaps (quiet t n net) =
  for_each (diff_events pairID side (files_of pairID side t) snaps)
    (HandleFileChanged clientID) (quiet t n net).
Proof.
  assert (on_store (ListFileStates pairID side) (quiet t n net) =
          (Ok (files_of pairID side t), quiet t n net)) as E by done.
  unfold applyDiff, bind. rewrite E. unfold diff_events. rewrite for_each_app.
  set (dbm := by_path fs_RelPath _). set (cm := by_path snap_RelPath _).
  rewrite (for_each_skip snaps (write_needed dbm) _ (write_event pairID side) clientID).
  - pose proof (for_each_ok (map (write_event pairID side)
      (filter (fun s => write_needed dbm s = true) snaps)) (HandleFileChanged clientID) (quiet t n net)) as Ho.
    destruct (for_each _ _ (quiet t n net)) as [r w]. cbn in Ho. subst r. cbn [snd].
    apply for_each_skip. intros st w'. unfold diff_db_state, delete_needed.
    destruct (fs_IsDir st); [done|]. destruct (cm !! fs_RelPath st) eqn:Ec; cbn; [done|].
    case_bool_decide; case_bool_decide; done.
  - intros s w. unfold diff_snapshot, write_needed. destruct (snap_IsDir s); [done|].
    by destruct (need_update dbm s).
Qed.

(** *** The rows of one side *)
Lemma files_of_NoDup pairID side t :
  tables_ok t -> NoDup (map fs_RelPath (files_of pairID side t)).
Proof.
  intros Hok. unfold files_of.
  set (l := filter _ (map_to_list (t_files t)).*2).
  assert (NoDup (map fs_RelPath l)) as Hl.
  { unfold l. pose proof (NoDup_fst_map_to_list (t_files t)) as Hd.
    assert (forall k f, (k, f) ∈ map_to_list (t_files t) -> fileKey f = k) as Hin.
    { intros k f Hkf. apply elem_of_map_to_list in Hkf. by apply (ok_file_key t Hok). }
    clear l. revert Hd Hin. generalize (map_to_list (t_files t)). clear.
    induction l as [|[k f] l IH]; intros Hd Hin; [apply NoDup_nil_2|].
    cbn in Hd. apply NoDup_cons in Hd as [Hnot Hd]. cbn [fmap list_fmap]. rewrite filter_cons.
    specialize (IH Hd ltac:(intros k' f' H'; apply Hin; by right)).
    case_decide as Hc; [|done]. cbn. apply NoDup_cons. split; [|done].
    intros (g & Hg & [[Hgp Hgs] ([k' g'] & -> & Hg')%list_elem_of_fmap]%list_elem_of_filter)%list_elem_of_fmap.
    cbn in *. apply Hnot. pose proof (Hin k f ltac:(left)) as E1.
    pose proof (Hin k' g' ltac:(right; exact Hg')) as E2. unfold fileKey in E1, E2.
    destruct Hc as [Hp Hs]. assert (k = k') as -> by congruence.
    apply list_elem_of_fmap. by exists (k', g'). }
  intros. by rewrite (merge_sort_Permutation _ l).
Qed.

Lemma files_by_path pairID side t r :
  tables_ok t ->
  by_path fs_RelPath (files_of pairID side t) !! r = t_files t !! (pairID, side, r).
Proof.
  intros Hok. destruct (by_path_lookup fs_RelPath (files_of pairID side t) r) as [H1 H2].
  destruct (by_path _ _ !! r) as [f|] eqn:E.
  - destruct (H1 f eq_refl) as [Hf <-]. by apply elem_of_files_of in Hf.
  - symmetry. apply eq_None_not_Some. intros [f Hf]. apply H2; [done|].
    pose proof (ok_file_key t Hok _ _ Hf) as Hk. injection Hk as _ _ <-.
    apply list_elem_of_fmap_2. by apply elem_of_files_of.
Qed.

(** *** What one path needs *)
Definition path_event (pairID side : string) (row : option FileState) (snap : option FileSnapshot)
    (r : string) : option FileChangedEvent :=
  match snap with
  | Some s =>
      if snap_IsDir s then None
      else match row with
      | None => Some (write_event pairID side s)
      | Some f => match fs_SHA256 f with
                  | Some sha => if bool_decide (sha = snap_SHA256 s) then None
                                else Some (write_event pairID side s)
                  | None => None
                  end
      end
  | None =>
      match row with
      | Some f => if fs_IsDir f || bool_decide (fs_Op f = "delete") then None
                  else Some (delete_event pairID side r)
      | None => None
      end
  end.

Section OneSide.
Context (pairID side : string) (t : tables) (snaps : list FileSnapshot).
Context (Hok : tables_ok t) (Hsn : NoDup (map snap_RelPath snaps)).
Notation row r := (t_files t !! (pairID, side, r)).
Notation snap r := (by_path snap_RelPath snaps !! r).
Notation events := (diff_events pairID side (files_of pairID side t) snaps).

Lemma write_event_of_snap s :
  s ∈ snaps ->
  path_event pairID side (row (snap_RelPath s)) (snap (snap_RelPath s)) (snap_RelPath s) =
  (if write_needed (by_path fs_RelPath (files_of pairID side t)) s
   then Some (write_event pairID side s) else None).
Proof.
  intros Hs. unfold path_event, write_needed, need_update.
  rewrite by_path_NoDup, files_by_path by done.
  destruct (snap_IsDir s); [done|]. destruct (row _) as [f|]; [|done].
  destruct (fs_SHA256 f) as [sha|]; [|done]. by case_bool_decide.
Qed.

Lemma elem_of_events ev :
  ev ∈ events <->
  ev_PairID ev = pairID /\ ev_Side ev = side /\
  path_event pairID side (row (ev_RelPath ev)) (snap (ev_RelPath ev)) (ev_RelPath ev) = Some ev.
Proof.
  unfold diff_events. rewrite elem_of_app. split.
  - intros [(s & -> & [Hw Hs]%list_elem_of_filter)%list_elem_of_fmap|
           (st & -> & [Hd Hst]%list_elem_of_filter)%list_elem_of_fmap].
    + split; [done|]. split; [done|]. pose proof (write_event_of_snap s Hs) as H. by rewrite Hw in H.
    + split; [done|]. split; [done|]. apply elem_of_files_of in Hst; [|done].
      unfold delete_needed in Hd. apply andb_true_iff in Hd as [[Hdir Hn]%andb_true_iff Hop].
      apply bool_decide_eq_true in Hn, Hop. unfold path_event. cbn [ev_RelPath delete_event].
      rewrite Hn, Hst. apply negb_true_iff in Hdir. rewrite Hdir, bool_decide_false by done. done.
  - intros (Hp & Hs & He). unfold path_event in He.
    destruct (by_path_lookup snap_RelPath snaps (ev_RelPath ev)) as [H1 _].
    destruct (snap (ev_RelPath ev)) as [s|] eqn:E.
    + destruct (H1 s eq_refl) as [Hin Hr]. left. pose proof (write_event_of_snap s Hin) as H.
      rewrite Hr in H. unfold path_event in H. rewrite E in H. rewrite H in He.
      destruct (write_needed _ s) eqn:Ew; [|done]. injection He as <-.
      apply list_elem_of_fmap. exists s. split; [done|]. by apply list_elem_of_filter.
    + right. destruct (row (ev_RelPath ev)) as [f|] eqn:Ef; [|done].
      pose proof (ok_file_key t Hok _ _ Ef) as Hk. injection Hk as _ _ Hr.
      destruct (fs_IsDir f || _) eqn:Ed; [done|]. injection He as <-.
      apply orb_false_iff in Ed as [Ed1 Ed2]. apply bool_decide_eq_false in Ed2.
      apply list_elem_of_fmap. exists f. cbn in Hr, E, Ef |- *. split; [by rewrite Hr|].
      apply list_elem_of_filter. split; [|apply elem_of_files_of; [done|by rewrite Hr]].
      unfold delete_needed. by rewrite Ed1, Hr, E, !bool_decide_true.
Qed.

Lemma events_NoDup : NoDup (map ev_key events).
Proof.
  assert (NoDup (map ev_RelPath events)) as H.
  { unfold diff_events. rewrite map_app, !map_map. apply NoDup_app.
    pose proof (files_of_NoDup pairID side t Hok) as Hf.
    assert (forall A (f : A -> string) (c : A -> bool) l, NoDup (map f l) ->
      NoDup (map f (filter (fun x => c x = true) l))) as Hfil.
    { intros A f c l Hl. apply (sublist_NoDup _ _ Hl), (fmap_sublist f), sublist_filter. }
    split_and!; [by apply Hfil| |by apply (Hfil _ fs_RelPath)].
    intros r (s & -> & [_ Hs]%list_elem_of_filter)%list_elem_of_fmap
             (st & Hr & [Hd _]%list_elem_of_filter)%list_elem_of_fmap.
    unfold delete_needed in Hd. apply andb_true_iff in Hd as [[_ Hn]%andb_true_iff _].
    apply bool_decide_eq_true in Hn. cbn in Hr. rewrite <- Hr in Hn.
    by rewrite by_path_NoDup in Hn. }
  apply (NoDup_fmap_1 (fun k : file_key => k.2)). rewrite <- list_fmap_compose. exact H.
Qed.
End OneSide.

Lemma applyDiff_rows clientID pairID side snaps t n net :
  tables_ok t -> is_Some (t_pairs t !! pairID) -> NoDup (map snap_RelPath snaps) ->
  (forall r, clock_ahead t n (pairID, side, r)) ->
  exists t' n' net',
    applyDiff clientID pairID side snaps (quiet t n net) = (Ok tt, quiet t' n' net') /\
    tables_ok t' /\ t_pairs t' = t_pairs t /\ (n <= n')%nat /\
    (forall r, match path_event pairID side (t_files t !! (pairID, side, r))
                       (by_path snap_RelPath snaps !! r) r with
               | Some ev => handled_at t' n n' ev
               | None => t_files t' !! (pairID, side, r) = t_files t !! (pairID, side, r)
               end) /\
    (forall k, k.1 <> (pairID, side) -> t_files t' !! k = t_files t !! k).
Proof.
  intros Hok Hp Hsn Hc. rewrite applyDiff_events.
  pose proof (elem_of_events pairID side t snaps Hok Hsn) as Hev.
  destruct (handle_events clientID (diff_events pairID side (files_of pairID side t) snaps) t n net)
    as (t' & n' & net' & E & Hok' & Hp' & Hn' & Hall & Hother); [done| | | |].
  { apply Forall_forall. intros ev (-> & _)%Hev. done. }
  { by apply events_NoDup. }
  { apply Forall_forall. intros ev (Hpid & Hs & _)%Hev. unfold ev_key. rewrite Hpid, Hs. apply Hc. }
  exists t', n', net'. split_and!; try done.
  - intros r. destruct (path_event _ _ _ _ r) as [ev|] eqn:Epe.
    + rewrite Forall_forall in Hall. apply Hall, Hev.
      assert (ev_PairID ev = pairID /\ ev_Side ev = side /\ ev_RelPath ev = r) as (? & ? & ->).
      { revert Epe. unfold path_event. destruct (by_path_lookup snap_RelPath snaps r) as [H1 _].
        destruct (by_path snap_RelPath snaps !! r) as [s|]; [destruct (H1 s eq_refl) as [_ Hr]|];
          repeat case_match; intros [= <-]; done. }
      done.
    + apply Hother. intros (ev & Hk & (_ & _ & Hpe)%Hev)%list_elem_of_fmap.
      injection Hk as _ _ Hr. rewrite <- Hr in Hpe. congruence.
  - intros k Hk. apply Hother. intros (ev & -> & (Hpid & Hs & _)%Hev)%list_elem_of_fmap.
    apply Hk. cbn. congruence.
Qed.

Lemma applyDiff_nothing clientID pairID side snaps t n net :
  tables_ok t -> NoDup (map snap_RelPath snaps) ->
  (forall r, path_event pairID side (t_files t !! (pairID, side, r))
               (by_path snap_RelPath snaps !! r) r = None) ->
  applyDiff clientID pairID side snaps (quiet t n net) = (Ok tt, quiet t n net).
Proof.
  intros Hok Hsn Hn. rewrite applyDiff_events.
  destruct (diff_events _ _ _ _) as [|ev l] eqn:E; [done|].
  assert (ev ∈ diff_events pairID side (files_of pairID side t) snaps) as Hin
    by (rewrite E; left).
  apply elem_of_events in Hin as (_ & _ & He); [|done..]. by rewrite Hn in He.
Qed.

(** A path whose event has been handled needs nothing more. *)
Lemma path_event_settled pairID side row snap r ev m :
  path_event pairID side row snap r = Some ev ->
  path_event pairID side (Some (file_state_of ev m)) snap r = None.
Proof.
  unfold path_event. intros H. destruct snap as [s|].
  - destruct (snap_IsDir s); [done|].
    assert (ev = write_event pairID side s) as -> by (repeat case_match; congruence).
    cbn. case_bool_decide; [done|]. by rewrite bool_decide_true.
  - destruct row as [f|]; [|done]. destruct (_ || _); [done|]. injection H as <-. done.
Qed.

(** *** Claims *)

(** C8. What reconciling a snapshot does to every stored row.  For a pair that exists, a
    snapshot that names each path once, a database that answers and whose rows are older
    than the clock: a file of the snapshot with no row, or with a row of another content
    hash, gets the row of its write event, stamped by a reading of the clock during the
    reconciliation; a row with the file's hash stays, and so does a row with no hash, which
    is what a deletion leaves (so a file that came back is missed, see
    [recreated_file_is_missed]); a row of a file the snapshot does not name becomes that of
    a deletion, unless it is one; directories, the rows of other sides and those of other
    pairs stay. *)
Theorem reconciliation_agrees clientID pairID side snaps t n net :
  tables_ok t -> is_Some (t_pairs t !! pairID) -> NoDup (map snap_RelPath snaps) ->
  (forall r, clock_ahead t n (pairID, side, r)) ->
  let '(res, w) := applyDiff clientID pairID side snaps (quiet t n net) in
  let row r := t_files t !! (pairID, side, r) in
  let row' r := t_files (db (w_store w)) !! (pairID, side, r) in
  let recorded r ev := exists m, (n <= m < tick (w_store w))%nat /\ row' r = Some (file_state_of ev (clock m)) in
  res = Ok tt /\
  (forall s, s ∈ snaps -> let r := snap_RelPath s in
     if snap_IsDir s then row' r = row r
     else match row r with
          | None => recorded r (write_event pairID side s)
          | Some f =>
              if bool_decide (fs_SHA256 f = None \/ fs_SHA256 f = Some (snap_SHA256 s)) then row' r = row r
              else recorded r (write_event pairID side s)
          end) /\
  (forall r, r ∉ map snap_RelPath snaps ->
     match row r with
     | None => row' r = None
     | Some f => if fs_IsDir f || bool_decide (fs_Op f = "delete") then row' r = row r
                 else recorded r (delete_event pairID side r)
     end) /\
  (forall k, k.1 <> (pairID, side) -> t_files (db (w_store w)) !! k = t_files t !! k).
Proof.
  intros Hok Hp Hsn Hc.
  destruct (applyDiff_rows clientID pairID side snaps t n net Hok Hp Hsn Hc)
    as (t' & n' & net' & -> & Hok' & _ & _ & Hrow & Hother).
  cbn. split_and!; [done| | |done].
  - intros s Hs. specialize (Hrow (snap_RelPath s)).
    rewrite by_path_NoDup in Hrow by done. unfold path_event in Hrow.
    destruct (snap_IsDir s); [exact Hrow|]. destruct (t_files t !! _) as [f|] eqn:E; [|exact Hrow].
    destruct (fs_SHA256 f) as [sha|]; [|by rewrite bool_decide_true by (by left)].
    case_bool_decide as Hb.
    + subst sha. by rewrite bool_decide_true by (by right).
    + rewrite bool_decide_false; [exact Hrow|]. intros [H|H]; congruence.
  - intros r Hr. specialize (Hrow r).
    destruct (by_path_lookup snap_RelPath snaps r) as [H1 _].
    destruct (by_path snap_RelPath snaps !! r) as [s|].
    { destruct (H1 s eq_refl) as [Hs <-]. destruct Hr. by apply list_elem_of_fmap_2. }
    unfold path_event in Hrow. destruct (t_files t !! _) as [g|]; [|exact Hrow].
    by destruct (fs_IsDir g || _).
Qed.

(** Reconciliation is idempotent: the same snapshot a second time sends nothing,
    records nothing and changes no row. *)
Theorem reconciliation_idempotent clientID pairID side snaps t n net :
  tables_ok t -> is_Some (t_pairs t !! pairID) -> NoDup (map snap_RelPath snaps) ->
  (forall r, clock_ahead t n (pairID, side, r)) ->
  let w := snd (applyDiff clientID pairID side snaps (quiet t n net)) in
  applyDiff clientID pairID side snaps w = (Ok tt, w).
Proof.
  intros Hok Hp Hsn Hc w.
  destruct (applyDiff_rows clientID pairID side snaps t n net Hok Hp Hsn Hc)
    as (t' & n' & net' & E & Hok' & _ & _ & Hrow & _).
  unfold w. rewrite E. apply applyDiff_nothing; [done..|]. intros r. specialize (Hrow r).
  destruct (path_event pairID side (t_files t !! _) _ r) as [ev|] eqn:Epe.
  - destruct Hrow as (m & _ & Hm).
    assert (ev_key ev = (pairID, side, r)) as Hk.
    { revert Epe. unfold path_event, ev_key. destruct (by_path_lookup snap_RelPath snaps r) as [H1 _].
      destruct (by_path snap_RelPath snaps !! r) as [s|]; [destruct (H1 s eq_refl) as [_ <-]|];
        repeat case_match; intros [= <-]; done. }
    rewrite Hk in Hm. rewrite Hm. by eapply path_event_settled.
  - by rewrite Hrow.
Qed.

(** A snapshot with no entries marks every file of that side deleted: the server
    cannot tell a client whose files are gone from one that could not list them. *)
Theorem empty_snapshot_deletes_everything clientID pairID side t n net :
  tables_ok t -> is_Some (t_pairs t !! pairID) ->
  (forall r, clock_ahead t n (pairID, side, r)) ->
  let t' := db (w_store (snd (applyDiff clientID pairID side [] (quiet t n net)))) in
  forall r f, t_files t !! (pairID, side, r) = Some f -> fs_IsDir f = false ->
    exists f', t_files t' !! (pairID, side, r) = Some f' /\ fs_Op f' = "delete" /\
               (fs_Op f <> "delete" -> fs_SHA256 f' = None).
Proof.
  intros Hok Hp Hc t' r f Hf Hdir. unfold t'.
  destruct (applyDiff_rows clientID pairID side [] t n net Hok Hp ltac:(apply NoDup_nil_2) Hc)
    as (t1 & n1 & net1 & -> & _ & _ & _ & Hrow & _).
  cbn. specialize (Hrow r). unfold path_event in Hrow. rewrite Hf, Hdir in Hrow. cbn in Hrow.
  case_bool_decide as Hd.
  - exists f. split_and!; [done|done|by intros].
  - destruct Hrow as (m & _ & Hm). unfold ev_key in Hm. cbn in Hm. by eexists.
Qed.

(** A file that was deleted and re-created while its client was away is not seen:
    its row has no hash, so neither the row nor the other client hears of the new
    content, whatever it is. *)
Theorem recreated_file_is_missed clientID pairID side s f t n net :
  tables_ok t ->
  t_files t !! (pairID, side, snap_RelPath s) = Some f -> fs_SHA256 f = None ->
  (forall r g, t_files t !! (pairID, side, r) = Some g -> r <> snap_RelPath s -> fs_Op g = "delete") ->
  applyDiff clientID pairID side [s] (quiet t n net) = (Ok tt, quiet t n net).
Proof.
  intros Hok Hf Hsha Hrest. apply applyDiff_nothing; [done|apply NoDup_singleton|].
  intros r. unfold by_path. cbn. unfold path_event. rewrite lookup_insert.
  case_decide as Hr.
  - subst r. rewrite Hf, Hsha. by destruct (snap_IsDir s).
  - rewrite lookup_empty. destruct (t_files t !! (pairID, side, r)) as [g|] eqn:E; [|done].
    rewrite (bool_decide_true (fs_Op g = "delete")); [by rewrite orb_true_r|].
    by apply (Hrest r).
Qed.

(** *** Subscriptions *)
Definition subscribe_envelope (id side path direction : string) : Envelope :=
  MkEnvelope TypeSubscribePair "" (Some (encode_json (MkSubscribePair id side path direction))).

(** The subscription of [clientID] to [p]. *)
Definition subscription (clientID : string) (p : SyncPair) : string * Envelope :=
  (clientID, subscribe_envelope (p_ID p) (sideAndPathFor p clientID).1
               (sideAndPathFor p clientID).2 (p_Direction p)).

(** A loop of steps each of which sends its messages and keeps the store. *)
Lemma runs_for_each {A} (l : list A) (body : A -> M W unit) (out : A -> list (string * Envelope)) t n net :
  (forall x net1, x ∈ l -> net_up net1 = net_up net ->
     exists r, runs_to (body x) t n net1 r t n (out x)) ->
  runs_to (for_each l body) t n net (Ok tt) t n (concat (map out l)).
Proof.
  revert net. induction l as [|x l IH]; intros net Hb; [apply runs_to_ret|].
  cbn [for_each map concat]. destruct (Hb x net ltac:(left) eq_refl) as [r Hr].
  eapply runs_to_try; [exact Hr|]. intros net1 Hn1. apply IH.
  intros y net2 Hy Hn2. apply Hb; [by right|congruence].
Qed.

Lemma runs_sendSubscribe c p side path t n net :
  net_up net c = true ->
  runs_to (sendSubscribe c p side path) t n net (Ok tt) t n
    [(c, subscribe_envelope (p_ID p) side path (p_Direction p))].
Proof.
  intros Hup. eapply (runs_to_bind _ _ _ _ _ _ _ _ []); [by apply runs_to_done|].
  intros net1 Hn1. apply runs_send_up. congruence.
Qed.

Lemma sideAndPathFor_member c p :
  pair_of_client c p = true -> (sideAndPathFor p c).1 <> "".
Proof.
  unfold pair_of_client, sideAndPathFor. rewrite orb_true_iff, !bool_decide_eq_true.
  intros H. repeat case_bool_decide; cbn; naive_solver.
Qed.

(** On connection a client is subscribed to exactly its enabled pairs, oldest first,
    with its own side and path and the pair's direction; nothing is stored. *)
Theorem publishes_enabled_pairs c t n net :
  net_up net c = true ->
  runs_to (PublishSubscriptions c) t n net (Ok tt) t n
    (map (subscription c) (filter (fun p => p_Enabled p = true)
       (sort_pairs (filter (fun p => pair_of_client c p = true) (map_to_list (t_pairs t)).*2)))).
Proof.
  intros Hup. unfold PublishSubscriptions.
  eapply (runs_to_bind _ _ _ _ _ _ _ _ []); [by apply runs_to_done|]. intros net1 Hn1.
  set (l := sort_pairs _).
  assert (forall p, p ∈ l -> pair_of_client c p = true) as Hl.
  { intros p Hp. unfold l, sort_pairs in Hp. apply elem_of_sorted, list_elem_of_filter in Hp. apply Hp. }
  replace (map (subscription c) (filter (fun p => p_Enabled p = true) l))
    with (concat (map (fun p => if p_Enabled p then [subscription c p] else []) l)).
  - apply runs_for_each. intros p net2 Hp Hn2. exists (Ok tt).
    destruct (p_Enabled p); cbn [negb]; [|apply runs_to_ret].
    pose proof (sideAndPathFor_member c p (Hl p Hp)) as Hne. unfold subscription.
    destruct (sideAndPathFor p c) as [side path]. cbn in Hne |- *.
    rewrite bool_decide_false by done. apply runs_sendSubscribe. congruence.
  - clear. induction l as [|p l IH]; [done|]. cbn [map concat]. rewrite filter_cons, IH.
    destruct (p_Enabled p); [by rewrite decide_True|by rewrite decide_False].
Qed.

(** After [DeletePair] the pair is unknown, so [PublishPairUnsubscribe] fails and
    no client is ever told to stop: the order the pair handler uses. *)
Theorem unsubscribe_after_delete_fails id t n net :
  tables_ok t ->
  let w := snd (on_store (N:=N) (DeletePair id) (quiet t n net)) in
  exists err, PublishPairUnsubscribe id w = (Err err, w) /\ errors_Is err ErrNoRows = true /\
              w_net w = net.
Proof.
  intros Hok w.
  set (t' := delete_pairs_where (fun p => bool_decide (p_ID p = id)) t).
  assert (w = quiet t' n net) as -> by done.
  assert (t_pairs t' !! id = None) as Hn.
  { unfold t', delete_pairs_where. cbn. apply map_lookup_filter_None. right.
    intros p Hp. cbn. rewrite (ok_pair_key t Hok _ _ Hp). by rewrite bool_decide_true. }
  unfold PublishPairUnsubscribe, bind, wrapped. rewrite GetPair_eq, Hn.
  eexists. split; [done|]. split; [|done]. repeat apply errors_Is_Wrap. apply errors_Is_refl.
Qed.

(** Enabling or editing a pair tells both of its clients, each with its own side and
    path; a client that cannot be reached does not keep the other from being told. *)
Lemma runs_pair_update id p t n net :
  t_pairs t !! id = Some p -> p_Enabled p = true ->
  runs_to (PublishPairUpdate id) t n net (Ok tt) t n
    (concat (map (fun c => if net_up net c then [subscription c p] else [])
       [p_ClientAID p; p_ClientBID p])).
Proof.
  intros Hp He. unfold PublishPairUpdate.
  rewrite <- (app_nil_l (concat _)).
  eapply (runs_to_bind _ _ _ _ _ (Some p) _ _ []).
  { apply runs_to_wrapped, runs_to_done. by rewrite GetPair_eq, Hp. }
  intros net1 Hn1. rewrite He. cbn [negb]. rewrite <- Hn1.
  apply (runs_for_each _ _ (fun c => if net_up net1 c then [subscription c p] else [])).
  intros c net2 _ Hn2. unfold subscription.
  destruct (sideAndPathFor p c) as [side path]. cbn. rewrite <- Hn2.
  destruct (net_up net2 c) eqn:E.
  - exists (Ok tt). by apply runs_sendSubscribe.
  - destruct (runs_send_down c (subscribe_envelope (p_ID p) side path (p_Direction p)) t n net2 E)
      as [err H]. exists (Err err). exact H.
Qed.

Lemma runs_unsubscribe id p t n net :
  t_pairs t !! id = Some p ->
  runs_to (PublishPairUnsubscribe id) t n net (Ok tt) t n
    (concat (map (fun c => if net_up net c then [(c, subscribe_envelope (p_ID p) (sideAndPathFor p c).1 "" "")] else [])
       [p_ClientAID p; p_ClientBID p])).
Proof.
  intros Hp. unfold PublishPairUnsubscribe. rewrite <- (app_nil_l (concat _)).
  eapply (runs_to_bind _ _ _ _ _ (Some p) _ _ []).
  { apply runs_to_wrapped, runs_to_done. by rewrite GetPair_eq, Hp. }
  intros net1 Hn1. rewrite <- Hn1.
  apply (runs_for_each _ _ (fun c => if net_up net1 c then [(c, subscribe_envelope (p_ID p) (sideAndPathFor p c).1 "" "")] else [])).
  intros c net2 _ Hn2. destruct (sideAndPathFor p c) as [side path]. cbn [fst]. rewrite <- Hn2.
  destruct (net_up net2 c) eqn:E.
  - exists (Ok tt). eapply (runs_to_bind _ _ _ _ _ _ _ _ []); [by apply runs_to_done|].
    intros net3 Hn3. apply runs_send_up. congruence.
  - destruct (runs_send_down c (subscribe_envelope (p_ID p) side "" "") t n net2 E) as [err H]. exists (Err err). exact H.
Qed.
End Diff.

(** *** Witnesses *)
Section Witnesses.
Import Demo.

Definition snap (rel sha : string) : FileSnapshot := MkFileSnapshot rel sha 3 0 false.
(* bob's side, as stored before bob was away *)
Definition bob_rows : list FileState :=
  [row "b" "kept" "write" (Some "s1") 5; row "b" "edited" "write" (Some "s2") 6;
   row "b" "gone" "write" (Some "s3") 7].
Definition bob_snaps : list FileSnapshot := [snap "kept" "s1"; snap "edited" "s2'"; snap "new" "s4"].
Notation T := (content "bidirectional" bob_rows).

Lemma T_rows k f : t_files T !! k = Some f -> fs_ServerModTime f <= 7.
Proof.
  intros Hf. assert (Forall (fun kv => fs_ServerModTime kv.2 <= 7) (map_to_list (t_files T))) as H.
  { vm_compute. repeat constructor; discriminate. }
  rewrite Forall_forall in H. apply (H (k, f)). by apply elem_of_map_to_list.
Qed.

Lemma T_ahead k : clock_ahead T 0 k.
Proof. intros f m Hf _. apply T_rows in Hf. unfold clock, demo_clock. lia. Qed.

Lemma reconciliation_agrees_witness :
  let '(r, w) := applyDiff "bob" "p1" "b" bob_snaps (quiet T 0 both_online) in
  let files := t_files (db (w_store w)) in
  r = Ok tt /\ files !! ("p1", "b", "kept") = t_files T !! ("p1", "b", "kept") /\
  (exists m, files !! ("p1", "b", "edited") = Some (file_state_of (write_event "p1" "b" (snap "edited" "s2'")) (clock m))) /\
  (exists m, files !! ("p1", "b", "gone") = Some (file_state_of (delete_event "p1" "b" "gone") (clock m))).
Proof.
  pose proof (reconciliation_agrees "bob" "p1" "b" bob_snaps T 0 both_online (content_ok _ _)
    ltac:(vm_compute; eauto) ltac:(vm_compute; repeat constructor; set_solver)
    (fun r => T_ahead _)) as H.
  destruct (applyDiff "bob" "p1" "b" bob_snaps (quiet T 0 both_online)) as [r w].
  destruct H as (Hr & Hs & Hd & _). split; [exact Hr|].
  split; [exact (Hs (snap "kept" "s1") ltac:(left))|].
  destruct (Hs (snap "edited" "s2'") ltac:(right; left)) as (m & _ & Hm).
  split; [by exists m|]. destruct (Hd "gone" ltac:(vm_compute; set_solver)) as (m' & _ & Hm'). by exists m'.
Defined.

Lemma reconciliation_idempotent_witness :
  let w := snd (applyDiff "bob" "p1" "b" bob_snaps (quiet T 0 both_online)) in
  applyDiff "bob" "p1" "b" bob_snaps w = (Ok tt, w).
Proof.
  exact (reconciliation_idempotent "bob" "p1" "b" bob_snaps T 0 both_online (content_ok _ _)
    ltac:(vm_compute; eauto) ltac:(vm_compute; repeat constructor; set_solver)
    (fun r => T_ahead _)).
Defined.

Lemma empty_snapshot_deletes_everything_witness : exists f,
  t_files (db (w_store (snd (applyDiff "bob" "p1" "b" [] (quiet T 0 both_online)))))
    !! ("p1", "b", "kept") = Some f /\ fs_Op f = "delete".
Proof.
  destruct (empty_snapshot_deletes_everything "bob" "p1" "b" T 0 both_online (content_ok _ _)
    ltac:(vm_compute; eauto) (fun r => T_ahead _) "kept" (row "b" "kept" "write" (Some "s1") 5)
    ltac:(vm_compute; reflexivity) eq_refl) as (f & Hf & Hop & _).
  exists f. split; [exact Hf|exact Hop].
Defined.

(* bob deleted n.txt, went away, and created it again *)
Notation T2 := (content "bidirectional" [row "b" "n.txt" "delete" None 5]).
Lemma recreated_file_is_missed_witness :
  applyDiff "bob" "p1" "b" [snap "n.txt" "fresh"] (quiet T2 0 both_online) =
    (Ok tt, quiet T2 0 both_online).
Proof.
  refine (recreated_file_is_missed "bob" "p1" "b" (snap "n.txt" "fresh")
    (row "b" "n.txt" "delete" None 5) T2 0 both_online (content_ok _ _)
    ltac:(vm_compute; reflexivity) eq_refl _).
  assert (Forall (fun kv => fs_Op kv.2 = "delete") (map_to_list (t_files T2))) as H.
  { vm_compute. repeat constructor. }
  intros r g Hg _. rewrite Forall_forall in H.
  apply (H (("p1", "b", r), g)). by apply elem_of_map_to_list.
Defined.

Lemma publishes_enabled_pairs_witness :
  runs_to (PublishSubscriptions "bob") T 0 both_online (Ok tt) T 0
    [("bob", subscribe_envelope "p1" "b" "mirror/docs" "bidirectional")].
Proof.
  exact (publishes_enabled_pairs (HL:=hub_sender_laws) "bob" T 0 both_online ltac:(vm_compute; reflexivity)).
Defined.

Lemma unsubscribe_after_delete_fails_witness : exists err w,
  PublishPairUnsubscribe (N:=hub) "p1"
    (snd (on_store (DeletePair "p1") (quiet T 0 both_online))) = (Err err, w).
Proof.
  destruct (unsubscribe_after_delete_fails "p1" T 0 both_online (content_ok _ _)) as (err & H & _).
  rewrite H. by do 2 eexists.
Defined.

End Witnesses.
