(* ===== verification/Sha256.v ===== *)
(** SHA-256 (FIPS 180-4), the [crypto/sha256] of the blob store and the transfers:
    bytes and 32-bit words as [Z], the additions modulo 2^32 written out. *)
From S2P Require Import Prelude GoStrings.
Local Open Scope Z_scope.

Definition w32 (x : Z) : Z := x mod 2^32.
Definition rotr (n x : Z) : Z := Z.lor (Z.shiftr x n) (w32 (Z.shiftl x (32 - n))).
Definition not32 (x : Z) : Z := Z.lxor x (2^32 - 1).

Definition Ch x y z := Z.lxor (Z.land x y) (Z.land (not32 x) z).
Definition Maj x y z := Z.lxor (Z.lxor (Z.land x y) (Z.land x z)) (Z.land y z).
Definition Sigma0 x := Z.lxor (Z.lxor (rotr 2 x) (rotr 13 x)) (rotr 22 x).
Definition Sigma1 x := Z.lxor (Z.lxor (rotr 6 x) (rotr 11 x)) (rotr 25 x).
Definition sigma0 x := Z.lxor (Z.lxor (rotr 7 x) (rotr 18 x)) (Z.shiftr x 3).
Definition sigma1 x := Z.lxor (Z.lxor (rotr 17 x) (rotr 19 x)) (Z.shiftr x 10).

(** The round constants are the first 32 bits of the fractional parts of the cube roots
    of the first 64 primes, the initial hash those of the square roots of the first 8;
    both are computed here rather than copied. *)
Definition is_prime (n : Z) : bool :=
  forallb (fun d => negb (n mod d =? 0)) (map (fun i => Z.of_nat i + 2) (seq 0 (Z.to_nat (n - 2)))).
Definition primes : list Z :=
  Eval vm_compute in filter (fun n => is_prime n = true) (map (fun i => Z.of_nat i + 2) (seq 0 310)).

(** The largest [r < 2^36] with [r^3 <= n], bit by bit. *)
Definition icbrt (n : Z) : Z :=
  foldl (fun r b => let r' := r + 2 ^ b in if r' ^ 3 <=? n then r' else r) 0
    (rev (map Z.of_nat (seq 0 36))).

Definition K : list Z :=
  Eval vm_compute in map (fun p => icbrt (p * 2^96) mod 2^32) (take 64 primes).
Definition H0 : list Z :=
  Eval vm_compute in map (fun p => Z.sqrt (p * 2^64) mod 2^32) (take 8 primes).

(** The message schedule, newest word first. *)
Fixpoint schedule (n : nat) (w : list Z) : list Z :=
  match n with
  | O => w
  | S n' =>
      let x := w32 (sigma1 (nth 1 w 0) + nth 6 w 0 + sigma0 (nth 14 w 0) + nth 15 w 0) in
      schedule n' (x :: w)
  end.

Fixpoint rounds (ks ws : list Z) (a b c d e f g h : Z) : list Z :=
  match ks, ws with
  | k :: ks', w :: ws' =>
      let t1 := h + Sigma1 e + Ch e f g + k + w in
      let t2 := Sigma0 a + Maj a b c in
      rounds ks' ws' (w32 (t1 + t2)) a b c (w32 (d + t1)) e f g
  | _, _ => [a; b; c; d; e; f; g; h]
  end.

Definition compress (hs block : list Z) : list Z :=
  let ws := rev (schedule 48 (rev block)) in
  match hs with
  | [a; b; c; d; e; f; g; h] => zip_with (fun x y => w32 (x + y)) hs (rounds K ws a b c d e f g h)
  | _ => hs
  end.

(** Big-endian words of a byte string whose length is a multiple of 4. *)
Fixpoint words (bs : list Z) : list Z :=
  match bs with
  | a :: b :: c :: d :: bs' => (((a * 256 + b) * 256 + c) * 256 + d) :: words bs'
  | _ => []
  end.

Definition word_bytes (x : Z) : list Z :=
  [Z.shiftr x 24 mod 256; Z.shiftr x 16 mod 256; Z.shiftr x 8 mod 256; x mod 256].

(** 0x80, zeros up to 56 mod 64, the bit length on 8 bytes. *)
Definition padding (len : Z) : list Z :=
  0x80 :: replicate (Z.to_nat ((55 - len) mod 64)) 0 ++
  word_bytes (w32 (Z.shiftr (len * 8) 32)) ++ word_bytes (w32 (len * 8)).

Fixpoint blocks (fuel : nat) (ws hs : list Z) : list Z :=
  match fuel with
  | O => hs
  | S fuel' => match ws with
               | [] => hs
               | _ => blocks fuel' (drop 16 ws) (compress hs (take 16 ws))
               end
  end.

(** [sha256.Sum256]; every block takes 16 words, so [length ws] iterations are enough. *)
Definition sum256 (msg : list Z) : list Z :=
  let ws := words (msg ++ padding (Z.of_nat (length msg))) in
  concat (map word_bytes (blocks (length ws) ws H0)).

(** [hex.EncodeToString(digest)] *)
Definition sha_hex (msg : list Z) : string := hex_encode (sum256 msg).

(** The standard's test vectors. *)
Example sha256_abc :
  sha_hex [97; 98; 99] = "ba7816bf8f01cfea414140de5dae2223b00361a396177a9cb410ff61f20015ad".
Proof. vm_compute. reflexivity. Qed.
Example sha256_empty :
  sha_hex [] = "e3b0c44298fc1c149afbf4c8996fb92427ae41e4649b934ca495991b7852b855".
Proof. vm_compute. reflexivity. Qed.
(* "abcdbcdecdefdefgefghfghighijhijkijkljklmklmnlmnomnopnopq": two blocks *)
Example sha256_two_blocks :
  sha_hex (concat (map (fun i => [97 + i; 98 + i; 99 + i; 100 + i]) (map Z.of_nat (seq 0 14)))) =
  "248d6a61d20638b8e5c026930c3e6039a33ce45964ff2167f6ecedd419db06c1".
Proof. vm_compute. reflexivity. Qed.

(** ** Shape *)
Lemma length_rounds ks ws a b c d e f g h : length (rounds ks ws a b c d e f g h) = 8%nat.
Proof.
  revert ws a b c d e f g h. induction ks as [|k ks IH]; intros [|w ws] a b c d e f g h; cbn; auto.
Qed.

Lemma length_compress hs block : length hs = 8%nat -> length (compress hs block) = 8%nat.
Proof.
  intros H. destruct hs as [|a [|b [|c [|d [|e [|f [|g [|h [|]]]]]]]]]; try done.
  unfold compress. by rewrite length_zip_with_l by (by rewrite length_rounds).
Qed.

Lemma length_blocks fuel ws hs : length hs = 8%nat -> length (blocks fuel ws hs) = 8%nat.
Proof.
  revert ws hs. induction fuel as [|fuel IH]; intros ws hs H; [done|].
  destruct ws; [done|]. apply IH, length_compress, H.
Qed.

Lemma length_sum256 msg : length (sum256 msg) = 32%nat.
Proof.
  unfold sum256. set (hs := blocks _ _ H0).
  assert (length hs = 8%nat) as H by by apply length_blocks.
  destruct hs as [|a [|b [|c [|d [|e [|f [|g [|h [|]]]]]]]]]; done.
Qed.

(** The digest the stores compare: 64 lower-case hexadecimal digits. *)
Lemma sha_hex_shape msg : slen (sha_hex msg) = 64%nat.
Proof. unfold sha_hex. by rewrite slen_hex_encode, length_sum256. Qed.

Lemma sum256_bytes msg : Forall (fun b => 0 <= b < 256) (sum256 msg).
Proof.
  unfold sum256. generalize (blocks (length (words (msg ++ padding (Z.of_nat (length msg)))))
    (words (msg ++ padding (Z.of_nat (length msg)))) H0). intros hs.
  induction hs as [|x hs IH]; cbn; [constructor|].
  do 4 (constructor; [apply Z.mod_pos_bound; lia|]). exact IH.
Qed.

Lemma sha_hex_lower msg : sall is_lower_hex (sha_hex msg) = true.
Proof. apply hex_encode_lower, sum256_bytes. Qed.
#[export] Hint Resolve sha_hex_shape sha_hex_lower : axion.
