(* ===== verification/BlobStore.v ===== *)
(** internal/server/blobstore: the content-addressed store of file contents (fs.go) and
    its garbage collection (gc.go).

    The state is the directory tree under [<root>/blobs]: the files by directory and
    name, and the directories.  Every operating-system call may fail with an errno of
    the schedule [os_faults]; a write may fail after some bytes have been written.
    Modification times come from the clock.  A reader is the bytes it will deliver and
    the error it ends with, if any.  [Put] and [PutRange] hold the store's mutex from
    start to end, so each is one step; an opened file is read to its end at once, which
    is what the handler sees, since a completed file is never written again. *)
From S2P Require Import Prelude GoStrings Store Sha256.
Local Open Scope Z_scope.
Local Open Scope go_scope.

(** ** The operating system under [<root>/blobs] *)
Notation bytes := (list Z).
Record file : Type := MkFile { fl_data : bytes; fl_mtime : Z }.
#[export] Instance file_eq_dec : EqDecision file. Proof. solve_decision. Defined.

Notation path_key := (string * string)%type.   (* directory, name *)

Record fs : Type := MkFs {
  f_files : gmap path_key file;
  f_dirs : gset string;
  os_faults : list (option (nat * string));    (* bytes written before it, errno *)
  os_tick : nat
}.

Record reader : Type := MkReader { rd_data : bytes; rd_err : option error }.

Record BlobInfo : Type := MkBlobInfo { b_SHA : string; b_Size : Z; b_CreatedAt : Z }.

Definition ErrNotFound : error := Sentinel "blobstore: not found".
Definition ErrSizeMismatch : error := Sentinel "blobstore: size mismatch".
Definition ErrSHAMismatch : error := Sentinel "blobstore: sha256 mismatch".
Definition ErrIncomplete : error := Sentinel "blobstore: write incomplete".
Definition ErrInvalidSHA : error := Sentinel "blobstore: invalid sha format".

(** [os.IsNotExist] *)
Definition IsNotExist (e : error) : bool :=
  match e with PathError _ en => bool_decide (en = "ENOENT") | _ => false end.

Definition set_files f s := MkFs (f (f_files s)) (f_dirs s) (os_faults s) (os_tick s).
Definition set_dirs f s := MkFs (f_files s) (f (f_dirs s)) (os_faults s) (os_tick s).

(** Overwriting from [off]: a gap is filled with zeros, a tail is kept. *)
Definition write_at (off : nat) (new old : bytes) : bytes :=
  take off (old ++ replicate (off - length old) 0) ++ new ++ drop (off + length new) old.

Section Os.
Context {clk : Clock}.

(** The next fault of the schedule. *)
Definition os_fault : M fs (option (nat * string)) := fun s =>
  match os_faults s with
  | [] => (Ok None, s)
  | f :: fl => (Ok f, MkFs (f_files s) (f_dirs s) fl (os_tick s))
  end.

Definition os_call {A} (op : string) (m : M fs A) : M fs A :=
  f <- os_fault;;
  match f with
  | Some (_, errno) => throw (PathError op errno)
  | None => m
  end.

Definition os_now : M fs Z := fun s =>
  (Ok (clock (os_tick s)), MkFs (f_files s) (f_dirs s) (os_faults s) (S (os_tick s))).

Definition os_Stat (k : path_key) : M fs file :=
  os_call "stat" (fun s => (match f_files s !! k with
                            | Some f => Ok f
                            | None => Err (PathError "stat" "ENOENT")
                            end, s)).

Definition os_MkdirAll (d : string) : M fs unit :=
  os_call "mkdir" (modify (set_dirs (union {[d]}))).

(** [O_CREATE|O_WRONLY], with [O_TRUNC] or not. *)
Definition os_OpenFile (k : path_key) (trunc : bool) : M fs unit :=
  os_call "open" (fun s =>
    if bool_decide (k.1 ∈ f_dirs s) then
      let t := clock (os_tick s) in
      let s := MkFs (f_files s) (f_dirs s) (os_faults s) (S (os_tick s)) in
      (Ok tt, set_files (fun m =>
         match m !! k with
         | Some f => if trunc then <[k := MkFile [] t]> m else m
         | None => <[k := MkFile [] t]> m
         end) s)
    else (Err (PathError "open" "ENOENT"), s)).

Definition os_Open (k : path_key) : M fs bytes :=
  os_call "open" (fun s => (match f_files s !! k with
                            | Some f => Ok (fl_data f)
                            | None => Err (PathError "open" "ENOENT")
                            end, s)).

Definition os_Seek (off : Z) : M fs unit :=
  os_call "seek" (if off <? 0 then throw (PathError "seek" "EINVAL") else ret tt).

(** Writing [data] at [off] of an open file; writing nothing changes nothing. *)
Definition write_file (k : path_key) (off : nat) (data : bytes) : M fs unit :=
  if bool_decide (data = []) then ret tt else
  t <- os_now;;
  modify (set_files (alter (fun f => MkFile (write_at off data (fl_data f)) t) k)).

Definition os_Close : M fs unit := os_call "close" (ret tt).

Definition os_Remove (k : path_key) : M fs unit :=
  os_call "remove" (fun s =>
    match f_files s !! k with
    | Some _ => (Ok tt, set_files (delete k) s)
    | None => (Err (PathError "remove" "ENOENT"), s)
    end).

(** Atomic: the target, if any, is replaced. *)
Definition os_Rename (src dst : path_key) : M fs unit :=
  link_error (os_call "rename" (fun s =>
    match f_files s !! src with
    | Some f => (Ok tt, set_files (fun m => <[dst := f]> (delete src m)) s)
    | None => (Err (PathError "rename" "ENOENT"), s)
    end)).

(** [copyWithHash]: [io.Copy] into the file and the hash; the write that fails is the
    last one, and the error of the reader comes after its bytes. *)
Definition copyWithHash (k : path_key) (off : nat) (r : reader) : M fs (Z * bytes * option error) :=
  f <- os_fault;;
  match f with
  | Some (n, errno) =>
      write_file k off (take n (rd_data r));;
      ret (Z.of_nat (length (take n (rd_data r))), sum256 (take n (rd_data r)),
           Some (PathError "write" errno))
  | None =>
      write_file k off (rd_data r);;
      ret (Z.of_nat (length (rd_data r)), sum256 (rd_data r), rd_err r)
  end.

(** [hashFile] *)
Definition hashFile (k : path_key) : M fs bytes :=
  data <- os_Open k;;
  os_call "read" (ret (sum256 data)).
End Os.

(** ** The store *)
Definition validateSHA (sha : string) : option error :=
  if bool_decide (slen sha = 64%nat) && sall is_hex sha then None else Some ErrInvalidSHA.

Definition blob_dir (sha : string) : string := stake 2 sha.
Definition path (sha : string) : path_key := (blob_dir sha, sha).
Definition partialPath (sha : string) : path_key := (blob_dir sha, sha +:+ ".partial").

Section BlobStore.
Context {clk : Clock}.

Definition checked {A} (sha : string) (m : M fs A) : M fs A :=
  match validateSHA sha with Some e => throw e | None => m end.

Definition New_blobstore : M fs unit :=
  wrapped "blobstore: mkdirall" (os_call "mkdir" (ret tt)).

Definition ensureDir (sha : string) : M fs unit := os_MkdirAll (blob_dir sha).

Definition Has (sha : string) : M fs bool :=
  checked sha (
  r <-? os_Stat (path sha);;
  match r with
  | Ok _ => ret true
  | Err e => if IsNotExist e then ret false else throw (Wrap "blobstore: stat" e)
  end).

Definition Stat (sha : string) : M fs (Z * Z) :=
  checked sha (
  r <-? os_Stat (path sha);;
  match r with
  | Ok f => ret (Z.of_nat (length (fl_data f)), fl_mtime f)
  | Err e => if IsNotExist e then throw ErrNotFound else throw (Wrap "blobstore: stat" e)
  end).

(** [os.Remove(partial); return err] *)
Definition drop_partial {A} (sha : string) (e : error) : M fs A :=
  _ <-? os_Remove (partialPath sha);; throw e.

(** The end of [Put] and [PutRange]. *)
Definition publish (sha : string) : M fs unit :=
  r <-? os_Rename (partialPath sha) (path sha);;
  match r with
  | Ok _ => ret tt
  | Err e => drop_partial sha (Wrap "blobstore: rename" e)
  end.

Definition Put (sha : string) (r : reader) (expectedSize : Z) : M fs unit :=
  checked sha (
  st <-? os_Stat (path sha);;
  match st with
  | Ok _ => ret tt
  | Err _ =>
      wrapped "blobstore: mkdir" (ensureDir sha);;
      wrapped "blobstore: open partial" (os_OpenFile (partialPath sha) true);;
      res <- copyWithHash (partialPath sha) 0 r;;
      let '(written, digest, copyErr) := res in
      closeErr <-? os_Close;;
      match copyErr, closeErr with
      | Some e, _ => drop_partial sha (Wrap "blobstore: copy" e)
      | None, Err e => drop_partial sha (Wrap "blobstore: close partial" e)
      | None, Ok _ =>
          if (0 <? expectedSize) && negb (written =? expectedSize)
          then drop_partial sha ErrSizeMismatch
          else if negb (bool_decide (hex_encode digest = ToLower sha))
          then drop_partial sha ErrSHAMismatch
          else publish sha
      end
  end).

Definition PutRange (sha : string) (offset : Z) (r : reader) (totalSize : Z) : M fs unit :=
  checked sha (
  wrapped "blobstore: mkdir" (ensureDir sha);;
  wrapped "blobstore: open partial" (os_OpenFile (partialPath sha) false);;
  sk <-? os_Seek offset;;
  match sk with
  | Err e => _ <-? os_Close;; throw (Wrap "blobstore: seek" e)
  | Ok _ =>
      res <- copyWithHash (partialPath sha) (Z.to_nat offset) r;;
      let '(written, _, copyErr) := res in
      closeErr <-? os_Close;;
      match copyErr, closeErr with
      | Some e, _ => throw (Wrap "blobstore: copy" e)
      | None, Err e => throw (Wrap "blobstore: close partial" e)
      | None, Ok _ =>
          let currentSize := wrap64 (offset + written) in
          if currentSize <? totalSize then throw ErrIncomplete
          else if negb (currentSize =? totalSize) then drop_partial sha ErrSizeMismatch
          else
            digest <- wrapped "blobstore: hash partial" (hashFile (partialPath sha));;
            if negb (bool_decide (hex_encode digest = ToLower sha))
            then drop_partial sha ErrSHAMismatch
            else publish sha
      end
  end).

Definition open_blob (sha : string) : M fs bytes :=
  r <-? os_Open (path sha);;
  match r with
  | Ok data => ret data
  | Err e => if IsNotExist e then throw ErrNotFound else throw (Wrap "blobstore: open" e)
  end.

Definition Get (sha : string) : M fs bytes := checked sha (open_blob sha).

(** A negative length reads to the end. *)
Definition limit_reader (length : Z) (data : bytes) : bytes :=
  if length <? 0 then data else take (Z.to_nat length) data.

Definition GetRange (sha : string) (offset length : Z) : M fs bytes :=
  checked sha (
  data <- open_blob sha;;
  wrapped "blobstore: seek" (os_Seek offset);;
  ret (limit_reader length (drop (Z.to_nat offset) data))).

Definition Delete (sha : string) : M fs unit :=
  checked sha (
  r <-? os_Remove (path sha);;
  match r with
  | Ok _ => ret tt
  | Err e => if IsNotExist e then throw ErrNotFound else throw (Wrap "blobstore: remove" e)
  end).

(** [filepath.WalkDir] in lexical order; [d.Info] may fail. *)
Definition walk_key (e : path_key * file) : string := e.1.1 +:+ "/" +:+ e.1.2.

Fixpoint walk (l : list (path_key * file)) (acc : list BlobInfo) : M fs (list BlobInfo) :=
  match l with
  | [] => ret acc
  | ((_, name), f) :: l' =>
      if HasSuffix name ".partial" then walk l' acc
      else
        i <-? os_call "lstat" (ret (MkBlobInfo name (Z.of_nat (length (fl_data f))) (fl_mtime f)));;
        match i with
        | Ok i => walk l' (acc ++ [i])
        | Err e => if IsNotExist e then ret acc else throw (Wrap "blobstore: walkdir" e)
        end
  end.

(** Reading the directory may fail as well; what [errors.Is(err, os.ErrNotExist)] lets
    through is an empty or a shortened list. *)
Definition List : M fs (list BlobInfo) :=
  d <-? os_call "open" (ret tt);;
  match d with
  | Err e => if IsNotExist e then ret [] else throw (Wrap "blobstore: walkdir" e)
  | Ok _ => fun s =>
      walk (merge_sort (by_key String.le walk_key) (map_to_list (f_files s))) [] s
  end.

(** ** Garbage collection (gc.go)

    [ctx_err i] is [ctx.Err()] at the [i]-th blob. *)
Fixpoint gc_loop (ctx_err : nat -> option error) (referenced : gset string) (cutoff : Z)
    (i : nat) (deleted : Z) (blobs : list BlobInfo) : M fs (Z * option error) :=
  match blobs with
  | [] => ret (deleted, None)
  | b :: blobs' =>
      match ctx_err i with
      | Some e => ret (deleted, Some e)
      | None =>
          if bool_decide (b_SHA b ∈ referenced) then gc_loop ctx_err referenced cutoff (S i) deleted blobs'
          else if cutoff <? b_CreatedAt b then gc_loop ctx_err referenced cutoff (S i) deleted blobs'
          else
            r <-? Delete (b_SHA b);;
            gc_loop ctx_err referenced cutoff (S i)
              (match r with Ok _ => deleted + 1 | Err _ => deleted end) blobs'
      end
  end.

Definition GC (ctx_err : nat -> option error) (referenced : gset string) (olderThan : Z)
  : M fs (Z * option error) :=
  n <- os_now;;
  let cutoff := n - olderThan in
  blobs <-? List;;
  match blobs with
  | Err e => ret (0, Some e)
  | Ok blobs => gc_loop ctx_err referenced cutoff 0 0 blobs
  end.
End BlobStore.

(** [collectReferencedSHAs] *)
Section References.
Context {clk : Clock}.

Definition add_refs (states : list FileState) (refs : gset string) : gset string :=
  foldl (fun refs st =>
    match fs_SHA256 st with
    | Some sha => if bool_decide (sha = "") then refs else {[sha]} ∪ refs
    | None => refs
    end) refs states.

Fixpoint collect_pairs (pairs : list (string * string)) (refs : gset string) : M store (gset string) :=
  match pairs with
  | [] => ret refs
  | (id, side) :: pairs' =>
      states <- ListFileStates id side;;
      collect_pairs pairs' (add_refs states refs)
  end.

Definition collectReferencedSHAs : M store (gset string) :=
  pairs <- ListPairs;;
  collect_pairs (concat (map (fun p => [(p_ID p, "a"); (p_ID p, "b")]) pairs)) ∅.
End References.
