(* ===== verification/BlobFacts.v ===== *)
(** The blob store under every schedule of operating-system failures: a name only ever
    holds the content it is the hash of, an upload is all or nothing, an upload in
    chunks gives the same blob, and what garbage collection may remove. *)
From S2P Require Import Prelude GoStrings Store StoreFacts Sha256 BlobStore.
Local Open Scope Z_scope.
Local Open Scope go_scope.

Notation files := (gmap path_key file).

(** ** Names *)
Lemma validateSHA_ok sha : validateSHA sha = None <-> slen sha = 64%nat /\ sall is_hex sha = true.
Proof.
  unfold validateSHA. destruct (bool_decide (slen sha = 64%nat)) eqn:E1;
    [apply bool_decide_eq_true in E1|apply bool_decide_eq_false in E1];
    destruct (sall is_hex sha); simpl; naive_solver.
Qed.

Lemma sha_hex_valid data : validateSHA (sha_hex data) = None.
Proof.
  apply validateSHA_ok. split; [apply sha_hex_shape|].
  apply (sall_impl is_lower_hex); [apply lower_hex_is_hex|apply sha_hex_lower].
Qed.

Lemma path_ne_partial a b : validateSHA a = None -> path a <> partialPath b.
Proof.
  intros [Hl Hh]%validateSHA_ok [= _ Hn]. subst a.
  rewrite sall_app in Hh. apply andb_true_iff in Hh as [_ Hh]. done.
Qed.

Lemma path_inj a b : path a = path b -> a = b.
Proof. by intros [= _ H]. Qed.

(** The invariant: a complete blob is in its directory and hashes to its name. *)
Definition blob_ok (m : files) : Prop :=
  forall d n f, m !! (d, n) = Some f -> validateSHA n = None ->
    d = blob_dir n /\ sha_hex (fl_data f) = ToLower n.

Section Facts.
Context {clk : Clock}.

(** ** What each operating-system call does to the files, failures included

    An assertion on the files; the directories and the clock are free. *)
Notation on P := (fun s : fs => P (f_files s)).

Lemma triple_os_fault (P : files -> Prop) :
  triple (on P) os_fault (fun r s => P (f_files s) /\ exists f, r = Ok f).
Proof. intros s HP. unfold os_fault. destruct (os_faults s); cbn; eauto. Qed.

Lemma triple_os_call {A} (op : string) (m : M fs A) (P : files -> Prop) (Q : result A -> fs -> Prop) :
  (forall en s, P (f_files s) -> Q (Err (PathError op en)) s) ->
  triple (on P) m Q -> triple (on P) (os_call op m) Q.
Proof.
  intros He Hm. eapply triple_bind; [apply triple_os_fault| |].
  - intros [[n en]|]; [apply triple_throw|]; [intros s [HP _]; by apply He|].
    eapply triple_weaken; [exact Hm|by intros s [? _]|done].
  - intros e s [_ [f [=]]].
Qed.

Lemma triple_os_Stat (k : path_key) (P : files -> Prop) :
  triple (on P) (os_Stat k)
    (fun r s => P (f_files s) /\ match r with Ok f => f_files s !! k = Some f | Err _ => True end).
Proof.
  apply triple_os_call; [done|]. intros s HP. cbn. by destruct (f_files s !! k) eqn:E.
Qed.

Lemma triple_os_Open (k : path_key) (P : files -> Prop) :
  triple (on P) (os_Open k)
    (fun r s => P (f_files s) /\
       match r with Ok d => exists f, f_files s !! k = Some f /\ fl_data f = d | Err _ => True end).
Proof.
  apply triple_os_call; [done|]. intros s HP. cbn. destruct (f_files s !! k) eqn:E; eauto.
Qed.

Lemma triple_os_MkdirAll (d : string) (P : files -> Prop) : triple (on P) (os_MkdirAll d) (fun _ => on P).
Proof. apply triple_os_call; [done|]. by intros s HP. Qed.

Lemma triple_os_OpenFile (k : path_key) (trunc : bool) (P : files -> Prop) :
  triple (on P) (os_OpenFile k trunc)
    (fun r s => match r with
      | Ok _ => exists m f, P m /\ f_files s !! k = Some f /\
                (forall k', k' <> k -> f_files s !! k' = m !! k') /\
                (trunc = true -> fl_data f = []) /\
                (trunc = false -> fl_data f = match m !! k with Some f => fl_data f | None => [] end)
      | Err _ => P (f_files s)
      end).
Proof.
  apply triple_os_call; [done|]. intros s HP. case_bool_decide; [|done]. cbn.
  destruct (f_files s !! k) as [f|] eqn:E; [destruct trunc|].
  - exists (f_files s), (MkFile [] (clock (os_tick s))). rewrite lookup_insert_eq. split_and!; try done.
    intros k' Hk. by rewrite lookup_insert_ne.
  - exists (f_files s), f. split_and!; try done. by rewrite E.
  - exists (f_files s), (MkFile [] (clock (os_tick s))). rewrite lookup_insert_eq. split_and!; try done.
    + intros k' Hk. by rewrite lookup_insert_ne.
    + by rewrite E.
Qed.

Lemma triple_os_Remove (k : path_key) (P : files -> Prop) :
  triple (on P) (os_Remove k)
    (fun r s => match r with
      | Ok _ => exists m f, P m /\ m !! k = Some f /\ f_files s = delete k m
      | Err _ => P (f_files s)
      end).
Proof.
  apply triple_os_call; [done|]. intros s HP. cbn. destruct (f_files s !! k) as [f|] eqn:E; [|done].
  by exists (f_files s), f.
Qed.

Lemma triple_os_Rename (a b : path_key) (P : files -> Prop) :
  triple (on P) (os_Rename a b)
    (fun r s => match r with
      | Ok _ => exists m f, P m /\ m !! a = Some f /\ f_files s = <[b := f]> (delete a m)
      | Err _ => P (f_files s)
      end).
Proof.
  apply triple_link_error; [by intros ? ? s|].
  apply triple_os_call; [done|]. intros s HP. cbn. destruct (f_files s !! a) as [f|] eqn:E; [|done].
  by exists (f_files s), f.
Qed.

Lemma triple_os_Close (P : files -> Prop) : triple (on P) os_Close (fun _ => on P).
Proof. apply triple_os_call; [done|]. by intros s HP. Qed.

Lemma triple_os_Seek (off : Z) (P : files -> Prop) :
  triple (on P) (os_Seek off) (fun r s => P (f_files s) /\ (r = Ok tt -> 0 <= off)).
Proof.
  apply triple_os_call; [done|]. destruct (off <? 0) eqn:E.
  - by apply triple_throw.
  - apply triple_ret. apply Z.ltb_ge in E. done.
Qed.

Lemma triple_write_file (k : path_key) (off : nat) (data : bytes) (f0 : file) (P : files -> Prop) :
  triple (on (fun m => P m /\ m !! k = Some f0)) (write_file k off data)
    (fun r s => exists m f, P m /\ f_files s !! k = Some f /\
       (forall k', k' <> k -> f_files s !! k' = m !! k') /\
       fl_data f = (if bool_decide (data = []) then fl_data f0 else write_at off data (fl_data f0))).
Proof.
  intros s [HP Hf]. unfold write_file. case_bool_decide.
  - cbn. by exists (f_files s), f0.
  - cbn. eexists (f_files s), _. rewrite lookup_alter_eq, Hf. cbn. split_and!; [done|done| |done].
    intros k' Hk. by rewrite lookup_alter_ne.
Qed.

Lemma triple_copyWithHash (k : path_key) (off : nat) (r : reader) (f0 : file) (P : files -> Prop) :
  triple (on (fun m => P m /\ m !! k = Some f0)) (copyWithHash k off r)
    (fun res s => exists m f, P m /\ f_files s !! k = Some f /\
       (forall k', k' <> k -> f_files s !! k' = m !! k') /\
       (forall w d, res = Ok (w, d, None) ->
          w = Z.of_nat (length (rd_data r)) /\ d = sum256 (rd_data r) /\ rd_err r = None /\
          fl_data f = (if bool_decide (rd_data r = []) then fl_data f0
                       else write_at off (rd_data r) (fl_data f0)))).
Proof.
  eapply triple_bind; [apply (triple_os_fault (fun m => P m /\ m !! k = Some f0))| |].
  - intros [[n en]|].
    + eapply triple_bind.
      { eapply triple_weaken; [apply (triple_write_file k off (take n (rd_data r)) f0 P)|by intros s [? _]|].
        intros res s (m & f & ? & ? & ? & _). exact (ex_intro _ m (ex_intro _ f (conj H (conj H0 H1)))). }
      * intros []. apply triple_ret. intros s (m & f & HP & Hf & Hk).
        exists m, f. split_and!; [done..|]. by intros.
      * intros e s (m & f & HP & Hf & Hk). exists m, f. split_and!; [done..|]. by intros.
    + eapply triple_bind.
      { eapply triple_weaken; [apply (triple_write_file k off (rd_data r) f0 P)|by intros s [? _]|].
        intros res s H. exact H. }
      * intros []. apply triple_ret. intros s (m & f & HP & Hf & Hk & Hd).
        exists m, f. split_and!; [done..|]. intros w d [= <- <- Hr]. done.
      * intros e s (m & f & HP & Hf & Hk & _). exists m, f. split_and!; [done..|]. by intros.
  - intros e s [_ [f [=]]].
Qed.

(** ** One upload *)
Section Upload.
Context (sha : string) (m0 : files) (Hsha : validateSHA sha = None).
Notation pp := (partialPath sha).

(** Only the partial file may have changed. *)
Definition only_partial (m : files) : Prop := forall k, k <> pp -> m !! k = m0 !! k.

(** The blob is there with a content in [D], its partial file is gone, the rest is as
    it was. *)
Definition stored (D : bytes -> Prop) (m : files) : Prop :=
  m !! pp = None /\ (exists f, m !! path sha = Some f /\ D (fl_data f)) /\
  (forall k, k <> pp -> k <> path sha -> m !! k = m0 !! k).

Lemma only_partial_step m m' :
  only_partial m -> (forall k, k <> pp -> m' !! k = m !! k) -> only_partial m'.
Proof. intros H H' k Hk. by rewrite H', H. Qed.

(** The partial file is there with a content in [D]; nothing else has changed. *)
Definition has_partial (D : bytes -> Prop) (s : fs) : Prop :=
  only_partial (f_files s) /\ exists f, f_files s !! pp = Some f /\ D (fl_data f).

(** How an upload ends: the blob stored, or an error and nothing but the partial file
    changed. *)
Definition upload_ends (D : bytes -> Prop) (r : result unit) (s : fs) : Prop :=
  match r with Ok _ => stored D (f_files s) | Err _ => only_partial (f_files s) end.

Lemma triple_drop_partial (D : bytes -> Prop) (e : error) :
  triple (fun s => only_partial (f_files s)) (drop_partial sha e) (upload_ends D).
Proof.
  eapply triple_try; [apply triple_os_Remove|]. intros r. apply triple_throw. intros s H. cbn.
  destruct r; [|done]. destruct H as (m & f & Hm & _ & ->).
  apply (only_partial_step m); [done|]. intros k Hk. by rewrite lookup_delete_ne.
Qed.

Lemma triple_publish (D : bytes -> Prop) :
  triple (has_partial D) (publish sha) (upload_ends D).
Proof.
  pose proof (path_ne_partial sha sha Hsha) as Hne.
  eapply triple_try.
  - apply (triple_os_Rename _ _ (fun m => only_partial m /\
      exists f, m !! pp = Some f /\ D (fl_data f))).
  - intros [[]|e].
    + apply triple_ret. intros s (m & f & [Hm (f' & Hf' & HD)] & Hf & Heq). cbn.
      unfold stored. rewrite Heq. split; [|split].
      * by rewrite lookup_insert_ne, lookup_delete_eq.
      * exists f. rewrite lookup_insert_eq. split; [done|]. congruence.
      * intros k Hk1 Hk2. rewrite lookup_insert_ne, lookup_delete_ne by done. by apply Hm.
    + eapply triple_weaken; [apply triple_drop_partial|by intros s [? _]|done].
Qed.

(** The file is complete: publish it if its hash is right, else drop it. *)
Lemma triple_verify (D : bytes -> Prop) digest :
  triple (has_partial (fun d => D d /\ digest = sum256 d))
    (if negb (bool_decide (hex_encode digest = ToLower sha))
     then drop_partial sha ErrSHAMismatch else publish sha)
    (upload_ends (fun d => D d /\ sha_hex d = ToLower sha)).
Proof.
  case_bool_decide as Hd; cbn [negb].
  - eapply triple_weaken; [apply triple_publish| |done].
    intros s [Hs (f & Hf & HD & ->)]. split; [done|]. exists f. done.
  - eapply triple_weaken; [apply triple_drop_partial|by intros s [? _]|done].
Qed.

(** What the partial file holds once it is open. *)
Definition partial_start (trunc : bool) (d : bytes) : Prop :=
  d = match m0 !! pp with Some f => if trunc then [] else fl_data f | None => [] end.

Lemma triple_prepare (trunc : bool) {B} (k : unit -> M fs B) (Q : result B -> fs -> Prop) :
  triple (has_partial (partial_start trunc)) (k tt) Q ->
  (forall e s, only_partial (f_files s) -> Q (Err e) s) ->
  triple (fun s => f_files s = m0)
    (_ <- wrapped "blobstore: mkdir" (ensureDir sha);;
     u <- wrapped "blobstore: open partial" (os_OpenFile pp trunc);; k u) Q.
Proof.
  intros Hk He.
  apply (triple_seq _ _ _ (fun _ s => f_files s = m0) (fun s => f_files s = m0)).
  - apply triple_wrapped. eapply triple_weaken; [apply (triple_os_MkdirAll _ (fun m => m = m0))|done|].
    by intros [a|e] s Hs.
  - intros _. eapply (triple_seq _ _ _ (fun _ => has_partial (partial_start trunc))
      (fun s => f_files s = m0)).
    + apply triple_wrapped. eapply triple_weaken;
        [apply (triple_os_OpenFile pp trunc (fun m => m = m0))|done|].
      intros [a|e] s Hs; [|exact Hs]. destruct Hs as (m & f & -> & Hf & Hk' & Ht & Hnt).
      split; [by intros k' ?; apply Hk'|]. exists f. split; [done|]. unfold partial_start.
      destruct trunc; [rewrite Ht by done; by destruct (m0 !! pp)|by apply Hnt].
    + intros []. exact Hk.
    + intros e s Hs. apply He. by intros k' _; rewrite Hs.
  - intros e s Hs. apply He. by intros k' _; rewrite Hs.
Qed.

(** What [copyWithHash] then [Close] leave, when both succeed. *)
Definition copied (D0 : bytes -> Prop) (off : nat) (r : reader) (w : Z) (digest : bytes)
    (d : bytes) : Prop :=
  w = Z.of_nat (length (rd_data r)) /\ digest = sum256 (rd_data r) /\ rd_err r = None /\
  exists d0, D0 d0 /\ d = (if bool_decide (rd_data r = []) then d0 else write_at off (rd_data r) d0).

Lemma triple_copy_close (D0 : bytes -> Prop) (off : nat) (r : reader) {B}
    (k : Z -> bytes -> option error -> result unit -> M fs B) (Q : result B -> fs -> Prop) :
  (forall w dg, triple (has_partial (copied D0 off r w dg)) (k w dg None (Ok tt)) Q) ->
  (forall w dg ce c, (ce = None /\ c = Ok tt) \/
                     triple (fun s => only_partial (f_files s)) (k w dg ce c) Q) ->
  (forall e s, only_partial (f_files s) -> Q (Err e) s) ->
  triple (has_partial D0)
    (res <- copyWithHash pp off r;; let '(w, dg, ce) := res in try os_Close (k w dg ce)) Q.
Proof.
  intros Hk Hfail He s0 [Hs (f0 & Hf0 & HD0)].
  apply (triple_seq (fun s => only_partial (f_files s) /\ f_files s !! pp = Some f0) _ _
    (fun res => has_partial (fun d => match res with
                                      | (w, dg, None) => copied D0 off r w dg d
                                      | _ => True end))
    (fun s => only_partial (f_files s))); [| |done|done].
  - eapply triple_weaken; [apply (triple_copyWithHash pp off r f0 only_partial)|done|].
    intros [res|e] s (m & f & Hm & Hf & Hk' & Hres); [|by eapply only_partial_step].
    split; [by eapply only_partial_step|]. exists f. split; [done|].
    destruct res as [[w dg] [ce|]]; [done|].
    destruct (Hres w dg eq_refl) as (-> & -> & Hr & Hd). split_and!; try done.
    exists (fl_data f0). by rewrite Hd.
  - intros [[w dg] ce]. eapply triple_try.
    { apply (triple_os_Close (fun m => only_partial m /\ exists f, m !! pp = Some f /\
        match ce with None => copied D0 off r w dg (fl_data f) | _ => True end)). }
    intros c. destruct (Hfail w dg ce c) as [[-> ->]|H].
    + eapply triple_weaken; [apply Hk|done|done].
    + eapply triple_weaken; [exact H|by intros s [? _]|done].
Qed.

(** [Put] of a blob that is there is a success that changes nothing. *)
Definition put_content (r : reader) (n : Z) (d : bytes) : Prop :=
  d = rd_data r /\ rd_err r = None /\ (0 < n -> Z.of_nat (length d) = n).

Lemma triple_Put (r : reader) (n : Z) :
  triple (fun s => f_files s = m0) (Put sha r n)
    (fun res s => (res = Ok tt /\ is_Some (m0 !! path sha) /\ f_files s = m0) \/
                  upload_ends (fun d => put_content r n d /\ sha_hex d = ToLower sha) res s).
Proof.
  unfold Put, checked. rewrite Hsha.
  eapply triple_try; [apply (triple_os_Stat _ (fun m => m = m0))|].
  intros [f|e]; [apply triple_ret; intros s [<- Hs]; left; eauto|].
  apply (triple_weaken _ (fun s => f_files s = m0) _ _
    (upload_ends (fun d => put_content r n d /\ sha_hex d = ToLower sha)));
    [|by intros s [? _]|by intros res s ?; right].
  apply triple_prepare; [|by intros e' s Hs].
  apply triple_copy_close; [| |by intros e' s Hs].
  - intros w dg. cbn. destruct ((0 <? n) && negb (w =? n)) eqn:E.
    + eapply triple_weaken; [apply triple_drop_partial|by intros s [? _]|done].
    + eapply triple_weaken; [apply (triple_verify (put_content r n))| |done].
      intros s [Hs (f & Hf & -> & -> & Hr & d0 & Hd0 & Hd)]. split; [done|]. exists f.
      assert (fl_data f = rd_data r) as ->.
      { rewrite Hd. unfold partial_start in Hd0.
        assert (d0 = []) as -> by (rewrite Hd0; by destruct (m0 !! pp)).
        case_bool_decide as Hrd; [done|]. unfold write_at. cbn. by rewrite drop_nil, app_nil_r. }
      split; [done|]. split; [|done]. split; [done|]. split; [done|]. intros Hn.
      apply Z.ltb_lt in Hn. rewrite Hn in E. cbn in E. apply negb_false_iff, Z.eqb_eq in E. done.
  - intros w dg [ce|] [[]|e']; auto; right; apply triple_drop_partial.
Qed.

(** The content a chunk leaves in the partial file. *)
Definition range_content (offset : Z) (r : reader) (total : Z) (d : bytes) : Prop :=
  rd_err r = None /\ 0 <= offset /\
  wrap64 (offset + Z.of_nat (length (rd_data r))) = total /\
  copied (partial_start false) (Z.to_nat offset) r (Z.of_nat (length (rd_data r)))
    (sum256 (rd_data r)) d.

Lemma triple_hashFile (D : bytes -> Prop) :
  triple (has_partial D) (wrapped "blobstore: hash partial" (hashFile pp))
    (fun r s => match r with
                | Ok dg => has_partial (fun d => D d /\ dg = sum256 d) s
                | Err _ => only_partial (f_files s) end).
Proof.
  apply triple_wrapped. unfold hashFile.
  apply (triple_seq _ _ _ (fun d s => has_partial (fun d' => D d' /\ d = d') s)
           (fun s => only_partial (f_files s))).
  - eapply triple_weaken; [apply (triple_os_Open pp (fun m => only_partial m /\
      exists f, m !! pp = Some f /\ D (fl_data f)))|done|].
    intros [d|e] s [[Hs (f & Hf & HD)] Hr]; [|done]. destruct Hr as (f' & Hf' & <-).
    split; [done|]. exists f. split; [done|]. split; [done|]. congruence.
  - intros d. apply (triple_os_call _ _ (fun m => only_partial m /\
      exists f, m !! pp = Some f /\ D (fl_data f) /\ d = fl_data f)).
    + by intros en s [? _].
    + apply triple_ret. intros s [Hs (f & Hf & HD & ->)]. split; [done|]. by exists f.
  - done.
Qed.

Lemma triple_PutRange (offset : Z) (r : reader) (total : Z) :
  triple (fun s => f_files s = m0) (PutRange sha offset r total)
    (fun res s =>
       upload_ends (fun d => range_content offset r total d /\ sha_hex d = ToLower sha) res s).
Proof.
  unfold PutRange, checked. rewrite Hsha.
  apply triple_prepare; [|by intros e' s Hs].
  eapply triple_try.
  { apply (triple_os_Seek offset (fun m => only_partial m /\ exists f, m !! pp = Some f /\
      partial_start false (fl_data f))). }
  intros [[]|e].
  - destruct (decide (0 <= offset)) as [Hoff|Hoff]; [|by intros s [_ H]; specialize (H eq_refl)].
    apply (triple_weaken _ (has_partial (partial_start false)) _ _ (upload_ends (fun d =>
      range_content offset r total d /\ sha_hex d = ToLower sha))); [|by intros s [? _]|done].
    apply triple_copy_close; [| |by intros e' s Hs].
    + intros w dg. cbn. destruct (_ <? total) eqn:E1; [apply triple_throw; by intros s [? _]|].
      destruct (negb (_ =? total)) eqn:E2.
      { eapply triple_weaken; [apply triple_drop_partial|by intros s [? _]|done]. }
      apply negb_false_iff, Z.eqb_eq in E2.
      eapply triple_seq; [apply triple_hashFile| |by intros e' s Hs].
      intros dg'. eapply triple_weaken; [apply (triple_verify (range_content offset r total))| |done].
      intros s [Hs (f & Hf & Hc & ->)]. split; [done|]. exists f. split; [done|]. split; [|done].
      pose proof Hc as (-> & -> & Hr & _). done.
    + intros w dg [ce|] [[]|e']; auto; right; apply triple_throw; by intros s Hs.
  - eapply (triple_weaken _ (fun s => only_partial (f_files s))); [|by intros s [[? _] _]|done].
    eapply triple_try; [apply (triple_os_Close only_partial)|]. intros c.
    by apply triple_throw.
Qed.
End Upload.

(** ** The invariant *)
Lemma partial_not_sha n sha : validateSHA n = None -> n <> sha +:+ ".partial".
Proof.
  intros [_ Hh]%validateSHA_ok ->. rewrite sall_app in Hh. by apply andb_true_iff in Hh as [_ Hh].
Qed.

Lemma blob_ok_only_partial sha m0 m : blob_ok m0 -> only_partial sha m0 m -> blob_ok m.
Proof.
  intros Hok Hm d n f Hf Hn. rewrite Hm in Hf; [by apply (Hok d n f)|].
  intros [= _ ->]. by eapply partial_not_sha.
Qed.

Lemma blob_ok_stored sha m0 D m :
  blob_ok m0 -> stored sha m0 (fun d => D d /\ sha_hex d = ToLower sha) m -> blob_ok m.
Proof.
  intros Hok (_ & (f0 & Hf0 & _ & Hsha) & Hother) d n f Hf Hn.
  destruct (decide ((d, n) = path sha)) as [Hk|Hk].
  - rewrite Hk in Hf. rewrite Hf0 in Hf. injection Hf as <-. by injection Hk as -> ->.
  - rewrite Hother in Hf; [by apply (Hok d n f)| |done].
    intros [= _ ->]. by eapply partial_not_sha.
Qed.

Lemma blob_ok_upload_ends sha m0 D r s :
  blob_ok m0 -> upload_ends sha m0 (fun d => D d /\ sha_hex d = ToLower sha) r s ->
  blob_ok (f_files s).
Proof.
  intros Hok. destruct r; [by apply blob_ok_stored|by apply blob_ok_only_partial].
Qed.

Lemma blob_ok_delete k m : blob_ok m -> blob_ok (delete k m).
Proof. intros Hok d n f [_ Hf]%lookup_delete_Some. by apply Hok. Qed.

(** Every method, with what it is called with. *)
Inductive blob_call : Type :=
| CallHas (sha : string) | CallStat (sha : string) | CallGet (sha : string)
| CallGetRange (sha : string) (offset length : Z) | CallList
| CallPut (sha : string) (r : reader) (expectedSize : Z)
| CallPutRange (sha : string) (offset : Z) (r : reader) (totalSize : Z)
| CallDelete (sha : string)
| CallGC (ctx_err : nat -> option error) (referenced : gset string) (olderThan : Z).

Definition run_blob_call (c : blob_call) : M fs unit :=
  match c with
  | CallHas sha => _ <- Has sha;; ret tt
  | CallStat sha => _ <- Stat sha;; ret tt
  | CallGet sha => _ <- Get sha;; ret tt
  | CallGetRange sha o l => _ <- GetRange sha o l;; ret tt
  | CallList => _ <- List;; ret tt
  | CallPut sha r n => Put sha r n
  | CallPutRange sha o r n => PutRange sha o r n
  | CallDelete sha => Delete sha
  | CallGC c refs age => _ <- GC c refs age;; ret tt
  end.

(** *** Methods that only read *)
Notation same m0 := (fun s : fs => f_files s = m0).

Lemma same_checked {A} sha (m : M fs A) m0 :
  preserves (same m0) m -> preserves (same m0) (checked sha m).
Proof. intros H. unfold checked. destruct (validateSHA sha); auto with axion. Qed.

Lemma same_os_call {A} (o : string) (m : M fs A) m0 :
  preserves (same m0) m -> preserves (same m0) (os_call o m).
Proof.
  intros H s Hs. unfold os_call, os_fault, bind. destruct (os_faults s) as [|[[]|]]; auto.
Qed.

Lemma same_open_blob sha m0 : preserves (same m0) (open_blob sha).
Proof.
  apply preserves_try; [by (apply same_os_call; intros s Hs)|]. intros [d|e]; [auto with axion|]. destruct (IsNotExist e); auto with axion.
Qed.

Lemma same_Stat sha m0 : preserves (same m0) (Stat sha).
Proof.
  apply same_checked, preserves_try; [by (apply same_os_call; intros s Hs)|].
  intros [d|e]; [auto with axion|]. destruct (IsNotExist e); auto with axion.
Qed.

Lemma same_Has sha m0 : preserves (same m0) (Has sha).
Proof.
  apply same_checked, preserves_try; [by (apply same_os_call; intros s Hs)|].
  intros [d|e]; [auto with axion|]. destruct (IsNotExist e); auto with axion.
Qed.

Lemma same_GetRange sha o l m0 : preserves (same m0) (GetRange sha o l).
Proof.
  apply same_checked, preserves_bind; [apply same_open_blob|]. intros d.
  apply preserves_bind; [|auto with axion]. apply preserves_wrapped, same_os_call.
  destruct (o <? 0); auto with axion.
Qed.

Lemma same_walk l acc m0 : preserves (same m0) (walk l acc).
Proof.
  revert acc. induction l as [|[[d n] f] l IH]; intros acc; [apply preserves_ret|]. cbn [walk].
  destruct (HasSuffix n _); [apply IH|]. apply preserves_try; [by (apply same_os_call; intros s Hs)|].
  intros [i|e]; [apply IH|]. destruct (IsNotExist e); auto with axion.
Qed.

Lemma same_List m0 : preserves (same m0) List.
Proof.
  apply preserves_try; [by (apply same_os_call; intros s Hs)|]. intros [u|e].
  - intros s Hs. by apply same_walk.
  - destruct (IsNotExist e); auto with axion.
Qed.

(** *** Deletion *)
Lemma triple_Delete sha m0 :
  triple (same m0) (Delete sha)
    (fun r s => match r with
      | Ok _ => validateSHA sha = None /\ is_Some (m0 !! path sha) /\ f_files s = delete (path sha) m0
      | Err _ => f_files s = m0
      end).
Proof.
  unfold Delete, checked. destruct (validateSHA sha) eqn:E; [by apply triple_throw|].
  eapply triple_try; [apply (triple_os_Remove (path sha) (fun m => m = m0))|].
  intros [u|e].
  - apply triple_ret. intros s (m & f & -> & Hf & ->). eauto.
  - destruct (IsNotExist e); by apply triple_throw.
Qed.

(** What a collection may have done: it has only removed files, each with a name the
    listing gave, not referenced and not newer than the cutoff. *)
Definition collected (referenced : gset string) (cutoff : Z) (blobs : list BlobInfo)
    (m0 m : files) : Prop :=
  m ⊆ m0 /\
  forall k, is_Some (m0 !! k) -> m !! k = None ->
    exists b, b ∈ blobs /\ k = path (b_SHA b) /\ validateSHA (b_SHA b) = None /\
              b_SHA b ∉ referenced /\ b_CreatedAt b <= cutoff.

Lemma gc_loop_collects c refs cutoff i deleted blobs m0 s :
  f_files s = m0 ->
  collected refs cutoff blobs m0 (f_files (snd (gc_loop c refs cutoff i deleted blobs s))).
Proof.
  revert i deleted m0 s. induction blobs as [|b blobs IH]; intros i deleted m0 s Hs.
  { cbn. rewrite Hs. split; [done|]. intros k [f Hf]. congruence. }
  cbn [gc_loop]. destruct (c i).
  { cbn. rewrite Hs. split; [done|]. intros k [f Hf]. congruence. }
  assert (forall m, collected refs cutoff blobs m0 m -> collected refs cutoff (b :: blobs) m0 m) as Hw.
  { intros m [H1 H2]. split; [done|]. intros k Hk Hn. destruct (H2 k Hk Hn) as (b' & Hb & ?).
    exists b'. split; [by right|done]. }
  case_bool_decide as Href; [by apply Hw, IH|].
  destruct (cutoff <? b_CreatedAt b) eqn:Ec; [by apply Hw, IH|]. apply Z.ltb_ge in Ec.
  unfold try. pose proof (triple_Delete (b_SHA b) m0 s Hs) as Hd.
  destruct (Delete (b_SHA b) s) as [[u|e] s1]; cbn in Hd; [|by apply Hw, IH].
  destruct Hd as (Hv & _ & Hd). destruct (IH (S i) (deleted + 1) _ s1 Hd) as [H1 H2].
  split; [by etrans; [exact H1|apply delete_subseteq]|].
  intros k Hk Hn. destruct (decide (k = path (b_SHA b))) as [->|Hne].
  - exists b. split; [by left|]. done.
  - destruct (H2 k) as (b' & Hb & ?); [by rewrite lookup_delete_ne|done|].
    exists b'. split; [by right|done].
Qed.

Lemma collected_ok refs cutoff blobs m0 m : collected refs cutoff blobs m0 m -> blob_ok m0 -> blob_ok m.
Proof. intros [Hsub _] Hok d n f Hf. apply Hok. by apply (lookup_weaken m m0). Qed.

Lemma GC_collects c refs age s :
  exists blobs, fst (List (snd (os_now s))) = Ok blobs /\
    collected refs (clock (os_tick s) - age) blobs (f_files s) (f_files (snd (GC c refs age s)))
  \/ f_files (snd (GC c refs age s)) = f_files s.
Proof.
  unfold GC, bind, os_now, try. cbn [fst snd].
  set (s1 := MkFs _ _ _ _). pose proof (same_List (f_files s) s1 eq_refl) as Hl.
  destruct (List s1) as [[blobs|e] s2] eqn:E; cbn in Hl.
  - exists blobs. left. split; [done|]. cbn [fst snd]. by apply gc_loop_collects.
  - exists []. by right.
Qed.

Lemma run_blob_call_ok c : preserves (fun s => blob_ok (f_files s)) (run_blob_call c).
Proof.
  intros s Hok.
  assert (forall {A} (m : M fs A), preserves (same (f_files s)) m ->
    blob_ok (f_files (snd ((_ <- m;; ret tt) s)))) as Hread.
  { intros A m Hm. specialize (Hm s eq_refl). unfold bind. destruct (m s) as [[a|e] s']; cbn in *;
      by rewrite Hm. }
  destruct c; cbn [run_blob_call].
  - apply Hread, same_Has.
  - apply Hread, same_Stat.
  - apply Hread, same_checked, same_open_blob.
  - apply Hread, same_GetRange.
  - apply Hread, same_List.
  - destruct (validateSHA sha) eqn:E; [unfold Put, checked; by rewrite E|].
    destruct (triple_Put sha (f_files s) E r expectedSize s eq_refl) as [(_ & _ & ->)|H]; [done|].
    by eapply blob_ok_upload_ends.
  - destruct (validateSHA sha) eqn:E; [unfold PutRange, checked; by rewrite E|].
    pose proof (triple_PutRange sha (f_files s) E offset r totalSize s eq_refl) as H.
    by eapply blob_ok_upload_ends.
  - pose proof (triple_Delete sha (f_files s) s eq_refl) as H.
    destruct (Delete sha s) as [[u|e] s']; cbn in *; [|by rewrite H].
    destruct H as (_ & _ & ->). by apply blob_ok_delete.
  - assert (blob_ok (f_files (snd (GC ctx_err referenced olderThan s)))) as H.
    { destruct (GC_collects ctx_err referenced olderThan s) as (blobs & [[_ Hc]| ->]); [|done].
      by eapply collected_ok. }
    unfold bind. by destruct (GC _ _ _ s) as [[a|e] s'].
Qed.
End Facts.
