(* ===== verification/BlobSpec.v ===== *)
(** The promises of the blob store: content addressing, all-or-nothing uploads, resumed
    uploads, and a garbage collection that keeps what the file states reference. *)
From S2P Require Import Prelude GoStrings Store StoreFacts Sha256 BlobStore BlobFacts.
Local Open Scope Z_scope.
Local Open Scope go_scope.

Section Spec.
Context {clk : Clock}.

(** ** No failure to come *)
Definition calm (m : files) (d : gset string) (n : nat) : fs := MkFs m d [] n.

(** The reader of a request body that arrives whole. *)
Definition whole (d : bytes) : reader := MkReader d None.

Lemma write_at_nil d : write_at 0 d [] = d.
Proof. unfold write_at. cbn. by rewrite drop_nil, app_nil_r. Qed.

Lemma write_at_append old d : write_at (length old) d old = old ++ d.
Proof.
  unfold write_at. rewrite Nat.sub_diag. cbn [replicate]. rewrite app_nil_r.
  rewrite firstn_all, drop_ge by lia. by rewrite app_nil_r.
Qed.

Lemma Get_eq sha m d n :
  validateSHA sha = None ->
  Get sha (calm m d n) = (match m !! path sha with Some f => Ok (fl_data f) | None => Err ErrNotFound end,
                          calm m d n).
Proof.
  intros Hv. unfold Get, checked. rewrite Hv. unfold open_blob, try, os_Open, os_call, os_fault, bind, calm.
  cbn. by destruct (m !! path sha).
Qed.

Lemma Delete_eq sha m d n f :
  validateSHA sha = None -> m !! path sha = Some f ->
  Delete sha (calm m d n) = (Ok tt, calm (delete (path sha) m) d n).
Proof.
  intros Hv Hf. unfold Delete, checked. rewrite Hv.
  assert (os_Remove (path sha) (calm m d n) = (Ok tt, calm (delete (path sha) m) d n)) as E.
  { unfold os_Remove, os_call, os_fault, bind, calm. cbn. by rewrite Hf. }
  unfold try. by rewrite E.
Qed.

(** The content of the partial file. *)
Definition partial_data (m : files) (sha : string) : bytes :=
  match m !! partialPath sha with Some f => fl_data f | None => [] end.

(** *** The calls of an upload *)
Lemma Stat_calm k m d n :
  os_Stat k (calm m d n) =
  (match m !! k with Some f => Ok f | None => Err (PathError "stat" "ENOENT") end, calm m d n).
Proof. unfold os_Stat, os_call, os_fault, bind, calm. cbn. by destruct (m !! k). Qed.

Lemma Mkdir_calm x m d n : os_MkdirAll x (calm m d n) = (Ok tt, calm m ({[x]} ∪ d) n).
Proof. done. Qed.

Definition opened (k : path_key) (trunc : bool) (m : files) (t : Z) : files :=
  match m !! k with
  | Some f => if trunc then <[k := MkFile [] t]> m else m
  | None => <[k := MkFile [] t]> m
  end.

Lemma OpenFile_calm k trunc m d n :
  k.1 ∈ d -> os_OpenFile k trunc (calm m d n) = (Ok tt, calm (opened k trunc m (clock n)) d (S n)).
Proof.
  intros H. unfold os_OpenFile, os_call, os_fault, bind, calm. cbn. by rewrite bool_decide_true.
Qed.

Lemma alter_as_insert (g : file -> file) (k : path_key) (m : files) f :
  m !! k = Some f -> alter g k m = <[k := g f]> m.
Proof.
  intros Hf. apply map_eq. intros j. rewrite lookup_insert. case_decide as Hj.
  - subst j. by rewrite lookup_alter_eq, Hf.
  - by rewrite lookup_alter_ne.
Qed.

Lemma copy_calm k off data m d n f :
  m !! k = Some f ->
  exists f' n', copyWithHash k off (whole data) (calm m d n) =
    (Ok (Z.of_nat (length data), sum256 data, None), calm (<[k := f']> m) d n') /\
    fl_data f' = (if bool_decide (data = []) then fl_data f else write_at off data (fl_data f)).
Proof.
  intros Hf. unfold copyWithHash, os_fault, bind, write_file. cbn. case_bool_decide.
  - exists f, n. by rewrite insert_id.
  - exists (MkFile (write_at off data (fl_data f)) (clock n)), (S n). split; [|done].
    unfold calm, set_files. cbn. by rewrite (alter_as_insert _ _ _ _ Hf).
Qed.

Lemma Close_calm m d n : os_Close (calm m d n) = (Ok tt, calm m d n).
Proof. done. Qed.

Lemma Seek_calm off m d n : 0 <= off -> os_Seek off (calm m d n) = (Ok tt, calm m d n).
Proof.
  intros H. unfold os_Seek, os_call, os_fault, bind. cbn.
  by destruct (Z.ltb_spec off 0); [lia|].
Qed.

Lemma hashFile_calm k m d n f :
  m !! k = Some f -> hashFile k (calm m d n) = (Ok (sum256 (fl_data f)), calm m d n).
Proof. intros Hf. unfold hashFile, os_Open, os_call, os_fault, bind. cbn. by rewrite Hf. Qed.

Lemma publish_calm sha m d n f :
  m !! partialPath sha = Some f ->
  publish sha (calm m d n) = (Ok tt, calm (<[path sha := f]> (delete (partialPath sha) m)) d n).
Proof. intros Hf. unfold publish, try, os_Rename, link_error, os_call, os_fault, bind. cbn. by rewrite Hf. Qed.

Lemma drop_calm sha e m d n f :
  m !! partialPath sha = Some f ->
  drop_partial (A:=unit) sha e (calm m d n) = (Err e, calm (delete (partialPath sha) m) d n).
Proof. intros Hf. unfold drop_partial, try, os_Remove, os_call, os_fault, bind. cbn. by rewrite Hf. Qed.

(** What opening leaves in the partial file. *)
Lemma opened_lookup k trunc m t :
  exists f, opened k trunc m t !! k = Some f /\
    fl_data f = (match m !! k with Some f => if trunc then [] else fl_data f | None => [] end).
Proof.
  unfold opened. destruct (m !! k) as [f|] eqn:E; [destruct trunc|];
    rewrite ?lookup_insert_eq, ?E; eauto.
Qed.

Lemma opened_other k trunc m t f : <[k := f]> (opened k trunc m t) = <[k := f]> m.
Proof.
  apply map_eq. intros j. rewrite !lookup_insert. case_decide; [done|].
  unfold opened. destruct (m !! k); [destruct trunc|]; by rewrite ?lookup_insert_ne.
Qed.

(** ** Uploads without failures *)
Notation at_path sha f m := (<[path sha := f]> (delete (partialPath sha) m)).

Lemma Put_eq sha data n m d t :
  validateSHA sha = None -> m !! path sha = None ->
  exists f d' t', fl_data f = data /\
    Put sha (whole data) n (calm m d t) =
      (if (0 <? n) && negb (Z.of_nat (length data) =? n)
       then (Err ErrSizeMismatch, calm (delete (partialPath sha) m) d' t')
       else if negb (bool_decide (sha_hex data = ToLower sha))
       then (Err ErrSHAMismatch, calm (delete (partialPath sha) m) d' t')
       else (Ok tt, calm (at_path sha f m) d' t')).
Proof.
  intros Hv Hnew. set (d' := {[blob_dir sha]} ∪ d).
  destruct (opened_lookup (partialPath sha) true m (clock t)) as (f0 & Hf0 & Hd0).
  destruct (copy_calm (partialPath sha) 0 data (opened (partialPath sha) true m (clock t)) d' (S t) f0 Hf0)
    as (f & t' & Hcopy & Hd).
  exists f, d', t'.
  assert (fl_data f = data) as Hfd.
  { rewrite Hd, Hd0. replace (match m !! partialPath sha with Some _ => _ | None => _ end) with ([] : bytes)
      by (by destruct (m !! partialPath sha)).
    case_bool_decide; [done|]. apply write_at_nil. }
  split; [done|]. rewrite opened_other in Hcopy.
  unfold Put, checked. rewrite Hv. unfold try at 1. rewrite Stat_calm, Hnew.
  unfold bind at 1, wrapped at 1, ensureDir. rewrite Mkdir_calm. fold d'.
  unfold bind at 1, wrapped at 1. rewrite OpenFile_calm by (unfold d', partialPath; cbn; set_solver).
  unfold bind at 1. rewrite Hcopy. unfold try at 1. rewrite Close_calm.
  assert (<[partialPath sha := f]> m !! partialPath sha = Some f) as Hp by by rewrite lookup_insert_eq.
  assert (delete (partialPath sha) (<[partialPath sha := f]> m) = delete (partialPath sha) m) as Hdel
    by apply delete_insert_eq.
  change (hex_encode (sum256 data)) with (sha_hex data).
  destruct (_ && _); [by rewrite (drop_calm _ _ _ _ _ f), Hdel|].
  destruct (negb _); [by rewrite (drop_calm _ _ _ _ _ f), Hdel|].
  by rewrite (publish_calm _ _ _ _ f), Hdel.
Qed.

Lemma PutRange_eq sha off data total m d t :
  validateSHA sha = None -> 0 <= off -> off + Z.of_nat (length data) <= int64_max ->
  exists f d' t',
    fl_data f = (if bool_decide (data = []) then partial_data m sha
                 else write_at (Z.to_nat off) data (partial_data m sha)) /\
    let len := off + Z.of_nat (length data) in
    PutRange sha off (whole data) total (calm m d t) =
      (if len <? total
       then (Err ErrIncomplete, calm (<[partialPath sha := f]> m) d' t')
       else if negb (len =? total)
       then (Err ErrSizeMismatch, calm (delete (partialPath sha) m) d' t')
       else if negb (bool_decide (sha_hex (fl_data f) = ToLower sha))
       then (Err ErrSHAMismatch, calm (delete (partialPath sha) m) d' t')
       else (Ok tt, calm (at_path sha f m) d' t')).
Proof.
  intros Hv Hoff Hmax. set (d' := {[blob_dir sha]} ∪ d).
  destruct (opened_lookup (partialPath sha) false m (clock t)) as (f0 & Hf0 & Hd0).
  destruct (copy_calm (partialPath sha) (Z.to_nat off) data (opened (partialPath sha) false m (clock t))
    d' (S t) f0 Hf0) as (f & t' & Hcopy & Hd).
  exists f, d', t'. split; [by rewrite Hd, Hd0|]. rewrite opened_other in Hcopy.
  unfold PutRange, checked. rewrite Hv.
  unfold bind at 1, wrapped at 1, ensureDir. rewrite Mkdir_calm. fold d'.
  unfold bind at 1, wrapped at 1. rewrite OpenFile_calm by (unfold d', partialPath; cbn; set_solver).
  unfold try at 1. rewrite Seek_calm by done.
  unfold bind at 1. rewrite Hcopy. unfold try at 1. rewrite Close_calm.
  rewrite wrap64_id by (unfold int64_min; lia).
  assert (<[partialPath sha := f]> m !! partialPath sha = Some f) as Hp by by rewrite lookup_insert_eq.
  assert (delete (partialPath sha) (<[partialPath sha := f]> m) = delete (partialPath sha) m) as Hdel
    by apply delete_insert_eq.
  cbn zeta. destruct (_ <? _); [done|].
  destruct (negb _); [by rewrite (drop_calm _ _ _ _ _ f), Hdel|].
  unfold bind at 1, wrapped at 1. rewrite (hashFile_calm _ _ _ _ f Hp).
  change (hex_encode (sum256 (fl_data f))) with (sha_hex (fl_data f)).
  destruct (negb _); [by rewrite (drop_calm _ _ _ _ _ f), Hdel|].
  by rewrite (publish_calm _ _ _ _ f), Hdel.
Qed.

(** ** An upload in chunks

    The chunks are sent one after the other, each at its offset; the answer is that of
    the last one. *)
Fixpoint upload_chunks (sha : string) (off : Z) (chunks : list bytes) (total : Z) : M fs unit :=
  match chunks with
  | [] => throw ErrIncomplete
  | [c] => PutRange sha off (whole c) total
  | c :: cs => _ <-? PutRange sha off (whole c) total;;
               upload_chunks sha (off + Z.of_nat (length c)) cs total
  end.

Lemma upload_chunks_eq sha chunks m d t pre :
  validateSHA sha = None -> partial_data m sha = pre ->
  chunks <> [] -> Forall (fun c => c <> []) chunks ->
  let total := Z.of_nat (length (pre ++ concat chunks)) in
  total <= int64_max -> sha_hex (pre ++ concat chunks) = ToLower sha ->
  exists f d' t', fl_data f = pre ++ concat chunks /\
    upload_chunks sha (Z.of_nat (length pre)) chunks total (calm m d t) =
      (Ok tt, calm (at_path sha f m) d' t').
Proof.
  intros Hv. revert m d t pre. induction chunks as [|c cs IH]; intros m d t pre Hpre Hne Hall total Hmax Hsha;
    [done|].
  apply Forall_cons in Hall as [Hc Hall].
  assert (Z.of_nat (length pre) + Z.of_nat (length c) <= int64_max) as Hlen.
  { unfold total in Hmax. cbn [concat] in Hmax. rewrite !length_app in Hmax. lia. }
  destruct (PutRange_eq sha (Z.of_nat (length pre)) c total m d t Hv ltac:(lia) Hlen)
    as (f & d' & t' & Hf & E). cbn zeta in E.
  rewrite (bool_decide_false _ Hc), Hpre, Nat2Z.id, write_at_append in Hf.
  destruct cs as [|c' cs].
  - exists f, d', t'. cbn [concat] in *. rewrite app_nil_r in *.
    assert (Z.of_nat (length pre) + Z.of_nat (length c) = total) as Ht.
    { unfold total. rewrite !length_app. cbn [length]. lia. }
    split; [done|]. cbn [upload_chunks]. rewrite E, Ht, Z.ltb_irrefl, Z.eqb_refl. cbn [negb].
    by rewrite Hf, bool_decide_true.
  - assert (Z.of_nat (length pre) + Z.of_nat (length c) < total) as Ht.
    { unfold total. apply Forall_cons in Hall as [Hc' _]. destruct c'; [done|].
      cbn [concat]. rewrite !length_app. cbn [length]. lia. }
    apply Z.ltb_lt in Ht. rewrite Ht in E.
    destruct (IH (<[partialPath sha := f]> m) d' t' (pre ++ c)) as (f' & d2 & t2 & Hf' & E');
      [|done|done|by rewrite <- app_assoc|by rewrite <- app_assoc|].
    { unfold partial_data. by rewrite lookup_insert_eq. }
    exists f', d2, t2. split; [by rewrite Hf', <- app_assoc|].
    change (upload_chunks sha (Z.of_nat (length pre)) (c :: c' :: cs) total)
      with (_ <-? PutRange sha (Z.of_nat (length pre)) (whole c) total;;
            upload_chunks sha (Z.of_nat (length pre) + Z.of_nat (length c)) (c' :: cs) total).
    unfold try. rewrite E. rewrite <- app_assoc, length_app, Nat2Z.inj_add in E'.
    unfold total. cbn [concat] in E' |- *. rewrite E'. by rewrite delete_insert_eq.
Qed.

(** ** The listing *)
Definition listed (m : files) (b : BlobInfo) : Prop :=
  exists d f, m !! (d, b_SHA b) = Some f /\ b_CreatedAt b = fl_mtime f /\
              HasSuffix (b_SHA b) ".partial" = false.

Lemma walk_listed m l acc s blobs :
  Forall (listed m) acc -> (forall k f, (k, f) ∈ l -> m !! k = Some f) ->
  fst (walk l acc s) = Ok blobs -> Forall (listed m) blobs.
Proof.
  revert acc s. induction l as [|[[d n] f] l IH]; intros acc s Hacc Hl Hw; cbn [walk] in Hw.
  { by injection Hw as <-. }
  assert (forall k f, (k, f) ∈ l -> m !! k = Some f) as Hl' by (intros k g Hk; apply Hl; by right).
  destruct (HasSuffix n ".partial") eqn:Es; [by eapply IH|].
  unfold try in Hw. destruct (os_call "lstat" _ s) as [[i|e] s'] eqn:E.
  - apply (IH _ _) in Hw; [done| |done]. apply Forall_app. split; [done|]. constructor; [|done].
    unfold os_call, bind, os_fault, ret, throw in E.
    assert (i = MkBlobInfo n (Z.of_nat (length (fl_data f))) (fl_mtime f)) as ->.
    { destruct (os_faults s) as [|[[]|]]; cbn in E; congruence. }
    exists d, f. split; [apply Hl; by left|done].
  - destruct (IsNotExist e); [|done]. by injection Hw as <-.
Qed.

Lemma List_listed s blobs : fst (List s) = Ok blobs -> Forall (listed (f_files s)) blobs.
Proof.
  unfold List, try. destruct (os_call "open" (ret tt) s) as [[u|e] s'] eqn:E.
  - intros Hw. assert (f_files s' = f_files s) as Hs.
    { unfold os_call, bind, os_fault, ret, throw in E. destruct (os_faults s) as [|[[]|]]; cbn in E; by simplify_eq. }
    rewrite <- Hs. eapply walk_listed; [constructor| |exact Hw].
    intros k f Hk. apply elem_of_sorted in Hk. by apply elem_of_map_to_list.
  - destruct (IsNotExist e); [|done]. intros [= <-]. constructor.
Qed.

Lemma GC_removes c refs age s k f :
  blob_ok (f_files s) -> f_files s !! k = Some f ->
  let m := f_files (snd (GC c refs age s)) in
  m !! k = Some f \/
  (m !! k = None /\ exists sha, k = path sha /\ validateSHA sha = None /\ sha ∉ refs /\
                    fl_mtime f <= clock (os_tick s) - age).
Proof.
  intros Hok Hk m. unfold m.
  destruct (GC_collects c refs age s) as (blobs & [[Hl [Hsub Hrem]]| ->]); [|by left].
  destruct (f_files (snd (GC c refs age s)) !! k) as [g|] eqn:E.
  - left. rewrite <- Hk. symmetry. by eapply lookup_weaken in E.
  - right. split; [done|].
    destruct (Hrem k ltac:(eauto) E) as (b & Hb & -> & Hv & Href & Hold).
    apply List_listed in Hl. rewrite Forall_forall in Hl. destruct (Hl b Hb) as (d & g & Hg & Ht & _).
    exists (b_SHA b). split_and!; try done.
    destruct (Hok _ _ _ Hg Hv) as [-> _]. change (f_files (snd (os_now s))) with (f_files s) in Hg.
    unfold path in Hk. rewrite Hk in Hg. injection Hg as ->. lia.
Qed.

Lemma Get_sound sha s data :
  fst (Get sha s) = Ok data ->
  validateSHA sha = None /\ exists f, f_files s !! path sha = Some f /\ fl_data f = data.
Proof.
  unfold Get, checked. destruct (validateSHA sha); [done|]. unfold open_blob, try.
  pose proof (triple_os_Open (path sha) (fun m => m = f_files s) s eq_refl) as H.
  destruct (os_Open (path sha) s) as [[d|e] s']; cbn in *.
  - intros [= <-]. destruct H as [<- H]. done.
  - by destruct (IsNotExist e).
Qed.

(** ** References *)
Lemma elem_of_add_refs sha l refs :
  sha ∈ add_refs l refs <->
  sha ∈ refs \/ exists f, f ∈ l /\ fs_SHA256 f = Some sha /\ sha <> "".
Proof.
  unfold add_refs. revert refs. induction l as [|f l IH]; intros refs; cbn [foldl].
  { split; [by left|]. intros [H|(f & Hf & _)]; [done|by apply elem_of_nil in Hf]. }
  rewrite IH. setoid_rewrite elem_of_cons.
  destruct (fs_SHA256 f) as [s|] eqn:E; [case_bool_decide|]; set_solver.
Qed.

Lemma collect_pairs_eq t n l refs :
  collect_pairs l refs (MkStore t [] n) =
  (Ok (foldl (fun refs ps => add_refs (files_of ps.1 ps.2 t) refs) refs l), MkStore t [] n).
Proof. revert refs. induction l as [|[id side] l IH]; intros refs; [done|]. apply IH. Qed.

Lemma elem_of_sides ps (pairs : list SyncPair) :
  ps ∈ concat (map (fun p => [(p_ID p, "a"); (p_ID p, "b")]) pairs) <->
  exists p, p ∈ pairs /\ ps.1 = p_ID p /\ (ps.2 = "a" \/ ps.2 = "b").
Proof.
  destruct ps as [id side]. induction pairs as [|p pairs IH]; cbn.
  { split; [by intros ?%elem_of_nil|]. intros (p & Hp & _). by apply elem_of_nil in Hp. }
  rewrite !elem_of_cons, IH. setoid_rewrite elem_of_cons. cbn. naive_solver.
Qed.

Lemma collectReferencedSHAs_eq t n :
  tables_ok t ->
  exists refs, collectReferencedSHAs (MkStore t [] n) = (Ok refs, MkStore t [] n) /\
    forall sha, sha ∈ refs <-> sha <> "" /\
      exists pid side rel f, t_files t !! (pid, side, rel) = Some f /\
        (side = "a" \/ side = "b") /\ fs_SHA256 f = Some sha.
Proof.
  intros Hok. set (pairs := sort_pairs (map_to_list (t_pairs t)).*2).
  assert (forall id p, t_pairs t !! id = Some p -> p ∈ pairs /\ p_ID p = id) as Hpairs.
  { intros id p Hp. split; [|by apply (ok_pair_key t Hok)]. unfold pairs, sort_pairs.
    apply elem_of_sorted, list_elem_of_fmap. exists (id, p). split; [done|].
    by apply elem_of_map_to_list. }
  unfold collectReferencedSHAs.
  assert (ListPairs (MkStore t [] n) = (Ok pairs, MkStore t [] n)) as El by done.
  unfold bind. rewrite El, collect_pairs_eq. eexists. split; [done|]. intros sha.
  set (l := concat _).
  assert (forall refs, sha ∈ foldl (fun refs ps => add_refs (files_of ps.1 ps.2 t) refs) refs l <->
    sha ∈ refs \/ exists ps f, ps ∈ l /\ t_files t !! (ps.1, ps.2, fs_RelPath f) = Some f /\
      fs_SHA256 f = Some sha /\ sha <> "") as Hl.
  { clearbody l. induction l as [|ps l IH]; intros refs; cbn [foldl].
    - split; [by left|]. intros [H|(ps & f & Hps & _)]; [done|by apply elem_of_nil in Hps].
    - rewrite IH, elem_of_add_refs. setoid_rewrite elem_of_cons.
      setoid_rewrite elem_of_files_of; [|done]. naive_solver. }
  rewrite Hl. unfold l. setoid_rewrite elem_of_sides. split.
  - intros [?%elem_of_empty|(ps & f & (p & _ & _ & Hside) & Hf & Hs & Hne)]; [done|].
    split; [done|]. by exists ps.1, ps.2, (fs_RelPath f), f.
  - intros [Hne (pid & side & rel & f & Hf & Hside & Hs)]. right.
    pose proof (ok_file_key t Hok _ _ Hf) as Hk. injection Hk as _ _ <-.
    destruct (ok_file_pair t Hok _ _ Hf) as [p Hp].
    exists (pid, side), f. split_and!; [|done..]. exists p.
    pose proof (ok_file_key t Hok _ _ Hf) as Hk. injection Hk as Hpid _.
    rewrite Hpid in Hp. by destruct (Hpairs _ _ Hp) as [Hin ->].
Qed.

(** *** Claims *)

(** C6. Content addressing: from an empty store, whatever methods are called, with
    whatever bodies, and whichever operating-system calls fail at whatever byte, a
    name that is a hash only ever holds the content with that hash, in its own
    directory; so what [Get] returns always hashes to the name asked for. *)
Theorem blobs_match_their_names calls d faults n :
  let s := snd (for_each calls run_blob_call (MkFs ∅ d faults n)) in
  blob_ok (f_files s) /\
  (forall sha data, fst (Get sha s) = Ok data -> sha_hex data = ToLower sha).
Proof.
  intros s. assert (blob_ok (f_files s)) as Hok.
  { apply (preserves_for_each (fun s => blob_ok (f_files s))).
    - intros c _. apply run_blob_call_ok.
    - intros k nm f Hf. cbn in Hf. by rewrite lookup_empty in Hf. }
  split; [done|]. intros sha data (Hv & f & Hf & <-)%Get_sound. by apply (Hok _ _ _ Hf).
Qed.

(** C33. [Put] is all or nothing, whichever calls fail: if it reports success either the
    blob was already there and nothing changed, or the blob now holds exactly the
    body, which came to its end, has the announced size and hashes to the name; if it
    reports an error no complete blob has changed, only this upload's partial file. *)
Theorem put_all_or_nothing sha r n s :
  let '(res, s') := Put sha r n s in
  match res with
  | Ok _ =>
      (is_Some (f_files s !! path sha) /\ f_files s' = f_files s) \/
      ((exists f, f_files s' !! path sha = Some f /\ fl_data f = rd_data r /\
          sha_hex (rd_data r) = ToLower sha /\ rd_err r = None /\
          (0 < n -> Z.of_nat (length (rd_data r)) = n)) /\
       forall k, k <> partialPath sha -> k <> path sha -> f_files s' !! k = f_files s !! k)
  | Err _ => forall k, k <> partialPath sha -> f_files s' !! k = f_files s !! k
  end.
Proof.
  destruct (validateSHA sha) eqn:Hv; [unfold Put, checked; rewrite Hv; by cbn|].
  pose proof (triple_Put sha (f_files s) Hv r n s eq_refl) as H.
  destruct (Put sha r n s) as [[[]|e] s']; cbn in H; [|naive_solver].
  destruct H as [(_ & H1 & H2)|(_ & (f & Hf & (Hd & Hr & Hn) & Hsha) & Hk)]; [by left|right].
  split; [|done]. exists f. rewrite Hd in *. done.
Qed.

(** Without failures [Put] stores a body whose hash is the name, in either case of
    its letters, and [Get] and every [GetRange] then return exactly its bytes; a body
    of another size or another hash is refused with the error for it, and leaves
    neither a blob nor a partial file. *)
Theorem put_then_get sha data n m d t :
  validateSHA sha = None -> m !! path sha = None ->
  let '(res, s) := Put sha (whole data) n (calm m d t) in
  if (0 <? n) && negb (Z.of_nat (length data) =? n) then
    res = Err ErrSizeMismatch /\ f_files s = delete (partialPath sha) m
  else if bool_decide (sha_hex data = ToLower sha) then
    res = Ok tt /\ fst (Get sha s) = Ok data /\
    (forall off len, 0 <= off -> fst (GetRange sha off len s) =
       Ok (limit_reader len (drop (Z.to_nat off) data)))
  else res = Err ErrSHAMismatch /\ f_files s = delete (partialPath sha) m.
Proof.
  intros Hv Hnew. destruct (Put_eq sha data n m d t Hv Hnew) as (f & d' & t' & Hf & ->).
  destruct (_ && _); [done|]. case_bool_decide; cbn [negb]; [|done].
  split; [done|]. rewrite Get_eq, lookup_insert_eq by done. split; [by rewrite Hf|].
  intros off len Hoff. unfold GetRange, checked. rewrite Hv.
  unfold bind at 1, open_blob, try, os_Open, os_call, os_fault. unfold bind at 1. cbn [calm os_faults f_files].
  rewrite lookup_insert_eq. fold (calm (<[path sha:=f]> (delete (partialPath sha) m)) d' t').
  change (MkFs ?m ?d [] ?t) with (calm m d t).
  unfold bind, wrapped. cbn -[os_Seek]. rewrite Seek_calm by done. by rewrite Hf.
Qed.

(** A resumed upload: a body cut into any non-empty chunks and sent in order, each
    at its offset, over a partial file that is absent or empty, is stored whole by the
    last chunk, and read back whole. *)
Theorem chunked_upload_stores sha chunks m d t :
  validateSHA sha = None -> partial_data m sha = [] ->
  chunks <> [] -> Forall (fun c => c <> []) chunks ->
  Z.of_nat (length (concat chunks)) <= int64_max -> sha_hex (concat chunks) = ToLower sha ->
  let '(res, s) := upload_chunks sha 0 chunks (Z.of_nat (length (concat chunks))) (calm m d t) in
  res = Ok tt /\ fst (Get sha s) = Ok (concat chunks).
Proof.
  intros Hv Hp Hne Hall Hmax Hsha.
  destruct (upload_chunks_eq sha chunks m d t [] Hv Hp Hne Hall Hmax Hsha) as (f & d' & t' & Hf & E).
  cbn [app length] in E, Hf. change (Z.of_nat 0) with 0 in E. rewrite E. split; [done|].
  by rewrite Get_eq, lookup_insert_eq, Hf.
Qed.

(** Garbage collection with the references of the store never loses content a file
    state names: whatever it is called with and whichever calls fail, a blob that the
    row of side "a" or "b" of some pair refers to is still there with its content,
    and so is every blob not older than the limit; partial files are never touched. *)
Lemma collector_keeps tbl k c age refs s' s :
  tables_ok tbl -> blob_ok (f_files s) ->
  collectReferencedSHAs (MkStore tbl [] k) = (Ok refs, s') ->
  let m := f_files (snd (GC c refs age s)) in
  (forall pid side rel row sha f,
     t_files tbl !! (pid, side, rel) = Some row -> side = "a" \/ side = "b" ->
     fs_SHA256 row = Some sha -> sha <> "" ->
     f_files s !! path sha = Some f -> m !! path sha = Some f) /\
  (forall key f, f_files s !! key = Some f -> clock (os_tick s) - age < fl_mtime f ->
     m !! key = Some f) /\
  (forall sha f, f_files s !! partialPath sha = Some f -> m !! partialPath sha = Some f).
Proof.
  intros Hok Hb Hrefs m. destruct (collectReferencedSHAs_eq tbl k Hok) as (refs' & E & Hin).
  rewrite Hrefs in E. injection E as <- _.
  split_and!.
  - intros pid side rel row sha f Hrow Hside Hsha Hne Hf.
    destruct (GC_removes c refs age s _ f Hb Hf) as [H|(_ & sha' & Hp & _ & Hnot & _)]; [done|].
    apply path_inj in Hp as <-. destruct Hnot. apply Hin. split; [done|]. by exists pid, side, rel, row.
  - intros key f Hf Hage.
    destruct (GC_removes c refs age s _ f Hb Hf) as [H|(_ & sha' & _ & _ & _ & Hold)]; [done|lia].
  - intros sha f Hf.
    destruct (GC_removes c refs age s _ f Hb Hf) as [H|(_ & sha' & Hp & Hv & _)]; [done|].
    by destruct (path_ne_partial sha' sha Hv).
Qed.

(** An upload of content that is already stored reports success and does not make
    the blob any younger: one old enough and not yet referenced is collected right
    after the client was told it is stored. *)
Theorem reupload_does_not_protect sha r n m d t f age :
  validateSHA sha = None -> m !! path sha = Some f -> fl_mtime f <= clock t - age ->
  (forall k, is_Some (m !! k) -> k = path sha) ->
  let '(res, s) := Put sha r n (calm m d t) in
  res = Ok tt /\ fst (Has sha s) = Ok true /\
  fst (Get sha (snd (GC (fun _ => None) ∅ age s))) = Err ErrNotFound.
Proof.
  intros Hv Hf Hold Honly.
  assert (Put sha r n (calm m d t) = (Ok tt, calm m d t)) as ->.
  { unfold Put, checked. rewrite Hv. unfold try. by rewrite Stat_calm, Hf. }
  split; [done|]. split.
  { unfold Has, checked. rewrite Hv. unfold try. by rewrite Stat_calm, Hf. }
  assert (m = {[path sha := f]}) as ->.
  { apply map_eq. intros k. rewrite lookup_singleton. case_decide as Hk; [by subst k|].
    apply eq_None_not_Some. intros Hs. apply Hk. by rewrite (Honly k Hs). }
  assert (HasSuffix sha ".partial" = false) as Hsuf.
  { apply not_true_iff_false. rewrite HasSuffix_spec. intros [x Hx].
    by eapply partial_not_sha. }
  set (m := {[path sha := f]}).
  assert (fst (List (calm m d (S t))) = Ok [MkBlobInfo sha (Z.of_nat (length (fl_data f))) (fl_mtime f)] /\
          snd (List (calm m d (S t))) = calm m d (S t)) as [El Es].
  { unfold List, try, os_call, os_fault, bind, calm. cbn [os_faults f_files ret throw].
    unfold m. rewrite map_to_list_singleton. cbn. rewrite Hsuf. done. }
  unfold GC, bind, os_now, try. cbn [calm f_files f_dirs os_faults os_tick].
  fold (calm m d (S t)). destruct (List (calm m d (S t))) as [lr ls]. cbn in El, Es. subst lr ls.
  cbn [gc_loop]. rewrite bool_decide_false by set_solver. cbn [b_CreatedAt b_SHA].
  destruct (Z.ltb_spec (clock t - age) (fl_mtime f)) as [|_]; [lia|].
  unfold try. rewrite (Delete_eq _ _ _ _ f) by (done || apply lookup_singleton_eq).
  cbn [fst snd ret gc_loop]. by rewrite Get_eq, lookup_delete_eq.
Qed.
End Spec.

(** *** Witnesses *)
Section Witnesses.
Local Instance ticking : Clock := fun n => Z.of_nat n.

(* "abc", and its hash with some letters in upper case *)
Definition abc : bytes := [97; 98; 99].
Definition abc_sha : string := "ba7816bf8f01cfea414140de5dae2223b00361a396177a9cb410ff61f20015ad".
Definition ABC_sha : string := "BA7816BF8F01CFEA414140de5dae2223b00361a396177a9cb410ff61f20015ad".

Lemma put_then_get_witness :
  fst (Put ABC_sha (whole abc) 3 (calm ∅ ∅ 0)) = Ok tt.
Proof.
  pose proof (put_then_get ABC_sha abc 3 ∅ ∅ 0 ltac:(vm_compute; reflexivity)
    ltac:(vm_compute; reflexivity)) as H.
  assert (sha_hex abc = ToLower ABC_sha) as E by (vm_compute; reflexivity).
  destruct (Put ABC_sha (whole abc) 3 (calm ∅ ∅ 0)) as [res s].
  rewrite (bool_decide_true _ E) in H. by destruct H as [-> _].
Defined.

Lemma chunked_upload_stores_witness :
  fst (upload_chunks abc_sha 0 [[97]; [98; 99]] 3 (calm ∅ ∅ 0)) = Ok tt.
Proof.
  pose proof (chunked_upload_stores abc_sha [[97]; [98; 99]] ∅ ∅ 0 ltac:(vm_compute; reflexivity)
    ltac:(vm_compute; reflexivity) ltac:(done) ltac:(repeat constructor; done)
    ltac:(vm_compute; discriminate) ltac:(vm_compute; reflexivity)) as H.
  cbn [concat app length] in H. change (Z.of_nat 3) with 3 in H.
  destruct (upload_chunks abc_sha 0 _ 3 (calm ∅ ∅ 0)) as [res s]. by destruct H as [-> _].
Defined.

Definition stored_abc : files := {[path abc_sha := MkFile abc 0]}.
Definition abc_row : FileState := MkFileState "p1" "a" "f" (Some abc_sha) (Some 3) None 1 "write" false.

Lemma stored_abc_ok : blob_ok stored_abc.
Proof.
  intros d n f. unfold stored_abc. rewrite lookup_singleton. case_decide as Hk; [|done].
  intros [= <-] _. injection Hk as <- <-. split; [reflexivity|vm_compute; reflexivity].
Qed.

(* a and b exist, the pair has one row *)
Definition demo_tables : tables :=
  db (snd (for_each
    [CallUpsertClient (MkClient "a" "a" "h" "" "" "" "online" 0 0 0 0);
     CallUpsertClient (MkClient "b" "b" "h" "" "" "" "online" 0 0 0 0);
     CallUpsertPair (MkSyncPair "p1" "docs" "a" "x" "b" "y" "a_to_b" true 0 0 0);
     CallUpsertFileState abc_row] run_call (MkStore empty_tables [] 0))).

Definition abc_refs : gset string := {[abc_sha]}.

Lemma reupload_does_not_protect_witness :
  fst (Put abc_sha (whole abc) 3 (calm stored_abc ∅ 100)) = Ok tt.
Proof.
  pose proof (reupload_does_not_protect abc_sha (whole abc) 3 stored_abc ∅ 100 (MkFile abc 0) 50
    ltac:(vm_compute; reflexivity) (lookup_singleton_eq _ _) ltac:(vm_compute; discriminate)) as H.
  destruct (Put abc_sha (whole abc) 3 (calm stored_abc ∅ 100)) as [res s].
  destruct H as [-> _]; [|reflexivity].
  intros k [x Hx]. unfold stored_abc in Hx. rewrite lookup_singleton in Hx.
  by case_decide.
Defined.
End Witnesses.
