(* ===== verification/Http.v ===== *)
(** Requests and responses, and the middleware of internal/server/http/middleware.go:
    bearer authentication, protocol version, basic authentication and CSRF.

    A handler is a program on the server's state that returns a response; what it
    passes to the next handler in the request's context is a field of the request.
    [h_get] is [http.Header.Get]: the first value of a canonical key, or "".  The access
    log is not modelled. *)
From S2P Require Import Prelude GoStrings Json Proto Store BlobStore.
From Stdlib Require Import Ascii.
Local Open Scope Z_scope.
Local Open Scope go_scope.

Record request : Type := MkRequest {
  rq_Method : string;
  rq_Path : string;                  (* r.URL.Path *)
  rq_Header : list (string * string);
  rq_ContentLength : Z;              (* -1 when unknown *)
  rq_Body : reader;
  rq_Cookie : option string;         (* the CSRF cookie's value *)
  rq_Form : option (string -> string); (* PostFormValue, None when ParseForm fails *)
  rq_Basic : option (string * string); (* r.BasicAuth *)
  rq_ClientID : string;              (* ctxKeyClientID *)
  rq_CSRF : string                   (* csrfCtxKey *)
}.

Inductive body : Type :=
| NoBody
| BodyText (s : string)              (* http.Error *)
| BodyJSON (j : json)                (* json.NewEncoder(w).Encode *)
| BodyBytes (d : bytes).

Record response : Type := MkResponse {
  rp_Status : Z;
  rp_Header : list (string * string);
  rp_Body : body
}.

Fixpoint h_get (h : list (string * string)) (k : string) : string :=
  match h with
  | [] => ""
  | (k', v) :: h' => if bool_decide (k' = k) then v else h_get h' k
  end.

Definition Header (r : request) (k : string) : string := h_get (rq_Header r) k.

Definition StatusOK := 200.
Definition StatusCreated := 201.
Definition StatusPartialContent := 206.
Definition StatusBadRequest := 400.
Definition StatusUnauthorized := 401.
Definition StatusForbidden := 403.
Definition StatusNotFound := 404.
Definition StatusMethodNotAllowed := 405.
Definition StatusLengthRequired := 411.
Definition StatusRequestEntityTooLarge := 413.
Definition StatusRequestedRangeNotSatisfiable := 416.
Definition StatusUnprocessableEntity := 422.
Definition StatusUpgradeRequired := 426.
Definition StatusInternalServerError := 500.
Definition StatusBadGateway := 502.
Definition StatusServiceUnavailable := 503.
Definition StatusGatewayTimeout := 504.
Definition StatusInsufficientStorage := 507.

(** [http.Error] *)
Definition http_Error (text : string) (code : Z) : response :=
  MkResponse code [("Content-Type", "text/plain; charset=utf-8")] (BodyText text).

(** The state of the server its HTTP handlers work on. *)
Record server (B : Type) : Type := MkServer { sv_store : store; sv_blobs : B }.
Arguments MkServer {B} _ _.
Arguments sv_store {B} _.
Arguments sv_blobs {B} _.

Definition with_client (r : request) (id : string) : request :=
  MkRequest (rq_Method r) (rq_Path r) (rq_Header r) (rq_ContentLength r) (rq_Body r) (rq_Cookie r)
    (rq_Form r) (rq_Basic r) id (rq_CSRF r).
Definition with_csrf (r : request) (tok : string) : request :=
  MkRequest (rq_Method r) (rq_Path r) (rq_Header r) (rq_ContentLength r) (rq_Body r) (rq_Cookie r)
    (rq_Form r) (rq_Basic r) (rq_ClientID r) tok.

Section Http.
Context {B : Type} {clk : Clock}.

Definition in_store {A} (m : M store A) : M (server B) A := fun w =>
  let '(r, s) := m (sv_store w) in (r, MkServer s (sv_blobs w)).
Definition in_blobs {A} (m : M B A) : M (server B) A := fun w =>
  let '(r, b) := m (sv_blobs w) in (r, MkServer (sv_store w) b).

Notation handler := (request -> M (server B) response).

(** [_ = s.AppendAuditLog(...)] *)
Definition http_audit (kind : string) (clientID detail : option string) : M (server B) unit :=
  t <- in_store now;;
  _ <-? in_store (AppendAuditLog (MkAuditEntry t kind clientID None None detail));;
  ret tt.

(** ** Bearer token *)
Definition extractBearer (header : string) : string :=
  if HasPrefix header "Bearer " then TrimPrefix header "Bearer " else "".

Definition AuthBearer (psk : string) (next : handler) : handler := fun r =>
  let token := extractBearer (Header r "Authorization") in
  if negb (bool_decide (token = psk)) then
    http_audit "psk_auth_failed" None None;;
    ret (http_Error "unauthorized" StatusUnauthorized)
  else next r.

Definition AuthBearerWithClientID (psk : string) (next : handler) : handler := fun r =>
  let token := extractBearer (Header r "Authorization") in
  if negb (bool_decide (token = psk)) then
    http_audit "psk_auth_failed" None None;;
    ret (http_Error "unauthorized" StatusUnauthorized)
  else next (with_client r (Header r "X-Axion-Client-Id")).

(** ** Protocol version *)
Definition major (v : string) : string := hd "" (SplitN2 v "."%char).

Definition protoVersionCompatible (client server : string) : bool :=
  bool_decide (major client = major server) && negb (bool_decide (major client = "")).

Definition ProtoVersionHeader (next : handler) : handler := fun r =>
  if negb (protoVersionCompatible (Header r "Axion-Proto-Version") ProtoVersion) then
    http_audit "proto_version_mismatch" None None;;
    ret (http_Error "proto version mismatch" StatusUpgradeRequired)
  else next r.

(** ** Basic authentication ([subtle.ConstantTimeCompare] is equality) *)
Definition basic_denied : response :=
  let e := http_Error "Unauthorized" StatusUnauthorized in
  MkResponse (rp_Status e)
    (("WWW-Authenticate", "Basic realm=" +:+ dquote +:+ "axion admin" +:+ dquote) :: rp_Header e)
    (rp_Body e).

Definition BasicAuth (adminUser adminPassword : string) (next : handler) : handler :=
  if bool_decide (adminUser = "") || bool_decide (adminPassword = "") then next
  else fun r =>
    match rq_Basic r with
    | None => ret basic_denied
    | Some (user, pass) =>
        if negb (bool_decide (user = adminUser)) || negb (bool_decide (pass = adminPassword))
        then ret basic_denied
        else next r
    end.

(** ** CSRF: the double-submit cookie

    [fresh] is the token [readOrIssueToken] makes of 32 random bytes. *)
Definition readOrIssueToken (fresh : string) (r : request) : string * list (string * string) :=
  match rq_Cookie r with
  | Some v => if negb (bool_decide (v = "")) then (v, [])
              else (fresh, [("Set-Cookie", "axion_csrf=" +:+ fresh)])
  | None => (fresh, [("Set-Cookie", "axion_csrf=" +:+ fresh)])
  end.

Definition safe_method (m : string) : bool :=
  bool_decide (m = "GET") || bool_decide (m = "HEAD") || bool_decide (m = "OPTIONS").

(** The header, or else the form field when the form can be parsed. *)
Definition submitted_token (r : request) : string :=
  let submitted := Header r "X-Csrf-Token" in
  if bool_decide (submitted = "")
  then match rq_Form r with Some form => form "_csrf" | None => submitted end
  else submitted.

Definition add_headers (h : list (string * string)) (p : response) : response :=
  MkResponse (rp_Status p) (h ++ rp_Header p) (rp_Body p).

Definition CSRF (fresh : string) (next : handler) : handler := fun r =>
  let '(token, set) := readOrIssueToken fresh r in
  let r := with_csrf r token in
  if safe_method (rq_Method r) then p <- next r;; ret (add_headers set p)
  else
    let submitted := submitted_token r in
    if bool_decide (submitted = "") || negb (bool_decide (submitted = token))
    then ret (add_headers set (http_Error "CSRF token mismatch" StatusForbidden))
    else p <- next r;; ret (add_headers set p).
End Http.
