(* ===== verification/HttpBlobs.v ===== *)
(** internal/server/http/blobs.go: PUT, GET, HEAD and ranges on /v1/blobs/{sha}.

    The handler knows the blob store through its interface, the class [BlobStoreI]; the
    file-system store is its instance.  A request body is what net/http delivers: at
    most [Content-Length] bytes, and an error when the connection ends before. *)
From S2P Require Import Prelude GoStrings Json Proto Store BlobStore Http.
From Stdlib Require Import Ascii.
Local Open Scope Z_scope.
Local Open Scope go_scope.

(** ** The [BlobStore] interface (store.go) *)
Class BlobStoreI (B : Type) := {
  bs_Has : string -> M B bool;
  bs_Stat : string -> M B (Z * Z);
  bs_Put : string -> reader -> Z -> M B unit;
  bs_PutRange : string -> Z -> reader -> Z -> M B unit;
  bs_Get : string -> M B bytes;
  bs_GetRange : string -> Z -> Z -> M B bytes
}.

#[export] Instance fs_blobstore `{!Clock} : BlobStoreI fs := {|
  bs_Has := Has; bs_Stat := Stat; bs_Put := Put; bs_PutRange := PutRange;
  bs_Get := Get; bs_GetRange := GetRange
|}.

(** ** Range headers *)
Definition parseRangeHeader (header : string) : result (Z * Z) :=
  if negb (HasPrefix header "bytes=") then Err (Errorf ("unsupported range unit: " +:+ Quote header))
  else match SplitN2 (TrimPrefix header "bytes=") "-"%char with
  | [a; b] =>
      match ParseInt a with
      | None => Err (Wrap "invalid range offset" (ParseInt_error a))
      | Some offset =>
          if bool_decide (b = "") then Ok (offset, -1)
          else match ParseInt b with
          | None => Err (Wrap "invalid range end" (ParseInt_error b))
          | Some last => Ok (offset, wrap64 (last - offset + 1))
          end
      end
  | _ => Err (Errorf ("invalid range: " +:+ Quote header))
  end.

Definition parseContentRange (header : string) : result (Z * Z) :=
  if negb (HasPrefix header "bytes ")
  then Err (Errorf ("unsupported content-range unit: " +:+ Quote header))
  else match cut "/"%char (TrimPrefix header "bytes ") with
  | None => Err (Errorf ("invalid content-range: " +:+ Quote header))
  | Some (rangePart, totalPart) =>
      match SplitN2 rangePart "-"%char with
      | [a; _] =>
          match ParseInt a with
          | None => Err (Wrap "invalid content-range offset" (ParseInt_error a))
          | Some offset =>
              match ParseInt totalPart with
              | None => Err (Wrap "invalid content-range total" (ParseInt_error totalPart))
              | Some totalSize => Ok (offset, totalSize)
              end
          end
      | _ => Err (Errorf ("invalid content-range range: " +:+ Quote header))
      end
  end.

(** [writeError] *)
Definition writeError (code : Z) (e : error) : response :=
  MkResponse code [("Content-Type", "application/json")] (BodyJSON (JObj [("error", JStr (error_text e))])).

Definition status (code : Z) : response := MkResponse code [] NoBody.

Definition isDiskFullError (e : error) : bool :=
  match errors_As_PathError e with
  | Some en => bool_decide (en = "ENOSPC")
  | None => false
  end.

Section Blobs.
Context {B : Type} `{!BlobStoreI B} {clk : Clock}.
Context (maxFileSizeBytes perClientQuota : Z).
Notation S := (server B).

(** ** Quota *)
Definition add_sizes (states : list FileState) (total : Z) : Z :=
  foldl (fun total st => match fs_Size st with
                         | Some n => wrap64 (total + n)
                         | None => total
                         end) total states.

Fixpoint sum_pairs (clientID : string) (pairs : list SyncPair) (total : Z) : M store Z :=
  match pairs with
  | [] => ret total
  | p :: pairs' =>
      let side := if bool_decide (p_ClientBID p = clientID) then "b" else "a" in
      states <- ListFileStates (p_ID p) side;;
      sum_pairs clientID pairs' (add_sizes states total)
  end.

Definition computeClientUsage (clientID : string) : M store Z :=
  pairs <- ListPairsForClient clientID;;
  sum_pairs clientID pairs 0.

Definition auditQuotaExceeded (clientID sha : string) (used requested limit : Z) : M S unit :=
  http_audit "quota_exceeded" (Some clientID)
    (Some (json_text (JObj [("limit", JNum limit); ("requested", JNum requested);
                            ("sha", JStr sha); ("used", JNum used)]))).

Definition auditDiskFull (clientID sha : string) : M S unit :=
  http_audit "disk_full" (Some clientID)
    (Some ("{" +:+ dquote +:+ "sha" +:+ dquote +:+ ":" +:+ Quote sha +:+ "}")).

(** ** Handlers *)
Definition handlePutError (e : error) (clientID sha : string) : M S response :=
  if errors_Is e ErrSHAMismatch || errors_Is e ErrSizeMismatch
  then ret (writeError StatusUnprocessableEntity e)
  else if errors_Is e ErrIncomplete then ret (writeError StatusPartialContent e)
  else if isDiskFullError e then
    auditDiskFull clientID sha;; ret (writeError StatusInsufficientStorage e)
  else ret (writeError StatusInternalServerError e).

Definition handleHEAD (r : request) (sha : string) : M S response :=
  h <-? in_blobs (bs_Has sha);;
  match h with
  | Err e => ret (writeError StatusBadRequest e)
  | Ok false => ret (status StatusNotFound)
  | Ok true =>
      st <-? in_blobs (bs_Stat sha);;
      let size := match st with Ok (n, _) => n | Err _ => 0 end in
      ret (MkResponse StatusOK [("Content-Length", FormatInt size)] NoBody)
  end.

(** The body is stored, whole or a range of it. *)
Definition store_body (r : request) (sha : string) : M S response :=
  let cr := Header r "Content-Range" in
  if negb (bool_decide (cr = "")) then
    match parseContentRange cr with
    | Err e => ret (writeError StatusBadRequest e)
    | Ok (offset, totalSize) =>
        p <-? in_blobs (bs_PutRange sha offset (rq_Body r) totalSize);;
        match p with
        | Err e => handlePutError e (rq_ClientID r) sha
        | Ok _ => ret (status StatusCreated)
        end
    end
  else
    p <-? in_blobs (bs_Put sha (rq_Body r) (rq_ContentLength r));;
    match p with
    | Err e => handlePutError e (rq_ClientID r) sha
    | Ok _ => ret (status StatusCreated)
    end.

Definition handlePUT (r : request) (sha : string) : M S response :=
  let clientID := rq_ClientID r in
  let contentLength := rq_ContentLength r in
  if contentLength <=? 0 then
    ret (writeError StatusLengthRequired (Errorf "Content-Length required"))
  else if maxFileSizeBytes <? contentLength then
    ret (writeError StatusRequestEntityTooLarge
      (Errorf ("file too large: size=" +:+ FormatInt contentLength +:+ " limit=" +:+ FormatInt maxFileSizeBytes)))
  else
    u <-? in_store (computeClientUsage clientID);;
    match u with
    | Err e => ret (writeError StatusInternalServerError e)
    | Ok used =>
        if perClientQuota <? wrap64 (used + contentLength) then
          auditQuotaExceeded clientID sha used contentLength perClientQuota;;
          ret (writeError StatusInsufficientStorage
            (Errorf ("quota exceeded: used=" +:+ FormatInt used +:+ " limit=" +:+ FormatInt perClientQuota)))
        else store_body r sha
    end.

Definition blob_size (sha : string) : M S Z :=
  st <-? in_blobs (bs_Stat sha);;
  ret (match st with Ok (n, _) => n | Err _ => 0 end).

Definition get_error (e : error) : response :=
  if errors_Is e ErrNotFound then status StatusNotFound else writeError StatusInternalServerError e.

Definition content_range (offset last size : Z) : string :=
  "bytes " +:+ FormatInt offset +:+ "-" +:+ FormatInt last +:+ "/" +:+ FormatInt size.

Definition handleGET (r : request) (sha : string) : M S response :=
  let rangeHeader := Header r "Range" in
  if bool_decide (rangeHeader = "") then
    rc <-? in_blobs (bs_Get sha);;
    match rc with
    | Err e => ret (get_error e)
    | Ok data =>
        size <- blob_size sha;;
        ret (MkResponse StatusOK
          [("Content-Length", FormatInt size); ("Content-Type", "application/octet-stream")]
          (BodyBytes data))
    end
  else match parseRangeHeader rangeHeader with
  | Err e => ret (writeError StatusRequestedRangeNotSatisfiable e)
  | Ok (offset, length) =>
      rc <-? in_blobs (bs_GetRange sha offset length);;
      match rc with
      | Err e => ret (get_error e)
      | Ok data =>
          size <- blob_size sha;;
          let last := if length <? 0 then wrap64 (size - 1) else wrap64 (offset + length - 1) in
          ret (MkResponse StatusPartialContent
            ([("Content-Type", "application/octet-stream");
              ("Content-Range", content_range offset last size)] ++
             (if 0 <=? length then [("Content-Length", FormatInt length)] else []))
            (BodyBytes data))
      end
  end.

Definition ServeBlobs (r : request) : M S response :=
  let sha := TrimPrefix (rq_Path r) "/v1/blobs/" in
  if bool_decide (sha = "") then ret (writeError StatusBadRequest (Errorf "sha required"))
  else if bool_decide (rq_Method r = "HEAD") then handleHEAD r sha
  else if bool_decide (rq_Method r = "PUT") then handlePUT r sha
  else if bool_decide (rq_Method r = "GET") then handleGET r sha
  else ret (status StatusMethodNotAllowed).

(** The route, behind its middleware (router.go). *)
Definition blobs_route (psk : string) : request -> M S response :=
  AuthBearerWithClientID psk ServeBlobs.
End Blobs.
