(* ===== verification/HttpSpec.v ===== *)
(** The HTTP surface: who gets past the middleware, what an upload and a download over
    /v1/blobs return, quotas and ranges. *)
From S2P Require Import Prelude GoStrings Json Proto Store StoreFacts Sha256 BlobStore BlobFacts BlobSpec Http HttpBlobs.
From Stdlib Require Import Ascii.
Local Open Scope Z_scope.
Local Open Scope go_scope.

(** ** Numbers in headers *)
Lemma digit_char_code d : 0 <= d < 10 -> 48 <= code (digit_char d) <= 57.
Proof.
  intros H. unfold digit_char, code. rewrite N_ascii_embedding by lia. rewrite Z2N.id; lia.
Qed.

Lemma format_digits_digits fuel n acc :
  0 <= n -> sall (fun c => (48 <=? code c) && (code c <=? 57)) acc = true ->
  sall (fun c => (48 <=? code c) && (code c <=? 57)) (format_digits fuel n acc) = true.
Proof.
  revert n acc. induction fuel as [|fuel IH]; intros n acc Hn Ha; [done|]. cbn [format_digits].
  pose proof (digit_char_code (n mod 10) ltac:(apply Z.mod_pos_bound; lia)) as Hd.
  assert (sall (fun c => (48 <=? code c) && (code c <=? 57)) (String (digit_char (n mod 10)) acc) = true) as H.
  { cbn [sall]. rewrite Ha, andb_true_r, andb_true_iff, !Z.leb_le. lia. }
  destruct (n / 10 =? 0); [done|]. apply IH; [apply Z.div_pos; lia|done].
Qed.

(** A separator that is no digit does not occur in a number that is not negative. *)
Lemma cut_FormatInt c n :
  0 <= n -> (code c < 48 \/ 57 < code c) -> cut c (FormatInt n) = None.
Proof.
  intros Hn Hc. apply cut_None. unfold FormatInt.
  destruct (Z.ltb_spec n 0); [lia|].
  eapply sall_impl; [|apply (format_digits_digits _ n ""); [done|reflexivity]].
  intros x [H1%Z.leb_le H2%Z.leb_le]%andb_true_iff. apply bool_decide_eq_true. intros ->. lia.
Qed.

Lemma cut_app c s t : cut c s = None -> cut c (s +:+ String c "" +:+ t) = Some (s, t).
Proof.
  induction s as [|a s IH]; simpl.
  - intros _. by rewrite bool_decide_true.
  - case_bool_decide; [done|]. destruct (cut c s) as [[x y]|]; [done|]. intros _. by rewrite IH.
Qed.

Lemma FormatInt_ne n : FormatInt n <> "".
Proof.
  unfold FormatInt. destruct (n <? 0); [done|].
  assert (forall fuel m acc, acc <> "" \/ fuel <> O -> format_digits fuel m acc <> "") as H.
  { intros fuel. induction fuel as [|fuel IH]; intros m acc Ha; cbn; [naive_solver|].
    destruct (m / 10 =? 0); [done|]. apply IH. by left. }
  apply H. by right.
Qed.

(** [bytes=<a>-<b>] *)
Definition range_header (a b : Z) : string := "bytes=" +:+ FormatInt a +:+ "-" +:+ FormatInt b.
(** [bytes <a>-<b>/<total>] *)
Definition content_range_header (a b total : Z) : string :=
  "bytes " +:+ (FormatInt a +:+ "-" +:+ FormatInt b) +:+ "/" +:+ FormatInt total.

Lemma parse_range_header a b :
  0 <= a <= int64_max -> 0 <= b < int64_max ->
  parseRangeHeader (range_header a b) = Ok (a, b - a + 1).
Proof.
  intros Ha Hb. unfold parseRangeHeader, range_header. rewrite HasPrefix_app, TrimPrefix_app. cbn [negb].
  unfold SplitN2. rewrite (cut_app "-" (FormatInt a) (FormatInt b)); [|by apply cut_FormatInt; [lia|left]].
  rewrite !ParseInt_FormatInt by (unfold int64_min; lia).
  rewrite bool_decide_false by apply FormatInt_ne.
  rewrite wrap64_id; [done|]. unfold int64_min, int64_max in *. lia.
Qed.

Lemma parse_content_range a b total :
  0 <= a <= int64_max -> 0 <= b -> int64_min <= total <= int64_max ->
  parseContentRange (content_range_header a b total) = Ok (a, total).
Proof.
  intros Ha Hb Ht. unfold parseContentRange, content_range_header.
  rewrite HasPrefix_app, TrimPrefix_app. cbn [negb].
  assert (cut "/" (FormatInt a +:+ "-" +:+ FormatInt b) = None) as Hs.
  { apply cut_None. rewrite !sall_app.
    pose proof (cut_FormatInt "/" a ltac:(lia) ltac:(by left)) as H1.
    pose proof (cut_FormatInt "/" b ltac:(lia) ltac:(by left)) as H2.
    apply cut_None in H1, H2. cbn [sall]. by rewrite H1, H2. }
  rewrite (cut_app "/" _ (FormatInt total) Hs).
  unfold SplitN2. rewrite (cut_app "-" (FormatInt a) (FormatInt b)); [|by apply cut_FormatInt; [lia|left]].
  rewrite !ParseInt_FormatInt by (unfold int64_min, int64_max in *; lia). done.
Qed.

Section HttpSpec.
Context {clk : Clock}.
Notation W := (server fs).

(** A server no call of which is going to fail. *)
Definition calm_server (t : tables) (n : nat) (m : files) (d : gset string) (k : nat) : W :=
  MkServer (MkStore t [] n) (calm m d k).

(** *** The middleware *)
Definition psk_failed (t : tables) (n : nat) : tables :=
  set_audit (fun l => l ++ [MkAuditEntry (clock n) "psk_auth_failed" None None None None]) t.

(** The bearer guard: a request carrying [Bearer <psk>] is handed to the next handler
    unchanged; any other request, when the key is not empty, is answered 401 without the
    next handler running, and leaves one audit entry and nothing else. *)
Theorem bearer_guard psk (next : request -> M W response) r t n b :
  (Header r "Authorization" = "Bearer " +:+ psk -> AuthBearer psk next r = next r) /\
  (Header r "Authorization" <> "Bearer " +:+ psk -> psk <> "" ->
   AuthBearer psk next r (MkServer (MkStore t [] n) b) =
     (Ok (http_Error "unauthorized" StatusUnauthorized),
      MkServer (MkStore (psk_failed t n) [] (S n)) b)).
Proof.
  unfold AuthBearer, extractBearer. split.
  - intros ->. by rewrite HasPrefix_app, TrimPrefix_app, bool_decide_true.
  - intros Hne Hpsk. rewrite bool_decide_false; [done|].
    destruct (HasPrefix _ _) eqn:E; [|congruence].
    apply HasPrefix_spec in E as [x Hx]. rewrite Hx, TrimPrefix_app. congruence.
Qed.

(** With an empty key a request without the header is let through. *)
Theorem empty_key_lets_everyone_in (next : request -> M W response) r :
  Header r "Authorization" = "" -> AuthBearer "" next r = next r.
Proof. intros H. unfold AuthBearer, extractBearer. by rewrite H. Qed.

(** The CSRF guard: a request that may change something reaches the next handler only
    if it repeats, in the header or the form, the token of its own cookie; without a
    cookie it would have to repeat the token the server has just drawn.  Otherwise it is
    answered 403 and nothing happens. *)
Theorem csrf_guard fresh (next : request -> M W response) r w :
  fresh <> "" -> safe_method (rq_Method r) = false ->
  let token := match rq_Cookie r with
               | Some v => if bool_decide (v = "") then fresh else v
               | None => fresh end in
  (submitted_token r <> token ->
     exists p, CSRF fresh next r w = (Ok p, w) /\ rp_Status p = StatusForbidden) /\
  (submitted_token r = token ->
     exists set, CSRF fresh next r w = (p <- next (with_csrf r token);; ret (add_headers set p)) w).
Proof.
  intros Hf Hm token.
  assert (fst (readOrIssueToken fresh r) = token /\ token <> "") as [Ht Hne].
  { unfold readOrIssueToken, token. destruct (rq_Cookie r); [case_bool_decide|]; done. }
  unfold CSRF. destruct (readOrIssueToken fresh r) as [tok set]. cbn in Ht. rewrite <- Ht in *.
  assert (submitted_token (with_csrf r tok) = submitted_token r) as -> by done.
  cbn [rq_Method with_csrf]. rewrite Hm. split.
  - intros Hs. rewrite (bool_decide_false (submitted_token r = tok)) by done. cbn [negb].
    rewrite orb_true_r. by eexists.
  - intros ->. rewrite bool_decide_false, bool_decide_true by done. cbn. by exists set.
Qed.

(** *** Uploads and downloads *)

(** What the store makes of a client's usage: the sizes of its side's rows in its pairs. *)
Definition usage (clientID : string) (t : tables) : Z :=
  foldl (fun total p =>
    add_sizes (files_of (p_ID p) (if bool_decide (p_ClientBID p = clientID) then "b" else "a") t) total) 0
    (sort_pairs (filter (fun p => pair_of_client clientID p = true) (map_to_list (t_pairs t)).*2)).

Lemma computeClientUsage_eq c t n :
  computeClientUsage c (MkStore t [] n) = (Ok (usage c t), MkStore t [] n).
Proof.
  unfold computeClientUsage, usage.
  set (pairs := sort_pairs _).
  assert (ListPairsForClient c (MkStore t [] n) = (Ok pairs, MkStore t [] n)) as E by done.
  unfold bind at 1. rewrite E. clearbody pairs. clear E. generalize 0.
  induction pairs as [|p pairs IH]; intros total; [done|]. exact (IH _).
Qed.

(** A request of a client that holds the key. *)
Definition blob_request (psk clientID method sha : string) (headers : list (string * string))
    (data : bytes) : request :=
  MkRequest method ("/v1/blobs/" +:+ sha)
    ([("Authorization", "Bearer " +:+ psk); ("X-Axion-Client-Id", clientID)] ++ headers)
    (Z.of_nat (length data)) (whole data) None None None "" "".

Notation serve maxSize quota psk := (blobs_route (B:=fs) maxSize quota psk).

Lemma valid_sha_ne sha : validateSHA sha = None -> sha <> "".
Proof. intros [H _]%validateSHA_ok ->. done. Qed.

(** The guard lets it through, and the path gives the name. *)
Lemma blobs_route_eq maxSize quota psk c method sha headers data w :
  validateSHA sha = None -> h_get headers "Authorization" = "" ->
  let r := with_client (blob_request psk c method sha headers data) c in
  serve maxSize quota psk (blob_request psk c method sha headers data) w =
  (if bool_decide (method = "HEAD") then handleHEAD r sha
   else if bool_decide (method = "PUT") then handlePUT maxSize quota r sha
   else if bool_decide (method = "GET") then handleGET r sha
   else ret (status StatusMethodNotAllowed)) w.
Proof.
  intros Hv _ r. unfold blobs_route, AuthBearerWithClientID, extractBearer.
  cbn [Header blob_request rq_Header h_get app]. unfold Header. cbn [rq_Header blob_request app h_get].
  rewrite (bool_decide_true ("Authorization" = "Authorization")) by done.
  rewrite HasPrefix_app, TrimPrefix_app, bool_decide_true by done. cbn [negb].
  rewrite (bool_decide_false ("Authorization" = "X-Axion-Client-Id")) by done.
  rewrite (bool_decide_true ("X-Axion-Client-Id" = "X-Axion-Client-Id")) by done.
  unfold ServeBlobs. cbn [rq_Path with_client blob_request]. rewrite TrimPrefix_app.
  by rewrite (bool_decide_false (sha = "")) by by apply valid_sha_ne.
Qed.

(** What a body that passes the checks of [handlePUT] meets. *)
Lemma handlePUT_eq maxSize quota r sha t n m d k :
  0 < rq_ContentLength r <= maxSize -> wrap64 (usage (rq_ClientID r) t + rq_ContentLength r) <= quota ->
  handlePUT maxSize quota r sha (calm_server t n m d k) = store_body r sha (calm_server t n m d k).
Proof.
  intros Hlen Hq. unfold handlePUT.
  destruct (Z.leb_spec (rq_ContentLength r) 0); [lia|].
  destruct (Z.ltb_spec maxSize (rq_ContentLength r)); [lia|].
  unfold try, in_store, calm_server. cbn [sv_store]. rewrite computeClientUsage_eq. cbn [sv_blobs].
  destruct (Z.ltb_spec quota (wrap64 (usage (rq_ClientID r) t + rq_ContentLength r))); [lia|done].
Qed.

Lemma blob_size_eq sha t n m d k f :
  validateSHA sha = None -> m !! path sha = Some f ->
  blob_size sha (calm_server t n m d k) = (Ok (Z.of_nat (length (fl_data f))), calm_server t n m d k).
Proof.
  intros Hv Hf. unfold blob_size, try, in_blobs, calm_server. cbn [sv_blobs sv_store bs_Stat fs_blobstore].
  unfold Stat, checked. rewrite Hv. unfold try. by rewrite Stat_calm, Hf.
Qed.

Lemma GetRange_eq sha off len m d k f :
  validateSHA sha = None -> m !! path sha = Some f -> 0 <= off ->
  GetRange sha off len (calm m d k) = (Ok (limit_reader len (drop (Z.to_nat off) (fl_data f))), calm m d k).
Proof.
  intros Hv Hf Hoff. unfold GetRange, checked. rewrite Hv.
  assert (open_blob sha (calm m d k) = (Ok (fl_data f), calm m d k)) as E.
  { pose proof (Get_eq sha m d k Hv) as H. unfold Get, checked in H. rewrite Hv, Hf in H. done. }
  unfold bind, wrapped. rewrite E, Seek_calm by done. done.
Qed.

(** The whole download. *)
Lemma download_eq maxSize quota psk c sha t n m d k f :
  validateSHA sha = None -> m !! path sha = Some f ->
  serve maxSize quota psk (blob_request psk c "GET" sha [] []) (calm_server t n m d k) =
    (Ok (MkResponse StatusOK [("Content-Length", FormatInt (Z.of_nat (length (fl_data f))));
                              ("Content-Type", "application/octet-stream")] (BodyBytes (fl_data f))),
     calm_server t n m d k).
Proof.
  intros Hv Hf. rewrite blobs_route_eq by done. decide_closed.
  change (handleGET (B:=fs) (with_client (blob_request psk c "GET" sha [] []) c) sha)
    with (rc <-? in_blobs (bs_Get sha);;
          match rc with
          | Err e => ret (get_error e)
          | Ok data =>
              size <- blob_size sha;;
              ret (MkResponse StatusOK
                [("Content-Length", FormatInt size); ("Content-Type", "application/octet-stream")]
                (BodyBytes data))
          end).
  unfold try, in_blobs. cbn [sv_blobs calm_server bs_Get fs_blobstore sv_store].
    rewrite Get_eq, Hf by done. unfold bind.
  change (MkServer (MkStore t [] n) (calm m d k)) with (calm_server t n m d k).
  by rewrite (blob_size_eq _ _ _ _ _ _ f).
Qed.

(** What [GET] returns for the last byte of a range of [size] bytes. *)
Lemma range_eq maxSize quota psk c sha a b t n m d k f :
  validateSHA sha = None -> m !! path sha = Some f ->
  0 <= a <= b -> b < int64_max ->
  serve maxSize quota psk (blob_request psk c "GET" sha [("Range", range_header a b)] [])
    (calm_server t n m d k) =
    (Ok (MkResponse StatusPartialContent
       [("Content-Type", "application/octet-stream");
        ("Content-Range", content_range a b (Z.of_nat (length (fl_data f))));
        ("Content-Length", FormatInt (b - a + 1))]
       (BodyBytes (take (Z.to_nat (b - a + 1)) (drop (Z.to_nat a) (fl_data f))))),
     calm_server t n m d k).
Proof.
  intros Hv Hf Hab Hb. rewrite blobs_route_eq by done. decide_closed.
  unfold handleGET, Header. cbn [rq_Header with_client blob_request app h_get]. decide_closed.
    rewrite parse_range_header by lia.
  unfold try, in_blobs. cbn [sv_blobs calm_server bs_GetRange fs_blobstore sv_store].
  rewrite (GetRange_eq _ _ _ _ _ _ f) by (done || lia).
  change (MkServer (MkStore t [] n) (calm m d k)) with (calm_server t n m d k).
  unfold bind. rewrite (blob_size_eq _ _ _ _ _ _ f) by done.
  unfold limit_reader. destruct (Z.ltb_spec (b - a + 1) 0); [lia|].
  destruct (Z.leb_spec 0 (b - a + 1)); [|lia].
  rewrite wrap64_id by (unfold int64_min; lia).
  by replace (a + (b - a + 1) - 1) with b by lia.
Qed.

(** Over HTTP, what was uploaded is what is downloaded: a client with the key that PUTs
    a body hashing to the name, within the size limit and the quota, gets 201, and a GET
    of that name, by any client with the key, then returns 200 with exactly those bytes
    and their count as the content length. *)
Theorem download_after_upload maxSize quota psk c c' sha data t n m d k :
  validateSHA sha = None -> m !! path sha = None -> sha_hex data = ToLower sha ->
  0 < Z.of_nat (length data) <= maxSize ->
  wrap64 (usage c t + Z.of_nat (length data)) <= quota ->
  let '(r1, w1) := serve maxSize quota psk (blob_request psk c "PUT" sha [] data) (calm_server t n m d k) in
  let '(r2, w2) := serve maxSize quota psk (blob_request psk c' "GET" sha [] []) w1 in
  r1 = Ok (status StatusCreated) /\
  r2 = Ok (MkResponse StatusOK
             [("Content-Length", FormatInt (Z.of_nat (length data)));
              ("Content-Type", "application/octet-stream")] (BodyBytes data)).
Proof.
  intros Hv Hnew Hsha Hlen Hq.
  destruct (Put_eq sha data (Z.of_nat (length data)) m d k Hv Hnew) as (f & d' & k' & Hf & E).
  rewrite Z.eqb_refl, andb_false_r, (bool_decide_true _ Hsha) in E. cbn [negb] in E.
  rewrite blobs_route_eq by done. decide_closed. rewrite handlePUT_eq by done.
  unfold store_body, Header. cbn [rq_Header rq_Body rq_ContentLength with_client blob_request app h_get].
  decide_closed. cbn [negb].
  unfold try at 1, in_blobs at 1. cbn [sv_blobs calm_server bs_Put fs_blobstore sv_store].
  rewrite E. cbn [ret].
  change (MkServer (MkStore t [] n) (calm ?m ?d ?k)) with (calm_server t n m d k).
  rewrite (download_eq _ _ _ _ _ _ _ _ _ _ f) by (done || apply lookup_insert_eq).
  by rewrite Hf.
Qed.

(** A range of a stored blob: GET with [Range: bytes=a-b] inside the blob returns 206
    with the bytes from a to b, both included, the content range that says so and their
    count as the content length. *)
Theorem range_download maxSize quota psk c sha a b t n m d k f :
  validateSHA sha = None -> m !! path sha = Some f ->
  0 <= a <= b -> b < Z.of_nat (length (fl_data f)) -> b < int64_max ->
  exists data,
    serve maxSize quota psk (blob_request psk c "GET" sha [("Range", range_header a b)] [])
      (calm_server t n m d k) =
      (Ok (MkResponse StatusPartialContent
         [("Content-Type", "application/octet-stream");
          ("Content-Range", "bytes " +:+ FormatInt a +:+ "-" +:+ FormatInt b +:+ "/" +:+
                            FormatInt (Z.of_nat (length (fl_data f))));
          ("Content-Length", FormatInt (Z.of_nat (length data)))] (BodyBytes data)),
       calm_server t n m d k) /\
    exists before after, fl_data f = before ++ data ++ after /\
      Z.of_nat (length before) = a /\ Z.of_nat (length data) = b - a + 1.
Proof.
  intros Hv Hf Hab Hsize Hb.
  set (data := take (Z.to_nat (b - a + 1)) (drop (Z.to_nat a) (fl_data f))).
  assert (Z.of_nat (length data) = b - a + 1) as Hlen.
  { unfold data. rewrite length_take, length_drop. lia. }
  exists data. rewrite (range_eq _ _ _ _ _ _ _ _ _ _ _ _ f) by done.
  split; [by rewrite Hlen|].
  exists (take (Z.to_nat a) (fl_data f)), (drop (Z.to_nat (b - a + 1)) (drop (Z.to_nat a) (fl_data f))).
  split_and!; [|rewrite length_take; lia|done].
  unfold data. by rewrite !take_drop.
Qed.

(** A range that ends past the blob is not cut: the content length announces more bytes
    than the body has. *)
Theorem range_past_end_overstates maxSize quota psk c sha a b t n m d k f :
  validateSHA sha = None -> m !! path sha = Some f ->
  0 <= a <= b -> Z.of_nat (length (fl_data f)) <= b -> b < int64_max ->
  exists data headers,
    serve maxSize quota psk (blob_request psk c "GET" sha [("Range", range_header a b)] [])
      (calm_server t n m d k) =
      (Ok (MkResponse StatusPartialContent headers (BodyBytes data)), calm_server t n m d k) /\
    h_get headers "Content-Length" = FormatInt (b - a + 1) /\ Z.of_nat (length data) < b - a + 1.
Proof.
  intros Hv Hf Hab Hsize Hb. rewrite (range_eq _ _ _ _ _ _ _ _ _ _ _ _ f) by done.
  do 2 eexists. split; [done|]. split; [done|]. rewrite length_take, length_drop. lia.
Qed.

(** The quota: an upload that would take the client past its quota is answered 507
    before its body is read: the blob store is as it was, and one audit entry of kind
    [quota_exceeded] for that client is the only change to the database. *)
Theorem quota_is_enforced maxSize quota psk c sha data t n m d k :
  validateSHA sha = None -> 0 < Z.of_nat (length data) <= maxSize ->
  quota < wrap64 (usage c t + Z.of_nat (length data)) ->
  let '(res, w) := serve maxSize quota psk (blob_request psk c "PUT" sha [] data) (calm_server t n m d k) in
  (exists p, res = Ok p /\ rp_Status p = StatusInsufficientStorage) /\
  sv_blobs w = calm m d k /\
  exists detail, db (sv_store w) =
    set_audit (fun l => l ++ [MkAuditEntry (clock n) "quota_exceeded" (Some c) None None (Some detail)]) t.
Proof.
  intros Hv Hlen Hq. rewrite blobs_route_eq by done. decide_closed.
  unfold handlePUT. cbn [rq_ContentLength rq_ClientID with_client blob_request].
  destruct (Z.leb_spec (Z.of_nat (length data)) 0); [lia|].
  destruct (Z.ltb_spec maxSize (Z.of_nat (length data))); [lia|].
  unfold try at 1, in_store at 1, calm_server. cbn [sv_store]. rewrite computeClientUsage_eq. cbn [sv_blobs].
  destruct (Z.ltb_spec quota (wrap64 (usage c t + Z.of_nat (length data)))); [|lia].
  unfold auditQuotaExceeded, http_audit, bind, try, in_store, now, AppendAuditLog, exec, sql, wrapped.
  cbn [sv_store sv_blobs tick db db_faults ret fst snd]. split; [by eexists|]. split; [done|]. by eexists.
Qed.

(** The size limit is checked on each request's own length: a chunk of a file larger than
    the limit is taken. *)
Theorem size_limit_is_per_chunk maxSize quota psk c sha data total t n m d k :
  validateSHA sha = None -> 0 < Z.of_nat (length data) <= maxSize -> maxSize < total <= int64_max ->
  wrap64 (usage c t + Z.of_nat (length data)) <= quota ->
  let headers := [("Content-Range", content_range_header 0 (Z.of_nat (length data) - 1) total)] in
  let '(res, w) := serve maxSize quota psk (blob_request psk c "PUT" sha headers data)
                     (calm_server t n m d k) in
  (exists p, res = Ok p /\ rp_Status p = StatusPartialContent) /\
  exists f, f_files (sv_blobs w) !! partialPath sha = Some f.
Proof.
  intros Hv Hlen Ht Hq headers.
  destruct (PutRange_eq sha 0 data total m d k Hv ltac:(lia) ltac:(lia)) as (f & d' & k' & _ & E).
  cbn zeta in E. destruct (Z.ltb_spec (0 + Z.of_nat (length data)) total) in E; [|lia].
  rewrite blobs_route_eq by done. decide_closed. rewrite handlePUT_eq by done.
  unfold store_body, headers, Header. cbn [rq_Header rq_Body with_client blob_request app h_get]. decide_closed.
  cbn [negb].
  rewrite parse_content_range by (unfold int64_min, int64_max in *; lia).
  unfold try at 1, in_blobs at 1. cbn [sv_blobs calm_server bs_PutRange fs_blobstore sv_store].
  rewrite E. unfold handlePutError. cbn. split; [by eexists|]. exists f. apply lookup_insert_eq.
Qed.

(** An empty file cannot be uploaded: its length is refused with 411, so its blob is never
    there to be fetched. *)
Theorem empty_upload_is_refused maxSize quota psk c sha t n m d k :
  validateSHA sha = None ->
  exists p, serve maxSize quota psk (blob_request psk c "PUT" sha [] []) (calm_server t n m d k) =
    (Ok p, calm_server t n m d k) /\ rp_Status p = 411.
Proof.
  intros Hv. rewrite blobs_route_eq by done. decide_closed. by eexists.
Qed.

(** *** Statuses under failures *)
Notation on_blobs P := (fun w : W => P (f_files (sv_blobs w))).

Lemma triple_in_store {A} (m : M store A) (P : files -> Prop) :
  triple (on_blobs P) (in_store m) (fun _ => on_blobs P).
Proof. intros w HP. unfold in_store. by destruct (m (sv_store w)). Qed.

Lemma triple_http_audit (kind : string) (c detail : option string) (P : files -> Prop) :
  triple (on_blobs P) (http_audit kind c detail) (fun _ => on_blobs P).
Proof.
  eapply triple_bind; [apply triple_in_store| |done]. intros t.
  eapply triple_try; [apply triple_in_store|]. intros r. by apply triple_ret.
Qed.

(** A response of another status than 201, or a blob that is there and hashes to its
    name. *)
Definition created_ok (sha : string) (r : result response) (w : W) : Prop :=
  forall p, r = Ok p -> rp_Status p = StatusCreated ->
    exists f, f_files (sv_blobs w) !! path sha = Some f /\ sha_hex (fl_data f) = ToLower sha.

Lemma triple_other_status (sha : string) (P : W -> Prop) (p : response) :
  rp_Status p <> StatusCreated -> triple P (ret p) (created_ok sha).
Proof. intros Hp. apply triple_ret. by intros s _ q [= <-]. Qed.

Lemma triple_handlePutError (sha : string) (P : files -> Prop) (e : error) (c sha' : string) :
  triple (on_blobs P) (handlePutError e c sha') (created_ok sha).
Proof.
  unfold handlePutError. destruct (_ || _); [by apply triple_other_status|].
  destruct (errors_Is e ErrIncomplete); [by apply triple_other_status|].
  destruct (isDiskFullError e); [|by apply triple_other_status].
  eapply triple_bind; [apply triple_http_audit| |by intros ? ? ? ? [=]].
  intros u. by apply triple_other_status.
Qed.

(** An upload of the blob store, whichever, then the response. *)
Lemma triple_stored (sha : string) (m : M fs unit) (c : string) :
  (forall s, blob_ok (f_files s) -> match m s with
     | (Ok _, s') => exists f, f_files s' !! path sha = Some f /\ sha_hex (fl_data f) = ToLower sha
     | (Err _, _) => True end) ->
  triple (on_blobs blob_ok)
    (p <-? in_blobs m;;
     match p with
     | Err e => handlePutError e c sha
     | Ok _ => ret (status StatusCreated)
     end) (created_ok sha).
Proof.
  intros Hm w Hok. specialize (Hm (sv_blobs w) Hok). unfold try, in_blobs.
  destruct (m (sv_blobs w)) as [[u|e] s'].
  - by intros p _ _.
  - apply (triple_handlePutError sha (fun _ => True)). done.
Qed.

Lemma Put_hashes (sha : string) (r : reader) (n : Z) (s : fs) :
  blob_ok (f_files s) -> match Put sha r n s with
    | (Ok _, s') => exists f, f_files s' !! path sha = Some f /\ sha_hex (fl_data f) = ToLower sha
    | (Err _, _) => True end.
Proof.
  intros Hok. destruct (validateSHA sha) eqn:Hv; [unfold Put, checked; by rewrite Hv|].
  pose proof (triple_Put sha (f_files s) Hv r n s eq_refl) as H.
  destruct (Put sha r n s) as [[u|e] s']; [|done]. cbn in H.
  destruct H as [(_ & [f Hf] & Hs)|(_ & (f & Hf & _ & Hsha) & _)]; [|by exists f].
  exists f. rewrite Hs. split; [done|]. by apply (Hok _ _ _ Hf).
Qed.

Lemma PutRange_hashes (sha : string) (o : Z) (r : reader) (n : Z) (s : fs) :
  match PutRange sha o r n s with
  | (Ok _, s') => exists f, f_files s' !! path sha = Some f /\ sha_hex (fl_data f) = ToLower sha
  | (Err _, _) => True end.
Proof.
  destruct (validateSHA sha) eqn:Hv; [unfold PutRange, checked; by rewrite Hv|].
  pose proof (triple_PutRange sha (f_files s) Hv o r n s eq_refl) as H.
  destruct (PutRange sha o r n s) as [[u|e] s']; [|done]. cbn in H.
  destruct H as (_ & (f & Hf & _ & Hsha) & _). by exists f.
Qed.

Lemma triple_store_body (r : request) (sha : string) : triple (on_blobs blob_ok) (store_body r sha) (created_ok sha).
Proof.
  unfold store_body. destruct (negb _).
  - destruct (parseContentRange _) as [[o n]|e]; [|by apply triple_other_status].
    apply triple_stored. intros s _. apply PutRange_hashes.
  - apply triple_stored. intros s Hs. by apply Put_hashes.
Qed.

(** C9. Every upload answered 201 is stored under its name: whatever fails, in the
    database or the file system, and whatever the request's headers and body, a 201
    means that the blob of that name is complete, with content that hashes to it. *)
Theorem created_means_stored maxSize quota psk r w sha :
  rq_Path r = "/v1/blobs/" +:+ sha -> rq_Method r = "PUT" -> blob_ok (f_files (sv_blobs w)) ->
  let '(res, w') := serve maxSize quota psk r w in
  forall p, res = Ok p -> rp_Status p = StatusCreated ->
    exists f, f_files (sv_blobs w') !! path sha = Some f /\ sha_hex (fl_data f) = ToLower sha.
Proof.
  intros Hpath Hmethod Hok.
  assert (triple (on_blobs blob_ok) (serve maxSize quota psk r) (created_ok sha)) as H.
  { unfold blobs_route, AuthBearerWithClientID. destruct (negb _).
    { eapply triple_bind; [apply triple_http_audit| |by intros ? ? ? ? [=]].
      intros u. by apply triple_other_status. }
    unfold ServeBlobs. cbn [rq_Path rq_Method with_client]. rewrite Hpath, Hmethod, TrimPrefix_app.
    decide_closed. case_bool_decide; [by apply triple_other_status|].
    unfold handlePUT. destruct (_ <=? 0); [by apply triple_other_status|].
    destruct (maxSize <? _); [by apply triple_other_status|].
    eapply triple_try; [apply triple_in_store|]. intros [used|e]; [|by apply triple_other_status].
    destruct (quota <? _); [|apply triple_store_body].
    eapply triple_bind; [apply triple_http_audit| |by intros ? ? ? ? [=]].
    intros u. by apply triple_other_status. }
  specialize (H w Hok). destruct (serve maxSize quota psk r w) as [res w']. exact H.
Qed.
End HttpSpec.

(** *** Witnesses *)
Section Witnesses.
Local Instance ticking : Clock := fun n => Z.of_nat n.

Definition no_body : reader := MkReader [] None.
Definition bare (method : string) (headers : list (string * string)) (cookie : option string) : request :=
  MkRequest method "/pairs" headers 0 no_body cookie None None "" "".

Lemma bearer_guard_witness : exists w,
  AuthBearer (B:=fs) "k" (fun _ => ret (status StatusOK)) (bare "GET" [] None)
    (MkServer (MkStore empty_tables [] 0) (calm ∅ ∅ 0)) = (Ok (http_Error "unauthorized" 401), w).
Proof.
  eexists. apply (bearer_guard "k" (fun _ => ret (status StatusOK)) (bare "GET" [] None)); done.
Defined.

Lemma csrf_guard_witness : exists p,
  CSRF (B:=fs) "fresh" (fun _ => ret (status StatusOK)) (bare "POST" [("X-Csrf-Token", "forged")] (Some "mine"))
    (MkServer (MkStore empty_tables [] 0) (calm ∅ ∅ 0)) =
    (Ok p, MkServer (MkStore empty_tables [] 0) (calm ∅ ∅ 0)) /\ rp_Status p = 403.
Proof.
  apply (csrf_guard "fresh" (fun _ => ret (status StatusOK))
    (bare "POST" [("X-Csrf-Token", "forged")] (Some "mine"))); done.
Defined.

Lemma download_after_upload_witness :
  fst (blobs_route (B:=fs) 100 100 "k" (blob_request "k" "a" "PUT" abc_sha [] abc)
         (calm_server empty_tables 0 ∅ ∅ 0)) = Ok (status 201).
Proof.
  pose proof (download_after_upload 100 100 "k" "a" "b" abc_sha abc empty_tables 0 ∅ ∅ 0
    ltac:(vm_compute; reflexivity) ltac:(vm_compute; reflexivity) ltac:(vm_compute; reflexivity)
    ltac:(vm_compute; split; [reflexivity|discriminate]) ltac:(vm_compute; discriminate)) as H.
  destruct (blobs_route 100 100 "k" (blob_request "k" "a" "PUT" abc_sha [] abc) _) as [r1 w1].
  destruct (blobs_route 100 100 "k" _ w1) as [r2 w2]. by destruct H as [-> _].
Defined.

Lemma range_download_witness : exists data,
  fst (blobs_route (B:=fs) 100 100 "k" (blob_request "k" "a" "GET" abc_sha [("Range", range_header 1 2)] [])
    (calm_server empty_tables 0 stored_abc ∅ 0)) =
  Ok (MkResponse 206 [("Content-Type", "application/octet-stream");
                      ("Content-Range", "bytes 1-2/3");
                      ("Content-Length", FormatInt (Z.of_nat (length data)))] (BodyBytes data)).
Proof.
  destruct (range_download 100 100 "k" "a" abc_sha 1 2 empty_tables 0 stored_abc ∅ 0 (MkFile abc 0)
    ltac:(vm_compute; reflexivity) (lookup_singleton_eq _ _) ltac:(lia) ltac:(reflexivity) ltac:(reflexivity))
    as (data & H & _).
  exists data. rewrite H. reflexivity.
Defined.

Lemma quota_is_enforced_witness : exists p,
  fst (blobs_route (B:=fs) 100 2 "k" (blob_request "k" "a" "PUT" abc_sha [] abc)
         (calm_server empty_tables 0 ∅ ∅ 0)) = Ok p /\ rp_Status p = 507.
Proof.
  pose proof (quota_is_enforced 100 2 "k" "a" abc_sha abc empty_tables 0 ∅ ∅ 0
    ltac:(vm_compute; reflexivity) ltac:(vm_compute; split; [reflexivity|discriminate])
    ltac:(vm_compute; reflexivity)) as H.
  destruct (blobs_route 100 2 "k" _ _) as [r w]. apply H.
Defined.

(* the second half of "abc", the first being there *)
Definition half_abc : fs := snd (PutRange abc_sha 0 (whole [97]) 3 (calm ∅ ∅ 0)).
Lemma created_means_stored_witness : exists f,
  f_files (sv_blobs (snd (blobs_route (B:=fs) 100 100 "k"
    (blob_request "k" "a" "PUT" abc_sha [("Content-Range", "bytes 1-2/3")] [98; 99])
    (MkServer (MkStore empty_tables [] 0) half_abc)))) !! path abc_sha = Some f.
Proof.
  assert (blob_ok (f_files half_abc)) as Hok.
  { apply (run_blob_call_ok (CallPutRange abc_sha 0 (whole [97]) 3)). intros d n f Hf.
    cbn in Hf. by rewrite lookup_empty in Hf. }
  pose proof (created_means_stored 100 100 "k"
    (blob_request "k" "a" "PUT" abc_sha [("Content-Range", "bytes 1-2/3")] [98; 99])
    (MkServer (MkStore empty_tables [] 0) half_abc) abc_sha eq_refl eq_refl Hok) as H.
  assert (fst (blobs_route (B:=fs) 100 100 "k"
    (blob_request "k" "a" "PUT" abc_sha [("Content-Range", "bytes 1-2/3")] [98; 99])
    (MkServer (MkStore empty_tables [] 0) half_abc)) = Ok (status StatusCreated)) as Hp
    by (vm_compute; reflexivity).
  destruct (blobs_route 100 100 "k" _ _) as [r w]. destruct (H _ Hp eq_refl) as (f & Hf & _). exact (ex_intro _ f Hf).
Defined.
End Witnesses.
