(* ===== verification/Session.v ===== *)
(** The server around the engine: the message handler and the connection callbacks of
    internal/server/app/app.go, the registration handshake of internal/server/http/ws.go
    and the life of one connection ([Conn.Run] and [readLoop] of hub/conn.go) with their
    effects on the database.

    The state is the engine's [world] with the hub as its network.  What the goroutines
    started by [Hub.Register] do ([onConnect], the snapshot requests) are operations of
    their own; [server_step] interleaves them with registrations, frames, broken sockets,
    the calls of the web interface and shutdown.  A frame is its JSON document,
    [None] when it is none.  What the browsers are told of it is in Broadcast.v. *)
From S2P Require Import Prelude GoStrings Json Proto Store StoreFacts Lww Engine Hub Http.
Local Open Scope Z_scope.
Local Open Scope go_scope.

(** What [ws.Read] returns. *)
Inductive ws_read : Type :=
| ReadError (e : error)
| ReadMessage (text : bool) (data : option json).

(** How the handshake ends: the socket is closed with a code and a reason, or the
    response could not be written, or the connection runs. *)
Inductive handshake : Type :=
| Closed (code : Z) (reason : string)
| NotAnswered
| Running (c : nat) (answer : Envelope).

Definition StatusInternalError : Z := 1011.

Section Session.
Context {clk : Clock}.
Notation W := (world hub).

Definition on_hub (f : hub -> hub) : M W unit := fun w => (Ok tt, MkWorld (w_store w) (f (w_net w))).

(** ** The message handler (app.go) *)
Definition HandleEnvelope (clientID : string) (env : Envelope) : M W unit :=
  if bool_decide (env_Type env = TypeFileChangedEvent) then
    ev <- wrapped "unmarshal file_changed_event"
            (lift (UnmarshalPayload (A:=FileChangedEvent) (env_Payload env)));;
    HandleFileChanged clientID ev
  else if bool_decide (env_Type env = TypeFileSyncAck) then
    a <- wrapped "unmarshal file_sync_ack"
            (lift (UnmarshalPayload (A:=FileSyncAck) (env_Payload env)));;
    HandleFileSyncAck clientID a
  else ret tt.

(** ** The callbacks (app.go) *)
Definition onConnect (clientID : string) : M W unit :=
  _ <-? PublishSubscriptions clientID;;
  _ <-? on_store (GetClient clientID);;
  ret tt.

Definition onDisconnect (clientID : string) : M W unit :=
  t <- on_store now;;
  _ <-? on_store (UpdateClientStatus clientID "offline" t);;
  _ <-? on_store (GetClient clientID);;
  ret tt.

(** The pairs whose snapshots the goroutine of [onConnect] asks for, with the side. *)
Definition snapshot_requests (clientID : string) (pairs : list SyncPair) : list (string * string) :=
  omap (fun p =>
    if negb (p_Enabled p) then None
    else Some (p_ID p, if bool_decide (p_ClientBID p = clientID) then "b" else "a")) pairs.

(** The goroutine of [onConnect]: each request and its reconciliation in turn, an error
    being logged; [uuid] names the request of a pair. *)
Definition request_snapshots (requester : string -> Envelope -> M W Envelope) (uuid : string -> string)
    (clientID : string) : M W unit :=
  pairs <-? on_store (ListPairsForClient clientID);;
  match pairs with
  | Err _ => ret tt
  | Ok pairs =>
      for_each (snapshot_requests clientID pairs) (fun '(pairID, side) =>
        RequestSnapshotAndDiff requester (uuid pairID) clientID pairID side)
  end.

(** ** One connection (conn.go) *)

(** The end of [Run]: close, unregister, [onDisc], and the deferred [wg.Done]. *)
Definition conn_end (c : nat) (clientID : string) : M W unit :=
  on_hub (fun h => Unregister c (Conn_Close c h));;
  onDisconnect clientID;;
  on_hub (fun h => set_wg (fun n => n - 1)
    (set_objs (alter (fun k => MkConn (k_client k) (k_closed k) (k_broken k) false) c) h)).

(** One round of [readLoop]. *)
Definition read_frame (c : nat) (clientID : string) (data : ws_read) : M W unit :=
  match data with
  | ReadError _ => conn_end c clientID
  | ReadMessage _ j =>
      match Unmarshal j with
      | Err _ => conn_end c clientID
      | Ok env =>
          if bool_decide (env_Type env = TypePong) then ret tt
          else fun w =>
            let corr := env_CorrelationID env in
            if bool_decide (corr <> "") && fst (Pending_Resolve corr env (w_net w))
            then on_hub (fun h => snd (Pending_Resolve corr env h)) w
            else (r <-? HandleEnvelope clientID env;;
                  match r with
                  | Err _ => conn_end c clientID
                  | Ok _ => ret tt
                  end) w
      end
  end.

(** ** Registration (ws.go) *)
Definition receiveRegisterRequest (first : ws_read) : RegisterRequest + handshake :=
  match first with
  | ReadError _ => inr (Closed 4002 "read error")
  | ReadMessage false _ => inr (Closed 4003 "expected text message")
  | ReadMessage true j =>
      match Unmarshal j with
      | Err _ => inr (Closed 4002 "malformed envelope")
      | Ok env =>
          if negb (bool_decide (env_Type env = TypeRegisterRequest))
          then inr (Closed 4004 "expected register_request")
          else match UnmarshalPayload (A:=RegisterRequest) (env_Payload env) with
               | Err _ => inr (Closed 4002 "malformed register_request")
               | Ok req => inl req
               end
      end
  end.

Definition registered_client (req : RegisterRequest) (n : Z) : Client :=
  MkClient (rr_ClientID req) (rr_Hostname req) (rr_Hostname req) (rr_RootPath req) (rr_Version req)
    (rr_ProtoVersion req) "online" n n n 0.

Definition register_detail (req : RegisterRequest) : string :=
  json_text (JObj [("hostname", JStr (rr_Hostname req)); ("proto_version", JStr (rr_ProtoVersion req));
                   ("root_path", JStr (rr_RootPath req)); ("version", JStr (rr_Version req))]).

Definition ws_audit (kind : string) (clientID : string) (detail : option string) : M W unit :=
  t <- on_store now;;
  _ <-? on_store (AppendAuditLog (MkAuditEntry t kind (Some clientID) None None detail));;
  ret tt.

Definition register_answer (settings : gmap string string) : M W Envelope :=
  t <- on_store now;;
  payload <- lift (MarshalPayload (MkRegisterResponse true t settings ""));;
  ret (MkEnvelope TypeRegisterResponse "" payload).

(** [WSHandler.ServeHTTP] up to [conn.Run]; [written] tells whether the answer could be
    written. *)
Definition ServeWS (first : ws_read) (written : bool) : M W handshake :=
  match receiveRegisterRequest first with
  | inr bad => ret bad
  | inl req =>
      if negb (protoVersionCompatible (rr_ProtoVersion req) ProtoVersion) then
        ws_audit "proto_version_mismatch" (rr_ClientID req) None;;
        ret (Closed 4001 "proto version mismatch")
      else
        t <- on_store now;;
        u <-? on_store (UpsertClient (registered_client req t));;
        match u with
        | Err _ => ret (Closed StatusInternalError "store error")
        | Ok _ =>
            ws_audit "client_register" (rr_ClientID req) (Some (register_detail req));;
            settings <-? on_store LoadAllSettings;;
            answer <- register_answer (match settings with Ok m => m | Err _ => ∅ end);;
            if negb written then ret NotAnswered
            else fun w =>
              let '(c, h) := NewConn (rr_ClientID req) (w_net w) in
              (Ok (Running c answer), MkWorld (w_store w) (Register c h))
        end
  end.

(** ** Interleavings

    [step_web] is any call of the web handlers on the store, [step_publish] what they ask
    of the engine; [step_diff] is the reconciliation with the answer to a snapshot
    request. *)
Inductive server_step : W -> W -> Prop :=
| step_register first written w : server_step w (snd (ServeWS first written w))
| step_on_connect id w : server_step w (snd (onConnect id w))
| step_read c k data w :
    h_objs (w_net w) !! c = Some k -> k_running k = true ->
    server_step w (snd (read_frame c (k_client k) data w))
| step_diff v corr ch env resp id pairID side w :
    h_waiters (w_net w) !! v = Some (MkWaiter corr ch (Finished (Ok env))) ->
    UnmarshalPayload (A:=ListFilesResponse) (env_Payload env) = Ok resp ->
    server_step w (snd (applyDiff id pairID side (default [] (lfr_Entries resp)) w))
| step_web call w : server_step w (snd (on_store (run_call call) w))
| step_publish id w : server_step w (snd (PublishPairUpdate id w))
| step_unpublish id w : server_step w (snd (PublishPairUnsubscribe id w))
| step_ws_break c w :
    server_step w (MkWorld (w_store w)
      (set_objs (alter (fun k => MkConn (k_client k) (k_closed k) true (k_running k)) c) (w_net w)))
| step_request v id env w :
    h_waiters (w_net w) !! v = None ->
    (forall u x, h_waiters (w_net w) !! u = Some x -> wt_corr x <> env_CorrelationID env) ->
    server_step w (MkWorld (w_store w) (wait_begin v id env (w_net w)))
| step_receive v w h : wait_receive v (w_net w) = Some h -> server_step w (MkWorld (w_store w) h)
| step_timeout v w h : wait_timeout v (w_net w) = Some h -> server_step w (MkWorld (w_store w) h)
| step_cancelled v w h : wait_cancelled v (w_net w) = Some h -> server_step w (MkWorld (w_store w) h)
| step_shutdown w : server_step w (MkWorld (w_store w) (Hub_Close (w_net w))).

(** From an empty database, whatever the driver's failures, and no connection. *)
Inductive server_reachable : W -> Prop :=
| server_init faults n : server_reachable (MkWorld (MkStore empty_tables faults n) New)
| server_next w w' : server_reachable w -> server_step w w' -> server_reachable w'.
End Session.
