(* ===== verification/SessionFacts.v ===== *)
(** The whole server: what holds of the database and the hub in every interleaving, and
    what the registration of a client, a frame and the end of a connection do. *)
From S2P Require Import Prelude GoStrings Json Proto Store StoreFacts Lww Engine EngineFacts Hub HubFacts Http Demo SyncSpec Session.
Local Open Scope Z_scope.
Local Open Scope go_scope.

(** Walk through a program: its structure first, then what the hints know. *)
Create HintDb axion_keeps discriminated.
Ltac keep := repeat lazymatch goal with
  | |- preserves _ (bind _ _) => apply preserves_bind; [|intros ?]
  | |- preserves _ (try _ _) => apply preserves_try; [|intros ?]
  | |- preserves _ (ret _) => apply preserves_ret
  | |- preserves _ (throw _) => apply preserves_throw
  | |- preserves _ (for_each _ _) => apply preserves_for_each; intros ? _
  | |- preserves _ (wrapped _ _) => apply preserves_wrapped
  | |- preserves _ (let x := _ in _) => cbv zeta
  | |- preserves _ (match _ with _ => _ end) => case_match
  | |- preserves _ (if _ then _ else _) => case_match
  | |- _ => solve [eauto with axion_keeps]
  end.

(** ** Programs of the engine keep what store calls and sends keep *)
Section Keeps.
Context {N : Type} `{HS : !Sender N} {clk : Clock}.
Notation W := (world N).
Context (P : tables -> Prop) (Q : N -> Prop).
Hypothesis P_call : forall c, preserves (fun s => P (db s)) (run_call c).
Hypothesis Q_send : forall c e, preserves Q (net_send c e).

Definition kept (w : W) : Prop := P (db (w_store w)) /\ Q (w_net w).
Notation keeps := (preserves kept).

Lemma keeps_on_store {A} (m : M store A) : preserves (fun s => P (db s)) m -> keeps (on_store m).
Proof. intros H w [HP HQ]. unfold on_store. specialize (H _ HP). by destruct (m (w_store w)). Qed.
Lemma keeps_call (c : store_call) : keeps (on_store (run_call c)).
Proof. apply keeps_on_store, P_call. Qed.
Lemma keeps_now : keeps (on_store now).
Proof. apply keeps_on_store, now_preserves. Qed.
Lemma keeps_Send c e : keeps (Send c e).
Proof. intros w [HP HQ]. unfold Send. specialize (Q_send c e _ HQ). by destruct (net_send c e (w_net w)). Qed.
Lemma keeps_lift {A} (r : result A) : keeps (lift r).
Proof. by destruct r; intros w Hw. Qed.
Lemma keeps_wrapped_read {A} x (m : M store A) :
  preserves (fun s => P (db s)) m -> keeps (on_store (wrapped x m)).
Proof. intros H. by apply keeps_on_store, preserves_wrapped. Qed.
Lemma keeps_query {A} (q : tables -> A) : preserves (fun s => P (db s)) (query q).
Proof. apply query_preserves. Qed.
Lemma keeps_query_row {A} (q : tables -> option A) : preserves (fun s => P (db s)) (query_row q).
Proof. apply query_row_preserves. Qed.

Lemma keeps_GetPair id : keeps (on_store (GetPair id)).
Proof. apply keeps_on_store, preserves_bind; [|intros; apply preserves_ret]. apply preserves_wrapped, keeps_query_row. Qed.
Lemma keeps_GetClient id : keeps (on_store (GetClient id)).
Proof. apply keeps_on_store, preserves_bind; [|intros; apply preserves_ret]. apply preserves_wrapped, keeps_query_row. Qed.
Lemma keeps_GetFileState i s r : keeps (on_store (GetFileState i s r)).
Proof. apply keeps_on_store, preserves_bind; [|intros; apply preserves_ret]. apply preserves_wrapped, keeps_query_row. Qed.
Lemma keeps_ListPairsForClient id : keeps (on_store (ListPairsForClient id)).
Proof. apply keeps_wrapped_read, keeps_query. Qed.
Lemma keeps_ListFileStates i s : keeps (on_store (ListFileStates i s)).
Proof. apply keeps_wrapped_read, keeps_query. Qed.
Lemma keeps_LoadAllSettings : keeps (on_store LoadAllSettings).
Proof. apply keeps_wrapped_read, keeps_query. Qed.
Lemma keeps_UpsertFileState f : keeps (on_store (UpsertFileState f)).
Proof. apply (keeps_call (CallUpsertFileState f)). Qed.
Lemma keeps_AppendAuditLog e : keeps (on_store (AppendAuditLog e)).
Proof. apply (keeps_call (CallAppendAuditLog e)). Qed.
Lemma keeps_UpsertClient c : keeps (on_store (UpsertClient c)).
Proof. apply (keeps_call (CallUpsertClient c)). Qed.
Lemma keeps_UpdateClientStatus i s l : keeps (on_store (UpdateClientStatus i s l)).
Proof. apply (keeps_call (CallUpdateClientStatus i s l)). Qed.
Lemma keeps_InsertSyncRun r : keeps (on_store (InsertSyncRun r)).
Proof.
  apply keeps_on_store. intros s Hs. pose proof (P_call (CallInsertSyncRun r) s Hs) as H.
  cbn in H. unfold bind, ret in H. by destruct (InsertSyncRun r s) as [[a|e] s'].
Qed.
#[local] Hint Resolve keeps_now keeps_Send keeps_lift keeps_GetPair keeps_GetClient keeps_GetFileState
  keeps_ListPairsForClient keeps_ListFileStates keeps_LoadAllSettings keeps_UpsertFileState
  keeps_AppendAuditLog keeps_UpsertClient keeps_UpdateClientStatus keeps_InsertSyncRun keeps_call
  : axion_keeps.

Lemma keeps_audit k c p r d : keeps (audit k c p r d).
Proof. unfold audit. keep. Qed.
Lemma keeps_record p s d r sha st e : keeps (recordSyncRun p s d r sha st e).
Proof. unfold recordSyncRun. keep. Qed.
#[local] Hint Resolve keeps_audit keeps_record : axion_keeps.

Lemma keeps_dispatchSync s p t ev : keeps (dispatchSync s p t ev).
Proof. unfold dispatchSync, marshal. keep. Qed.
Lemma keeps_dispatchFetch s p t r h : keeps (dispatchFetch s p t r h).
Proof. unfold dispatchFetch, marshal. keep. Qed.
Lemma keeps_dispatchConflict p ws w ls lc h : keeps (dispatchConflict p ws w ls lc h).
Proof. unfold dispatchConflict, marshal, auditConflictRenamed. keep. Qed.
#[local] Hint Resolve keeps_dispatchSync keeps_dispatchFetch keeps_dispatchConflict : axion_keeps.

Lemma keeps_handleEditWins s p ev st o oc os op : keeps (handleEditWins s p ev st o oc os op).
Proof. unfold handleEditWins, auditDeleteVsEdit. keep. Qed.
#[local] Hint Resolve keeps_handleEditWins : axion_keeps.

Lemma keeps_handleBidirectional s p ev st : keeps (handleBidirectional s p ev st).
Proof. unfold handleBidirectional, get_other_state, auditConflictDetected. keep. Qed.
Lemma keeps_mirror_dispatch s p ev : keeps (mirror_dispatch s p ev).
Proof. unfold mirror_dispatch. keep. Qed.
#[local] Hint Resolve keeps_handleBidirectional keeps_mirror_dispatch : axion_keeps.

Lemma keeps_HandleFileChanged s ev : keeps (HandleFileChanged s ev).
Proof. unfold HandleFileChanged, upsertFileState. keep. Qed.
#[local] Hint Resolve keeps_HandleFileChanged : axion_keeps.

Lemma keeps_applyDiff c p s l : keeps (applyDiff c p s l).
Proof. unfold applyDiff, diff_snapshot, diff_db_state. keep. Qed.
Lemma keeps_PublishSubscriptions c : keeps (PublishSubscriptions c).
Proof. unfold PublishSubscriptions, sendSubscribe. keep. Qed.
Lemma keeps_PublishPairUnsubscribe p : keeps (PublishPairUnsubscribe p).
Proof. unfold PublishPairUnsubscribe. keep. Qed.
#[local] Hint Resolve keeps_PublishPairUnsubscribe : axion_keeps.
Lemma keeps_PublishPairUpdate p : keeps (PublishPairUpdate p).
Proof. unfold PublishPairUpdate, sendSubscribe. keep. Qed.
End Keeps.

#[export] Hint Resolve keeps_now keeps_Send keeps_lift keeps_GetPair keeps_GetClient keeps_GetFileState
  keeps_ListPairsForClient keeps_ListFileStates keeps_LoadAllSettings keeps_UpsertFileState
  keeps_AppendAuditLog keeps_UpsertClient keeps_UpdateClientStatus keeps_InsertSyncRun keeps_call
  keeps_HandleFileChanged keeps_applyDiff keeps_PublishSubscriptions keeps_PublishPairUpdate
  keeps_PublishPairUnsubscribe : axion_keeps.

Section Server.
Context {clk : Clock}.
Notation W := (world hub).
Notation safe := (kept tables_ok hub_reachable).

Lemma hub_Send_reachable c e : preserves hub_reachable (net_send c e).
Proof. intros h Hh. eapply reach_step; [exact Hh|]. apply (step_send c e). Qed.

Lemma hub_Send_objs c e objs : preserves (fun h => h_objs h = objs) (net_send c e).
Proof.
  intros h Hh. unfold net_send, hub_sender, hub_Send. destruct (h_conns h !! c) as [k|]; [|done].
  destruct (h_objs h !! k) as [o|]; [|done]. by destruct (writable o).
Qed.

Lemma hub_Send_both c e objs :
  preserves (fun h => hub_reachable h /\ h_objs h = objs) (net_send c e).
Proof. intros h [H1 H2]. split; [by apply hub_Send_reachable|by apply hub_Send_objs]. Qed.

Lemma keeps_HandleEnvelope {P : tables -> Prop} {Q : hub -> Prop} id env :
  (forall c, preserves (fun s => P (db s)) (run_call c)) -> (forall c e, preserves Q (net_send c e)) ->
  preserves (kept P Q) (HandleEnvelope id env).
Proof. intros HP HQ. unfold HandleEnvelope, HandleFileSyncAck. keep. Qed.

Lemma keeps_onDisconnect {P : tables -> Prop} {Q : hub -> Prop} id :
  (forall c, preserves (fun s => P (db s)) (run_call c)) -> preserves (kept P Q) (onDisconnect id).
Proof. intros HP. unfold onDisconnect. keep. Qed.

(** The end of a connection is [run_exit] for the hub, whatever the store does. *)
Lemma onDisconnect_net id (w : W) : w_net (snd (onDisconnect id w)) = w_net w.
Proof.
  assert (preserves (fun w' : W => w_net w' = w_net w) (onDisconnect id)) as H; [|by apply H].
  assert (forall A (m : M store A), preserves (fun w' : W => w_net w' = w_net w) (on_store m)) as Hs.
  { intros A m w' Hw. unfold on_store. by destruct (m (w_store w')). }
  unfold onDisconnect. apply preserves_bind; [apply Hs|]. intros t.
  apply preserves_try; [apply Hs|]. intros r. apply preserves_try; [apply Hs|]. intros. apply preserves_ret.
Qed.

Lemma onDisconnect_ok id (w : W) : fst (onDisconnect id w) = Ok tt.
Proof.
  unfold onDisconnect, bind at 1, on_store at 1, now, try.
  destruct (on_store (UpdateClientStatus _ _ _) _) as [r1 w1]. by destruct (on_store (GetClient id) w1).
Qed.

Lemma conn_end_eq c id (w : W) :
  conn_end c id w =
  (Ok tt, MkWorld (w_store (snd (onDisconnect id (MkWorld (w_store w) (Unregister c (Conn_Close c (w_net w)))))))
            (run_exit c (w_net w))).
Proof.
  unfold conn_end, bind, on_hub. set (w1 := MkWorld _ _).
  pose proof (onDisconnect_ok id w1) as H1. pose proof (onDisconnect_net id w1) as H2.
  destruct (onDisconnect id w1) as [r w2]. cbn in H1, H2. subst r. cbn. by rewrite H2.
Qed.

Lemma safe_conn_end c k (w : W) :
  h_objs (w_net w) !! c = Some k -> k_running k = true -> safe w ->
  safe (snd (conn_end c (k_client k) w)).
Proof.
  intros Hk Hr [H1 H2]. rewrite conn_end_eq. cbn. split.
  - apply (keeps_onDisconnect (P:=tables_ok) (Q:=fun _ => True) (k_client k) run_call_preserves
      (MkWorld (w_store w) _)). by split.
  - eapply reach_step; [exact H2|]. pose proof (step_frame (fun _ _ => true) c k None _ Hk Hr) as Hs.
    unfold on_frame in Hs. by rewrite Hk in Hs.
Qed.

Lemma safe_read_frame c k data (w : W) :
  h_objs (w_net w) !! c = Some k -> k_running k = true -> safe w ->
  safe (snd (read_frame c (k_client k) data w)).
Proof.
  intros Hk Hr Hw. unfold read_frame. destruct data as [e|text j]; [by apply safe_conn_end|].
  destruct (Unmarshal j) as [env|e]; [|by apply safe_conn_end].
  destruct (bool_decide (env_Type env = TypePong)) eqn:Ht; [done|].
  destruct (_ && _) eqn:Hc.
  - destruct Hw as [H1 H2]. split; [done|]. cbn. eapply reach_step; [exact H2|].
    pose proof (step_frame (fun _ _ => true) c k (Some env) _ Hk Hr) as Hs.
    unfold on_frame in Hs. by rewrite Hk, Ht, Hc in Hs.
  - unfold try.
    pose proof (keeps_HandleEnvelope (P:=tables_ok)
      (Q:=fun h => hub_reachable h /\ h_objs h = h_objs (w_net w)) (k_client k) env run_call_preserves
      (fun c e => hub_Send_both c e _) w) as H.
    destruct Hw as [H1 H2]. specialize (H ltac:(split; [done|by split])).
    destruct (HandleEnvelope (k_client k) env w) as [[u|e] w']; destruct H as (H3 & H4 & H5); [done|].
    cbn in H3, H4, H5. apply safe_conn_end; [by rewrite H5|done|done].
Qed.

Lemma safe_ServeWS first written : preserves safe (ServeWS first written).
Proof.
  unfold ServeWS, ws_audit, register_answer. pose proof run_call_preserves. pose proof hub_Send_reachable.
  destruct (receiveRegisterRequest first) as [req|bad]; [|apply preserves_ret]. keep.
  intros w [Hdb Hhub]. destruct (NewConn (rr_ClientID req) (w_net w)) as [c h] eqn:Ec.
  split; [done|]. cbn. eapply reach_step; [exact Hhub|]. by eapply step_accept.
Qed.

(** C7. *)
Theorem server_integrity (w : W) :
  server_reachable w -> tables_ok (db (w_store w)) /\ hub_reachable (w_net w).
Proof.
  induction 1 as [faults n|w w' _ IH Hs]; [split; [apply empty_tables_ok|constructor]|].
  change (safe w) in IH. change (safe w').
  pose proof run_call_preserves as HP. pose proof hub_Send_reachable as HQ.
  destruct Hs; try (by destruct IH; split; [|eapply reach_step; [done|by econstructor]]).
  - by apply safe_ServeWS.
  - assert (preserves safe (onConnect id)) as Hp by (unfold onConnect; keep). by apply Hp.
  - by apply safe_read_frame.
  - by apply keeps_applyDiff.
  - by apply keeps_call.
  - by apply keeps_PublishPairUpdate.
  - by apply keeps_PublishPairUnsubscribe.
Qed.
End Server.

(** ** What one registration, one frame and one disconnection do *)
Section Effects.
Context {clk : Clock}.
Notation W := (world hub).

Definition message {A} `{!JsonCodec A} (type corr : string) (a : A) : ws_read :=
  ReadMessage true (Some (encode_json (MkEnvelope type corr (Some (encode_json a))))).

Lemma Unmarshal_message {A} `{!JsonCodec A} type corr (a : A) :
  Unmarshal (Some (encode_json (MkEnvelope type corr (Some (encode_json a))))) =
  Ok (MkEnvelope type corr (Some (encode_json a))).
Proof. apply Unmarshal_encode. Qed.

(** The audit entry of a registration. *)
Definition register_entry (req : RegisterRequest) (ts : Z) : AuditEntry :=
  MkAuditEntry ts "client_register" (Some (rr_ClientID req)) None None (Some (register_detail req)).

Definition registered_tables (req : RegisterRequest) (n : nat) (t : tables) : tables :=
  set_audit (fun l => l ++ [register_entry req (clock (S n))])
    (set_clients (upsert_client_row (registered_client req (clock n))) t).

(** The handshake of a well-formed, compatible request on a working database. *)
Lemma ServeWS_eq req t n h :
  protoVersionCompatible (rr_ProtoVersion req) ProtoVersion = true ->
  ServeWS (message TypeRegisterRequest "" req) true (quiet t n h) =
  (Ok (Running (h_fresh h) (MkEnvelope TypeRegisterResponse ""
         (Some (encode_json (MkRegisterResponse true (clock (S (S n))) (fst <$> t_settings t) ""))))),
   MkWorld (MkStore (registered_tables req n t) [] (S (S (S n))))
     (Register (h_fresh h) (snd (NewConn (rr_ClientID req) h)))).
Proof.
  intros Hv. assert (json_wf req) as Hw by exact I. unfold ServeWS, message, receiveRegisterRequest. rewrite Unmarshal_message.
  cbn [env_Type env_Payload]. decide_closed. cbn [negb].
  rewrite (UnmarshalPayload_encode req Hw), Hv. reflexivity.
Qed.

(** The new connection is the client's, and the only one that can be written to. *)
Lemma register_hub id h :
  hub_reachable h ->
  let h' := Register (h_fresh h) (snd (NewConn id h)) in
  h_conns h' !! id = Some (h_fresh h) /\ hub_up h' id = true /\
  (forall other, other <> id -> h_conns h' !! other = h_conns h !! other) /\
  (forall old, h_conns h !! id = Some old ->
     exists k, h_objs h' !! old = Some k /\ k_client k = id /\ k_closed k = true /\ k_running k = true).
Proof.
  intros Hre. destruct (hub_reachable_ok _ Hre) as [Hc _].
  assert (forall old, h_conns h !! id = Some old -> exists k, h_objs h !! old = Some k /\
            k_client k = id /\ k_running k = true /\ h_fresh h <> old) as Hold.
  { intros old Ho. destruct (co_registered h Hc _ _ Ho) as (k & Hk & Hid & Hr).
    pose proof (co_fresh h Hc _ _ Hk). exists k. repeat split; try done. lia. }
  intros h'. unfold h', NewConn, Register, hub_up. cbn [snd fst h_objs h_conns set_objs set_fresh].
  rewrite lookup_insert_eq. cbn [k_client].
  destruct (h_conns h !! id) as [old|] eqn:Eo.
  - destruct (Hold old eq_refl) as (k & Hk & Hid & Hr & Hne). cbn.
    rewrite lookup_insert_eq, lookup_alter_eq, lookup_alter_ne, lookup_insert_eq by done. cbn.
    repeat split; [intros other Ho; by rewrite lookup_insert_ne|].
    intros old' [= <-]. rewrite lookup_alter_ne, lookup_alter_eq, lookup_insert_ne, Hk by done. cbn.
    eexists. split; [done|]. by cbn.
  - cbn. rewrite lookup_insert_eq, lookup_alter_eq, lookup_insert_eq. cbn.
    repeat split; [intros other Ho; by rewrite lookup_insert_ne|]. done.
Qed.

(** Registration: a compatible request is answered with the server's settings, which
    the client can decode; the client's row is [online] with the request's data, a
    returning client keeping its creation time and its etag growing by one; the
    registration is audited; the new connection is the client's one and can be written
    to, the one it replaces is closed, and nobody else's changes. *)
Theorem registration req t n h :
  protoVersionCompatible (rr_ProtoVersion req) ProtoVersion = true -> hub_reachable h ->
  in_int64 (clock (S (S n))) = true ->
  let id := rr_ClientID req in
  exists c answer t' h',
    ServeWS (message TypeRegisterRequest "" req) true (quiet t n h) =
      (Ok (Running c answer), quiet t' (S (S (S n))) h') /\
    UnmarshalPayload (env_Payload answer) =
      Ok (MkRegisterResponse true (clock (S (S n))) (fst <$> t_settings t) "") /\
    (exists row, t_clients t' !! id = Some row /\ c_Status row = "online" /\
       c_Hostname row = rr_Hostname req /\ c_RootPath row = rr_RootPath req /\ c_LastSeen row = clock n /\
       match t_clients t !! id with
       | Some o => c_CreatedAt row = c_CreatedAt o /\ c_Etag row = c_Etag o + 1
       | None => c_CreatedAt row = clock n /\ c_Etag row = 0
       end) /\
    (forall other, other <> id -> t_clients t' !! other = t_clients t !! other) /\
    t_pairs t' = t_pairs t /\ t_files t' = t_files t /\
    t_audit t' = t_audit t ++ [register_entry req (clock (S n))] /\
    h_conns h' !! id = Some c /\ hub_up h' id = true /\
    (forall other, other <> id -> h_conns h' !! other = h_conns h !! other) /\
    (forall old, h_conns h !! id = Some old -> exists k, h_objs h' !! old = Some k /\ k_closed k = true).
Proof.
  intros Hv Hre Hclk id. destruct (register_hub id h Hre) as (Hc & Hup & Hothers & Hold).
  do 4 eexists. split; [by apply ServeWS_eq|].
  split; [by apply (UnmarshalPayload_encode (MkRegisterResponse true (clock (S (S n))) _ ""))|].
  unfold registered_tables, upsert_client_row. cbn [t_clients t_pairs t_files t_audit set_audit set_clients].
  change (c_ID (registered_client req (clock n))) with id.
  split; [|split].
  - destruct (t_clients t !! id) as [o|]; rewrite lookup_insert_eq; eexists; by split.
  - intros other Ho. destruct (t_clients t !! id); by rewrite lookup_insert_ne.
  - repeat split; try done. intros old Ho. destruct (Hold old Ho) as (k & Hk & _ & Hcl & _). by exists k.
Qed.
(** Reading a report is handling it; the connection goes on. *)
Lemma report_frame_eq c k ev t n h s' :
  json_wf ev -> Engine.HandleFileChanged k ev (quiet t n h) = (Ok tt, s') ->
  read_frame c k (message TypeFileChangedEvent "" ev) (quiet t n h) = (Ok tt, s').
Proof.
  intros Hwf Hrun. unfold read_frame, message. rewrite Unmarshal_message. cbn [env_Type env_CorrelationID]. decide_closed.
  rewrite (bool_decide_false ("" <> "")) by (intros Hne; by apply Hne). cbn [andb].
  unfold try, HandleEnvelope. cbn [env_Type env_Payload]. decide_closed.
  unfold bind at 1, wrapped. rewrite (UnmarshalPayload_encode ev Hwf). cbn [lift ret]. by rewrite Hrun.
Qed.

Lemma mirror_frame c k p ev t n h dst side path :
  t_pairs t !! ev_PairID ev = Some p -> tables_ok t -> p_Enabled p = true ->
  mirror_route p ev dst side path -> hub_up h dst = true -> json_wf ev ->
  exists h',
    read_frame c k (message TypeFileChangedEvent "" ev) (quiet t n h) =
      (Ok tt, quiet (add_run (ok_run p k dst ev (clock (S n))) (store_event ev n t)) (S (S n)) h') /\
    h_sent h' = h_sent h ++ [(dst, command_envelope (mirror_command k side ev))] /\ hub_up h' = hub_up h.
Proof.
  intros Hp Hok He Hr Hup Hwf.
  destruct (mirror_route_targets _ _ _ _ _ Hr) as [_ Hd].
  destruct (runs_mirror (HL:=hub_sender_laws) k p ev t n h dst side path Hp Hok Hr Hup)
    as (h' & Hrun & Hlog & Hup').
  exists h'. split; [|done]. apply report_frame_eq; [done|].
  by rewrite (HandleFileChanged_mirror k p ev t n h Hp He Hd), Hrun.
Qed.

(** From one socket to the other: when a client reports a change on the source side
    of a one-way pair, the command is written to the destination's socket, and what the
    destination reads from it is that command: [delete] for a deletion, [fetch] with the
    content hash otherwise; the report and the run are stored, no connection ends. *)
Theorem change_reaches_peer c k p ev t n h dst side path :
  t_pairs t !! ev_PairID ev = Some p -> tables_ok t -> p_Enabled p = true ->
  mirror_route p ev dst side path -> hub_up h dst = true -> json_wf ev ->
  exists h' env,
    read_frame c k (message TypeFileChangedEvent "" ev) (quiet t n h) =
      (Ok tt, quiet (add_run (ok_run p k dst ev (clock (S n))) (store_event ev n t)) (S (S n)) h') /\
    h_sent h' = h_sent h ++ [(dst, env)] /\ hub_up h' = hub_up h /\
    exists data, Marshal env = Ok data /\ Unmarshal (Some data) = Ok env /\
      env_Type env = TypeFileSyncCommand /\
      UnmarshalPayload (env_Payload env) = Ok (mirror_command k side ev).
Proof.
  intros Hp Hok He Hr Hup Hwf.
  destruct (mirror_frame c k p ev t n h dst side path Hp Hok He Hr Hup Hwf) as (h' & Hrun & Hsent & Hup').
  exists h', (command_envelope (mirror_command k side ev)). do 3 (split; [done|]).
  eexists. split; [done|]. split; [apply Unmarshal_encode|]. split; [done|].
  by apply (UnmarshalPayload_encode (mirror_command k side ev)).
Qed.

(** The row of a client that has just been marked offline. *)
Definition offline_row (n : nat) (o : Client) : Client :=
  MkClient (c_ID o) (c_DisplayName o) (c_Hostname o) (c_RootPath o) (c_Version o)
    (c_ProtoVersion o) "offline" (clock n) (c_CreatedAt o) (clock (S n)) (c_Etag o).

Lemma GetClient_eq id t n : exists r, GetClient id (MkStore t [] n) = (r, MkStore t [] n).
Proof.
  unfold GetClient, bind, wrapped, query_row, sql. cbn. destruct (t_clients t !! id); by eexists.
Qed.

Lemma read_error_eq c id e t n h :
  read_frame c id (ReadError e) (quiet t n h) =
  (Ok tt, quiet (set_clients (alter (offline_row n) id) t) (S (S n)) (run_exit c h)).
Proof.
  unfold read_frame. rewrite conn_end_eq.
  unfold onDisconnect, bind at 1, try, on_store, now. cbn.
  match goal with |- context [GetClient id (MkStore ?t' [] ?n')] =>
    destruct (GetClient_eq id t' n') as [r ->] end. done.
Qed.

Lemma run_exit_registered c k h :
  h_objs h !! c = Some k ->
  h_conns (run_exit c h) =
    if bool_decide (h_conns h !! k_client k = Some c) then delete (k_client k) (h_conns h) else h_conns h.
Proof.
  intros Hk. unfold run_exit, Unregister, Conn_Close. cbn. rewrite lookup_alter_eq, Hk. cbn.
  by case_bool_decide.
Qed.

(** Losing the connection: the read loop of the client's registered connection ends,
    the client is unregistered and its row says [offline] with the time it was last
    seen; every other client keeps its row and its connection, and nothing is sent. *)
Theorem disconnection c k e t n h :
  hub_reachable h -> h_objs h !! c = Some k -> h_conns h !! k_client k = Some c ->
  let id := k_client k in
  exists t' h',
    read_frame c id (ReadError e) (quiet t n h) = (Ok tt, quiet t' (S (S n)) h') /\
    IsOnline id h' = false /\
    (forall o, t_clients t !! id = Some o ->
       exists o', t_clients t' !! id = Some o' /\ c_Status o' = "offline" /\ c_LastSeen o' = clock n) /\
    (forall other, other <> id -> t_clients t' !! other = t_clients t !! other /\
       h_conns h' !! other = h_conns h !! other) /\
    t_pairs t' = t_pairs t /\ t_files t' = t_files t /\ h_sent h' = h_sent h /\
    exists k', h_objs h' !! c = Some k' /\ k_closed k' = true /\ k_running k' = false.
Proof.
  intros Hre Hk Hreg id. do 2 eexists. split; [apply read_error_eq|].
  unfold IsOnline. rewrite (run_exit_registered c k h Hk), bool_decide_true, lookup_delete_eq by done.
  split; [done|]. split; [intros o Ho; exists (offline_row n o); cbn; by rewrite lookup_alter_eq, Ho|].
  split; [intros other Ho; split; [cbn; by rewrite lookup_alter_ne|by rewrite lookup_delete_ne]|].
  split; [done|]. split; [done|].
  unfold run_exit, Unregister, Conn_Close. cbn. rewrite lookup_alter_eq, Hk. cbn.
  case_bool_decide; cbn; (split; [done|]); rewrite !lookup_alter_eq, Hk; eexists; (split; [reflexivity|done]).
Qed.

(** The end of a connection that has been replaced marks its client [offline] although
    the client is registered and can be written to. *)
Theorem stale_disconnection_marks_offline c c' k e t n h o :
  h_objs h !! c = Some k -> h_conns h !! k_client k = Some c' -> c' <> c ->
  hub_up h (k_client k) = true -> t_clients t !! k_client k = Some o ->
  exists t' h' o',
    read_frame c (k_client k) (ReadError e) (quiet t n h) = (Ok tt, quiet t' (S (S n)) h') /\
    hub_up h' (k_client k) = true /\ t_clients t' !! k_client k = Some o' /\ c_Status o' = "offline".
Proof.
  intros Hk Hreg Hne Hup Ho. do 2 eexists. exists (offline_row n o). split; [apply read_error_eq|].
  split; [|cbn; by rewrite lookup_alter_eq, Ho].
  unfold hub_up in *. rewrite (run_exit_registered c k h Hk), bool_decide_false by congruence.
  rewrite Hreg in *. unfold run_exit, Unregister, Conn_Close. cbn. rewrite lookup_alter_eq, Hk. cbn.
  rewrite bool_decide_false by congruence. cbn. by rewrite !lookup_alter_ne.
Qed.

(** The side whose snapshot a connecting client is asked for is the side it has been
    subscribed to, for a pair of two different clients. *)
Lemma snapshot_side_is_subscribed c p :
  p_ClientAID p <> p_ClientBID p -> pair_of_client c p = true -> p_Enabled p = true ->
  snapshot_requests c [p] = [(p_ID p, (sideAndPathFor p c).1)].
Proof.
  intros Hne Hc He. unfold snapshot_requests, sideAndPathFor. cbn. rewrite He. cbn. f_equal. f_equal.
  unfold pair_of_client in Hc. rewrite orb_true_iff, !bool_decide_eq_true in Hc.
  repeat case_bool_decide; cbn; naive_solver congruence.
Qed.

(** For a pair a client has with itself the two differ: it is subscribed to side [a] and
    asked for the snapshot of side [b]. *)
Theorem self_pair_sides_differ c p :
  p_ClientAID p = c -> p_ClientBID p = c -> p_Enabled p = true ->
  snapshot_requests c [p] = [(p_ID p, "b")] /\ (sideAndPathFor p c).1 = "a".
Proof.
  intros HA HB He. unfold snapshot_requests, sideAndPathFor. cbn. rewrite He. cbn.
  by rewrite !bool_decide_true by done.
Qed.
End Effects.

(** *** Witnesses *)
Section Witnesses.
Import Demo.

Definition alice_request : RegisterRequest := MkRegisterRequest "alice" "laptop" "/data" "0.1" "1.3".
Definition no_server : world hub := MkWorld (MkStore empty_tables [] 0) New.
Definition alice_server : world hub := snd (ServeWS (message TypeRegisterRequest "" alice_request) true no_server).

Lemma server_integrity_witness :
  (exists row, t_clients (db (w_store alice_server)) !! "alice" = Some row) /\ tables_ok (db (w_store alice_server)).
Proof.
  split; [eexists; vm_compute; reflexivity|].
  apply (server_integrity alice_server). unfold alice_server.
  eapply server_next; [apply server_init|apply step_register].
Defined.

Lemma registration_witness : exists c answer t' h',
  ServeWS (message TypeRegisterRequest "" alice_request) true (quiet (content "a_to_b" []) 0 both_online) =
    (Ok (Running c answer), quiet t' 3 h') /\ hub_up h' "alice" = true.
Proof.
  assert (hub_reachable both_online) as Hre.
  { do 2 (eapply reach_step; [|by eapply step_accept]). constructor. }
  pose proof (registration (clk:=demo_clock) alice_request (content "a_to_b" []) 0 both_online
    ltac:(vm_compute; reflexivity) Hre ltac:(vm_compute; reflexivity)) as H.
  destruct H as (c & answer & t' & h' & H1 & _ & _ & _ & _ & _ & _ & _ & H2 & _).
  exists c, answer, t', h'. split; [exact H1|exact H2].
Defined.

Lemma change_reaches_peer_witness : exists w' env,
  read_frame 0 "alice" (message TypeFileChangedEvent "" (event "a" "n.txt" "abc" "write"))
    (quiet (content "a_to_b" []) 0 both_online) = (Ok tt, w') /\
  h_sent (w_net w') = [("bob", env)] /\
  UnmarshalPayload (env_Payload env) = Ok (MkFileSyncCommand "p1" "b" "n.txt" "abc" "fetch" "" "alice").
Proof.
  destruct (change_reaches_peer 0 "alice" (the_pair "a_to_b") (event "a" "n.txt" "abc" "write")
    (content "a_to_b" []) 0 both_online "bob" "b" "mirror/docs"
    ltac:(vm_compute; reflexivity) (content_ok _ _) eq_refl (or_introl (conj eq_refl (conj eq_refl
      (conj eq_refl (conj eq_refl eq_refl))))) ltac:(vm_compute; reflexivity) (conj eq_refl eq_refl))
    as (h' & env & H1 & H2 & _ & (data & _ & _ & _ & H3)).
  eexists _, env. split; [exact H1|]. split; [exact H2|exact H3].
Defined.

Lemma disconnection_witness : exists t' h',
  read_frame 0 "alice" (ReadError (Errorf "EOF")) (quiet (content "a_to_b" []) 0 alice_online) =
    (Ok tt, quiet t' 2 h') /\ IsOnline "alice" h' = false.
Proof.
  assert (hub_reachable alice_online) as Hre.
  { eapply reach_step; [|by eapply step_accept]. constructor. }
  destruct (disconnection 0 (MkConn "alice" false false true) (Errorf "EOF") (content "a_to_b" []) 0
    alice_online Hre ltac:(vm_compute; reflexivity) ltac:(vm_compute; reflexivity))
    as (t' & h' & H1 & H2 & _).
  exists t', h'. split; [exact H1|exact H2].
Defined.
End Witnesses.
