(* ===== verification/Paths.v ===== *)
(** Go's [path/filepath] on a Unix system, as far as the program uses it: [Split] at
    slashes, [Join] of elements, [Clean], and the reading of a clean relative path as its
    list of elements.  [ToSlash] is the identity. *)
From S2P Require Import Prelude GoStrings.
From Stdlib Require Import Ascii.
Local Open Scope Z_scope.

Definition slash : ascii := "/"%char.

(** [strings.Split(s, "/")] *)
Fixpoint split_slash (s : string) : list string :=
  match s with
  | EmptyString => [EmptyString]
  | String c s' =>
      if bool_decide (c = slash) then EmptyString :: split_slash s'
      else match split_slash s' with
           | x :: l => String c x :: l
           | [] => [String c EmptyString]
           end
  end.

(** [strings.Join(l, "/")] *)
Fixpoint join_slash (l : list string) : string :=
  match l with
  | [] => EmptyString
  | [x] => x
  | x :: l' => x +:+ String slash (join_slash l')
  end.

(** One element of the path, the stack of what is kept being reversed: an empty one and
    "." are dropped, ".." takes back the element before it, unless that is ".." too or
    there is none; above the root there is nothing to take back. *)
Definition clean_step (rooted : bool) (acc : list string) (c : string) : list string :=
  if bool_decide (c = "") || bool_decide (c = ".") then acc
  else if bool_decide (c = "..") then
    match acc with
    | top :: rest => if bool_decide (top = "..") then c :: acc else rest
    | [] => if rooted then [] else [c]
    end
  else c :: acc.

Definition clean_elements (rooted : bool) (l : list string) : list string :=
  reverse (foldl (clean_step rooted) [] l).

(** [filepath.Clean] *)
Definition Clean (s : string) : string :=
  let rooted := HasPrefix s "/" in
  let l := clean_elements rooted (split_slash s) in
  if rooted then String slash (join_slash l)
  else if bool_decide (l = []) then "." else join_slash l.

(** [filepath.Dir] *)
Definition Dir (path : string) : string :=
  Clean (match removelast (split_slash path) with [] => "" | l => join_slash (l ++ [""]) end).

(** A relative path as its elements: "." has none. *)
Definition elements (p : string) : list string :=
  if bool_decide (p = ".") then [] else split_slash p.

Definition relative (p : string) : bool := negb (HasPrefix p "/").

(** ** Splitting and joining *)
Definition no_slash (x : string) : bool := sall (fun c => bool_decide (c <> slash)) x.

Lemma split_slash_cons s : exists x l, split_slash s = x :: l.
Proof.
  destruct s as [|c s]; [by eexists _, _|]. simpl. case_bool_decide; [by eexists _, _|].
  destruct (split_slash s); by eexists _, _.
Qed.

Lemma split_no_slash s : Forall (fun x => no_slash x = true) (split_slash s).
Proof.
  induction s as [|c s IH]; [by repeat constructor|]. simpl. case_bool_decide as Hc.
  - by constructor.
  - destruct (split_slash s) as [|x l]; inversion IH; subst; repeat constructor; try done;
      unfold no_slash in *; simpl; rewrite bool_decide_true by done; done.
Qed.

Lemma split_one x : no_slash x = true -> split_slash x = [x].
Proof.
  induction x as [|c x IH]; [done|]. unfold no_slash. simpl. intros [Hc Hx]%andb_true_iff.
  apply bool_decide_eq_true in Hc. rewrite bool_decide_false by done. by rewrite IH.
Qed.

Lemma split_app x s : no_slash x = true -> split_slash (x +:+ String slash s) = x :: split_slash s.
Proof.
  induction x as [|c x IH].
  - intros _. change (split_slash (String slash s) = "" :: split_slash s). reflexivity.
  - unfold no_slash. simpl. intros [Hc Hx]%andb_true_iff. apply bool_decide_eq_true in Hc.
    change (String c x +:+ String slash s) with (String c (x +:+ String slash s)). simpl.
    rewrite bool_decide_false by done. by rewrite IH.
Qed.

Lemma split_join l : l <> [] -> Forall (fun x => no_slash x = true) l -> split_slash (join_slash l) = l.
Proof.
  intros Hne Hl. induction Hl as [|x l Hx Hl IH]; [done|]. destruct l as [|y l]; [by apply split_one|].
  change (join_slash (x :: y :: l)) with (x +:+ String slash (join_slash (y :: l))).
  rewrite split_app by done. by rewrite IH.
Qed.

Lemma join_split s : join_slash (split_slash s) = s.
Proof.
  induction s as [|c s IH]; [done|]. simpl. destruct (split_slash_cons s) as (x & l & E). rewrite E in *.
  case_bool_decide as Hc; [subst c|].
  - change (join_slash ("" :: x :: l)) with (String slash (join_slash (x :: l))). by rewrite IH.
  - destruct l as [|y l].
    + simpl in *. by rewrite IH.
    + change (join_slash (String c x :: y :: l)) with (String c (x +:+ String slash (join_slash (y :: l)))).
      change (join_slash (x :: y :: l)) with (x +:+ String slash (join_slash (y :: l))) in IH. by rewrite IH.
Qed.

Lemma join_app l1 l2 :
  l1 <> [] -> l2 <> [] -> join_slash (l1 ++ l2) = join_slash l1 +:+ String slash (join_slash l2).
Proof.
  intros H1 H2. induction l1 as [|x l1 IH]; [done|]. destruct l1 as [|y l1].
  - destruct l2 as [|z l2]; [done|]. done.
  - change (join_slash ((x :: y :: l1) ++ l2)) with (x +:+ String slash (join_slash ((y :: l1) ++ l2))).
    change (join_slash (x :: y :: l1)) with (x +:+ String slash (join_slash (y :: l1))).
    rewrite IH by done. rewrite <- sapp_assoc. done.
Qed.

(** ** Clean paths

    [clean_form rooted l]: leading ".." elements, none when rooted, then names. *)
Definition is_name (x : string) : bool :=
  no_slash x && negb (bool_decide (x = "")) && negb (bool_decide (x = ".")) && negb (bool_decide (x = "..")).

Definition clean_form (rooted : bool) (l : list string) : Prop :=
  exists n names, l = replicate n ".." ++ names /\ (rooted = true -> n = 0%nat) /\
    Forall (fun x => is_name x = true) names.

Lemma is_name_spec x :
  is_name x = true <-> no_slash x = true /\ x <> "" /\ x <> "." /\ x <> "..".
Proof.
  unfold is_name. rewrite !andb_true_iff, !negb_true_iff, !bool_decide_eq_false. tauto.
Qed.

Lemma clean_step_form rooted acc c :
  clean_form rooted (reverse acc) -> no_slash c = true -> clean_form rooted (reverse (clean_step rooted acc c)).
Proof.
  intros (n & names & E & Hn & Hnames) Hc. unfold clean_step.
  destruct (decide (c = "")) as [->|H1]; [rewrite bool_decide_true by done; by exists n, names|].
  destruct (decide (c = ".")) as [->|H2]; [rewrite orb_true_r by done; by exists n, names|].
  rewrite !(bool_decide_false (c = _)) by done. cbn [orb].
  assert (is_name c = true \/ c = "..") as [Hname|Hdd].
  { destruct (decide (c = "..")); [by right|]. left. by apply is_name_spec. }
  - pose proof (proj1 (is_name_spec c) Hname) as (_ & _ & _ & Hdd). rewrite bool_decide_false by done.
    exists n, (names ++ [c]). rewrite reverse_cons, E, <- app_assoc. split; [done|]. split; [done|].
    apply Forall_app. by split; [|constructor].
  - subst c. rewrite bool_decide_true by done. destruct acc as [|top rest].
    + destruct rooted; [by exists 0%nat, []|]. by exists 1%nat, [].
    + rewrite reverse_cons in E. destruct (decide (names = [])) as [->|Hne].
      * rewrite app_nil_r in E. destruct n as [|n]; [by destruct (reverse rest)|].
        rewrite replicate_S_end in E. apply app_inj_tail in E as [E ->].
        rewrite bool_decide_true by done. exists (S (S n)), []. rewrite !reverse_cons, E, app_nil_r.
        rewrite <- !replicate_S_end. split; [done|]. split; [|done]. intros Hr. by specialize (Hn Hr).
      * destruct (exists_last Hne) as (names' & z & ->). rewrite app_assoc in E.
        apply app_inj_tail in E as [E ->]. apply Forall_app in Hnames as [Hnames' Hz].
        inversion Hz as [|? ? Hz' _]; subst. apply is_name_spec in Hz' as (_ & _ & _ & Hz').
        rewrite bool_decide_false by done. by exists n, names'.
Qed.

Lemma clean_elements_form rooted l :
  Forall (fun x => no_slash x = true) l -> clean_form rooted (clean_elements rooted l).
Proof.
  intros Hl. unfold clean_elements.
  assert (forall acc, clean_form rooted (reverse acc) -> clean_form rooted (reverse (foldl (clean_step rooted) acc l))) as H.
  { induction Hl as [|x l Hx _ IH]; intros acc Hacc; [done|]. cbn. apply IH. by apply clean_step_form. }
  apply H. by exists 0%nat, [].
Qed.

Lemma foldl_names rooted acc names :
  Forall (fun x => is_name x = true) names -> foldl (clean_step rooted) acc names = reverse names ++ acc.
Proof.
  intros H. revert acc. induction H as [|x l Hx _ IH]; intros acc; [done|]. cbn [foldl].
  rewrite IH, reverse_cons, <- app_assoc. cbn [app]. f_equal. unfold clean_step.
  apply is_name_spec in Hx as (_ & H1 & H2 & H3). by rewrite !bool_decide_false by done.
Qed.

Lemma clean_form_fixed rooted l : clean_form rooted l -> clean_elements rooted l = l.
Proof.
  intros (n & names & -> & Hn & Hnames). unfold clean_elements. rewrite foldl_app, foldl_names by done.
  assert (foldl (clean_step rooted) [] (replicate n "..") = replicate n "..") as ->.
  { destruct rooted; [by rewrite Hn by done|]. clear.
    assert (forall k m, foldl (clean_step false) (replicate k "..") (replicate m "..") = replicate (k + m) "..") as H.
    { intros k m. revert k. induction m as [|m IH]; intros k; [by rewrite Nat.add_0_r|]. cbn.
      assert (clean_step false (replicate k "..") ".." = replicate (S k) "..") as -> by (by destruct k).
      rewrite IH. f_equal. lia. }
    apply (H 0%nat n). }
  rewrite reverse_app, reverse_involutive. f_equal. apply reverse_replicate.
Qed.

Lemma clean_form_no_slash rooted l : clean_form rooted l -> Forall (fun x => no_slash x = true) l.
Proof.
  intros (n & names & -> & _ & Hnames). apply Forall_app. split.
  { apply Forall_forall. by intros x ->%elem_of_replicate_inv. }
  eapply Forall_impl; [exact Hnames|]. by intros x [Hx _]%is_name_spec.
Qed.

(** ** [Clean] *)

(** The elements of a cleaned relative path. *)
Lemma elements_Clean s :
  relative s = true -> elements (Clean s) = clean_elements false (split_slash s).
Proof.
  unfold relative. intros Hr%negb_true_iff. unfold Clean. rewrite Hr.
  pose proof (clean_elements_form false _ (split_no_slash s)) as Hf.
  destruct (clean_elements false (split_slash s)) as [|x l] eqn:E; [done|].
  rewrite bool_decide_false by done. unfold elements.
  pose proof (split_join (x :: l) ltac:(done) (clean_form_no_slash _ _ Hf)) as Hs.
  rewrite bool_decide_false; [done|]. intros Hdot. rewrite Hdot in Hs. cbn in Hs. injection Hs as <- <-.
  destruct Hf as (n & names & El & _ & Hn). destruct n as [|n]; [|done]. cbn in El. subst names.
  inversion Hn as [|? ? H1 _]; subst. by apply is_name_spec in H1 as (_ & _ & H1 & _).
Qed.

Lemma elements_clean_form s : relative s = true -> clean_form false (elements (Clean s)).
Proof. intros Hr. rewrite elements_Clean by done. apply clean_elements_form, split_no_slash. Qed.

(** A list of elements in clean form, as a path. *)
Definition of_elements (l : list string) : string := if bool_decide (l = []) then "." else join_slash l.

Lemma Clean_of_elements s :
  relative s = true -> Clean s = of_elements (elements (Clean s)).
Proof.
  intros Hr. rewrite elements_Clean by done. unfold Clean. unfold relative in Hr.
  apply negb_true_iff in Hr. by rewrite Hr.
Qed.

Lemma HasPrefix_slash s : HasPrefix s "/" = true <-> exists t, s = String slash t.
Proof. rewrite HasPrefix_spec. done. Qed.

Lemma relative_of_elements l : clean_form false l -> relative (of_elements l) = true.
Proof.
  intros Hf. unfold relative, of_elements. case_bool_decide as Hl; [done|].
  pose proof (clean_form_no_slash _ _ Hf) as Hs. destruct l as [|x l]; [done|].
  assert (x <> "") as Hx.
  { destruct Hf as (n & names & E & _ & Hn). destruct n as [|n]; cbn in E; [|by injection E as -> _].
    subst names. inversion Hn as [|? ? H1 _]; subst. by apply is_name_spec in H1 as (_ & H1 & _). }
  inversion Hs as [|? ? Hns _]; subst. destruct x as [|c x]; [done|]. unfold no_slash in Hns. cbn in Hns.
  apply andb_true_iff in Hns as [Hc%bool_decide_eq_true _]. apply negb_true_iff, not_true_is_false.
  intros [t Ht]%HasPrefix_slash. destruct l as [|y l];
    [|change (join_slash (String c x :: y :: l))
        with (String c (x +:+ String slash (join_slash (y :: l)))) in Ht];
    injection Ht as -> _; by apply Hc.
Qed.

Lemma elements_of_elements l : clean_form false l -> elements (of_elements l) = l.
Proof.
  intros Hf. unfold of_elements. case_bool_decide as Hl; [by subst|]. unfold elements.
  pose proof (split_join l Hl (clean_form_no_slash _ _ Hf)) as Hs. rewrite bool_decide_false; [done|].
  intros E. rewrite E in Hs. cbn in Hs. subst l. destruct Hf as (n & names & El & _ & Hn).
  destruct n as [|n]; [|done]. cbn in El. subst names.
  inversion Hn as [|? ? H1 _]; subst. by apply is_name_spec in H1 as (_ & _ & H1 & _).
Qed.

Lemma Clean_clean_form l : clean_form false l -> Clean (of_elements l) = of_elements l.
Proof.
  intros Hf. rewrite Clean_of_elements by (by apply relative_of_elements).
  f_equal. rewrite elements_Clean by (by apply relative_of_elements).
  transitivity (clean_elements false l); [|by apply clean_form_fixed].
  unfold of_elements. case_bool_decide as Hl; [by subst|]. f_equal.
  apply split_join; [done|]. by eapply clean_form_no_slash.
Qed.

(** Cleaning twice is cleaning once. *)
Lemma Clean_idempotent s : relative s = true -> Clean (Clean s) = Clean s.
Proof.
  intros Hr. rewrite (Clean_of_elements s) by done. by apply Clean_clean_form, elements_clean_form.
Qed.
