(* ===== verification/Ignore.v ===== *)
(** Which paths the client leaves out: [MatchIgnore] of internal/watcher/watcher.go with
    [filepath.Match], [filepath.Base] and [filepath.Join] on Unix, and the ignore list of
    internal/client/app/app.go.

    A [?] and a class take one byte, which is one character of an ASCII name. *)
From S2P Require Import Prelude GoStrings Json Paths.
From Stdlib Require Import Ascii.
Local Open Scope Z_scope.

(** ** [filepath.Match] *)
Inductive token : Type :=
| TStar
| TAny
| TChar (c : ascii)
| TClass (negated : bool) (ranges : list (ascii * ascii)).

(** [getEsc]: one character of a class; something must follow it. *)
Definition get_esc (s : string) : option (ascii * string) :=
  let ok c s' := match s' with EmptyString => None | _ => Some (c, s') end in
  match s with
  | String "\"%char (String c s') => ok c s'
  | String c s' =>
      if bool_decide (c = "\"%char) || bool_decide (c = "-"%char) || bool_decide (c = "]"%char) then None else ok c s'
  | EmptyString => None
  end.

(** A class after its opening; an item takes at least one character. *)
Fixpoint parse_class (fuel : nat) (acc : list (ascii * ascii)) (s : string) : option (list (ascii * ascii) * string) :=
  match fuel with
  | O => None
  | S fuel' =>
      match s with
      | String "]"%char s' => if bool_decide (acc = []) then None else Some (reverse acc, s')
      | _ =>
          match get_esc s with
          | None => None
          | Some (lo, String "-"%char s') =>
              match get_esc s' with
              | Some (hi, s'') => parse_class fuel' ((lo, hi) :: acc) s''
              | None => None
              end
          | Some (lo, s') => parse_class fuel' ((lo, lo) :: acc) s'
          end
      end
  end.

(** The tokens of a pattern, [None] when it is malformed. *)
Fixpoint parse_pattern (fuel : nat) (s : string) : option (list token) :=
  match fuel with
  | O => None
  | S fuel' =>
      match s with
      | EmptyString => Some []
      | String "*"%char s' => cons TStar <$> parse_pattern fuel' s'
      | String "?"%char s' => cons TAny <$> parse_pattern fuel' s'
      | String "["%char s' =>
          let '(neg, s') := match s' with String "^"%char s'' => (true, s'') | _ => (false, s') end in
          match parse_class fuel' [] s' with
          | Some (rs, s'') => cons (TClass neg rs) <$> parse_pattern fuel' s''
          | None => None
          end
      | String "\"%char EmptyString => None
      | String "\"%char (String c s') => cons (TChar c) <$> parse_pattern fuel' s'
      | String c s' => cons (TChar c) <$> parse_pattern fuel' s'
      end
  end.

Definition in_ranges (rs : list (ascii * ascii)) (c : ascii) : bool :=
  existsb (fun '(lo, hi) => (code lo <=? code c) && (code c <=? code hi)) rs.

Fixpoint glob (ts : list token) (s : string) : bool :=
  match ts with
  | [] => match s with EmptyString => true | _ => false end
  | TStar :: ts' =>
      (fix star (s : string) : bool :=
         glob ts' s || match s with String c s' => negb (bool_decide (c = slash)) && star s' | EmptyString => false end) s
  | TAny :: ts' => match s with String c s' => negb (bool_decide (c = slash)) && glob ts' s' | EmptyString => false end
  | TChar d :: ts' => match s with String c s' => bool_decide (c = d) && glob ts' s' | EmptyString => false end
  | TClass neg rs :: ts' =>
      match s with String c s' => xorb neg (in_ranges rs c) && glob ts' s' | EmptyString => false end
  end.

(** Whether it matches, its error being dropped. *)
Definition Match (pattern name : string) : bool :=
  match parse_pattern (S (slen pattern)) pattern with
  | Some ts => glob ts name
  | None => false
  end.

Example match_star : Match "*.pyc" "a.pyc" = true /\ Match "*.pyc" "a/b.pyc" = false /\ Match "*~" "x~" = true.
Proof. by vm_compute. Qed.
Example match_class : Match "[a-c]?" "bz" = true /\ Match "[^a-c]?" "bz" = false /\ Match "[]a]" "a" = false /\ Match "\*" "*" = true.
Proof. by vm_compute. Qed.

(** ** Paths *)
Definition Join (l : list string) : string :=
  match filter (fun x => x <> "") l with
  | [] => ""
  | l' => Clean (join_slash l')
  end.

Definition Base (path : string) : string :=
  if bool_decide (path = "") then "."
  else match last (filter (fun x => x <> "") (split_slash path)) with
       | None => "/"
       | Some b => b
       end.

(** ** The ignore list *)
Definition MatchIgnore (relPath : string) (patterns : list string) : bool :=
  let base := Base relPath in
  existsb (fun pattern => Match pattern base || HasPrefix relPath pattern) patterns.

Definition DefaultIgnoreList : list string := [
  ".git"; ".hg"; ".svn"; ".DS_Store"; "Thumbs.db"; "node_modules"; ".direnv"; "__pycache__"; ".venv"; "venv";
  "target"; "dist"; "build"; "out"; ".next"; ".nuxt"; ".svelte-kit"; ".cache"; ".idea"; ".vscode"; "result";
  "result-*"; ".gradle"; ".terraform"; "*.pyc"; "*.tmp"; "*.swp"; "*~"; "*.bak"].

(** [json.Unmarshal] into a []string: an array of strings ([null] elements are ""). *)
Definition parseIgnoreList (raw : option json) : list string :=
  match raw with
  | Some (JArr l) =>
      default [] (mapM (fun j => match j with JStr s => Some s | JNull => Some "" | _ => None end) l)
  | _ => []
  end.

Definition mergeIgnoreList (lists : list (list string)) : list string :=
  foldl (fun out p => if bool_decide (p = "") || bool_decide (p ∈ out) then out else out ++ [p]) [] (concat lists).

(** The merged list has every non-empty pattern of the lists, each once, in order. *)
Lemma mergeIgnoreList_spec lists p :
  p ∈ mergeIgnoreList lists <-> p <> "" /\ exists l, l ∈ lists /\ p ∈ l.
Proof.
  unfold mergeIgnoreList.
  assert (forall l acc, p ∈ foldl (fun out q => if bool_decide (q = "") || bool_decide (q ∈ out) then out else out ++ [q]) acc l
            <-> p ∈ acc \/ (p <> "" /\ p ∈ l)) as H.
  { induction l as [|q l IH]; intros acc; cbn [foldl]; [set_solver|]. rewrite IH.
    case_bool_decide as E1; [set_solver|]. case_bool_decide as E2; cbn [orb]; [set_solver|set_solver]. }
  assert (p ∈ concat lists <-> exists l, l ∈ lists /\ p ∈ l) as Hc.
  { rewrite list_elem_of_In, in_concat. setoid_rewrite list_elem_of_In. naive_solver. }
  rewrite H, Hc. set_solver.
Qed.

Lemma mergeIgnoreList_NoDup lists : NoDup (mergeIgnoreList lists).
Proof.
  unfold mergeIgnoreList. generalize (concat lists). intros l.
  assert (forall acc, NoDup acc -> NoDup (foldl (fun out q => if bool_decide (q = "") || bool_decide (q ∈ out) then out else out ++ [q]) acc l)) as H.
  { induction l as [|q l IH]; intros acc Hacc; cbn [foldl]; [done|]. apply IH.
    case_bool_decide; [done|]. case_bool_decide; [done|]. cbn [orb]. apply NoDup_app. repeat split; [done|set_solver|apply NoDup_singleton]. }
  apply H. constructor.
Qed.

(** A pattern without a wildcard is also a prefix: a file whose path only begins like an
    entry of the list is left out. *)
Theorem prefix_is_ignored pattern rest patterns : pattern ∈ patterns -> MatchIgnore (pattern +:+ rest) patterns = true.
Proof.
  intros Hp. unfold MatchIgnore. apply existsb_exists. exists pattern.
  split; [by apply list_elem_of_In|]. by rewrite HasPrefix_app, orb_true_r.
Qed.

(** So the default list drops a file output.txt and a directory building. *)
Theorem default_list_drops_more :
  MatchIgnore "output.txt" DefaultIgnoreList = true /\ MatchIgnore "building/plan.md" DefaultIgnoreList = true /\
  MatchIgnore "results.csv" DefaultIgnoreList = true /\ MatchIgnore "docs/out/x" DefaultIgnoreList = false.
Proof. by vm_compute. Qed.
