(* ===== verification/Registry.v ===== *)
(** internal/client/runner/subscription.go: the pairs a client is subscribed to, and which
    of them a changed path belongs to.

    The registry is the Go map from pair ids to subscriptions; [Resolve] runs over it in
    no fixed order, so what matters of its result is what it contains. *)
From S2P Require Import Prelude GoStrings Proto Paths.
Local Open Scope Z_scope.

Record Subscription : Type := MkSubscription {
  sb_PairID : string; sb_Side : string; sb_RootSubpath : string; sb_Direction : string
}.
Record ResolvedSubscription : Type := MkResolved { rv_PairID : string; rv_Side : string; rv_SubRel : string }.
#[export] Instance ResolvedSubscription_eq_dec : EqDecision ResolvedSubscription.
Proof. solve_decision. Defined.

Notation Registry := (gmap string Subscription).

Definition NewRegistry : Registry := ∅.

Definition Remove (pairID : string) (m : Registry) : Registry := delete pairID m.

(** An empty direction is the unsubscription. *)
Definition Apply (sub : SubscribePair) (m : Registry) : Registry :=
  if bool_decide (sp_Direction sub = "") then Remove (sp_PairID sub) m
  else <[sp_PairID sub := MkSubscription (sp_PairID sub) (sp_Side sub) (sp_RootSubpath sub) (sp_Direction sub)]> m.

Definition resolve_one (cleaned : string) (s : Subscription) : option ResolvedSubscription :=
  let root := Clean (sb_RootSubpath s) in
  if bool_decide (root = ".") || bool_decide (root = "")
  then Some (MkResolved (sb_PairID s) (sb_Side s) cleaned)
  else if bool_decide (cleaned = root) then Some (MkResolved (sb_PairID s) (sb_Side s) ".")
  else if HasPrefix cleaned (root +:+ "/")
  then Some (MkResolved (sb_PairID s) (sb_Side s) (TrimPrefix cleaned (root +:+ "/")))
  else None.

Definition Resolve (relPath : string) (m : Registry) : list ResolvedSubscription :=
  omap (resolve_one (Clean relPath)) (map_to_list m).*2.

Definition All (m : Registry) : list Subscription := (map_to_list m).*2.

(** ** Facts *)

(** The registries the program reaches: each entry is filed under its own id. *)
Definition registry_ok (m : Registry) : Prop := forall id s, m !! id = Some s -> sb_PairID s = id.

Lemma registry_ok_Apply sub m : registry_ok m -> registry_ok (Apply sub m).
Proof.
  intros Hm id s. unfold Apply, Remove. case_bool_decide; intros Hs.
  - apply lookup_delete_Some in Hs as [_ Hs]. by apply Hm.
  - apply lookup_insert_Some in Hs as [[<- <-]|[_ Hs]]; [done|by apply Hm].
Qed.

Lemma registry_ok_foldl subs m : registry_ok m -> registry_ok (foldl (fun m s => Apply s m) m subs).
Proof.
  revert m. induction subs as [|s subs IH]; intros m Hm; cbn; [exact Hm|]. by apply IH, registry_ok_Apply.
Qed.

(** A path as seen from the root of a subscription: what is left of it when the elements
    of the root are taken off its front. *)
Definition below (root rel sub : string) : Prop :=
  elements (Clean rel) = elements (Clean root) ++ elements sub /\ Clean sub = sub.

Lemma clean_form_suffix l1 l2 : clean_form false (l1 ++ l2) -> clean_form false l2.
Proof.
  intros (n & names & E & _ & Hn). destruct (decide (length l1 <= n)%nat) as [Hle|Hgt].
  - exists (n - length l1)%nat, names. split; [|by split].
    apply (f_equal (drop (length l1))) in E. rewrite drop_app_length in E. rewrite E.
    rewrite drop_app_le by (by rewrite length_replicate). by rewrite drop_replicate.
  - exists 0%nat, l2. split; [done|]. split; [done|].
    apply (f_equal (drop (length l1))) in E. rewrite drop_app_length in E. rewrite E.
    rewrite drop_app_ge by (rewrite length_replicate; lia). by apply Forall_drop.
Qed.

Lemma Clean_relative s : relative s = true -> relative (Clean s) = true.
Proof. intros Hr. rewrite Clean_of_elements by done. by apply relative_of_elements, elements_clean_form. Qed.

Lemma below_of_elements root rel l :
  relative rel = true -> elements (Clean rel) = elements (Clean root) ++ l -> below root rel (of_elements l).
Proof.
  intros Hr E. assert (clean_form false l) as Hl.
  { eapply clean_form_suffix. rewrite <- E. by apply elements_clean_form. }
  split; [by rewrite elements_of_elements|by apply Clean_clean_form].
Qed.

Lemma of_elements_clean sub : relative sub = true -> Clean sub = sub -> of_elements (elements sub) = sub.
Proof. intros Hr Hc. rewrite <- Hc at 1. rewrite <- Clean_of_elements by done. done. Qed.

Lemma below_inj root rel s1 s2 :
  relative s1 = true -> relative s2 = true -> below root rel s1 -> below root rel s2 -> s1 = s2.
Proof.
  intros R1 R2 [E1 C1] [E2 C2]. rewrite E1 in E2. apply app_inv_head in E2.
  rewrite <- (of_elements_clean s1), <- (of_elements_clean s2) by done. by rewrite E2.
Qed.

(** The string test of [Resolve] compares whole elements. *)
Lemma prefix_elements p l t :
  l <> [] -> clean_form false l ->
  p = join_slash l +:+ "/" +:+ t -> split_slash p = l ++ split_slash t.
Proof.
  intros Hne Hl ->. change ("/" +:+ t) with (String slash t).
  rewrite <- (join_split t) at 1. destruct (split_slash_cons t) as (x & r & E).
  rewrite <- join_app by (rewrite ?E; done). apply split_join.
  - destruct l; done.
  - apply Forall_app. split; [by eapply clean_form_no_slash|apply split_no_slash].
Qed.

Lemma elements_nonempty p : p <> "." -> elements p = split_slash p.
Proof. intros H. unfold elements. by rewrite bool_decide_false. Qed.

Lemma Clean_ne_empty s : relative s = true -> Clean s <> "".
Proof.
  intros Hr Hc. pose proof (elements_clean_form s Hr) as Hf. rewrite Hc in Hf.
  destruct Hf as (n & names & E & _ & Hn). destruct n as [|n]; [|done]. cbn in E. subst names.
  inversion Hn as [|? ? H1 _]; subst. by apply is_name_spec in H1 as (_ & H1 & _).
Qed.

Lemma resolve_one_spec rel s v :
  relative rel = true -> relative (sb_RootSubpath s) = true ->
  resolve_one (Clean rel) s = Some v <->
  rv_PairID v = sb_PairID s /\ rv_Side v = sb_Side s /\ relative (rv_SubRel v) = true /\
  below (sb_RootSubpath s) rel (rv_SubRel v).
Proof.
  intros Hrel Hroot. set (root := sb_RootSubpath s) in *.
  assert (forall sub, relative sub = true -> below root rel sub ->
    (Some v = Some (MkResolved (sb_PairID s) (sb_Side s) sub) <->
     rv_PairID v = sb_PairID s /\ rv_Side v = sb_Side s /\ relative (rv_SubRel v) = true /\
     below root rel (rv_SubRel v))) as Hsome.
  { intros sub Hs Hb. destruct v as [p d u]. cbn. split; [by intros [= -> -> ->]|].
    intros (-> & -> & Hu & Hb'). by rewrite (below_inj root rel u sub). }
  unfold resolve_one. fold root. cbv zeta.
  rewrite (bool_decide_false (Clean root = "")) by (by apply Clean_ne_empty). rewrite orb_false_r.
  case_bool_decide as Hdot.
  { rewrite (eq_comm (Some _)). apply Hsome; [by apply Clean_relative|].
    split; [by rewrite Hdot|by apply Clean_idempotent]. }
  case_bool_decide as Heq.
  { rewrite (eq_comm (Some _)). apply Hsome; [done|]. split; [by rewrite Heq, app_nil_r|done]. }
  pose proof (elements_clean_form root Hroot) as Hrf. pose proof (elements_clean_form rel Hrel) as Hf.
  assert (elements (Clean root) <> []) as Hne.
  { rewrite elements_nonempty by done. destruct (split_slash_cons (Clean root)) as (x & l & ->). done. }
  assert (Clean root = join_slash (elements (Clean root))) as Hjoin.
  { rewrite elements_nonempty by done. by rewrite join_split. }
  destruct (HasPrefix (Clean rel) (Clean root +:+ "/")) eqn:Hp.
  - apply HasPrefix_spec in Hp as [t Ht]. rewrite Ht, TrimPrefix_app.
    rewrite <- sapp_assoc, Hjoin in Ht. pose proof (prefix_elements _ _ _ Hne Hrf Ht) as Hs.
    assert (Clean rel <> ".") as Hd.
    { intros Hd. rewrite Hd in Hs. cbn in Hs. destruct (elements (Clean root)) as [|x [|y l]]; [done| |done].
      destruct (split_slash_cons t) as (z & r & E). by rewrite E in Hs. }
    rewrite <- (elements_nonempty (Clean rel)) in Hs by done.
    assert (below root rel (of_elements (split_slash t))) as Hb by (by apply below_of_elements).
    assert (of_elements (split_slash t) = t) as Et.
    { unfold of_elements. rewrite bool_decide_false; [apply join_split|].
      destruct (split_slash_cons t) as (z & r & ->). done. }
    rewrite Et in Hb. rewrite (eq_comm (Some _)). apply Hsome; [|done]. rewrite <- Et.
    apply relative_of_elements. eapply clean_form_suffix. rewrite <- Hs. done.
  - split; [done|]. intros (_ & _ & Hr & [He Hc]). exfalso.
    destruct (decide (elements (rv_SubRel v) = [])) as [Hnil|Hcons].
    + rewrite Hnil, app_nil_r in He. apply Heq. rewrite (Clean_of_elements rel), (Clean_of_elements root) by done.
      by rewrite He.
    + apply not_true_iff_false in Hp. apply Hp. apply HasPrefix_spec. exists (join_slash (elements (rv_SubRel v))).
      rewrite Hjoin, <- sapp_assoc. rewrite (Clean_of_elements rel), He by done. unfold of_elements.
      rewrite bool_decide_false by (by destruct (elements (Clean root))). by apply join_app.
Qed.

(** C32. A changed path belongs to exactly the subscriptions whose root it is under, whole
    path elements being compared, and it is reported to each with that pair's id and
    side and with the path that joins the root to it; the roots and the path being
    relative, whatever their spelling. *)
Theorem resolve_matches_subscriptions subs rel v :
  let m := foldl (fun m s => Apply s m) NewRegistry subs in
  relative rel = true -> (forall id s, m !! id = Some s -> relative (sb_RootSubpath s) = true) ->
  v ∈ Resolve rel m <->
  exists s, m !! rv_PairID v = Some s /\ rv_Side v = sb_Side s /\ relative (rv_SubRel v) = true /\
            below (sb_RootSubpath s) rel (rv_SubRel v).
Proof.
  intros m Hrel Hroots. assert (registry_ok m) as Hok.
  { apply registry_ok_foldl. intros id s. unfold NewRegistry. by rewrite lookup_empty. }
  clearbody m. unfold Resolve. rewrite list_elem_of_omap. split.
  - intros (s & Hs & Hv). apply list_elem_of_fmap in Hs as ([id s'] & -> & Hs). cbn in Hv.
    apply elem_of_map_to_list in Hs. apply resolve_one_spec in Hv as (E & H); [|done|by eapply Hroots].
    exists s'. rewrite E, (Hok _ _ Hs). done.
  - intros (s & Hs & H). exists s. split.
    + apply list_elem_of_fmap. exists (rv_PairID v, s). split; [done|]. by apply elem_of_map_to_list.
    + apply resolve_one_spec; [done|by eapply Hroots|]. by rewrite (Hok _ _ Hs).
Qed.

(** A second subscription for the same pair replaces the first: a client that is both ends
    of a pair watches one side only. *)
Theorem second_side_replaces_first id d r1 r2 m :
  d <> "" ->
  Apply (MkSubscribePair id "b" r2 d) (Apply (MkSubscribePair id "a" r1 d) m) !! id =
  Some (MkSubscription id "b" r2 d).
Proof.
  intros Hd. unfold Apply. cbn. rewrite bool_decide_false by done. by rewrite lookup_insert_eq.
Qed.

(** *** Witness *)
Definition demo_subs : list SubscribePair :=
  [MkSubscribePair "p1" "a" "work//docs/" "a_to_b"; MkSubscribePair "p2" "b" "work" "a_to_b";
   MkSubscribePair "p3" "b" "wo" "a_to_b"; MkSubscribePair "p4" "a" "." "a_to_b";
   MkSubscribePair "p4" "a" "." ""].

Lemma resolve_matches_subscriptions_witness :
  MkResolved "p1" "a" "x/y" ∈ Resolve "work/docs/x/./y" (foldl (fun m s => Apply s m) NewRegistry demo_subs).
Proof.
  apply (resolve_matches_subscriptions demo_subs "work/docs/x/./y"); [reflexivity| |].
  - intros id s Hs.
    assert (Forall (fun kv => relative (sb_RootSubpath kv.2) = true)
      (map_to_list (foldl (fun m s => Apply s m) NewRegistry demo_subs))) as H
      by (vm_compute; repeat constructor).
    rewrite Forall_forall in H. apply (H (id, s)). by apply elem_of_map_to_list.
  - exists (MkSubscription "p1" "a" "work//docs/" "a_to_b"). cbn [rv_PairID rv_Side rv_SubRel sb_Side sb_RootSubpath].
    split; [vm_compute; reflexivity|]. split; [reflexivity|]. split; [reflexivity|]. split; reflexivity.
Defined.
