(* ===== verification/Suppress.v ===== *)
(** internal/client/runner/suppress.go: the paths whose next watcher events are the
    client's own writes.

    Each method runs under the mutex, so it is one step; [now] is what [s.clock()]
    returns in it.  The goroutine of [StartGC] is a member of [s_loops] until it has
    seen its stop channel closed; each of its ticks is a [gcOnce]. *)
From S2P Require Import Prelude.
Local Open Scope Z_scope.

Record suppressEntry : Type := MkSuppressEntry {
  expiresAt : Z;
  shas : gset string       (* empty: any content *)
}.

Notation entries := (gmap string suppressEntry).

Record Suppressor : Type := MkSuppressor {
  s_m : entries;
  s_stopGC : option nat;   (* the stop channel, nil when no loop runs *)
  s_closed : gset nat;     (* the stop channels that are closed *)
  s_loops : gset nat;      (* the goroutines, by their stop channel *)
  s_fresh : nat
}.

Definition NewSuppressor : Suppressor := MkSuppressor ∅ None ∅ ∅ 0.

Definition set_entries f s := MkSuppressor (f (s_m s)) (s_stopGC s) (s_closed s) (s_loops s) (s_fresh s).

Definition sha_set (sha : string) : gset string := if bool_decide (sha = "") then ∅ else {[sha]}.

Definition add_entry (rel sha256 : string) (newExpiry : Z) (m : entries) : entries :=
  match m !! rel with
  | None => <[rel := MkSuppressEntry newExpiry (sha_set sha256)]> m
  | Some e =>
      let expiry := if expiresAt e <? newExpiry then newExpiry else expiresAt e in
      let set := if bool_decide (sha256 = "") then ∅ else {[sha256]} ∪ shas e in
      <[rel := MkSuppressEntry expiry set]> m
  end.

Definition Add (rel sha256 : string) (ttl now : Z) (s : Suppressor) : Suppressor :=
  set_entries (add_entry rel sha256 (now + ttl)) s.

(** The lookup of [Hit] and [HitWithSHA]: an expired entry is removed. *)
Definition live_entry (rel : string) (now : Z) (s : Suppressor) : option suppressEntry * Suppressor :=
  match s_m s !! rel with
  | None => (None, s)
  | Some e => if expiresAt e <? now then (None, set_entries (delete rel) s) else (Some e, s)
  end.

Definition Hit (rel : string) (now : Z) (s : Suppressor) : bool * Suppressor :=
  let '(e, s) := live_entry rel now s in
  (match e with Some _ => true | None => false end, s).

Definition HitWithSHA (rel sha256 : string) (now : Z) (s : Suppressor) : bool * Suppressor :=
  let '(e, s) := live_entry rel now s in
  (match e with
   | Some e => if bool_decide (shas e = ∅) then true else bool_decide (sha256 ∈ shas e)
   | None => false
   end, s).

Definition gcOnce (now : Z) (s : Suppressor) : Suppressor :=
  set_entries (filter (fun kv => (expiresAt kv.2 <? now) = false)) s.

Definition StartGC (s : Suppressor) : Suppressor :=
  match s_stopGC s with
  | Some _ => s
  | None => MkSuppressor (s_m s) (Some (s_fresh s)) (s_closed s) ({[s_fresh s]} ∪ s_loops s) (S (s_fresh s))
  end.

Definition StopGC (s : Suppressor) : Suppressor :=
  match s_stopGC s with
  | Some ch => MkSuppressor (s_m s) None ({[ch]} ∪ s_closed s) (s_loops s) (s_fresh s)
  | None => s
  end.

(** A goroutine sees its stop channel closed and returns. *)
Definition loop_exit (ch : nat) (s : Suppressor) : Suppressor :=
  MkSuppressor (s_m s) (s_stopGC s) (s_closed s) (s_loops s ∖ {[ch]}) (s_fresh s).

(** ** Histories

    A call with the time the clock shows in it. *)
Inductive suppress_call : Type :=
| CallAdd (rel sha256 : string) (ttl : Z)
| CallHit (rel : string)
| CallHitWithSHA (rel sha256 : string)
| CallTick
| CallStartGC
| CallStopGC
| CallLoopExit (ch : nat).

Definition run_suppress (now : Z) (c : suppress_call) (s : Suppressor) : Suppressor :=
  match c with
  | CallAdd rel sha ttl => Add rel sha ttl now s
  | CallHit rel => snd (Hit rel now s)
  | CallHitWithSHA rel sha => snd (HitWithSHA rel sha now s)
  | CallTick => if decide (s_loops s = ∅) then s else gcOnce now s
  | CallStartGC => StartGC s
  | CallStopGC => StopGC s
  | CallLoopExit ch => if decide (ch ∈ s_closed s) then loop_exit ch s else s
  end.

Notation history := (list (Z * suppress_call)).

Definition run_history (h : history) (s : Suppressor) : Suppressor :=
  foldl (fun s tc => run_suppress tc.1 tc.2 s) s h.

(** The time never goes back ([time.Now] has a monotonic reading). *)
Fixpoint monotone (t : Z) (h : history) : Prop :=
  match h with
  | [] => True
  | (t', _) :: h' => t <= t' /\ monotone t' h'
  end.

Fixpoint last_time (t : Z) (h : history) : Z :=
  match h with
  | [] => t
  | (t', _) :: h' => last_time t' h'
  end.

(** The specification: some [Add] of the history still covers [rel] at [now]. *)
Definition covered (rel : string) (now : Z) (h : history) : Prop :=
  exists t sha ttl, (t, CallAdd rel sha ttl) ∈ h /\ now <= t + ttl.

Definition live (rel : string) (now : Z) (s : Suppressor) : Prop :=
  exists e, s_m s !! rel = Some e /\ now <= expiresAt e.

Lemma Hit_live rel now s : fst (Hit rel now s) = true <-> live rel now s.
Proof.
  unfold Hit, live_entry, live. destruct (s_m s !! rel) as [e|]; [|by split; [|intros (? & ? & _)]].
  destruct (Z.ltb_spec (expiresAt e) now); cbn; split; try done.
  - intros (e' & [= <-] & H'). lia.
  - intros _. exists e. split; [done|lia].
Qed.

Lemma live_entry_keeps r rel t now s :
  t <= now -> live rel now (snd (live_entry r t s)) <-> live rel now s.
Proof.
  intros Ht. unfold live_entry. destruct (s_m s !! r) as [e|] eqn:E; [|done].
  destruct (Z.ltb_spec (expiresAt e) t); [|done]. unfold live. cbn.
  destruct (decide (r = rel)) as [<-|Hne].
  - rewrite lookup_delete_eq, E. split; [by intros (? & ? & _)|]. intros (e' & [= <-] & H'). lia.
  - by rewrite lookup_delete_ne.
Qed.

Lemma gc_keeps rel t now s : t <= now -> live rel now (gcOnce t s) <-> live rel now s.
Proof.
  intros Ht. unfold live, gcOnce. cbn. split.
  - intros (e & [H _]%map_lookup_filter_Some & He). by exists e.
  - intros (e & H & He). exists e. split; [|done]. apply map_lookup_filter_Some. split; [done|].
    cbn. apply Z.ltb_ge. lia.
Qed.

Lemma Add_live r sha ttl t rel now s :
  live rel now (Add r sha ttl t s) <-> live rel now s \/ (r = rel /\ now <= t + ttl).
Proof.
  unfold live, Add, add_entry. cbn. destruct (decide (r = rel)) as [<-|Hne].
  - destruct (s_m s !! r) as [e|] eqn:E; rewrite lookup_insert_eq.
    + destruct (Z.ltb_spec (expiresAt e) (t + ttl)); split.
      * intros (e' & [= <-] & He). cbn in He. by right.
      * intros [(e' & [= <-] & He)|[_ He]]; (eexists; split; [done|]); cbn; lia.
      * intros (e' & [= <-] & He). cbn in He. left. by exists e.
      * intros [(e' & [= <-] & He)|[_ He]]; (eexists; split; [done|]); cbn; lia.
    + split.
      * intros (e' & [= <-] & He). by right.
      * intros [(? & ? & _)|[_ He]]; [done|]. eexists. split; [done|]. done.
  - assert (forall e, <[r := e]> (s_m s) !! rel = s_m s !! rel) as Hi by (intros; by rewrite lookup_insert_ne).
    destruct (s_m s !! r); rewrite Hi; naive_solver.
Qed.

Lemma run_suppress_live t c rel now s :
  t <= now ->
  live rel now (run_suppress t c s) <->
  live rel now s \/ exists sha ttl, c = CallAdd rel sha ttl /\ now <= t + ttl.
Proof.
  intros Ht. destruct c as [r sha ttl|r|r sha| | | |ch]; cbn [run_suppress].
  - rewrite Add_live. split.
    + intros [H|[-> H]]; [by left|]. right. by eexists _, _.
    + intros [H|(? & ? & [= -> -> ->] & H)]; [by left|by right].
  - unfold Hit. pose proof (live_entry_keeps r rel t now s Ht) as H.
    destruct (live_entry r t s) as [e s']. cbn in *. rewrite H. split; [by left|]. intros [?|(?&?&?&?)]; done.
  - unfold HitWithSHA. pose proof (live_entry_keeps r rel t now s Ht) as H.
    destruct (live_entry r t s) as [e s']. cbn in *. rewrite H. split; [by left|]. intros [?|(?&?&?&?)]; done.
  - case_decide; [|rewrite gc_keeps by done]; (split; [by left|]; intros [?|(?&?&?&?)]; done).
  - unfold StartGC. destruct (s_stopGC s); (split; [by left|]; intros [?|(?&?&?&?)]; done).
  - unfold StopGC. destruct (s_stopGC s); (split; [by left|]; intros [?|(?&?&?&?)]; done).
  - case_decide; (split; [by left|]; intros [?|(?&?&?&?)]; done).
Qed.

Lemma monotone_last t h now : monotone t h -> last_time t h <= now -> t <= now.
Proof.
  revert t. induction h as [|[t' c] h IH]; intros t; cbn; [done|]. intros [Ht Hm] Hl.
  specialize (IH t' Hm Hl). lia.
Qed.

Lemma run_history_live h t rel now s :
  monotone t h -> last_time t h <= now ->
  live rel now (run_history h s) <-> live rel now s \/ covered rel now h.
Proof.
  revert t s. induction h as [|[t' c] h IH]; intros t s Hm Hl; cbn.
  - split; [by left|]. intros [H|(? & ? & ? & H & _)]; [done|]. by apply elem_of_nil in H.
  - destruct Hm as [Ht Hm]. cbn in Hl. unfold run_history in *. cbn. rewrite (IH t' _ Hm Hl).
    rewrite run_suppress_live by (by eapply monotone_last). unfold covered. split.
    + intros [[H|(sha & ttl & -> & H)]|(t0 & sha & ttl & Hin & H)]; [by left|right|right].
      * exists t', sha, ttl. split; [by left|done].
      * exists t0, sha, ttl. split; [by right|done].
    + intros [H|(t0 & sha & ttl & Hin & H)]; [by do 2 left|].
      apply elem_of_cons in Hin as [[= -> <-]|Hin]; [|by right; eexists _, _, _].
      left. right. by eexists _, _.
Qed.

(** C31. An event on a path is suppressed exactly as long as some [Add] of that path has
    not run out: whatever the order of the calls, however often the path was asked for
    and whenever expired entries were swept, [Hit] answers [true] if and only if the
    history holds an [Add] of that path with [now <= time + ttl]. *)
Theorem hit_iff_covered t0 h rel now :
  monotone t0 h -> last_time t0 h <= now ->
  fst (Hit rel now (run_history h NewSuppressor)) = true <-> covered rel now h.
Proof.
  intros Hm Hl. rewrite Hit_live, (run_history_live h t0) by done. split; [|by right].
  intros [(e & He & _)|H]; [|done]. cbn in He. by rewrite lookup_empty in He.
Qed.

(** *** By content *)
Definition holds_sha (rel sha : string) (now : Z) (s : Suppressor) : Prop :=
  exists e, s_m s !! rel = Some e /\ now <= expiresAt e /\ sha ∈ shas e.

Lemma HitWithSHA_holds rel sha now s : holds_sha rel sha now s -> fst (HitWithSHA rel sha now s) = true.
Proof.
  intros (e & He & Hn & Hs). unfold HitWithSHA, live_entry. rewrite He.
  destruct (Z.ltb_spec (expiresAt e) now); [lia|]. cbn. case_bool_decide; [done|]. by apply bool_decide_eq_true.
Qed.

Lemma live_entry_holds r t rel sha now s :
  t <= now -> holds_sha rel sha now s -> holds_sha rel sha now (snd (live_entry r t s)).
Proof.
  intros Ht (e & He & Hn & Hs). unfold live_entry. destruct (s_m s !! r) as [e'|] eqn:E; [|by exists e].
  destruct (Z.ltb_spec (expiresAt e') t); [|by exists e]. exists e. cbn.
  assert (r <> rel) by (intros ->; rewrite He in E; injection E as <-; lia). by rewrite lookup_delete_ne.
Qed.

Lemma run_suppress_holds t c rel sha now s :
  t <= now -> (forall ttl, c <> CallAdd rel "" ttl) -> holds_sha rel sha now s ->
  holds_sha rel sha now (run_suppress t c s).
Proof.
  intros Ht Hc (e & He & Hn & Hs).
  assert (holds_sha rel sha now s) as H by (by exists e). destruct c as [r sha' ttl|r|r sha'| | | |ch]; cbn [run_suppress].
  - unfold holds_sha, Add, add_entry. cbn. destruct (decide (r = rel)) as [->|Hne].
    + rewrite He, lookup_insert_eq. rewrite bool_decide_false by (intros ->; by apply (Hc ttl)).
      eexists. split; [done|]. cbn. destruct (Z.ltb_spec (expiresAt e) (t + ttl)); split; try lia; set_solver.
    + exists e. destruct (s_m s !! r); by rewrite lookup_insert_ne.
  - unfold Hit. pose proof (live_entry_holds r t rel sha now s Ht H). by destruct (live_entry r t s).
  - unfold HitWithSHA. pose proof (live_entry_holds r t rel sha now s Ht H). by destruct (live_entry r t s).
  - case_decide; [done|]. exists e. unfold gcOnce. cbn. split; [|done]. apply map_lookup_filter_Some.
    split; [done|]. apply Z.ltb_ge. cbn. lia.
  - unfold StartGC. by destruct (s_stopGC s).
  - unfold StopGC. by destruct (s_stopGC s).
  - by case_decide.
Qed.

Lemma run_history_holds h t rel sha now s :
  monotone t h -> last_time t h <= now -> (forall u ttl, (u, CallAdd rel "" ttl) ∉ h) ->
  holds_sha rel sha now s -> holds_sha rel sha now (run_history h s).
Proof.
  revert t s. induction h as [|[t' c] h IH]; intros t s Hm Hl Hno Hs; [done|]. destruct Hm as [Ht Hm].
  unfold run_history in *. cbn in *. apply (IH t'); [done|done| |].
  - intros u ttl Hin. apply (Hno u ttl). by right.
  - apply run_suppress_holds; [by eapply monotone_last| |done].
    intros ttl ->. apply (Hno t' ttl). by left.
Qed.

(** A client never forwards its own write: once a path has been added with the content
    it is about to hold, [HitWithSHA] recognises that content until the time is up,
    whatever happens in between, if nobody adds the path without a content. *)
Theorem own_write_is_suppressed t0 h1 t sha ttl h2 rel now :
  monotone t0 (h1 ++ (t, CallAdd rel sha ttl) :: h2) ->
  last_time t0 (h1 ++ (t, CallAdd rel sha ttl) :: h2) <= now -> now <= t + ttl ->
  (forall u ttl', (u, CallAdd rel "" ttl') ∉ h1 ++ (t, CallAdd rel sha ttl) :: h2) ->
  fst (HitWithSHA rel sha now (run_history (h1 ++ (t, CallAdd rel sha ttl) :: h2) NewSuppressor)) = true.
Proof.
  intros Hm Hl Hn Hno. apply HitWithSHA_holds. unfold run_history. rewrite foldl_app. cbn [foldl].
  fold (run_history h1 NewSuppressor). set (s := run_history h1 NewSuppressor). cbn.
  assert (sha <> "") as Hsha by (intros ->; apply (Hno t ttl), elem_of_app; right; by left).
  assert (monotone t h2 /\ last_time t h2 <= now) as [Hm2 Hl2].
  { clear - Hm Hl. revert t0 Hm Hl. induction h1 as [|[t' c] h1 IH]; intros t0; cbn; [by intros [_ ?]|].
    intros [_ Hm] Hl. by apply (IH t'). }
  apply (run_history_holds h2 t); [done|done| |].
  - intros u ttl' Hin. apply (Hno u ttl'), elem_of_app. right. by right.
  - unfold holds_sha, Add, add_entry, sha_set. cbn. rewrite !bool_decide_false by done.
    destruct (s_m s !! rel) as [e|]; rewrite lookup_insert_eq; (eexists; split; [done|]); cbn;
      [destruct (Z.ltb_spec (expiresAt e) (t + ttl))|]; split; try lia; set_solver.
Qed.

(** Adding a content after "any content" narrows what is suppressed, and an expired content
    lives on when its entry is extended before it is swept. *)
Theorem any_content_is_narrowed rel sha1 sha2 :
  sha1 <> "" -> sha2 <> "" -> sha1 <> sha2 ->
  fst (HitWithSHA rel sha1 3 (run_history
    [(0, CallAdd rel sha1 10); (1, CallAdd rel "" 10); (2, CallAdd rel sha2 10)] NewSuppressor)) = false.
Proof.
  intros H1 H2 Hne. unfold run_history. cbn [foldl fst snd run_suppress].
  unfold HitWithSHA, live_entry, Add, set_entries, NewSuppressor. cbn [s_m].
  assert (add_entry rel sha2 (2 + 10) (add_entry rel "" (1 + 10) (add_entry rel sha1 (0 + 10) ∅)) !! rel =
          Some (MkSuppressEntry 12 {[sha2]})) as ->.
  { unfold add_entry, sha_set. rewrite lookup_empty, lookup_insert_eq. cbn.
    rewrite lookup_insert_eq. cbn. rewrite (bool_decide_false (sha2 = "")), lookup_insert_eq by done.
    f_equal. f_equal. set_solver. }
  cbn. rewrite bool_decide_false by set_solver. apply bool_decide_eq_false. set_solver.
Qed.

(** *** The sweeping goroutine *)
Definition loops_ok (s : Suppressor) : Prop :=
  (forall ch, ch ∈ s_loops s -> ch ∉ s_closed s -> s_stopGC s = Some ch) /\
  (forall ch, s_stopGC s = Some ch -> ch ∈ s_loops s /\ ch ∉ s_closed s) /\
  (forall ch, ch ∈ s_loops s \/ ch ∈ s_closed s -> (ch < s_fresh s)%nat).

Lemma loops_ok_ext s s' :
  s_stopGC s' = s_stopGC s -> s_closed s' = s_closed s -> s_loops s' = s_loops s -> s_fresh s' = s_fresh s ->
  loops_ok s -> loops_ok s'.
Proof. unfold loops_ok. intros -> -> -> ->. done. Qed.

Lemma live_entry_loops r t s : loops_ok s -> loops_ok (snd (live_entry r t s)).
Proof. unfold live_entry. destruct (s_m s !! r) as [e|]; [|done]. by destruct (_ <? _). Qed.

Lemma run_suppress_loops t c s : loops_ok s -> loops_ok (run_suppress t c s).
Proof.
  intros Hs. pose proof Hs as (H1 & H2 & H3). destruct c as [r sha' ttl|r|r sha'| | | |ch]; cbn [run_suppress].
  - by apply (loops_ok_ext s).
  - unfold Hit. pose proof (live_entry_loops r t s Hs). by destruct (live_entry r t s).
  - unfold HitWithSHA. pose proof (live_entry_loops r t s Hs). by destruct (live_entry r t s).
  - case_decide; [done|]. by apply (loops_ok_ext s).
  - unfold StartGC. destruct (s_stopGC s) as [ch|] eqn:E; [done|]. repeat split; cbn.
    + intros ch [->%elem_of_singleton|Hin]%elem_of_union Hc; [done|]. specialize (H1 _ Hin Hc). congruence.
    + injection H as <-. set_solver.
    + injection H as <-. intros Hc. specialize (H3 (s_fresh s) (or_intror Hc)). lia.
    + intros ch [[->%elem_of_singleton|Hin]%elem_of_union|Hin]; [lia| |]; specialize (H3 ch); naive_solver lia.
  - unfold StopGC. destruct (s_stopGC s) as [ch|] eqn:E; [|done]. destruct (H2 _ eq_refl) as [Hin Hnc].
    split; [|split; [done|]]; cbn.
    + intros ch' Hl Hc. specialize (H1 ch' Hl ltac:(set_solver)). injection H1 as ->. set_solver.
    + intros ch' [Hl|[->%elem_of_singleton|Hl]%elem_of_union]; apply H3; auto.
  - case_decide as Hc; [|done]. split; [|split]; cbn.
    + intros ch' Hl Hc'. apply H1; set_solver.
    + intros ch' Hst. destruct (H2 _ Hst). split; [|done]. set_solver.
    + intros ch' Hl. apply H3. set_solver.
Qed.

(** One sweeper: in every history at most one sweeping goroutine has not been told to
    stop, it is the one [StopGC] would stop, and after [StopGC] there is none. *)
Theorem one_sweeper h :
  let s := run_history h NewSuppressor in
  (forall ch1 ch2, ch1 ∈ s_loops s -> ch2 ∈ s_loops s -> ch1 ∉ s_closed s -> ch2 ∉ s_closed s -> ch1 = ch2) /\
  (forall ch, ch ∈ s_loops (StopGC s) -> ch ∈ s_closed (StopGC s)).
Proof.
  intros s. assert (forall h s, loops_ok s -> loops_ok (run_history h s)) as Hrun.
  { clear. induction h as [|[t c] h IH]; intros s Hs; cbn; [exact Hs|]. by apply IH, run_suppress_loops. }
  assert (loops_ok s) as (H1 & H2 & H3).
  { apply Hrun. split; [|split]; cbn; [set_solver|done|set_solver]. }
  clearbody s. split.
  - intros ch1 ch2 Hl1 Hl2 Hc1 Hc2. pose proof (H1 _ Hl1 Hc1). pose proof (H1 _ Hl2 Hc2). congruence.
  - unfold StopGC. destruct (s_stopGC s) as [ch|] eqn:E; cbn; intros ch' Hl.
    + destruct (decide (ch' ∈ s_closed s)) as [|Hc]; [set_solver|]. specialize (H1 _ Hl Hc). set_solver.
    + destruct (decide (ch' ∈ s_closed s)) as [|Hc]; [done|]. by specialize (H1 _ Hl Hc).
Qed.

(** *** Witnesses *)
Lemma hit_iff_covered_witness :
  fst (Hit "f" 5 (run_history [(0, CallAdd "f" "s" 3); (4, CallHit "f"); (4, CallAdd "f" "s" 2)] NewSuppressor)) = true.
Proof.
  apply (hit_iff_covered 0); [cbn; lia|cbn; lia|]. exists 4, "s", 2. split; [|lia]. right. right. left.
Defined.

Lemma own_write_is_suppressed_witness :
  fst (HitWithSHA "f" "s1" 2 (run_history ([] ++ (0, CallAdd "f" "s1" 3) :: [(1, CallAdd "f" "s2" 9)]) NewSuppressor)) = true.
Proof.
  apply (own_write_is_suppressed 0 [] 0 "s1" 3 [(1, CallAdd "f" "s2" 9)]); [cbn; lia|cbn; lia|lia|].
  intros u ttl' H. apply elem_of_cons in H as [H|H]; [discriminate H|].
  apply list_elem_of_singleton in H. discriminate H.
Defined.
