(* ===== verification/Scheduler.v ===== *)
(** internal/server/syncengine/scheduler.go: at most so many jobs at once, over all and per
    client, and one job per key.

    [semaphore.Weighted] of golang.org/x/sync is a parameter, the class [Weighted], with the
    laws the scheduler relies on.  [Acquire] blocks twice, so each call is a job that goes
    through the states of [job_state]; [scheduler_step] interleaves all of them, with
    cancellations and releases.  A semaphore is only reached through the scheduler, and one
    that is in [sc_perCli] is never replaced, so the map stands for the shared objects. *)
From S2P Require Import Prelude.
Local Open Scope Z_scope.

(** ** The semaphore *)

(** [sem_acquire s] is [Acquire(ctx, 1)] when it can be granted in [s], [None] while it
    blocks. *)
Class Weighted (S : Type) := {
  sem_new : Z -> S;
  sem_acquire : S -> option S;
  sem_release : S -> S
}.

(** [sem_held s] units of [sem_size s] are taken. *)
Class WeightedLaws (S : Type) `{!Weighted S} := {
  sem_held : S -> Z;
  sem_size : S -> Z;
  sem_new_law n : sem_held (sem_new n) = 0 /\ sem_size (sem_new n) = n;
  sem_acquire_law s s' : sem_acquire s = Some s' ->
    sem_held s < sem_size s /\ sem_held s' = sem_held s + 1 /\ sem_size s' = sem_size s;
  sem_release_law s : 0 < sem_held s ->
    sem_held (sem_release s) = sem_held s - 1 /\ sem_size (sem_release s) = sem_size s
}.

(** ** The scheduler *)
Record JobKey : Type := MkJobKey { j_ClientID : string; j_PairID : string; j_RelPath : string }.
#[export] Instance JobKey_eq_dec : EqDecision JobKey. Proof. solve_decision. Defined.
#[export] Program Instance JobKey_countable : Countable JobKey :=
  inj_countable' (fun k => (j_ClientID k, j_PairID k, j_RelPath k))
    (fun '(c, p, r) => MkJobKey c p r) _.
Next Obligation. by intros []. Qed.

Definition ErrDuplicateJob : error := Sentinel "scheduler: duplicate job".
Definition ErrCanceled : error := Sentinel "scheduler: canceled".
Definition defaultGlobalLimit : Z := 64.
Definition defaultPerClientLimit : Z := 4.

Inductive job_state : Type :=
| WaitGlobal                (* in s.global.Acquire *)
| WaitClient                (* in cliSem.Acquire *)
| Holding                   (* Acquire has returned release *)
| Released
| Refused (e : error).

Record job : Type := MkJob { jb_key : JobKey; jb_state : job_state }.

Section Scheduler.
Context {S : Type} `{!Weighted S}.

Record Scheduler : Type := MkScheduler {
  sc_globalLimit : Z;
  sc_perClientLimit : Z;
  sc_global : S;
  sc_perCli : gmap string S;
  sc_pending : gset JobKey;
  sc_jobs : gmap nat job
}.

Definition NewSchedulerWithLimits (globalLimit perClientLimit : Z) : Scheduler :=
  MkScheduler globalLimit perClientLimit (sem_new globalLimit) ∅ ∅ ∅.
Definition NewScheduler : Scheduler := NewSchedulerWithLimits defaultGlobalLimit defaultPerClientLimit.

Definition set_global g s := MkScheduler (sc_globalLimit s) (sc_perClientLimit s) g (sc_perCli s) (sc_pending s) (sc_jobs s).
Definition set_perCli f s := MkScheduler (sc_globalLimit s) (sc_perClientLimit s) (sc_global s) (f (sc_perCli s)) (sc_pending s) (sc_jobs s).
Definition set_sched_pending f s := MkScheduler (sc_globalLimit s) (sc_perClientLimit s) (sc_global s) (sc_perCli s) (f (sc_pending s)) (sc_jobs s).
Definition set_job j key st s := MkScheduler (sc_globalLimit s) (sc_perClientLimit s) (sc_global s) (sc_perCli s) (sc_pending s)
  (<[j := MkJob key st]> (sc_jobs s)).

Definition removePending (key : JobKey) : Scheduler -> Scheduler := set_sched_pending (fun p => p ∖ {[key]}).

(** [Acquire] under the mutex: a duplicate is refused, otherwise the client's semaphore is
    found or made. *)
Definition acquire_begin (j : nat) (key : JobKey) (s : Scheduler) : Scheduler :=
  if decide (key ∈ sc_pending s) then set_job j key (Refused ErrDuplicateJob) s
  else
    let s := set_sched_pending (union {[key]}) s in
    let s := match sc_perCli s !! j_ClientID key with
             | Some _ => s
             | None => set_perCli (insert (j_ClientID key) (sem_new (sc_perClientLimit s))) s
             end in
    set_job j key WaitGlobal s.

(** [s.global.Acquire(ctx, 1)] *)
Definition acquire_global (j : nat) (s : Scheduler) : option Scheduler :=
  match sc_jobs s !! j with
  | Some (MkJob key WaitGlobal) =>
      g ← sem_acquire (sc_global s); Some (set_job j key WaitClient (set_global g s))
  | _ => None
  end.

(** [cliSem.Acquire(ctx, 1)] *)
Definition acquire_client (j : nat) (s : Scheduler) : option Scheduler :=
  match sc_jobs s !! j with
  | Some (MkJob key WaitClient) =>
      c ← sc_perCli s !! j_ClientID key; c' ← sem_acquire c;
      Some (set_job j key Holding (set_perCli (insert (j_ClientID key) c') s))
  | _ => None
  end.

(** The context is cancelled while the call waits. *)
Definition acquire_cancelled (j : nat) (why : string) (s : Scheduler) : option Scheduler :=
  match sc_jobs s !! j with
  | Some (MkJob key WaitGlobal) =>
      Some (set_job j key (Refused (Wrap why ErrCanceled)) (removePending key s))
  | Some (MkJob key WaitClient) =>
      Some (set_job j key (Refused (Wrap why ErrCanceled))
        (removePending key (set_global (sem_release (sc_global s)) s)))
  | _ => None
  end.

(** The function [Acquire] returns; a second call does nothing. *)
Definition release (j : nat) (s : Scheduler) : Scheduler :=
  match sc_jobs s !! j with
  | Some (MkJob key Holding) =>
      let s := set_perCli (alter sem_release (j_ClientID key)) s in
      let s := set_global (sem_release (sc_global s)) s in
      set_job j key Released (removePending key s)
  | _ => s
  end.

Inductive scheduler_step : Scheduler -> Scheduler -> Prop :=
| step_acquire j key s : sc_jobs s !! j = None -> scheduler_step s (acquire_begin j key s)
| step_global j s s' : acquire_global j s = Some s' -> scheduler_step s s'
| step_client j s s' : acquire_client j s = Some s' -> scheduler_step s s'
| step_cancel j why s s' : acquire_cancelled j why s = Some s' -> scheduler_step s s'
| step_release j s : scheduler_step s (release j s).

Inductive scheduler_reachable (globalLimit perClientLimit : Z) : Scheduler -> Prop :=
| scheduler_init : scheduler_reachable globalLimit perClientLimit (NewSchedulerWithLimits globalLimit perClientLimit)
| scheduler_next s s' : scheduler_reachable globalLimit perClientLimit s -> scheduler_step s s' ->
    scheduler_reachable globalLimit perClientLimit s'.
End Scheduler.
Arguments Scheduler : clear implicits.

(** ** Counting jobs *)
Definition count (P : job -> bool) (m : gmap nat job) : Z :=
  Z.of_nat (size (filter (fun kv => P kv.2 = true) m)).

Lemma count_insert_new P m j b : m !! j = None -> count P (<[j := b]> m) = Z.b2z (P b) + count P m.
Proof.
  intros Hj. unfold count. destruct (P b) eqn:E; cbn [Z.b2z].
  - rewrite map_filter_insert_True by done. rewrite map_size_insert_None; [lia|].
    apply map_lookup_filter_None. by left.
  - rewrite map_filter_insert_False by (cbn; congruence). by rewrite delete_id by done.
Qed.

Lemma count_update P m j a b :
  m !! j = Some a -> count P (<[j := b]> m) = count P m - Z.b2z (P a) + Z.b2z (P b).
Proof.
  intros Ha. rewrite <- (insert_delete_id m j a Ha) at 2. rewrite <- (insert_delete_eq m j b).
  rewrite !count_insert_new by apply lookup_delete_eq. lia.
Qed.

Lemma count_pos P m j a : m !! j = Some a -> P a = true -> 0 < count P m.
Proof.
  intros Ha HP. rewrite <- (insert_delete_id m j a Ha), count_insert_new by apply lookup_delete_eq.
  rewrite HP. unfold count. cbn. lia.
Qed.

Lemma count_le P Q m : (forall x, P x = true -> Q x = true) -> count P m <= count Q m.
Proof.
  intros H. unfold count. apply inj_le, map_subseteq_size.
  apply map_subseteq_spec. intros i x [Hx HP]%map_lookup_filter_Some. apply map_lookup_filter_Some. auto.
Qed.

Lemma count_none P m : (forall j x, m !! j = Some x -> P x = false) -> count P m = 0.
Proof.
  intros H. unfold count. rewrite (proj2 (map_size_empty_iff _)); [done|].
  apply map_empty_filter_2. intros j x Hx. cbn. rewrite (H j x Hx). done.
Qed.

Definition in_global (x : job) : bool :=
  match jb_state x with WaitClient | Holding => true | _ => false end.
Definition in_client (c : string) (x : job) : bool :=
  match jb_state x with Holding => bool_decide (j_ClientID (jb_key x) = c) | _ => false end.
Definition active (x : job) : bool :=
  match jb_state x with WaitGlobal | WaitClient | Holding => true | _ => false end.
Definition is_holding (x : job) : bool :=
  match jb_state x with Holding => true | _ => false end.

(** ** The invariant *)
Section Invariant.
Context {S : Type} `{HW : !Weighted S} `{HL : !WeightedLaws S}.

Record sched_ok (gl cl : Z) (s : Scheduler S) : Prop := {
  so_limits : sc_globalLimit s = gl /\ sc_perClientLimit s = cl;
  so_global : sem_size (sc_global s) = gl /\ sem_held (sc_global s) = count in_global (sc_jobs s);
  so_client c w : sc_perCli s !! c = Some w ->
    sem_size w = cl /\ sem_held w = count (in_client c) (sc_jobs s);
  so_known j x : sc_jobs s !! j = Some x -> active x = true ->
    is_Some (sc_perCli s !! j_ClientID (jb_key x));
  so_pending k : k ∈ sc_pending s <->
    exists j x, sc_jobs s !! j = Some x /\ active x = true /\ jb_key x = k;
  so_unique j1 j2 x1 x2 : sc_jobs s !! j1 = Some x1 -> sc_jobs s !! j2 = Some x2 ->
    active x1 = true -> active x2 = true -> jb_key x1 = jb_key x2 -> j1 = j2
}.

(** The part about keys, for a job that goes from one state to another. *)
Lemma keys_update gl cl s j key st st' pend :
  sched_ok gl cl s -> sc_jobs s !! j = Some (MkJob key st) -> active (MkJob key st) = true ->
  pend = (if active (MkJob key st') then sc_pending s else sc_pending s ∖ {[key]}) ->
  let jobs := <[j := MkJob key st']> (sc_jobs s) in
  (forall k, k ∈ pend <-> exists j x, jobs !! j = Some x /\ active x = true /\ jb_key x = k) /\
  (forall j1 j2 x1 x2, jobs !! j1 = Some x1 -> jobs !! j2 = Some x2 ->
    active x1 = true -> active x2 = true -> jb_key x1 = jb_key x2 -> j1 = j2).
Proof.
  intros [_ _ _ _ Hp Hu] Hj Ha -> jobs. subst jobs.
  assert (forall j' x, <[j := MkJob key st']> (sc_jobs s) !! j' = Some x -> active x = true ->
    exists x', sc_jobs s !! j' = Some x' /\ active x' = true /\ jb_key x' = jb_key x) as Hold.
  { intros j' x [[<- <-]|[_ H]]%lookup_insert_Some Hx; [by eexists|by exists x]. }
  split.
  - intros k. destruct (active (MkJob key st')) eqn:Es.
    + rewrite Hp. split; intros (j' & x & Hx & Hax & <-).
      * destruct (decide (j' = j)) as [->|Hne].
        -- rewrite Hj in Hx. injection Hx as <-. exists j, (MkJob key st'). by rewrite lookup_insert_eq.
        -- exists j', x. by rewrite lookup_insert_ne.
      * destruct (Hold _ _ Hx Hax) as (x' & Hx' & Hax' & <-). by exists j', x'.
    + rewrite elem_of_difference, elem_of_singleton, Hp. split.
      * intros [(j' & x & Hx & Hax & <-) Hne]. exists j', x. rewrite lookup_insert_ne; [done|].
        intros <-. rewrite Hj in Hx. by injection Hx as <-.
      * intros (j' & x & Hx & Hax & <-). assert (j' <> j) as Hne.
        { intros ->. rewrite lookup_insert_eq in Hx. injection Hx as <-. congruence. }
        rewrite lookup_insert_ne in Hx by done. split; [by exists j', x|].
        intros Hk. apply Hne. by apply (Hu j' j x (MkJob key st)).
  - intros j1 j2 x1 x2 H1 H2 A1 A2 Hk. destruct (Hold _ _ H1 A1) as (y1 & ? & ? & E1).
    destruct (Hold _ _ H2 A2) as (y2 & ? & ? & E2). apply (Hu j1 j2 y1 y2); congruence.
Qed.

(** The clients' semaphores stay where they are. *)
Lemma known_update gl cl s j key st st' (perCli : gmap string S) :
  sched_ok gl cl s -> sc_jobs s !! j = Some (MkJob key st) -> active (MkJob key st) = true ->
  (forall c, is_Some (sc_perCli s !! c) -> is_Some (perCli !! c)) ->
  forall j' x, <[j := MkJob key st']> (sc_jobs s) !! j' = Some x -> active x = true ->
    is_Some (perCli !! j_ClientID (jb_key x)).
Proof.
  intros Hok Hj Ha Hc j' x [[<- <-]|[_ H]]%lookup_insert_Some Hx; apply Hc.
  - by apply (so_known _ _ _ Hok j (MkJob key st)).
  - by apply (so_known _ _ _ Hok j').
Qed.

Lemma sched_ok_begin gl cl j key s :
  sched_ok gl cl s -> sc_jobs s !! j = None -> sched_ok gl cl (acquire_begin j key s).
Proof.
  intros [Hl [Hg1 Hg2] Hc Hk Hp Hu] Hj. unfold acquire_begin. case_decide as Hd.
  - constructor; cbn; try done.
    + rewrite count_insert_new by done. cbn. split; [done|lia].
    + intros c w Hw. rewrite count_insert_new by done. cbn. destruct (Hc c w Hw). split; [done|lia].
    + intros j' x [[<- <-]|[_ Hx]]%lookup_insert_Some Hx'; [done|by apply (Hk j')].
    + intros k. rewrite Hp. split; intros (j' & x & Hx & Hax & <-).
      * exists j', x. rewrite lookup_insert_ne; [done|]. congruence.
      * apply lookup_insert_Some in Hx as [[<- <-]|[_ Hx]]; [done|by exists j', x].
    + intros j1 j2 x1 x2 [[<- <-]|[_ H1]]%lookup_insert_Some [[<- <-]|[_ H2]]%lookup_insert_Some; try done.
      by apply Hu.
  - set (s1 := set_sched_pending _ s). set (s2 := match _ with Some _ => _ | None => _ end).
    assert (sc_jobs s2 = sc_jobs s /\ sc_global s2 = sc_global s /\ sc_pending s2 = {[key]} ∪ sc_pending s /\
            sc_globalLimit s2 = gl /\ sc_perClientLimit s2 = cl /\
            is_Some (sc_perCli s2 !! j_ClientID key) /\
            (forall c, is_Some (sc_perCli s !! c) -> is_Some (sc_perCli s2 !! c)) /\
            (forall c w, sc_perCli s2 !! c = Some w -> sem_size w = cl /\ sem_held w = count (in_client c) (sc_jobs s)))
      as (E1 & E2 & E3 & E4 & E5 & E6 & E7 & E8).
    { unfold s2, s1. cbn. destruct (sc_perCli s !! j_ClientID key) as [w|] eqn:Ew; cbn; destruct Hl;
        (repeat (split; [done|])); [by eauto|]. rewrite lookup_insert_eq.
      split; [by eauto|]. split.
      - intros c Hs. destruct (decide (c = j_ClientID key)) as [->|]; [rewrite lookup_insert_eq|
          rewrite lookup_insert_ne by done]; eauto.
      - intros c w [[<- <-]|[_ Hw]]%lookup_insert_Some; [|by apply Hc].
        destruct (sem_new_law (sc_perClientLimit s)) as [-> ->]. split; [done|]. symmetry. apply count_none.
        intros j' x Hx. unfold in_client. destruct (jb_state x) eqn:Es; try done. apply bool_decide_eq_false.
        intros He. destruct (Hk j' x Hx) as [v Hv]; [unfold active; by rewrite Es|]. congruence. }
    clearbody s2. constructor; cbn; rewrite ?E1, ?E2, ?E3; try done.
    + rewrite count_insert_new by done. cbn. split; [done|lia].
    + intros c w Hw. rewrite count_insert_new by done. cbn. destruct (E8 c w Hw). split; [done|lia].
    + intros j' x [[<- <-]|[_ Hx]]%lookup_insert_Some Hx'; [done|]. by apply E7, (Hk j').
    + intros k. rewrite elem_of_union, elem_of_singleton, Hp. split.
      * intros [->|(j' & x & Hx & Hax & <-)]; [exists j, (MkJob key WaitGlobal); by rewrite lookup_insert_eq|].
        exists j', x. rewrite lookup_insert_ne; [done|]. congruence.
      * intros (j' & x & Hx & Hax & <-).
        apply lookup_insert_Some in Hx as [[<- <-]|[_ Hx]]; [by left|right; by exists j', x].
    + assert (forall j' x, sc_jobs s !! j' = Some x -> active x = true -> jb_key x <> key) as Hfresh.
      { intros j' x Hx Hax <-. apply Hd, Hp. by exists j', x. }
      intros j1 j2 x1 x2 [[<- <-]|[_ H1]]%lookup_insert_Some [[<- <-]|[_ H2]]%lookup_insert_Some A1 A2 He; try done.
      * exfalso. by apply (Hfresh j2 x2).
      * exfalso. by apply (Hfresh j1 x1).
      * by apply (Hu j1 j2 x1 x2).
Qed.

Lemma sched_ok_global gl cl j s s' :
  sched_ok gl cl s -> acquire_global j s = Some s' -> sched_ok gl cl s'.
Proof.
  intros Hok. unfold acquire_global. destruct (sc_jobs s !! j) as [[key []]|] eqn:Hj; try done.
  destruct (sem_acquire (sc_global s)) as [g|] eqn:Eg; [|done]. intros [= <-].
  pose proof (sem_acquire_law _ _ Eg) as (Hlt & Hh & Hsz).
  destruct (keys_update gl cl s j key _ WaitClient _ Hok Hj eq_refl eq_refl) as [Hp Hu].
  pose proof Hok as [Hl [Hg1 Hg2] Hc Hk _ _]. constructor; cbn; try done.
  - rewrite (count_update _ _ _ _ _ Hj). cbn. lia.
  - intros c w Hw. rewrite (count_update _ _ _ _ _ Hj). cbn. destruct (Hc c w Hw). lia.
  - by eapply known_update.
Qed.

Lemma in_client_holding c key : in_client c (MkJob key Holding) = bool_decide (j_ClientID key = c).
Proof. done. Qed.

Lemma sched_ok_client gl cl j s s' :
  sched_ok gl cl s -> acquire_client j s = Some s' -> sched_ok gl cl s'.
Proof.
  intros Hok. unfold acquire_client. destruct (sc_jobs s !! j) as [[key []]|] eqn:Hj; try done.
  destruct (sc_perCli s !! j_ClientID key) as [w|] eqn:Ew; cbn; [|done].
  destruct (sem_acquire w) as [w'|] eqn:Eg; cbn; [|done]. intros [= <-].
  pose proof (sem_acquire_law _ _ Eg) as (Hlt & Hh & Hsz).
  destruct (keys_update gl cl s j key _ Holding _ Hok Hj eq_refl eq_refl) as [Hp Hu].
  pose proof Hok as [Hl [Hg1 Hg2] Hc Hk _ _]. constructor; cbn; try done.
  - rewrite (count_update _ _ _ _ _ Hj). cbn. lia.
  - intros c v Hv. rewrite (count_update _ _ _ _ _ Hj), in_client_holding. cbn.
    apply lookup_insert_Some in Hv as [[<- <-]|[Hne Hv]].
    + rewrite bool_decide_true by done. cbn. destruct (Hc _ _ Ew). lia.
    + rewrite bool_decide_false by done. cbn. destruct (Hc _ _ Hv). lia.
  - eapply known_update; [done..|]. intros c Hs.
    destruct (decide (c = j_ClientID key)) as [->|]; [rewrite lookup_insert_eq|rewrite lookup_insert_ne by done]; eauto.
Qed.

Lemma sched_ok_cancel gl cl j why s s' :
  sched_ok gl cl s -> acquire_cancelled j why s = Some s' -> sched_ok gl cl s'.
Proof.
  intros Hok. unfold acquire_cancelled. destruct (sc_jobs s !! j) as [[key []]|] eqn:Hj; try done; intros [= <-];
    (destruct (keys_update gl cl s j key _ (Refused (Wrap why ErrCanceled)) _ Hok Hj eq_refl eq_refl) as [Hp Hu]);
    pose proof Hok as [Hl [Hg1 Hg2] Hc Hk _ _]; constructor; cbn; try done; try (by eapply known_update);
    try (intros c w Hw; rewrite (count_update _ _ _ _ _ Hj); cbn; destruct (Hc c w Hw); lia).
  - rewrite (count_update _ _ _ _ _ Hj). cbn. lia.
  - pose proof (count_pos in_global _ _ _ Hj eq_refl) as Hpos. rewrite <- Hg2 in Hpos.
    destruct (sem_release_law _ Hpos) as [-> ->]. rewrite (count_update _ _ _ _ _ Hj). cbn. lia.
Qed.

Lemma sched_ok_release gl cl j s : sched_ok gl cl s -> sched_ok gl cl (release j s).
Proof.
  intros Hok. unfold release. destruct (sc_jobs s !! j) as [[key []]|] eqn:Hj; try done.
  destruct (keys_update gl cl s j key _ Released _ Hok Hj eq_refl eq_refl) as [Hp Hu].
  pose proof Hok as [Hl [Hg1 Hg2] Hc Hk _ _]. constructor; cbn; try done.
  - pose proof (count_pos in_global _ _ _ Hj eq_refl) as Hpos. rewrite <- Hg2 in Hpos.
    destruct (sem_release_law _ Hpos) as [-> ->]. rewrite (count_update _ _ _ _ _ Hj). cbn. lia.
  - intros c w Hw. rewrite (count_update _ _ _ _ _ Hj), in_client_holding. cbn.
    destruct (decide (j_ClientID key = c)) as [Hcl|Hne].
    + rewrite Hcl, lookup_alter_eq in Hw. rewrite bool_decide_true by done.
      destruct (sc_perCli s !! c) as [v|] eqn:Ev; cbn in Hw; [|done]. injection Hw as <-.
      destruct (Hc _ _ Ev) as [Hsz Hh].
      assert (in_client c (MkJob key Holding) = true) as Hin by (by apply bool_decide_eq_true).
      pose proof (count_pos _ _ _ _ Hj Hin) as Hpos. rewrite <- Hh in Hpos.
      destruct (sem_release_law _ Hpos) as [-> ->]. cbn. lia.
    + rewrite lookup_alter_ne in Hw by done. rewrite bool_decide_false by done. cbn.
      destruct (Hc _ _ Hw). lia.
  - eapply known_update; [done..|]. intros c Hs. rewrite lookup_alter. case_decide; [subst|done].
    destruct Hs as [v ->]. by eexists.
Qed.

Lemma sched_reachable_ok gl cl s : scheduler_reachable gl cl s -> sched_ok gl cl s.
Proof.
  induction 1 as [|s s' _ IH Hs].
  - destruct (sem_new_law gl) as [E1 E2]. constructor; cbn; try done; try set_solver.
  - destruct Hs; [by apply sched_ok_begin|by eapply sched_ok_global|by eapply sched_ok_client
      |by eapply sched_ok_cancel|by apply sched_ok_release].
Qed.
End Invariant.

(** ** The contract *)
Section Contract.
Context {S : Type} `{HW : !Weighted S} `{HL : !WeightedLaws S}.

Lemma sem_held_bound gl cl s : sched_ok gl cl s -> 0 <= gl ->
  scheduler_reachable gl cl s -> sem_held (sc_global s) <= gl /\
  (0 <= cl -> forall c w, sc_perCli s !! c = Some w -> sem_held w <= cl).
Proof.
  intros _ Hgl. induction 1 as [|s s' Hr IH Hs].
  - cbn. destruct (sem_new_law gl) as [-> _]. split; [done|]. intros _ c w Hw. by rewrite lookup_empty in Hw.
  - pose proof (sched_reachable_ok _ _ _ Hr) as Hok. destruct IH as [IH1 IH2]. destruct Hs as [j key s Hj|j s s' E|j s s' E|j why s s' E|j s].
    + unfold acquire_begin. case_decide; [done|]. cbn. destruct (sc_perCli s !! j_ClientID key); cbn; [done|].
      split; [done|]. intros Hcl c w [[<- <-]|[_ Hw]]%lookup_insert_Some; [|by eapply IH2].
      destruct (sem_new_law (sc_perClientLimit s)) as [-> _]. done.
    + unfold acquire_global in E. destruct (sc_jobs s !! j) as [[key []]|]; try done.
      destruct (sem_acquire (sc_global s)) as [g|] eqn:Eg; [|done]. injection E as <-. cbn.
      pose proof (sem_acquire_law _ _ Eg). destruct (so_global _ _ _ Hok). split; [lia|done].
    + unfold acquire_client in E. destruct (sc_jobs s !! j) as [[key []]|]; try done.
      destruct (sc_perCli s !! j_ClientID key) as [v|] eqn:Ev; cbn in E; [|done].
      destruct (sem_acquire v) as [v'|] eqn:Eg; cbn in E; [|done]. injection E as <-. cbn. split; [done|].
      intros Hcl c w [[<- <-]|[_ Hw]]%lookup_insert_Some; [|by eapply IH2].
      pose proof (sem_acquire_law _ _ Eg). destruct (so_client _ _ _ Hok _ _ Ev). lia.
    + unfold acquire_cancelled in E. destruct (sc_jobs s !! j) as [[key []]|] eqn:Hj; try done; injection E as <-; cbn; [done|].
      pose proof (count_pos in_global _ _ _ Hj eq_refl) as Hpos. destruct (so_global _ _ _ Hok) as [_ Hh].
      rewrite <- Hh in Hpos. destruct (sem_release_law _ Hpos) as [-> _]. split; [lia|done].
    + unfold release. destruct (sc_jobs s !! j) as [[key []]|] eqn:Hj; try done. cbn.
      pose proof (count_pos in_global _ _ _ Hj eq_refl) as Hpos. destruct (so_global _ _ _ Hok) as [_ Hh].
      rewrite <- Hh in Hpos. destruct (sem_release_law _ Hpos) as [-> _]. split; [lia|].
      intros Hcl c w Hw. destruct (decide (j_ClientID key = c)) as [Hc|Hne].
      * rewrite Hc, lookup_alter_eq in Hw. destruct (sc_perCli s !! c) as [v|] eqn:Ev; cbn in Hw; [|done].
        injection Hw as <-. destruct (so_client _ _ _ Hok _ _ Ev) as [_ Hhv].
        assert (in_client c (MkJob key Holding) = true) as Hin by (by apply bool_decide_eq_true).
        pose proof (count_pos _ _ _ _ Hj Hin) as Hp. rewrite <- Hhv in Hp.
        destruct (sem_release_law _ Hp) as [-> _]. specialize (IH2 Hcl _ _ Ev). lia.
      * rewrite lookup_alter_ne in Hw by done. by eapply IH2.
Qed.

(** In every interleaving of calls, grants, cancellations and releases: no more jobs run
    than the global limit, no more of one client than the limit per client, no two live
    calls have the same key, and nothing leaks: when no call is live every semaphore is
    free and no key is pending. *)
Theorem scheduler_limits gl cl s :
  0 <= gl -> 0 <= cl -> scheduler_reachable gl cl s ->
  count is_holding (sc_jobs s) <= gl /\
  (forall c, count (in_client c) (sc_jobs s) <= cl) /\
  (forall j1 j2 x1 x2, sc_jobs s !! j1 = Some x1 -> sc_jobs s !! j2 = Some x2 ->
     active x1 = true -> active x2 = true -> jb_key x1 = jb_key x2 -> j1 = j2) /\
  ((forall j x, sc_jobs s !! j = Some x -> active x = false) ->
     sc_pending s = ∅ /\ sem_held (sc_global s) = 0 /\
     forall c w, sc_perCli s !! c = Some w -> sem_held w = 0).
Proof.
  intros Hgl Hcl Hr. pose proof (sched_reachable_ok _ _ _ Hr) as Hok.
  destruct (sem_held_bound gl cl s Hok Hgl Hr) as [Hb1 Hb2]. specialize (Hb2 Hcl).
  destruct Hok as [Hl [Hg1 Hg2] Hc Hk Hp Hu]. split; [|split; [|split; [exact Hu|]]].
  - rewrite Hg2 in Hb1. etransitivity; [|exact Hb1]. apply count_le. intros [k []]; done.
  - intros c. destruct (sc_perCli s !! c) as [w|] eqn:Ew.
    + destruct (Hc c w Ew) as [_ <-]. by eapply Hb2.
    + rewrite count_none; [done|]. intros j x Hx. destruct (in_client c x) eqn:E; [|done].
      unfold in_client in E. destruct (jb_state x) eqn:Es; try done. apply bool_decide_eq_true in E.
      destruct (Hk j x Hx) as [v Hv]; [unfold active; by rewrite Es|]. congruence.
  - intros Hno. split; [|split].
    + apply set_eq. intros k. split; [|set_solver]. intros (j & x & Hx & Ha & _)%Hp. rewrite (Hno _ _ Hx) in Ha. done.
    + rewrite Hg2. apply count_none. intros j x Hx. specialize (Hno _ _ Hx). unfold active, in_global in *.
      by destruct (jb_state x).
    + intros c w Hw. destruct (Hc c w Hw) as [_ ->]. apply count_none. intros j x Hx. specialize (Hno _ _ Hx).
      unfold active, in_client in *. by destruct (jb_state x).
Qed.

(** Releasing twice is releasing once, and a refused duplicate takes nothing: neither
    changes a semaphore nor the pending keys. *)
Theorem release_is_idempotent j key s :
  release j (release j s) = release j s /\
  (key ∈ sc_pending s ->
     let s' := acquire_begin j key s in
     sc_global s' = sc_global s /\ sc_perCli s' = sc_perCli s /\ sc_pending s' = sc_pending s /\
     sc_jobs s' !! j = Some (MkJob key (Refused ErrDuplicateJob))).
Proof.
  split.
  - unfold release at 2 3. destruct (sc_jobs s !! j) as [[k []]|] eqn:Hj; unfold release; try by rewrite Hj.
    cbn. by rewrite lookup_insert_eq.
  - intros Hk. unfold acquire_begin. rewrite decide_True by done. cbn. by rewrite lookup_insert_eq.
Qed.
End Contract.

(** ** A counting semaphore, and the witnesses *)
Record counter : Type := MkCounter { cn_size : Z; cn_held : Z }.
#[export] Instance counter_weighted : Weighted counter := {|
  sem_new n := MkCounter n 0;
  sem_acquire s := if cn_held s <? cn_size s then Some (MkCounter (cn_size s) (cn_held s + 1)) else None;
  sem_release s := MkCounter (cn_size s) (cn_held s - 1)
|}.
#[export, program] Instance counter_laws : WeightedLaws counter := {|
  sem_held := cn_held; sem_size := cn_size
|}.
Next Obligation. done. Qed.
Next Obligation.
  intros s s' H. cbn in H. destruct (Z.ltb_spec (cn_held s) (cn_size s)); [|done]. by injection H as <-.
Qed.
Next Obligation. done. Qed.

Definition demo_key : JobKey := MkJobKey "alice" "p1" "n.txt".
Definition demo_begun : Scheduler counter := acquire_begin 0 demo_key (NewSchedulerWithLimits 2 1).
Definition demo_waiting : Scheduler counter := default demo_begun (acquire_global 0 demo_begun).
Definition demo_running : Scheduler counter := default demo_waiting (acquire_client 0 demo_waiting).

Lemma scheduler_limits_witness :
  count is_holding (sc_jobs demo_running) = 1 /\ count is_holding (sc_jobs demo_running) <= 2.
Proof.
  split; [vm_compute; reflexivity|].
  apply (scheduler_limits 2 1 demo_running); [lia|lia|].
  eapply scheduler_next; [|apply (step_client 0 demo_waiting demo_running); vm_compute; reflexivity].
  eapply scheduler_next; [|apply (step_global 0 demo_begun demo_waiting); vm_compute; reflexivity].
  eapply scheduler_next; [apply scheduler_init|by apply step_acquire].
Defined.

Lemma release_is_idempotent_witness :
  sc_pending (acquire_begin 1 demo_key demo_running) = sc_pending demo_running.
Proof.
  apply (release_is_idempotent 1 demo_key demo_running). vm_compute. reflexivity.
Defined.
