(* ===== verification/ListDir.v ===== *)
(** internal/server/http/api.go: GET /v1/clients/{id}/listdir, which asks a client for the
    content of one of its directories and waits for the answer.

    The handler blocks in [SendAndWait], so it is in two parts: [listdir_request] up to the
    call, [listdir_answer] with what the call returned; in between the hub runs as in
    Hub.v.  [corrID] is the fresh UUID of the request, [path_param] the value of the query
    parameter. *)
From S2P Require Import Prelude GoStrings Json Proto Store StoreFacts Lww Engine EngineFacts Hub HubFacts Demo Http HttpBlobs Session SessionFacts.
From Stdlib Require Import Ascii.
Local Open Scope Z_scope.
Local Open Scope go_scope.

Definition parseClientID (r : request) : option string :=
  match SplitN2 (TrimPrefix (rq_Path r) "/v1/clients/") "/"%char with
  | [id; rest] => if bool_decide (rest = "listdir") then Some id else None
  | _ => None
  end.

Definition NotFound : response := http_Error "404 page not found" StatusNotFound.

Definition sendListDirRequest (corrID relPath : string) : result Envelope :=
  match MarshalPayload (MkListDirRequest relPath) with
  | Ok payload => Ok (MkEnvelope TypeListDirRequest corrID payload)
  | Err e => Err e
  end.

(** [ListDirHandler.ServeHTTP] until it waits: a response, or the client to ask and the
    request. *)
Definition listdir_request (r : request) (path_param corrID : string) (h : hub)
  : response + (string * Envelope) :=
  if negb (bool_decide (rq_Method r = "GET"))
  then inl (http_Error "method not allowed" StatusMethodNotAllowed)
  else match parseClientID r with
  | None => inl NotFound
  | Some clientID =>
      let relPath := if bool_decide (path_param = "") then "." else path_param in
      if negb (IsOnline clientID h) then inl (http_Error "client offline" StatusServiceUnavailable)
      else match sendListDirRequest corrID relPath with
           | Ok env => inr (clientID, env)
           | Err e => inl (http_Error (error_text e) StatusBadGateway)
           end
  end.

Definition json_response (code : Z) (j : json) : response :=
  MkResponse code [("Content-Type", "application/json")] (BodyJSON j).

Section Answer.
Context {clk : Clock}.
Notation W := (world hub).

Definition handleClientError (clientID errMsg : string) : M W response :=
  _ <-? (if HasPrefix errMsg "path escape:" then ws_audit "path_escape_blocked" clientID None else ret tt);;
  ret (json_response StatusBadRequest (JObj [("error", JStr errMsg)])).

(** The rest of [ServeHTTP]. *)
Definition listdir_answer (clientID : string) (r : result Envelope) : M W response :=
  match r with
  | Err e =>
      ret (if errors_Is e ErrTimeout then http_Error "client did not respond" StatusGatewayTimeout
           else http_Error (error_text e) StatusBadGateway)
  | Ok env =>
      match UnmarshalPayload (A:=ListDirResponse) (env_Payload env) with
      | Err e => ret (http_Error ("invalid client response: " +:+ error_text e) StatusBadGateway)
      | Ok resp =>
          if negb (bool_decide (ldr_Error resp = "")) then handleClientError clientID (ldr_Error resp)
          else ret (json_response StatusOK (encode_json resp))
      end
  end.
End Answer.

(** ** What the caller sees *)
Section Spec.
Context {clk : Clock}.
Notation W := (world hub).

Definition listdir_get (id : string) : request :=
  MkRequest "GET" ("/v1/clients/" +:+ id +:+ "/listdir") [] 0 (BlobStore.MkReader [] None) None None None "" "".

Lemma parse_listdir id :
  sall (fun c => bool_decide (c <> "/"%char)) id = true -> parseClientID (listdir_get id) = Some id.
Proof.
  intros Hid. unfold parseClientID, listdir_get. cbn [rq_Path]. rewrite TrimPrefix_app. unfold SplitN2.
  rewrite (proj2 (cut_spec _ _ id "listdir")) by done. done.
Qed.

(** A directory listing asked for over HTTP: while the client is connected the request
    goes to its socket with the path asked for ("." when none is given); when a frame with
    the request's correlation id comes back, on any of the client's connections, the call
    returns and the caller gets status 200 and the client's entries as they were sent. *)
Theorem listdir_returns_entries id path corr v c resp t n h :
  sall (fun c => bool_decide (c <> "/"%char)) id = true -> hub_up h id = true ->
  corr <> "" -> h_waiters h !! v = None -> json_wf resp -> ldr_Error resp = "" ->
  exists env h1 h2 h3 answer,
    listdir_request (listdir_get id) path corr h = inr (id, env) /\
    UnmarshalPayload (env_Payload env) = Ok (MkListDirRequest (if bool_decide (path = "") then "." else path)) /\
    wait_begin v id env h = h1 /\ h_sent h1 = h_sent h ++ [(id, env)] /\
    read_frame c id (message TypeListDirResponse corr resp) (quiet t n h1) = (Ok tt, quiet t n h2) /\
    wait_receive v h2 = Some h3 /\
    h_waiters h3 !! v = Some (MkWaiter corr (h_fresh h) (Finished (Ok answer))) /\
    h_pending h3 !! corr = None /\
    listdir_answer id (Ok answer) (quiet t n h3) =
      (Ok (json_response StatusOK (encode_json resp)), quiet t n h3).
Proof.
  intros Hid Hup Hcorr Hv Hwf Herr.
  set (env := MkEnvelope TypeListDirRequest corr
    (Some (encode_json (MkListDirRequest (if bool_decide (path = "") then "." else path))))).
  set (answer := MkEnvelope TypeListDirResponse corr (Some (encode_json resp))).
  unfold hub_up in Hup. destruct (h_conns h !! id) as [k|] eqn:Hk; [|done].
  destruct (h_objs h !! k) as [o|] eqn:Ho; [|done].
  assert (wait_begin v id env h =
    set_sent (fun l => l ++ [(id, env)]) (set_waiters (insert v (MkWaiter corr (h_fresh h) Waiting))
      (snd (Pending_Register corr h)))) as Hb.
  { unfold wait_begin, Pending_Register, hub_Send. cbn. by rewrite Hk, Ho, Hup. }
  set (h1 := set_sent _ _) in Hb.
  assert (h_pending h1 !! corr = Some (h_fresh h)) as Hp1 by apply lookup_insert_eq.
  set (h2 := set_chans (alter (fun b => b ++ [answer]) (h_fresh h)) (set_pending (delete corr) h1)).
  assert (h_waiters h2 !! v = Some (MkWaiter corr (h_fresh h) Waiting)) as Hw2 by apply lookup_insert_eq.
  assert (h_chans h2 !! h_fresh h = Some [answer]) as Hc2.
  { change (alter (fun b => b ++ [answer]) (h_fresh h) (<[h_fresh h := []]> (h_chans h)) !! h_fresh h = Some [answer]).
    by rewrite lookup_alter_eq, lookup_insert_eq. }
  set (h2' := set_chans (insert (h_fresh h) []) h2). set (h3 := finish v (Ok answer) h2').
  assert (wait_receive v h2 = Some h3) as Hr by (unfold wait_receive; by rewrite Hw2, Hc2).
  assert (h3 = Pending_Cancel corr (set_waiters (insert v (MkWaiter corr (h_fresh h) (Finished (Ok answer)))) h2')) as Hf.
  { unfold h3, finish. change (h_waiters h2') with (h_waiters h2). by rewrite Hw2. }
  exists env, h1, h2, h3, answer. split.
  { unfold listdir_request, listdir_get. cbn [rq_Method]. decide_closed. fold (listdir_get id).
    rewrite parse_listdir by done. cbn [negb]. unfold IsOnline. by rewrite Hk. }
  split. { unfold env. by apply (UnmarshalPayload_encode (MkListDirRequest _)). }
  split; [exact Hb|]. split; [done|]. split.
  { unfold read_frame, message. rewrite Unmarshal_message. fold answer. cbn [env_Type env_CorrelationID answer].
    decide_closed. rewrite (bool_decide_true (corr <> "")) by done.
    unfold Pending_Resolve, quiet. cbn [w_net]. rewrite Hp1. cbn [fst andb].
    unfold on_hub. cbn [w_net w_store]. by rewrite Hp1. }
  split; [exact Hr|]. rewrite Hf. split; [apply lookup_insert_eq|]. split; [apply lookup_delete_eq|].
  unfold listdir_answer. cbn [env_Payload answer].
  rewrite (UnmarshalPayload_encode resp Hwf), Herr. decide_closed. done.
Qed.

(** Every way the listing can fail has its status: another method 405, a path that names
    no client 404, a client that is not connected 503 (nothing is sent), no answer in time
    504, a failed or cancelled request or an answer that is no listing 502, and an error
    the client reports 400, audited when the path was outside its directory. *)
Theorem listdir_failures r path corr id env msg t n h :
  (rq_Method r <> "GET" -> exists p, listdir_request r path corr h = inl p /\ rp_Status p = 405) /\
  (rq_Method r = "GET" -> parseClientID r = None ->
     exists p, listdir_request r path corr h = inl p /\ rp_Status p = 404) /\
  (rq_Method r = "GET" -> parseClientID r = Some id -> IsOnline id h = false ->
     exists p, listdir_request r path corr h = inl p /\ rp_Status p = 503) /\
  (exists p, listdir_answer id (Err ErrTimeout) (quiet t n h) = (Ok p, quiet t n h) /\ rp_Status p = 504) /\
  (forall e, errors_Is e ErrTimeout = false ->
     exists p, listdir_answer id (Err e) (quiet t n h) = (Ok p, quiet t n h) /\ rp_Status p = 502) /\
  ((forall resp, UnmarshalPayload (A:=ListDirResponse) (env_Payload env) <> Ok resp) ->
     exists p, listdir_answer id (Ok env) (quiet t n h) = (Ok p, quiet t n h) /\ rp_Status p = 502) /\
  (msg <> "" ->
     let env := MkEnvelope TypeListDirResponse corr (Some (encode_json (MkListDirResponse None msg))) in
     exists t' n', listdir_answer id (Ok env) (quiet t n h) =
       (Ok (json_response 400 (JObj [("error", JStr msg)])), quiet t' n' h) /\
       t' = if HasPrefix msg "path escape:"
            then set_audit (fun l => l ++ [MkAuditEntry (clock n) "path_escape_blocked" (Some id) None None None]) t
            else t).
Proof.
  repeat split.
  - intros Hm. unfold listdir_request. rewrite bool_decide_false by done. by eexists.
  - intros Hm Hp. unfold listdir_request. rewrite bool_decide_true, Hp by done. by eexists.
  - intros Hm Hp Ho. unfold listdir_request. rewrite bool_decide_true, Hp by done. cbn [negb]. rewrite Ho. by eexists.
  - unfold listdir_answer. rewrite errors_Is_refl. by eexists.
  - intros e He. unfold listdir_answer. rewrite He. by eexists.
  - intros Hno. unfold listdir_answer.
    destruct (UnmarshalPayload (env_Payload env)) as [resp|e]; [by destruct (Hno resp)|]. by eexists.
  - intros Hmsg. cbn zeta. unfold listdir_answer. cbn [env_Payload].
    assert (json_wf (MkListDirResponse None msg)) as Hwf by (intros l Hl; discriminate Hl).
    rewrite (UnmarshalPayload_encode _ Hwf). cbn [ldr_Error]. rewrite bool_decide_false by done. cbn [negb].
    unfold handleClientError. destruct (HasPrefix msg "path escape:"); cbn; by do 2 eexists.
Qed.
End Spec.

(** *** Witnesses *)
Section Witnesses.
Import Demo.

Definition demo_listing : ListDirResponse := MkListDirResponse (Some [MkDirEntry "docs" true 0 1]) "".

Lemma listdir_returns_entries_witness : exists env h1,
  listdir_request (listdir_get "alice") "" "r1" alice_online = inr ("alice", env) /\
  wait_begin 7 "alice" env alice_online = h1 /\ h_sent h1 = [("alice", env)].
Proof.
  assert (json_wf demo_listing) as Hwf.
  { intros l [= <-]. by repeat constructor. }
  pose proof (listdir_returns_entries (clk:=demo_clock) "alice" "" "r1" 7 0 demo_listing (content "a_to_b" []) 0
    alice_online ltac:(reflexivity) ltac:(vm_compute; reflexivity) ltac:(discriminate)
    ltac:(vm_compute; reflexivity) Hwf eq_refl) as H.
  destruct H as (env & h1 & _ & _ & _ & H1 & _ & H2 & H3 & _). exists env, h1.
  split; [exact H1|]. split; [exact H2|exact H3].
Defined.

Lemma listdir_failures_witness :
  (exists p, listdir_request (listdir_get "bob") "" "r1" alice_online = inl p /\ rp_Status p = 503).
Proof.
  apply (listdir_failures (clk:=demo_clock) (listdir_get "bob") "" "r1" "bob" demo_ping "" empty_tables 0 alice_online);
    vm_compute; reflexivity.
Defined.
End Witnesses.
