(* ===== verification/Disk.v ===== *)
(** The file system of a client's machine, as the operating system shows it to the program:
    directories, files, symbolic links and other nodes by absolute path, and the calls of
    [os] and [filepath] the client uses on them.

    A path is the list of its elements from the root, which is a directory.  Every call may
    fail with an errno of the schedule [d_faults]; a write may fail after some bytes.  The
    kernel follows links as [walk] does, [EvalSymlinks] too, with its own limit.  A
    directory keeps the time of its creation: what is made or removed in it later does not
    touch it. *)
From S2P Require Import Prelude GoStrings Paths Store.
Local Open Scope Z_scope.
Local Open Scope go_scope.

Notation bytes := (list Z).
Notation fpath := (list string).

Inductive node : Type :=
| NFile (data : bytes) (mtime : Z)
| NDir (mtime : Z)
| NLink (target : string)
| NOther.                 (* device, pipe, socket *)
#[export] Instance node_eq_dec : EqDecision node. Proof. solve_decision. Defined.

Notation nodes := (gmap (list string) node).

Record disk : Type := MkDisk {
  d_nodes : nodes;
  d_faults : list (option (nat * string));
  d_tick : nat
}.

Definition set_nodes f d := MkDisk (f (d_nodes d)) (d_faults d) (d_tick d).

(** The node at a resolved path: the root is always there. *)
Definition node_at (m : nodes) (p : fpath) : option node :=
  match p with [] => Some (NDir 0) | _ => m !! p end.

Definition ENOENT (op : string) : error := PathError op "ENOENT".
Definition ENOTDIR (op : string) : error := PathError op "ENOTDIR".
Definition ELOOP : error := Errorf "too many links".

(** ** Resolution

    [walk create links m dest todo] continues from the resolved directory [dest] with the
    elements [todo], following at most [links] links.  With [create] the last element may
    be missing (O_CREATE). *)
Fixpoint walk (create : bool) (links : nat) (m : nodes) {struct links} : fpath -> list string -> result fpath :=
  fix go (dest : fpath) (todo : list string) {struct todo} : result fpath :=
    match todo with
    | [] => Ok dest
    | c :: rest =>
        if bool_decide (c = "") || bool_decide (c = ".") then go dest rest
        else if bool_decide (c = "..") then go (removelast dest) rest
        else
          match m !! (dest ++ [c]) with
          | None => if create && bool_decide (rest = []) then Ok (dest ++ [c]) else Err (ENOENT "lstat")
          | Some (NLink t) =>
              match links with
              | O => Err ELOOP
              | S l => walk create l m (if HasPrefix t "/" then [] else dest) (split_slash t ++ rest)
              end
          | Some (NDir _) => go (dest ++ [c]) rest
          | Some _ => if bool_decide (rest = []) then Ok (dest ++ [c]) else Err (ENOTDIR "lstat")
          end
    end.

(** The limits of [filepath.EvalSymlinks] and of the kernel. *)
Definition go_links : nat := 255.
Definition kernel_links : nat := 40.
#[global] Opaque go_links kernel_links.

(** What the kernel opens for a path, its last element followed. *)
Definition follow (create : bool) (m : nodes) (p : fpath) : result fpath := walk create kernel_links m [] p.

(** What it works on when a last element that is a name is not followed. *)
Definition nofollow (m : nodes) (p : fpath) : result fpath :=
  match last p with
  | None => Ok []
  | Some b => if negb (is_name b) then follow false m p
              else match follow false m (removelast p) with
              | Ok d => match node_at m d with
                        | Some (NDir _) => Ok (d ++ [b])
                        | _ => Err (ENOTDIR "lookup")
                        end
              | Err e => Err e
              end
  end.

Section Calls.
Context {clk : Clock}.

Definition d_fault : M disk (option (nat * string)) := fun d =>
  match d_faults d with
  | [] => (Ok None, d)
  | f :: fl => (Ok f, MkDisk (d_nodes d) fl (d_tick d))
  end.

Definition d_call {A} (op : string) (m : M disk A) : M disk A :=
  f <- d_fault;;
  match f with
  | Some (_, errno) => throw (PathError op errno)
  | None => m
  end.

Definition d_now : M disk Z := fun d => (Ok (clock (d_tick d)), MkDisk (d_nodes d) (d_faults d) (S (d_tick d))).

(** A query of the nodes. *)
Definition d_query {A} (op : string) (q : nodes -> result A) : M disk A :=
  d_call op (fun d => (q (d_nodes d), d)).

Definition found (op : string) (m : nodes) (r : result fpath) : result node :=
  match r with
  | Ok p => match node_at m p with Some n => Ok n | None => Err (ENOENT op) end
  | Err e => Err e
  end.

Definition EvalSymlinks (p : fpath) : M disk fpath := d_query "lstat" (fun m => walk false go_links m [] p).
Definition d_Lstat (p : fpath) : M disk node := d_query "lstat" (fun m => found "lstat" m (nofollow m p)).
Definition d_Stat (p : fpath) : M disk node := d_query "stat" (fun m => found "stat" m (follow false m p)).

(** An open file's content, read when it is opened. *)
Definition d_Open (p : fpath) : M disk bytes :=
  n <- d_query "open" (fun m => found "open" m (follow false m p));;
  match n with
  | NFile data _ => ret data
  | NDir _ => throw (PathError "read" "EISDIR")
  | _ => throw (PathError "open" "ENXIO")
  end.

(** [O_CREATE|O_TRUNC|O_WRONLY]; the result is the file the descriptor writes to. *)
Definition d_Create (p : fpath) : M disk fpath :=
  d_call "open" (fun d =>
    match follow true (d_nodes d) p with
    | Err e => (Err e, d)
    | Ok q =>
        match node_at (d_nodes d) q with
        | None | Some (NFile _ _) =>
            (Ok q, MkDisk (<[q := NFile [] (clock (d_tick d))]> (d_nodes d)) (d_faults d) (S (d_tick d)))
        | Some (NDir _) => (Err (PathError "open" "EISDIR"), d)
        | Some _ => (Err (PathError "open" "ENXIO"), d)
        end
    end).

(** [io.Copy] into an open file: what was written, and the error it ended with. *)
Definition d_write (q : fpath) (data : bytes) (err : option error) : M disk (bytes * option error) :=
  f <- d_fault;;
  let '(written, err) := match f with
                         | Some (n, errno) => (take n data, Some (PathError "write" errno))
                         | None => (data, err)
                         end in
  t <- d_now;;
  modify (set_nodes (alter (fun n => match n with
                                     | NFile old _ => NFile (old ++ written) t
                                     | _ => n
                                     end) q));;
  ret (written, err).

Definition d_close : M disk unit := d_call "close" (ret tt).

Definition d_Mkdir (p : fpath) : M disk unit :=
  d_call "mkdir" (fun d =>
    match nofollow (d_nodes d) p with
    | Err e => (Err e, d)
    | Ok q =>
        match node_at (d_nodes d) q with
        | Some _ => (Err (PathError "mkdir" "EEXIST"), d)
        | None => (Ok tt, MkDisk (<[q := NDir (clock (d_tick d))]> (d_nodes d)) (d_faults d) (S (d_tick d)))
        end
    end).

Definition is_dir (n : node) : bool := match n with NDir _ => true | _ => false end.

(** [os.MkdirAll], on the path with its last element first: below the working directory
    [base], or for an absolute path ([base] is then []), whose parents go up to "/". *)
Fixpoint mkdir_all (absolute : bool) (base rp : fpath) : M disk unit :=
  st <-? d_Stat (base ++ reverse rp);;
  match st with
  | Ok n => if is_dir n then ret tt else throw (ENOTDIR "mkdir")
  | Err _ =>
      match rp with
      | [] => ret tt
      | _ :: rparent =>
          if negb absolute && bool_decide (rparent = []) then ret tt else mkdir_all absolute base rparent
      end;;
      r <-? d_Mkdir (base ++ reverse rp);;
      match r with
      | Ok _ => ret tt
      | Err e =>
          l <-? d_Lstat (base ++ reverse rp);;
          match l with
          | Ok n => if is_dir n then ret tt else throw e
          | Err _ => throw e
          end
      end
  end.
Definition d_MkdirAll (p : fpath) : M disk unit := mkdir_all true [] (reverse p).

(** The entries of a directory. *)
Definition children (m : nodes) (p : fpath) : list (string * node) :=
  merge_sort (by_key String.le fst)
    (omap (fun kv => match last kv.1 with
                     | Some b => if bool_decide (kv.1 = p ++ [b]) then Some (b, kv.2) else None
                     | None => None
                     end) (map_to_list m)).

Definition d_ReadDir (p : fpath) : M disk (list (string * node)) :=
  d_call "open" (fun d =>
    match follow false (d_nodes d) p with
    | Err e => (Err e, d)
    | Ok q => match node_at (d_nodes d) q with
              | Some (NDir _) => (Ok (children (d_nodes d) q), d)
              | Some _ => (Err (ENOTDIR "readdirent"), d)
              | None => (Err (ENOENT "open"), d)
              end
    end).

(** A file, or an empty directory. *)
Definition d_Remove (p : fpath) : M disk unit :=
  d_call "remove" (fun d =>
    match nofollow (d_nodes d) p with
    | Err e => (Err e, d)
    | Ok q =>
        match d_nodes d !! q with
        | None => (Err (ENOENT "remove"), d)
        | Some (NDir _) => if bool_decide (children (d_nodes d) q = [])
                           then (Ok tt, set_nodes (delete q) d) else (Err (PathError "remove" "ENOTEMPTY"), d)
        | Some _ => (Ok tt, set_nodes (delete q) d)
        end
    end).

(** What is left of [q] when it is [p] or under it. *)
Fixpoint strip (p q : fpath) : option fpath :=
  match p, q with
  | [], _ => Some q
  | a :: p', b :: q' => if bool_decide (a = b) then strip p' q' else None
  | _ :: _, [] => None
  end.

(** Moving a subtree. *)
Definition relocate (src dst : fpath) (m : nodes) : nodes :=
  list_to_map (M:=nodes) (omap (fun kv : fpath * node => match strip src kv.1 with
                               | Some r => Some (dst ++ r, kv.2)
                               | None => if bool_decide (kv.1 = dst) then None else Some kv
                               end) (map_to_list m)).

Definition d_Rename (p1 p2 : fpath) : M disk unit :=
  link_error (d_call "rename" (fun d =>
    match nofollow (d_nodes d) p1, nofollow (d_nodes d) p2 with
    | Ok q1, Ok q2 =>
        match d_nodes d !! q1, node_at (d_nodes d) q2 with
        | None, _ => (Err (ENOENT "rename"), d)
        | Some (NDir _), Some (NDir _) =>
            if bool_decide (q1 = q2) then (Ok tt, d)
            else if bool_decide (children (d_nodes d) q2 = []) && negb (bool_decide (is_Some (strip q1 q2)))
                    && negb (bool_decide (q2 = []))
            then (Ok tt, set_nodes (relocate q1 q2) d) else (Err (PathError "rename" "ENOTEMPTY"), d)
        | Some (NDir _), Some _ => (Err (ENOTDIR "rename"), d)
        | Some (NDir _), None =>
            if bool_decide (is_Some (strip q1 q2)) then (Err (PathError "rename" "EINVAL"), d)
            else (Ok tt, set_nodes (relocate q1 q2) d)
        | Some _, Some (NDir _) => (Err (PathError "rename" "EISDIR"), d)
        | Some n, _ => (Ok tt, set_nodes (fun m => <[q2 := n]> (delete q1 m)) d)
        end
    | Err e, _ => (Err e, d)
    | _, Err e => (Err e, d)
    end)).
End Calls.
