(* ===== verification/Jail.v ===== *)
(** internal/clientfs/jail.go: the client's directory, and the calls that are only to touch
    what is under it.

    The jail is its resolved root, a list of elements.  Each method is its sequence of
    calls on the disk of Disk.v; other processes do not change the disk in between. *)
From S2P Require Import Prelude GoStrings Paths Store Disk.
Local Open Scope Z_scope.
Local Open Scope go_scope.

Definition ErrPathEscape : error := Sentinel "clientfs: path escapes jail root".
Definition ErrUnsupportedFileType : error := Sentinel "clientfs: unsupported file type".

Section Jail.
Context {clk : Clock}.

(** [New] of an absolute path. *)
Definition New (abs : string) : M disk fpath :=
  real <- wrapped "clientfs: root does not exist" (EvalSymlinks (clean_elements true (split_slash abs)));;
  info <- wrapped "clientfs: stat root" (d_Stat real);;
  if is_dir info then ret real
  else throw (Errorf ("clientfs: root is not a directory: " +:+ String slash (join_slash real))).

(** [filepath.Clean(filepath.Join(j.root, rel))] *)
Definition join_root (root : fpath) (rel : string) : fpath := clean_elements true (root ++ split_slash rel).

(** [filepath.Rel] of two absolute paths, as elements. *)
Fixpoint Rel (base targ : fpath) : list string :=
  match base, targ with
  | a :: base', b :: targ' => if bool_decide (a = b) then Rel base' targ' else map (fun _ => "..") base ++ targ
  | _, _ => map (fun _ => "..") base ++ targ
  end.

Definition checkUnderRoot (root real : fpath) : M disk fpath :=
  match Rel root real with
  | x :: _ => if bool_decide (x = "..") then throw ErrPathEscape else ret real
  | [] => ret real
  end.

(** [resolveNonExistent], on the path with its last element first. *)
Fixpoint resolve_nonexistent (rcleaned : fpath) : M disk fpath :=
  match rcleaned with
  | [] => throw (Errorf "no existing ancestor found for /")
  | base :: rparent =>
      r <-? EvalSymlinks (reverse rparent);;
      match r with
      | Ok realParent => ret (realParent ++ [base])
      | Err _ => realParent <- resolve_nonexistent rparent;; ret (realParent ++ [base])
      end
  end.
Definition resolveNonExistent (cleaned : fpath) : M disk fpath := resolve_nonexistent (reverse cleaned).

Definition Resolve (root : fpath) (rel : string) : M disk fpath :=
  if HasPrefix rel "/" then throw ErrPathEscape
  else
    let cleaned := join_root root rel in
    r <-? EvalSymlinks cleaned;;
    match r with
    | Ok real => checkUnderRoot root real
    | Err _ =>
        real <- wrapped "clientfs: resolve failed" (resolveNonExistent cleaned);;
        checkUnderRoot root real
    end.

(** [Mode()&unsupportedModeMask != 0] *)
Definition unsupported (n : node) : bool :=
  match n with NLink _ | NOther => true | _ => false end.

Definition resolveChecked (root : fpath) (rel : string) : M disk fpath :=
  if HasPrefix rel "/" then throw ErrPathEscape
  else
    info <-? d_Lstat (join_root root rel);;
    match info with
    | Ok n => if unsupported n then throw ErrUnsupportedFileType else Resolve root rel
    | Err _ => Resolve root rel
    end.

Definition Open (root : fpath) (rel : string) : M disk bytes :=
  path <- resolveChecked root rel;; d_Open path.

Definition Create (root : fpath) (rel : string) : M disk fpath :=
  path <- Resolve root rel;;
  wrapped "clientfs: mkdirall" (d_MkdirAll (removelast path));;
  d_Create path.

Definition Stat (root : fpath) (rel : string) : M disk node :=
  path <- resolveChecked root rel;; d_Stat path.

Definition ReadDir (root : fpath) (rel : string) : M disk (list (string * node)) :=
  path <- Resolve root rel;; d_ReadDir path.

Definition Rename (root : fpath) (oldRel newRel : string) : M disk unit :=
  oldPath <- Resolve root oldRel;;
  newPath <- Resolve root newRel;;
  d_Rename oldPath newPath.

Definition Remove (root : fpath) (rel : string) : M disk unit :=
  path <- Resolve root rel;; d_Remove path.

Definition MkdirAll (root : fpath) (rel : string) : M disk unit :=
  path <- Resolve root rel;; d_MkdirAll path.
End Jail.
