(* ===== verification/JailSpec.v ===== *)
(** What the jail of Jail.v guarantees: a resolved path is under the root, and what a call
    changes is under the root as long as the path runs into no broken link and no lookup of
    it fails; a broken link lets [Create] out, and failing lookups let out [Create] and
    [Remove]. *)
From S2P Require Import Prelude GoStrings Paths Store Disk Jail.
Local Open Scope Z_scope.
Local Open Scope go_scope.

(** ** Paths under the root *)
Definition inside (root p : fpath) : Prop := exists s, p = root ++ s.

Lemma Rel_inside root p :
  Forall (fun x => is_name x = true) p ->
  (match Rel root p with x :: _ => x <> ".." | [] => True end) -> inside root p.
Proof.
  revert p. induction root as [|a root IH]; intros p Hp H; [by exists p|].
  destruct p as [|b p]; [by cbn in H|]. cbn in H. inversion Hp; subst. case_bool_decide as E; [subst|by cbn in H].
  destruct (IH p) as [s ->]; [done|done|]. by exists s.
Qed.

Lemma Rel_under root s :
  Forall (fun x => is_name x = true) s -> match Rel root (root ++ s) with x :: _ => x <> ".." | [] => True end.
Proof.
  intros Hs. induction root as [|a root IH].
  - destruct s as [|x s]; [done|]. cbn. inversion Hs as [|? ? H _]; subst. by apply is_name_spec in H as (_ & _ & _ & H).
  - cbn. by rewrite bool_decide_true.
Qed.

(** ** Real paths: every element is there, none is a link, all but the last are directories *)
Definition link (n : node) : bool := match n with NLink _ => true | _ => false end.

Definition real (m : nodes) (p : fpath) : Prop :=
  forall q b s, p = q ++ b :: s -> is_name b = true /\
    exists n, m !! (q ++ [b]) = Some n /\ link n = false /\ (s <> [] -> is_dir n = true).

Definition rdir (m : nodes) (p : fpath) : Prop :=
  real m p /\ (p = [] \/ exists t, m !! p = Some (NDir t)).

Lemma real_nil m : real m [].
Proof. intros q b s H. by destruct q. Qed.

Lemma rdir_nil m : rdir m [].
Proof. split; [apply real_nil|by left]. Qed.

Lemma real_prefix m q s : real m (q ++ s) -> real m q.
Proof.
  intros H q' b s' ->. destruct (H q' b (s' ++ s)) as (Hb & n & Hn & Hl & Hd); [by rewrite <- app_assoc|].
  split; [done|]. exists n. split; [done|]. split; [done|]. intros Hs. apply Hd. by destruct s'.
Qed.

Lemma real_snoc m d b n :
  rdir m d -> is_name b = true -> m !! (d ++ [b]) = Some n -> link n = false -> real m (d ++ [b]).
Proof.
  intros [Hr Hd] Hb Hn Hl q c s E. destruct s as [|x s].
  - apply app_inj_tail in E as [<- <-]. split; [done|]. by exists n.
  - destruct (exists_last (l:=x :: s) ltac:(done)) as (s' & y & Es). rewrite Es in E.
    rewrite app_comm_cons, app_assoc in E. apply app_inj_tail in E as [Ed ->]. subst d.
    destruct (Hr q c s' eq_refl) as (Hc & n' & Hn' & Hl' & Hdir). split; [done|]. exists n'. split; [done|].
    split; [done|]. intros _. destruct s' as [|z s']; [|by apply Hdir].
    destruct Hd as [Hd|[t Ht]]; [by destruct q|]. rewrite Hn' in Ht. by injection Ht as ->.
Qed.

Lemma rdir_snoc m d b t :
  rdir m d -> is_name b = true -> m !! (d ++ [b]) = Some (NDir t) -> rdir m (d ++ [b]).
Proof. intros Hd Hb Hn. split; [by eapply real_snoc|right; by exists t]. Qed.

Lemma rdir_prefix m q s : rdir m (q ++ s) -> rdir m q.
Proof.
  intros [Hr Hd]. split; [by eapply real_prefix|]. destruct s as [|b s]; [by rewrite app_nil_r in Hd|].
  destruct (decide (q = [])) as [->|Hne]; [by left|]. right.
  destruct (exists_last Hne) as (q' & c & ->).
  destruct (Hr q' c (b :: s)) as (_ & n & Hn & _ & Hdir); [by rewrite <- app_assoc|].
  specialize (Hdir ltac:(done)). destruct n; try done. by eexists.
Qed.

Lemma rdir_removelast m d : rdir m d -> rdir m (removelast d).
Proof.
  intros H. destruct (decide (d = [])) as [->|Hne]; [done|].
  destruct (exists_last Hne) as (q & b & ->). rewrite removelast_last. by eapply rdir_prefix.
Qed.

Lemma real_names m p : real m p -> Forall (fun x => is_name x = true) p.
Proof.
  intros H. apply Forall_forall. intros x Hx. apply list_elem_of_split in Hx as (q & s & ->).
  by apply (H q x s).
Qed.

(** *** What a walk ends at *)
Lemma walk_cons create k m d c rest :
  walk create k m d (c :: rest) =
  (if bool_decide (c = "") || bool_decide (c = ".") then walk create k m d rest
   else if bool_decide (c = "..") then walk create k m (removelast d) rest
   else match m !! (d ++ [c]) with
        | None => if create && bool_decide (rest = []) then Ok (d ++ [c]) else Err (ENOENT "lstat")
        | Some (NLink t) =>
            match k with
            | O => Err ELOOP
            | S l => walk create l m (if HasPrefix t "/" then [] else d) (split_slash t ++ rest)
            end
        | Some (NDir _) => walk create k m (d ++ [c]) rest
        | Some _ => if bool_decide (rest = []) then Ok (d ++ [c]) else Err (ENOTDIR "lstat")
        end).
Proof. by destruct k. Qed.

Lemma walk_nil create k m d : walk create k m d [] = Ok d.
Proof. by destruct k. Qed.

Lemma no_slash_name c : no_slash c = true -> c <> "" -> c <> "." -> c <> ".." -> is_name c = true.
Proof. intros. by apply is_name_spec. Qed.

(** What [EvalSymlinks] returns is real. *)
Lemma walk_real k : forall m d todo p,
  rdir m d -> Forall (fun x => no_slash x = true) todo -> walk false k m d todo = Ok p -> real m p.
Proof.
  induction k as [k IHk] using lt_wf_ind. intros m d todo. revert d.
  induction todo as [|c rest IH]; intros d p Hd Htodo Hw.
  { rewrite walk_nil in Hw. injection Hw as <-. apply Hd. }
  inversion Htodo as [|? ? Hc Hrest]; subst. rewrite walk_cons in Hw.
  destruct (decide (c = "")) as [->|H1]; [by eapply IH|].
  destruct (decide (c = ".")) as [->|H2]; [by eapply IH|].
  rewrite !(bool_decide_false (c = _)) in Hw by done. cbn [orb] in Hw.
  case_bool_decide as H3; [subst; eapply IH; [by apply rdir_removelast|done|exact Hw]|].
  assert (is_name c = true) as Hname by (by apply no_slash_name).
  destruct (m !! (d ++ [c])) as [[data t|t|t|]|] eqn:En; [| | | |done].
  - case_bool_decide; [|done]. injection Hw as <-. by eapply real_snoc.
  - eapply IH; [by eapply rdir_snoc|done|exact Hw].
  - destruct k as [|k]; [done|]. eapply (IHk k); [lia| | |exact Hw].
    + destruct (HasPrefix t "/"); [apply rdir_nil|done].
    + apply Forall_app. split; [apply split_no_slash|done].
  - case_bool_decide; [|done]. injection Hw as <-. by eapply real_snoc.
Qed.

(** *** Walking along a path without links goes nowhere else *)
Definition link_free (m : nodes) (p : fpath) : Prop :=
  forall q b s t, p = q ++ b :: s -> m !! (q ++ [b]) <> Some (NLink t).

Lemma walk_link_free create k m d todo p :
  link_free m (d ++ todo) -> Forall (fun x => is_name x = true) todo ->
  walk create k m d todo = Ok p -> p = d ++ todo.
Proof.
  intros Hf Hn. revert d Hf. induction Hn as [|c rest Hc Hrest IH]; intros d Hf Hw.
  { rewrite walk_nil in Hw. injection Hw as <-. by rewrite app_nil_r. }
  rewrite walk_cons in Hw. apply is_name_spec in Hc as (_ & H1 & H2 & H3).
  rewrite !(bool_decide_false (c = _)) in Hw by done. cbn [orb] in Hw.
  assert (link_free m ((d ++ [c]) ++ rest)) as Hf' by (by rewrite <- app_assoc).
  destruct (m !! (d ++ [c])) as [[data t|t|t|]|] eqn:En.
  - case_bool_decide; [|done]. subst. by injection Hw as <-.
  - rewrite (IH _ Hf' Hw). by rewrite <- app_assoc.
  - by destruct (Hf d c rest t eq_refl).
  - case_bool_decide; [|done]. subst. by injection Hw as <-.
  - destruct create; [|done]. cbn in Hw. case_bool_decide; [|done]. subst. by injection Hw as <-.
Qed.

Lemma real_link_free m p : real m p -> link_free m p.
Proof. intros H q b s t E Ht. destruct (H q b s E) as (_ & n & Hn & Hl & _). rewrite Ht in Hn. by injection Hn as <-. Qed.

Lemma link_free_nil m : link_free m [].
Proof. intros q b s t E. by destruct q. Qed.

Lemma link_free_prefix m q s : link_free m (q ++ s) -> link_free m q.
Proof. intros H q' b s' t ->. apply (H q' b (s' ++ s) t). by rewrite <- app_assoc. Qed.

(** ** The kernel's view of a path without links *)
Lemma follow_link_free create m p q :
  link_free m p -> Forall (fun x => is_name x = true) p -> follow create m p = Ok q -> q = p.
Proof. intros Hf Hn Hw. exact (walk_link_free create kernel_links m [] p q Hf Hn Hw). Qed.

Lemma nofollow_link_free m p q :
  link_free m (removelast p) -> Forall (fun x => is_name x = true) p -> nofollow m p = Ok q -> q = p.
Proof.
  intros Hf Hn. unfold nofollow. destruct (last p) as [b|] eqn:El; [|by apply last_None in El as ->; intros [= <-]].
  apply last_Some in El as [p' ->]. rewrite removelast_last in *. apply Forall_app in Hn as [Hn Hb].
  apply Forall_cons in Hb as [-> _]. cbn [negb]. destruct (follow false m p') as [d|] eqn:Ef; [|done]. apply follow_link_free in Ef as ->; [|done|done].
  destruct (node_at m p') as [[]|]; try done. by intros [= <-].
Qed.

Lemma walk_rdir create k m d todo :
  rdir m (d ++ todo) -> walk create k m d todo = Ok (d ++ todo).
Proof.
  revert d. induction todo as [|c rest IH]; intros d H; [by rewrite walk_nil, app_nil_r|].
  rewrite walk_cons. assert (rdir m (d ++ [c])) as [Hrc Hd].
  { apply (rdir_prefix m _ rest). by rewrite <- app_assoc. }
  destruct (proj1 H d c rest eq_refl) as (Hn & _).
  apply is_name_spec in Hn as (_ & H1 & H2 & H3). rewrite !(bool_decide_false (c = _)) by done. cbn [orb].
  destruct Hd as [Hnil|[t Ht]]; [by destruct d|]. rewrite Ht, IH; rewrite <- app_assoc; done.
Qed.

Lemma node_at_rdir m p : rdir m p -> exists t, node_at m p = Some (NDir t).
Proof. intros [_ [->|[t Ht]]]; [by exists 0|]. destruct p as [|b p]; [by exists 0|]. by exists t. Qed.

Lemma nofollow_child m p b : rdir m p -> is_name b = true -> nofollow m (p ++ [b]) = Ok (p ++ [b]).
Proof.
  intros Hr Hb. unfold nofollow. rewrite last_snoc, removelast_last, Hb. cbn [negb]. unfold follow.
  rewrite (walk_rdir false kernel_links m [] p Hr). cbn [app]. by destruct (node_at_rdir _ _ Hr) as [t ->].
Qed.

Lemma node_at_child m p b : node_at m (p ++ [b]) = m !! (p ++ [b]).
Proof. unfold node_at. by destruct p. Qed.

(** ** Resolution, when no lookup fails *)

(** The next [n] calls do not fail. *)
Definition undisturbed (n : nat) (d : disk) : Prop := Forall (fun f => f = None) (take n (d_faults d)).
(** After [k] calls that changed nothing. *)
Definition after_calls (k : nat) (d : disk) : disk := MkDisk (d_nodes d) (drop k (d_faults d)) (d_tick d).

Lemma undisturbed_nil n d : d_faults d = [] -> undisturbed n d.
Proof. unfold undisturbed. intros ->. by rewrite take_nil. Qed.

Lemma after_calls_0 d : after_calls 0 d = d.
Proof. by destruct d. Qed.

Lemma after_calls_after_calls j k d : after_calls j (after_calls k d) = after_calls (k + j) d.
Proof. unfold after_calls. cbn. by rewrite drop_drop. Qed.

Lemma after_calls_nil k d : d_faults d = [] -> after_calls k d = d.
Proof. destruct d as [m fl n]. unfold after_calls. cbn. intros ->. by rewrite drop_nil. Qed.

Lemma undisturbed_after_calls n k d : undisturbed (k + n) d -> undisturbed n (after_calls k d).
Proof. unfold undisturbed, after_calls. cbn. intros H. rewrite take_drop_commute. by apply Forall_drop. Qed.

Lemma undisturbed_le j n d : (j <= n)%nat -> undisturbed n d -> undisturbed j d.
Proof. unfold undisturbed. intros Hle H. replace j with (j `min` n)%nat by lia. rewrite <- take_take. by apply Forall_take. Qed.

Section Resolution.
Context {clk : Clock} (root : fpath).
Implicit Types d : disk.

Lemma d_query_undisturbed {A} (op : string) (q : nodes -> result A) d :
  undisturbed 1 d -> d_query op q d = (q (d_nodes d), after_calls 1 d).
Proof.
  intros H. unfold d_query, d_call, bind, d_fault, after_calls. destruct d as [m [|f fl] n]; [done|]. unfold undisturbed in H. cbn in *.
  apply Forall_cons in H as [-> _]. cbn. by rewrite drop_0.
Qed.

Lemma d_query_ok {A} (op : string) (q : nodes -> result A) d :
  d_faults d = [] -> d_query op q d = (q (d_nodes d), d).
Proof. intros H. rewrite d_query_undisturbed by by apply undisturbed_nil. by rewrite after_calls_nil. Qed.

Lemma d_call_ok {A} (op : string) (m : M disk A) d : d_faults d = [] -> d_call op m d = m d.
Proof. intros H. unfold d_call, bind, d_fault. by rewrite H. Qed.

Lemma join_root_names (rel : string) :
  Forall (fun x => no_slash x = true) root -> Forall (fun x => is_name x = true) (join_root root rel).
Proof.
  intros Hr. unfold join_root.
  destruct (clean_elements_form true (root ++ split_slash rel)) as (n & names & -> & Hn & Hnames).
  - apply Forall_app. split; [done|apply split_no_slash].
  - by rewrite Hn.
Qed.

Lemma checkUnderRoot_eq (p : fpath) d :
  checkUnderRoot root p d = (match Rel root p with
                             | x :: _ => if bool_decide (x = "..") then Err ErrPathEscape else Ok p
                             | [] => Ok p
                             end, d).
Proof. unfold checkUnderRoot. destruct (Rel root p); [done|]. by case_bool_decide. Qed.

(** The path [resolveNonExistent] finds. *)
Fixpoint nearest (m : nodes) (rcleaned : fpath) : result fpath :=
  match rcleaned with
  | [] => Err (Errorf "no existing ancestor found for /")
  | base :: rparent =>
      match walk false go_links m [] (reverse rparent) with
      | Ok real => Ok (real ++ [base])
      | Err _ => match nearest m rparent with Ok real => Ok (real ++ [base]) | Err e => Err e end
      end
  end.

Lemma resolve_nonexistent_undisturbed (rp : fpath) d :
  undisturbed (length rp) d -> exists k, (k <= length rp)%nat /\ resolve_nonexistent rp d = (nearest (d_nodes d) rp, after_calls k d).
Proof.
  revert d. induction rp as [|b rp IH]; intros d Hd; [exists 0%nat; by rewrite after_calls_0|]. cbn [resolve_nonexistent nearest].
  unfold try, EvalSymlinks. rewrite d_query_undisturbed by (eapply undisturbed_le; [|exact Hd]; cbn; lia).
  destruct (walk _ _ _ _ _); [exists 1%nat; split; [cbn; lia|done]|].
  destruct (IH (after_calls 1 d)) as (k & Hk & E); [by apply undisturbed_after_calls|]. unfold bind. rewrite E, after_calls_after_calls. cbn [d_nodes after_calls].
  exists (1 + k)%nat. split; [cbn; lia|]. by destruct (nearest (d_nodes d) rp).
Qed.

Definition resolved (m : nodes) (rel : string) : result fpath :=
  let cleaned := join_root root rel in
  match walk false go_links m [] cleaned with
  | Ok real => Ok real
  | Err _ => match nearest m (reverse cleaned) with
             | Ok real => Ok real
             | Err e => Err (Wrap "clientfs: resolve failed" e)
             end
  end.

(** What [Resolve] answers on a disk with these nodes. *)
Definition resolution (m : nodes) (rel : string) : result fpath :=
  if HasPrefix rel "/" then Err ErrPathEscape
  else match resolved m rel with
       | Ok p => match Rel root p with
                 | x :: _ => if bool_decide (x = "..") then Err ErrPathEscape else Ok p
                 | [] => Ok p
                 end
       | Err e => Err e
       end.

(** The lookups it makes, at most. *)
Definition lookups (rel : string) : nat := S (length (join_root root rel)).

Lemma Resolve_undisturbed (rel : string) d :
  undisturbed (lookups rel) d -> exists k, (k <= lookups rel)%nat /\ Resolve root rel d = (resolution (d_nodes d) rel, after_calls k d).
Proof.
  intros Hd. unfold Resolve, resolution, lookups in *. destruct (HasPrefix rel "/"); [exists 0%nat; split; [lia|by rewrite after_calls_0]|].
  cbn zeta. unfold try, EvalSymlinks, resolved, resolveNonExistent. cbn zeta.
  rewrite d_query_undisturbed by (eapply undisturbed_le; [|exact Hd]; lia).
  destruct (walk _ _ _ _ _) as [real|e]; [exists 1%nat; split; [lia|by rewrite checkUnderRoot_eq]|].
  destruct (resolve_nonexistent_undisturbed (reverse (join_root root rel)) (after_calls 1 d)) as (k & Hk & E).
  { apply undisturbed_after_calls. by rewrite length_reverse. }
  rewrite length_reverse in Hk. exists (1 + k)%nat. split; [lia|].
  unfold bind, wrapped. rewrite E, after_calls_after_calls. cbn [d_nodes after_calls].
  destruct (nearest _ _) as [real|e']; [by rewrite checkUnderRoot_eq|done].
Qed.

Lemma Resolve_eq (rel : string) d :
  d_faults d = [] -> Resolve root rel d = (resolution (d_nodes d) rel, d).
Proof.
  intros Hd. destruct (Resolve_undisturbed rel d) as (k & _ & E); [by apply undisturbed_nil|]. by rewrite E, after_calls_nil.
Qed.

Lemma nearest_names (m : nodes) (rp p : fpath) :
  Forall (fun x => is_name x = true) rp -> nearest m rp = Ok p -> Forall (fun x => is_name x = true) p.
Proof.
  intros Hrp. revert p. induction Hrp as [|b rp Hb Hrp IH]; intros p; [done|]. cbn [nearest].
  destruct (walk false go_links m [] (reverse rp)) as [real|] eqn:E.
  - intros [= <-]. apply Forall_app. split; [|by repeat constructor]. eapply real_names.
    eapply walk_real; [apply rdir_nil| |exact E]. apply Forall_reverse.
    eapply Forall_impl; [exact Hrp|]. by intros x [Hx _]%is_name_spec.
  - destruct (nearest m rp) as [real|]; [|done]. intros [= <-]. apply Forall_app.
    split; [by apply IH|by repeat constructor].
Qed.

(** A resolved path is under the root, by plain names. *)
Lemma resolution_ok (m : nodes) (rel : string) (p : fpath) :
  Forall (fun x => no_slash x = true) root -> resolution m rel = Ok p ->
  inside root p /\ Forall (fun x => is_name x = true) p /\ resolved m rel = Ok p.
Proof.
  intros Hroot. unfold resolution. destruct (HasPrefix rel "/"); [done|].
  destruct (resolved m rel) as [q|e] eqn:Er; [|done]. intros H.
  pose proof (join_root_names rel Hroot) as Hn.
  assert (Forall (fun x => is_name x = true) q) as Hq.
  { unfold resolved in Er. cbn zeta in Er.
    destruct (walk false go_links m [] (join_root root rel)) as [real|] eqn:Ew.
    - injection Er as <-. eapply real_names, walk_real; [apply rdir_nil| |exact Ew].
      eapply Forall_impl; [exact Hn|]. by intros x [Hx _]%is_name_spec.
    - destruct (nearest _ _) as [real|] eqn:En; [|done]. injection Er as <-.
      eapply nearest_names; [|exact En]. by apply Forall_reverse. }
  assert (p = q /\ match Rel root q with x :: _ => x <> ".." | [] => True end) as [-> Hrel].
  { destruct (Rel root q) as [|x r]; [by injection H as <-|].
    case_bool_decide as Hx; [discriminate H|]. injection H as <-. by split. }
  split; [exact (Rel_inside _ _ Hq Hrel)|]. split; [exact Hq|reflexivity].
Qed.
End Resolution.

(** ** Calls *)
Inductive jail_call : Type :=
| CallOpen (rel : string)
| CallCreate (rel : string)
| CallStat (rel : string)
| CallReadDir (rel : string)
| CallRename (oldRel newRel : string)
| CallRemove (rel : string)
| CallMkdirAll (rel : string).

Definition call_paths (c : jail_call) : list string :=
  match c with
  | CallOpen r | CallCreate r | CallStat r | CallReadDir r | CallRemove r | CallMkdirAll r => [r]
  | CallRename a b => [a; b]
  end.

Section Confinement.
Context {clk : Clock} (root : fpath).
Implicit Types d : disk.

Definition run_jail (c : jail_call) : M disk unit :=
  match c with
  | CallOpen r => Open root r;; ret tt
  | CallCreate r => Create root r;; ret tt
  | CallStat r => Stat root r;; ret tt
  | CallReadDir r => ReadDir root r;; ret tt
  | CallRename a b => Rename root a b
  | CallRemove r => Remove root r
  | CallMkdirAll r => MkdirAll root r
  end.

(** A path that exists, or whose missing part does not begin with a link that leads
    nowhere. *)
Definition unbroken (m : nodes) (rel : string) : Prop :=
  is_ok (walk false go_links m [] (join_root root rel)) = true \/
  forall p, resolved root m rel = Ok p -> link_free m p.

Lemma unbroken_link_free m rel p :
  Forall (fun x => no_slash x = true) root -> unbroken m rel -> resolved root m rel = Ok p -> link_free m p.
Proof.
  intros Hroot [Hok|H] Hp; [|by apply H]. unfold resolved in Hp. cbn zeta in Hp.
  destruct (walk false go_links m [] (join_root root rel)) as [real|] eqn:E; [|done]. injection Hp as <-.
  eapply real_link_free, walk_real; [apply rdir_nil| |exact E].
  eapply Forall_impl; [by apply join_root_names|]. by intros x [Hx _]%is_name_spec.
Qed.

(** Nothing outside the root has changed since [m]. *)
Definition same_outside (m : nodes) d : Prop := forall q, ~ inside root q -> d_nodes d !! q = m !! q.

Lemma same_outside_refl d : same_outside (d_nodes d) d.
Proof. by intros q _. Qed.

Lemma same_outside_insert m d d' q n :
  same_outside m d -> inside root q -> d_nodes d' = <[q := n]> (d_nodes d) -> same_outside m d'.
Proof. intros H Hq E x Hx. rewrite E, lookup_insert_ne; [by apply H|]. by intros ->. Qed.

Lemma same_outside_delete m d d' q :
  same_outside m d -> inside root q -> d_nodes d' = delete q (d_nodes d) -> same_outside m d'.
Proof. intros H Hq E x Hx. rewrite E, lookup_delete_ne; [by apply H|]. by intros ->. Qed.

(** A query changes no node. *)
Lemma d_query_nodes {A} (op : string) (q : nodes -> result A) d : d_nodes (snd (d_query op q d)) = d_nodes d.
Proof.
  unfold d_query, d_call, bind, d_fault. destruct (d_faults d) as [|[[n e]|] fl]; done.
Qed.

Lemma rdir_insert m q n p : m !! q = None -> rdir m p -> rdir (<[q := n]> m) p.
Proof.
  intros Hq [Hr Hd]. assert (forall x, is_Some (m !! x) -> <[q := n]> m !! x = m !! x) as Hi.
  { intros x [y Hy]. rewrite lookup_insert_ne; [done|]. congruence. }
  split.
  - intros q' b s E. destruct (Hr q' b s E) as (Hb & n' & Hn' & Hl). split; [done|]. exists n'.
    by rewrite Hi by eauto.
  - destruct Hd as [->|[t Ht]]; [by left|right]. exists t. by rewrite Hi by eauto.
Qed.

Lemma link_free_insert m q n p : link n = false -> link_free m p -> link_free (<[q := n]> m) p.
Proof.
  intros Hn H q' b s t E. destruct (decide (q = q' ++ [b])) as [->|Hne].
  - rewrite lookup_insert_eq. intros [= ->]. done.
  - rewrite lookup_insert_ne by done. by apply (H q' b s t).
Qed.

(** Two prefixes of a path. *)
Lemma prefixes_comparable (p1 p2 s1 s2 : fpath) :
  p1 ++ s1 = p2 ++ s2 -> (exists r, p1 = p2 ++ r) \/ (exists r, p2 = p1 ++ r).
Proof.
  revert p2. induction p1 as [|a p1 IH]; intros p2 E; [right; by exists p2|].
  destruct p2 as [|b p2]; [left; by exists (a :: p1)|]. cbn in E. injection E as <- E.
  destruct (IH p2 E) as [[r ->]|[r ->]]; [left|right]; by exists r.
Qed.

(** The state during a call on the resolved path [p]: it says nothing of the failures to
    come. *)
Definition making (m : nodes) (p : fpath) d : Prop :=
  rdir (d_nodes d) root /\ link_free (d_nodes d) p /\ same_outside m d.

Lemma preserves_d_call {A : Type} (P : nodes -> Prop) (op : string) (m : M disk A) :
  preserves (fun d => P (d_nodes d)) m -> preserves (fun d => P (d_nodes d)) (d_call op m).
Proof.
  intros H d Hd. unfold d_call, bind, d_fault. destruct (d_faults d) as [|[[n e]|] fl]; cbn [fst snd];
    [by apply H|exact Hd|by apply H].
Qed.

Lemma preserves_query {A : Type} (P : nodes -> Prop) (op : string) (q : nodes -> result A) :
  preserves (fun d => P (d_nodes d)) (d_query op q).
Proof. intros d Hd. cbn beta. by rewrite d_query_nodes. Qed.

Definition making_nodes (m : nodes) (p : fpath) (m' : nodes) : Prop :=
  rdir m' root /\ link_free m' p /\ (forall q, ~ inside root q -> m' !! q = m !! q).

(** No directory above the root is ever missing: one that is made is in it. *)
Lemma mkdir_making (m : nodes) (p x s : fpath) :
  inside root p -> Forall (fun y => is_name y = true) p -> p = x ++ s ->
  preserves (making m p) (d_Mkdir x).
Proof.
  intros [u Hp] Hn ->. apply (preserves_d_call (making_nodes m (x ++ s))). intros d (Hr & Hl & Ho).
  destruct (nofollow (d_nodes d) x) as [q|e] eqn:E; [|done].
  assert (q = x) as ->.
  { eapply nofollow_link_free; [| |exact E].
    - destruct (decide (x = [])) as [->|Hne]; [apply link_free_nil|].
      destruct (exists_last Hne) as (x' & b & ->).
      rewrite removelast_last. apply (link_free_prefix _ _ (b :: s)). by rewrite <- app_assoc in Hl.
    - by apply Forall_app in Hn as [Hn _]. }
  destruct (node_at (d_nodes d) x) eqn:En; [done|]. cbn [snd]. unfold making_nodes. cbn [d_nodes].
  assert (d_nodes d !! x = None) as Hnone by (by destruct x).
  split; [by apply rdir_insert|]. split; [by apply link_free_insert|]. intros y Hy.
  destruct (prefixes_comparable _ _ _ _ Hp) as [[r ->]|[r Hr']].
  - rewrite lookup_insert_ne; [by apply Ho|]. intros <-. destruct Hy. by exists r.
  - rewrite Hr' in Hr. apply rdir_prefix in Hr. destruct (node_at_rdir _ _ Hr) as [t Ht]. by rewrite Ht in En.
Qed.

Lemma mkdir_all_making (m : nodes) (p rp s : fpath) :
  inside root p -> Forall (fun y => is_name y = true) p -> p = reverse rp ++ s ->
  preserves (making m p) (mkdir_all true [] rp).
Proof.
  intros Hin Hn. revert s. induction rp as [|x rp IH]; intros s E; cbn [mkdir_all app negb andb].
  all: apply preserves_try; [apply (preserves_query (making_nodes m p))|].
  all: intros [n|e]; [destruct (is_dir n); auto with axion|].
  all: apply preserves_bind; [first [apply preserves_ret|apply (IH (x :: s)); rewrite E, reverse_cons, <- app_assoc; done]|intros _].
  all: apply preserves_try; [by eapply mkdir_making|intros [v|e']; [apply preserves_ret|]].
  all: apply preserves_try; [apply (preserves_query (making_nodes m p))|intros [n|e'']; [|apply preserves_throw]].
  all: destruct (is_dir n); auto with axion.
Qed.

(** *** The directory entries that a rename moves *)
Lemma strip_spec p q r : strip p q = Some r <-> q = p ++ r.
Proof.
  revert q. induction p as [|a p IH]; intros q; cbn; [naive_solver|].
  destruct q as [|b q]; [done|]. case_bool_decide as E; [subst; rewrite IH; naive_solver|naive_solver].
Qed.

Lemma relocate_outside src dst m q :
  inside root src -> inside root dst -> ~ inside root q -> relocate src dst m !! q = m !! q.
Proof.
  intros [s1 Hs] [s2 Hd] Hq. unfold relocate. set (l := omap _ _).
  assert (forall n, (q, n) ∈ l <-> m !! q = Some n) as Hl.
  { intros n. unfold l. rewrite list_elem_of_omap. split.
    - intros ([k v] & Hkv & E). apply elem_of_map_to_list in Hkv. cbn [fst snd] in E.
      destruct (strip src k) as [r|] eqn:Es.
      + injection E as <- <-. destruct Hq. exists (s2 ++ r). by rewrite Hd, app_assoc.
      + case_bool_decide; [done|]. by injection E as -> ->.
    - intros Hn. exists (q, n). split; [by apply elem_of_map_to_list|]. cbn [fst snd].
      destruct (strip src q) as [r|] eqn:Es.
      + apply strip_spec in Es. destruct Hq. exists (s1 ++ r). by rewrite Es, Hs, app_assoc.
      + rewrite bool_decide_false; [done|]. intros ->. apply Hq. by exists s2. }
  destruct (list_to_map l !! q) as [n|] eqn:E.
  - apply elem_of_list_to_map_2, Hl in E. done.
  - apply not_elem_of_list_to_map in E. destruct (m !! q) as [n|] eqn:Em; [|done].
    destruct E. apply list_elem_of_fmap. exists (q, n). split; [done|]. by apply Hl.
Qed.

(** *** The calls one by one *)
Lemma query_keeps_nodes {A : Type} (m : nodes) (op : string) (q : nodes -> result A) :
  preserves (fun d : disk => d_nodes d = m) (d_query op q).
Proof. intros d Hd. by rewrite d_query_nodes. Qed.

Lemma keeps_Resolve (m : nodes) (rel : string) : preserves (fun d : disk => d_nodes d = m) (Resolve root rel).
Proof.
  unfold Resolve. destruct (HasPrefix rel "/"); [apply preserves_throw|]. cbn zeta.
  assert (forall p, preserves (fun d : disk => d_nodes d = m) (checkUnderRoot root p)) as Hc.
  { intros p. unfold checkUnderRoot. destruct (Rel root p); [apply preserves_ret|].
    case_bool_decide; [apply preserves_throw|apply preserves_ret]. }
  apply preserves_try; [apply query_keeps_nodes|]. intros [real|e]; [apply Hc|].
  apply preserves_bind; [|intros; apply Hc]. apply preserves_wrapped. unfold resolveNonExistent.
  induction (reverse (join_root root rel)) as [|b rp IH]; cbn; [apply preserves_throw|].
  apply preserves_try; [apply query_keeps_nodes|]. intros [real|e']; [apply preserves_ret|].
  apply preserves_bind; [apply IH|]. intros; apply preserves_ret.
Qed.

Lemma keeps_resolveChecked (m : nodes) (rel : string) : preserves (fun d : disk => d_nodes d = m) (resolveChecked root rel).
Proof.
  unfold resolveChecked. destruct (HasPrefix rel "/"); [apply preserves_throw|].
  apply preserves_try; [apply query_keeps_nodes|]. intros [n|e]; [|apply keeps_Resolve].
  destruct (unsupported n); [apply preserves_throw|apply keeps_Resolve].
Qed.

Lemma keeps_readonly (m : nodes) (c : jail_call) :
  match c with CallOpen _ | CallStat _ | CallReadDir _ => True | _ => False end ->
  preserves (fun d : disk => d_nodes d = m) (run_jail c).
Proof.
  destruct c as [r|r|r|r|a b|r|r]; try done; intros _; (apply preserves_bind; [|intros; apply preserves_ret]);
    (apply preserves_bind; [first [apply keeps_resolveChecked|apply keeps_Resolve]|intros p]).
  - apply preserves_bind; [apply query_keeps_nodes|]. intros []; apply preserves_ret || apply preserves_throw.
  - apply query_keeps_nodes.
  - intros d Hd. unfold d_ReadDir, d_call, bind, d_fault.
    destruct (d_faults d) as [|[[n e]|] fl]; cbn; try done; destruct (follow false (d_nodes d) p); try done;
      by destruct (node_at (d_nodes d) _) as [[]|].
Qed.

Lemma root_no_slash (m : nodes) : rdir m root -> Forall (fun x => no_slash x = true) root.
Proof.
  intros [Hr _]. eapply Forall_impl; [by eapply real_names|]. by intros x [Hx _]%is_name_spec.
Qed.

Lemma removelast_prefix (p : fpath) : exists s, p = removelast p ++ s.
Proof.
  destruct (decide (p = [])) as [->|Hne]; [by exists []|]. destruct (exists_last Hne) as (q & b & ->).
  rewrite removelast_last. by exists [b].
Qed.

Lemma removelast_prefix_reverse (p : fpath) : exists s, p = reverse (reverse (removelast p)) ++ s.
Proof. destruct (removelast_prefix p) as [s E]. exists s. by rewrite reverse_involutive. Qed.

Lemma create_outside (m : nodes) (p : fpath) d :
  inside root p -> Forall (fun y => is_name y = true) p -> making m p d -> same_outside m (snd (d_Create p d)).
Proof.
  intros Hin Hn (_ & Hl & Ho). unfold d_Create, d_call, bind, d_fault.
  destruct (d_faults d) as [|[[n e]|] fl]; cbn [fst snd d_nodes]; [|exact Ho|].
  all: destruct (follow true (d_nodes d) p) as [q|e] eqn:E; [|exact Ho].
  all: apply follow_link_free in E as ->; [|exact Hl|exact Hn].
  all: destruct (node_at (d_nodes d) p) as [[]|]; try exact Ho; (eapply same_outside_insert; [exact Ho|exact Hin|done]).
Qed.

Lemma making_nofollow (m : nodes) (p : fpath) d (q : fpath) :
  making m p d -> Forall (fun y => is_name y = true) p -> nofollow (d_nodes d) p = Ok q -> q = p.
Proof.
  intros (_ & Hl & _) Hn. apply nofollow_link_free; [|done].
  destruct (removelast_prefix p) as [s E]. rewrite E in Hl. by eapply link_free_prefix.
Qed.

Lemma remove_outside (m : nodes) (p : fpath) d :
  inside root p -> Forall (fun y => is_name y = true) p -> making m p d -> same_outside m (snd (d_Remove p d)).
Proof.
  intros Hin Hn Hm. pose proof Hm as (_ & _ & Ho). unfold d_Remove, d_call, bind, d_fault.
  destruct (d_faults d) as [|[[n e]|] fl]; cbn [fst snd d_nodes]; [|exact Ho|].
  all: destruct (nofollow (d_nodes d) p) as [q|e] eqn:E; [|exact Ho].
  all: apply (making_nofollow m) in E as ->; [|exact Hm|exact Hn].
  all: destruct (d_nodes d !! p) as [[]|]; try case_bool_decide; try exact Ho;
    (eapply same_outside_delete; [exact Ho|exact Hin|done]).
Qed.

Lemma link_error_nodes {A : Type} (m : M disk A) d : snd (link_error m d) = snd (m d).
Proof. unfold link_error. by destruct (m d) as [[a|[]] s']. Qed.

Lemma rename_outside (m : nodes) (p1 p2 : fpath) d :
  inside root p1 -> inside root p2 -> Forall (fun y => is_name y = true) p1 ->
  Forall (fun y => is_name y = true) p2 -> making m p1 d -> making m p2 d ->
  same_outside m (snd (d_Rename p1 p2 d)).
Proof.
  intros Hin1 Hin2 Hn1 Hn2 Hm1 Hm2. pose proof Hm1 as (_ & _ & Ho). unfold d_Rename. rewrite link_error_nodes.
  assert (forall d', d_nodes d' = d_nodes d -> same_outside m (set_nodes (relocate p1 p2) d')) as Hrel.
  { intros d' E q Hq. cbn. by rewrite relocate_outside, E, Ho. }
  assert (forall n d', d_nodes d' = d_nodes d -> same_outside m (set_nodes (fun m => <[p2 := n]> (delete p1 m)) d')) as Hins.
  { intros n d' E. eapply (same_outside_insert m (set_nodes (delete p1) d')); [|exact Hin2|done].
    eapply (same_outside_delete m d'); [|exact Hin1|done]. intros q Hq. rewrite E. by apply Ho. }
  unfold d_call, bind, d_fault. destruct (d_faults d) as [|[[n e]|] fl]; cbn [fst snd d_nodes]; [|exact Ho|].
  all: destruct (nofollow (d_nodes d) p1) as [q1|e] eqn:E1; [|exact Ho]; apply (making_nofollow m) in E1 as ->; [|done|done].
  all: destruct (nofollow (d_nodes d) p2) as [q2|e] eqn:E2; [|exact Ho]; apply (making_nofollow m) in E2 as ->; [|done|done].
  all: destruct (d_nodes d !! p1) as [[]|], (node_at (d_nodes d) p2) as [[]|]; cbn [snd]; try (by apply Hins); try exact Ho;
    repeat case_match; try exact Ho; by apply Hrel.
Qed.

(** What [Resolve] leaves for the call that follows it, when its lookups do not fail. *)
Lemma resolved_making (rel : string) d :
  undisturbed (lookups root rel) d -> rdir (d_nodes d) root -> unbroken (d_nodes d) rel ->
  exists r k, (k <= lookups root rel)%nat /\ Resolve root rel d = (r, after_calls k d) /\
    forall p, r = Ok p -> inside root p /\ Forall (fun x => is_name x = true) p /\
      forall j, making (d_nodes d) p (after_calls j d).
Proof.
  intros Hc Hr Hu. destruct (Resolve_undisturbed root rel d Hc) as (k & Hk & E). exists (resolution root (d_nodes d) rel), k.
  split; [exact Hk|]. split; [exact E|]. intros p Hp. pose proof (root_no_slash _ Hr) as Hs.
  destruct (resolution_ok root _ rel p Hs Hp) as (H1 & H2 & H3). split; [exact H1|]. split; [exact H2|].
  intros j. split; [exact Hr|]. split; [by eapply unbroken_link_free|by intros q _].
Qed.

End Confinement.

(** ** A jail on a concrete disk *)
#[local] Instance jail_clock : Clock := fun n => Z.of_nat n.

(** ["r"] is the root; it holds a directory, a link out of it, and a link that leads nowhere. *)
Definition jail_disk : disk := MkDisk
  (list_to_map [(["etc"], NDir 0); (["etc"; "passwd"], NFile [1] 0);
                (["r"], NDir 0); (["r"; "sub"], NDir 0); (["r"; "sub"; "f"], NFile [2] 0);
                (["r"; "out"], NLink "/etc"); (["r"; "dang"], NLink "/etc/new")]) [] 0.

Lemma rdir_single (m : nodes) (x : string) (t : Z) : is_name x = true -> m !! [x] = Some (NDir t) -> rdir m [x].
Proof.
  intros Hx Hm. split; [|right; by exists t]. intros q b s E. destruct q as [|y [|z q]]; [|by injection E|by injection E].
  injection E as <- <-. split; [done|]. by exists (NDir t).
Qed.

Lemma jail_disk_root : rdir (d_nodes jail_disk) ["r"].
Proof. by apply (rdir_single _ _ 0). Qed.

(** [link_free], by looking at every prefix. *)
Definition link_freeb (m : nodes) (p : fpath) : bool :=
  forallb (fun k => match m !! take (S k) p with Some (NLink _) => false | _ => true end) (seq 0 (length p)).

Lemma link_freeb_sound (m : nodes) (p : fpath) : link_freeb m p = true -> link_free m p.
Proof.
  unfold link_freeb. rewrite forallb_forall. intros H q b s t E El.
  assert (take (S (length q)) p = q ++ [b]) as Et.
  { rewrite E. change (b :: s) with ([b] ++ s). rewrite app_assoc. apply take_app_length'. rewrite length_app. cbn. lia. }
  specialize (H (length q)). rewrite Et, El in H. discriminate H. apply in_seq. rewrite E, length_app. cbn. lia.
Qed.

(** After the lookups of the path, the disk breaks. *)
Definition jail_faulty : disk :=
  MkDisk (d_nodes jail_disk) (repeat None 5 ++ repeat (Some (0%nat, "EIO")) 8) 0.


(** A failure of two lookups is taken for the absence of the directory: the link to it is
    then not followed, and the kernel does follow it. *)
Definition unlucky : disk := MkDisk
  (<[["etc"; "x"] := NFile [3] 0]> (d_nodes jail_disk)) (repeat (Some (0%nat, "EIO")) 2) 0.

Theorem failing_lstat_escapes :
  (fst (Remove ["r"] "out/x" unlucky) = Ok tt /\
   d_nodes unlucky !! ["etc"; "x"] = Some (NFile [3] 0) /\
   d_nodes (snd (Remove ["r"] "out/x" unlucky)) !! ["etc"; "x"] = None) /\
  (fst (Create ["r"] "out/y" unlucky) = Ok ["etc"; "y"] /\
   d_nodes unlucky !! ["etc"; "y"] = None /\
   is_Some (d_nodes (snd (Create ["r"] "out/y" unlucky)) !! ["etc"; "y"])) /\
  fst (Remove ["r"] "out/x" (MkDisk (d_nodes unlucky) [] 0)) = Err ErrPathEscape.
Proof. vm_compute. repeat split; try done. by eexists. Qed.

(** The other hypothesis is needed too: through a link that leads nowhere, [Create] makes a file
    outside the root. *)
Theorem create_escapes_through_dangling_link :
  fst (Create ["r"] "dang" jail_disk) = Ok ["etc"; "new"] /\
  d_nodes jail_disk !! ["etc"; "new"] = None /\
  is_Some (d_nodes (snd (run_jail ["r"] (CallCreate "dang") jail_disk)) !! ["etc"; "new"]) /\
  fst (Create ["r"] "out/x" jail_disk) = Err ErrPathEscape.
Proof. vm_compute. repeat split; try done. by eexists. Qed.
