(* ===== verification/JailCalm.v ===== *)
(** The jail of Jail.v on a disk no call of which fails: what each call returns for a file
    of an existing directory under the root, reached without links, and for a free name
    there. *)
From S2P Require Import Prelude GoStrings Paths Store StoreFacts Disk Jail JailSpec.
Local Open Scope Z_scope.
Local Open Scope go_scope.

(** ** Plain relative paths *)
(** A path of plain names under the root. *)
Lemma join_root_plain (root l : list string) :
  Forall (fun x => is_name x = true) root -> Forall (fun x => is_name x = true) l -> l <> [] ->
  join_root root (join_slash l) = root ++ l.
Proof.
  intros Hr Hl Hne. unfold join_root. rewrite split_join; [|done|].
  - apply clean_form_fixed. exists 0%nat, (root ++ l). split; [done|]. split; [done|]. by apply Forall_app.
  - eapply Forall_impl; [exact Hl|]. by intros x [Hx _]%is_name_spec.
Qed.

Lemma join_slash_suffix (l : list string) (b x : string) :
  join_slash (l ++ [b]) +:+ x = join_slash (l ++ [b +:+ x]).
Proof.
  destruct l as [|a l]; [done|]. rewrite !join_app by done. by rewrite <- sapp_assoc.
Qed.

Lemma is_name_partial (b : string) : is_name b = true -> is_name (b +:+ ".partial") = true.
Proof.
  rewrite !is_name_spec. intros (H1 & _). split.
  - unfold no_slash in *. by rewrite sall_app, H1.
  - repeat split; intros E; apply (f_equal slen) in E; rewrite slen_app in E; cbn in E; lia.
Qed.

(** The path [l]/[b] as the client names it. *)
Definition rel_path (l : fpath) (b : string) : string := join_slash (l ++ [b]).

Lemma rel_path_joins (root l : fpath) (b : string) :
  Forall (fun x => is_name x = true) (root ++ l ++ [b]) -> join_root root (rel_path l b) = (root ++ l) ++ [b].
Proof.
  intros [H1 H2]%Forall_app. unfold rel_path. rewrite join_root_plain, <- app_assoc; try done. by destruct l.
Qed.

Lemma rel_path_relative (l : fpath) (b : string) :
  Forall (fun x => is_name x = true) (l ++ [b]) -> HasPrefix (rel_path l b) "/" = false.
Proof.
  intros Hl'. pose proof (relative_of_elements (l ++ [b])
    (ex_intro _ 0%nat (ex_intro _ (l ++ [b]) (conj eq_refl (conj (fun _ => eq_refl) Hl'))))) as Hr.
  unfold of_elements in Hr. rewrite bool_decide_false in Hr by by destruct l. by apply negb_true_iff.
Qed.

Lemma names_partial_path (root l : fpath) (b : string) :
  Forall (fun x => is_name x = true) (root ++ l ++ [b]) ->
  Forall (fun x => is_name x = true) (root ++ l ++ [b +:+ ".partial"]).
Proof.
  intros [H1 [H2 H3]%Forall_app]%Forall_app. inversion H3; subst.
  apply Forall_app. split; [done|]. apply Forall_app. split; [done|]. constructor; [by apply is_name_partial|done].
Qed.

Lemma rel_path_partial (l : fpath) (b : string) : rel_path l b +:+ ".partial" = rel_path l (b +:+ ".partial").
Proof. apply join_slash_suffix. Qed.

(** ** The jail on a disk no call of which fails *)
Section Calm.
Context {clk : Clock} (root l : fpath) (b : string).
Notation dir := (root ++ l).
Notation target := (dir ++ [b]).
Implicit Types m : nodes.

Definition quiet (m : nodes) (k : nat) : disk := MkDisk m [] k.

Lemma walk_from_rdir create k m d x todo :
  rdir m (d ++ x) -> walk create k m d (x ++ todo) = walk create k m (d ++ x) todo.
Proof.
  revert d. induction x as [|c x IH]; intros d H; [by rewrite app_nil_r|]. cbn [app].
  rewrite walk_cons. assert (rdir m (d ++ [c])) as [Hrc Hd].
  { apply (rdir_prefix m _ x). by rewrite <- app_assoc. }
  destruct (proj1 H d c x eq_refl) as (Hn & _).
  apply is_name_spec in Hn as (_ & H1 & H2 & H3). rewrite !(bool_decide_false (c = _)) by done. cbn [orb].
  destruct Hd as [Hnil|[t Ht]]; [by destruct d|]. rewrite Ht, IH; rewrite <- app_assoc; done.
Qed.

(** The path is an existing file, or a name free in an existing directory. *)
Definition file_or_free (m : nodes) : Prop :=
  rdir m dir /\ is_name b = true /\ match m !! target with Some (NFile _ _) | None => True | _ => False end.

Lemma walk_target create k m :
  file_or_free m -> walk create k m [] target =
    (if create then Ok target else match m !! target with None => Err (ENOENT "lstat") | _ => Ok target end).
Proof.
  intros (Hd & Hb & Hf). rewrite (walk_from_rdir create k m [] dir [b]) by done. cbn [app]. rewrite walk_cons.
  apply is_name_spec in Hb as (_ & H1 & H2 & H3). rewrite !(bool_decide_false (b = _)) by done. cbn [orb].
  destruct (m !! target) as [[]|]; try done; [by destruct create|]. cbn. by destruct create.
Qed.

Lemma walk_dir create k m : rdir m dir -> walk create k m [] dir = Ok dir.
Proof. apply (walk_rdir create k m []). Qed.

Lemma nofollow_target m : file_or_free m -> nofollow m target = Ok target.
Proof.
  intros (Hd & Hb & _). by apply nofollow_child.
Qed.

Lemma node_at_target m : node_at m target = m !! target.
Proof. by destruct dir. Qed.

Context (rel : string) (Hrel : join_root root rel = target) (Hslash : HasPrefix rel "/" = false).

Lemma under_target m : file_or_free m -> match Rel root target with x :: _ => x <> ".." | [] => True end.
Proof.
  intros (Hd & Hb & _). rewrite <- app_assoc. apply Rel_under, Forall_app. split; [|by repeat constructor].
  destruct Hd as [Hd _]. apply real_names in Hd. by apply Forall_app in Hd as [_ Hd].
Qed.

Lemma Resolve_quiet m k : file_or_free m -> Resolve root rel (quiet m k) = (Ok target, quiet m k).
Proof.
  intros Hm. rewrite Resolve_eq by done. unfold resolution. rewrite Hslash. unfold resolved. rewrite Hrel. cbn [d_nodes quiet].
  assert (match walk false go_links m [] target with
          | Ok real => Ok real
          | Err _ => match nearest m (reverse target) with
                     | Ok real => Ok real
                     | Err e => Err (Wrap "clientfs: resolve failed" e)
                     end
          end = Ok target) as ->.
  { rewrite walk_target by done. destruct (m !! target); [done|]. rewrite reverse_snoc. cbn [nearest].
    rewrite reverse_involutive, walk_dir by apply Hm. done. }
  pose proof (under_target m Hm). destruct (Rel root target); [done|]. by rewrite bool_decide_false.
Qed.

Lemma resolveChecked_quiet m k : file_or_free m -> resolveChecked root rel (quiet m k) = (Ok target, quiet m k).
Proof.
  intros Hm. unfold resolveChecked. rewrite Hslash. unfold try, d_Lstat. rewrite d_query_ok by done.
  rewrite Hrel. cbn [d_nodes quiet]. rewrite nofollow_target by done. cbn [found]. rewrite node_at_target.
  destruct Hm as (Hd & Hb & Hf). pose proof (Resolve_quiet m k (conj Hd (conj Hb Hf))) as HR.
  by destruct (m !! target) as [[]|].
Qed.

Lemma Open_quiet m k data t :
  file_or_free m -> m !! target = Some (NFile data t) -> Jail.Open root rel (quiet m k) = (Ok data, quiet m k).
Proof.
  intros Hm Hf. unfold Jail.Open, bind. rewrite resolveChecked_quiet by done.
  unfold d_Open, bind. rewrite d_query_ok by done. cbn [d_nodes quiet]. unfold follow. rewrite walk_target, Hf by done.
  cbn [found]. by rewrite node_at_target, Hf.
Qed.

Lemma Stat_quiet m k data t :
  file_or_free m -> m !! target = Some (NFile data t) -> Jail.Stat root rel (quiet m k) = (Ok (NFile data t), quiet m k).
Proof.
  intros Hm Hf. unfold Jail.Stat, bind. rewrite resolveChecked_quiet by done.
  unfold d_Stat. rewrite d_query_ok by done. cbn [d_nodes quiet]. unfold follow. rewrite walk_target, Hf by done.
  cbn [found]. by rewrite node_at_target, Hf.
Qed.

Lemma Stat_free m k :
  file_or_free m -> m !! target = None -> exists e, Jail.Stat root rel (quiet m k) = (Err e, quiet m k).
Proof.
  intros Hm Hf. unfold Jail.Stat, bind. rewrite resolveChecked_quiet by done.
  unfold d_Stat. rewrite d_query_ok by done. cbn [d_nodes quiet]. unfold follow. rewrite walk_target, Hf by done.
  by eexists.
Qed.

(** A directory: the path is real. *)
Lemma Resolve_dir m k : rdir m target -> Resolve root rel (quiet m k) = (Ok target, quiet m k).
Proof.
  intros Hm. rewrite Resolve_eq by done. unfold resolution. rewrite Hslash. unfold resolved. rewrite Hrel. cbn [d_nodes quiet].
  rewrite (walk_rdir false go_links m [] target Hm). cbn [app].
  assert (match Rel root target with x :: _ => x <> ".." | [] => True end) as H.
  { rewrite <- app_assoc. apply Rel_under. destruct Hm as [Hr _]. apply real_names in Hr.
    rewrite <- app_assoc in Hr. by apply Forall_app in Hr as [_ Hr]. }
  destruct (Rel root target); [done|]. by rewrite bool_decide_false.
Qed.

Lemma Stat_dir m k : rdir m target -> exists t, Jail.Stat root rel (quiet m k) = (Ok (NDir t), quiet m k).
Proof.
  intros Hm. pose proof Hm as [_ [Hnil|[t Ht]]]; [by destruct dir|]. exists t.
  unfold Jail.Stat, bind, resolveChecked. rewrite Hslash. unfold try, d_Lstat. rewrite d_query_ok by done. rewrite Hrel.
  cbn [d_nodes quiet]. assert (nofollow m target = Ok target) as ->.
  { apply nofollow_child; [by eapply rdir_prefix|]. by apply (proj1 Hm dir b []). }
  cbn [found]. rewrite node_at_target, Ht. cbn [unsupported]. rewrite Resolve_dir by done.
  unfold d_Stat. rewrite d_query_ok by done. cbn [d_nodes quiet]. unfold follow.
  rewrite (walk_rdir false kernel_links m [] target Hm). cbn [app found]. by rewrite node_at_target, Ht.
Qed.

Lemma MkdirAll_quiet m k : rdir m dir -> d_MkdirAll dir (quiet m k) = (Ok tt, quiet m k).
Proof.
  intros Hd. unfold d_MkdirAll. assert (exists t, d_Stat dir (quiet m k) = (Ok (NDir t), quiet m k)) as [t Ht].
  { unfold d_Stat. rewrite d_query_ok by done. cbn [d_nodes quiet]. unfold follow. rewrite walk_dir by done.
    destruct (node_at_rdir _ _ Hd) as [t Ht]. exists t. cbn [found]. by rewrite Ht. }
  destruct (reverse dir) as [|x rp] eqn:E; cbn [mkdir_all app]; unfold try; rewrite <- E, reverse_involutive, Ht; done.
Qed.

Lemma Create_quiet m k :
  file_or_free m ->
  Jail.Create root rel (quiet m k) = (Ok target, quiet (<[target := NFile [] (clock k)]> m) (S k)).
Proof.
  intros Hm. unfold Jail.Create, bind. rewrite Resolve_quiet by done. rewrite removelast_last.
  unfold wrapped. rewrite MkdirAll_quiet by apply Hm. unfold d_Create. rewrite d_call_ok by done.
  cbn [d_nodes quiet d_faults d_tick]. unfold follow. rewrite walk_target by done. rewrite node_at_target.
  destruct Hm as (_ & _ & Hf). by destruct (m !! target) as [[]|].
Qed.

Lemma write_quiet m k t data :
  m !! target = Some (NFile [] t) ->
  d_write target data None (quiet m k) = (Ok (data, None), quiet (<[target := NFile data (clock k)]> m) (S k)).
Proof.
  intros Hf. unfold d_write, bind, d_fault, d_now, modify, ret, quiet. cbn. unfold set_nodes. cbn.
  by rewrite (alter_alt_Some _ m target (NFile [] t) Hf).
Qed.
End Calm.

Lemma file_or_free_insert (m : nodes) (root l : fpath) (b b' : string) (data : bytes) (t : Z) :
  file_or_free root l b m -> file_or_free root l b' m ->
  file_or_free root l b (<[(root ++ l) ++ [b'] := NFile data t]> m).
Proof.
  intros (Hd & Hb & Hf) (_ & _ & Hf'). split; [|split; [done|]].
  - destruct Hd as [Hr Hd].
    assert (forall x n, m !! x = Some n -> is_dir n = true -> <[(root ++ l) ++ [b'] := NFile data t]> m !! x = Some n) as Hi.
    { intros x n Hx Hn. rewrite lookup_insert_ne; [done|]. intros <-. rewrite Hx in Hf'. by destruct n. }
    split.
    + intros q c s E. destruct (Hr q c s E) as (Hc & n & Hn & Hl & Hs). split; [done|]. exists n.
      split; [|done]. rewrite lookup_insert_ne; [done|]. intros E'.
      apply app_inj_2 in E' as [<- _]; [|done]. apply (f_equal length) in E. rewrite (length_app (root ++ l)) in E. cbn in E. lia.
    + destruct Hd as [->|[u Hu]]; [by left|right]. exists u. by apply Hi.
  - destruct (decide ((root ++ l) ++ [b] = (root ++ l) ++ [b'])) as [->|Hne]; [by rewrite lookup_insert_eq|].
    by rewrite lookup_insert_ne by congruence.
Qed.

(** Renaming a file over another name of its directory. *)
Lemma Rename_quiet {clk : Clock} (root l : fpath) (b b' rel rel' : string) (m : nodes) (k : nat) (data : bytes) (t : Z) :
  join_root root rel = (root ++ l) ++ [b] -> join_root root rel' = (root ++ l) ++ [b'] ->
  HasPrefix rel "/" = false -> HasPrefix rel' "/" = false ->
  file_or_free root l b m -> is_name b' = true -> m !! ((root ++ l) ++ [b']) = Some (NFile data t) ->
  Jail.Rename root rel' rel (quiet m k) =
    (Ok tt, quiet (<[(root ++ l) ++ [b] := NFile data t]> (delete ((root ++ l) ++ [b']) m)) k).
Proof.
  intros Hj Hj' Hs Hs' Hm Hb' Hf. assert (file_or_free root l b' m) as Hm'.
  { split; [apply Hm|]. by rewrite Hf. }
  unfold Jail.Rename, bind at 1. rewrite (Resolve_quiet root l b' rel' Hj' Hs' m k Hm').
  unfold bind. rewrite (Resolve_quiet root l b rel Hj Hs m k Hm). unfold d_Rename, link_error. rewrite d_call_ok by done.
  cbn [d_nodes quiet]. rewrite !nofollow_target by done. rewrite Hf, node_at_target.
  destruct Hm as (_ & _ & Hm). by destruct (m !! ((root ++ l) ++ [b])) as [[]|].
Qed.

(** Removing a file leaves the directories. *)
Lemma rdir_delete (m : nodes) (q : fpath) (data : bytes) (t : Z) (p : fpath) :
  m !! q = Some (NFile data t) -> rdir m p -> rdir (delete q m) p.
Proof.
  intros Hq [Hr Hd]. split.
  - intros q' b s E. destruct (Hr q' b s E) as (Hb & n & Hn & Hl & Hs). split; [done|]. exists n. split; [|done].
    rewrite lookup_delete_ne; [done|]. intros ->. rewrite Hq in Hn. injection Hn as <-.
    destruct s as [|x s]; [|by discriminate Hs]. destruct Hd as [->|[u Hu]]; [by destruct q'|].
    rewrite E, Hq in Hu. discriminate Hu.
  - destruct Hd as [->|[u Hu]]; [by left|right]. exists u. rewrite lookup_delete_ne; [done|]. congruence.
Qed.
