(* ===== verification/CaseCheck.v ===== *)
(** internal/clientfs/jail.go: [CheckCaseInsensitive], which makes two files whose names
    differ in their case and looks whether they are one.  On the disk of Disk.v names are
    compared as they are. *)
From S2P Require Import Prelude GoStrings Paths Store Disk Jail JailSpec JailCalm.
Local Open Scope Z_scope.
Local Open Scope go_scope.

Section CaseCheck.
Context {clk : Clock}.

(** [O_CREATE|O_EXCL|O_WRONLY]: the last element must not be there, not even as a link. *)
Definition d_CreateExcl (p : fpath) : M disk unit :=
  d_call "open" (fun d =>
    match nofollow (d_nodes d) p with
    | Err e => (Err e, d)
    | Ok q =>
        match node_at (d_nodes d) q with
        | Some _ => (Err (PathError "open" "EEXIST"), d)
        | None => (Ok tt, MkDisk (<[q := NFile [] (clock (d_tick d))]> (d_nodes d)) (d_faults d) (S (d_tick d)))
        end
    end).

(** The file a path leads to, for [os.SameFile]. *)
Definition d_StatFile (p : fpath) : M disk fpath :=
  d_query "stat" (fun m => match follow false m p with
                           | Ok q => match node_at m q with Some _ => Ok q | None => Err (ENOENT "stat") end
                           | Err e => Err e
                           end).

(** [os.IsExist], which looks at the error itself only *)
Definition is_exist (e : error) : bool := match e with PathError _ en => bool_decide (en = "EEXIST") | _ => false end.

(** A deferred [os.Remove]. *)
Definition deferring {A} (cleanup : M disk unit) (m : M disk A) : M disk A := fun d =>
  let '(r, d) := m d in (r, snd (cleanup d)).

Definition lower_name (pid : Z) : string := ".axion-case-" +:+ FormatInt pid +:+ ".tmp".
Definition upper_name (pid : Z) : string := ".AXION-CASE-" +:+ FormatInt pid +:+ ".TMP".

Definition CheckCaseInsensitive (root : fpath) (pid : Z) : M disk bool :=
  let lowerPath := root ++ [lower_name pid] in
  let upperPath := root ++ [upper_name pid] in
  wrapped "clientfs: case check create lower" (d_CreateExcl lowerPath);;
  _ <-? d_close;;
  deferring (d_Remove lowerPath) (
    u <-? d_CreateExcl upperPath;;
    match u with
    | Err e => if is_exist e then ret true else throw (Wrap "clientfs: case check create upper" e)
    | Ok _ =>
        _ <-? d_close;;
        deferring (d_Remove upperPath) (
          lowerInfo <- wrapped "clientfs: case check stat lower" (d_StatFile lowerPath);;
          upperInfo <- wrapped "clientfs: case check stat upper" (d_StatFile upperPath);;
          ret (bool_decide (lowerInfo = upperInfo)))
    end).

(** ** Steps on a disk that does not fail *)
Lemma CreateExcl_quiet m (root : fpath) b k :
  rdir m root -> is_name b = true -> m !! (root ++ [b]) = None ->
  d_CreateExcl (root ++ [b]) (quiet m k) = (Ok tt, quiet (<[root ++ [b] := NFile [] (clock k)]> m) (S k)).
Proof.
  intros Hr Hb Hn. unfold d_CreateExcl. rewrite d_call_ok by done. cbn [d_nodes quiet d_faults d_tick].
  by rewrite nofollow_child, node_at_child, Hn by done.
Qed.

Lemma Remove_quiet m (root : fpath) b k data t :
  rdir m root -> is_name b = true -> m !! (root ++ [b]) = Some (NFile data t) ->
  d_Remove (root ++ [b]) (quiet m k) = (Ok tt, quiet (delete (root ++ [b]) m) k).
Proof.
  intros Hr Hb Hn. unfold d_Remove. rewrite d_call_ok by done. cbn [d_nodes quiet]. by rewrite nofollow_child, Hn by done.
Qed.

Lemma StatFile_quiet m (root : fpath) b k data t :
  rdir m root -> is_name b = true -> m !! (root ++ [b]) = Some (NFile data t) ->
  d_StatFile (root ++ [b]) (quiet m k) = (Ok (root ++ [b]), quiet m k).
Proof.
  intros Hr Hb Hn. unfold d_StatFile. rewrite d_query_ok by done. cbn [d_nodes quiet]. unfold follow.
  pose proof (walk_target root [] b false kernel_links m) as Hw. rewrite app_nil_r in Hw.
  rewrite Hw by (unfold file_or_free; rewrite app_nil_r, Hn; done).
  rewrite Hn. by rewrite node_at_child, Hn.
Qed.

Lemma close_quiet m k : d_close (quiet m k) = (Ok tt, quiet m k).
Proof. done. Qed.

(** ** The two names *)
Lemma sall_format_digits (P : Ascii.ascii -> bool) fuel n acc :
  (forall d, 0 <= d < 10 -> P (digit_char d) = true) -> 0 <= n -> sall P acc = true ->
  sall P (format_digits fuel n acc) = true.
Proof.
  intros HP. revert n acc; induction fuel as [|f IH]; intros n acc Hn Ha; [done|]. simpl.
  assert (P (digit_char (n mod 10)) = true) as Hd by (apply HP, Z.mod_pos_bound; lia).
  destruct (n / 10 =? 0); [by cbn; rewrite Hd|]. apply IH; [by apply Z.div_pos; lia|]. by cbn; rewrite Hd.
Qed.

Lemma no_slash_FormatInt n : no_slash (FormatInt n) = true.
Proof.
  assert (forall d, 0 <= d < 10 -> bool_decide (digit_char d <> slash) = true) as HP.
  { intros d Hd. apply bool_decide_true. intros E. apply (f_equal digit_val) in E.
    rewrite digit_val_char in E by done. discriminate E. }
  unfold FormatInt, no_slash. destruct (Z.ltb_spec n 0); cbn [sall]; rewrite ?andb_true_iff;
    repeat split; try apply sall_format_digits; try done; lia.
Qed.

Lemma temp_name (a c : string) (n : Z) :
  no_slash a = true -> no_slash c = true -> (2 < slen a)%nat -> is_name (a +:+ FormatInt n +:+ c) = true.
Proof.
  intros Ha Hc Hl. apply is_name_spec. split.
  - unfold no_slash in *. rewrite !sall_app, Ha, Hc. by rewrite (no_slash_FormatInt n : sall _ _ = true).
  - repeat split; intros E; apply (f_equal slen) in E; rewrite slen_app in E; cbn in E; lia.
Qed.

(** On a disk that tells the two names apart and does not fail the check answers that
    case matters, and leaves the disk as it found it. *)
Theorem case_matters m k (root : fpath) pid :
  rdir m root -> m !! (root ++ [lower_name pid]) = None -> m !! (root ++ [upper_name pid]) = None ->
  exists k', CheckCaseInsensitive root pid (quiet m k) = (Ok false, quiet m k').
Proof.
  intros Hr Hl Hu. exists (S (S k)). unfold CheckCaseInsensitive.
  assert (is_name (lower_name pid) = true /\ is_name (upper_name pid) = true) as [HL HU]
    by (split; apply temp_name; done || (cbn; lia)).
  assert (root ++ [lower_name pid] <> root ++ [upper_name pid]) as Hne
    by (intros [=]%app_inv_head; done).
  set (m1 := <[root ++ [lower_name pid] := NFile [] (clock k)]> m).
  set (m2 := <[root ++ [upper_name pid] := NFile [] (clock (S k))]> m1).
  assert (rdir m1 root) as Hr1 by (by apply rdir_insert).
  assert (m1 !! (root ++ [upper_name pid]) = None) as Hu1 by (unfold m1; by rewrite lookup_insert_ne).
  assert (rdir m2 root) as Hr2 by (by apply rdir_insert).
  unfold bind, wrapped, try, deferring. rewrite CreateExcl_quiet by done. fold m1. rewrite close_quiet.
  rewrite CreateExcl_quiet by done. fold m2. rewrite close_quiet.
  rewrite (StatFile_quiet m2 root (lower_name pid) _ [] (clock k)); try done;
    [|unfold m2, m1; by rewrite lookup_insert_ne, lookup_insert_eq].
  rewrite (StatFile_quiet m2 root (upper_name pid) _ [] (clock (S k))); try done;
    [|unfold m2; by rewrite lookup_insert_eq].
  cbn beta iota delta [ret]. rewrite (Remove_quiet m2 root (upper_name pid) _ [] (clock (S k))); try done;
    [|unfold m2; by rewrite lookup_insert_eq].
  cbn [snd]. unfold m2. rewrite delete_insert_id by done.
  rewrite (Remove_quiet m1 root (lower_name pid) _ [] (clock k)); try done;
    [|unfold m1; by rewrite lookup_insert_eq].
  cbn [snd ret]. unfold m1. rewrite delete_insert_id by done. unfold ret. by rewrite bool_decide_false.
Qed.
End CaseCheck.

Lemma case_matters_witness : exists k', CheckCaseInsensitive (clk := fun _ => 0) ["r"] 7 jail_disk = (Ok false, MkDisk (d_nodes jail_disk) [] k').
Proof. apply (case_matters (clk := fun _ => 0) (d_nodes jail_disk) 0 ["r"] 7 jail_disk_root); by vm_compute. Defined.

(** A directory that already holds a file with the second name, left by an earlier run that
    could not remove it, looks as if case did not matter. *)
Lemma left_over_file_says_insensitive :
  fst (CheckCaseInsensitive (clk := fun _ => 0) ["r"] 7
    (MkDisk (<[["r"; upper_name 7] := NFile [] 0]> (d_nodes jail_disk)) [] 0)) = Ok true.
Proof. by vm_compute. Qed.
