(* ===== verification/Watcher.v ===== *)
(** internal/watcher/watcher.go: what the client makes of file-system notifications, on the
    disk of Disk.v through the jail (internal/client/runner/watcher.go's [jailOpener] and
    [jailStater]).

    A notification is a path and a set of operation bits.  The debouncer keeps one entry per
    path and starts a timer for each notification; a timer that has fired waits for the
    mutex as a callback, and stopping it then no longer helps.  [processEvent] runs with
    its callback as one step.  Adding a watch is fsnotify's: the parameter [fsn_Add]. *)
From S2P Require Import Prelude GoStrings Paths Store Sha256 Ignore Disk Jail.
Local Open Scope Z_scope.
Local Open Scope go_scope.

(** The bits of [fsnotify.Op]. *)
Definition op_Create : Z := 1.
Definition op_Write : Z := 2.
Definition op_Remove : Z := 4.
Definition op_Rename : Z := 8.
Definition op_Chmod : Z := 16.

(** [op&bit == bit] *)
Definition has_bit (op bit : Z) : bool := Z.land op bit =? bit.

Inductive Op : Type := OpWrite | OpRemove.
#[export] Instance Op_eq_dec : EqDecision Op. Proof. solve_decision. Defined.

(** [None] is the zero [time.Time] of a removal. *)
Record Event : Type := MkEvent {
  wev_RelPath : string; wev_Op : Op; wev_SHA256 : string; wev_Size : Z; wev_ModTime : option Z
}.
#[export] Instance Event_eq_dec : EqDecision Event. Proof. solve_decision. Defined.

Definition events_cap : nat := 100.
Definition errors_cap : nat := 10.

(** ** The debouncer *)
Record debouncer : Type := MkDebouncer {
  db_pending : gmap string (Z * nat);   (* operations so far, timer *)
  db_armed : gmap nat string;           (* timers not yet fired *)
  db_fired : gmap nat string;           (* callbacks waiting for the mutex *)
  db_next : nat
}.
Definition no_pending : debouncer := MkDebouncer ∅ ∅ ∅ 0.

(** A notification: the operations are accumulated and the timer started again. *)
Definition debounce (name : string) (op : Z) (d : debouncer) : debouncer :=
  let t := db_next d in
  match db_pending d !! name with
  | Some (op0, t0) =>
      MkDebouncer (<[name := (Z.lor op0 op, t)]> (db_pending d)) (<[t := name]> (delete t0 (db_armed d)))
        (db_fired d) (S t)
  | None =>
      MkDebouncer (<[name := (op, t)]> (db_pending d)) (<[t := name]> (db_armed d)) (db_fired d) (S t)
  end.

Definition timer_fires (t : nat) (d : debouncer) : option debouncer :=
  match db_armed d !! t with
  | Some name => Some (MkDebouncer (db_pending d) (delete t (db_armed d)) (<[t := name]> (db_fired d)) (db_next d))
  | None => None
  end.

(** The callback of timer [t]: the operations to process, if the entry is still there. *)
Definition callback (t : nat) (d : debouncer) : option (option (string * Z) * debouncer) :=
  match db_fired d !! t with
  | None => None
  | Some name =>
      let d := MkDebouncer (db_pending d) (db_armed d) (delete t (db_fired d)) (db_next d) in
      match db_pending d !! name with
      | None => Some (None, d)
      | Some (op, _) =>
          Some (Some (name, op), MkDebouncer (delete name (db_pending d)) (db_armed d) (db_fired d) (db_next d))
      end
  end.

(** ** The watcher *)
Record Watcher (N : Type) : Type := MkWatcher {
  w_disk : disk;
  w_fsn : N;
  w_events : list Event;
  w_errors : list error;
  fileHashes : gmap string string;
  w_debouncer : debouncer
}.
Arguments MkWatcher {N} _ _ _ _ _ _.
Arguments w_disk {N} _.
Arguments w_fsn {N} _.
Arguments w_events {N} _.
Arguments w_errors {N} _.
Arguments fileHashes {N} _.
Arguments w_debouncer {N} _.

Section Watcher.
Context {N : Type} {clk : Clock} (fsn_Add : string -> M N unit) (root : fpath) (ignoreList : list string).
Notation W := (Watcher N).

Definition w_on_disk {A} (m : M disk A) : M W A := fun w =>
  let '(r, d) := m (w_disk w) in
  (r, MkWatcher d (w_fsn w) (w_events w) (w_errors w) (fileHashes w) (w_debouncer w)).
Definition w_on_fsn {A} (m : M N A) : M W A := fun w =>
  let '(r, n) := m (w_fsn w) in
  (r, MkWatcher (w_disk w) n (w_events w) (w_errors w) (fileHashes w) (w_debouncer w)).
Definition set_hashes f (w : W) : W :=
  MkWatcher (w_disk w) (w_fsn w) (w_events w) (w_errors w) (f (fileHashes w)) (w_debouncer w).
Definition set_debouncer f (w : W) : W :=
  MkWatcher (w_disk w) (w_fsn w) (w_events w) (w_errors w) (fileHashes w) (f (w_debouncer w)).

(** A send that gives up when the channel is full. *)
Definition try_send (e : Event) : M W unit := modify (fun w =>
  if bool_decide (length (w_events w) < events_cap)%nat
  then MkWatcher (w_disk w) (w_fsn w) (w_events w ++ [e]) (w_errors w) (fileHashes w) (w_debouncer w)
  else w).
Definition try_send_error (e : error) : M W unit := modify (fun w =>
  if bool_decide (length (w_errors w) < errors_cap)%nat
  then MkWatcher (w_disk w) (w_fsn w) (w_events w) (w_errors w ++ [e]) (fileHashes w) (w_debouncer w)
  else w).

(** [jail.Root()], and a path under it for the jail. *)
Definition Root : string := String slash (join_slash root).
Definition jail_rel (abs : string) : string := TrimPrefix abs (Root +:+ "/").
Definition jail_Open (abs : string) : M W bytes := w_on_disk (Jail.Open root (jail_rel abs)).
Definition jail_Stat (abs : string) : M W node := w_on_disk (Jail.Stat root (jail_rel abs)).

(** [filepath.Rel(w.cfg.Root, path)] *)
Definition root_Rel (path : string) : option string :=
  if HasPrefix path "/" then Some (of_elements (Rel root (clean_elements true (split_slash path)))) else None.

Definition shouldIgnore (path : string) : bool :=
  match root_Rel path with Some rel => MatchIgnore rel ignoreList | None => false end.

(** ** Start: every directory is watched

    [filepath.Walk] with the callback of [addDirRecursive]: a directory is read before the
    callback sees it, and an ignored one is skipped.  [fuel] bounds the depth. *)
Definition node_mtime (n : node) : Z := match n with NFile _ t | NDir t => t | _ => 0 end.
Definition node_size (n : node) : Z := match n with NFile data _ => Z.of_nat (length data) | _ => 0 end.

Fixpoint add_dirs (fuel : nat) (p : fpath) (info : node) : M W unit :=
  let path := String slash (join_slash p) in
  if negb (is_dir info) then ret tt
  else
    entries <- w_on_disk (d_ReadDir p);;
    if shouldIgnore path then ret tt
    else
    w_on_fsn (fsn_Add path);;
    match fuel with
    | O => ret tt
    | S fuel' =>
        each (fun '(name, _) =>
          info <- w_on_disk (d_Lstat (p ++ [name]));;
          add_dirs fuel' (p ++ [name]) info) entries
    end.

Definition addDirRecursive (fuel : nat) : M W unit :=
  info <- w_on_disk (d_Lstat root);;
  add_dirs fuel root info.

(** ** Events *)
Definition calculateHash (path : string) : M W string :=
  data <- jail_Open path;;
  ret (sha_hex data).

Definition handleWrite (fullPath relPath : string) : M W unit :=
  st <-? jail_Stat fullPath;;
  match st with
  | Err _ => ret tt
  | Ok info =>
      if is_dir info then _ <-? w_on_fsn (fsn_Add fullPath);; ret tt
      else
        h <-? calculateHash fullPath;;
        match h with
        | Err _ => ret tt
        | Ok sha =>
            w <- get;;
            let oldHash := default "" (fileHashes w !! relPath) in
            if bool_decide (sha = oldHash) then ret tt
            else
              modify (set_hashes <[relPath := sha]>);;
              try_send (MkEvent relPath OpWrite sha (node_size info) (Some (node_mtime info)))
        end
  end.

Definition handleRemove (relPath : string) : M W unit :=
  modify (set_hashes (delete relPath));;
  try_send (MkEvent relPath OpRemove "" 0 None).

Definition processEvent (name : string) (op : Z) : M W unit :=
  match root_Rel name with
  | None => ret tt
  | Some relPath =>
      if has_bit op op_Write || has_bit op op_Create then handleWrite name relPath
      else if has_bit op op_Remove || has_bit op op_Rename then handleRemove relPath
      else ret tt
  end.

(** One round of [watchLoop]. *)
Definition on_notify (name : string) (op : Z) : M W unit :=
  if shouldIgnore name then ret tt else modify (set_debouncer (debounce name op)).

(** The callback of a timer, once it has fired. *)
Definition on_callback (t : nat) : M W unit := fun w =>
  match callback t (w_debouncer w) with
  | None => (Ok tt, w)
  | Some (work, d) =>
      let w := set_debouncer (fun _ => d) w in
      match work with
      | None => (Ok tt, w)
      | Some (name, op) => processEvent name op w
      end
  end.

(** The program's steps; the receiver takes events, and other programs change the disk. *)
Inductive watcher_step : W -> W -> Prop :=
| step_notify name op w : watcher_step w (snd (on_notify name op w))
| step_notify_error e w : watcher_step w (snd (try_send_error e w))
| step_fires t d w : timer_fires t (w_debouncer w) = Some d -> watcher_step w (set_debouncer (fun _ => d) w)
| step_callback t w : watcher_step w (snd (on_callback t w))
| step_taken e l w : w_events w = e :: l ->
    watcher_step w (MkWatcher (w_disk w) (w_fsn w) l (w_errors w) (fileHashes w) (w_debouncer w))
| step_disk d w :
    watcher_step w (MkWatcher d (w_fsn w) (w_events w) (w_errors w) (fileHashes w) (w_debouncer w)).

Inductive watcher_reachable : W -> Prop :=
| watcher_init d n : watcher_reachable (MkWatcher d n [] [] ∅ no_pending)
| watcher_next w w' : watcher_reachable w -> watcher_step w w' -> watcher_reachable w'.
End Watcher.
