(* ===== verification/WatcherSpec.v ===== *)
(** What the watcher of Watcher.v guarantees: a notified path is processed once with all
    its operations, a write event carries the content's hash, the walk that sets up the
    watches ends and reaches every directory; and which changes are never reported. *)
From S2P Require Import Prelude GoStrings Paths Store Sha256 Ignore Disk Jail JailSpec JailCalm Watcher.
Local Open Scope Z_scope.
Local Open Scope go_scope.

(** ** The debouncer *)

(** Every entry has a timer that is running or whose callback is waiting. *)
Definition timer_of (name : string) (t : nat) (d : debouncer) : Prop :=
  db_armed d !! t = Some name \/ db_fired d !! t = Some name.

Definition debouncer_ok (d : debouncer) : Prop :=
  (forall name op t, db_pending d !! name = Some (op, t) -> timer_of name t d) /\
  (forall t, is_Some (db_armed d !! t) -> db_fired d !! t = None) /\
  (forall t, (db_next d <= t)%nat -> db_armed d !! t = None /\ db_fired d !! t = None).

Lemma debouncer_ok_init : debouncer_ok no_pending.
Proof. split; [|split]; [intros *|intros t [n H]|intros t _]; cbn in *; try by rewrite lookup_empty in *. Qed.

Lemma timer_of_unique d n1 n2 t : debouncer_ok d -> timer_of n1 t d -> timer_of n2 t d -> n1 = n2.
Proof.
  intros (_ & Hx & _) [H1|H1] [H2|H2]; try congruence.
  - by rewrite (Hx t) in H2 by eauto.
  - by rewrite (Hx t) in H1 by eauto.
Qed.

Lemma debouncer_ok_debounce name op d : debouncer_ok d -> debouncer_ok (debounce name op d).
Proof.
  intros Hd. pose proof Hd as (Hp & Hx & Hn). set (t := db_next d).
  destruct (Hn t ltac:(lia)) as [Hna Hnf].
  assert (forall A : gmap nat string, (A = db_armed d \/ exists op0 t0, db_pending d !! name = Some (op0, t0) /\ A = delete t0 (db_armed d)) ->
    forall o, debouncer_ok (MkDebouncer (<[name := (o, t)]> (db_pending d)) (<[t := name]> A) (db_fired d) (S t))) as H.
  { intros A HA o. assert (forall u n, A !! u = Some n -> db_armed d !! u = Some n) as Hsub.
    { intros u n. destruct HA as [->|(op0 & t0 & _ & ->)]; [done|]. by intros [_ H]%lookup_delete_Some. }
    split; [|split]; cbn.
    - intros n o' u. unfold timer_of. cbn. intros [[<- [= <- <-]]|[Hne H]]%lookup_insert_Some.
      + left. apply lookup_insert_eq.
      + specialize (Hp _ _ _ H) as Hu. destruct (decide (u = t)) as [->|Hut].
        { exfalso. destruct Hu; congruence. }
        rewrite lookup_insert_ne by congruence. destruct Hu as [Hu|Hu]; [|by right]. left.
        destruct HA as [->|(op0 & t0 & H0 & ->)]; [done|]. rewrite lookup_delete_ne; [done|]. intros ->.
        apply Hne. eapply (timer_of_unique d _ _ u); [done|by eapply Hp|by left].
    - intros u [n [[<- _]|[_ H]]%lookup_insert_Some]; [done|]. apply Hx. exists n. by apply Hsub.
    - intros u Hu. rewrite lookup_insert_ne by lia. destruct (Hn u ltac:(lia)) as [H1 H2]. split; [|done].
      destruct (A !! u) eqn:E; [|done]. apply Hsub in E. congruence. }
  unfold debounce. fold t. destruct (db_pending d !! name) as [[op0 t0]|] eqn:E; apply H; [right|by left].
  by exists op0, t0.
Qed.

Lemma debouncer_ok_fires t d d' : debouncer_ok d -> timer_fires t d = Some d' -> debouncer_ok d'.
Proof.
  intros (Hp & Hx & Hn). unfold timer_fires. destruct (db_armed d !! t) as [name|] eqn:E; [|done]. intros [= <-].
  split; [|split]; cbn.
  - intros n o u H. destruct (Hp n o u H) as [Hu|Hu]; unfold timer_of; cbn.
    + destruct (decide (u = t)) as [->|Hne]; [right; rewrite lookup_insert_eq; congruence|left].
      by rewrite lookup_delete_ne.
    + right. rewrite lookup_insert_ne; [done|]. intros ->. rewrite (Hx u) in Hu by eauto. done.
  - intros u [n [Hne Hu]%lookup_delete_Some]. rewrite lookup_insert_ne by congruence. by apply Hx; eauto.
  - intros u Hu. destruct (Hn u Hu) as [H1 H2]. rewrite lookup_delete_None, lookup_insert_ne; [auto|congruence].
Qed.

Lemma debouncer_ok_callback t d work d' : debouncer_ok d -> callback t d = Some (work, d') -> debouncer_ok d'.
Proof.
  intros Hd. pose proof Hd as (Hp & Hx & Hn). unfold callback. destruct (db_fired d !! t) as [name|] eqn:E; [|done].
  assert (forall P : gmap string (Z * nat), (forall n v, P !! n = Some v -> n <> name /\ db_pending d !! n = Some v) ->
    debouncer_ok (MkDebouncer P (db_armed d) (delete t (db_fired d)) (db_next d))) as H.
  { intros P HP. split; [|split]; cbn.
    - intros n o u [Hne H]%HP. unfold timer_of. cbn. destruct (Hp n o u H) as [Hu|Hu]; [by left|right].
      rewrite lookup_delete_ne; [done|]. intros ->. apply Hne. eapply timer_of_unique; [done|right; exact Hu|by right].
    - intros u Hu. apply lookup_delete_None. right. by apply Hx.
    - intros u Hu. destruct (Hn u Hu). rewrite lookup_delete_None. auto. }
  cbn [db_pending]. destruct (db_pending d !! name) as [[op u]|] eqn:Ep; intros [= <- <-]; apply H.
  - intros n v [Hne Hv]%lookup_delete_Some. by split.
  - intros n v Hv. split; [|done]. intros ->. congruence.
Qed.

Section Spec.
Context {N : Type} {clk : Clock} (fsn_Add : string -> M N unit) (root : fpath) (ignoreList : list string).
Notation W := (Watcher N).
Notation reachable := (watcher_reachable fsn_Add root ignoreList).

Lemma debouncer_on_disk {A} (m : M disk A) d : preserves (fun w : W => w_debouncer w = d) (w_on_disk m).
Proof. intros w Hw. unfold w_on_disk. by destruct (m (w_disk w)). Qed.
Lemma debouncer_on_fsn {A} (m : M N A) d : preserves (fun w : W => w_debouncer w = d) (w_on_fsn m).
Proof. intros w Hw. unfold w_on_fsn. by destruct (m (w_fsn w)). Qed.
Lemma debouncer_try_send e d : preserves (fun w : W => w_debouncer w = d) (try_send e).
Proof. intros w Hw. cbn -[bool_decide]. by case_match. Qed.
Lemma debouncer_set_hashes f d : preserves (fun w : W => w_debouncer w = d) (modify (set_hashes f)).
Proof. by intros w Hw. Qed.
#[local] Hint Resolve debouncer_set_hashes debouncer_on_disk debouncer_on_fsn debouncer_try_send : axion.

Lemma debouncer_processEvent name op d : preserves (fun w : W => w_debouncer w = d) (processEvent fsn_Add root name op).
Proof.
  unfold processEvent. destruct (root_Rel root name) as [rel|]; [|auto with axion].
  destruct (_ || _); [|destruct (_ || _); [|auto with axion]].
  - unfold handleWrite, jail_Stat. apply preserves_try; [auto with axion|]. intros [info|]; [|auto with axion].
    destruct (is_dir info); [auto with axion|]. unfold calculateHash, jail_Open.
    apply preserves_try; [auto with axion|]. intros [sha|]; [|auto with axion].
    apply preserves_bind; [by intros w Hw|]. intros w. case_match; auto with axion.
  - unfold handleRemove. auto with axion.
Qed.

Lemma debouncer_ok_callback_step t (w : W) :
  debouncer_ok (w_debouncer w) -> debouncer_ok (w_debouncer (snd (on_callback fsn_Add root t w))).
Proof.
  intros Hd. unfold on_callback. destruct (callback t (w_debouncer w)) as [[work d]|] eqn:E; [|done].
  pose proof (debouncer_ok_callback _ _ _ _ Hd E) as Hd'. destruct work as [[name op]|]; [|done].
  cbn zeta. pose proof (debouncer_processEvent name op d (set_debouncer (fun _ => d) w) eq_refl) as ->. exact Hd'.
Qed.

Lemma reachable_debouncer_ok w : reachable w -> debouncer_ok (w_debouncer w).
Proof.
  induction 1 as [d n|w w' _ IH Hs]; [apply debouncer_ok_init|]. destruct Hs as [name op w|e w|t d w E|t w|e l w E|d w]; try done.
  - unfold on_notify. destruct (shouldIgnore root ignoreList name); [done|]. by apply debouncer_ok_debounce.
  - cbn -[bool_decide]. by case_match.
  - by eapply debouncer_ok_fires.
  - by apply debouncer_ok_callback_step.
Qed.

(** The notifications of a burst, one after the other. *)
Definition notify_all (name : string) (ops : list Z) (w : W) : W :=
  foldl (fun w op => snd (on_notify root ignoreList name op w)) w ops.

Lemma notify_all_pending name op ops w :
  shouldIgnore root ignoreList name = false ->
  exists t, db_pending (w_debouncer (notify_all name (op :: ops) w)) !! name =
    Some (foldl Z.lor (match db_pending (w_debouncer w) !! name with Some (o, _) => Z.lor o op | None => op end) ops, t).
Proof.
  intros Hi. revert op w. induction ops as [|o ops IH]; intros op w.
  - cbn. unfold on_notify. rewrite Hi. cbn. unfold debounce.
    destruct (db_pending (w_debouncer w) !! name) as [[o t]|]; eexists; apply lookup_insert_eq.
  - change (notify_all name (op :: o :: ops) w) with (notify_all name (o :: ops) (snd (on_notify root ignoreList name op w))).
    destruct (IH o (snd (on_notify root ignoreList name op w))) as [t Ht]. exists t. rewrite Ht. f_equal. f_equal.
    unfold on_notify. rewrite Hi. cbn. unfold debounce.
    by destruct (db_pending (w_debouncer w) !! name) as [[o' t']|]; cbn; rewrite lookup_insert_eq.
Qed.

Lemma reachable_notify_all name ops w : reachable w -> reachable (notify_all name ops w).
Proof.
  revert w. induction ops as [|o ops IH]; intros w Hw; [done|]. apply IH. eapply watcher_next; [done|constructor].
Qed.

(** The state after [d] replaced the debouncer. *)
Notation debounced d w := (set_debouncer (fun _ => d) w).

(** The callback of [t] on [name] is waiting in [w2]: it was in [w1], or its timer has fired. *)
Definition callback_due (name : string) (t : nat) (w1 w2 : W) : Prop :=
  (db_fired (w_debouncer w1) !! t = Some name /\ w2 = w1) \/
  (db_armed (w_debouncer w1) !! t = Some name /\
   exists d, timer_fires t (w_debouncer w1) = Some d /\ w2 = debounced d w1).

Lemma callback_due_spec name t w1 w2 :
  callback_due name t w1 w2 -> db_fired (w_debouncer w2) !! t = Some name /\ db_pending (w_debouncer w2) = db_pending (w_debouncer w1).
Proof.
  intros [[H ->]|(H & d & Hd & ->)]; [done|]. unfold timer_fires in Hd. rewrite H in Hd. injection Hd as <-. cbn.
  by rewrite lookup_insert_eq.
Qed.

(** The callback that finds the entry takes it; one that finds none does nothing. *)
Lemma on_callback_takes name t op t0 w2 :
  db_fired (w_debouncer w2) !! t = Some name -> db_pending (w_debouncer w2) !! name = Some (op, t0) ->
  exists d, db_pending d !! name = None /\
    on_callback fsn_Add root t w2 = processEvent fsn_Add root name op (debounced d w2).
Proof.
  intros Hf Hp. unfold on_callback, callback. rewrite Hf. cbn [db_pending]. rewrite Hp.
  eexists. split; [|reflexivity]. apply lookup_delete_eq.
Qed.

Lemma on_callback_late name t w3 :
  db_fired (w_debouncer w3) !! t = Some name -> db_pending (w_debouncer w3) !! name = None ->
  exists d, on_callback fsn_Add root t w3 = (Ok tt, debounced d w3).
Proof. intros Hf Hp. unfold on_callback, callback. rewrite Hf. cbn [db_pending]. rewrite Hp. by eexists. Qed.

(** C19. A burst of notifications is processed once, with the union of its operations: in
    every reachable state, after notifications of a path that is not ignored and has none
    waiting, some timer of the path is running or its callback is waiting; whichever
    callback of the path runs first, be it that of an earlier timer, processes the path
    with the union of the operations and leaves no entry behind; and after it any other
    callback of the path does nothing.  (The union is not the last operation: see
    [write_then_remove_is_missed].) *)
Theorem burst_is_processed name op ops w :
  reachable w -> shouldIgnore root ignoreList name = false -> db_pending (w_debouncer w) !! name = None ->
  let w1 := notify_all name (op :: ops) w in
  (exists t, timer_of name t (w_debouncer w1)) /\
  forall t w2, callback_due name t w1 w2 ->
    (exists d, db_pending d !! name = None /\
       on_callback fsn_Add root t w2 = processEvent fsn_Add root name (foldl Z.lor op ops) (debounced d w2)) /\
    let w3 := snd (on_callback fsn_Add root t w2) in
    db_pending (w_debouncer w3) !! name = None /\
    forall t' w4, callback_due name t' w3 w4 -> exists d, on_callback fsn_Add root t' w4 = (Ok tt, debounced d w4).
Proof.
  intros Hr Hi Hno w1. assert (reachable w1) as Hr1 by by apply reachable_notify_all.
  destruct (notify_all_pending name op ops w Hi) as [t0 Ht]. fold w1 in Ht. rewrite Hno in Ht. clearbody w1.
  pose proof (reachable_debouncer_ok _ Hr1) as (Hp & _ & _). split; [by exists t0; eapply Hp|].
  intros t w2 [Hf Hpe]%callback_due_spec. rewrite <- Hpe in Ht.
  destruct (on_callback_takes name t _ _ w2 Hf Ht) as (d & Hd & E). split; [by exists d|]. rewrite E. cbn zeta.
  assert (w_debouncer (snd (processEvent fsn_Add root name (foldl Z.lor op ops) (debounced d w2))) = d) as Ed
    by exact (debouncer_processEvent name _ d (debounced d w2) eq_refl).
  rewrite Ed. split; [exact Hd|]. intros t' w4 [Hf' Hpe']%callback_due_spec.
  apply (on_callback_late name); [exact Hf'|]. by rewrite Hpe', Ed.
Qed.

(** ** What an event is made of *)

(** The absolute path of [p]. *)
Definition abs (p : fpath) : string := String slash (join_slash p).

Lemma jail_rel_abs l b :
  root <> [] -> jail_rel root (abs ((root ++ l) ++ [b])) = rel_path l b.
Proof.
  intros Hr. unfold jail_rel, Root, abs. rewrite <- app_assoc, join_app by (done || by destruct l).
  change (String slash (join_slash root +:+ String slash (join_slash (l ++ [b]))))
    with (String slash (join_slash root +:+ ("/" +:+ rel_path l b))).
  rewrite sapp_assoc. change (String slash (join_slash root) +:+ "/") with (String slash (join_slash root +:+ "/")).
  change (String slash ((join_slash root +:+ "/") +:+ rel_path l b))
    with (String slash (join_slash root +:+ "/") +:+ rel_path l b). apply TrimPrefix_app.
Qed.

Lemma Rel_app (p s : fpath) : Rel p (p ++ s) = s.
Proof. induction p as [|a p IH]; cbn; [done|]. by rewrite bool_decide_true. Qed.

Lemma root_Rel_abs l b :
  Forall (fun x => is_name x = true) (root ++ l ++ [b]) -> root_Rel root (abs ((root ++ l) ++ [b])) = Some (rel_path l b).
Proof.
  intros Hn. unfold root_Rel, abs. cbn [HasPrefix]. rewrite bool_decide_true by done. cbn [andb]. f_equal.
  assert (clean_elements true (split_slash (String slash (join_slash ((root ++ l) ++ [b])))) = root ++ l ++ [b]) as ->.
  { rewrite <- app_assoc. change (String slash (join_slash (root ++ l ++ [b])))
      with ("" +:+ String slash (join_slash (root ++ l ++ [b]))). rewrite split_app by done.
    rewrite split_join; [| |eapply Forall_impl; [exact Hn|]; by intros x [Hx _]%is_name_spec].
    - change (clean_elements true ("" :: root ++ l ++ [b])) with (clean_elements true (root ++ l ++ [b])).
      apply clean_form_fixed. by exists 0%nat, (root ++ l ++ [b]).
    - by destruct root, l. }
  rewrite Rel_app. unfold of_elements, rel_path. by rewrite bool_decide_false by by destruct l.
Qed.

Context (l : fpath) (b : string) (m : nodes) (k : nat).
Hypothesis Hroot : root <> [].
Hypothesis Hnames : Forall (fun x => is_name x = true) (root ++ l ++ [b]).
Hypothesis Hdir : rdir m (root ++ l).
Notation p := ((root ++ l) ++ [b]).

Lemma watched_file_or_free :
  match m !! p with Some (NFile _ _) | None => True | _ => False end -> file_or_free root l b m.
Proof.
  intros H. split; [done|]. split; [|done]. apply Forall_app in Hnames as [_ [_ H2]%Forall_app]. by inversion H2.
Qed.

(** A file as the watcher finds it. *)
Lemma handleWrite_file data t n evs errs hs d :
  m !! p = Some (NFile data t) ->
  handleWrite fsn_Add root (abs p) (rel_path l b) (MkWatcher (quiet m k) n evs errs hs d) =
  (Ok tt,
   if bool_decide (sha_hex data = default "" (hs !! rel_path l b)) then MkWatcher (quiet m k) n evs errs hs d
   else MkWatcher (quiet m k) n
          (if bool_decide (length evs < events_cap)%nat
           then evs ++ [MkEvent (rel_path l b) OpWrite (sha_hex data) (Z.of_nat (length data)) (Some t)] else evs)
          errs (<[rel_path l b := sha_hex data]> hs) d).
Proof.
  intros Hf. assert (file_or_free root l b m) as Hm by (apply watched_file_or_free; by rewrite Hf).
  pose proof (rel_path_joins _ _ _ Hnames) as Hj.
  pose proof (rel_path_relative _ _ (proj2 (proj1 (Forall_app _ _ _) Hnames))) as Hs.
  unfold handleWrite, try, jail_Stat, w_on_disk. cbn [w_disk]. rewrite jail_rel_abs by done.
  rewrite (Stat_quiet root l b _ Hj Hs m k data t Hm Hf). cbn [is_dir w_fsn w_events w_errors fileHashes w_debouncer].
  unfold calculateHash, bind at 1, jail_Open, w_on_disk. cbn [w_disk]. rewrite jail_rel_abs by done.
  rewrite (Open_quiet root l b _ Hj Hs m k data t Hm Hf). cbn [ret w_fsn w_events w_errors fileHashes w_debouncer].
  unfold try_send, bind, get, modify, ret. cbn [fileHashes]. destruct (bool_decide (sha_hex data = _)); [done|].
  cbn [w_events set_hashes w_disk w_fsn w_errors fileHashes w_debouncer]. by destruct (bool_decide (length evs < events_cap)%nat).
Qed.

(** Nothing there any more. *)
Lemma handleWrite_gone n evs errs hs d :
  m !! p = None ->
  handleWrite fsn_Add root (abs p) (rel_path l b) (MkWatcher (quiet m k) n evs errs hs d) =
  (Ok tt, MkWatcher (quiet m k) n evs errs hs d).
Proof.
  intros Hf. assert (file_or_free root l b m) as Hm by (apply watched_file_or_free; by rewrite Hf).
  pose proof (rel_path_joins _ _ _ Hnames) as Hj.
  pose proof (rel_path_relative _ _ (proj2 (proj1 (Forall_app _ _ _) Hnames))) as Hs.
  unfold handleWrite, try, jail_Stat, w_on_disk. cbn [w_disk]. rewrite jail_rel_abs by done.
  by destruct (Stat_free root l b _ Hj Hs m k Hm Hf) as [e ->].
Qed.

(** C20. A changed file is reported truthfully and once: processing a notification with a
    create or write operation for a regular file under the jail's root queues, when the
    hash last reported for it differs and the queue of 100 has room, one write event with
    the path relative to the root and the SHA-256, size and modification time the file
    has; processing it again changes nothing; and for a path from which the file is gone,
    notified with a remove or rename only, it queues one remove event and forgets the hash. *)
Theorem change_is_reported op n evs errs hs d :
  (length evs < events_cap)%nat ->
  let w := MkWatcher (quiet m k) n evs errs hs d in
  (forall data t, m !! p = Some (NFile data t) -> has_bit op op_Write || has_bit op op_Create = true ->
     sha_hex data <> default "" (hs !! rel_path l b) ->
     let w' := MkWatcher (quiet m k) n (evs ++ [MkEvent (rel_path l b) OpWrite (sha_hex data) (Z.of_nat (length data)) (Some t)])
                 errs (<[rel_path l b := sha_hex data]> hs) d in
     processEvent fsn_Add root (abs p) op w = (Ok tt, w') /\ processEvent fsn_Add root (abs p) op w' = (Ok tt, w')) /\
  (has_bit op op_Write || has_bit op op_Create = false -> has_bit op op_Remove || has_bit op op_Rename = true ->
     processEvent fsn_Add root (abs p) op w =
       (Ok tt, MkWatcher (quiet m k) n (evs ++ [MkEvent (rel_path l b) OpRemove "" 0 None]) errs (delete (rel_path l b) hs) d)).
Proof.
  intros Hcap w. split.
  - intros data t Hf Hop Hnew w'. unfold processEvent. rewrite root_Rel_abs, Hop by done.
    unfold w. rewrite (handleWrite_file data t) by done. rewrite bool_decide_false by done.
    rewrite (bool_decide_true (length evs < events_cap)%nat) by done. split; [done|].
    unfold w'. rewrite (handleWrite_file data t) by done. rewrite lookup_insert_eq. by rewrite bool_decide_true.
  - intros Hop Hop'. unfold processEvent. rewrite root_Rel_abs, Hop, Hop' by done.
    unfold handleRemove, try_send, bind, modify.
    cbn [w_events set_hashes w_disk w_fsn w_errors fileHashes w_debouncer]. by rewrite bool_decide_true.
Qed.

(** A file written and then removed within one burst: the removal is not reported and the
    hash stays, so writing the same content again is not reported either. *)
Theorem write_then_remove_is_missed n evs errs hs d :
  m !! p = None ->
  processEvent fsn_Add root (abs p) (Z.lor op_Write op_Remove) (MkWatcher (quiet m k) n evs errs hs d) =
    (Ok tt, MkWatcher (quiet m k) n evs errs hs d).
Proof.
  intros Hf. unfold processEvent. rewrite root_Rel_abs by done.
  change (has_bit (Z.lor op_Write op_Remove) op_Write) with true. cbn [orb]. by apply handleWrite_gone.
Qed.

(** A directory that appears is watched, but what it already holds is not looked at:
    nothing is reported whatever its content, and nothing below it is watched. *)
Theorem new_directory_is_not_scanned op n evs errs hs d :
  rdir m p -> has_bit op op_Write || has_bit op op_Create = true ->
  processEvent fsn_Add root (abs p) op (MkWatcher (quiet m k) n evs errs hs d) =
    (Ok tt, MkWatcher (quiet m k) (snd (fsn_Add (abs p) n)) evs errs hs d).
Proof.
  intros Hp Hop. unfold processEvent. rewrite root_Rel_abs, Hop by done.
  pose proof (rel_path_joins _ _ _ Hnames) as Hj.
  pose proof (rel_path_relative _ _ (proj2 (proj1 (Forall_app _ _ _) Hnames))) as Hs.
  unfold handleWrite, try at 1, jail_Stat, w_on_disk. cbn [w_disk]. rewrite jail_rel_abs by done.
  destruct (Stat_dir root l b _ Hj Hs m k Hp) as [t ->]. cbn [is_dir].
  unfold try, w_on_fsn. cbn [w_fsn w_disk w_events w_errors fileHashes w_debouncer]. by destruct (fsn_Add (abs p) n).
Qed.

(** With a full queue the event is dropped although the hash is recorded: processing the
    path again reports nothing. *)
Theorem full_queue_loses_the_change data t op n evs errs hs d :
  (events_cap <= length evs)%nat -> m !! p = Some (NFile data t) ->
  has_bit op op_Write || has_bit op op_Create = true ->
  let w1 := snd (processEvent fsn_Add root (abs p) op (MkWatcher (quiet m k) n evs errs hs d)) in
  w_events w1 = evs /\
  forall evs', w_events (snd (processEvent fsn_Add root (abs p) op
    (MkWatcher (quiet m k) n evs' errs (fileHashes w1) d))) = evs'.
Proof.
  intros Hcap Hf Hop. unfold processEvent. rewrite root_Rel_abs, Hop by done. rewrite (handleWrite_file data t) by done.
  rewrite (bool_decide_false (length evs < events_cap)%nat) by lia. cbn [snd].
  case_bool_decide as E; cbn [w_events fileHashes]; (split; [done|]); intros evs'; rewrite (handleWrite_file data t) by done.
  - by rewrite bool_decide_true.
  - rewrite lookup_insert_eq. by rewrite bool_decide_true.
Qed.
End Spec.

(** ** The walk that sets up the watches *)
Section Walk.
Context {N : Type} {clk : Clock} (fsn_Add : string -> M N unit) (root : fpath) (ignoreList : list string).
Notation W := (Watcher N).
Notation add_dirs := (add_dirs fsn_Add root ignoreList).

Definition nodes_are (m : nodes) (w : W) : Prop := d_nodes (w_disk w) = m.

Lemma nodes_on_disk {A} (f : M disk A) m :
  preserves (fun d : disk => d_nodes d = m) f -> preserves (nodes_are m) (w_on_disk f).
Proof. intros H w Hw. unfold w_on_disk. specialize (H (w_disk w) Hw). by destruct (f (w_disk w)). Qed.
Lemma nodes_on_fsn {A} (f : M N A) m : preserves (nodes_are m) (w_on_fsn f).
Proof. intros w Hw. unfold w_on_fsn. by destruct (f (w_fsn w)). Qed.

Lemma ReadDir_entries (m : nodes) (q : fpath) d :
  d_nodes d = m -> d_nodes (snd (d_ReadDir q d)) = m /\
  forall es, fst (d_ReadDir q d) = Ok es -> exists q', es = children m q' /\ follow false m q = Ok q'.
Proof.
  intros Hd. unfold d_ReadDir, d_call, bind, d_fault.
  destruct (d_faults d) as [|[[n e]|] fl]; cbn; rewrite ?Hd; try done;
    (destruct (follow false m q) as [q'|e'] eqn:E; [|by split]);
    (destruct (node_at m q') as [[]|]; cbn; split; try done; intros es [= <-]; by exists q').
Qed.

Lemma elem_of_children (m : nodes) (q : fpath) b n : (b, n) ∈ children m q <-> m !! (q ++ [b]) = Some n.
Proof.
  unfold children. rewrite elem_of_sorted, list_elem_of_omap. split.
  - intros ([k v] & Hkv & E). apply elem_of_map_to_list in Hkv. cbn [fst snd] in E.
    destruct (last k) as [c|]; [|done]. case_bool_decide as Hk; [|done]. injection E as <- <-. by subst k.
  - intros H. exists (q ++ [b], n). split; [by apply elem_of_map_to_list|]. cbn [fst snd].
    rewrite last_snoc. by rewrite bool_decide_true.
Qed.

Lemma add_dirs_keeps m fuel p info : preserves (nodes_are m) (add_dirs fuel p info).
Proof.
  revert p info. induction fuel as [|fuel IH]; intros p info; cbn [Watcher.add_dirs];
    (destruct (negb (is_dir info)); [apply preserves_ret|]);
    (apply preserves_bind; [apply nodes_on_disk; intros d Hd; by apply ReadDir_entries|intros es]);
    (destruct (shouldIgnore _ _ _); [apply preserves_ret|]);
    (apply preserves_bind; [apply nodes_on_fsn|intros u0]); [apply preserves_ret|].
  apply preserves_each. intros [name n] _. apply preserves_bind; [apply nodes_on_disk, query_keeps_nodes|].
  intros i. apply IH.
Qed.

(** A directory that [Lstat] finds next to others is real. *)
Lemma Lstat_child (m : nodes) (p : fpath) name d info :
  d_nodes d = m -> rdir m p -> is_name name = true -> fst (d_Lstat (p ++ [name]) d) = Ok info ->
  m !! (p ++ [name]) = Some info.
Proof.
  intros Hd Hp Hn. unfold d_Lstat, d_query, d_call, bind, d_fault.
  assert (found "lstat" m (nofollow m (p ++ [name])) = Ok info -> m !! (p ++ [name]) = Some info) as H.
  { rewrite nofollow_child by done. cbn [found].
    destruct (node_at m (p ++ [name])) as [n|] eqn:E; [|done]. intros [= <-]. by destruct p. }
  destruct (d_faults d) as [|[[n e]|] fl]; cbn; rewrite ?Hd; try done.
Qed.

(** The walk over the directories ends: on a disk whose paths are made of plain names and
    have at most [depth] elements, running [addDirRecursive] with fuel [depth] and with any
    greater fuel gives the same result in the same state, whatever calls fail and whatever
    links there are below the root. *)
Theorem watch_walk_terminates (depth j : nat) (w : W) :
  (forall q n, d_nodes (w_disk w) !! q = Some n -> (length q <= depth)%nat /\ Forall (fun x => is_name x = true) q) ->
  rdir (d_nodes (w_disk w)) root ->
  addDirRecursive fsn_Add root ignoreList (depth + j) w = addDirRecursive fsn_Add root ignoreList depth w.
Proof.
  intros Hdepth Hroot. set (m := d_nodes (w_disk w)) in *.
  assert (forall fuel p info w', nodes_are m w' -> (is_dir info = true -> rdir m p) -> (depth <= length p + fuel)%nat ->
    add_dirs (fuel + j) p info w' = add_dirs fuel p info w') as H.
  { induction fuel as [|fuel IH]; intros p info w' Hw Hp Hl.
    - destruct j as [|j']; [done|]. cbn [Nat.add Watcher.add_dirs].
      destruct (is_dir info) eqn:Ei; [|done]. cbn [negb]. specialize (Hp eq_refl). unfold bind at 1 4, w_on_disk.
      destruct (ReadDir_entries m p (w_disk w') Hw) as [_ He].
      destruct (d_ReadDir p (w_disk w')) as [[es|e] d']; [|done]. cbn [fst] in He.
      destruct (He es eq_refl) as (q' & -> & Hq). assert (q' = p) as ->.
      { pose proof (walk_rdir false kernel_links m [] p Hp) as Hf. unfold follow in Hq. rewrite Hf in Hq. by injection Hq. }
      destruct (children m p) as [|[b n] es] eqn:Ec; [done|exfalso].
      assert (m !! (p ++ [b]) = Some n) as Hb by (apply elem_of_children; rewrite Ec; by left).
      apply Hdepth in Hb as [Hb _]. rewrite length_app in Hb. cbn in Hb. lia.
    - cbn [Nat.add Watcher.add_dirs]. destruct (is_dir info) eqn:Ei; [|done]. cbn [negb]. specialize (Hp eq_refl).
      unfold bind at 1 4, w_on_disk at 1 3. destruct (ReadDir_entries m p (w_disk w') Hw) as [Hd He].
      destruct (d_ReadDir p (w_disk w')) as [[es|e] d']; [|done]. cbn [fst snd] in Hd, He.
      destruct (He es eq_refl) as (q' & -> & Hq). assert (q' = p) as ->.
      { pose proof (walk_rdir false kernel_links m [] p Hp) as Hf. unfold follow in Hq. rewrite Hf in Hq. by injection Hq. }
      destruct (shouldIgnore _ _ _); [done|]. unfold bind at 1 3.
      match goal with |- context [w_on_fsn ?f ?s] => pose proof (nodes_on_fsn f m s Hd) as Hs; destruct (w_on_fsn f s) as [[u|e] w2] end; [|done].
      cbn [snd] in Hs. apply (each_ext (nodes_are m)); [|exact Hs].
      intros [name n] s Hin Hs'. apply elem_of_children in Hin. apply Hdepth in Hin as [_ Hin].
      assert (is_name name = true) as Hname by (apply Forall_app in Hin as [_ Hin]; by inversion Hin).
      split; [|eapply (preserves_bind (nodes_are m)); [apply nodes_on_disk, query_keeps_nodes|intros; apply add_dirs_keeps|exact Hs']].
      unfold bind, w_on_disk. pose proof (query_keeps_nodes m "lstat" (fun m => found "lstat" m (nofollow m (p ++ [name]))) _ Hs') as Hk.
      fold (d_Lstat (p ++ [name])) in Hk.
      pose proof (Lstat_child m p name (w_disk s)) as Hc.
      destruct (d_Lstat (p ++ [name]) (w_disk s)) as [[i|e] d2]; [|done]. apply IH; [exact Hk| |rewrite length_app; cbn; lia].
      intros Hi. specialize (Hc i Hs' Hp Hname eq_refl). destruct i as [|t| |]; try done. by eapply rdir_snoc. }
  unfold addDirRecursive, bind.
  assert (preserves (nodes_are m) (w_on_disk (d_Lstat root))) as Hk by apply nodes_on_disk, query_keeps_nodes.
  specialize (Hk w eq_refl). destruct (w_on_disk (d_Lstat root) w) as [[info|e] w1]; [|done].
  apply H; [exact Hk|done|lia].
Qed.
End Walk.

(** ** A concrete client directory *)
Module Sample.
#[export] Instance sample_clock : Clock := fun n => Z.of_nat n.
Definition add_to_list (p : string) : M (list string) unit := fun l => (Ok tt, l ++ [p]).
Definition sample_nodes : nodes :=
  list_to_map [(["r"], NDir 0); (["r"; "d"], NDir 0); (["r"; "d"; "f"], NFile [97; 98; 99] 7);
               (["r"; "node_modules"], NDir 0); (["r"; "node_modules"; "x"], NDir 0)].
Definition sample (evs : list Event) : Watcher (list string) := MkWatcher (quiet sample_nodes 0) [] evs [] ∅ no_pending.
End Sample.
Import Sample.

Lemma sample_dir : rdir sample_nodes ["r"; "d"].
Proof. apply (rdir_snoc sample_nodes ["r"] "d" 0); [by apply (rdir_single _ _ 0)|done|done]. Qed.

Lemma burst_is_processed_witness :
  let w1 := notify_all ["r"] [".git"] "/r/d/f" [1; 2] (sample []) in
  let w2 := set_debouncer (fun d => default d (timer_fires 1 d)) w1 in
  exists d, db_pending d !! "/r/d/f" = None /\
  on_callback add_to_list ["r"] 1 w2 = processEvent add_to_list ["r"] "/r/d/f" 3 (set_debouncer (fun _ => d) w2).
Proof.
  intros w1 w2. destruct (burst_is_processed add_to_list ["r"] [".git"] "/r/d/f" 1 [2] (sample [])
    (watcher_init _ _ _ _ _) eq_refl eq_refl) as [_ H]. apply (H 1%nat w2). right. split; [done|]. by eexists.
Defined.

Lemma change_is_reported_witness :
  w_events (snd (processEvent add_to_list ["r"] "/r/d/f" op_Write (sample []))) =
    [MkEvent "d/f" OpWrite "ba7816bf8f01cfea414140de5dae2223b00361a396177a9cb410ff61f20015ad" 3 (Some 7)].
Proof.
  destruct (change_is_reported add_to_list ["r"] ["d"] "f" sample_nodes 0 ltac:(done) ltac:(by repeat constructor) sample_dir
    op_Write [] [] [] ∅ no_pending ltac:(by apply Nat.ltb_lt)) as [H _].
  destruct (H [97; 98; 99] 7 eq_refl eq_refl) as [H1 _]; [by vm_compute|].
  change (abs ((["r"] ++ ["d"]) ++ ["f"])) with "/r/d/f" in H1. change (rel_path ["d"] "f") with "d/f" in H1.
  unfold sample. rewrite H1. cbn [snd w_events app]. by rewrite sha256_abc.
Defined.

Lemma watch_walk_terminates_witness :
  w_fsn (snd (addDirRecursive add_to_list ["r"] DefaultIgnoreList (3 + 5) (sample []))) = ["/r"; "/r/d"].
Proof.
  rewrite (watch_walk_terminates add_to_list ["r"] DefaultIgnoreList 3 5 (sample [])).
  - by vm_compute.
  - apply (bool_decide_unpack (map_Forall (fun (q : fpath) (_ : node) =>
      (length q <= 3)%nat /\ Forall (fun x => is_name x = true) q) sample_nodes)). by vm_compute.
  - by apply (rdir_single _ _ 0).
Defined.
