(* ===== verification/Transfer.v ===== *)
(** internal/client/transfer: uploading a file of the jail to the server and downloading a
    blob into it.

    The state is the client's disk and the world behind its HTTP client.  What a request
    meets is the class [Network]: an error, or a status and a response body, which may
    break off with an error.  [routed_network] is the server's own handler behind a
    connection that does not fail.  The base URL is the path it has ("" for
    ws://host:port); its parsing is not modelled. *)
From S2P Require Import Prelude GoStrings Json Proto Store Sha256 BlobStore Http HttpBlobs Disk Jail.
From Stdlib Require Import Ascii.
Local Open Scope Z_scope.
Local Open Scope go_scope.

(** [transfer.Config], the jail being its root. *)
Record Config : Type := MkConfig {
  cf_BasePath : string;
  cf_PSK : string;
  cf_ClientID : string;
  cf_Jail : fpath
}.

Record UploadResult : Type := MkUploadResult { ur_SHA256 : string; ur_Size : Z; ur_Skipped : bool }.

Definition ErrBlobMismatch : error := Sentinel "transfer: downloaded blob sha mismatch".

(** The scheme [New] gives the server's URL. *)
Definition http_scheme (serverURL : string) : string :=
  if HasPrefix serverURL "ws://" then "http://" +:+ TrimPrefix serverURL "ws://"
  else if HasPrefix serverURL "wss://" then "https://" +:+ TrimPrefix serverURL "wss://"
  else serverURL.

(** [http.Client.Do] *)
Class Network (W : Type) := Do : request -> M W (Z * reader).

Record peer (W : Type) : Type := MkPeer { pe_disk : disk; pe_net : W }.
Arguments MkPeer {W} _ _.
Arguments pe_disk {W} _.
Arguments pe_net {W} _.

Section Transfer.
Context {W : Type} `{!Network W} {clk : Clock}.

Definition on_disk {A} (m : M disk A) : M (peer W) A := fun s =>
  let '(r, d) := m (pe_disk s) in (r, MkPeer d (pe_net s)).
Definition on_net {A} (m : M W A) : M (peer W) A := fun s =>
  let '(r, w) := m (pe_net s) in (r, MkPeer (pe_disk s) w).

Definition blobURL (c : Config) (sha : string) : string := cf_BasePath c +:+ "/v1/blobs/" +:+ sha.

Definition setAuthHeaders (c : Config) : list (string * string) :=
  [("Authorization", "Bearer " +:+ cf_PSK c); ("X-Axion-Client-Id", cf_ClientID c)].

Definition blob_call (c : Config) (method sha : string) (headers : list (string * string))
    (size : Z) (body : bytes) : request :=
  MkRequest method (blobURL c sha) (setAuthHeaders c ++ headers) size (MkReader body None) None None None "" "".

(** ** Upload *)
Definition computeSHA (c : Config) (rel : string) : M (peer W) (string * Z) :=
  data <- on_disk (Jail.Open (cf_Jail c) rel);;
  ret (sha_hex data, Z.of_nat (length data)).

Definition headBlob (c : Config) (sha : string) : M (peer W) bool :=
  resp <- on_net (Do (blob_call c "HEAD" sha [] 0 []));;
  let '(code, _) := resp in
  if bool_decide (code = StatusOK) then ret true
  else if bool_decide (code = StatusNotFound) then ret false
  else throw (Errorf ("HEAD blob: unexpected status " +:+ FormatInt code)).

(** At most 1024 bytes of the response go into the error's text. *)
Definition putBlob (c : Config) (sha : string) (size : Z) (body : bytes) : M (peer W) unit :=
  resp <- on_net (Do (blob_call c "PUT" sha [("Content-Type", "application/octet-stream")] size body));;
  let '(code, errBody) := resp in
  if negb (bool_decide (code = StatusCreated)) then
    throw (Errorf ("PUT blob: status " +:+ FormatInt code +:+ ", body=" +:+
                   text_of (take 1024 (rd_data errBody))))
  else ret tt.

Definition Upload (c : Config) (rel : string) : M (peer W) UploadResult :=
  sz <- wrapped "transfer: compute sha" (computeSHA c rel);;
  let '(sha, size) := sz in
  exist <- wrapped "transfer: head blob" (headBlob c sha);;
  if (exist : bool) then ret (MkUploadResult sha size true)
  else
    f <- wrapped "transfer: open for put" (on_disk (Jail.Open (cf_Jail c) rel));;
    putBlob c sha size f;;
    ret (MkUploadResult sha size false).

(** ** Download *)

(** A partial file left by an earlier attempt is removed. *)
Definition drop_partial (c : Config) (partial : string) : M (peer W) unit :=
  st <-? on_disk (Jail.Stat (cf_Jail c) partial);;
  match st with
  | Ok _ => wrapped "transfer: remove partial" (on_disk (Jail.Remove (cf_Jail c) partial))
  | Err _ => ret tt
  end.

(** [io.Copy] to the file and the hash, the hash of what was written being the result. *)
Definition receive_body (partial : string) (c : Config) (body : reader) : M (peer W) string :=
  wf <- wrapped "transfer: create partial" (on_disk (Jail.Create (cf_Jail c) partial));;
  w <- on_disk (d_write wf (rd_data body) (rd_err body));;
  let '(written, err) := w in
  match err with
  | Some e => _ <-? on_disk d_close;; throw (Wrap "transfer: copy body" e)
  | None => wrapped "transfer: close partial" (on_disk d_close);; ret (sha_hex written)
  end.

Definition Download (c : Config) (rel sha : string) : M (peer W) unit :=
  let partial := rel +:+ ".partial" in
  drop_partial c partial;;
  resp <- on_net (Do (blob_call c "GET" sha [] 0 []));;
  let '(code, body) := resp in
  if bool_decide (code = StatusOK) || bool_decide (code = StatusPartialContent) then
    gotSHA <- receive_body partial c body;;
    if negb (bool_decide (gotSHA = sha)) then throw ErrBlobMismatch
    else wrapped "transfer: rename partial" (on_disk (Jail.Rename (cf_Jail c) partial rel))
  else if bool_decide (code = StatusNotFound) then throw (Errorf ("blob not found: " +:+ sha))
  else throw (Errorf ("GET blob: status " +:+ FormatInt code)).
End Transfer.

(** ** The server of HttpBlobs.v behind the connection *)
Definition body_bytes (b : body) : bytes :=
  match b with
  | NoBody => []
  | BodyText s => bytes_of s
  | BodyJSON j => bytes_of (json_text j)
  | BodyBytes d => d
  end.

Definition routed_network {B : Type} `{!BlobStoreI B} {clk : Clock} (maxSize quota : Z) (psk : string) :
    Network (server B) := fun r =>
  p <- blobs_route maxSize quota psk r;;
  ret (rp_Status p, MkReader (body_bytes (rp_Body p)) None).
