(* ===== verification/TransferSpec.v ===== *)
(** What the transfer client of Transfer.v guarantees: a download either leaves the file as
    it was or replaces it by content that hashes to the name asked for, whatever fails on
    the way; what one client uploads is what another one downloads. *)
From S2P Require Import Prelude GoStrings Paths Store StoreFacts Sha256 BlobStore BlobFacts BlobSpec Http HttpBlobs HttpSpec Disk Jail JailSpec JailCalm Transfer.
Local Open Scope Z_scope.
Local Open Scope go_scope.

(** ** The disk under any schedule of failures

    [at_nodes m]: the nodes are [m]. *)
Definition at_nodes (m : nodes) (d : disk) : Prop := d_nodes d = m.

Section Faulty.
Context {clk : Clock}.

Lemma triple_query {A : Type} (m : nodes) (op : string) (q : nodes -> result A) :
  triple (at_nodes m) (d_query op q) (fun r d => at_nodes m d /\ forall a, r = Ok a -> q m = Ok a).
Proof.
  unfold at_nodes. intros d <-. unfold d_query, d_call, bind, d_fault.
  destruct (d_faults d) as [|[[n e]|] fl]; (split; [done|]); intros a Ha; first [discriminate Ha|exact Ha].
Qed.

Lemma triple_d_call {A : Type} (m : nodes) (op : string) (f : M disk A) (Q : result A -> disk -> Prop) :
  (forall e d, at_nodes m d -> Q (Err e) d) -> triple (at_nodes m) f Q -> triple (at_nodes m) (d_call op f) Q.
Proof.
  intros He Hf d Hd. unfold d_call, bind, d_fault.
  destruct (d_faults d) as [|[[n e]|] fl]; cbn; [by apply Hf|by apply He|by apply Hf].
Qed.

Lemma follow_kernel_link_free (create : bool) (m : nodes) (p q : fpath) :
  link_free m p -> Forall (fun x => is_name x = true) p -> walk create go_links m [] p = Ok q -> q = p.
Proof. intros Hf Hn Hw. exact (walk_link_free create go_links m [] p q Hf Hn Hw). Qed.

(** Along a path without links, [Resolve] finds that path or fails. *)
Lemma triple_resolve_nonexistent (m : nodes) (rp : fpath) :
  link_free m (reverse rp) -> Forall (fun x => is_name x = true) (reverse rp) ->
  triple (at_nodes m) (resolve_nonexistent rp) (fun r d => at_nodes m d /\ forall p, r = Ok p -> p = reverse rp).
Proof.
  induction rp as [|b rp IH]; intros Hl Hn; cbn [resolve_nonexistent].
  { apply triple_throw. intros d Hd. by split. }
  rewrite reverse_cons in Hl, Hn |- *. apply link_free_prefix in Hl. apply Forall_app in Hn as [Hn _].
  eapply triple_try; [apply triple_query|]. intros [real|e].
  - apply triple_ret. intros d [Hd Hq]. split; [done|]. intros p [= <-].
    by rewrite (follow_kernel_link_free false m (reverse rp) real) by auto.
  - eapply triple_bind.
    + eapply triple_weaken; [by apply IH| |intros r d H; exact H]. by intros d [Hd _].
    + intros real. apply triple_ret. intros d [Hd Hp]. split; [done|]. intros p [= <-]. by rewrite (Hp real).
    + by intros e' d [Hd _].
Qed.

Lemma triple_Resolve (m : nodes) (root : fpath) (rel : string) :
  link_free m (join_root root rel) -> Forall (fun x => is_name x = true) (join_root root rel) ->
  triple (at_nodes m) (Resolve root rel) (fun r d => at_nodes m d /\ forall p, r = Ok p -> p = join_root root rel).
Proof.
  intros Hl Hn. unfold Resolve. destruct (HasPrefix rel "/"); [apply triple_throw; intros d Hd; by split|].
  cbn zeta. set (P := join_root root rel) in *.
  assert (triple (fun d : disk => at_nodes m d) (checkUnderRoot root P)
            (fun r d => at_nodes m d /\ forall p, r = Ok p -> p = P)) as Hc.
  { unfold checkUnderRoot. destruct (Rel root P) as [|x l].
    - apply triple_ret. intros d Hd. split; [done|]. congruence.
    - case_bool_decide; [apply triple_throw|apply triple_ret]; intros d Hd; split; try done; congruence. }
  eapply triple_try; [apply triple_query|]. intros [real|e].
  - intros d [Hd Hq]. rewrite (follow_kernel_link_free false m P real) by auto. by apply Hc.
  - eapply triple_bind with (R := fun r d => at_nodes m d /\ forall p, r = Ok p -> p = P).
    + apply triple_wrapped. unfold resolveNonExistent.
      eapply triple_weaken; [apply (triple_resolve_nonexistent m); by rewrite reverse_involutive| |].
      * by intros d [Hd _].
      * rewrite reverse_involutive. intros r d [Hd Hp]. split; [done|]. destruct r; [|done]. intros p [= <-]. auto.
    + intros real d [Hd Hp]. rewrite (Hp real) by done. by apply Hc.
    + by intros e' d [Hd _].
Qed.
End Faulty.

(** ** Replacing a file through a partial file next to it

    [dir ++ [b]] is the file and [dir ++ [b']] the partial file; [old] are the nodes before. *)
Section Replace.
Context {clk : Clock} (root : fpath) (old : nodes) (dir : fpath) (b b' : string).
Hypothesis Hbb : b <> b'.
Hypothesis Hnames : Forall (fun x => is_name x = true) dir /\ is_name b = true /\ is_name b' = true.
Notation target := (dir ++ [b]).
Notation partial := (dir ++ [b']).

(** Nothing has changed but the partial file and directories that were missing. *)
Definition untouched (n : nodes) : Prop :=
  (forall q, q <> partial -> is_Some (old !! q) -> n !! q = old !! q) /\
  n !! target = old !! target /\ link_free n target /\ link_free n partial.

Definition on_nodes (Φ : nodes -> Prop) (d : disk) : Prop := Φ (d_nodes d).

(** A call that leaves the nodes alone keeps what is known of them. *)
Lemma triple_on_nodes {A : Type} (Φ : nodes -> Prop) (f : M disk A) (G : result A -> Prop) :
  (forall n, Φ n -> triple (at_nodes n) f (fun r d => at_nodes n d /\ G r)) ->
  triple (on_nodes Φ) f (fun r d => on_nodes Φ d /\ G r).
Proof.
  intros H d Hd. destruct (H (d_nodes d) Hd d eq_refl) as [Hn HG]. split; [|done].
  unfold on_nodes. by rewrite Hn.
Qed.

Lemma triple_any {A : Type} (Φ : nodes -> Prop) (op : string) (q : nodes -> result A) :
  triple (on_nodes Φ) (d_query op q) (fun _ => on_nodes Φ).
Proof.
  eapply triple_weaken; [apply (triple_on_nodes Φ _ (fun _ => True))|done|by intros r d [H _]].
  intros n _. eapply triple_weaken; [apply triple_query|done|by intros r d [H _]].
Qed.

Lemma names_target : Forall (fun x => is_name x = true) target.
Proof. destruct Hnames as (H1 & H2 & _). apply Forall_app; auto. Qed.
Lemma names_partial : Forall (fun x => is_name x = true) partial.
Proof. destruct Hnames as (H1 & _ & H2). apply Forall_app; auto. Qed.
Lemma target_ne_partial : target <> partial.
Proof. intros [_ E]%app_inj_2; [|done]. by injection E. Qed.

Lemma untouched_insert_dir (n : nodes) (x s : fpath) (t : Z) :
  dir = x ++ s -> n !! x = None -> untouched n -> untouched (<[x := NDir t]> n).
Proof.
  intros E Hx (H1 & H2 & H3 & H4).
  assert (forall c, x <> dir ++ [c]) as Hne.
  { intros c ->. apply (f_equal (@length string)) in E. rewrite !length_app in E. cbn in E. lia. }
  split; [|split; [|split]].
  - intros q Hq Hs. rewrite lookup_insert_ne; [by apply H1|]. intros ->. rewrite (H1 q Hq Hs) in Hx.
    destruct Hs as [v Hv]. congruence.
  - rewrite lookup_insert_ne; [done|]. apply Hne.
  - by apply link_free_insert.
  - by apply link_free_insert.
Qed.

Lemma triple_Mkdir (x s : fpath) :
  dir = x ++ s -> triple (on_nodes untouched) (d_Mkdir x) (fun _ => on_nodes untouched).
Proof.
  intros E d Hd. unfold d_Mkdir.
  refine (triple_d_call (d_nodes d) "mkdir" _ (fun _ => on_nodes untouched) _ _ d eq_refl).
  { intros e d1 Hd1. unfold on_nodes. by rewrite Hd1. }
  intros d1 Hd1. destruct (nofollow (d_nodes d1) x) as [q|e] eqn:En; [|by unfold on_nodes; cbn; rewrite Hd1].
  assert (q = x) as ->.
  { eapply nofollow_link_free; [| |exact En].
    - rewrite Hd1. destruct (removelast_prefix x) as [u Hu]. apply (link_free_prefix _ _ (u ++ s ++ [b'])).
      replace (removelast x ++ u ++ s ++ [b']) with partial; [apply Hd|].
      by rewrite (app_assoc (removelast x)), <- Hu, E, <- app_assoc.
    - destruct Hnames as (H & _). rewrite E in H. by apply Forall_app in H as [H _]. }
  destruct (node_at (d_nodes d1) x) eqn:Ex; [by unfold on_nodes; cbn; rewrite Hd1|].
  unfold on_nodes. cbn. rewrite Hd1 in Ex |- *. eapply untouched_insert_dir; [exact E| |exact Hd].
  by destruct x.
Qed.

Lemma triple_mkdir_all (rp s : fpath) :
  dir = reverse rp ++ s -> triple (on_nodes untouched) (mkdir_all true [] rp) (fun _ => on_nodes untouched).
Proof.
  revert s. induction rp as [|x rp IH]; intros s E; cbn [mkdir_all app negb andb].
  all: eapply triple_try; [apply triple_any|]; intros [n|e];
    [destruct (is_dir n); (apply triple_ret || apply triple_throw); done|].
  all: eapply triple_bind with (R := fun _ => on_nodes untouched);
    [first [by apply triple_ret|apply (IH (x :: s)); by rewrite E, reverse_cons, <- app_assoc]|intros u0|done].
  all: eapply triple_try; [by eapply triple_Mkdir|]; intros [u|e']; [by apply triple_ret|].
  all: eapply triple_try; [apply triple_any|]; intros [n|e'']; [destruct (is_dir n)|];
    (apply triple_ret || apply triple_throw); done.
Qed.

Lemma untouched_write (n : nodes) (data : bytes) (t : Z) : untouched n -> untouched (<[partial := NFile data t]> n).
Proof.
  intros (H1 & H2 & H3 & H4). pose proof target_ne_partial as Hne.
  split; [|split; [|split; by apply link_free_insert]].
  - intros q Hq Hs. rewrite lookup_insert_ne; [by apply H1|congruence].
  - by rewrite lookup_insert_ne by congruence.
Qed.

Lemma untouched_delete (n : nodes) : untouched n -> untouched (delete partial n).
Proof.
  intros (H1 & H2 & H3 & H4). pose proof target_ne_partial as Hne.
  assert (forall p, link_free n p -> link_free (delete partial n) p) as Hl.
  { intros p H q c s t E. destruct (decide (partial = q ++ [c])) as [->|Hd]; [by rewrite lookup_delete_eq|].
    rewrite lookup_delete_ne by done. by apply (H q c s t). }
  split; [|split; [|split; by apply Hl]].
  - intros q Hq Hs. rewrite lookup_delete_ne; [by apply H1|congruence].
  - by rewrite lookup_delete_ne by congruence.
Qed.

(** The partial file holds [data]. *)
Definition received (data : bytes) (n : nodes) : Prop :=
  untouched n /\ exists t, n !! partial = Some (NFile data t).

Context (rel rel' : string).
Hypothesis Hrel : join_root root rel = target.
Hypothesis Hrel' : join_root root rel' = partial.

Lemma triple_Resolve_target (Φ : nodes -> Prop) :
  (forall n, Φ n -> untouched n) ->
  triple (on_nodes Φ) (Resolve root rel) (fun r d => on_nodes Φ d /\ forall p, r = Ok p -> p = target).
Proof.
  intros HΦ. apply triple_on_nodes. intros n Hn. rewrite <- Hrel. apply triple_Resolve; rewrite Hrel;
    [apply HΦ, Hn|apply names_target].
Qed.

Lemma triple_Resolve_partial (Φ : nodes -> Prop) :
  (forall n, Φ n -> untouched n) ->
  triple (on_nodes Φ) (Resolve root rel') (fun r d => on_nodes Φ d /\ forall p, r = Ok p -> p = partial).
Proof.
  intros HΦ. apply triple_on_nodes. intros n Hn. rewrite <- Hrel'. apply triple_Resolve; rewrite Hrel';
    [apply HΦ, Hn|apply names_partial].
Qed.

(** The nodes that [d_call] works on are those before it. *)
Lemma triple_call_at {A : Type} (Φ : nodes -> Prop) (op : string) (f : M disk A) (Q : result A -> disk -> Prop) :
  (forall e d, on_nodes Φ d -> Q (Err e) d) -> triple (on_nodes Φ) f Q -> triple (on_nodes Φ) (d_call op f) Q.
Proof.
  intros He Hf d Hd. apply (triple_d_call (d_nodes d) op f); [| |done].
  - intros e d1 E. apply He. unfold on_nodes. by rewrite E.
  - intros d1 E. apply Hf. unfold on_nodes. by rewrite E.
Qed.

(** After the partial file has been opened. *)
Definition created (r : result fpath) (d : disk) : Prop :=
  on_nodes untouched d /\ forall p, r = Ok p -> p = partial /\ on_nodes (received []) d.

Lemma triple_Create : triple (on_nodes untouched) (Jail.Create root rel') created.
Proof.
  unfold Jail.Create. eapply triple_bind; [by apply triple_Resolve_partial| |by intros e d [Hd _]; split].
  intros p d [Hd Hp]. pose proof (Hp p eq_refl) as ->. rewrite removelast_last.
  match goal with |- created (fst (?f d)) _ =>
    enough (triple (on_nodes untouched) f created) as H by exact (H d Hd) end.
  eapply triple_bind with (R := fun _ => on_nodes untouched); [| |by intros e d1 Hd1; split].
  { apply triple_wrapped, (triple_mkdir_all _ []). by rewrite reverse_involutive, app_nil_r. }
  intros u0. clear d Hd Hp. apply triple_call_at; [by intros e d Hd; split|]. intros d Hd. unfold created, on_nodes.
  destruct (follow true (d_nodes d) partial) as [q|e] eqn:Ef; [|by split].
  apply follow_link_free in Ef as ->; [|apply Hd|apply names_partial].
  assert (untouched (<[partial := NFile [] (clock (d_tick d))]> (d_nodes d))) as Hw by by apply untouched_write.
  destruct (node_at (d_nodes d) partial) as [[]|]; cbn [fst snd]; (split; [done|]); try done;
    intros p0 [= <-]; (split; [done|]); (split; [done|]); eexists; apply lookup_insert_eq.
Qed.

Lemma triple_write (data : bytes) (err : option error) :
  triple (on_nodes (received [])) (d_write partial data err)
    (fun r d => on_nodes untouched d /\ forall w, r = Ok w -> on_nodes (received (fst w)) d).
Proof.
  intros d [Hu [t Ht]]. unfold d_write, bind, d_fault, d_now, modify, ret.
  assert (forall w t', received w (alter (fun n => match n with NFile old _ => NFile (old ++ w) t' | _ => n end)
            partial (d_nodes d))) as Hr.
  { intros w t'. rewrite (alter_alt_Some _ (d_nodes d) partial (NFile [] t) Ht).
    split; [by apply untouched_write|]. eexists. apply lookup_insert_eq. }
  destruct (d_faults d) as [|[[k e]|] fl]; cbn; (split; [apply Hr|]); intros w [= <-]; apply Hr.
Qed.
Lemma triple_keep {A : Type} (Φ : nodes -> Prop) (f : M disk A) :
  (forall m, preserves (at_nodes m) f) -> triple (on_nodes Φ) f (fun _ => on_nodes Φ).
Proof. intros H d Hd. unfold on_nodes. by rewrite (H (d_nodes d) d eq_refl). Qed.

Lemma triple_Stat (Φ : nodes -> Prop) (x : string) : triple (on_nodes Φ) (Jail.Stat root x) (fun _ => on_nodes Φ).
Proof.
  apply triple_keep. intros m. apply preserves_bind; [apply keeps_resolveChecked|]. intros p. apply query_keeps_nodes.
Qed.

Lemma triple_Remove : triple (on_nodes untouched) (Jail.Remove root rel') (fun _ => on_nodes untouched).
Proof.
  unfold Jail.Remove. eapply triple_bind; [by apply triple_Resolve_partial| |by intros e d [Hd _]].
  intros p. eapply triple_weaken with (P' := fun d => on_nodes untouched d /\ p = partial) (Q' := fun _ => on_nodes untouched);
    [|intros d [Hd Hp]; split; [done|by apply Hp]|done].
  intros d [Hd ->]. refine (triple_call_at untouched "remove" _ (fun _ => on_nodes untouched) _ _ d Hd); [done|].
  clear d Hd. intros d Hd. destruct (nofollow (d_nodes d) partial) as [q|e] eqn:En; [|done].
  apply nofollow_link_free in En as ->; [|rewrite removelast_last; eapply link_free_prefix; apply Hd|apply names_partial].
  destruct (d_nodes d !! partial) as [[]|]; try case_bool_decide; try done; by apply untouched_delete.
Qed.

(** After the partial file has been renamed, or not. *)
Definition replaced (data : bytes) (r : result unit) (d : disk) : Prop :=
  match r with
  | Ok _ => (forall q, q <> partial -> q <> target -> is_Some (old !! q) -> d_nodes d !! q = old !! q) /\
            exists t, d_nodes d !! target = Some (NFile data t)
  | Err _ => on_nodes untouched d
  end.

Lemma triple_Rename (data : bytes) :
  triple (on_nodes (received data)) (Jail.Rename root rel' rel) (replaced data).
Proof.
  unfold Jail.Rename. eapply triple_bind; [by apply triple_Resolve_partial; intros n []| |by intros e d [[Hd _] _]].
  intros p. eapply triple_bind with (R := fun r d => (on_nodes (received data) d /\ p = partial) /\ forall q, r = Ok q -> q = target).
  { intros d [Hd Hp]. destruct (triple_Resolve_target (received data) ltac:(by intros n []) d Hd) as [H1 H2].
    split; [split; [done|by apply Hp]|done]. }
  2: by intros e d [[[Hd _] _] _].
  intros q d [[Hd ->] Hq]. pose proof (Hq q eq_refl) as ->.
  clear Hq. revert d Hd. apply triple_link_error; [done|].
  refine (triple_call_at (received data) "rename" _ (replaced data) _ _); [by intros e d1 []|].
  intros d [Hu [t Ht]].
  destruct (nofollow (d_nodes d) partial) as [q|e] eqn:En; [|done].
  apply nofollow_link_free in En as ->; [|rewrite removelast_last; eapply link_free_prefix; apply Hu|apply names_partial].
  destruct (nofollow (d_nodes d) target) as [q|e] eqn:En; [|done].
  apply nofollow_link_free in En as ->; [|rewrite removelast_last; eapply link_free_prefix; apply Hu|apply names_target].
  rewrite Ht. assert (replaced data (Ok tt) (set_nodes (fun m => <[target := NFile data t]> (delete partial m)) d)) as Hr.
  { split; [|exists t; apply lookup_insert_eq]. intros q Hq1 Hq2 Hs. cbn.
    rewrite lookup_insert_ne by done. rewrite lookup_delete_ne by done. by apply Hu. }
  destruct (node_at (d_nodes d) target) as [[]|]; first [exact Hr|exact Hu].
Qed.
End Replace.

Lemma keeps_close `{!Clock} (m : nodes) : preserves (at_nodes m) d_close.
Proof. intros d Hd. unfold d_close, d_call, bind, d_fault. by destruct (d_faults d) as [|[[k e]|] fl]. Qed.

(** ** The programs of the client *)
Section Programs.
Context {W : Type} `{!Network W} {clk : Clock}.

(** What is known of the disk. *)
Definition disk_is (P : disk -> Prop) (s : peer W) : Prop := P (pe_disk s).

Lemma triple_on_disk {A : Type} (P : disk -> Prop) (f : M disk A) (Q : result A -> disk -> Prop) :
  triple P f Q -> triple (disk_is P) (on_disk f) (fun r => disk_is (Q r)).
Proof. intros H s Hs. specialize (H _ Hs). unfold on_disk. by destruct (f (pe_disk s)). Qed.

Lemma triple_on_net {A : Type} (P : disk -> Prop) (f : M W A) : triple (disk_is P) (on_net f) (fun _ => disk_is P).
Proof. intros s Hs. unfold on_net. by destruct (f (pe_net s)). Qed.

Section OneDownload.
Context (c : Config) (rel sha : string) (old : nodes) (dir : fpath) (b : string).
Notation target := (dir ++ [b]).
Notation partial := (dir ++ [b +:+ ".partial"]).
Hypothesis Hnames : Forall (fun x => is_name x = true) dir /\ is_name b = true /\ is_name (b +:+ ".partial") = true.
Hypothesis Hrel : join_root (cf_Jail c) rel = target.
Hypothesis Hrel' : join_root (cf_Jail c) (rel +:+ ".partial") = partial.
Notation calm_disk := (on_nodes (untouched old dir b (b +:+ ".partial"))).

Lemma partial_ne : b <> b +:+ ".partial".
Proof. intros E. apply (f_equal slen) in E. rewrite slen_app in E. cbn in E. lia. Qed.

Lemma triple_drop_download : triple (disk_is calm_disk) (drop_partial c (rel +:+ ".partial")) (fun _ => disk_is calm_disk).
Proof.
  pose proof partial_ne. unfold drop_partial. eapply triple_try; [apply triple_on_disk, triple_Stat|].
  intros [n|e]; [|by apply triple_ret]. apply triple_wrapped.
  eapply triple_weaken; [apply triple_on_disk; by eapply triple_Remove|done|]. by intros [u|e] s Hs.
Qed.

(** The body is in the partial file and hashes to the result, or nothing has changed. *)
Definition body_received (r : result string) (d : disk) : Prop :=
  calm_disk d /\ forall h, r = Ok h -> exists data, h = sha_hex data /\
    on_nodes (received old dir b (b +:+ ".partial") data) d.

Lemma triple_receive_body (body : reader) :
  triple (disk_is calm_disk) (receive_body (rel +:+ ".partial") c body) (fun r => disk_is (body_received r)).
Proof.
  pose proof partial_ne as Hne. unfold receive_body.
  eapply triple_bind with (R := fun r => disk_is (created old dir b (b +:+ ".partial") r)).
  { apply triple_wrapped. eapply triple_weaken; [apply triple_on_disk; by eapply triple_Create|done|].
    intros r s [H1 H2]. split; [exact H1|]. intros p E. apply H2. by destruct r. }
  2: { intros e s [Hs _]. by split. }
  intros wf s [Hs Hwf]. destruct (Hwf wf eq_refl) as [-> Hr]. clear Hwf.
  match goal with |- disk_is (body_received (fst (?f s))) _ =>
    enough (triple (disk_is (on_nodes (received old dir b (b +:+ ".partial") []))) f
              (fun r => disk_is (body_received r))) as H by exact (H s Hr) end.
  eapply triple_bind; [apply triple_on_disk; by eapply triple_write| |by intros e s1 [Hs1 _]; split].
  intros [written [e|]]; cbn beta iota.
  - eapply triple_try with (R := fun _ => disk_is calm_disk).
    + eapply triple_weaken; [apply triple_on_disk, (triple_keep (untouched old dir b (b +:+ ".partial"))), keeps_close| |done].
      by intros s1 [Hs1 _].
    + intros r. apply triple_throw. intros s1 Hs1. by split.
  - eapply triple_bind with (R := fun _ => disk_is (on_nodes (received old dir b (b +:+ ".partial") written))).
    + apply triple_wrapped. eapply triple_weaken;
        [apply triple_on_disk, (triple_keep (received old dir b (b +:+ ".partial") written)), keeps_close| |done].
      intros s1 [_ Hs1]. by apply (Hs1 (written, None)).
    + intros u0. apply triple_ret. intros s1 Hs1. split; [apply Hs1|]. intros h [= <-]. by exists written.
    + intros e s1 Hs1. split; [apply Hs1|done].
Qed.
Lemma Download_replaces s :
  calm_disk (pe_disk s) ->
  match Download c rel sha s with
  | (Ok _, s') => exists data, sha_hex data = sha /\
      replaced old dir b (b +:+ ".partial") data (Ok tt) (pe_disk s')
  | (Err _, s') => calm_disk (pe_disk s')
  end.
Proof.
  pose proof partial_ne as Hne. intros Hs.
  set (Q := fun (r : result unit) (d : disk) =>
    match r with
    | Ok _ => exists data, sha_hex data = sha /\ replaced old dir b (b +:+ ".partial") data (Ok tt) d
    | Err _ => calm_disk d
    end).
  enough (triple (disk_is calm_disk) (Download c rel sha) (fun r => disk_is (Q r))) as H.
  { specialize (H s Hs). unfold Q in H. by destruct (Download c rel sha s) as [[u|e] s']. }
  unfold Download. eapply triple_bind; [apply triple_drop_download| |done]. intros u.
  eapply triple_bind; [apply triple_on_net| |done]. intros [code body]. cbn beta iota.
  destruct (bool_decide (code = StatusOK) || _);
    [|destruct (bool_decide (code = StatusNotFound)); by apply triple_throw].
  eapply triple_bind; [apply triple_receive_body| |by intros e s1 [Hs1 _]]. intros gotSHA.
  destruct (negb (bool_decide (gotSHA = sha))) eqn:E; [by apply triple_throw; intros s1 [Hs1 _]|].
  apply negb_false_iff, bool_decide_eq_true in E. subst gotSHA. apply triple_wrapped.
  intros s1 [_ Hr]. destruct (Hr sha eq_refl) as (data & Hd & Hrec).
  pose proof (triple_Rename (cf_Jail c) old dir b (b +:+ ".partial") Hnames rel (rel +:+ ".partial") Hrel Hrel'
    data (pe_disk s1) Hrec) as Hren.
  unfold on_disk. destruct (Jail.Rename _ _ _ (pe_disk s1)) as [[v|e] d2]; cbn in Hren |- *; [|exact Hren].
  exists data. by split.
Qed.
End OneDownload.

Lemma Download_safe (c : Config) (l : list string) (b sha : string) (s : peer W) :
  let target := cf_Jail c ++ l ++ [b] in
  let partial := cf_Jail c ++ l ++ [b +:+ ".partial"] in
  let old := d_nodes (pe_disk s) in
  Forall (fun x => is_name x = true) (cf_Jail c ++ l ++ [b]) ->
  link_free old target -> link_free old partial ->
  let '(r, s') := Download c (join_slash (l ++ [b])) sha s in
  (forall q, q <> target -> q <> partial -> is_Some (old !! q) -> d_nodes (pe_disk s') !! q = old !! q) /\
  match r with
  | Ok _ => exists data t, d_nodes (pe_disk s') !! target = Some (NFile data t) /\ sha_hex data = sha
  | Err _ => d_nodes (pe_disk s') !! target = old !! target
  end.
Proof.
  intros target partial old Hn Hl Hl'. apply Forall_app in Hn as [Hroot Hn]. pose proof Hn as [Hl0 Hb]%Forall_app.
  inversion Hb as [|? ? Hb1 _]; subst. pose proof (is_name_partial b Hb1) as Hb2.
  pose proof (Download_replaces c (join_slash (l ++ [b])) sha old (cf_Jail c ++ l) b) as H.
  rewrite <- !app_assoc in H. specialize (H ltac:(split; [by apply Forall_app|done])).
  rewrite (join_root_plain (cf_Jail c)) in H; [|done|done|by destruct l]. specialize (H eq_refl).
  rewrite join_slash_suffix, (join_root_plain (cf_Jail c)) in H;
    [|done|by apply Forall_app; auto|by destruct l]. specialize (H eq_refl s).
  destruct (Download c (join_slash (l ++ [b])) sha s) as [[u|e] s'].
  - destruct H as (data & Hd & Hk & t & Ht).
    { unfold on_nodes, untouched. rewrite <- !app_assoc. repeat split; done. }
    rewrite <- !app_assoc in *. split; [intros q H1 H2; by apply Hk|]. by exists data, t.
  - unfold on_nodes, untouched in H. rewrite <- !app_assoc in H. destruct H as (H1 & H2 & _); [repeat split; done|].
    split; [|done]. intros q _. apply H1.
Qed.

(** C15. A download is all or nothing: whatever the server answers, however the connection
    breaks and whichever operating-system calls fail, when the path has no symbolic link on
    it, a [Download] that succeeds has put at the path content that hashes to the name it
    asked for, one that fails has left the path as it was, and no other file or directory
    there was before has changed, the partial file next to the path apart. *)
Theorem download_all_or_nothing (c : Config) (l : list string) (b sha : string) (s : peer W) :
  let target := cf_Jail c ++ l ++ [b] in
  let partial := cf_Jail c ++ l ++ [b +:+ ".partial"] in
  let old := d_nodes (pe_disk s) in
  Forall (fun x => is_name x = true) (cf_Jail c ++ l ++ [b]) ->
  link_free old target -> link_free old partial ->
  let '(r, s') := Download c (join_slash (l ++ [b])) sha s in
  (forall q, q <> target -> q <> partial -> is_Some (old !! q) -> d_nodes (pe_disk s') !! q = old !! q) /\
  match r with
  | Ok _ => exists data t, d_nodes (pe_disk s') !! target = Some (NFile data t) /\ sha_hex data = sha
  | Err _ => d_nodes (pe_disk s') !! target = old !! target
  end.
Proof. apply Download_safe. Qed.
End Programs.

(** ** A server that sends other content, and a disk whose last call but one fails *)
#[local] Instance spec_clock : Clock := fun n => Z.of_nat n.
#[local] Instance wrong_server : Network unit := fun _ => ret (StatusOK, MkReader [1; 2; 3] None).
Definition two_files : nodes :=
  list_to_map [(["r"], NDir 0); (["r"; "f"], NFile [7] 0); (["r"; "g"], NFile [8] 0)].
Definition a_jail : Config := MkConfig "" "k" "alice" ["r"].

Lemma download_all_or_nothing_witness :
  let s' := snd (Download a_jail "f" abc_sha (MkPeer (MkDisk two_files [None; None; Some (0%nat, "EIO")] 0) tt)) in
  d_nodes (pe_disk s') !! ["r"; "f"] = Some (NFile [7] 0) /\ d_nodes (pe_disk s') !! ["r"; "g"] = Some (NFile [8] 0).
Proof.
  pose proof (download_all_or_nothing a_jail [] "f" abc_sha
    (MkPeer (MkDisk two_files [None; None; Some (0%nat, "EIO")] 0) tt) ltac:(by repeat constructor)
    (link_freeb_sound two_files ["r"; "f"] ltac:(by vm_compute))
    (link_freeb_sound two_files ["r"; "f.partial"] ltac:(by vm_compute))) as H.
  change (join_slash ([] ++ ["f"])) with "f" in H.
  assert (is_ok (fst (Download a_jail "f" abc_sha
    (MkPeer (MkDisk two_files [None; None; Some (0%nat, "EIO")] 0) tt))) = false) as Hr by by vm_compute.
  destruct (Download a_jail "f" abc_sha _) as [[u|e] s']; [discriminate Hr|]. destruct H as [Hk Ht].
  split; [exact Ht|]. exact (Hk ["r"; "g"] ltac:(discriminate) ltac:(discriminate) ltac:(by eexists)).
Defined.
