(* ===== verification/Fetches.v ===== *)
(** Downloads that run at the same time (internal/client/transfer/download.go).

    The runner starts a goroutine for every command, so several [Download]s may be under
    way.  Here a file has an identity apart from its name, as a file under POSIX has: a
    descriptor goes on writing to the file it opened whatever becomes of the name.  Every
    call of [Download] is a step of its own, the body being copied in pieces; the jail's
    part of the calls is in Jail.v, and names are taken as resolved. *)
From S2P Require Import Prelude GoStrings Disk Jail Store Sha256 BlobStore Transfer.
Local Open Scope Z_scope.
Local Open Scope go_scope.

(** Names, and what the files hold. *)
Record fsys : Type := MkFsys {
  fy_names : gmap string nat;
  fy_files : gmap nat bytes;
  fy_next : nat
}.

Definition content_at (x : string) (s : fsys) : option bytes := i ← fy_names s !! x; fy_files s !! i.

(** [O_CREATE|O_TRUNC]: a file that is there is emptied, not replaced. *)
Definition open_trunc (x : string) (s : fsys) : nat * fsys :=
  match fy_names s !! x with
  | Some i => (i, MkFsys (fy_names s) (<[i := []]> (fy_files s)) (fy_next s))
  | None => (fy_next s, MkFsys (<[x := fy_next s]> (fy_names s)) (<[fy_next s := []]> (fy_files s)) (S (fy_next s)))
  end.

(** Writing at a descriptor's own offset; a hole is zeros. *)
Definition write_at (off : nat) (chunk old : bytes) : bytes :=
  take off (old ++ replicate (off - length old) 0) ++ chunk ++ drop (off + length chunk) old.

Definition write_file (i off : nat) (chunk : bytes) (s : fsys) : fsys :=
  MkFsys (fy_names s) (alter (write_at off chunk) i (fy_files s)) (fy_next s).

Definition unlink (x : string) (s : fsys) : fsys := MkFsys (delete x (fy_names s)) (fy_files s) (fy_next s).

Definition move (x y : string) (s : fsys) : option fsys :=
  match fy_names s !! x with
  | Some i => Some (MkFsys (<[y := i]> (delete x (fy_names s))) (fy_files s) (fy_next s))
  | None => None
  end.

(** Where a [Download] is: before [Jail.Stat] of the partial file, before [Jail.Remove],
    before the request, before [Jail.Create], copying (the descriptor's file, what has been
    written and what is left), before [Close] and before [Jail.Rename], and returned. *)
Inductive stage : Type :=
| Statting
| Removing
| Requesting
| Creating (body : bytes)
| Copying (fd : nat) (written rest : bytes)
| Closing (fd : nat) (written : bytes)
| Closed (fd : nat) (written : bytes)
| Returned (err : option error).

(** What the environment decides: the call fails, or goes through, a copy with a piece of
    [S n] bytes. *)
Inductive choice : Type :=
| Failing (e : error)
| Going (n : nat).

Record fetch : Type := MkFetch { ft_rel : string; ft_sha : string; ft_stage : stage }.
Definition ft_partial (f : fetch) : string := ft_rel f +:+ ".partial".
Definition at_stage (f : fetch) (x : stage) : fetch := MkFetch (ft_rel f) (ft_sha f) x.

Section Fetches.
(** The body the server answers a request with. *)
Context (serve : string -> bytes).

(** One call of [Download]. *)
Definition fetch_step (c : choice) (f : fetch) (s : fsys) : fetch * fsys :=
  let failed e := (at_stage f (Returned (Some e)), s) in
  match ft_stage f, c with
  | Statting, Failing _ => (at_stage f Requesting, s)
  | Statting, Going _ => (at_stage f (match fy_names s !! ft_partial f with Some _ => Removing | None => Requesting end), s)
  | Removing, Failing e => failed (Wrap "transfer: remove partial" e)
  | Removing, Going _ =>
      match fy_names s !! ft_partial f with
      | Some _ => (at_stage f Requesting, unlink (ft_partial f) s)
      | None => failed (Wrap "transfer: remove partial" (ENOENT "remove"))
      end
  | Requesting, Failing e => failed e
  | Requesting, Going _ => (at_stage f (Creating (serve (ft_sha f))), s)
  | Creating _, Failing e => failed (Wrap "transfer: create partial" e)
  | Creating body, Going _ => let '(i, s') := open_trunc (ft_partial f) s in (at_stage f (Copying i [] body), s')
  | Copying _ _ _, Failing e => failed (Wrap "transfer: copy body" e)
  | Copying i written [], Going _ => (at_stage f (Closing i written), s)
  | Copying i written rest, Going n =>
      let chunk := take (S n) rest in
      (at_stage f (Copying i (written ++ chunk) (drop (S n) rest)), write_file i (length written) chunk s)
  | Closing _ _, Failing e => failed (Wrap "transfer: close partial" e)
  | Closing i written, Going _ => (at_stage f (Closed i written), s)
  | Closed _ _, Failing e => failed (Wrap "transfer: rename partial" e)
  | Closed i written, Going _ =>
      if negb (bool_decide (sha_hex written = ft_sha f)) then failed ErrBlobMismatch
      else match move (ft_partial f) (ft_rel f) s with
           | Some s' => (at_stage f (Returned None), s')
           | None => failed (Wrap "transfer: rename partial" (LinkError "rename" "ENOENT"))
           end
  | Returned _, _ => (f, s)
  end.

Lemma fetch_step_names c f s : ft_rel (fetch_step c f s).1 = ft_rel f /\ ft_sha (fetch_step c f s).1 = ft_sha f.
Proof.
  unfold fetch_step. destruct f as [rel sha [| | |body|i w [|x rest]|i w|i w|e]], c as [e'|n]; try done;
    cbn; repeat case_match; done.
Qed.

(** The goroutines and the file system; a schedule says who goes next, and how. *)
Definition fetches : Type := gmap nat fetch * fsys.

Definition run_one (jc : nat * choice) (w : fetches) : fetches :=
  match w.1 !! jc.1 with
  | None => w
  | Some f => let '(f', s') := fetch_step jc.2 f w.2 in (<[jc.1 := f']> w.1, s')
  end.

Definition run_schedule (sched : list (nat * choice)) (w : fetches) : fetches := foldl (fun w jc => run_one jc w) w sched.
End Fetches.

(** ** One file system *)

(** Every name has a file, and no two names the same. *)
Record fsys_ok (s : fsys) : Prop := {
  fo_file x i : fy_names s !! x = Some i -> (i < fy_next s)%nat /\ is_Some (fy_files s !! i);
  fo_inj x y i : fy_names s !! x = Some i -> fy_names s !! y = Some i -> x = y
}.

(** A name with its file and content as before. *)
Definition same_at (x : string) (s s' : fsys) : Prop :=
  fy_names s' !! x = fy_names s !! x /\ content_at x s' = content_at x s.

Lemma same_at_refl x s : same_at x s s.
Proof. done. Qed.

Lemma content_insert x y i d s :
  fsys_ok s -> fy_names s !! y = Some i -> x <> y ->
  content_at x (MkFsys (fy_names s) (<[i := d]> (fy_files s)) (fy_next s)) = content_at x s.
Proof.
  intros Hok Hy Hne. unfold content_at. cbn. destruct (fy_names s !! x) as [j|] eqn:Hx; [|done]. cbn.
  rewrite lookup_insert_ne; [done|]. intros <-. by apply Hne, (fo_inj s Hok x y i).
Qed.

Lemma open_trunc_ok x s :
  fsys_ok s -> let '(i, s') := open_trunc x s in
  fsys_ok s' /\ fy_names s' !! x = Some i /\ content_at x s' = Some [] /\ forall y, y <> x -> same_at y s s'.
Proof.
  intros Hok. unfold open_trunc. destruct (fy_names s !! x) as [i|] eqn:Hx.
  - split; [|split; [done|split]].
    + split; [|apply Hok]. intros y j Hy. destruct (fo_file s Hok y j Hy) as [H1 H2]. split; [done|]. cbn.
      destruct (decide (i = j)) as [<-|Hne]; [rewrite lookup_insert_eq; by eexists|by rewrite lookup_insert_ne].
    + unfold content_at. cbn. rewrite Hx. cbn. apply lookup_insert_eq.
    + intros y Hy. split; [done|]. by apply (content_insert y x).
  - assert (forall y i, fy_names s !! y = Some i -> i <> fy_next s) as Hfresh.
    { intros y i Hy ->. destruct (fo_file s Hok y _ Hy). lia. }
    split; [|split; [apply lookup_insert_eq|split]].
    + split; cbn.
      * intros y i. rewrite lookup_insert_Some. intros [[<- <-]|[Hne Hy]]; [split; [lia|rewrite lookup_insert_eq; by eexists]|].
        destruct (fo_file s Hok y i Hy). split; [lia|]. rewrite lookup_insert_ne by by apply not_eq_sym, (Hfresh y). done.
      * intros y z i. rewrite !lookup_insert_Some. intros [[<- <-]|[H1 H2]] [[<- H3]|[H4 H5]]; try done.
        -- by destruct (Hfresh z (fy_next s)).
        -- by destruct (Hfresh y i).
        -- by eapply fo_inj.
    + unfold content_at. cbn. rewrite lookup_insert_eq. cbn. apply lookup_insert_eq.
    + intros y Hy. split; cbn; [by rewrite lookup_insert_ne|]. unfold content_at. cbn. rewrite lookup_insert_ne by done.
      destruct (fy_names s !! y) as [j|] eqn:Ey; [|done]. cbn. by rewrite lookup_insert_ne by by apply not_eq_sym, (Hfresh y).
Qed.

Lemma write_at_end old chunk : write_at (length old) chunk old = old ++ chunk.
Proof.
  unfold write_at. rewrite Nat.sub_diag. cbn [replicate]. rewrite app_nil_r, take_ge, drop_ge by lia. by rewrite app_nil_r.
Qed.

Lemma write_file_ok x i chunk old s :
  fsys_ok s -> fy_names s !! x = Some i -> content_at x s = Some old ->
  let s' := write_file i (length old) chunk s in
  fsys_ok s' /\ fy_names s' !! x = Some i /\ content_at x s' = Some (old ++ chunk) /\ forall y, y <> x -> same_at y s s'.
Proof.
  intros Hok Hx Hc s'. unfold content_at in Hc. rewrite Hx in Hc. cbn in Hc.
  assert (s' = MkFsys (fy_names s) (<[i := old ++ chunk]> (fy_files s)) (fy_next s)) as ->.
  { unfold s', write_file. f_equal. rewrite (alter_alt_Some _ _ _ _ Hc). by rewrite write_at_end. }
  split; [|split; [done|split]].
  - split; [|apply Hok]. intros y j Hy. destruct (fo_file s Hok y j Hy) as [H1 H2]. split; [done|]. cbn.
    destruct (decide (i = j)) as [<-|Hne]; [rewrite lookup_insert_eq; by eexists|by rewrite lookup_insert_ne].
  - unfold content_at. cbn. rewrite Hx. cbn. apply lookup_insert_eq.
  - intros y Hy. split; [done|]. by apply (content_insert y x).
Qed.

Lemma unlink_ok x s : fsys_ok s -> fsys_ok (unlink x s) /\ forall y, y <> x -> same_at y s (unlink x s).
Proof.
  intros Hok. split.
  - split; cbn; [intros y i [_ Hy]%lookup_delete_Some; by apply (fo_file s Hok y)|].
    intros y z i [_ Hy]%lookup_delete_Some [_ Hz]%lookup_delete_Some. by apply (fo_inj s Hok y z i).
  - intros y Hy. unfold same_at, content_at. cbn. by rewrite lookup_delete_ne.
Qed.

Lemma move_ok x y s s' :
  fsys_ok s -> x <> y -> move x y s = Some s' ->
  fsys_ok s' /\ content_at y s' = content_at x s /\ forall z, z <> x -> z <> y -> same_at z s s'.
Proof.
  unfold move. intros Hok Hne. destruct (fy_names s !! x) as [i|] eqn:Hx; [|done]. intros [= <-]. split; [|split].
  - split; cbn.
    + intros z j [[<- <-]|[_ [_ Hz]%lookup_delete_Some]]%lookup_insert_Some; by eapply fo_file.
    + intros z z' j [[<- <-]|[H1 [H2 Hz]%lookup_delete_Some]]%lookup_insert_Some
        [[<- E]|[H3 [H4 Hz']%lookup_delete_Some]]%lookup_insert_Some; try done.
      * destruct H4. by apply (fo_inj s Hok x z' i).
      * subst j. destruct H2. by apply (fo_inj s Hok x z i).
      * by apply (fo_inj s Hok z z' j).
  - unfold content_at. cbn. by rewrite lookup_insert_eq, Hx.
  - intros z Hx' Hy'. unfold same_at, content_at. cbn. by rewrite lookup_insert_ne, lookup_delete_ne.
Qed.

(** ** Downloads of different names *)

(** What is so of a download and its two names: the name holds what it held before the
    download until it has succeeded, and the wanted content then; while it is writing, the
    partial file is its own and holds exactly what it has written. *)
Definition fetched (s0 s : fsys) (f : fetch) : Prop :=
  match ft_stage f with
  | Returned None => exists data, content_at (ft_rel f) s = Some data /\ sha_hex data = ft_sha f
  | Copying i w _ | Closing i w | Closed i w =>
      content_at (ft_rel f) s = content_at (ft_rel f) s0 /\
      fy_names s !! ft_partial f = Some i /\ content_at (ft_partial f) s = Some w
  | _ => content_at (ft_rel f) s = content_at (ft_rel f) s0
  end.

Lemma rel_ne_partial (f : fetch) : ft_rel f <> ft_partial f.
Proof. unfold ft_partial. intros E. apply (f_equal slen) in E. rewrite slen_app in E. cbn in E. lia. Qed.

Lemma fetched_same s0 s s' f :
  same_at (ft_rel f) s s' -> same_at (ft_partial f) s s' -> fetched s0 s f -> fetched s0 s' f.
Proof.
  unfold fetched. intros [Hn1 Hc1] [Hn2 Hc2]. destruct (ft_stage f) as [| | |b|i w r|i w|i w|[e|]]; rewrite ?Hn2, ?Hc1, ?Hc2; done.
Qed.

(** A call of one download touches its two names only. *)
Lemma fetch_step_ok serve c f s s0 :
  fsys_ok s -> fetched s0 s f ->
  let '(f', s') := fetch_step serve c f s in
  fsys_ok s' /\ fetched s0 s' f' /\ forall x, x <> ft_rel f -> x <> ft_partial f -> same_at x s s'.
Proof.
  intros Hok Hf. pose proof (rel_ne_partial f) as Hne. unfold fetch_step.
  destruct f as [rel sha st]. unfold fetched, at_stage in *. cbn [ft_stage ft_rel ft_sha] in *.
  set (P := ft_partial _) in *. assert (forall x, same_at x s s) as Hrefl by done.
  destruct st as [| | |body|i w rest|i w|i w|e], c as [e'|n]; cbn [ft_stage ft_rel]; try done.
  - by destruct (fy_names s !! P).
  - destruct (fy_names s !! P); [|done]. destruct (unlink_ok P s Hok) as [H1 H2]. split; [done|]. split; [|auto].
    cbn. by rewrite (proj2 (H2 rel Hne)).
  - pose proof (open_trunc_ok P s Hok) as H. destruct (open_trunc P s) as [i s']. destruct H as (H1 & H2 & H3 & H4).
    split; [done|]. split; [|auto]. cbn. by rewrite (proj2 (H4 rel Hne)).
  - destruct rest; cbn; destruct Hf as (H1 & _); done.
  - destruct rest as [|x rest]; [done|]. destruct Hf as (H1 & H2 & H3).
    destruct (write_file_ok P i (take (S n) (x :: rest)) w s Hok H2 H3) as (H4 & H5 & H6 & H7).
    split; [done|]. split; [|auto]. split; [by etransitivity; [exact (proj2 (H7 rel Hne))|]|done].
  - by destruct Hf as (H1 & _).
  - by destruct Hf as (H1 & _).
  - destruct Hf as (H1 & H2 & H3). case_bool_decide as Hs; cbn [negb]; [|done].
    destruct (move P rel s) as [s'|] eqn:Em; [|done]. destruct (move_ok P rel s s' Hok (not_eq_sym Hne) Em) as (H4 & H5 & H6).
    split; [done|]. split; [|auto]. exists w. cbn. by rewrite H5.
Qed.

(** The names of different downloads are different. *)
Definition apart (jobs : gmap nat fetch) : Prop :=
  forall j k f g, j <> k -> jobs !! j = Some f -> jobs !! k = Some g ->
    ft_rel f <> ft_rel g /\ ft_rel f <> ft_partial g /\ ft_partial f <> ft_partial g.

Definition all_fetched (s0 : fsys) (w : fetches) : Prop :=
  apart w.1 /\ fsys_ok w.2 /\ forall j f, w.1 !! j = Some f -> fetched s0 w.2 f.

Lemma run_one_ok serve s0 jc w : all_fetched s0 w -> all_fetched s0 (run_one serve jc w).
Proof.
  destruct w as [jobs s]. intros (Ha & Hok & Hf). unfold run_one. cbn [fst snd] in *.
  destruct (jobs !! jc.1) as [f|] eqn:Ej; [|done].
  pose proof (fetch_step_ok serve jc.2 f s s0 Hok (Hf _ _ Ej)) as H. pose proof (fetch_step_names serve jc.2 f s) as Hn.
  destruct (fetch_step serve jc.2 f s) as [f' s']. cbn [fst] in Hn. destruct H as (H1 & H2 & H3), Hn as [Hr _].
  assert (ft_partial f' = ft_partial f) as Hp by (unfold ft_partial; by rewrite Hr).
  split; [|split]; cbn [fst snd]; [|done|].
  - intros j k g g' Hjk. rewrite !lookup_insert_Some. intros [[<- <-]|[Hj Hg]] [[<- <-]|[Hk Hg']]; try done.
    + rewrite Hr, Hp. by apply (Ha jc.1 k).
    + rewrite Hr, Hp. by apply (Ha j jc.1).
    + by apply (Ha j k).
  - intros j g. rewrite lookup_insert_Some. intros [[_ <-]|[Hne Hg]]; [done|].
    destruct (Ha j jc.1 g f (not_eq_sym Hne) Hg Ej) as (N1 & N2 & N3).
    destruct (Ha jc.1 j f g Hne Ej Hg) as (N4 & N5 & N6).
    apply (fetched_same s0 s); [by apply H3|apply H3; [by apply not_eq_sym|done]|by apply (Hf j)].
Qed.

Lemma run_schedule_ok serve s0 sched w : all_fetched s0 w -> all_fetched s0 (run_schedule serve sched w).
Proof.
  unfold run_schedule. revert w. induction sched as [|jc sched IH]; intros w Hw; [done|]. cbn. by apply IH, run_one_ok.
Qed.

(** Where a download is does not change what it is called. *)
Lemma run_schedule_job serve sched w j f :
  w.1 !! j = Some f -> exists st, (run_schedule serve sched w).1 !! j = Some (at_stage f st).
Proof.
  unfold run_schedule. revert w f. induction sched as [|jc sched IH]; intros w f Hf; cbn.
  { exists (ft_stage f). rewrite Hf. by destruct f. }
  assert (exists st, (run_one serve jc w).1 !! j = Some (at_stage f st)) as [st Hst].
  { unfold run_one. destruct (w.1 !! jc.1) as [g|] eqn:Eg; [|exists (ft_stage f); rewrite Hf; by destruct f].
    pose proof (fetch_step_names serve jc.2 g w.2) as [H1 H2]. destruct (fetch_step serve jc.2 g w.2) as [g' s']. cbn in *.
    destruct (decide (jc.1 = j)) as [E|Hne].
    - rewrite E, lookup_insert_eq. rewrite E, Hf in Eg. injection Eg as ->. exists (ft_stage g'). destruct g'. cbn in *. by subst.
    - rewrite lookup_insert_ne by done. exists (ft_stage f). rewrite Hf. by destruct f. }
  destruct (IH _ _ Hst) as [st' H']. by exists st'.
Qed.

(** C16. Downloads of different files do not disturb each other: in every interleaving of the
    calls of any number of downloads, with any call failing at any moment and bodies
    arriving in pieces of any size, a download that has returned without an error has left
    content with the wanted SHA-256 under its name, and one that has failed or is still
    under way has left there what was there before. *)
Theorem concurrent_downloads_are_atomic serve sched jobs s0 j f :
  fsys_ok s0 -> apart jobs -> (forall k g, jobs !! k = Some g -> ft_stage g = Statting) -> jobs !! j = Some f ->
  let '(jobs', s') := run_schedule serve sched (jobs, s0) in
  exists st, jobs' !! j = Some (at_stage f st) /\
    match st with
    | Returned None => exists data, content_at (ft_rel f) s' = Some data /\ sha_hex data = ft_sha f
    | _ => content_at (ft_rel f) s' = content_at (ft_rel f) s0
    end.
Proof.
  intros Hok Ha Hst Hj. assert (all_fetched s0 (jobs, s0)) as H0.
  { split; [done|]. split; [done|]. intros k g Hg. unfold fetched. by rewrite (Hst k g Hg). }
  pose proof (run_schedule_ok serve s0 sched _ H0) as (_ & _ & H).
  destruct (run_schedule_job serve sched (jobs, s0) j f Hj) as [st E].
  destruct (run_schedule serve sched (jobs, s0)) as [jobs' s']. cbn [fst snd] in *. exists st. split; [done|].
  specialize (H _ _ E). unfold fetched in H. cbn in H. destruct st as [| | |b|i w r|i w|i w|[e|]]; try done; by destruct H.
Qed.

(** ** Two downloads of one file *)
Module Overlap.
Definition first : bytes := [1; 1; 1; 1].
Definition second : bytes := [2; 2].
Definition the_server (sha : string) : bytes := if bool_decide (sha = sha_hex first) then first else second.
Definition empty_dir : fsys := MkFsys ∅ ∅ 0.
Definition fetching (rel : string) (data : bytes) : fetch := MkFetch rel (sha_hex data) Statting.
Definition one_file : gmap nat fetch := <[0%nat := fetching "f" first]> {[1%nat := fetching "f" second]}.
Definition two_files : gmap nat fetch := <[0%nat := fetching "f" first]> {[1%nat := fetching "g" second]}.
(** Both open the partial file before either has written; then the first finishes. *)
Definition interleaved : list (nat * choice) :=
  map (fun j => (j, Going 9)) [0; 1; 0; 1; 0; 1; 0; 1; 0; 0; 0; 1; 1; 1]%nat.
End Overlap.
Import Overlap.

(** Two [fetch] commands for the same file, as two changes in quick succession send, share
    the partial file: the first succeeds and is acknowledged although the file now holds
    neither content, and the second fails. *)
Theorem overlapping_downloads_corrupt :
  let w := run_schedule the_server interleaved (one_file, empty_dir) in
  ft_stage <$> w.1 !! 0%nat = Some (Returned None) /\
  ft_stage <$> w.1 !! 1%nat = Some (Returned (Some (Wrap "transfer: rename partial" (LinkError "rename" "ENOENT")))) /\
  content_at "f" w.2 = Some [2; 2; 1; 1] /\
  sha_hex [2; 2; 1; 1] <> sha_hex first /\ sha_hex [2; 2; 1; 1] <> sha_hex second.
Proof.
  cbv zeta. split; [vm_compute; reflexivity|]. split; [vm_compute; reflexivity|]. split; [vm_compute; reflexivity|].
  split; intros E; vm_compute in E; discriminate E.
Qed.

Lemma empty_dir_ok : fsys_ok empty_dir.
Proof. split; cbn; [intros x i|intros x y i]; by rewrite lookup_empty. Qed.

Lemma two_files_lookup k g : two_files !! k = Some g -> g = fetching "f" first /\ k = 0%nat \/ g = fetching "g" second /\ k = 1%nat.
Proof.
  unfold two_files. rewrite lookup_insert_Some. intros [[<- <-]|[_ [<- <-]%lookup_singleton_Some]]; [by left|by right].
Qed.

Lemma two_files_first : two_files !! 0%nat = Some (fetching "f" first).
Proof. unfold two_files. by rewrite lookup_insert_eq. Qed.

Lemma two_files_apart : apart two_files.
Proof.
  intros j k f g Hne Hj Hk. apply two_files_lookup in Hj, Hk. by destruct Hj as [[-> ->]|[-> ->]], Hk as [[-> ->]|[-> ->]].
Qed.

Lemma concurrent_downloads_are_atomic_witness : exists data,
  content_at (ft_rel (fetching "f" first)) (run_schedule the_server interleaved (two_files, empty_dir)).2 = Some data /\
  sha_hex data = ft_sha (fetching "f" first).
Proof.
  pose proof (concurrent_downloads_are_atomic the_server interleaved two_files empty_dir 0 (fetching "f" first) empty_dir_ok
    two_files_apart ltac:(intros k g Hk; apply two_files_lookup in Hk; by destruct Hk as [[-> _]|[-> _]])
    two_files_first) as H.
  assert (ft_stage <$> (run_schedule the_server interleaved (two_files, empty_dir)).1 !! 0%nat = Some (Returned None)) as Hd
    by (vm_compute; reflexivity).
  destruct (run_schedule _ _ _) as [jobs s]. destruct H as (st & Hj & H). cbn [fst snd] in *. rewrite Hj in Hd.
  injection Hd as ->. exact H.
Defined.
