(* ===== verification/Exchange.v ===== *)
(** Two clients and the server: a file that one client uploads (Transfer.v, Jail.v) and the
    server stores (HttpBlobs.v, BlobStore.v) is the file the other one downloads. *)
From S2P Require Import Prelude GoStrings Paths Store StoreFacts Sha256 BlobStore BlobFacts BlobSpec Http HttpBlobs HttpSpec Disk Jail JailSpec JailCalm Transfer TransferSpec.
Local Open Scope Z_scope.
Local Open Scope go_scope.

Lemma on_disk_eq {W A : Type} (f : M disk A) d (r : result A) d' (w : W) :
  f d = (r, d') -> on_disk f (MkPeer d w) = (r, MkPeer d' w).
Proof. intros E. unfold on_disk. cbn [pe_disk pe_net]. by rewrite E. Qed.

Section Download.
Context {W : Type} `{!Network W} {clk : Clock} (c : Config) (l : fpath) (b : string).
Notation target := ((cf_Jail c ++ l) ++ [b]).
Notation partial := ((cf_Jail c ++ l) ++ [b +:+ ".partial"]).

Hypothesis Hnames : Forall (fun x => is_name x = true) (cf_Jail c ++ l ++ [b]).

Lemma Download_quiet (m : nodes) (k : nat) (sha : string) (data : bytes) (w w' : W) :
  file_or_free (cf_Jail c) l b m -> rdir m (cf_Jail c ++ l) -> m !! partial = None ->
  Do (blob_call c "GET" sha [] 0 []) w = (Ok (StatusOK, MkReader data None), w') -> sha_hex data = sha ->
  exists t k', Download c (rel_path l b) sha (MkPeer (quiet m k) w) =
    (Ok tt, MkPeer (quiet (<[target := NFile data t]> m) k') w').
Proof.
  intros Hm Hd Hp Hdo Hsha. pose proof (rel_path_joins _ _ _ Hnames) as Hj.
  pose proof (rel_path_joins _ _ _ (names_partial_path _ _ _ Hnames)) as Hj'.
  pose proof (rel_path_relative _ _ (proj2 (proj1 (Forall_app _ _ _) Hnames))) as Hs.
  pose proof (rel_path_relative _ _ (proj2 (proj1 (Forall_app _ _ _) (names_partial_path _ _ _ Hnames)))) as Hs'.
  assert (file_or_free (cf_Jail c) l (b +:+ ".partial") m) as Hm'.
  { split; [done|]. rewrite Hp. split; [|done]. apply is_name_partial, Hm. }
  assert (file_or_free (cf_Jail c) l b (<[partial := NFile data (clock (S k))]> m)) as Hm2 by by apply file_or_free_insert.
  assert (drop_partial c (rel_path l (b +:+ ".partial")) (MkPeer (quiet m k) w) = (Ok tt, MkPeer (quiet m k) w)) as Ed.
  { destruct (Stat_free (cf_Jail c) l (b +:+ ".partial") _ Hj' Hs' m k Hm' Hp) as [e He].
    unfold drop_partial, try. by rewrite (on_disk_eq _ _ _ _ _ He). }
  assert (receive_body (rel_path l (b +:+ ".partial")) c (MkReader data None) (MkPeer (quiet m k) w') =
            (Ok sha, MkPeer (quiet (<[partial := NFile data (clock (S k))]> m) (S (S k))) w')) as Er.
  { unfold receive_body, bind at 1, wrapped at 1.
    rewrite (on_disk_eq _ _ _ _ _ (Create_quiet (cf_Jail c) l (b +:+ ".partial") _ Hj' Hs' m k Hm')).
    unfold bind at 1. cbn [rd_data rd_err].
    rewrite (on_disk_eq _ _ _ _ _ (write_quiet (cf_Jail c) l (b +:+ ".partial") _ (S k) (clock k) data
      (lookup_insert_eq _ _ _))), insert_insert_eq. by rewrite <- Hsha. }
  exists (clock (S k)), (S (S k)). unfold Download. cbn zeta. rewrite rel_path_partial. unfold bind at 1. rewrite Ed. unfold bind at 1, on_net.
  cbn [pe_disk pe_net]. rewrite Hdo. decide_closed. cbn [orb]. unfold bind at 1. rewrite Er.
  rewrite (bool_decide_true (sha = sha)) by done. cbn [negb]. unfold wrapped.
  rewrite (on_disk_eq _ _ _ _ _ (Rename_quiet _ _ _ _ _ _ _ _ data _ Hj Hj' Hs Hs' Hm2 (proj1 (proj2 Hm')) (lookup_insert_eq _ _ _))).
  by rewrite delete_insert_eq, delete_id.
Qed.
End Download.

(** ** The server's answers to the client's requests *)
Section Exchange.
Context {clk : Clock} (maxSize quota : Z) (psk : string).
#[local] Instance to_server : Network (server fs) := routed_network maxSize quota psk.

(** A client of this server. *)
Definition client_of (id : string) (jail : fpath) : Config := MkConfig "" psk id jail.

Lemma Do_eq (id sha method : string) (jail : fpath) (headers : list (string * string)) (data : bytes) w :
  validateSHA sha = None -> h_get headers "Authorization" = "" ->
  Do (blob_call (client_of id jail) method sha headers (Z.of_nat (length data)) data) w =
  (p <- (let r := with_client (blob_request psk id method sha headers data) id in
         if bool_decide (method = "HEAD") then handleHEAD r sha
         else if bool_decide (method = "PUT") then handlePUT maxSize quota r sha
         else if bool_decide (method = "GET") then handleGET r sha
         else ret (status StatusMethodNotAllowed));;
   ret (rp_Status p, MkReader (body_bytes (rp_Body p)) None)) w.
Proof.
  intros Hv Hh. unfold Do, to_server, routed_network, bind.
  change (blob_call (client_of id jail) method sha headers (Z.of_nat (length data)) data)
    with (blob_request psk id method sha headers data).
  by rewrite (blobs_route_eq maxSize quota psk id method sha headers data w Hv Hh).
Qed.

Lemma Do_head (id sha : string) (jail : fpath) (t : tables) n m d k :
  validateSHA sha = None ->
  Do (blob_call (client_of id jail) "HEAD" sha [] 0 []) (calm_server t n m d k) =
  (Ok (match m !! path sha with Some _ => StatusOK | None => StatusNotFound end, MkReader [] None),
   calm_server t n m d k).
Proof.
  intros Hv. rewrite (Do_eq id sha "HEAD" jail [] [] _ Hv eq_refl). decide_closed.
  unfold bind, handleHEAD, try, in_blobs, calm_server. cbn [sv_blobs sv_store bs_Has bs_Stat fs_blobstore].
  unfold Has, checked. rewrite Hv. unfold try. rewrite Stat_calm. destruct (m !! path sha) as [f|] eqn:Ef; [|done].
  cbn [ret]. unfold BlobStore.Stat, checked. rewrite Hv. unfold try. cbn [sv_blobs]. by rewrite Stat_calm, Ef.
Qed.

Lemma Do_get (id sha : string) (jail : fpath) (t : tables) n m d k f :
  validateSHA sha = None -> m !! path sha = Some f ->
  Do (blob_call (client_of id jail) "GET" sha [] 0 []) (calm_server t n m d k) =
  (Ok (StatusOK, MkReader (fl_data f) None), calm_server t n m d k).
Proof.
  intros Hv Hf. unfold Do, to_server, routed_network, bind.
  change (blob_call (client_of id jail) "GET" sha [] 0 []) with (blob_request psk id "GET" sha [] []).
  by rewrite (download_eq maxSize quota psk id sha t n m d k f Hv Hf).
Qed.

Lemma Do_put (id : string) (jail : fpath) (data : bytes) (t : tables) n m d k :
  m !! path (sha_hex data) = None -> 0 < Z.of_nat (length data) <= maxSize ->
  wrap64 (usage id t + Z.of_nat (length data)) <= quota ->
  exists f d' k', fl_data f = data /\
  Do (blob_call (client_of id jail) "PUT" (sha_hex data) [("Content-Type", "application/octet-stream")]
        (Z.of_nat (length data)) data) (calm_server t n m d k) =
  (Ok (StatusCreated, MkReader [] None),
   calm_server t n (<[path (sha_hex data) := f]> (delete (partialPath (sha_hex data)) m)) d' k').
Proof.
  intros Hnew Hlen Hq. pose proof (sha_hex_valid data) as Hv.
  destruct (Put_eq (sha_hex data) data (Z.of_nat (length data)) m d k Hv Hnew) as (f & d' & k' & Hf & E).
  rewrite Z.eqb_refl, andb_false_r, (bool_decide_true (sha_hex data = _)) in E
    by by rewrite lower_hex_ToLower by apply sha_hex_lower.
  cbn [negb] in E. exists f, d', k'. split; [done|].
  rewrite (Do_eq id (sha_hex data) "PUT" jail [("Content-Type", "application/octet-stream")] data _ Hv eq_refl). decide_closed. unfold bind.
  rewrite handlePUT_eq by done. unfold store_body, Header.
  cbn [rq_Header rq_Body rq_ContentLength with_client blob_request app h_get]. decide_closed. cbn [negb].
  unfold try, in_blobs. cbn [sv_blobs calm_server bs_Put fs_blobstore sv_store]. by rewrite E.
Qed.

Lemma Upload_quiet (id : string) (jail l : fpath) (b : string) (m : nodes) (j : nat) (data : bytes) (tm : Z)
    (t : tables) (n : nat) (fl : files) (d : gset string) (k : nat) :
  Forall (fun x => is_name x = true) (jail ++ l ++ [b]) -> rdir m (jail ++ l) ->
  m !! ((jail ++ l) ++ [b]) = Some (NFile data tm) ->
  0 < Z.of_nat (length data) <= maxSize -> wrap64 (usage id t + Z.of_nat (length data)) <= quota ->
  exists (f : file) (fl' : files) (d' : gset string) (k' : nat),
    Upload (client_of id jail) (rel_path l b) (MkPeer (quiet m j) (calm_server t n fl d k)) =
      (Ok (MkUploadResult (sha_hex data) (Z.of_nat (length data)) (bool_decide (is_Some (fl !! path (sha_hex data))))),
       MkPeer (quiet m j) (calm_server t n fl' d' k')) /\
    fl' !! path (sha_hex data) = Some f /\ from_option (eq f) (fl_data f = data) (fl !! path (sha_hex data)).
Proof.
  intros Hn Hd Hf Hlen Hq. pose proof (sha_hex_valid data) as Hv.
  pose proof (rel_path_joins _ _ _ Hn) as Hj.
  pose proof (rel_path_relative _ _ (proj2 (proj1 (Forall_app _ _ _) Hn))) as Hs.
  assert (file_or_free jail l b m) as Hm.
  { split; [done|]. rewrite Hf. split; [|done]. rewrite app_assoc in Hn. apply Forall_app in Hn as [_ Hn]. by inversion Hn. }
  pose proof (Open_quiet jail l b (rel_path l b) Hj Hs m j data tm Hm Hf) as Ho.
  assert (forall w : server fs, computeSHA (client_of id jail) (rel_path l b) (MkPeer (quiet m j) w) =
            (Ok (sha_hex data, Z.of_nat (length data)), MkPeer (quiet m j) w)) as Ec.
  { intros w. unfold computeSHA, bind. change (cf_Jail (client_of id jail)) with jail. by rewrite (on_disk_eq _ _ _ _ w Ho). }
  unfold Upload. unfold bind at 1, wrapped at 1. rewrite Ec. unfold bind at 1, wrapped at 1, headBlob.
  unfold bind at 1, on_net at 1. cbn [pe_disk pe_net]. rewrite Do_head by done.
  destruct (fl !! path (sha_hex data)) as [f|] eqn:Ef; decide_closed.
  - exists f, fl, d, k. rewrite bool_decide_true by done. done.
  - destruct (Do_put id jail data t n fl d k Ef Hlen Hq) as (f & d' & k' & Hd' & E).
    exists f, (<[path (sha_hex data) := f]> (delete (partialPath (sha_hex data)) fl)), d', k'.
    rewrite bool_decide_false by by intros []. split; [|split; [apply lookup_insert_eq|done]].
    cbn [ret]. unfold bind at 1, wrapped. change (cf_Jail (client_of id jail)) with jail.
    rewrite (on_disk_eq _ _ _ _ _ Ho). unfold bind, putBlob, bind, on_net.
    cbn [pe_disk pe_net]. by rewrite E.
Qed.

(** C17. What one client uploads is what another downloads: for a file of a client's
    directory that is not empty, within the size limit and the client's quota, on a server
    whose blobs hash to their names, with a connection and disks that do not fail, [Upload]
    succeeds with the content's SHA-256 and size, skipping the transfer exactly when the
    server has the blob, and [Download] of that SHA-256 by any client, to any free or
    existing file name of its directory, succeeds and leaves there content with that
    SHA-256, the very bytes when the server did not have the blob before. *)
Theorem uploaded_is_downloaded (idA idB : string) (jailA jailB lA lB : fpath) (bA bB : string)
    (mA mB : nodes) (jA jB : nat) (data : bytes) (tm : Z)
    (t : tables) (n : nat) (fl : files) (d : gset string) (k : nat) :
  let sha := sha_hex data in
  Forall (fun x => is_name x = true) (jailA ++ lA ++ [bA]) -> rdir mA (jailA ++ lA) ->
  mA !! ((jailA ++ lA) ++ [bA]) = Some (NFile data tm) ->
  Forall (fun x => is_name x = true) (jailB ++ lB ++ [bB]) -> file_or_free jailB lB bB mB ->
  mB !! ((jailB ++ lB) ++ [bB +:+ ".partial"]) = None ->
  blob_ok fl -> 0 < Z.of_nat (length data) <= maxSize -> wrap64 (usage idA t + Z.of_nat (length data)) <= quota ->
  let '(r1, s1) := Upload (client_of idA jailA) (rel_path lA bA) (MkPeer (quiet mA jA) (calm_server t n fl d k)) in
  let '(r2, s2) := Download (client_of idB jailB) (rel_path lB bB) sha (MkPeer (quiet mB jB) (pe_net s1)) in
  r1 = Ok (MkUploadResult sha (Z.of_nat (length data)) (bool_decide (is_Some (fl !! path sha)))) /\
  r2 = Ok tt /\
  exists data' tm', d_nodes (pe_disk s2) !! ((jailB ++ lB) ++ [bB]) = Some (NFile data' tm') /\
    sha_hex data' = sha /\ (fl !! path sha = None -> data' = data).
Proof.
  intros sha HnA HdA HfA HnB HfB HpB Hok Hlen Hq. pose proof (sha_hex_valid data) as Hv.
  destruct (Upload_quiet idA jailA lA bA mA jA data tm t n fl d k HnA HdA HfA Hlen Hq)
    as (f & fl' & d' & k' & -> & Hf & Hf0). cbn [pe_net].
  assert (sha_hex (fl_data f) = sha) as Hsha.
  { fold sha in Hf, Hf0. destruct (fl !! path sha) as [f0|] eqn:E; cbn in Hf0; [subst f0|by subst sha; f_equal].
    destruct (Hok _ _ _ E Hv) as [_ ->]. apply lower_hex_ToLower, sha_hex_lower. }
  destruct (Download_quiet (client_of idB jailB) lB bB HnB mB jB sha (fl_data f) _ _ HfB (proj1 HfB) HpB
    (Do_get idB sha jailB t n fl' d' k' f Hv Hf) Hsha) as (tm' & j' & ->).
  split; [done|]. split; [done|]. exists (fl_data f), tm'. split; [apply lookup_insert_eq|]. split; [done|].
  intros E. fold sha in Hf0. by rewrite E in Hf0.
Qed.

(** An empty file that the server does not have cannot be uploaded: the request has no
    length, which the server refuses with 411. *)
Theorem empty_file_is_not_uploaded (id : string) (jail l : fpath) (b : string) (m : nodes) (j : nat) (tm : Z)
    (t : tables) (n : nat) (fl : files) (d : gset string) (k : nat) :
  Forall (fun x => is_name x = true) (jail ++ l ++ [b]) -> file_or_free jail l b m ->
  m !! ((jail ++ l) ++ [b]) = Some (NFile [] tm) -> fl !! path (sha_hex []) = None ->
  exists e, Upload (client_of id jail) (rel_path l b) (MkPeer (quiet m j) (calm_server t n fl d k)) =
    (Err e, MkPeer (quiet m j) (calm_server t n fl d k)).
Proof.
  intros Hn Hm Hf Hno. pose proof (sha_hex_valid []) as Hv.
  pose proof (rel_path_joins _ _ _ Hn) as Hj.
  pose proof (rel_path_relative _ _ (proj2 (proj1 (Forall_app _ _ _) Hn))) as Hs.
  pose proof (Open_quiet jail l b (rel_path l b) Hj Hs m j [] tm Hm Hf) as Ho.
  eexists. unfold Upload. unfold bind at 1, wrapped at 1, computeSHA, bind at 1.
  change (cf_Jail (client_of id jail)) with jail. rewrite (on_disk_eq _ _ _ _ _ Ho). cbn [ret].
  unfold bind at 1, wrapped at 1, headBlob. unfold bind at 1, on_net at 1. cbn [pe_disk pe_net].
  rewrite Do_head, Hno by done. decide_closed. cbn [ret]. unfold bind at 1, wrapped. rewrite (on_disk_eq _ _ _ _ _ Ho).
  unfold bind, putBlob, bind, on_net. cbn [pe_disk pe_net].
  rewrite (Do_eq id (sha_hex []) "PUT" jail [("Content-Type", "application/octet-stream")] [] _ Hv eq_refl).
  decide_closed. reflexivity.
Qed.
End Exchange.

(** ** Two concrete clients *)
Module Pair.
#[export] Instance pair_clock : Clock := fun n => Z.of_nat n.
Definition alice_nodes : nodes :=
  list_to_map [(["a"], NDir 0); (["a"; "f"], NFile abc 5); (["a"; "empty"], NFile [] 5)].
Definition bob_nodes : nodes := list_to_map [(["b"], NDir 0); (["b"; "g"], NFile [1; 2] 6)].
End Pair.
Import Pair.

Lemma uploaded_is_downloaded_witness : exists tm,
  (let s1 := snd (Upload (W:=server fs) (Network0:=to_server 100 100 "k") (client_of "k" "alice" ["a"]) "f"
       (MkPeer (quiet Pair.alice_nodes 0) (calm_server empty_tables 0 ∅ ∅ 0))) in
   d_nodes (pe_disk (snd (Download (W:=server fs) (clk:=pair_clock) (Network0:=to_server 100 100 "k") (client_of "k" "bob" ["b"]) "g" abc_sha
     (MkPeer (quiet Pair.bob_nodes 0) (pe_net s1)))))) !! ["b"; "g"] = Some (NFile abc tm).
Proof.
  pose proof (uploaded_is_downloaded (clk:=pair_clock) 100 100 "k" "alice" "bob" ["a"] ["b"] [] [] "f" "g" Pair.alice_nodes
    Pair.bob_nodes 0 0 abc 5 empty_tables 0 ∅ ∅ 0 ltac:(by repeat constructor)
    (rdir_single Pair.alice_nodes "a" 0 eq_refl eq_refl) eq_refl ltac:(by repeat constructor)
    (conj (rdir_single Pair.bob_nodes "b" 0 eq_refl eq_refl) (conj eq_refl I)) eq_refl
    ltac:(intros x y f E; by rewrite lookup_empty in E) ltac:(by vm_compute) ltac:(by vm_compute)) as H.
  cbv zeta in H. change (rel_path [] "f") with "f" in H. change (rel_path [] "g") with "g" in H.
  rewrite (sha256_abc : sha_hex abc = abc_sha) in H.
  destruct (Upload _ _ _) as [r1 s1]. destruct (Download _ _ _ _) as [r2 s2] eqn:E.
  destruct H as (_ & _ & data' & tm & Hf & _ & Hd). exists tm. cbn [snd].
  match goal with |- d_nodes (pe_disk ?x.2) !! _ = _ => replace x.2 with s2 by exact (eq_sym (f_equal snd E)) end.
  by rewrite <- (Hd eq_refl).
Defined.
