(* ===== verification/Runner.v ===== *)
(** internal/client/runner: what the client does with the server's messages (app.go,
    listdir.go, snapshot.go) and with the changes its watcher reports (app.go, watcher.go).

    The state is the client's disk and the world behind its HTTP client (Transfer.v), the
    registry (Registry.v), the suppressor (Suppress.v), the connection to the server, the
    commands that goroutines are still to run, and a clock.  Sending a message is the class
    [Sender].  Handling one command or one change is one step: what other goroutines do
    meanwhile to the same files is not modelled here, only the order in which they run
    (Fetches.v interleaves downloads call by call; Pipeline.v has the loops and channels). *)
From S2P Require Import Prelude GoStrings Json Proto Paths Store Sha256 BlobStore Http HttpBlobs Ignore Registry Suppress Disk Jail Transfer Watcher.
Local Open Scope Z_scope.
Local Open Scope go_scope.

Definition suppressTTL : Z := 2 * 10^9.

(** [runner.Sender] *)
Class Sender (S : Type) := send_env : Envelope -> M S unit.

Record client (W S : Type) : Type := MkClientState {
  c_peer : peer W;
  c_reg : Registry;
  c_supp : Suppressor;
  c_conn : S;
  c_commands : list FileSyncCommand;   (* go r.handleSyncCommand(ctx, cmd) *)
  c_tick : nat
}.
Arguments MkClientState {W S} _ _ _ _ _ _.
Arguments c_peer {W S} _.
Arguments c_reg {W S} _.
Arguments c_supp {W S} _.
Arguments c_conn {W S} _.
Arguments c_commands {W S} _.
Arguments c_tick {W S} _.

(** [errors.Is(err, os.ErrNotExist)] *)
Definition is_not_exist (e : error) : bool := bool_decide (errors_As_PathError e = Some "ENOENT").

(** [time.Time{}.UnixNano()]: the seconds from year 1 to 1970, times 1e9, in an int64. *)
Definition zero_UnixNano : Z := wrap64 (-62135596800 * 10^9).

Definition maxScanFiles : Z := 100000.
Definition maxScanDepth : nat := 32.

(** What lstat reports of an entry that Disk.v does not record, by the entry's name: size and
    time of a link or of another special file, size of a directory. *)
Class LstatInfo := lstat_info : string -> node -> Z * Z.
Definition info_Size `{!LstatInfo} (name : string) (n : node) : Z :=
  match n with NFile data _ => Z.of_nat (length data) | _ => (lstat_info name n).1 end.
Definition info_ModTime `{!LstatInfo} (name : string) (n : node) : Z :=
  match n with NFile _ t | NDir t => t | _ => (lstat_info name n).2 end.

Section Runner.
Context {W S : Type} `{!Network W} `{!Sender S} {clk : Clock} {li : LstatInfo}.
Context (cfg : Config) (ignoreList : list string).
Notation C := (client W S).

Definition on_peer {A} (m : M (peer W) A) : M C A := fun c =>
  let '(r, p) := m (c_peer c) in
  (r, MkClientState p (c_reg c) (c_supp c) (c_conn c) (c_commands c) (c_tick c)).
Definition on_jail {A} (m : M disk A) : M C A := on_peer (on_disk m).
Definition on_reg (f : Registry -> Registry) : M C unit := modify (fun c =>
  MkClientState (c_peer c) (f (c_reg c)) (c_supp c) (c_conn c) (c_commands c) (c_tick c)).
Definition Send (env : Envelope) : M C unit := fun c =>
  let '(r, s) := send_env env (c_conn c) in
  (r, MkClientState (c_peer c) (c_reg c) (c_supp c) s (c_commands c) (c_tick c)).

(** A call of the suppressor at the time its clock shows. *)
Definition on_supp {A} (f : Z -> Suppressor -> A * Suppressor) : M C A := fun c =>
  let '(a, s) := f (clock (c_tick c)) (c_supp c) in
  (Ok a, MkClientState (c_peer c) (c_reg c) s (c_conn c) (c_commands c) (Datatypes.S (c_tick c))).
Definition supp_Add (rel sha : string) (ttl : Z) : M C unit :=
  on_supp (fun now s => (tt, Suppress.Add rel sha ttl now s)).

(** ** Commands (app.go) *)
Definition lookupSubscription (pairID : string) : M C (option Subscription) := fun c =>
  (Ok (list_find (fun s => sb_PairID s = pairID) (All (c_reg c)) ≫= fun '(_, s) => Some s), c).

Definition sendAck (cmd : FileSyncCommand) (status errMsg : string) : M C unit :=
  let ack := MkFileSyncAck (cmd_PairID cmd) (cmd_Side cmd) (cmd_RelPath cmd) (cmd_SHA256 cmd) status errMsg in
  match MarshalPayload ack with
  | Err _ => ret tt
  | Ok payload => _ <-? Send (MkEnvelope TypeFileSyncAck "" payload);; ret tt
  end.

Definition handleSyncCommand (cmd : FileSyncCommand) : M C unit :=
  sub <- lookupSubscription (cmd_PairID cmd);;
  match sub with
  | None => sendAck cmd "failed" "no subscription"
  | Some sub =>
      let jailRel := Join [sb_RootSubpath sub; cmd_RelPath cmd] in
      if bool_decide (cmd_Op cmd = "fetch") then
        supp_Add jailRel (cmd_SHA256 cmd) suppressTTL;;
        r <-? on_peer (Download cfg jailRel (cmd_SHA256 cmd));;
        match r with
        | Err e => sendAck cmd "failed" (error_text e)
        | Ok _ => sendAck cmd "ok" ""
        end
      else if bool_decide (cmd_Op cmd = "delete") then
        supp_Add jailRel "" suppressTTL;;
        r <-? on_jail (Jail.Remove (cf_Jail cfg) jailRel);;
        match r with
        | Err e => if is_not_exist e then sendAck cmd "ok" "" else sendAck cmd "failed" (error_text e)
        | Ok _ => sendAck cmd "ok" ""
        end
      else if bool_decide (cmd_Op cmd = "rename") then
        let newJailRel := Join [sb_RootSubpath sub; cmd_NewRelPath cmd] in
        supp_Add jailRel "" suppressTTL;;
        supp_Add newJailRel "" suppressTTL;;
        r <-? on_jail (Jail.Rename (cf_Jail cfg) jailRel newJailRel);;
        match r with
        | Err e => sendAck cmd "failed" (error_text e)
        | Ok _ => sendAck cmd "ok" ""
        end
      else sendAck cmd "failed" ("unknown op: " +:+ cmd_Op cmd)
  end.

(** ** Local changes *)

(** [translateLoop]: one message per subscription the path belongs to. *)
Definition translate (ev : Event) (reg : Registry) : list FileChangedEvent :=
  map (fun m =>
    MkFileChangedEvent (rv_PairID m) (rv_Side m) (rv_SubRel m) (wev_SHA256 ev) (wev_Size ev)
      (match wev_ModTime ev with Some t => t | None => zero_UnixNano end)
      (match wev_Op ev with OpRemove => "delete" | OpWrite => "write" end) false)
    (Registry.Resolve (wev_RelPath ev) reg).

(** Whether the change is one of the client's own. *)
Definition suppressed (ev : FileChangedEvent) : M C bool :=
  if bool_decide (ev_Op ev = "write") then on_supp (fun now s => HitWithSHA (ev_RelPath ev) (ev_SHA256 ev) now s)
  else if bool_decide (ev_Op ev = "delete") then on_supp (fun now s => Hit (ev_RelPath ev) now s)
  else ret false.

Definition report (ev : FileChangedEvent) : M C unit :=
  match MarshalPayload ev with
  | Err _ => ret tt
  | Ok payload => _ <-? Send (MkEnvelope TypeFileChangedEvent "" payload);; ret tt
  end.

Definition handleLocalChange (ev : FileChangedEvent) : M C unit :=
  hit <- suppressed ev;;
  if (hit : bool) then ret tt
  else if bool_decide (ev_Op ev = "write") then
    sub <- lookupSubscription (ev_PairID ev);;
    match sub with
    | None => ret tt
    | Some sub =>
        u <-? on_peer (Upload cfg (Join [sb_RootSubpath sub; ev_RelPath ev]));;
        match u with
        | Err _ => ret tt
        | Ok _ => report ev
        end
    end
  else report ev.

(** ** Directory listings (listdir.go) *)

(** [e.Info()]: the file's metadata, read now. *)
Definition entry_Info (n : node) : M disk node := d_call "lstat" (ret n).

Fixpoint dir_entries (entries : list (string * node)) : M C (list DirEntry) :=
  match entries with
  | [] => ret []
  | (name, n) :: rest =>
      info <-? on_jail (entry_Info n);;
      out <- dir_entries rest;;
      ret (match info with
           | Ok i => MkDirEntry name (is_dir n) (info_Size name i) (info_ModTime name i) :: out
           | Err _ => out
           end)
  end.

Definition HandleListDir (req : ListDirRequest) : M C ListDirResponse :=
  es <-? on_jail (Jail.ReadDir (cf_Jail cfg) (ldq_RelPath req));;
  match es with
  | Err e =>
      if errors_Is e Jail.ErrPathEscape then ret (MkListDirResponse None ("path escape: " +:+ ldq_RelPath req))
      else ret (MkListDirResponse None (error_text e))
  | Ok entries =>
      out <- dir_entries entries;;
      ret (MkListDirResponse (Some (merge_sort (by_key String.le de_Name) out)) "")
  end.

(** ** Snapshots (snapshot.go) *)
Definition snapshot_sha (jailRel : string) : M C string :=
  f <-? on_jail (Jail.Open (cf_Jail cfg) jailRel);;
  match f with
  | Err e => if errors_Is e Jail.ErrUnsupportedFileType then ret "" else throw e
  | Ok data => ret (sha_hex data)
  end.

(** The entries found so far; their number is [*count].  An error comes with what was found
    before it. *)
Notation acc := (list FileSnapshot).

(** One entry of the directory [subRel]; [walk] is the recursive call. *)
Definition scan_entry (walk : string -> acc -> M C (acc * option error)) (rootSubpath subRel : string)
    (entry : string * node) (found : acc) : M C (acc * option error) :=
  let '(name, n) := entry in
  let entrySubRel := if bool_decide (subRel = ".") then name else Join [subRel; name] in
  let entryJailRel := Join [rootSubpath; entrySubRel] in
  if MatchIgnore entryJailRel ignoreList then ret (found, None)
  else
    info <-? on_jail (entry_Info n);;
    match info with
    | Err _ => ret (found, None)
    | Ok i =>
        if is_dir n then walk entrySubRel (found ++ [MkFileSnapshot entrySubRel "" 0 (node_mtime i) true])
        else if unsupported i then ret (found, None)
        else
          sha <-? snapshot_sha entryJailRel;;
          match sha with
          | Err _ => ret (found, None)
          | Ok sha => ret (found ++ [MkFileSnapshot entrySubRel sha (node_size i) (node_mtime i) false], None)
          end
    end.

Fixpoint scan_entries (visit : string * node -> acc -> M C (acc * option error)) (l : list (string * node))
    (found : acc) : M C (acc * option error) :=
  match l with
  | [] => ret (found, None)
  | entry :: l' =>
      r <- visit entry found;;
      match r with
      | (found, Some e) => ret (found, Some e)
      | (found, None) => scan_entries visit l' found
      end
  end.

(** The walk under [subRel]; [fuel] is what is left of [maxScanDepth], below which a
    directory is not read. *)
Fixpoint walkScan (fuel : nat) (rootSubpath subRel : string) (found : acc) : M C (acc * option error) :=
  if maxScanFiles <=? Z.of_nat (length found) then ret (found, None)
  else
    let jailRel := if bool_decide (subRel = ".") then rootSubpath else Join [rootSubpath; subRel] in
    es <-? on_jail (Jail.ReadDir (cf_Jail cfg) jailRel);;
    match es with
    | Err e => ret (found, Some e)
    | Ok entries =>
        scan_entries (scan_entry
          (match fuel with O => fun _ found => ret (found, None) | Datatypes.S fuel' => walkScan fuel' rootSubpath end)
          rootSubpath subRel) entries found
    end.

(** An error of the walk is only logged; without entries the slice is nil. *)
Definition HandleListFiles (req : ListFilesRequest) : M C ListFilesResponse :=
  sub <- lookupSubscription (lfq_PairID req);;
  match sub with
  | None => ret (MkListFilesResponse None)
  | Some sub =>
      let root := if bool_decide (sb_RootSubpath sub = "") then "." else sb_RootSubpath sub in
      r <- walkScan maxScanDepth root "." [];;
      ret (MkListFilesResponse (match fst r with [] => None | l => Some l end))
  end.

(** ** Messages (app.go) *)
Definition answer {A} `{!JsonCodec A} (type corr : string) (resp : A) : M C unit :=
  match MarshalPayload resp with
  | Err e => throw e
  | Ok payload => Send (MkEnvelope type corr payload)
  end.

Definition with_payload {A} `{!JsonCodec A} (env : Envelope) (k : A -> M C unit) : M C unit :=
  match UnmarshalPayload (A:=A) (env_Payload env) with
  | Err e => throw e
  | Ok a => k a
  end.

Definition HandleEnvelope (env : Envelope) : M C unit :=
  if bool_decide (env_Type env = TypeSubscribePair) then
    with_payload (A:=SubscribePair) env (fun sub => on_reg (Registry.Apply sub))
  else if bool_decide (env_Type env = TypeFileSyncCommand) then
    with_payload (A:=FileSyncCommand) env (fun cmd => modify (fun c =>
      MkClientState (c_peer c) (c_reg c) (c_supp c) (c_conn c) (c_commands c ++ [cmd]) (c_tick c)))
  else if bool_decide (env_Type env = TypeListDirRequest) then
    with_payload (A:=ListDirRequest) env (fun req =>
      resp <- HandleListDir req;; answer TypeListDirResponse (env_CorrelationID env) resp)
  else if bool_decide (env_Type env = TypeListFilesRequest) then
    with_payload (A:=ListFilesRequest) env (fun req =>
      resp <- HandleListFiles req;; answer TypeListFilesResponse (env_CorrelationID env) resp)
  else ret tt.

(** One of the goroutines that run commands gets its turn: any of them. *)
Definition run_command (i : nat) : M C unit := fun c =>
  match c_commands c !! i with
  | None => (Ok tt, c)
  | Some cmd => handleSyncCommand cmd
      (MkClientState (c_peer c) (c_reg c) (c_supp c) (c_conn c) (delete i (c_commands c)) (c_tick c))
  end.

(** What happens to a client. *)
Inductive client_step : C -> C -> Prop :=
| step_message env c : client_step c (snd (HandleEnvelope env c))
| step_command i c : client_step c (snd (run_command i c))
| step_change ev m c : m ∈ translate ev (c_reg c) -> client_step c (snd (handleLocalChange m c))
| step_local f c : client_step c (MkClientState (MkPeer (set_nodes f (pe_disk (c_peer c))) (pe_net (c_peer c)))
    (c_reg c) (c_supp c) (c_conn c) (c_commands c) (c_tick c)).
End Runner.
