(* ===== verification/Pipeline.v ===== *)
(** The channels between the goroutines of a client's runner (internal/client/runner/app.go,
    watcher.go; internal/watcher).  Lifecycle.v starts and stops them.

    A change goes from the watcher's channel through [translateLoop] into the runner's
    channel and from there through [eventLoop] into [handleLocalChange]; errors go through
    two pumps.  Each receive and each send of a loop is a step; the context's cancellation
    lets a loop return, at any of its selects. *)
From S2P Require Import Prelude GoStrings Json Proto Paths Store Ignore Registry Suppress Disk Jail Transfer Watcher Runner.
From Stdlib Require Import ssreflect.

Definition out_cap : nat := 64.
Definition err_cap : nat := 8.

(** ** The channels *)
Record pipeline : Type := MkPipeline {
  pl_reg : Registry;
  pl_queued : list Event;                  (* every event the watcher's channel has taken *)
  pl_events : list Event;                  (* w.events *)
  pl_taken : list (Event * Registry);      (* translated, with the subscriptions of that time *)
  pl_current : list FileChangedEvent;      (* matches translateLoop is still to send *)
  pl_out : list FileChangedEvent;          (* wr.out *)
  pl_handled : list FileChangedEvent;      (* given to handleLocalChange *)
  pl_cancelled : bool;                     (* the context *)
  pl_translating : bool;                   (* the goroutines that run *)
  pl_handling : bool
}.

(** The watcher's non-blocking send. *)
Definition queue_event (e : Event) (s : pipeline) : pipeline :=
  if bool_decide (length (pl_events s) < events_cap)
  then MkPipeline (pl_reg s) (pl_queued s ++ [e]) (pl_events s ++ [e]) (pl_taken s) (pl_current s) (pl_out s)
         (pl_handled s) (pl_cancelled s) (pl_translating s) (pl_handling s)
  else s.

(** [translateLoop] receives an event, when it has sent the matches of the last one. *)
Definition translate_receive (s : pipeline) : option pipeline :=
  match pl_translating s, pl_current s, pl_events s with
  | true, [], e :: es =>
      Some (MkPipeline (pl_reg s) (pl_queued s) es (pl_taken s ++ [(e, pl_reg s)]) (translate e (pl_reg s)) (pl_out s)
        (pl_handled s) (pl_cancelled s) true (pl_handling s))
  | _, _, _ => None
  end.

(** It sends the next match, unless [wr.out] is full. *)
Definition translate_send (s : pipeline) : option pipeline :=
  match pl_translating s, pl_current s with
  | true, m :: ms =>
      if bool_decide (length (pl_out s) < out_cap)
      then Some (MkPipeline (pl_reg s) (pl_queued s) (pl_events s) (pl_taken s) ms (pl_out s ++ [m])
        (pl_handled s) (pl_cancelled s) true (pl_handling s))
      else None
  | _, _ => None
  end.

(** [eventLoop] *)
Definition event_receive (s : pipeline) : option pipeline :=
  match pl_handling s, pl_out s with
  | true, m :: ms => Some (MkPipeline (pl_reg s) (pl_queued s) (pl_events s) (pl_taken s) (pl_current s) ms
      (pl_handled s ++ [m]) (pl_cancelled s) (pl_translating s) true)
  | _, _ => None
  end.

(** [case <-ctx.Done(): return] *)
Definition translate_done (s : pipeline) : option pipeline :=
  if pl_cancelled s && pl_translating s
  then Some (MkPipeline (pl_reg s) (pl_queued s) (pl_events s) (pl_taken s) (pl_current s) (pl_out s) (pl_handled s) true
         false (pl_handling s))
  else None.
Definition event_done (s : pipeline) : option pipeline :=
  if pl_cancelled s && pl_handling s
  then Some (MkPipeline (pl_reg s) (pl_queued s) (pl_events s) (pl_taken s) (pl_current s) (pl_out s) (pl_handled s) true
         (pl_translating s) false)
  else None.

Definition loop_steps (s : pipeline) : list (option pipeline) :=
  [translate_receive s; translate_send s; event_receive s; translate_done s; event_done s].

(** The loops, and what happens around them: events, messages that change the
    subscriptions, cancellation. *)
Inductive pipeline_step : pipeline -> pipeline -> Prop :=
| step_queue e s : pipeline_step s (queue_event e s)
| step_loop s s' : Some s' ∈ loop_steps s -> pipeline_step s s'
| step_subscribe reg s : pipeline_step s (MkPipeline reg (pl_queued s) (pl_events s) (pl_taken s) (pl_current s) (pl_out s)
    (pl_handled s) (pl_cancelled s) (pl_translating s) (pl_handling s))
| step_cancel s : pipeline_step s (MkPipeline (pl_reg s) (pl_queued s) (pl_events s) (pl_taken s) (pl_current s) (pl_out s)
    (pl_handled s) true (pl_translating s) (pl_handling s)).

Definition new_pipeline (reg : Registry) : pipeline := MkPipeline reg [] [] [] [] [] [] false true true.

Inductive pipeline_reachable : pipeline -> Prop :=
| pipeline_init reg : pipeline_reachable (new_pipeline reg)
| pipeline_next s s' : pipeline_reachable s -> pipeline_step s s' -> pipeline_reachable s'.

(** What the events translated so far amount to. *)
Definition matches_of (l : list (Event * Registry)) : list FileChangedEvent := flat_map (fun er => translate er.1 er.2) l.
Arguments matches_of : simpl never.

Record pipeline_ok (s : pipeline) : Prop := {
  po_events : map fst (pl_taken s) ++ pl_events s = pl_queued s;
  po_matches : pl_handled s ++ pl_out s ++ pl_current s = matches_of (pl_taken s);
  po_caps : length (pl_events s) <= events_cap /\ length (pl_out s) <= out_cap;
  po_running : pl_cancelled s = false -> pl_translating s = true /\ pl_handling s = true
}.

Lemma matches_of_snoc l e reg : matches_of (l ++ [(e, reg)]) = matches_of l ++ translate e reg.
Proof. unfold matches_of. rewrite flat_map_app. cbn. by rewrite app_nil_r. Qed.

Lemma loop_steps_ok s s' : Some s' ∈ loop_steps s -> pipeline_ok s -> pipeline_ok s'.
Proof.
  destruct s as [reg q es tk cur out hd ca tr hl]. intros Hs [He Hm [Hc1 Hc2] Hr]. unfold loop_steps in Hs. cbn in *.
  rewrite !elem_of_cons in Hs. destruct Hs as [Hs|[Hs|[Hs|[Hs|[Hs|Hs]]]]]; [..|by inversion Hs].
  - unfold translate_receive in Hs. cbn in Hs. destruct tr; [|done]. destruct cur; [|done]. destruct es as [|e es]; [done|].
    injection Hs as ->. split; cbn in *; [by rewrite map_app -app_assoc|by rewrite matches_of_snoc -Hm app_nil_r -app_assoc|lia|done].
  - unfold translate_send in Hs. cbn in Hs. destruct tr; [|done]. destruct cur as [|m ms]; [done|].
    case_bool_decide as Hl; [|done]. injection Hs as ->. split; cbn in *; [done|by rewrite -Hm -!app_assoc| |done].
    rewrite length_app /=. lia.
  - unfold event_receive in Hs. cbn in Hs. destruct hl; [|done]. destruct out as [|m ms]; [done|].
    injection Hs as ->. split; cbn in *; [done|by rewrite -Hm -!app_assoc|lia|done].
  - unfold translate_done in Hs. cbn in Hs. destruct ca, tr; try done. injection Hs as ->. by split.
  - unfold event_done in Hs. cbn in Hs. destruct ca, hl; try done. injection Hs as ->. by split.
Qed.

Lemma pipeline_step_ok s s' : pipeline_step s s' -> pipeline_ok s -> pipeline_ok s'.
Proof.
  intros [e s0|s0 s1 Hs|reg s0|s0] Hok; [|exact (loop_steps_ok s0 s1 Hs Hok)|by destruct Hok; split|].
  - unfold queue_event. case_bool_decide as Hl; [|done]. destruct Hok as [He Hm [Hc1 Hc2] Hr].
    split; cbn; [by rewrite app_assoc He|done| |done]. rewrite length_app /=. lia.
  - destruct Hok as [He Hm Hc Hr]. by split.
Qed.

Lemma pipeline_reachable_ok s : pipeline_reachable s -> pipeline_ok s.
Proof.
  induction 1 as [reg|s s' _ IH Hs]; [|exact (pipeline_step_ok s s' Hs IH)].
  split; cbn; [done|done|unfold events_cap, out_cap; lia|done].
Qed.

(** Until the context is cancelled some loop can go on, or everything has been handled. *)
Lemma loops_go_on s :
  pipeline_ok s -> pl_cancelled s = false ->
  (pl_handled s = matches_of (pl_taken s) /\ map fst (pl_taken s) = pl_queued s) \/
  exists s', Some s' ∈ loop_steps s.
Proof.
  intros [He Hm _ Hr] Hn. destruct (Hr Hn) as [Ht Hh].
  unfold loop_steps, translate_receive, translate_send, event_receive. rewrite Ht Hh.
  destruct (pl_out s) as [|m ms] eqn:Eo; [|right; eexists; rewrite !elem_of_cons; by do 2 right; left].
  destruct (pl_current s) as [|m ms] eqn:Ec.
  - destruct (pl_events s) as [|e es] eqn:Ee; [left; by rewrite -Hm -He !app_nil_r|].
    right. eexists. rewrite !elem_of_cons. by left.
  - right. eexists. rewrite !elem_of_cons. by right; left.
Qed.

(** C21. What the watcher has queued is handled once, in order, and the goroutines do not get
    stuck: in every interleaving of events, messages that change the subscriptions and the
    steps of the loops, the changes handled are a prefix of the matches of the events
    taken from the watcher's channel, which are a prefix of the events put into it; the
    channels keep within their capacities; and until the context is cancelled, as long as
    an event or a match is under way some loop can go on. *)
Theorem changes_are_handled_in_order s :
  pipeline_reachable s ->
  pl_handled s `prefix_of` matches_of (pl_taken s) /\ map fst (pl_taken s) `prefix_of` pl_queued s /\
  length (pl_events s) <= events_cap /\ length (pl_out s) <= out_cap /\
  (pl_cancelled s = false ->
     (pl_handled s = matches_of (pl_taken s) /\ map fst (pl_taken s) = pl_queued s) \/
     exists s', Some s' ∈ loop_steps s).
Proof.
  intros Hs%pipeline_reachable_ok. pose proof Hs as [He Hm Hc Hr].
  split; [by rewrite -Hm; eexists|]. split; [by rewrite -He; eexists|]. split; [apply Hc|]. split; [apply Hc|].
  by apply loops_go_on.
Qed.

(** Without new events the loops come to an end: each of their steps makes this smaller. *)
Definition pipeline_work (s : pipeline) : nat :=
  (2 * size (pl_reg s) + 1) * length (pl_events s) + 2 * length (pl_current s) + length (pl_out s) +
  (if pl_translating s then 1 else 0) + (if pl_handling s then 1 else 0).

Lemma length_omap_le {A B} (f : A -> option B) (l : list A) : length (omap f l) <= length l.
Proof. induction l as [|a l IH]; [done|]. cbn. destruct (f a); cbn; lia. Qed.

Lemma translate_length e reg : length (translate e reg) <= size reg.
Proof.
  rewrite /translate length_map /Resolve. etransitivity; [apply length_omap_le|]. by rewrite length_fmap length_map_to_list.
Qed.

Lemma loop_step_works s s' : Some s' ∈ loop_steps s -> pl_reg s' = pl_reg s /\ pipeline_work s' < pipeline_work s.
Proof.
  destruct s as [reg q es tk cur out hd ca tr hl]. intros Hs. unfold loop_steps in Hs. unfold pipeline_work. cbn in *.
  rewrite !elem_of_cons in Hs. destruct Hs as [Hs|[Hs|[Hs|[Hs|[Hs|Hs]]]]]; [..|by inversion Hs].
  - unfold translate_receive in Hs. cbn in Hs. destruct tr; [|done]. destruct cur; [|done]. destruct es as [|e es]; [done|].
    injection Hs as ->. split; [done|]. cbn. pose proof (translate_length e reg). lia.
  - unfold translate_send in Hs. cbn in Hs. destruct tr; [|done]. destruct cur as [|m ms]; [done|].
    case_bool_decide; [|done]. injection Hs as ->. split; [done|]. cbn. rewrite length_app /=. lia.
  - unfold event_receive in Hs. cbn in Hs. destruct hl; [|done]. destruct out as [|m ms]; [done|].
    injection Hs as ->. split; [done|]. cbn. lia.
  - unfold translate_done in Hs. cbn in Hs. destruct ca, tr; try done. injection Hs as ->. split; [done|]. cbn. lia.
  - unfold event_done in Hs. cbn in Hs. destruct ca, hl; try done. injection Hs as ->. split; [done|]. cbn. lia.
Qed.

(** C22. Left to themselves the loops take a bounded number of steps, whatever they choose, and
    once none can go on everything queued has been handled or, after a cancellation, both
    have returned. *)
Theorem pipeline_drains s n s' :
  pipeline_reachable s -> nsteps (fun x y => Some y ∈ loop_steps x) n s s' ->
  n <= pipeline_work s /\
  ((forall x, Some x ∉ loop_steps s') ->
     if pl_cancelled s' then pl_translating s' = false /\ pl_handling s' = false
     else pl_handled s' = matches_of (pl_taken s') /\ map fst (pl_taken s') = pl_queued s').
Proof.
  intros Hr Hn. assert (pipeline_reachable s' /\ n + pipeline_work s' <= pipeline_work s) as [Hr' Hw].
  { induction Hn as [|n x y z Hs _ IH]; [done|]. destruct (loop_step_works x y Hs) as [_ Hlt].
    destruct IH as [H1 H2]; [eapply pipeline_next; [exact Hr|by apply step_loop]|]. split; [done|]. lia. }
  split; [lia|]. intros Hno. destruct (pl_cancelled s') eqn:Ec.
  - split; apply not_true_is_false; intros Hrun.
    + eapply Hno. unfold loop_steps, translate_done. rewrite Ec Hrun /= !elem_of_cons. by do 3 right; left.
    + eapply Hno. unfold loop_steps, event_done. rewrite Ec Hrun /= !elem_of_cons. by do 4 right; left.
  - destruct (loops_go_on s' (pipeline_reachable_ok s' Hr') Ec) as [Hd|[x Hx]]; [exact Hd|by destruct (Hno x)].
Qed.

(** ** One change on its way *)
Definition go_loop (n : nat) (s : pipeline) : pipeline := default s (mjoin (loop_steps s !! n)).

Lemma go_loop_reachable n s : pipeline_reachable s -> pipeline_reachable (go_loop n s).
Proof.
  intros H. rewrite /go_loop. destruct (loop_steps s !! n) as [[s'|]|] eqn:E; cbn; try done.
  eapply pipeline_next; [exact H|]. apply step_loop. apply list_elem_of_lookup. by exists n.
Qed.

Definition one_subscription : Registry := Registry.Apply (MkSubscribePair "p1" "a" "docs" "a_to_b") NewRegistry.
Definition one_change : Event := MkEvent "docs/n" OpWrite "abc" 3 (Some 7%Z).
Definition change_handled : pipeline := go_loop 2 (go_loop 1 (go_loop 0 (queue_event one_change (new_pipeline one_subscription)))).

Lemma change_handled_reachable : pipeline_reachable change_handled.
Proof.
  do 3 apply go_loop_reachable. eapply pipeline_next; [apply pipeline_init|apply step_queue].
Qed.

Lemma changes_are_handled_in_order_witness :
  pl_handled change_handled = translate one_change one_subscription /\ pl_handled change_handled <> [] /\
  pl_handled change_handled `prefix_of` matches_of (pl_taken change_handled).
Proof.
  split; [by vm_compute|]. split; [by vm_compute|]. exact (proj1 (changes_are_handled_in_order _ change_handled_reachable)).
Defined.

Lemma pipeline_drains_witness : 3 <= pipeline_work (queue_event one_change (new_pipeline one_subscription)).
Proof.
  refine (proj1 (pipeline_drains _ 3 change_handled _ _)).
  - eapply pipeline_next; [apply pipeline_init|apply step_queue].
  - apply (nsteps_l _ 2 _ (go_loop 0 (queue_event one_change (new_pipeline one_subscription)))); [by left|].
    apply (nsteps_l _ 1 _ (go_loop 1 (go_loop 0 (queue_event one_change (new_pipeline one_subscription))))); [by right; left|].
    apply (nsteps_l _ 0 _ change_handled); [by right; right; left|apply nsteps_O].
Defined.
