(* ===== verification/Lifecycle.v ===== *)
(** The goroutines of a client's runner: which calls start them, what ends each of them, and
    what is left when the runner is stopped (internal/client/runner/app.go, watcher.go,
    suppress.go; internal/watcher/watcher.go).

    The state is a heap: the watchers that have been made, by identity, and the goroutines
    that run, by identity too, so that a second start would be seen.  The goroutine of
    [Suppressor.StartGC] is in Suppress.v's [s_loops] and the callbacks of the debouncing
    timers are in Watcher.v's [db_fired], which are part of this state.  [Start] and [Stop]
    are called by one goroutine, as internal/client/app does, always with the same context.
    fsnotify's own goroutine is not the program's. *)
From S2P Require Import Prelude GoStrings Proto Suppress Watcher.
Local Open Scope go_scope.

(** ** The heap *)
Inductive goroutine : Type :=
| WatchLoop (w : nat)            (* [Watcher.watchLoop] *)
| TranslateLoop (w : nat)        (* [WatcherRunner.translateLoop] *)
| WatchPump (w : nat)            (* [WatcherRunner.errorPump] *)
| EventLoop                      (* [Runner.eventLoop] *)
| RunnerPump                     (* [Runner.errorPump] *)
| CommandRun (cmd : FileSyncCommand).   (* [Runner.handleSyncCommand] *)

(** A watcher: whether fsnotify is open, its own context ([None] before [Start], then whether
    it is cancelled), and its loop's debouncer. *)
Record watch_life : Type := MkWatchLife {
  wl_open : bool; wl_cancel : option bool; wl_debouncer : debouncer
}.

(** [startOnce], [r.wr] and the suppressor. *)
Record runner_life : Type := MkRunnerLife {
  rl_once : bool; rl_wr : option nat; rl_supp : Suppressor
}.

Record lives : Type := MkLives {
  lf_runner : runner_life;
  lf_watchers : gmap nat watch_life;
  lf_procs : gmap nat goroutine;
  lf_done : bool                 (* the context [Start] is given is cancelled *)
}.

Definition set_runner f s := MkLives (f (lf_runner s)) (lf_watchers s) (lf_procs s) (lf_done s).
Definition set_watchers f s := MkLives (lf_runner s) (f (lf_watchers s)) (lf_procs s) (lf_done s).
Definition set_procs f s := MkLives (lf_runner s) (lf_watchers s) (f (lf_procs s)) (lf_done s).
Definition set_supp f (r : runner_life) := MkRunnerLife (rl_once r) (rl_wr r) (f (rl_supp r)).

(** [go x] *)
Definition go (x : goroutine) : M lives unit :=
  modify (fun s => set_procs <[fresh (dom (lf_procs s)) := x]> s).

(** ** Starting *)

(** [runner.New], whose three dependencies must be there. *)
Definition New_runner (jail transfer sender : bool) : result runner_life :=
  if negb jail then Err (Sentinel "runner: Jail is required")
  else if negb transfer then Err (Sentinel "runner: Transfer is required")
  else if negb sender then Err (Sentinel "runner: Sender is required")
  else Ok (MkRunnerLife false None NewSuppressor).

(** [watcher.New] and [NewWatcherRunner]; the error is fsnotify's. *)
Definition NewWatcherRunner (err : option error) : M lives nat :=
  match err with
  | Some e => throw e
  | None => fun s =>
      let w := fresh (dom (lf_watchers s)) in
      (Ok w, set_watchers <[w := MkWatchLife true None no_pending]> s)
  end.

(** [Watcher.Start]; the error is that of [addDirRecursive]. *)
Definition Watcher_Start (err : option error) (w : nat) : M lives unit :=
  match err with
  | Some e => throw e
  | None =>
      modify (set_watchers (alter (fun x => MkWatchLife (wl_open x) (Some false) (wl_debouncer x)) w));;
      go (WatchLoop w)
  end.

Definition WatcherRunner_Start (err : option error) (w : nat) : M lives unit :=
  Watcher_Start err w;;
  go (TranslateLoop w);;
  go (WatchPump w).

Definition Runner_Start (newErr startErr : option error) : M lives unit :=
  s <- get;;
  if rl_once (lf_runner s) then ret tt
  else
    modify (set_runner (fun r => MkRunnerLife true (rl_wr r) (rl_supp r)));;
    wr <- NewWatcherRunner newErr;;
    modify (set_runner (fun r => MkRunnerLife (rl_once r) (Some wr) (rl_supp r)));;
    WatcherRunner_Start startErr wr;;
    modify (set_runner (set_supp StartGC));;
    go EventLoop;;
    go RunnerPump.

(** ** Stopping *)
Definition Watcher_Stop (closeErr : option error) (w : nat) : M lives unit :=
  modify (set_watchers (alter (fun x => MkWatchLife false (option_map (fun _ => true) (wl_cancel x)) (wl_debouncer x)) w));;
  match closeErr with Some e => throw e | None => ret tt end.

Definition Runner_Stop (closeErr : option error) : M lives unit :=
  modify (set_runner (set_supp StopGC));;
  s <- get;;
  match rl_wr (lf_runner s) with
  | Some w => Watcher_Stop closeErr w
  | None => ret tt
  end.

(** ** What the goroutines do *)

(** What [HandleEnvelope] does with a command. *)
Definition start_command (cmd : FileSyncCommand) : M lives unit := go (CommandRun cmd).

(** Whether the goroutine is at a point where it can return: the loops at their selects, the
    run of a command at its end. *)
Definition may_return (s : lives) (x : goroutine) : bool :=
  match x with
  | WatchLoop w =>
      lf_done s || match lf_watchers s !! w with
                   | Some l => negb (wl_open l) || bool_decide (wl_cancel l = Some true)
                   | None => false
                   end
  | TranslateLoop _ | WatchPump _ | EventLoop | RunnerPump => lf_done s
  | CommandRun _ => true
  end.

Definition set_wl_debouncer f (l : watch_life) := MkWatchLife (wl_open l) (wl_cancel l) (f (wl_debouncer l)).

(** The goroutines alone: one of them returns, a timer fires. *)
Inductive ending_step : lives -> lives -> Prop :=
| step_return g x s : lf_procs s !! g = Some x -> may_return s x = true -> ending_step s (set_procs (delete g) s)
| step_sweeper ch s :
    ch ∈ s_loops (rl_supp (lf_runner s)) -> ch ∈ s_closed (rl_supp (lf_runner s)) ->
    ending_step s (set_runner (set_supp (loop_exit ch)) s)
| step_timer w l t d s :
    lf_watchers s !! w = Some l -> timer_fires t (wl_debouncer l) = Some d ->
    ending_step s (set_watchers <[w := set_wl_debouncer (fun _ => d) l]> s)
| step_timer_callback w l t work d s :
    lf_watchers s !! w = Some l -> callback t (wl_debouncer l) = Some (work, d) ->
    ending_step s (set_watchers <[w := set_wl_debouncer (fun _ => d) l]> s).

(** Everything but a start. *)
Inductive running_step : lives -> lives -> Prop :=
| step_ending s s' : ending_step s s' -> running_step s s'
| step_stop closeErr s : running_step s (snd (Runner_Stop closeErr s))
| step_cancel s : running_step s (MkLives (lf_runner s) (lf_watchers s) (lf_procs s) true)
| step_command cmd s : running_step s (snd (start_command cmd s))
| step_notified g w l name op s :      (* the watch loop takes a notification *)
    lf_procs s !! g = Some (WatchLoop w) -> lf_watchers s !! w = Some l ->
    running_step s (set_watchers <[w := set_wl_debouncer (debounce name op) l]> s).

Inductive lives_reachable : lives -> Prop :=
| lives_init : lives_reachable (MkLives (MkRunnerLife false None NewSuppressor) ∅ ∅ false)
| lives_start newErr startErr s : lives_reachable s -> lives_reachable (snd (Runner_Start newErr startErr s))
| lives_run s s' : lives_reachable s -> running_step s s' -> lives_reachable s'.

(** ** Each loop runs once *)
Inductive loop : Type := LWatch | LTranslate | LWatchPump | LEvents | LPump | LSweep.
#[export] Instance loop_eq_dec : EqDecision loop. Proof. solve_decision. Defined.

Definition loop_of (x : goroutine) : option loop :=
  match x with
  | WatchLoop _ => Some LWatch | TranslateLoop _ => Some LTranslate | WatchPump _ => Some LWatchPump
  | EventLoop => Some LEvents | RunnerPump => Some LPump | CommandRun _ => None
  end.

(** The loops of the runner, its watcher and its suppressor that run, with multiplicity. *)
Definition loops_running (s : lives) : list loop :=
  omap loop_of (map_to_list (lf_procs s)).*2 ++
  map (fun _ => LSweep) (elements (s_loops (rl_supp (lf_runner s)))).

(** The callbacks that run, and the timers that will start one. *)
Definition callbacks (s : lives) : nat := sum_list_with (fun l => size (db_fired (wl_debouncer l))) (map_to_list (lf_watchers s)).*2.
Definition timers (s : lives) : nat := sum_list_with (fun l => size (db_armed (wl_debouncer l))) (map_to_list (lf_watchers s)).*2.

(** All the goroutines of the program that run for the runner. *)
Definition goroutines (s : lives) : nat :=
  size (lf_procs s) + size (s_loops (rl_supp (lf_runner s))) + callbacks s.

(** *** Counting *)
Definition ploops (m : gmap nat goroutine) : list loop := omap loop_of (map_to_list m).*2.

Lemma ploops_insert g x m : m !! g = None -> ploops (<[g := x]> m) ≡ₚ option_list (loop_of x) ++ ploops m.
Proof.
  intros Hg. unfold ploops. rewrite (map_to_list_insert m g x Hg). cbn. by destruct (loop_of x).
Qed.

Lemma ploops_delete g x m : m !! g = Some x -> ploops m ≡ₚ option_list (loop_of x) ++ ploops (delete g m).
Proof. intros Hg. rewrite <- (insert_delete_id m g x Hg) at 1. apply ploops_insert, lookup_delete_eq. Qed.

Lemma ploops_go x s : ploops (lf_procs (snd (go x s))) ≡ₚ option_list (loop_of x) ++ ploops (lf_procs s).
Proof. apply ploops_insert, not_elem_of_dom, is_fresh. Qed.

Section HeapSum.
Context {A : Type} (f : A -> nat).
Notation heap_sum m := (sum_list_with f (map_to_list m).*2).

Lemma heap_sum_insert (m : gmap nat A) w x : m !! w = None -> heap_sum (<[w := x]> m) = f x + heap_sum m.
Proof.
  intros Hw. assert (forall l l' : list A, l ≡ₚ l' -> sum_list_with f l = sum_list_with f l') as Hp.
  { induction 1; cbn; lia. }
  apply (Hp _ (x :: (map_to_list m).*2)). by rewrite (map_to_list_insert m w x Hw).
Qed.

Lemma heap_sum_update (m : gmap nat A) w x y :
  m !! w = Some x -> heap_sum (<[w := y]> m) + f x = heap_sum m + f y.
Proof.
  intros Hw. rewrite <- (insert_delete_id m w x Hw) at 2. rewrite <- (insert_delete_eq m w y).
  rewrite !heap_sum_insert by apply lookup_delete_eq. lia.
Qed.

Lemma heap_sum_ge (m : gmap nat A) w x : m !! w = Some x -> f x <= heap_sum m.
Proof. intros Hw. pose proof (heap_sum_update m w x x Hw). rewrite <- (insert_delete_id m w x Hw), heap_sum_insert by apply lookup_delete_eq. lia. Qed.
End HeapSum.

(** *** The invariant *)
Notation supp s := (rl_supp (lf_runner s)).

Record life_ok (s : lives) : Prop := {
  life_once : NoDup (loops_running s);
  life_idle : rl_once (lf_runner s) = false -> loops_running s = [] /\ s_stopGC (supp s) = None;
  life_sweep : forall ch, ch ∈ s_loops (supp s) -> ch ∈ s_closed (supp s) \/ s_stopGC (supp s) = Some ch
}.

Lemma loops_running_perm s s' :
  ploops (lf_procs s') ≡ₚ ploops (lf_procs s) -> s_loops (supp s') = s_loops (supp s) ->
  loops_running s' ≡ₚ loops_running s.
Proof. intros Hp Hl. unfold loops_running. rewrite Hl. by apply Permutation_app_tail. Qed.

(** A state with no more loops, whose runner is the same. *)
Lemma life_ok_sub s s' l :
  life_ok s -> loops_running s ≡ₚ l ++ loops_running s' -> rl_once (lf_runner s') = rl_once (lf_runner s) ->
  (s_stopGC (supp s') = s_stopGC (supp s) \/ s_stopGC (supp s') = None) ->
  (forall ch, ch ∈ s_loops (supp s') -> ch ∈ s_closed (supp s') \/ s_stopGC (supp s') = Some ch) -> life_ok s'.
Proof.
  intros [H1 H2 H3] Hp Ho Hs Hc. constructor; [| |exact Hc].
  - rewrite Hp in H1. by apply NoDup_app in H1 as (_ & _ & ?).
  - rewrite Ho. intros H. destruct (H2 H) as [E1 E2]. rewrite E1 in Hp. symmetry in Hp. apply Permutation_nil_r in Hp.
    apply app_nil in Hp as [_ ->]. split; [done|]. destruct Hs; congruence.
Qed.

Lemma life_ok_init : life_ok (MkLives (MkRunnerLife false None NewSuppressor) ∅ ∅ false).
Proof.
  constructor; cbn; [|intros _; split; [|done]|set_solver]; unfold loops_running; cbn; rewrite map_to_list_empty, elements_empty;
    [constructor|done].
Qed.

(** What a start adds. *)
Lemma StartGC_idle sp : s_stopGC sp = None -> s_loops sp = ∅ ->
  elements (s_loops (StartGC sp)) = [s_fresh sp] /\ s_stopGC (StartGC sp) = Some (s_fresh sp).
Proof. intros Hs Hl. unfold StartGC. rewrite Hs, Hl. cbn. by rewrite union_empty_r_L, elements_singleton. Qed.

Lemma Runner_Start_ok newErr startErr s : life_ok s -> life_ok (snd (Runner_Start newErr startErr s)).
Proof.
  intros Hok. pose proof Hok as [_ H2 _]. unfold Runner_Start, bind at 1, get. destruct (rl_once (lf_runner s)) eqn:Eo; [exact Hok|].
  destruct (H2 eq_refl) as [El Es]. unfold loops_running in El. apply app_nil in El as [Ep El].
  apply map_eq_nil, elements_empty_inv in El. apply leibniz_equiv in El.
  assert (forall s', ploops (lf_procs s') = [] -> supp s' = supp s -> rl_once (lf_runner s') = true -> life_ok s') as Hfail.
  { intros s' Hp Hsup Ho. constructor; [| |].
    - unfold loops_running. fold (ploops (lf_procs s')). rewrite Hp, Hsup, El, elements_empty. constructor.
    - rewrite Ho. done.
    - rewrite Hsup, El. set_solver. }
  destruct newErr as [e|]; [by apply Hfail|]. destruct startErr as [e|]; [by apply Hfail|].
  destruct (StartGC_idle (supp s) Es El) as [Hg Hst].
  match goal with |- life_ok (snd ?x) => assert (exists s', x = (Ok tt, s')
    /\ ploops (lf_procs s') ≡ₚ [LPump; LEvents; LWatchPump; LTranslate; LWatch]
    /\ supp s' = StartGC (supp s) /\ rl_once (lf_runner s') = true) as (s' & -> & Hp & Hsup & Ho) end.
  { eexists. split; [reflexivity|]. split; [|done].
    do 5 (etransitivity; [apply ploops_go|apply Permutation_skip]). cbn [lf_procs set_runner set_watchers]. unfold ploops. by rewrite Ep. }
  cbn [snd]. constructor.
  - unfold loops_running. fold (ploops (lf_procs s')). rewrite Hp, Hsup, Hg. cbn.
    apply (bool_decide_unpack (NoDup [LPump; LEvents; LWatchPump; LTranslate; LWatch; LSweep])). by vm_compute.
  - by rewrite Ho.
  - rewrite Hsup. intros ch Hch%elem_of_elements. rewrite Hg in Hch. apply list_elem_of_singleton in Hch as ->. by right.
Qed.

Lemma life_ok_same s s' :
  life_ok s -> lf_procs s' = lf_procs s -> lf_runner s' = lf_runner s -> life_ok s'.
Proof. intros [H1 H2 H3] Hp Hr. unfold loops_running in *. constructor; unfold loops_running; rewrite ?Hp, ?Hr; done. Qed.

Lemma loops_running_return g x s :
  lf_procs s !! g = Some x -> loops_running s ≡ₚ option_list (loop_of x) ++ loops_running (set_procs (delete g) s).
Proof.
  intros Hg. unfold loops_running. rewrite (app_assoc (option_list _)). apply Permutation_app_tail, (ploops_delete g x _ Hg).
Qed.

Lemma loops_running_sweeper ch s :
  ch ∈ s_loops (supp s) -> loops_running s ≡ₚ [LSweep] ++ loops_running (set_runner (set_supp (loop_exit ch)) s).
Proof.
  intros Hch. unfold loops_running. cbn. rewrite (union_difference_singleton_L ch (s_loops (supp s)) Hch) at 1.
  rewrite elements_union_singleton by set_solver. cbn. by rewrite <- Permutation_middle.
Qed.

Lemma ending_step_ok s s' : life_ok s -> ending_step s s' -> life_ok s'.
Proof.
  intros Hok Hs. revert Hok. destruct Hs as [g x s0 Hg Hr|ch s0 Hl Hc|w l t d s0 Hw Ht|w l t work d s0 Hw Hc]; intros Hok.
  - eapply life_ok_sub; [exact Hok|by apply loops_running_return|done|by left|apply Hok].
  - eapply life_ok_sub; [exact Hok|by apply loops_running_sweeper|done|by left|].
    cbn. intros ch' Hch'. destruct (life_sweep _ Hok ch' ltac:(set_solver)); auto.
  - by eapply life_ok_same.
  - by eapply life_ok_same.
Qed.

Lemma Runner_Stop_eq closeErr s :
  lf_procs (snd (Runner_Stop closeErr s)) = lf_procs s /\
  lf_runner (snd (Runner_Stop closeErr s)) = set_supp StopGC (lf_runner s).
Proof.
  unfold Runner_Stop, bind, modify, get. cbn. destruct (rl_wr (lf_runner s)) as [w|]; [|done].
  unfold Watcher_Stop, bind, modify. by destruct closeErr.
Qed.

Lemma Runner_Stop_ok closeErr s :
  life_ok s -> life_ok (snd (Runner_Stop closeErr s)) /\ s_stopGC (supp (snd (Runner_Stop closeErr s))) = None.
Proof.
  intros Hok. destruct (Runner_Stop_eq closeErr s) as [Hp Hr].
  assert (forall sp, s_loops (StopGC sp) = s_loops sp /\ s_stopGC (StopGC sp) = None /\
    (forall ch, ch ∈ s_closed sp \/ s_stopGC sp = Some ch -> ch ∈ s_closed (StopGC sp))) as H.
  { intros sp. unfold StopGC. destruct (s_stopGC sp) as [ch|] eqn:E; cbn; (split; [done|]); (split; [done|]); [set_solver|].
    intros ch [?|?]; [done|congruence]. }
  destruct (H (supp s)) as (H1 & H2 & H3). split; [|by rewrite Hr]. eapply (life_ok_sub s _ []); [exact Hok|..].
  - cbn [app]. symmetry. apply loops_running_perm; [by rewrite Hp|by rewrite Hr].
  - by rewrite Hr.
  - right. by rewrite Hr.
  - rewrite Hr. cbn. rewrite H1. intros ch Hch. left. by apply H3, (life_sweep _ Hok).
Qed.

Lemma running_step_ok s s' :
  life_ok s -> running_step s s' -> life_ok s' /\ (s_stopGC (supp s) = None -> s_stopGC (supp s') = None).
Proof.
  intros Hok Hs. revert Hok. destruct Hs as [s0 s1 Hs|e s0|s0|cmd s0|g w l name op s0 Hg Hw]; intros Hok.
  - split; [by eapply ending_step_ok|]. by destruct Hs.
  - destruct (Runner_Stop_ok e s0 Hok). by split.
  - split; [|done]. by eapply life_ok_same.
  - split; [|done]. eapply (life_ok_sub s0 _ []); [exact Hok| |done|by left|apply Hok].
    cbn [app]. symmetry. apply loops_running_perm; [|done]. apply (ploops_go (CommandRun cmd)).
  - split; [|done]. by eapply life_ok_same.
Qed.

Lemma lives_reachable_ok s : lives_reachable s -> life_ok s.
Proof.
  induction 1 as [|newErr startErr s _ IH|s s' _ IH Hs]; [apply life_ok_init|by apply Runner_Start_ok|by eapply running_step_ok].
Qed.

Lemma stopped_stays s s' :
  life_ok s -> s_stopGC (supp s) = None -> rtc running_step s s' -> life_ok s' /\ s_stopGC (supp s') = None.
Proof.
  intros Hok Hs Hr. induction Hr as [s|s s1 s' Hst _ IH]; [done|].
  destruct (running_step_ok _ _ Hok Hst) as [H1 H2]. apply IH; auto.
Qed.

(** ** The goroutines end *)

(** An ending step takes one away: a firing timer counts twice until its callback has run. *)
Definition lives_work (s : lives) : nat := goroutines s + 2 * timers s.

Lemma size_delete_lt {A} (m : gmap nat A) k x : m !! k = Some x -> size (delete k m) + 1 = size m.
Proof. intros H. rewrite map_size_delete, H. cbn. assert (size m <> 0) by (intros E%map_size_empty_iff; subst; done). lia. Qed.

Lemma timer_fires_sizes t d d' : timer_fires t d = Some d' ->
  size (db_armed d') + 1 = size (db_armed d) /\ size (db_fired d') <= size (db_fired d) + 1.
Proof.
  unfold timer_fires. destruct (db_armed d !! t) as [name|] eqn:E; [|done]. intros [= <-]. cbn.
  split; [by eapply size_delete_lt|]. rewrite map_size_insert. destruct (db_fired d !! t); cbn; lia.
Qed.

Lemma callback_sizes t d work d' : callback t d = Some (work, d') ->
  db_armed d' = db_armed d /\ size (db_fired d') + 1 = size (db_fired d).
Proof.
  unfold callback. destruct (db_fired d !! t) as [name|] eqn:E; [|done]. cbn [db_pending].
  destruct (db_pending d !! name) as [[op u]|]; intros [= <- <-]; (split; [done|by eapply size_delete_lt]).
Qed.

Lemma ending_step_works s s' : ending_step s s' -> lives_work s' < lives_work s.
Proof.
  unfold lives_work, goroutines, callbacks, timers.
  intros [g x s0 Hg _|ch s0 Hl _|w l t d s0 Hw Ht|w l t work d s0 Hw Hc]; cbn.
  - pose proof (size_delete_lt _ _ _ Hg). lia.
  - assert (size (s_loops (supp s0) ∖ {[ch]}) < size (s_loops (supp s0))); [apply subset_size; set_solver|lia].
  - apply timer_fires_sizes in Ht as [H1 H2].
    pose proof (heap_sum_update (fun l => size (db_fired (wl_debouncer l))) _ w l (set_wl_debouncer (fun _ => d) l) Hw) as E1.
    pose proof (heap_sum_update (fun l => size (db_armed (wl_debouncer l))) _ w l (set_wl_debouncer (fun _ => d) l) Hw) as E2.
    cbn in *. lia.
  - apply callback_sizes in Hc as [H1 H2].
    pose proof (heap_sum_update (fun l => size (db_fired (wl_debouncer l))) _ w l (set_wl_debouncer (fun _ => d) l) Hw) as E1.
    pose proof (heap_sum_update (fun l => size (db_armed (wl_debouncer l))) _ w l (set_wl_debouncer (fun _ => d) l) Hw) as E2.
    cbn in *. rewrite H1 in E2. lia.
Qed.

Lemma heap_sum_zero (f : watch_life -> nat) (m : gmap nat watch_life) :
  (forall w l, m !! w = Some l -> f l = 0) -> sum_list_with f (map_to_list m).*2 = 0.
Proof.
  intros H. assert (Forall (fun l => f l = 0) (map_to_list m).*2) as Hl.
  { apply Forall_forall. intros l ([w l'] & -> & Hw%elem_of_map_to_list)%list_elem_of_fmap. by eapply H. }
  induction Hl; cbn; lia.
Qed.

(** Nothing is left when nothing can end. *)
Lemma nothing_ends s :
  (forall g x, lf_procs s !! g = Some x -> may_return s x = true) -> s_loops (supp s) ⊆ s_closed (supp s) ->
  (forall s', ~ ending_step s s') -> goroutines s = 0 /\ timers s = 0.
Proof.
  intros Hr Hc Hno. assert (lf_procs s = ∅) as Hp.
  { apply map_empty. intros g. destruct (lf_procs s !! g) as [x|] eqn:E; [|done]. destruct (Hno _ (step_return g x s E (Hr g x E))). }
  assert (s_loops (supp s) = ∅) as Hl.
  { apply leibniz_equiv, elem_of_equiv_empty. intros ch Hch. exact (Hno _ (step_sweeper ch s Hch (Hc ch Hch))). }
  unfold goroutines, callbacks, timers. rewrite Hp, Hl, map_size_empty, size_empty. split; apply heap_sum_zero; intros w l Hw; apply map_size_empty_iff, map_empty; intros t.
  - destruct (db_fired (wl_debouncer l) !! t) as [name|] eqn:E; [|done]. exfalso.
    destruct (callback t (wl_debouncer l)) as [[work d]|] eqn:Ec; [by eapply Hno, step_timer_callback|].
    unfold callback in Ec. rewrite E in Ec. cbn [db_pending] in Ec. by destruct (db_pending _ !! name) as [[]|].
  - destruct (db_armed (wl_debouncer l) !! t) as [name|] eqn:E; [|done]. exfalso.
    eapply Hno, (step_timer w l t); [exact Hw|]. unfold timer_fires. by rewrite E.
Qed.

(** C23. A runner starts its goroutines once and leaves none behind.  In every state that
    any calls of Start, Stop and HandleEnvelope, any failures, notifications and timers lead
    to, each of its six loops (the watcher's, its translation, the two error pumps, the event
    loop, the suppressor's sweep) runs at most once; every other goroutine is the run of a
    command or the callback of a timer.  And once the runner has been stopped and the context
    is cancelled, in either order, then in every later state without another Start every
    goroutine can return, and however they do and timers still fire, this ends, with no
    goroutine and no timer left. *)
Theorem runner_leaves_no_goroutine s :
  lives_reachable s ->
  NoDup (loops_running s) /\ length (loops_running s) <= 6 /\
  forall closeErr s1, rtc running_step (snd (Runner_Stop closeErr s)) s1 -> lf_done s1 = true ->
    (forall g x, lf_procs s1 !! g = Some x -> may_return s1 x = true) /\
    s_loops (supp s1) ⊆ s_closed (supp s1) /\
    forall n s2, nsteps ending_step n s1 s2 ->
      n <= lives_work s1 /\ ((forall s3, ~ ending_step s2 s3) -> goroutines s2 = 0 /\ timers s2 = 0).
Proof.
  intros Hr. pose proof (lives_reachable_ok s Hr) as Hok. pose proof (life_once s Hok) as Hd. split; [exact Hd|].
  split; [apply (NoDup_incl_length (l' := [LWatch; LTranslate; LWatchPump; LEvents; LPump; LSweep]));
    [by apply NoDup_ListNoDup|intros [] _; cbn; tauto]|].
  intros e s1 H1 Hdone. destruct (Runner_Stop_ok e s Hok) as [Hok' Hs'].
  assert (forall s', rtc running_step (snd (Runner_Stop e s)) s' -> lf_done s' = true ->
    (forall g x, lf_procs s' !! g = Some x -> may_return s' x = true) /\ s_loops (supp s') ⊆ s_closed (supp s')) as Hend.
  { intros s' Hs Hdn. destruct (stopped_stays _ s' Hok' Hs' Hs) as [Ho Hn]. split.
    - intros g x _. unfold may_return. rewrite Hdn. by destruct x.
    - intros ch Hch. destruct (life_sweep _ Ho ch Hch) as [?|?]; [done|congruence]. }
  destruct (Hend s1 H1 Hdone) as [Ha Hb]. split; [exact Ha|]. split; [exact Hb|].
  intros n s2 Hn. assert (rtc running_step s1 s2 /\ lf_done s2 = lf_done s1 /\ n + lives_work s2 <= lives_work s1) as (H2 & Hd2 & Hw).
  { clear -Hn. induction Hn as [s|n x y z Hs _ (IH1 & IH2 & IH3)]; [done|].
    pose proof (ending_step_works _ _ Hs). split; [by eapply rtc_l; [apply step_ending|]|].
    split; [rewrite IH2; by destruct Hs|lia]. }
  split; [lia|]. rewrite Hdone in Hd2. destruct (Hend s2 ltac:(by etransitivity) Hd2) as [Hc Hl]. by apply nothing_ends.
Qed.

(** A runner whose first start failed says that it has started when asked again, and
    nothing runs. *)
Lemma failed_start_is_not_retried e :
  let s := snd (Runner_Start None (Some e) (MkLives (MkRunnerLife false None NewSuppressor) ∅ ∅ false)) in
  fst (Runner_Start None (Some e) (MkLives (MkRunnerLife false None NewSuppressor) ∅ ∅ false)) = Err e /\
  Runner_Start None None s = (Ok tt, s) /\ goroutines s = 0.
Proof. done. Qed.

(** ** A runner that is stopped *)
Module Life.
Definition new : lives := MkLives (MkRunnerLife false None NewSuppressor) ∅ ∅ false.
Definition run : lives := snd (Runner_Start None None new).
(** With a command running and a notification waiting for its timer. *)
Definition fetching : lives := snd (start_command (MkFileSyncCommand "p1" "a" "f" "" "delete" "" "") run).
Definition watching : watch_life := MkWatchLife true (Some false) no_pending.
Definition busy : lives := set_watchers <[0 := set_wl_debouncer (debounce "/r/f" 1) watching]> fetching.
Definition stopped : lives := snd (Runner_Stop None busy).
End Life.

(** Stopping alone ends the watcher's loop and the sweep: the translating, handling and
    pumping goroutines wait for the context. *)
Lemma stop_leaves_goroutines :
  length (loops_running Life.run) = 6 /\
  omap (fun x => if may_return (snd (Runner_Stop None Life.run)) x then loop_of x else None)
    (map_to_list (lf_procs (snd (Runner_Stop None Life.run)))).*2 = [LWatch].
Proof. by vm_compute. Qed.

Lemma runner_leaves_no_goroutine_witness :
  goroutines Life.busy = 7 /\ timers Life.busy = 1 /\
  forall s1, rtc running_step Life.stopped s1 -> lf_done s1 = true -> forall g x, lf_procs s1 !! g = Some x -> may_return s1 x = true.
Proof.
  split; [by vm_compute|]. split; [by vm_compute|].
  assert (lives_reachable Life.busy) as Hr.
  { apply (lives_run Life.fetching); [apply (lives_run Life.run); [apply (lives_start None None), lives_init|apply step_command]|].
    apply (step_notified 0 0 Life.watching "/r/f" 1 Life.fetching); by vm_compute. }
  intros s1 H1 Hd. destruct (runner_leaves_no_goroutine Life.busy Hr) as (_ & _ & H).
  by destruct (H None s1 H1 Hd) as [Hm _].
Defined.
