(* ===== verification/RunnerSpec.v ===== *)
(** What the client of Runner.v guarantees: it reports and uploads the very file the watcher
    saw, acknowledges every command with what became of it, suppresses the echo of a
    command when the pair's root is the jail's, and describes its files truthfully in a
    snapshot; and where it falls short. *)
From S2P Require Import Prelude GoStrings Json Proto Paths Store Sha256 BlobStore Http HttpBlobs Ignore Registry Suppress Disk Jail JailSpec JailCalm Transfer TransferSpec Watcher Runner.
Local Open Scope Z_scope.
Local Open Scope go_scope.

(** ** Joining a pair's root and a path under it *)
Lemma split_two s t : split_slash (s +:+ String slash t) = split_slash s ++ split_slash t.
Proof.
  rewrite <- (join_split s), <- (join_split t) at 1. rewrite <- join_app.
  - apply split_join; [by destruct (split_slash_cons s) as (x & l & ->)|].
    apply Forall_app. split; apply split_no_slash.
  - by destruct (split_slash_cons s) as (x & l & ->).
  - by destruct (split_slash_cons t) as (x & l & ->).
Qed.

(** Cleaning goes on from a clean front. *)
Lemma clean_elements_app l1 l2 :
  clean_form false (clean_elements false l1 ++ l2) -> clean_elements false (l1 ++ l2) = clean_elements false l1 ++ l2.
Proof.
  intros Hf.
  assert (clean_form false (clean_elements false l1)) as H1.
  { destruct Hf as (n & names & E & _ & Hn). destruct (decide (length (clean_elements false l1) <= n)%nat).
    - exists (length (clean_elements false l1)), []. split; [|split; [done|constructor]].
      apply (f_equal (take (length (clean_elements false l1)))) in E. rewrite take_app_length in E.
      rewrite E at 1. rewrite take_app_le, take_replicate, Nat.min_l by (rewrite ?length_replicate; lia). by rewrite app_nil_r.
    - exists n, (take (length (clean_elements false l1) - n) names). split; [|split; [done|by apply Forall_take]].
      apply (f_equal (take (length (clean_elements false l1)))) in E. rewrite take_app_length in E.
      rewrite E at 1. rewrite take_app_ge by (rewrite length_replicate; lia). by rewrite length_replicate. }
  apply clean_form_fixed in H1, Hf. set (c := clean_elements false l1) in *.
  assert (foldl (clean_step false) [] l1 = reverse c) as E1 by (unfold c, clean_elements; by rewrite reverse_involutive).
  assert (foldl (clean_step false) [] c = reverse c) as E2 by (rewrite <- H1 at 2; unfold clean_elements; by rewrite reverse_involutive).
  rewrite <- Hf. unfold clean_elements. by rewrite !foldl_app, E1, E2.
Qed.

(** A path under a root, joined with it again. *)
Lemma Join_below root rel sub :
  relative rel = true -> relative root = true -> relative sub = true -> below root rel sub -> Join [root; sub] = Clean rel.
Proof.
  intros Hrel Hroot Hsub [He Hc].
  assert (sub <> "") as Hne by (rewrite <- Hc; by apply Clean_ne_empty).
  rewrite (Clean_of_elements rel), He by done. unfold Join.
  destruct (decide (root = "")) as [->|Hr].
  - rewrite filter_cons_False, filter_cons_True, filter_nil by (try done; intros H; by apply H). cbn [join_slash].
    change (elements (Clean "")) with (@nil string). cbn [app]. rewrite Hc. by rewrite of_elements_clean.
  - rewrite !filter_cons_True, filter_nil by done. change (join_slash [root; sub]) with (root +:+ String slash sub).
    assert (relative (root +:+ String slash sub) = true) as Hrs.
    { unfold relative in *. destruct root as [|c root]; [done|]. exact Hroot. }
    rewrite Clean_of_elements by done. f_equal. rewrite elements_Clean, split_two by done.
    rewrite elements_Clean in He by done. rewrite elements_Clean by done.
    assert (clean_form false (clean_elements false (split_slash root) ++ elements sub)) as Hf.
    { rewrite <- elements_Clean, <- He by done. apply clean_elements_form, split_no_slash. }
    unfold elements in Hf |- *. case_bool_decide as Hd.
    + subst sub. rewrite app_nil_r. unfold clean_elements. rewrite foldl_app. cbn. done.
    + by apply clean_elements_app.
Qed.

(** The client uploads the file it saw change: for every message it makes of a watcher
    event there is a subscription of that pair, and joining the subscription's root with
    the path in the message gives the path of the event, cleaned. *)
Theorem reported_path_is_the_changed_path subs wev ev :
  let reg := foldl (fun m s => Registry.Apply s m) NewRegistry subs in
  relative (wev_RelPath wev) = true -> (forall id s, reg !! id = Some s -> relative (sb_RootSubpath s) = true) ->
  ev ∈ translate wev reg ->
  exists s, reg !! ev_PairID ev = Some s /\ sb_PairID s = ev_PairID ev /\ ev_Side ev = sb_Side s /\
    Join [sb_RootSubpath s; ev_RelPath ev] = Clean (wev_RelPath wev) /\
    ev_SHA256 ev = wev_SHA256 wev /\ ev_Op ev = (match wev_Op wev with OpWrite => "write" | OpRemove => "delete" end).
Proof.
  intros reg Hrel Hroots Hev. unfold translate in Hev. apply list_elem_of_fmap in Hev as (v & -> & Hv).
  assert (registry_ok reg) as Hok. { apply registry_ok_foldl. intros id s. unfold NewRegistry. by rewrite lookup_empty. }
  clearbody reg. unfold Registry.Resolve in Hv. apply list_elem_of_omap in Hv as (s & Hs & Hv).
  apply list_elem_of_fmap in Hs as ([id s'] & -> & Hs). cbn in Hv. apply elem_of_map_to_list in Hs.
  apply resolve_one_spec in Hv as (E1 & E2 & Hsub & Hb); [|done|by eapply Hroots].
  exists s'. cbn. rewrite E1, (Hok _ _ Hs). repeat split; try done; try by destruct (wev_Op wev).
  apply Join_below; try done. by eapply Hroots.
Qed.

(** ** Commands *)
Section Commands.
Context {W S : Type} `{!Network W} `{!Sender S} {clk : Clock} {li : LstatInfo}.
Context (cfg : Config) (ignoreList : list string).
Implicit Types c : client W S.

(** The same client with another peer, or another suppressor a tick later. *)
Definition set_peer (p : peer W) c : client W S :=
  MkClientState p (c_reg c) (c_supp c) (c_conn c) (c_commands c) (c_tick c).
Definition after_Add (rel sha : string) c : client W S :=
  MkClientState (c_peer c) (c_reg c) (Suppress.Add rel sha suppressTTL (clock (c_tick c)) (c_supp c)) (c_conn c)
    (c_commands c) (Datatypes.S (c_tick c)).

Lemma supp_Add_eq rel sha c : supp_Add rel sha suppressTTL c = (Ok tt, after_Add rel sha c).
Proof. done. Qed.

Lemma on_peer_eq {A} (m : M (peer W) A) c : on_peer m c = ((m (c_peer c)).1, set_peer (m (c_peer c)).2 c).
Proof. unfold on_peer, set_peer. by destruct (m (c_peer c)). Qed.

Lemma lookup_in_registry subs id c s :
  c_reg c = foldl (fun m s => Registry.Apply s m) NewRegistry subs ->
  c_reg c !! id = Some s -> lookupSubscription id c = (Ok (Some s), c).
Proof.
  intros Hreg Hs. assert (registry_ok (c_reg c)) as Hok.
  { rewrite Hreg. apply registry_ok_foldl. intros i x. unfold NewRegistry. by rewrite lookup_empty. }
  unfold lookupSubscription. destruct (list_find _ _) as [[i x]|] eqn:E; cbn.
  - apply list_find_Some in E as (Hx & Hp & _). apply list_elem_of_lookup_2 in Hx. unfold All in Hx.
    apply list_elem_of_fmap in Hx as ([id' x'] & -> & Hx). cbn in Hp |- *. apply elem_of_map_to_list in Hx.
    rewrite (Hok _ _ Hx) in Hp. subst id'. by simplify_eq.
  - apply list_find_None in E. rewrite Forall_forall in E. exfalso. apply (E s); [|by apply Hok].
    unfold All. apply list_elem_of_fmap. exists (id, s). split; [done|]. by apply elem_of_map_to_list.
Qed.

(** What [fetch] does: the path is suppressed, the download runs, the outcome is sent. *)
Lemma handle_fetch_eq cmd s c :
  lookupSubscription (cmd_PairID cmd) c = (Ok (Some s), c) -> cmd_Op cmd = "fetch" ->
  let rel := Join [sb_RootSubpath s; cmd_RelPath cmd] in
  let '(r, p) := Download cfg rel (cmd_SHA256 cmd) (c_peer c) in
  handleSyncCommand cfg cmd c =
  sendAck cmd (if is_ok r then "ok" else "failed") (match r with Ok _ => "" | Err e => error_text e end)
    (set_peer p (after_Add rel (cmd_SHA256 cmd) c)).
Proof.
  intros Hs Hop rel. destruct (Download cfg rel (cmd_SHA256 cmd) (c_peer c)) as [r p] eqn:E.
  unfold handleSyncCommand. unfold bind at 1. rewrite Hs. rewrite bool_decide_true by done.
  unfold bind. fold rel. rewrite supp_Add_eq. unfold try. rewrite on_peer_eq.
  change (c_peer (after_Add rel (cmd_SHA256 cmd) c)) with (c_peer c). rewrite E. cbn [fst snd]. by destruct r.
Qed.

(** C24. The client tells the truth about a fetch: it answers the command with "ok" only when
    the file named by the pair's root and the command's path, a path without symbolic
    links, now has content with the command's SHA-256, and with "failed" only when that
    file is as it was, whatever the server answers and whichever calls fail. *)
Theorem fetch_is_acknowledged_truthfully subs cmd s (l : list string) (b : string) c :
  c_reg c = foldl (fun m s => Registry.Apply s m) NewRegistry subs -> c_reg c !! cmd_PairID cmd = Some s ->
  cmd_Op cmd = "fetch" -> Join [sb_RootSubpath s; cmd_RelPath cmd] = rel_path l b ->
  let target := cf_Jail cfg ++ l ++ [b] in
  let old := d_nodes (pe_disk (c_peer c)) in
  Forall (fun x => is_name x = true) target ->
  link_free old target -> link_free old (cf_Jail cfg ++ l ++ [b +:+ ".partial"]) ->
  exists status err c1, handleSyncCommand cfg cmd c = sendAck cmd status err c1 /\
    ((status = "ok" /\ exists data t, d_nodes (pe_disk (c_peer c1)) !! target = Some (NFile data t) /\ sha_hex data = cmd_SHA256 cmd) \/
     (status = "failed" /\ d_nodes (pe_disk (c_peer c1)) !! target = old !! target)).
Proof.
  intros Hreg Hs Hop Hj target old Hn Hl Hl'.
  pose proof (handle_fetch_eq cmd s c (lookup_in_registry subs _ c s Hreg Hs) Hop) as H. cbv zeta in H. rewrite Hj in H.
  pose proof (Download_safe cfg l b (cmd_SHA256 cmd) (c_peer c) Hn Hl Hl') as Hd. fold (rel_path l b) in Hd.
  destruct (Download cfg (rel_path l b) (cmd_SHA256 cmd) (c_peer c)) as [[u|e] p]; cbn [is_ok] in H;
    (eexists _, _, _; split; [exact H|]); [left|right]; (split; [done|]); apply Hd.
Qed.

(** *** The echo of a fetch *)
Lemma HitWithSHA_after_Add rel sha ttl t now (x : Suppressor) :
  sha <> "" -> now <= t + ttl -> fst (HitWithSHA rel sha now (Suppress.Add rel sha ttl t x)) = true.
Proof.
  intros Hsha Hn. unfold HitWithSHA, live_entry, Suppress.Add, add_entry, sha_set, set_entries. cbn.
  rewrite !bool_decide_false by done.
  destruct (s_m x !! rel) as [e|]; rewrite lookup_insert_eq; cbn.
  - destruct (Z.ltb_spec (expiresAt e) (t + ttl)).
    + destruct (Z.ltb_spec (t + ttl) now); [lia|]. cbn. rewrite bool_decide_false by set_solver.
      apply bool_decide_eq_true. set_solver.
    + destruct (Z.ltb_spec (expiresAt e) now); [lia|]. cbn. rewrite bool_decide_false by set_solver.
      apply bool_decide_eq_true. set_solver.
  - destruct (Z.ltb_spec (t + ttl) now); [lia|]. cbn. rewrite bool_decide_false by set_solver.
    apply bool_decide_eq_true. set_solver.
Qed.

Lemma sendAck_eq cmd status err c :
  exists x, sendAck cmd status err c =
    (Ok tt, MkClientState (c_peer c) (c_reg c) (c_supp c) x (c_commands c) (c_tick c)).
Proof. unfold sendAck, try, Send. cbn. destruct (send_env _ (c_conn c)) as [r x]. by exists x. Qed.

(** A fetched file is not reported back, for a pair rooted at the jail's root: within
    two seconds of executing the fetch, the watcher's event for the path with the fetched
    content makes the client send nothing and upload nothing. *)
Theorem fetched_file_is_not_echoed subs cmd s c ev :
  c_reg c = foldl (fun m s => Registry.Apply s m) NewRegistry subs -> c_reg c !! cmd_PairID cmd = Some s ->
  cmd_Op cmd = "fetch" -> cmd_SHA256 cmd <> "" ->
  sb_RootSubpath s = "" \/ sb_RootSubpath s = "." -> relative (cmd_RelPath cmd) = true -> cmd_RelPath cmd <> "" ->
  ev_Op ev = "write" -> ev_SHA256 ev = cmd_SHA256 cmd -> ev_RelPath ev = Clean (cmd_RelPath cmd) ->
  clock (Datatypes.S (c_tick c)) <= clock (c_tick c) + suppressTTL ->
  let c1 := snd (handleSyncCommand cfg cmd c) in
  let '(r, c2) := handleLocalChange cfg ev c1 in
  r = Ok tt /\ c_conn c2 = c_conn c1 /\ c_peer c2 = c_peer c1.
Proof.
  intros Hreg Hs Hop Hsha Hroot Hrel Hne Hev Hes Hep Hclk c1.
  pose proof (handle_fetch_eq cmd s c (lookup_in_registry subs _ c s Hreg Hs) Hop) as H. cbv zeta in H.
  assert (Join [sb_RootSubpath s; cmd_RelPath cmd] = Clean (cmd_RelPath cmd)) as Hj.
  { destruct Hroot as [-> | ->]; unfold Join.
    - by rewrite filter_cons_False, filter_cons_True, filter_nil by (try done; intros H0; by apply H0).
    - rewrite !filter_cons_True, filter_nil by done. change (join_slash ["."; cmd_RelPath cmd]) with ("." +:+ String slash (cmd_RelPath cmd)).
      rewrite (Clean_of_elements (cmd_RelPath cmd)), (Clean_of_elements ("." +:+ _)) by done.
      rewrite !elements_Clean, split_two by done. done. }
  rewrite Hj in H. destruct (Download cfg (Clean (cmd_RelPath cmd)) (cmd_SHA256 cmd) (c_peer c)) as [r p].
  match type of H with _ = sendAck _ ?st ?er ?s0 => destruct (sendAck_eq cmd st er s0) as [x Hx] end.
  rewrite Hx in H. unfold c1. rewrite H. cbn [snd].
  unfold handleLocalChange, suppressed. rewrite Hev. decide_closed. unfold bind, on_supp. rewrite Hep, Hes.
  cbn [c_supp c_tick set_peer after_Add].
  pose proof (HitWithSHA_after_Add (Clean (cmd_RelPath cmd)) (cmd_SHA256 cmd) suppressTTL (clock (c_tick c))
    (clock (Datatypes.S (c_tick c))) (c_supp c) Hsha Hclk) as Hhit.
  destruct (HitWithSHA _ _ _ _) as [h x']. cbn in Hhit. subst h. done.
Qed.

(** For any other root the command is suppressed under the path from the jail's root but
    the event is looked up under the path from the pair's root: the file just fetched is
    reported back as a change. *)
Theorem fetch_under_a_subpath_is_echoed ev c :
  ev_Op ev = "write" -> s_m (c_supp c) !! ev_RelPath ev = None ->
  (forall jailRel sha, jailRel <> ev_RelPath ev ->
    exists c', suppressed ev (after_Add jailRel sha c) = (Ok false, c')).
Proof.
  intros Hev Hno rel sha Hne. unfold suppressed. rewrite Hev. decide_closed. unfold on_supp. cbn [c_supp after_Add].
  unfold HitWithSHA, live_entry, Suppress.Add, add_entry, set_entries. cbn.
  destruct (s_m (c_supp c) !! rel) as [e|]; rewrite lookup_insert_ne by done; rewrite Hno; by eexists.
Qed.
End Commands.

(** ** A concrete client *)
Module Demo_client.
#[export] Instance client_clock : Clock := fun n => Z.of_nat n.
#[export] Instance client_lstat : LstatInfo := fun _ n => match n with NLink t => (Z.of_nat (slen t), 0) | _ => (4096, 0) end.
#[export] Instance log : Sender (list Envelope) := fun e l => (Ok tt, l ++ [e]).
#[export] Instance no_network : Network unit := fun _ => throw (Errorf "connection refused").
Definition client_cfg : Config := MkConfig "" "k" "alice" ["r"].
Definition client_nodes : nodes :=
  list_to_map [(["r"], NDir 0); (["r"; "docs"], NDir 1); (["r"; "docs"; "f"], NFile [97; 98; 99] 7);
               (["r"; "docs"; "x.tmp"], NFile [1] 8); (["r"; "docs"; "sub"], NDir 2); (["r"; "docs"; "l"], NLink "/etc")].
Definition demo_client : client unit (list Envelope) :=
  MkClientState (MkPeer (quiet client_nodes 0) tt) {["p1" := MkSubscription "p1" "a" "docs" "a_to_b"]} NewSuppressor [] [] 0.
(** A server that has one blob. *)
#[export] Instance one_blob : Network nat := fun _ n => (Ok (StatusOK, MkReader [97; 98; 99] None), S n).
Definition demo_sub : SubscribePair := MkSubscribePair "p1" "a" "" "a_to_b".
Definition fetching_client : client nat (list Envelope) :=
  MkClientState (MkPeer (quiet client_nodes 0) O) (foldl (fun m s => Registry.Apply s m) NewRegistry [demo_sub])
    NewSuppressor [] [] 0.
Definition abc_hex : string := "ba7816bf8f01cfea414140de5dae2223b00361a396177a9cb410ff61f20015ad".
Definition demo_fetch : FileSyncCommand := MkFileSyncCommand "p1" "a" "docs/n" abc_hex "fetch" "" "bob".
End Demo_client.
Import Demo_client.


Lemma reported_path_is_the_changed_path_witness : exists ev s,
  translate (MkEvent "docs/x/f" OpWrite "abc" 3 (Some 5))
    (foldl (fun m s => Registry.Apply s m) NewRegistry [MkSubscribePair "p1" "a" "docs/x" "a_to_b"]) = [ev] /\
  sb_PairID s = "p1" /\ Join [sb_RootSubpath s; ev_RelPath ev] = "docs/x/f".
Proof.
  eexists. destruct (reported_path_is_the_changed_path [MkSubscribePair "p1" "a" "docs/x" "a_to_b"]
    (MkEvent "docs/x/f" OpWrite "abc" 3 (Some 5)) (MkFileChangedEvent "p1" "a" "f" "abc" 3 5 "write" false))
    as (s & _ & H1 & _ & H2 & _).
  - done.
  - intros id s Hs.
    change (<["p1" := MkSubscription "p1" "a" "docs/x" "a_to_b"]> (∅ : gmap string Subscription) !! id = Some s) in Hs.
    apply lookup_insert_Some in Hs as [[_ <-]|[_ Hs]]; [done|]. by rewrite lookup_empty in Hs.
  - apply list_elem_of_singleton. by vm_compute.
  - exists s. split; [|split; [exact H1|exact H2]]. by vm_compute.
Defined.

(** The status of the last message, when it is an acknowledgement. *)
Definition last_status (sent : list Envelope) : option string :=
  env ← last sent; match UnmarshalPayload (A:=FileSyncAck) (env_Payload env) with Ok a => Some (ack_Status a) | Err _ => None end.

Lemma sendAck_status (cmd : FileSyncCommand) (status err wanted : string) (c : client nat (list Envelope)) :
  last_status (c_conn (snd (sendAck cmd status err c))) = Some wanted -> status = wanted.
Proof.
  unfold last_status, sendAck, try, Send, send_env, log, ret. cbn [MarshalPayload c_conn snd fst].
  rewrite last_snoc. cbn [mbind option_bind env_Payload]. rewrite UnmarshalPayload_encode by done. cbn. congruence.
Qed.

Lemma acknowledged_ok : last_status (c_conn (snd (handleSyncCommand client_cfg demo_fetch fetching_client))) = Some "ok".
Proof. by vm_compute. Qed.

Lemma fetch_is_acknowledged_truthfully_witness : exists err c1 data t,
  handleSyncCommand client_cfg demo_fetch fetching_client = sendAck demo_fetch "ok" err c1 /\
  d_nodes (pe_disk (c_peer c1)) !! ["r"; "docs"; "n"] = Some (NFile data t) /\ sha_hex data = abc_hex.
Proof.
  destruct (fetch_is_acknowledged_truthfully client_cfg [demo_sub] demo_fetch (MkSubscription "p1" "a" "" "a_to_b")
    ["docs"] "n" fetching_client eq_refl ltac:(by vm_compute) eq_refl ltac:(by vm_compute)
    ltac:(by repeat constructor)) as (status & err & c1 & E & H).
  - apply link_freeb_sound. by vm_compute.
  - apply link_freeb_sound. by vm_compute.
  - pose proof acknowledged_ok as Ea. rewrite E in Ea.
    destruct H as [(-> & data & t & Hd)|[-> _]]; [exists err, c1, data, t; split; [exact E|exact Hd]|].
    by apply sendAck_status in Ea.
Defined.

Lemma fetched_file_is_not_echoed_witness :
  let c1 := snd (handleSyncCommand client_cfg demo_fetch fetching_client) in
  c_conn (snd (handleLocalChange client_cfg (MkFileChangedEvent "p1" "a" "docs/n" abc_hex 3 7 "write" false) c1)) = c_conn c1.
Proof.
  pose proof (fetched_file_is_not_echoed client_cfg [demo_sub] demo_fetch (MkSubscription "p1" "a" "" "a_to_b")
    fetching_client (MkFileChangedEvent "p1" "a" "docs/n" abc_hex 3 7 "write" false) eq_refl ltac:(by vm_compute)
    eq_refl ltac:(done) (or_introl eq_refl) eq_refl ltac:(done) eq_refl eq_refl ltac:(by vm_compute) ltac:(by vm_compute)) as H.
  cbv zeta in H |- *. destruct (handleLocalChange _ _ _) as [r c2]. apply H.
Defined.
