(* ===== verification/SnapshotSpec.v ===== *)
(** The snapshot a client sends for a pair (snapshot.go in Runner.v) lists exactly what is
    under the pair's root: every file and directory that no ignored name hides, down to 33
    levels, each with the hash, size and time it has, and nothing else; and it uploads
    nothing. *)
From S2P Require Import Prelude GoStrings Json Proto Paths Store Sha256 BlobStore Http HttpBlobs Ignore Registry Suppress Disk Jail JailSpec JailCalm Transfer TransferSpec Watcher WatcherSpec Runner RunnerSpec.
Local Open Scope Z_scope.
Local Open Scope go_scope.

Notation names l := (Forall (fun x => is_name x = true) l).

Lemma names_clean l : names l -> clean_form false l.
Proof. intros H. by exists 0%nat, l. Qed.

Lemma relative_elements l : names l -> relative (of_elements l) = true.
Proof. intros H. by apply relative_of_elements, names_clean. Qed.

Lemma Join_elements l1 l2 :
  names l1 -> names l2 -> Join [of_elements l1; of_elements l2] = of_elements (l1 ++ l2).
Proof.
  intros H1 H2. assert (names (l1 ++ l2)) as H by by apply Forall_app.
  rewrite (Join_below (of_elements l1) (of_elements (l1 ++ l2))); try by apply relative_elements.
  - by apply Clean_clean_form, names_clean.
  - split; [|by apply Clean_clean_form, names_clean].
    by rewrite !Clean_clean_form, !elements_of_elements by by apply names_clean.
Qed.

Lemma of_elements_snoc l b : of_elements (l ++ [b]) = rel_path l b.
Proof. unfold of_elements. by rewrite bool_decide_false by by destruct l. Qed.

Lemma of_elements_dot l : names l -> bool_decide (of_elements l = ".") = bool_decide (l = []).
Proof.
  intros H. apply bool_decide_ext. split; [|by intros ->]. intros E.
  rewrite <- (elements_of_elements l) by by apply names_clean. by rewrite E.
Qed.

Lemma join_root_elements (root l : fpath) : names root -> names l -> join_root root (of_elements l) = root ++ l.
Proof.
  intros Hr Hl. unfold of_elements. case_bool_decide as E; [|by apply join_root_plain]. subst l.
  rewrite app_nil_r. unfold join_root. change (split_slash ".") with ["."]. unfold clean_elements.
  rewrite foldl_app. cbn. rewrite <- (clean_form_fixed true root) at 2; [done|]. by exists 0%nat, root.
Qed.

Section Snapshot.
Context {W S : Type} `{!Network W} `{!Sender S} {clk : Clock} {li : LstatInfo}.
Context (cfg : Config) (ignoreList : list string).
Notation C := (client W S).

(** ** Nothing is uploaded *)
Definition net_is (w : W) (c : C) : Prop := pe_net (c_peer c) = w.

Lemma net_on_jail {A} (f : M disk A) w : preserves (net_is w) (on_jail f).
Proof. intros c Hc. unfold on_jail, on_peer, on_disk. by destruct (f (pe_disk (c_peer c))). Qed.

Lemma net_scan_entries visit l found w :
  (forall e f, preserves (net_is w) (visit e f)) -> preserves (net_is w) (scan_entries visit l found).
Proof.
  intros Hv. revert found. induction l as [|e l IH]; intros found; [apply preserves_ret|]. cbn [scan_entries].
  apply preserves_bind; [apply Hv|]. intros [f [x|]]; [apply preserves_ret|apply IH].
Qed.

Lemma net_walkScan fuel root sub found w : preserves (net_is w) (walkScan cfg ignoreList fuel root sub found).
Proof.
  assert (forall walk root sub e f, (forall x y, preserves (net_is w) (walk x y)) ->
    preserves (net_is w) (scan_entry cfg ignoreList walk root sub e f)) as He.
  { intros walk r s [name n] f Hw. unfold scan_entry. destruct (MatchIgnore _ _); [apply preserves_ret|].
    apply preserves_try; [apply net_on_jail|]. intros [i|e]; [|apply preserves_ret].
    destruct (is_dir n); [apply Hw|]. destruct (unsupported i); [apply preserves_ret|].
    apply preserves_try; [|intros [sha|e]; apply preserves_ret].
    unfold snapshot_sha. apply preserves_try; [apply net_on_jail|]. intros [d|e]; [apply preserves_ret|].
    destruct (errors_Is _ _); [apply preserves_ret|apply preserves_throw]. }
  revert sub found. induction fuel as [|fuel IH]; intros sub found; cbn [walkScan];
    (destruct (_ <=? _); [apply preserves_ret|]);
    (apply preserves_try; [apply net_on_jail|]; intros [es|e]; [|apply preserves_ret]);
    apply net_scan_entries; intros e f; apply He; [intros x y; apply preserves_ret|exact IH].
Qed.

(** A snapshot uploads nothing: what was changed while the client was away is announced
    to the server, which sends the others to fetch content it was never given. *)
Theorem snapshot_uploads_nothing req (c : C) :
  pe_net (c_peer (snd (HandleListFiles cfg ignoreList req c))) = pe_net (c_peer c).
Proof.
  assert (preserves (net_is (pe_net (c_peer c))) (HandleListFiles cfg ignoreList req)) as H; [|by apply H].
  unfold HandleListFiles. apply preserves_bind; [by intros c' Hc'|]. intros [s|]; [|apply preserves_ret].
  apply preserves_bind; [apply net_walkScan|]. intros; apply preserves_ret.
Qed.

(** ** What is listed, on a disk no call of which fails *)
Context (m : nodes) (k : nat) (c : C) (rA : list string).
Hypothesis Hdisk : pe_disk (c_peer c) = quiet m k.
Hypothesis Hjail : names (cf_Jail cfg).
Hypothesis HrA : names rA.
(** The disk: the paths are made of plain names. *)
Hypothesis Hnodes : forall q n, m !! q = Some n -> names q.
Notation base := (cf_Jail cfg ++ rA).

Lemma on_jail_quiet {A} (f : M disk A) r : f (quiet m k) = (r, quiet m k) -> on_jail f c = (r, c).
Proof.
  intros E. unfold on_jail, on_peer, on_disk. rewrite Hdisk, E. rewrite <- Hdisk. by destruct c as [[] ? ? ? ? ?].
Qed.

(** What an entry says of a node; links and other nodes are left out. *)
Definition snap (s : list string) (n : node) : option FileSnapshot :=
  match n with
  | NDir t => Some (MkFileSnapshot (of_elements s) "" 0 t true)
  | NFile data t => Some (MkFileSnapshot (of_elements s) (sha_hex data) (Z.of_nat (length data)) t false)
  | _ => None
  end.

Definition ignored (s : list string) : bool := MatchIgnore (of_elements (rA ++ s)) ignoreList.

(** The entries below the directory [s], [fuel] more levels down. *)
Inductive listed : nat -> list string -> FileSnapshot -> Prop :=
| listed_here fuel s name n e :
    m !! (base ++ s ++ [name]) = Some n -> ignored (s ++ [name]) = false -> snap (s ++ [name]) n = Some e ->
    listed fuel s e
| listed_below fuel s name t e :
    m !! (base ++ s ++ [name]) = Some (NDir t) -> ignored (s ++ [name]) = false -> listed fuel (s ++ [name]) e ->
    listed (Datatypes.S fuel) s e.

Lemma ReadDir_quiet s :
  names s -> rdir m (base ++ s) ->
  on_jail (Jail.ReadDir (cf_Jail cfg) (of_elements (rA ++ s))) c = (Ok (children m (base ++ s)), c).
Proof.
  intros Hs Hd. apply on_jail_quiet. assert (names (rA ++ s)) as Hn by by apply Forall_app.
  pose proof (join_root_elements (cf_Jail cfg) (rA ++ s) Hjail Hn) as Hj. rewrite app_assoc in Hj.
  unfold Jail.ReadDir, bind.
  assert (Resolve (cf_Jail cfg) (of_elements (rA ++ s)) (quiet m k) = (Ok (base ++ s), quiet m k)) as ->.
  { rewrite Resolve_eq by done. unfold resolution. pose proof (relative_elements _ Hn) as Hr. unfold relative in Hr.
    apply negb_true_iff in Hr. rewrite Hr. unfold resolved. rewrite Hj. cbn [d_nodes quiet].
    rewrite (walk_rdir false go_links m [] (base ++ s) Hd). cbn [app].
    assert (match Rel (cf_Jail cfg) (base ++ s) with x :: _ => x <> ".." | [] => True end) as H
      by (rewrite <- app_assoc; by apply Rel_under).
    destruct (Rel _ _); [done|]. by rewrite bool_decide_false. }
  unfold d_ReadDir. rewrite d_call_ok by done. cbn [d_nodes quiet]. unfold follow.
  rewrite (walk_rdir false kernel_links m [] (base ++ s) Hd). cbn [app].
  destruct (node_at_rdir _ _ Hd) as [t ->]. done.
Qed.

Lemma Info_quiet n : on_jail (entry_Info n) c = (Ok n, c).
Proof. by apply on_jail_quiet. Qed.

Lemma snapshot_sha_quiet s name data t :
  names s -> is_name name = true -> rdir m (base ++ s) -> m !! (base ++ s ++ [name]) = Some (NFile data t) ->
  snapshot_sha cfg (of_elements (rA ++ s ++ [name])) c = (Ok (sha_hex data), c).
Proof.
  intros Hs Hn Hd Hf. assert (names ((rA ++ s) ++ [name])) as Hns by (apply Forall_app; split; [by apply Forall_app|by constructor]).
  unfold snapshot_sha, try. rewrite (app_assoc rA), of_elements_snoc.
  rewrite (on_jail_quiet _ (Ok data)); [done|].
  rewrite <- app_assoc in Hd.
  apply (Open_quiet (cf_Jail cfg) (rA ++ s) name (rel_path (rA ++ s) name)) with (t := t).
  - apply rel_path_joins. by apply Forall_app.
  - by apply rel_path_relative.
  - split; [done|]. split; [done|]. rewrite <- !app_assoc in *. by rewrite Hf.
  - rewrite <- !app_assoc in *. done.
Qed.

(** The loop over the entries [l] of the directory [s]. *)
Definition entry_listed (fuel : nat) (s : list string) (l : list (string * node)) (e : FileSnapshot) : Prop :=
  exists name n, (name, n) ∈ l /\ ignored (s ++ [name]) = false /\
    (snap (s ++ [name]) n = Some e \/
     exists fuel' t, fuel = Datatypes.S fuel' /\ n = NDir t /\ listed fuel' (s ++ [name]) e).

Lemma listed_children fuel s e : listed fuel s e <-> entry_listed fuel s (children m (base ++ s)) e.
Proof.
  split.
  - intros H. inversion H as [f s' name n e' Hn Hi He|f s' name t e' Hn Hi Hl]; subst.
    + exists name, n. split; [by apply elem_of_children; rewrite <- app_assoc|]. split; [done|by left].
    + exists name, (NDir t). split; [by apply elem_of_children; rewrite <- app_assoc|]. split; [done|].
      right. by exists f, t.
  - intros (name & n & Hin & Hi & H). apply elem_of_children in Hin. rewrite <- app_assoc in Hin.
    destruct H as [He|(f & t & -> & -> & Hl)]; [by eapply listed_here|by eapply listed_below].
Qed.

Lemma entrySubRel_eq s name :
  names s -> is_name name = true ->
  (if bool_decide (of_elements s = ".") then name else Join [of_elements s; name]) = of_elements (s ++ [name]).
Proof.
  intros Hs Hn. rewrite of_elements_dot by done. case_bool_decide as E; [by subst|].
  change name with (of_elements [name]) at 1. apply Join_elements; [done|by constructor].
Qed.

(** One entry: what it adds, and that the state stays. *)
Lemma scan_entry_listed walk fuel s name n found :
  names s -> rdir m (base ++ s) -> m !! (base ++ s ++ [name]) = Some n ->
  (forall found, rdir m (base ++ s ++ [name]) ->
    exists new, walk (of_elements (s ++ [name])) found c = (Ok (found ++ new, None), c) /\
      (Z.of_nat (length (found ++ new)) < maxScanFiles -> forall e, e ∈ new <->
        exists fuel', fuel = Datatypes.S fuel' /\ listed fuel' (s ++ [name]) e)) ->
  exists new, scan_entry cfg ignoreList walk (of_elements rA) (of_elements s) (name, n) found c =
      (Ok (found ++ new, None), c) /\
    (Z.of_nat (length (found ++ new)) < maxScanFiles -> forall e, e ∈ new <-> entry_listed fuel s [(name, n)] e).
Proof.
  intros Hs Hd Hn Hwalk. pose proof (Hnodes _ _ Hn) as [_ [_ Hname]%Forall_app]%Forall_app.
  apply Forall_inv in Hname. unfold scan_entry. rewrite entrySubRel_eq by done.
  assert (names (s ++ [name])) as Hsn by (apply Forall_app; split; [done|by constructor]).
  rewrite (Join_elements rA (s ++ [name])) by done. fold (ignored (s ++ [name])).
  assert (forall e, entry_listed fuel s [(name, n)] e <-> ignored (s ++ [name]) = false /\
    (snap (s ++ [name]) n = Some e \/ exists fuel' t, fuel = Datatypes.S fuel' /\ n = NDir t /\ listed fuel' (s ++ [name]) e)) as Hel.
  { intros e. split.
    - intros (name' & n' & Hin & H). apply list_elem_of_singleton in Hin as [= -> ->]. exact H.
    - intros H. exists name, n. split; [by left|exact H]. }
  destruct (ignored (s ++ [name])) eqn:Ei.
  { exists []. rewrite app_nil_r. split; [done|]. intros _ e. rewrite Hel. split; [by intros ?%not_elem_of_nil|by intros [? _]]. }
  unfold try at 1. rewrite Info_quiet. destruct n as [data t|t|t|]; cbn [is_dir unsupported].
  - unfold try. rewrite (snapshot_sha_quiet s name data t) by done.
    eexists. split; [done|]. intros _ e. rewrite Hel, list_elem_of_singleton. cbn [snap node_size node_mtime]. naive_solver.
  - assert (rdir m (base ++ s ++ [name])) as Hd'.
    { rewrite app_assoc. eapply rdir_snoc; [done|done|]. by rewrite <- app_assoc. }
    destruct (Hwalk (found ++ [MkFileSnapshot (of_elements (s ++ [name])) "" 0 (node_mtime (NDir t)) true]) Hd')
      as (new & E & Hnew). rewrite E. eexists. rewrite <- app_assoc. split; [done|]. rewrite <- app_assoc in Hnew.
    intros Hlen e. rewrite Hel, elem_of_app, (Hnew Hlen e), list_elem_of_singleton. cbn [snap node_mtime]. naive_solver.
  - exists []. rewrite app_nil_r. split; [done|]. intros _ e. rewrite Hel. cbn [snap].
    split; [by intros ?%not_elem_of_nil|naive_solver].
  - exists []. rewrite app_nil_r. split; [done|]. intros _ e. rewrite Hel. cbn [snap].
    split; [by intros ?%not_elem_of_nil|naive_solver].
Qed.

Lemma scan_entries_listed visit fuel s l found :
  (forall name n found, (name, n) ∈ l -> exists new, visit (name, n) found c = (Ok (found ++ new, None), c) /\
    (Z.of_nat (length (found ++ new)) < maxScanFiles -> forall e, e ∈ new <-> entry_listed fuel s [(name, n)] e)) ->
  exists new, scan_entries visit l found c = (Ok (found ++ new, None), c) /\
    (Z.of_nat (length (found ++ new)) < maxScanFiles -> forall e, e ∈ new <-> entry_listed fuel s l e).
Proof.
  revert found. induction l as [|[name n] l IH]; intros found Hv.
  { exists []. rewrite app_nil_r. split; [done|]. intros _ e. split; [by intros ?%not_elem_of_nil|].
    intros (name & n & Hin & _). by apply not_elem_of_nil in Hin. }
  destruct (Hv name n found ltac:(by left)) as (new1 & E1 & H1).
  destruct (IH (found ++ new1)) as (new2 & E2 & H2); [intros *; intros H; apply Hv; by right|].
  exists (new1 ++ new2). cbn [scan_entries]. unfold bind. rewrite E1, E2, <- app_assoc. split; [done|].
  rewrite <- app_assoc in H2. intros Hlen e. rewrite elem_of_app, (H2 Hlen e), H1 by (rewrite !length_app in *; lia).
  split.
  - intros [(x & i & Hin & H)|(x & i & Hin & H)]; exists x, i; (split; [|exact H]); [|by right].
    apply list_elem_of_singleton in Hin as ->. by left.
  - intros (x & i & Hin & H). apply elem_of_cons in Hin as [Hin|Hin]; [left|right]; exists x, i; (split; [|exact H]); [|done].
    rewrite Hin. by left.
Qed.

(** The walk adds what is listed, as long as the limit of entries is not reached. *)
Lemma walkScan_listed fuel s found :
  names s -> rdir m (base ++ s) ->
  exists new, walkScan cfg ignoreList fuel (of_elements rA) (of_elements s) found c = (Ok (found ++ new, None), c) /\
    (Z.of_nat (length (found ++ new)) < maxScanFiles -> forall e, e ∈ new <-> listed fuel s e).
Proof.
  revert s found. induction fuel as [|fuel IH]; intros s found Hs Hd; cbn [walkScan];
    (destruct (Z.leb_spec maxScanFiles (Z.of_nat (length found)));
      [exists []; rewrite app_nil_r; split; [done|lia]|]);
    (assert ((if bool_decide (of_elements s = ".") then of_elements rA else Join [of_elements rA; of_elements s]) =
             of_elements (rA ++ s)) as -> by
      (rewrite of_elements_dot by done; case_bool_decide; [by subst; rewrite app_nil_r|by apply Join_elements]));
    unfold try; rewrite ReadDir_quiet by done; setoid_rewrite listed_children; apply scan_entries_listed;
    intros name n f Hin; apply elem_of_children in Hin; rewrite <- app_assoc in Hin; apply scan_entry_listed; try done.
  - intros f' _. exists []. rewrite app_nil_r. split; [done|]. intros _ e. split; [by intros ?%not_elem_of_nil|naive_solver].
  - intros f' Hd'. destruct (IH (s ++ [name]) f') as (new & E & Hnew); [|done|].
    { apply Hnodes in Hin. apply Forall_app in Hin as [_ Hin]. exact Hin. }
    exists new. split; [exact E|]. intros Hlen e. rewrite (Hnew Hlen e). naive_solver.
Qed.

(** [u] leads from [base]/[s] through directories, and none of its paths is ignored. *)
Definition visible (s u : list string) : Prop :=
  forall u1 u2, u = u1 ++ u2 -> u1 <> [] ->
    ignored (s ++ u1) = false /\ (u2 <> [] -> exists t, m !! (base ++ s ++ u1) = Some (NDir t)).

Lemma listed_visible fuel s e :
  listed fuel s e <-> exists u n, u <> [] /\ (length u <= Datatypes.S fuel)%nat /\ visible s u /\
    m !! (base ++ s ++ u) = Some n /\ snap (s ++ u) n = Some e.
Proof.
  split.
  - induction 1 as [fuel s name n e Hn Hi He|fuel s name t e Hn Hi Hl (u & n & Hu & Hlen & Hv & Hm & He)].
    + exists [name], n. split; [done|]. split; [cbn; lia|]. split; [|done].
      intros u1 u2 E Hu1. destruct u1 as [|x u1]; [done|]. injection E as <- E. symmetry in E. apply app_nil in E as [-> ->].
      done.
    + exists (name :: u), n. rewrite <- !app_assoc in *. cbn [app] in *. split; [done|]. split; [cbn; lia|]. split; [|done].
      intros u1 u2 E Hu1. destruct u1 as [|x u1]; [done|]. cbn [app] in E. injection E as <- E.
      rewrite <- app_assoc. destruct (decide (u1 = [])) as [->|Hne]; [by eauto|].
      destruct (Hv u1 u2 E Hne) as [H1 H2]. rewrite <- !app_assoc in *. done.
  - intros (u & n & Hu & Hlen & Hv & Hm & He). revert s fuel Hu Hlen Hv Hm He. induction u as [|x u IH]; intros s fuel Hu; [done|].
    intros Hlen Hv Hm He. destruct (decide (u = [])) as [->|Hne].
    + eapply listed_here; [exact Hm| |exact He]. by destruct (Hv [x] [] eq_refl ltac:(done)).
    + destruct fuel as [|fuel]; [destruct u; cbn in Hlen; [done|lia]|].
      destruct (Hv [x] u eq_refl ltac:(done)) as [Hi Hd]. destruct (Hd Hne) as [t Ht].
      eapply listed_below; [exact Ht|exact Hi|]. apply IH; [done|cbn in Hlen; lia| |by rewrite <- (app_assoc s)|by rewrite <- (app_assoc s)].
      intros u1 u2 E Hu1. rewrite <- !(app_assoc s). cbn [app]. apply (Hv (x :: u1) u2); [by rewrite E|done].
Qed.

(** C18. A snapshot is the truth and the whole truth: when no call fails and the pair's root
    is a directory of the jail, the entries of the answer to a request, being fewer than
    100000, are exactly those of the files and directories under the root at most 33 levels
    down that are reached through directories, no path to which is ignored, each with its
    path from the root, its modification time and, for a file, the SHA-256 and the size of
    its content; and answering changes nothing on the client. *)
Theorem snapshot_lists_what_is_there req sub :
  lookupSubscription (lfq_PairID req) c = (Ok (Some sub), c) ->
  sb_RootSubpath sub = of_elements rA \/ (sb_RootSubpath sub = "" /\ rA = []) -> rdir m base ->
  exists resp, HandleListFiles cfg ignoreList req c = (Ok resp, c) /\
    (Z.of_nat (length (default [] (lfr_Entries resp))) < maxScanFiles ->
     forall e, e ∈ default [] (lfr_Entries resp) <->
       exists u n, u <> [] /\ (length u <= 33)%nat /\ visible [] u /\ m !! (base ++ u) = Some n /\ snap u n = Some e).
Proof.
  intros Hsub Hroot Hd. unfold HandleListFiles. unfold bind at 1. rewrite Hsub.
  assert ((if bool_decide (sb_RootSubpath sub = "") then "." else sb_RootSubpath sub) = of_elements rA) as ->.
  { destruct Hroot as [->|[-> ->]]; [|done]. rewrite bool_decide_false; [done|]. intros E.
    pose proof (relative_elements rA HrA) as Hr. pose proof (Clean_clean_form rA (names_clean _ HrA)) as Hc.
    eapply Clean_ne_empty; [exact Hr|]. by rewrite Hc. }
  destruct (walkScan_listed maxScanDepth [] []) as (new & E & Hnew); [constructor|by rewrite app_nil_r|].
  change (of_elements []) with "." in E. unfold bind. rewrite E. cbn [app fst] in *. eexists. split; [done|].
  cbn [lfr_Entries]. destruct new as [|e0 new]; cbn [from_option id];
    intros Hlen e; rewrite (Hnew Hlen e); apply (listed_visible maxScanDepth []).
Qed.
End Snapshot.

(** A directory that cannot be read is reported as an empty one: the answer has no entries
    and no error, which the server takes for the deletion of every file of the side. *)
Theorem unreadable_root_is_reported_empty {W S : Type} `{!Network W} `{!Sender S} {clk : Clock}
    (cfg : Config) ignoreList req sub (c : client W S) e (c1 : client W S) :
  lookupSubscription (lfq_PairID req) c = (Ok (Some sub), c) ->
  on_jail (Jail.ReadDir (cf_Jail cfg) (if bool_decide (sb_RootSubpath sub = "") then "." else sb_RootSubpath sub)) c = (Err e, c1) ->
  HandleListFiles cfg ignoreList req c = (Ok (MkListFilesResponse None), c1).
Proof.
  intros Hs He. unfold HandleListFiles. unfold bind at 1. rewrite Hs. unfold bind. unfold maxScanDepth.
  cbn [walkScan]. change (maxScanFiles <=? Z.of_nat (length (@nil FileSnapshot))) with false. cbv iota.
  rewrite bool_decide_true by done. unfold try. by rewrite He.
Qed.

(** ** The concrete client of RunnerSpec.v *)
Import Demo_client.

Lemma client_nodes_names (q : fpath) (n : node) : client_nodes !! q = Some n -> names q.
Proof.
  apply (bool_decide_unpack (map_Forall (fun (q : fpath) (_ : node) => Forall (fun x => is_name x = true) q) client_nodes)).
  by vm_compute.
Qed.

Lemma snapshot_lists_what_is_there_witness : exists resp,
  HandleListFiles client_cfg DefaultIgnoreList (MkListFilesRequest "p1" "a") demo_client = (Ok resp, demo_client) /\
  MkFileSnapshot "f" "ba7816bf8f01cfea414140de5dae2223b00361a396177a9cb410ff61f20015ad" 3 7 false ∈ default [] (lfr_Entries resp).
Proof.
  destruct (snapshot_lists_what_is_there client_cfg DefaultIgnoreList client_nodes 0 demo_client ["docs"] eq_refl
    ltac:(by repeat constructor) ltac:(by repeat constructor)
    client_nodes_names
    (MkListFilesRequest "p1" "a") (MkSubscription "p1" "a" "docs" "a_to_b") ltac:(by vm_compute) (or_introl eq_refl)
    ltac:(apply (rdir_snoc client_nodes ["r"] "docs" 1); [by apply (rdir_single _ _ 0)|done|done])) as (resp & E & H).
  exists resp. split; [exact E|]. assert (resp = match fst (HandleListFiles client_cfg DefaultIgnoreList (MkListFilesRequest "p1" "a") demo_client) with
                 | Ok r => r | Err _ => resp end) as Hr by by rewrite E.
  apply H.
  - rewrite Hr. by vm_compute.
  - clear H Hr E. exists ["f"], (NFile [97; 98; 99] 7). split; [done|]. split; [cbn; lia|]. split; [|split; [done|]].
    + intros u1 u2 Hu Hne. destruct u1 as [|x [|y u1]]; [done| |by injection Hu]. injection Hu as <- <-.
      split; [by vm_compute|done].
    + unfold snap. by rewrite sha256_abc.
Defined.
