(* ===== verification/EndToEnd.v ===== *)
(** The whole path of a change: the file one client's watcher saw is uploaded and reported
    (Runner.v, Transfer.v), the server stores the report and sends the command (Session.v,
    Engine.v, Hub.v), the other client fetches the content (HttpBlobs.v, BlobStore.v) into
    its own directory and acknowledges the command.

    [Session.read_frame] and the HTTP handlers share the server's database; a client's
    connection is the list of the messages it has sent. *)
From S2P Require Import Prelude GoStrings Json Proto Paths Store StoreFacts Lww Engine EngineFacts Hub HubFacts SyncSpec Session SessionFacts Sha256 BlobStore BlobFacts BlobSpec Http HttpBlobs HttpSpec Ignore Registry Suppress Disk Jail JailSpec JailCalm Transfer TransferSpec Exchange Watcher Runner RunnerSpec Demo.
Local Open Scope Z_scope.
Local Open Scope go_scope.

(** A connection that does not fail. *)
Definition wire : Type := list Envelope.
#[export] Instance wire_sender : Runner.Sender wire := fun env sent => (Ok tt, sent ++ [env]).

Section EndToEnd.
Context {clk : Clock} {li : Runner.LstatInfo} (maxSize quota : Z) (psk : string).
#[local] Instance the_server : Network (server fs) := to_server maxSize quota psk.
Notation Client := (client (server fs) wire).

(** A client of this server whose disk holds [m] and does not fail. *)
Definition runner (m : nodes) (j : nat) (w : server fs) (reg : Registry) (supp : Suppressor) (sent : wire)
    (commands : list FileSyncCommand) (tick : nat) : Client :=
  MkClientState (MkPeer (JailCalm.quiet m j) w) reg supp sent commands tick.

(** Not suppressed: no entry for the path. *)
Lemma suppressed_not (ev : FileChangedEvent) (c : Client) :
  ev_Op ev = "write" -> s_m (c_supp c) !! ev_RelPath ev = None ->
  exists supp tick, suppressed ev c =
    (Ok false, MkClientState (c_peer c) (c_reg c) supp (c_conn c) (c_commands c) tick).
Proof.
  intros Hev Hno. unfold suppressed. rewrite Hev. decide_closed. unfold on_supp, HitWithSHA, live_entry.
  rewrite Hno. by eexists _, _.
Qed.

Lemma report_eq (ev : FileChangedEvent) (c : Client) :
  report ev c = (Ok tt, MkClientState (c_peer c) (c_reg c) (c_supp c)
    (c_conn c ++ [MkEnvelope TypeFileChangedEvent "" (Some (encode_json ev))]) (c_commands c) (c_tick c)).
Proof. done. Qed.

(** What the reporting client does: the content is uploaded, then the event is sent. *)
Lemma local_write_eq (id : string) (jail l : fpath) (b : string) (m : nodes) (j : nat) (data : bytes) (tm : Z)
    (subs : list SubscribePair) (reg : Registry) (supp : Suppressor) (sent : wire) (cmds : list FileSyncCommand)
    (tick : nat) (s : Subscription) (ev : FileChangedEvent) (t : tables) (n : nat) (fl : files) (d : gset string) (k : nat) :
  Forall (fun x => is_name x = true) (jail ++ l ++ [b]) -> rdir m (jail ++ l) ->
  m !! ((jail ++ l) ++ [b]) = Some (NFile data tm) ->
  0 < Z.of_nat (length data) <= maxSize -> wrap64 (usage id t + Z.of_nat (length data)) <= quota ->
  reg = foldl (fun m s => Registry.Apply s m) NewRegistry subs -> reg !! ev_PairID ev = Some s ->
  Join [sb_RootSubpath s; ev_RelPath ev] = rel_path l b -> ev_Op ev = "write" ->
  s_m supp !! ev_RelPath ev = None ->
  exists (f : file) (fl' : files) (d' : gset string) (k' : nat) supp' tick',
    handleLocalChange (client_of psk id jail) ev (runner m j (calm_server t n fl d k) reg supp sent cmds tick) =
    (Ok tt, runner m j (calm_server t n fl' d' k') reg supp'
       (sent ++ [MkEnvelope TypeFileChangedEvent "" (Some (encode_json ev))]) cmds tick') /\
    fl' !! path (sha_hex data) = Some f /\ from_option (eq f) (fl_data f = data) (fl !! path (sha_hex data)).
Proof.
  intros Hn Hd Hf Hlen Hq Hreg Hs Hj Hop Hno.
  destruct (Upload_quiet maxSize quota psk id jail l b m j data tm t n fl d k Hn Hd Hf Hlen Hq)
    as (f & fl' & d' & k' & Hu & Hf' & Hf0).
  destruct (suppressed_not ev (runner m j (calm_server t n fl d k) reg supp sent cmds tick) Hop Hno)
    as (supp' & tick' & Hsup).
  exists f, fl', d', k', supp', tick'. split; [|done].
  unfold handleLocalChange. unfold bind at 1. rewrite Hsup, Hop. decide_closed. unfold bind at 1.
  rewrite (lookup_in_registry subs (ev_PairID ev) _ s); [|exact Hreg|exact Hs].
  unfold try at 1. rewrite on_peer_eq, Hj.
  change (c_peer (MkClientState _ _ _ _ _ _)) with (MkPeer (JailCalm.quiet m j) (calm_server t n fl d k)).
  unfold the_server. rewrite Hu. cbn [fst snd]. apply report_eq.
Qed.

Definition ack_envelope (cmd : FileSyncCommand) (status errMsg : string) : Envelope :=
  MkEnvelope TypeFileSyncAck "" (Some (encode_json
    (MkFileSyncAck (cmd_PairID cmd) (cmd_Side cmd) (cmd_RelPath cmd) (cmd_SHA256 cmd) status errMsg))).

(** A command's message puts it at the end of the queue. *)
Lemma queued_eq (cfg : Config) (ignored : list string) (cmd : FileSyncCommand) (m : nodes) (j : nat) (w : server fs)
    (reg : Registry) (supp : Suppressor) (sent : wire) (cmds : list FileSyncCommand) (tick : nat) :
  Runner.HandleEnvelope cfg ignored (command_envelope cmd) (runner m j w reg supp sent cmds tick) =
  (Ok tt, runner m j w reg supp sent (cmds ++ [cmd]) tick).
Proof.
  unfold Runner.HandleEnvelope, command_envelope, with_payload. cbn [env_Type env_Payload]. decide_closed.
  by rewrite (UnmarshalPayload_encode cmd).
Qed.

Lemma run_command_eq (cfg : Config) (i : nat) (cmd : FileSyncCommand) (m : nodes) (j : nat) (w : server fs)
    (reg : Registry) (supp : Suppressor) (sent : wire) (cmds : list FileSyncCommand) (tick : nat) :
  cmds !! i = Some cmd ->
  run_command cfg i (runner m j w reg supp sent cmds tick) =
  handleSyncCommand cfg cmd (runner m j w reg supp sent (delete i cmds) tick).
Proof. intros H. unfold run_command. cbn [runner c_commands]. by rewrite H. Qed.

(** A [fetch] when its goroutine runs: the content is downloaded and the command
    acknowledged. *)
Lemma fetch_eq (id : string) (jail l : fpath) (b : string) (m : nodes) (j : nat) (subs : list SubscribePair)
    (reg : Registry) (supp : Suppressor) (sent : wire) (cmds : list FileSyncCommand)
    (tick : nat) (s : Subscription) (cmd : FileSyncCommand) (f : file)
    (t : tables) (n : nat) (fl : files) (d : gset string) (k : nat) :
  Forall (fun x => is_name x = true) (jail ++ l ++ [b]) -> file_or_free jail l b m ->
  m !! ((jail ++ l) ++ [b +:+ ".partial"]) = None ->
  reg = foldl (fun m s => Registry.Apply s m) NewRegistry subs -> reg !! cmd_PairID cmd = Some s ->
  Join [sb_RootSubpath s; cmd_RelPath cmd] = rel_path l b -> cmd_Op cmd = "fetch" ->
  validateSHA (cmd_SHA256 cmd) = None -> fl !! path (cmd_SHA256 cmd) = Some f -> sha_hex (fl_data f) = cmd_SHA256 cmd ->
  exists tm j' supp' tick',
    handleSyncCommand (client_of psk id jail) cmd (runner m j (calm_server t n fl d k) reg supp sent cmds tick) =
    (Ok tt, runner (<[(jail ++ l) ++ [b] := NFile (fl_data f) tm]> m) j' (calm_server t n fl d k) reg supp'
       (sent ++ [ack_envelope cmd "ok" ""]) cmds tick').
Proof.
  intros Hn Hm Hp Hreg Hs Hj Hop Hv Hf Hsha.
  destruct (Download_quiet (client_of psk id jail) l b Hn m j (cmd_SHA256 cmd) (fl_data f) _ _ Hm (proj1 Hm) Hp
    (Do_get maxSize quota psk id (cmd_SHA256 cmd) jail t n fl d k f Hv Hf) Hsha) as (tm & j' & Hd).
  match goal with |- context [handleSyncCommand _ _ ?c0] => set (c := c0) end.
  pose proof (handle_fetch_eq (client_of psk id jail) cmd s c (lookup_in_registry subs _ c s Hreg Hs) Hop) as H.
  cbv zeta in H. rewrite Hj in H. change (c_peer c) with (MkPeer (JailCalm.quiet m j) (calm_server t n fl d k)) in H.
  unfold the_server in H. rewrite Hd in H. cbn [is_ok] in H. unfold the_server. rewrite H. by eexists _, _, _, _.
Qed.

(** C1. A change reaches the peer's disk.  A client's watcher reports a file of its
    directory, not empty and within the limits, for an enabled one-way pair; the path is
    not suppressed, the other client is connected, and no call fails.  Then the client
    sends exactly one message; the server, reading that message, stores the report and
    sends the other side exactly one; and the other client, reading that one and running
    the command it carries, has the content in its own directory, at the pair's path
    there, and has answered [ok].  The content has the SHA-256 of the changed file, and is
    the file's very bytes when the server did not have them before. *)
Theorem change_is_replicated (conn : nat) (src dst side dpath : string) (p : SyncPair) (ev : FileChangedEvent)
    (jailA lA jailB lB : fpath) (bA bB : string) (mA mB : nodes) (jA jB : nat) (data : bytes) (tm : Z)
    (subsA subsB : list SubscribePair) (suppA suppB : Suppressor) (sentA sentB : wire)
    (cmdsA : list FileSyncCommand) (tickA tickB : nat) (sA sB : Subscription) (ignored : list string)
    (t : tables) (n : nat) (fl : files) (d : gset string) (k : nat) (h : hub) :
  let sha := sha_hex data in
  let regA := foldl (fun m s => Registry.Apply s m) NewRegistry subsA in
  let regB := foldl (fun m s => Registry.Apply s m) NewRegistry subsB in
  (* the source: the changed file and its subscription *)
  Forall (fun x => is_name x = true) (jailA ++ lA ++ [bA]) -> rdir mA (jailA ++ lA) ->
  mA !! ((jailA ++ lA) ++ [bA]) = Some (NFile data tm) ->
  0 < Z.of_nat (length data) <= maxSize -> wrap64 (usage src t + Z.of_nat (length data)) <= quota ->
  regA !! ev_PairID ev = Some sA -> Join [sb_RootSubpath sA; ev_RelPath ev] = rel_path lA bA ->
  s_m suppA !! ev_RelPath ev = None -> ev_Op ev = "write" -> ev_SHA256 ev = sha -> json_wf ev ->
  (* the server: the pair, its database and blobs, the destination's connection *)
  t_pairs t !! ev_PairID ev = Some p -> tables_ok t -> p_Enabled p = true -> mirror_route p ev dst side dpath ->
  hub_up h dst = true -> blob_ok fl ->
  (* the destination: its subscription and a free or existing file name *)
  Forall (fun x => is_name x = true) (jailB ++ lB ++ [bB]) -> file_or_free jailB lB bB mB ->
  mB !! ((jailB ++ lB) ++ [bB +:+ ".partial"]) = None ->
  regB !! ev_PairID ev = Some sB -> Join [sb_RootSubpath sB; ev_RelPath ev] = rel_path lB bB ->
  let a1 := snd (handleLocalChange (client_of psk src jailA) ev
    (runner mA jA (calm_server t n fl d k) regA suppA sentA cmdsA tickA)) in
  exists msg, c_conn a1 = sentA ++ [msg] /\
  let w1 := pe_net (c_peer a1) in
  let w2 := snd (read_frame conn src (ReadMessage true (Some (encode_json msg))) (MkWorld (sv_store w1) h)) in
  exists env, h_sent (w_net w2) = h_sent h ++ [(dst, env)] /\
  t_files (db (w_store w2)) = t_files (store_event ev n t) /\
  let b2 := snd (run_command (client_of psk dst jailB) 0 (snd (Runner.HandleEnvelope (client_of psk dst jailB) ignored env
    (runner mB jB (MkServer (w_store w2) (sv_blobs w1)) regB suppB sentB [] tickB)))) in
  exists data' tm', d_nodes (pe_disk (c_peer b2)) !! ((jailB ++ lB) ++ [bB]) = Some (NFile data' tm') /\
    sha_hex data' = sha /\ (fl !! path sha = None -> data' = data) /\
    c_conn b2 = sentB ++ [ack_envelope (mirror_command src side ev) "ok" ""].
Proof.
  intros sha regA regB HnA HdA HfA Hlen Hq HsA HjA Hno Hop Hsha Hwf Hp Hok He Hr Hup Hbl HnB HfB HpB HsB HjB a1.
  pose proof (sha_hex_valid data) as Hv.
  destruct (local_write_eq src jailA lA bA mA jA data tm subsA regA suppA sentA cmdsA tickA sA ev t n fl d k
    HnA HdA HfA Hlen Hq eq_refl HsA HjA Hop Hno) as (f & fl' & d' & k' & supp' & tick' & Ha & Hf & Hf0).
  unfold a1. rewrite Ha. cbn [snd c_conn runner c_peer pe_net]. eexists. split; [done|].
  cbn [calm_server sv_store sv_blobs].
  destruct (mirror_frame conn src p ev t n h dst side dpath Hp Hok He Hr Hup Hwf)
    as (h' & Hread & Hsent & _).
  unfold message, EngineFacts.quiet in Hread. rewrite Hread. cbn [snd w_net w_store db].
  exists (command_envelope (mirror_command src side ev)). split; [done|]. split; [done|].
  assert (cmd_SHA256 (mirror_command src side ev) = sha) as Hcs by by cbn.
  assert (sha_hex (fl_data f) = sha) as Hfs.
  { fold sha in Hf, Hf0. destruct (fl !! path sha) as [f0|] eqn:E; cbn in Hf0; [subst f0|by subst sha; f_equal].
    destruct (Hbl _ _ _ E Hv) as [_ ->]. apply lower_hex_ToLower, sha_hex_lower. }
  rewrite queued_eq. cbn [snd app]. erewrite run_command_eq by done. cbn [delete list_delete].
  destruct (fetch_eq dst jailB lB bB mB jB subsB regB suppB sentB [] tickB sB
    (mirror_command src side ev) f
    (add_run (ok_run p src dst ev (clock (S n))) (store_event ev n t)) (S (S n)) fl' d' k'
    HnB HfB HpB eq_refl HsB HjB) as (tm' & j' & supp2 & tick2 & Hb); try by rewrite Hcs.
  { cbn. by rewrite Hop. }
  unfold calm_server in Hb at 1. rewrite Hb. cbn [snd c_peer c_conn runner pe_disk d_nodes JailCalm.quiet].
  exists (fl_data f), tm'. split; [apply lookup_insert_eq|]. split; [done|]. split; [|done].
  intros E. fold sha in Hf0. by rewrite E in Hf0.
Qed.
End EndToEnd.

(** ** Alice and Bob *)
Module Journey.
#[export] Instance journey_lstat : Runner.LstatInfo := fun _ n => match n with NLink t => (Z.of_nat (slen t), 0) | _ => (4096, 0) end.
Definition subs_alice : list SubscribePair := [MkSubscribePair "p1" "a" "docs" "a_to_b"].
Definition subs_bob : list SubscribePair := [MkSubscribePair "p1" "b" "mirror/docs" "a_to_b"].
Definition disk_alice : nodes :=
  list_to_map [(["a"], NDir 0); (["a"; "docs"], NDir 1); (["a"; "docs"; "n.txt"], NFile abc 7)].
Definition disk_bob : nodes :=
  list_to_map [(["b"], NDir 0); (["b"; "mirror"], NDir 1); (["b"; "mirror"; "docs"], NDir 2)].
Definition the_change : FileChangedEvent := Demo.event "a" "n.txt" abc_sha "write".
Definition alice_client : client (server fs) wire :=
  runner disk_alice 0 (calm_server (Demo.content "a_to_b" []) 0 ∅ ∅ 0)
    (foldl (fun m s => Registry.Apply s m) NewRegistry subs_alice) NewSuppressor [] [] 0.
(** Bob when the server has [w] as its store and blobs. *)
Definition bob_client (w : server fs) : client (server fs) wire :=
  runner disk_bob 0 w (foldl (fun m s => Registry.Apply s m) NewRegistry subs_bob) NewSuppressor [] [] 0.
End Journey.
Import Journey.

Lemma change_is_replicated_witness : exists msg env w tm,
  c_conn (snd (handleLocalChange (clk:=Demo.demo_clock) (Network0:=to_server (clk:=Demo.demo_clock) 100 100 "k")
    (client_of "k" "alice" ["a"]) the_change alice_client)) = [msg] /\
  h_sent (w_net (snd (read_frame (clk:=Demo.demo_clock) 0 "alice" (ReadMessage true (Some (encode_json msg)))
    (MkWorld (MkStore (Demo.content "a_to_b" []) [] 0) Demo.both_online)))) = [("bob", env)] /\
  d_nodes (pe_disk (c_peer (snd (run_command (clk:=Demo.demo_clock) (Network0:=to_server (clk:=Demo.demo_clock) 100 100 "k")
    (client_of "k" "bob" ["b"]) 0 (snd (Runner.HandleEnvelope (client_of "k" "bob" ["b"]) []
      env (bob_client w))))))) !! ["b"; "mirror"; "docs"; "n.txt"] = Some (NFile abc tm).
Proof.
  destruct (change_is_replicated (clk:=Demo.demo_clock) 100 100 "k" 0 "alice" "bob" "b" "mirror/docs" (Demo.the_pair "a_to_b")
    the_change ["a"] ["docs"] ["b"] ["mirror"; "docs"] "n.txt" "n.txt" disk_alice disk_bob 0 0 abc 7 subs_alice subs_bob
    NewSuppressor NewSuppressor [] [] [] 0 0 (MkSubscription "p1" "a" "docs" "a_to_b") (MkSubscription "p1" "b" "mirror/docs" "a_to_b")
    [] (Demo.content "a_to_b" []) 0 ∅ ∅ 0 Demo.both_online
    ltac:(by repeat constructor)
    ltac:(apply (rdir_snoc disk_alice ["a"] "docs" 1); [by apply (rdir_single _ _ 0)|done|done])
    eq_refl ltac:(by vm_compute) ltac:(by vm_compute) ltac:(by vm_compute) ltac:(by vm_compute) ltac:(by vm_compute)
    eq_refl (eq_sym (sha256_abc : sha_hex abc = abc_sha)) (conj eq_refl eq_refl)
    ltac:(vm_compute; reflexivity) (Demo.content_ok _ _) eq_refl
    (or_introl (conj eq_refl (conj eq_refl (conj eq_refl (conj eq_refl eq_refl)))))
    ltac:(vm_compute; reflexivity) ltac:(intros x y f E; by rewrite lookup_empty in E)
    ltac:(by repeat constructor)
    ltac:(split; [apply (rdir_snoc disk_bob ["b"; "mirror"] "docs" 2); [|done|done];
      apply (rdir_snoc disk_bob ["b"] "mirror" 1); [by apply (rdir_single _ _ 0)|done|done] | split; [done|exact I]])
    eq_refl ltac:(by vm_compute) ltac:(by vm_compute))
    as (msg & Hm & env & He & _ & data & tm & Hd & _ & Hsame & _).
  rewrite (Hsame eq_refl) in Hd. exists msg, env. eexists _, tm. split; [exact Hm|]. split; [|exact Hd].
  exact He.
Defined.
