(* ===== verification/ConflictEnd.v ===== *)
(** A conflict followed to both disks: the server's three commands (SyncSpec.v) carried out
    by the two clients (Runner.v).

    The client starts a goroutine for every command, so the two commands the losing client
    is sent may run in either order.  In the order they were sent in both contents survive
    on its disk; in the other order its own content is lost. *)
From S2P Require Import Prelude GoStrings Json Proto Paths Store StoreFacts Lww Engine EngineFacts Hub HubFacts SyncSpec Session SessionFacts Sha256 BlobStore BlobFacts BlobSpec Http HttpBlobs HttpSpec Ignore Registry Suppress Disk Jail JailSpec JailCalm CaseCheck Transfer TransferSpec Exchange Watcher Runner RunnerSpec SnapshotSpec Demo EndToEnd.
Local Open Scope Z_scope.
Local Open Scope go_scope.

(** ** Names of conflict files *)

(** What [conflictFilename] appends. *)
Definition conflict_suffix (id : string) (ts : Z) : string := ".conflict-" +:+ stake 8 id +:+ "-" +:+ FormatInt ts.

Lemma sall_stake P n x : sall P x = true -> sall P (stake n x) = true.
Proof.
  revert x; induction n as [|n IH]; intros [|c x]; cbn; try done.
  intros [Hc Hx]%andb_true_iff. by rewrite Hc, IH.
Qed.

Lemma is_name_conflict b id ts : is_name b = true -> no_slash id = true -> is_name (b +:+ conflict_suffix id ts) = true.
Proof.
  rewrite !is_name_spec. intros (H1 & _) Hid. split.
  - unfold no_slash, conflict_suffix in *. rewrite !sall_app, H1, (sall_stake _ _ _ Hid).
    by rewrite (no_slash_FormatInt ts : sall _ _ = true).
  - repeat split; intros E; apply (f_equal slen) in E; unfold conflict_suffix in E; rewrite !slen_app in E; cbn in E; lia.
Qed.

Lemma conflictFilename_rel_path l b id ts :
  conflictFilename (rel_path l b) id ts = rel_path l (b +:+ conflict_suffix id ts).
Proof. apply join_slash_suffix. Qed.

Lemma suffix_ne b id ts : b +:+ conflict_suffix id ts <> b.
Proof. intros E. apply (f_equal slen) in E. unfold conflict_suffix in E. rewrite !slen_app in E. cbn in E. lia. Qed.

Lemma suffix_ne_partial b id ts : b +:+ conflict_suffix id ts <> b +:+ ".partial".
Proof.
  intros E. assert (sdrop (slen b) (b +:+ conflict_suffix id ts) = sdrop (slen b) (b +:+ ".partial")) as H by by rewrite E.
  clear E. revert H. induction b as [|c b IH]; [done|exact IH].
Qed.

Section ConflictEnd.
Context {clk : Clock} {li : Runner.LstatInfo} (maxSize quota : Z) (psk : string).
#[local] Hint Extern 0 (Network (server fs)) => exact (the_server maxSize quota psk) : typeclass_instances.

(** A [rename] when its goroutine runs. *)
Lemma rename_eq (id : string) (jail l : fpath) (b b' : string) (m : nodes) (j : nat) (subs : list SubscribePair)
    (reg : Registry) (supp : Suppressor) (sent : wire) (cmds : list FileSyncCommand) (tick : nat) (s : Subscription)
    (cmd : FileSyncCommand) (w : server fs) (data : bytes) (tm : Z) :
  Forall (fun x => is_name x = true) (jail ++ l ++ [b]) -> Forall (fun x => is_name x = true) (jail ++ l ++ [b']) ->
  file_or_free jail l b' m -> m !! ((jail ++ l) ++ [b]) = Some (NFile data tm) ->
  reg = foldl (fun m s => Registry.Apply s m) NewRegistry subs -> reg !! cmd_PairID cmd = Some s ->
  Join [sb_RootSubpath s; cmd_RelPath cmd] = rel_path l b -> Join [sb_RootSubpath s; cmd_NewRelPath cmd] = rel_path l b' ->
  cmd_Op cmd = "rename" ->
  exists supp' tick',
    handleSyncCommand (client_of psk id jail) cmd (runner m j w reg supp sent cmds tick) =
    (Ok tt, runner (<[(jail ++ l) ++ [b'] := NFile data tm]> (delete ((jail ++ l) ++ [b]) m)) j w reg supp'
       (sent ++ [ack_envelope cmd "ok" ""]) cmds tick').
Proof.
  intros Hn Hn' Hm Hf Hreg Hs Hj Hj' Hop.
  pose proof (rel_path_relative _ _ (proj2 (proj1 (Forall_app _ _ _) Hn))) as Hsl.
  pose proof (rel_path_relative _ _ (proj2 (proj1 (Forall_app _ _ _) Hn'))) as Hsl'.
  assert (is_name b = true) as Hb by (rewrite !Forall_app in Hn; destruct Hn as (_ & _ & H); by inversion H).
  pose proof (Rename_quiet jail l b' b (rel_path l b') (rel_path l b) m j data tm (rel_path_joins _ _ _ Hn')
    (rel_path_joins _ _ _ Hn) Hsl' Hsl Hm Hb Hf) as HR.
  unfold handleSyncCommand. unfold bind at 1.
  rewrite (lookup_in_registry subs (cmd_PairID cmd) _ s) by done. rewrite Hop. decide_closed.
  unfold bind at 1. rewrite supp_Add_eq. unfold bind at 1. rewrite supp_Add_eq. unfold try at 1, on_jail.
  rewrite on_peer_eq, Hj, Hj'. cbn [cf_Jail client_of].
  change (c_peer (after_Add _ _ (after_Add _ _ (runner m j w reg supp sent cmds tick)))) with (MkPeer (JailCalm.quiet m j) w).
  rewrite (on_disk_eq _ _ _ _ _ HR). cbn [fst snd]. by eexists _, _.
Qed.

(** ** The two orders *)
Section Loser.
Context (id : string) (jail lr lp : fpath) (b : string) (subs : list SubscribePair) (s : Subscription).
Context (p : SyncPair) (side sha : string) (ts : Z) (m : nodes) (old : bytes) (tm : Z) (f : file).
Context (t : tables) (n : nat) (fl : files) (d : gset string) (k : nat).
Notation l := (lr ++ lp).
Notation dir := (jail ++ lr ++ lp).
Notation reg := (foldl (fun m s => Registry.Apply s m) NewRegistry subs).
Notation rel := (rel_path lp b).
Notation b' := (b +:+ conflict_suffix id ts).
Notation rename_cmd := (MkFileSyncCommand (p_ID p) side rel "" "rename" (conflictFilename rel id ts) id).
Notation fetch_cmd := (MkFileSyncCommand (p_ID p) side rel sha "fetch" "" id).

(** The losing client has a file of its own at the path, and its subscription. *)
Record loses : Prop := {
  lo_names : Forall (fun x => is_name x = true) (jail ++ lr ++ lp ++ [b]);
  lo_id : no_slash id = true;
  lo_dir : rdir m dir;
  lo_old : m !! (dir ++ [b]) = Some (NFile old tm);
  lo_free : m !! (dir ++ [b']) = None;
  lo_partial : m !! (dir ++ [b +:+ ".partial"]) = None;
  lo_sub : reg !! p_ID p = Some s;
  lo_root : sb_RootSubpath s = of_elements lr
}.

(** The server has the winner's content. *)
Definition has_blob : Prop :=
  validateSHA sha = None /\ fl !! path sha = Some f /\ sha_hex (fl_data f) = sha.

Hypothesis (Hl : loses) (Hf : has_blob).

Lemma loser_name : is_name b = true.
Proof. pose proof (lo_names Hl) as H. rewrite !Forall_app in H. destruct H as (_ & _ & _ & H). by inversion H. Qed.

Lemma loser_path x : is_name x = true ->
  Forall (fun x => is_name x = true) (jail ++ l ++ [x]) /\ Join [sb_RootSubpath s; rel_path lp x] = rel_path l x.
Proof.
  intros Hx. pose proof (lo_names Hl) as H. rewrite !Forall_app in H. destruct H as (H1 & H2 & H3 & _).
  split; [rewrite !Forall_app; repeat split; try done; by constructor|].
  rewrite (lo_root Hl), <- !of_elements_snoc, Join_elements, app_assoc; try done. apply Forall_app. split; [done|by constructor].
Qed.

Lemma conflict_name : is_name b' = true.
Proof. apply is_name_conflict; [apply loser_name|apply Hl]. Qed.

Lemma dir_ne x y : x <> y -> dir ++ [x] <> dir ++ [y].
Proof. intros H [=]%app_inv_head. by apply H. Qed.

(** The renaming first, then the fetch. *)
Lemma in_order j supp sent tick :
  exists tm' j' supp' tick',
    snd (run_command (client_of psk id jail) 0 (snd (run_command (client_of psk id jail) 0
      (runner m j (calm_server t n fl d k) reg supp sent [rename_cmd; fetch_cmd] tick)))) =
    runner (<[dir ++ [b] := NFile (fl_data f) tm']> (<[dir ++ [b'] := NFile old tm]> (delete (dir ++ [b]) m))) j'
      (calm_server t n fl d k) reg supp' (sent ++ [ack_envelope rename_cmd "ok" ""; ack_envelope fetch_cmd "ok" ""]) [] tick'.
Proof.
  destruct Hf as (Hv & Hfl & Hsha). pose proof loser_name as Hb. pose proof conflict_name as Hb'.
  destruct (loser_path b Hb) as [Hn Hj]. destruct (loser_path b' Hb') as [Hn' Hj'].
  rewrite <- conflictFilename_rel_path in Hj' at 1.
  pose proof (suffix_ne b id ts) as Hne. pose proof (suffix_ne_partial b id ts) as Hnp.
  assert (file_or_free jail l b' m) as Hm by (split; [apply Hl|]; by rewrite (lo_free Hl)).
  erewrite run_command_eq by done. cbn [delete list_delete].
  destruct (rename_eq id jail l b b' m j subs reg supp sent [fetch_cmd] tick s rename_cmd (calm_server t n fl d k) old tm
    Hn Hn' Hm (lo_old Hl) eq_refl (lo_sub Hl) Hj Hj' eq_refl) as (supp1 & tick1 & ->).
  cbn [snd]. set (m1 := <[_ := _]> _). erewrite run_command_eq by done. cbn [delete list_delete].
  assert (m1 !! (dir ++ [b]) = None) as Hfree.
  { unfold m1. rewrite lookup_insert_ne, lookup_delete_eq by (by apply dir_ne). done. }
  assert (m1 !! (dir ++ [b +:+ ".partial"]) = None) as Hpart.
  { unfold m1. rewrite lookup_insert_ne by (by apply dir_ne). rewrite lookup_delete_ne by apply dir_ne, partial_ne. apply Hl. }
  assert (file_or_free jail l b m1) as Hm1.
  { split; [|by rewrite Hfree]. apply rdir_insert; [|eapply rdir_delete; apply Hl].
    rewrite lookup_delete_ne by apply dir_ne, not_eq_sym, Hne. apply Hl. }
  destruct (fetch_eq maxSize quota psk id jail l b m1 j subs reg supp1 (sent ++ [ack_envelope rename_cmd "ok" ""]) [] tick1 s
    fetch_cmd f t n fl d k Hn Hm1 Hpart eq_refl (lo_sub Hl) Hj eq_refl Hv Hfl Hsha) as (tm' & j' & supp' & tick' & ->).
  eexists _, _, _, _. cbn [snd]. by rewrite <- (app_assoc sent).
Qed.

(** The fetch first: its content is what the renaming moves aside. *)
Lemma swapped j supp sent tick :
  exists tm' j' supp' tick',
    snd (run_command (client_of psk id jail) 0 (snd (run_command (client_of psk id jail) 1
      (runner m j (calm_server t n fl d k) reg supp sent [rename_cmd; fetch_cmd] tick)))) =
    runner (<[dir ++ [b'] := NFile (fl_data f) tm']> (delete (dir ++ [b]) m)) j'
      (calm_server t n fl d k) reg supp' (sent ++ [ack_envelope fetch_cmd "ok" ""; ack_envelope rename_cmd "ok" ""]) [] tick'.
Proof.
  destruct Hf as (Hv & Hfl & Hsha). pose proof loser_name as Hb. pose proof conflict_name as Hb'.
  destruct (loser_path b Hb) as [Hn Hj]. destruct (loser_path b' Hb') as [Hn' Hj'].
  rewrite <- conflictFilename_rel_path in Hj' at 1.
  assert (file_or_free jail l b m) as Hm by (split; [apply Hl|]; by rewrite (lo_old Hl)).
  assert (file_or_free jail l b' m) as Hm' by (split; [apply Hl|]; by rewrite (lo_free Hl)).
  erewrite run_command_eq by done. cbn [delete list_delete].
  destruct (fetch_eq maxSize quota psk id jail l b m j subs reg supp sent [rename_cmd] tick s fetch_cmd f t n fl d k
    Hn Hm (lo_partial Hl) eq_refl (lo_sub Hl) Hj eq_refl Hv Hfl Hsha) as (tm' & j' & supp1 & tick1 & ->).
  cbn [snd]. erewrite run_command_eq by done. cbn [delete list_delete].
  edestruct (rename_eq id jail l b b' (<[dir ++ [b] := NFile (fl_data f) tm']> m) j' subs reg supp1 (sent ++ [ack_envelope fetch_cmd "ok" ""]) [] tick1 s rename_cmd
    (calm_server t n fl d k) (fl_data f) tm' Hn Hn') as (supp' & tick' & ->);
    [by apply file_or_free_insert|apply lookup_insert_eq|done|apply Hl|done|done|done|].
  eexists _, _, _, _. cbn [snd]. by rewrite delete_insert_eq, <- (app_assoc sent).
Qed.
End Loser.

(** The two messages of the loser arrive; then its goroutines run. *)
Definition receive_both (cfg : Config) (ignored : list string) (e1 e2 : Envelope) (c : client (server fs) wire) :=
  snd (Runner.HandleEnvelope cfg ignored e2 (snd (Runner.HandleEnvelope cfg ignored e1 c))).

Lemma receive_both_eq (cfg : Config) (ignored : list string) (a b : FileSyncCommand) (m : nodes) (j : nat) (w : server fs)
    (reg : Registry) (supp : Suppressor) (sent : wire) (tick : nat) :
  receive_both cfg ignored (command_envelope a) (command_envelope b) (runner m j w reg supp sent [] tick) =
  runner m j w reg supp sent [a; b] tick.
Proof. unfold receive_both. rewrite queued_eq. cbn [snd app]. by rewrite queued_eq. Qed.

(** C2. A conflict loses nothing when the commands run in the order they were sent in.  Two
    clients of a bidirectional pair have written different contents to a path within the
    conflict window, both are connected, the server has the winner's content, and no call
    fails.  Then the server, reading the report, sends three messages; the loser, having
    run its two commands in order, has the winner's content at the path and its own
    content, untouched, under the conflict name beside it, nothing else on its disk having
    changed; the winner, having run its one, has the same content at the path; and each
    command is answered ok. *)
Theorem conflict_ends_with_both (conn : nat) (src : string) (p : SyncPair) (ev : FileChangedEvent) (o : FileState)
    (osha : string) (t : tables) (n : nat) (h : hub) (fl : files) (d : gset string) (k : nat) (f : file)
    (lp : fpath) (b : string) (ignored : list string)
    (jailL lrL : fpath) (subsL : list SubscribePair) (sL : Subscription) (mL : nodes) (old : bytes) (tmL : Z) (jL : nat)
    (suppL : Suppressor) (sentL : wire) (tickL : nat)
    (jailW lrW : fpath) (subsW : list SubscribePair) (sW : Subscription) (mW : nodes) (jW : nat)
    (suppW : Suppressor) (sentW : wire) (tickW : nat) :
  let regL := foldl (fun m s => Registry.Apply s m) NewRegistry subsL in
  let regW := foldl (fun m s => Registry.Apply s m) NewRegistry subsW in
  tables_ok t -> t_pairs t !! ev_PairID ev = Some p -> p_Enabled p = true ->
  p_Direction p = "bidirectional" -> src = other_client p (ev_Side ev) -> (ev_Side ev = "a" \/ ev_Side ev = "b") ->
  ev_Op ev = "write" -> ev_SHA256 ev <> "" -> ev_SHA256 ev <> osha -> json_wf ev -> ev_RelPath ev = rel_path lp b ->
  t_files t !! (ev_PairID ev, otherSide (ev_Side ev), ev_RelPath ev) = Some o ->
  fs_Op o = "write" -> fs_SHA256 o = Some osha -> view_ok (event_view ev n) -> view_ok (toView o) ->
  Z.abs (clock n - fs_ServerModTime o) < defaultConflictWindowNs ->
  hub_up h (p_ClientAID p) = true -> hub_up h (p_ClientBID p) = true ->
  let here_wins := fs_ServerModTime o <=? clock n in
  let winner := other_client p (if here_wins then ev_Side ev else otherSide (ev_Side ev)) in
  let loser := other_client p (if here_wins then otherSide (ev_Side ev) else ev_Side ev) in
  has_blob (if here_wins then ev_SHA256 ev else osha) f fl ->
  loses loser jailL lrL lp b subsL sL p (clock (S (S n))) mL old tmL ->
  Forall (fun x => is_name x = true) (jailW ++ lrW ++ lp ++ [b]) -> file_or_free jailW (lrW ++ lp) b mW ->
  mW !! ((jailW ++ lrW ++ lp) ++ [b +:+ ".partial"]) = None ->
  regW !! p_ID p = Some sW -> sb_RootSubpath sW = of_elements lrW ->
  exists w2 e1 e2 e3,
    read_frame conn src (message TypeFileChangedEvent "" ev) (EngineFacts.quiet t n h) = (Ok tt, w2) /\
    h_sent (w_net w2) = h_sent h ++ [(loser, e1); (loser, e2); (winner, e3)] /\
  let server := MkServer (w_store w2) (calm fl d k) in
  let cfgL := client_of psk loser jailL in
  let cfgW := client_of psk winner jailW in
  let c := snd (run_command cfgL 0 (snd (run_command cfgL 0
    (receive_both cfgL ignored e1 e2 (runner mL jL server regL suppL sentL [] tickL))))) in
  let c' := snd (run_command cfgW 0 (snd (Runner.HandleEnvelope cfgW ignored e3
    (runner mW jW server regW suppW sentW [] tickW)))) in
  (exists tm cmd1 cmd2,
    d_nodes (pe_disk (c_peer c)) =
      <[(jailL ++ lrL ++ lp) ++ [b] := NFile (fl_data f) tm]>
        (<[(jailL ++ lrL ++ lp) ++ [b +:+ conflict_suffix loser (clock (S (S n)))] := NFile old tmL]>
          (delete ((jailL ++ lrL ++ lp) ++ [b]) mL)) /\
    c_conn c = sentL ++ [ack_envelope cmd1 "ok" ""; ack_envelope cmd2 "ok" ""]) /\
  (exists tm cmd,
    d_nodes (pe_disk (c_peer c')) = <[(jailW ++ lrW ++ lp) ++ [b] := NFile (fl_data f) tm]> mW /\
    c_conn c' = sentW ++ [ack_envelope cmd "ok" ""]).
Proof.
  intros regL regW Hok Hp He Hd Hsrc Hside Hop Hne Hdiff Hwf Hrel Ho Hoop Hosha Hv1 Hv2 Hw Ha Hb here_wins winner loser
    Hf Hl HnW HmW HpW HsW HrW.
  pose proof (conflict_keeps_both (HL:=hub_sender_laws) src p ev t n h o (ev_SHA256 ev) osha Hok Hp He Hd Hsrc eq_refl Hop Hne
    Hdiff Ho Hoop Hosha Hv1 Hv2 Hw Hside Ha Hb) as Hrun.
  cbv zeta in Hrun. fold here_wins in Hrun. fold winner loser in Hrun. destruct Hrun as (h' & Hrun & Hsent & _).
  eexists _, _, _, _. split; [apply (report_frame_eq conn src ev t n h _ Hwf Hrun)|]. split; [exact Hsent|].
  cbn zeta. rewrite receive_both_eq, queued_eq. cbn [snd app]. rewrite Hrel. unfold regL, regW. split.
  - cbn [w_store EngineFacts.quiet]. match goal with |- context [MkServer (MkStore ?t' [] ?n') _] =>
      destruct (in_order loser jailL lrL lp b subsL sL p
        (if here_wins then otherSide (ev_Side ev) else ev_Side ev) (if here_wins then ev_SHA256 ev else osha)
        (clock (S (S n))) mL old tmL f t' n' fl d k Hl Hf jL suppL sentL tickL)
        as (tm & j' & supp' & tick' & E) end.
    unfold calm_server in E. rewrite E. by eexists _, _, _.
  - erewrite run_command_eq by done. cbn [delete list_delete w_store EngineFacts.quiet].
    destruct Hf as (Hv & Hfl & Hsha).
    match goal with |- context [handleSyncCommand _ ?cmd (runner _ _ (MkServer (MkStore ?t' [] ?n') _) _ _ _ _ _)] =>
      destruct (fetch_eq maxSize quota psk winner jailW (lrW ++ lp) b mW jW subsW regW suppW sentW [] tickW sW cmd f
        t' n' fl d k) as (tm & j' & supp' & tick' & E) end; try done.
    { by rewrite <- app_assoc. }
    { cbn [cmd_RelPath]. rewrite HrW, <- !of_elements_snoc, Join_elements, app_assoc; try done;
        rewrite !Forall_app in HnW; [by destruct HnW as (_ & ? & _)|apply Forall_app; by destruct HnW as (_ & _ & ?)]. }
    unfold calm_server, regW in E. rewrite E. by eexists _, _.
Qed.

(** In the other order the loser's content is gone: the winner's content is fetched over it
    and then moved to the conflict name, the path is left empty, and both commands are
    answered ok. *)
Theorem swapped_commands_lose_the_content (id : string) (jail lr lp : fpath) (b : string) (subs : list SubscribePair)
    (s : Subscription) (p : SyncPair) (side sha : string) (ts : Z) (m : nodes) (old : bytes) (tm : Z) (f : file)
    (t : tables) (n : nat) (fl : files) (d : gset string) (k j : nat) supp sent tick ignored :
  loses id jail lr lp b subs s p ts m old tm -> has_blob sha f fl ->
  let cfg := client_of psk id jail in
  let reg := foldl (fun m s => Registry.Apply s m) NewRegistry subs in
  let rel := rel_path lp b in
  let rename := MkFileSyncCommand (p_ID p) side rel "" "rename" (conflictFilename rel id ts) id in
  let fetch := MkFileSyncCommand (p_ID p) side rel sha "fetch" "" id in
  let c := snd (run_command cfg 0 (snd (run_command cfg 1 (receive_both cfg ignored
    (command_envelope rename) (command_envelope fetch) (runner m j (calm_server t n fl d k) reg supp sent [] tick))))) in
  c_conn c = sent ++ [ack_envelope fetch "ok" ""; ack_envelope rename "ok" ""] /\
  d_nodes (pe_disk (c_peer c)) !! ((jail ++ lr ++ lp) ++ [b]) = None /\
  (exists tm', d_nodes (pe_disk (c_peer c)) !! ((jail ++ lr ++ lp) ++ [b +:+ conflict_suffix id ts]) = Some (NFile (fl_data f) tm')) /\
  forall x, x <> (jail ++ lr ++ lp) ++ [b] -> x <> (jail ++ lr ++ lp) ++ [b +:+ conflict_suffix id ts] ->
    d_nodes (pe_disk (c_peer c)) !! x = m !! x.
Proof.
  intros Hl Hf cfg reg rel rename fetch. rewrite receive_both_eq. intros c.
  destruct (swapped id jail lr lp b subs s p side sha ts m old tm f t n fl d k Hl Hf j supp sent tick)
    as (tm' & j' & supp' & tick' & E).
  assert (c = runner _ _ _ _ _ _ _ _) as -> by exact E. cbn [c_conn runner c_peer pe_disk d_nodes JailCalm.quiet].
  split; [done|]. pose proof (suffix_ne b id ts) as Hne.
  split; [rewrite lookup_insert_ne by (by apply dir_ne); apply lookup_delete_eq|].
  split; [eexists; apply lookup_insert_eq|]. intros x H1 H2. by rewrite lookup_insert_ne, lookup_delete_ne.
Qed.

End ConflictEnd.

(** ** Alice wins, Bob keeps his own content aside *)
Module Quarrel.
Import Journey.
Definition bob_row : FileState := Demo.row "b" "n.txt" "write" (Some "old") 1699999998000000000.
Definition disk_bob_old : nodes := <[["b"; "mirror"; "docs"; "n.txt"] := NFile [111] 5]> disk_bob.
Definition sub_alice : Subscription := MkSubscription "p1" "a" "docs" "bidirectional".
Definition sub_bob : Subscription := MkSubscription "p1" "b" "mirror/docs" "bidirectional".
Definition subs_alice2 : list SubscribePair := [MkSubscribePair "p1" "a" "docs" "bidirectional"].
Definition subs_bob2 : list SubscribePair := [MkSubscribePair "p1" "b" "mirror/docs" "bidirectional"].
Definition conflict_name : string := "n.txt.conflict-bob-1700000002000000000".

Lemma docs_alice : rdir disk_alice ["a"; "docs"].
Proof. apply (rdir_snoc disk_alice ["a"] "docs" 1); [by apply (rdir_single _ _ 0)|done|done]. Qed.

Lemma docs_bob : rdir disk_bob_old ["b"; "mirror"; "docs"].
Proof.
  apply rdir_insert; [done|]. apply (rdir_snoc disk_bob ["b"; "mirror"] "docs" 2); [|done|done].
  apply (rdir_snoc disk_bob ["b"] "mirror" 1); [by apply (rdir_single _ _ 0)|done|done].
Qed.

Lemma bob_loses : loses "bob" ["b"] ["mirror"; "docs"] [] "n.txt" subs_bob2 sub_bob (Demo.the_pair "bidirectional")
  (Demo.demo_clock 2%nat) disk_bob_old [111] 5.
Proof.
  split; [by repeat constructor|done|exact docs_bob|by vm_compute..].
Qed.

Lemma server_has_abc : has_blob abc_sha (MkFile abc 0) stored_abc.
Proof. split; [by vm_compute|]. split; [by vm_compute|exact sha256_abc]. Qed.
End Quarrel.
Import Journey Quarrel.

Lemma conflict_ends_with_both_witness : exists w e1 e2 e3 tm,
  h_sent (w_net w) = [("bob", e1); ("bob", e2); ("alice", e3)] /\
  let cfg := client_of "k" "bob" ["b"] in
  let bob := snd (run_command (clk:=Demo.demo_clock) (Network0:=the_server (clk:=Demo.demo_clock) 100 100 "k") cfg 0
    (snd (run_command (clk:=Demo.demo_clock) (Network0:=the_server (clk:=Demo.demo_clock) 100 100 "k") cfg 0
      (receive_both cfg [] e1 e2 (runner disk_bob_old 0 (MkServer (w_store w) (calm stored_abc ∅ 0))
        (foldl (fun m s => Registry.Apply s m) NewRegistry subs_bob2) NewSuppressor [] [] 0))))) in
  d_nodes (pe_disk (c_peer bob)) !! ["b"; "mirror"; "docs"; "n.txt"] = Some (NFile abc tm) /\
  d_nodes (pe_disk (c_peer bob)) !! ["b"; "mirror"; "docs"; conflict_name] = Some (NFile [111] 5).
Proof.
  destruct (conflict_ends_with_both (clk:=Demo.demo_clock) 100 100 "k" 0 "alice" (Demo.the_pair "bidirectional") the_change bob_row
    "old" (Demo.content "bidirectional" [bob_row]) 0 Demo.both_online stored_abc ∅ 0 (MkFile abc 0) [] "n.txt" []
    ["b"] ["mirror"; "docs"] subs_bob2 sub_bob disk_bob_old [111] 5 0 NewSuppressor [] 0
    ["a"] ["docs"] subs_alice2 sub_alice disk_alice 0 NewSuppressor [] 0
    (Demo.content_ok _ _) ltac:(by vm_compute) eq_refl eq_refl eq_refl (or_introl eq_refl) eq_refl ltac:(done) ltac:(done)
    (conj eq_refl eq_refl) eq_refl ltac:(by vm_compute) eq_refl eq_refl
    ltac:(split; [by left|done]) ltac:(split; [by left|done]) ltac:(by vm_compute) ltac:(by vm_compute) ltac:(by vm_compute)
    server_has_abc bob_loses ltac:(by repeat constructor) ltac:(split; [exact docs_alice|split; [done|by vm_compute]])
    ltac:(by vm_compute) ltac:(by vm_compute) ltac:(by vm_compute))
    as (w & e1 & e2 & e3 & _ & Hs & (tm & cmd1 & cmd2 & Hd & _) & _).
  exists w, e1, e2, e3, tm. split; [exact Hs|]. cbn zeta. split.
  - etransitivity; [exact (f_equal (lookup ["b"; "mirror"; "docs"; "n.txt"]) Hd)|by vm_compute].
  - etransitivity; [exact (f_equal (lookup ["b"; "mirror"; "docs"; conflict_name]) Hd)|by vm_compute].
Defined.

(** The quarrel with Bob's goroutines the other way round: his own content is nowhere. *)
Lemma swapped_commands_lose_the_content_witness : exists c : client (server fs) wire,
  d_nodes (pe_disk (c_peer c)) !! ["b"; "mirror"; "docs"; "n.txt"] = None /\
  (exists tm, d_nodes (pe_disk (c_peer c)) !! ["b"; "mirror"; "docs"; conflict_name] = Some (NFile abc tm)).
Proof.
  destruct (swapped_commands_lose_the_content (clk:=Demo.demo_clock) 100 100 "k" "bob" ["b"] ["mirror"; "docs"] [] "n.txt" subs_bob2
    sub_bob (Demo.the_pair "bidirectional") "b" abc_sha (Demo.demo_clock 2%nat) disk_bob_old [111] 5 (MkFile abc 0)
    empty_tables 0 stored_abc ∅ 0 0 NewSuppressor [] 0 [] bob_loses server_has_abc) as (_ & H1 & H2 & _).
  eexists. split; [exact H1|exact H2].
Defined.
