(* ===== verification/DeleteEnd.v ===== *)
(** A deletion followed from one client's disk to the other's: reported without an upload
    (Runner.v), stored and forwarded by the server (SyncSpec.v), carried out by the other
    client through its jail. *)
From S2P Require Import Prelude GoStrings Json Proto Paths Store StoreFacts Lww Engine EngineFacts Hub HubFacts SyncSpec Session SessionFacts Sha256 BlobStore BlobFacts BlobSpec Http HttpBlobs HttpSpec Ignore Registry Suppress Disk Jail JailSpec JailCalm Transfer TransferSpec Exchange Watcher Runner RunnerSpec SnapshotSpec Demo EndToEnd.
Local Open Scope Z_scope.
Local Open Scope go_scope.

(** Removing what is a file, or is not there, in an existing directory of the jail. *)
Lemma Remove_calm {clk : Clock} (root l : fpath) (b rel : string) (m : nodes) (k : nat) :
  join_root root rel = (root ++ l) ++ [b] -> HasPrefix rel "/" = false -> file_or_free root l b m ->
  Jail.Remove root rel (JailCalm.quiet m k) =
    (match m !! ((root ++ l) ++ [b]) with Some _ => Ok tt | None => Err (ENOENT "remove") end,
     JailCalm.quiet (delete ((root ++ l) ++ [b]) m) k).
Proof.
  intros Hj Hs Hm. unfold Jail.Remove, bind. rewrite (Resolve_quiet root l b rel Hj Hs m k Hm).
  unfold d_Remove. rewrite d_call_ok by done. cbn [d_nodes JailCalm.quiet]. rewrite nofollow_target by done.
  pose proof Hm as (_ & _ & Hf). destruct (m !! ((root ++ l) ++ [b])) as [[]|] eqn:E; try done.
  by rewrite delete_id.
Qed.

Section DeleteEnd.
Context {clk : Clock} {li : Runner.LstatInfo} (maxSize quota : Z) (psk : string).
#[local] Hint Extern 0 (Network (server fs)) => exact (the_server maxSize quota psk) : typeclass_instances.

(** What the deleting client does: it sends the event, and touches nothing else. *)
Lemma local_delete_eq (cfg : Config) (ev : FileChangedEvent) (m : nodes) (j : nat) (w : server fs) (reg : Registry)
    (supp : Suppressor) (sent : wire) (cmds : list FileSyncCommand) (tick : nat) :
  ev_Op ev = "delete" -> s_m supp !! ev_RelPath ev = None ->
  exists supp' tick', handleLocalChange cfg ev (runner m j w reg supp sent cmds tick) =
    (Ok tt, runner m j w reg supp' (sent ++ [MkEnvelope TypeFileChangedEvent "" (Some (encode_json ev))]) cmds tick').
Proof.
  intros Hop Hno. unfold handleLocalChange, suppressed. rewrite Hop. decide_closed. unfold bind, on_supp, Hit, live_entry.
  cbn [runner c_supp c_tick]. rewrite Hno. cbn. by eexists _, _.
Qed.

(** A [delete] when its goroutine runs: the file is gone, and if it was gone before that is
    as good. *)
Lemma delete_eq (id : string) (jail l : fpath) (b : string) (m : nodes) (j : nat) (subs : list SubscribePair)
    (reg : Registry) (supp : Suppressor) (sent : wire) (cmds : list FileSyncCommand) (tick : nat) (s : Subscription)
    (cmd : FileSyncCommand) (w : server fs) :
  Forall (fun x => is_name x = true) (jail ++ l ++ [b]) -> file_or_free jail l b m ->
  reg = foldl (fun m s => Registry.Apply s m) NewRegistry subs -> reg !! cmd_PairID cmd = Some s ->
  Join [sb_RootSubpath s; cmd_RelPath cmd] = rel_path l b -> cmd_Op cmd = "delete" ->
  exists supp' tick',
    handleSyncCommand (client_of psk id jail) cmd (runner m j w reg supp sent cmds tick) =
    (Ok tt, runner (delete ((jail ++ l) ++ [b]) m) j w reg supp' (sent ++ [ack_envelope cmd "ok" ""]) cmds tick').
Proof.
  intros Hn Hm Hreg Hs Hj Hop.
  pose proof (Remove_calm jail l b (rel_path l b) m j (rel_path_joins _ _ _ Hn)
    (rel_path_relative _ _ (proj2 (proj1 (Forall_app _ _ _) Hn))) Hm) as HR.
  unfold handleSyncCommand. unfold bind at 1.
  rewrite (lookup_in_registry subs (cmd_PairID cmd) _ s) by done. rewrite Hop. decide_closed.
  unfold bind at 1. rewrite supp_Add_eq. unfold try at 1, on_jail. rewrite on_peer_eq, Hj. cbn [cf_Jail client_of].
  change (c_peer (after_Add _ _ (runner m j w reg supp sent cmds tick))) with (MkPeer (JailCalm.quiet m j) w).
  rewrite (on_disk_eq _ _ _ _ _ HR). cbn [fst snd].
  destruct (m !! ((jail ++ l) ++ [b])); by eexists _, _.
Qed.

(** C3. A deletion reaches the peer's disk, and nothing but the file goes.  A client's
    watcher reports that a file of an enabled one-way pair was deleted; the path is not
    suppressed, the other client is connected, and no call fails.  Then the client sends
    one message and no content; the server, reading it, stores the report and sends the
    other side one; and the other client, reading that one and running the command it
    carries, has the file no more and everything else as before, and has answered [ok],
    also if the file was not there; so does running the command again. *)
Theorem deletion_is_replicated (conn : nat) (src dst side dpath : string) (p : SyncPair) (ev : FileChangedEvent)
    (jailA jailB lB : fpath) (bB : string) (mA mB : nodes) (jA jB : nat)
    (regA : Registry) (subsB : list SubscribePair) (suppA suppB : Suppressor) (sentA sentB : wire)
    (cmdsA : list FileSyncCommand) (tickA tickB : nat) (sB : Subscription) (ignored : list string)
    (t : tables) (n : nat) (fl : files) (d : gset string) (k : nat) (h : hub) :
  let regB := foldl (fun m s => Registry.Apply s m) NewRegistry subsB in
  ev_Op ev = "delete" -> s_m suppA !! ev_RelPath ev = None -> json_wf ev ->
  t_pairs t !! ev_PairID ev = Some p -> tables_ok t -> p_Enabled p = true -> mirror_route p ev dst side dpath ->
  hub_up h dst = true ->
  Forall (fun x => is_name x = true) (jailB ++ lB ++ [bB]) -> file_or_free jailB lB bB mB ->
  regB !! ev_PairID ev = Some sB -> Join [sb_RootSubpath sB; ev_RelPath ev] = rel_path lB bB ->
  let a1 := snd (handleLocalChange (client_of psk src jailA) ev
    (runner mA jA (calm_server t n fl d k) regA suppA sentA cmdsA tickA)) in
  exists msg, c_conn a1 = sentA ++ [msg] /\ pe_net (c_peer a1) = calm_server t n fl d k /\
  let w2 := snd (read_frame conn src (ReadMessage true (Some (encode_json msg))) (MkWorld (MkStore t [] n) h)) in
  exists env, h_sent (w_net w2) = h_sent h ++ [(dst, env)] /\
  t_files (db (w_store w2)) = t_files (store_event ev n t) /\
  let carry_out b := snd (run_command (client_of psk dst jailB) 0 (snd (Runner.HandleEnvelope (client_of psk dst jailB) ignored env b))) in
  let b2 := carry_out (runner mB jB (MkServer (w_store w2) (sv_blobs (calm_server t n fl d k))) regB suppB sentB [] tickB) in
  let ack := ack_envelope (mirror_command src side ev) "ok" "" in
  d_nodes (pe_disk (c_peer b2)) = delete ((jailB ++ lB) ++ [bB]) mB /\ c_conn b2 = sentB ++ [ack] /\
  d_nodes (pe_disk (c_peer (carry_out b2))) = delete ((jailB ++ lB) ++ [bB]) mB /\
  c_conn (carry_out b2) = (sentB ++ [ack]) ++ [ack].
Proof.
  intros regB Hop Hno Hwf Hp Hok He Hr Hup HnB HfB HsB HjB a1.
  destruct (local_delete_eq (client_of psk src jailA) ev mA jA (calm_server t n fl d k) regA suppA sentA cmdsA tickA Hop Hno)
    as (suppA' & tickA' & Ha).
  unfold a1. rewrite Ha. cbn [snd c_conn runner c_peer pe_net]. eexists. split; [done|]. split; [done|].
  destruct (mirror_frame conn src p ev t n h dst side dpath Hp Hok He Hr Hup Hwf) as (h' & Hread & Hsent & _).
  unfold message, EngineFacts.quiet in Hread. rewrite Hread. cbn [snd w_net w_store db].
  exists (command_envelope (mirror_command src side ev)). split; [done|]. split; [done|].
  assert (cmd_Op (mirror_command src side ev) = "delete") as Hcop by (cbn; by rewrite Hop).
  match goal with |- context [runner mB jB ?w _ _ _ _ _] => set (wB := w) end.
  assert (forall m j supp sent tick, file_or_free jailB lB bB m -> exists supp' tick',
    snd (run_command (client_of psk dst jailB) 0 (snd (Runner.HandleEnvelope (client_of psk dst jailB) ignored
      (command_envelope (mirror_command src side ev)) (runner m j wB regB supp sent [] tick)))) =
    runner (delete ((jailB ++ lB) ++ [bB]) m) j wB regB supp' (sent ++ [ack_envelope (mirror_command src side ev) "ok" ""]) [] tick') as H.
  { intros m j supp sent tick Hm. rewrite queued_eq. cbn [snd app]. erewrite run_command_eq by done. cbn [delete list_delete].
    destruct (delete_eq dst jailB lB bB m j subsB regB supp sent [] tick sB (mirror_command src side ev) wB
      HnB Hm eq_refl HsB HjB Hcop) as (supp' & tick' & E). rewrite E. by eexists _, _. }
  destruct (H mB jB suppB sentB tickB HfB) as (supp1 & tick1 & E1). cbv zeta. rewrite E1.
  assert (file_or_free jailB lB bB (delete ((jailB ++ lB) ++ [bB]) mB)) as HfB'.
  { destruct (mB !! ((jailB ++ lB) ++ [bB])) as [x|] eqn:Ex; [|by rewrite delete_id].
    destruct HfB as (Hd & Hb & Hx). rewrite Ex in Hx. destruct x; try done.
    split; [by eapply rdir_delete|]. split; [done|]. by rewrite lookup_delete_eq. }
  destruct (H _ jB supp1 (sentB ++ [ack_envelope (mirror_command src side ev) "ok" ""]) tick1 HfB') as (supp2 & tick2 & E2).
  rewrite E2. cbn [runner c_peer pe_disk JailCalm.quiet d_nodes c_conn]. split; [done|]. split; [done|].
  split; [by rewrite delete_delete_eq|done].
Qed.
End DeleteEnd.

(** ** Alice deletes a file Bob has *)
Module Deletion.
Import Journey.
Definition the_deletion : FileChangedEvent := Demo.event "a" "n.txt" "" "delete".
Definition disk_bob_full : nodes := <[["b"; "mirror"; "docs"; "n.txt"] := NFile abc 5]> disk_bob.
Definition alice_before : client (server fs) wire :=
  runner disk_alice 0 (calm_server (Demo.content "a_to_b" []) 0 ∅ ∅ 0) NewRegistry NewSuppressor [] [] 0.
End Deletion.
Import Journey Deletion.

Lemma deletion_is_replicated_witness : exists msg env w,
  c_conn (snd (handleLocalChange (clk:=Demo.demo_clock) (Network0:=to_server (clk:=Demo.demo_clock) 100 100 "k")
    (client_of "k" "alice" ["a"]) the_deletion alice_before)) = [msg] /\
  h_sent (w_net (snd (read_frame (clk:=Demo.demo_clock) 0 "alice" (ReadMessage true (Some (encode_json msg)))
    (MkWorld (MkStore (Demo.content "a_to_b" []) [] 0) Demo.both_online)))) = [("bob", env)] /\
  d_nodes (pe_disk (c_peer (snd (run_command (clk:=Demo.demo_clock) (Network0:=to_server (clk:=Demo.demo_clock) 100 100 "k")
    (client_of "k" "bob" ["b"]) 0 (snd (Runner.HandleEnvelope (client_of "k" "bob" ["b"]) []
      env (runner disk_bob_full 0 w (foldl (fun m s => Registry.Apply s m) NewRegistry subs_bob) NewSuppressor [] [] 0))))))) =
    delete ["b"; "mirror"; "docs"; "n.txt"] disk_bob_full.
Proof.
  destruct (deletion_is_replicated (clk:=Demo.demo_clock) 100 100 "k" 0 "alice" "bob" "b" "mirror/docs" (Demo.the_pair "a_to_b")
    the_deletion ["a"] ["b"] ["mirror"; "docs"] "n.txt" disk_alice disk_bob_full 0 0 NewRegistry subs_bob
    NewSuppressor NewSuppressor [] [] [] 0 0 (MkSubscription "p1" "b" "mirror/docs" "a_to_b")
    [] (Demo.content "a_to_b" []) 0 ∅ ∅ 0 Demo.both_online eq_refl eq_refl (conj eq_refl eq_refl)
    ltac:(vm_compute; reflexivity) (Demo.content_ok _ _) eq_refl
    (or_introl (conj eq_refl (conj eq_refl (conj eq_refl (conj eq_refl eq_refl)))))
    ltac:(vm_compute; reflexivity) ltac:(by repeat constructor)
    ltac:(split; [apply (rdir_snoc disk_bob_full ["b"; "mirror"] "docs" 2); [|done|done];
      apply (rdir_snoc disk_bob_full ["b"] "mirror" 1); [by apply (rdir_single _ _ 0)|done|done] | split; [done|exact I]])
    ltac:(by vm_compute) ltac:(by vm_compute))
    as (msg & Hm & _ & env & He & _ & Hd & _).
  exists msg, env. eexists. split; [exact Hm|]. split; [exact He|]. exact Hd.
Defined.
