(* ===== verification/Backoff.v ===== *)
(** internal/client/conn/backoff.go: how long the client waits before it dials again.

    The code computes in float64.  Here a float64 is the integer that multiplies a power of
    two, named where it is used, and [round64] rounds an exact result to the 53 bits of a
    float64, to nearest, ties to even.  [rand.Float64] is [k / 2^53] for some [k] below
    2^53, and [* 2 - 1] does not round it.  Nor do the powers of two: for an attempt so high
    that [math.Pow] is not finite, [math.Min] cuts the delay all the same. *)
From S2P Require Import Prelude GoStrings.
Local Open Scope Z_scope.

(** [x] to the nearest multiple of 2^d, to the even one when two are as near. *)
Definition round_to (d x : Z) : Z :=
  let q := x / 2^d in
  let r := x mod 2^d in
  let half := 2^(d - 1) in
  2^d * (if (half <? r) || ((r =? half) && Z.odd q) then q + 1 else q).

Definition round64 (x : Z) : Z :=
  let d := Z.log2 (Z.abs x) - 52 in
  if d <=? 0 then x else Z.sgn x * round_to d (Z.abs x).

Definition Second : Z := 10^9.

(** [min], [max] and [jitterFrac] never change. *)
Definition min_delay : Z := Second.
Definition max_delay : Z := 60 * Second.
(** 0.2, in units of 2^-54 *)
Definition jitterFrac : Z := 3602879701896397.

Record ExponentialBackoff : Type := MkBackoff { bo_attempt : Z }.

Definition NewExponentialBackoff : ExponentialBackoff := MkBackoff 0.
Definition Reset (b : ExponentialBackoff) : ExponentialBackoff := MkBackoff 0.

(** [math.Min(float64(b.min)*math.Pow(2, float64(b.attempt)), float64(b.max))] *)
Definition delay_of (attempt : Z) : Z := Z.min (min_delay * 2 ^ attempt) max_delay.

(** The wait, in nanoseconds, when the random number is [k / 2^53]. *)
Definition wait_of (attempt k : Z) : Z :=
  let delay := delay_of attempt in
  let share := round64 (delay * jitterFrac) in          (* delay * jitterFrac, in units of 2^-54 *)
  let jitter := round64 (share * (2 * k - 2^53)) in     (* in units of 2^-107 *)
  Z.quot (round64 (delay * 2^107 + jitter)) (2^107).    (* time.Duration(delay + jitter) *)

Definition Next (k : Z) (b : ExponentialBackoff) : Z * ExponentialBackoff :=
  (wait_of (bo_attempt b) k, MkBackoff (wrap64 (bo_attempt b + 1))).

(** ** Rounding does not leave an interval whose ends are float64 *)
Lemma round_to_spec d x : 0 < d ->
  exists q, round_to d x = 2^d * q /\ (forall m, x <= 2^d * m -> q <= m) /\ (forall m, 2^d * m <= x -> m <= q).
Proof.
  intros Hd. assert (0 < 2^d) as Hp by by apply Z.pow_pos_nonneg; lia.
  assert (2^d = 2 * 2^(d - 1)) as E by (rewrite <- Z.pow_succ_r by lia; f_equal; lia).
  pose proof (Z.div_mod x (2^d) ltac:(lia)) as Ex. pose proof (Z.mod_pos_bound x (2^d) Hp) as Hr.
  unfold round_to. eexists. split; [done|]. set (q := x / 2^d) in *. set (r := x mod 2^d) in *.
  destruct ((2^(d-1) <? r) || ((r =? 2^(d-1)) && Z.odd q)) eqn:B; split; intros m Hm.
  - assert (0 < r) as H0.
    { apply orb_true_iff in B as [B|B]; [lia|]. apply andb_true_iff in B as [B _]. lia. }
    assert (q < m) by nia. lia.
  - nia.
  - nia.
  - assert (2^d * m < 2^d * (q + 1)) by lia. nia.
Qed.

Section Round64.
Variables c s : Z.
Hypothesis Hc : 0 <= c < 2^53.
Hypothesis Hs : 0 <= s.

Lemma round64_le x : 0 <= x -> x <= c * 2^s -> round64 x <= c * 2^s.
Proof.
  intros H0 Hx. unfold round64. rewrite Z.abs_eq by done. destruct (Z.leb_spec (Z.log2 x - 52) 0) as [|Hd]; [done|].
  set (d := Z.log2 x - 52) in *. assert (0 < x) as Hpos by (destruct (decide (x = 0)) as [->|]; [cbn in d; lia|lia]).
  rewrite Z.sgn_pos, Z.mul_1_l by done.
  destruct (round_to_spec d x Hd) as (q & -> & Hq & _).
  assert (d <= s) as Hds.
  { enough (Z.log2 x < 53 + s) by lia. apply Z.log2_lt_pow2; [done|]. rewrite Z.pow_add_r by lia. nia. }
  assert (c * 2^s = 2^d * (c * 2^(s - d))) as E.
  { rewrite <- (Z.sub_add d s) at 1. rewrite Z.pow_add_r by lia. ring. }
  rewrite E in Hx |- *. apply Z.mul_le_mono_nonneg_l; [lia|]. by apply Hq.
Qed.

Lemma round64_ge x : c * 2^s <= x -> c * 2^s <= round64 x.
Proof.
  intros Hx. assert (0 <= x) as H0 by lia. unfold round64. rewrite Z.abs_eq by done.
  destruct (Z.leb_spec (Z.log2 x - 52) 0) as [|Hd]; [done|].
  set (d := Z.log2 x - 52) in *. assert (0 < x) as Hpos by (destruct (decide (x = 0)) as [->|]; [cbn in d; lia|lia]).
  rewrite Z.sgn_pos, Z.mul_1_l by done.
  destruct (round_to_spec d x Hd) as (q & -> & _ & Hq).
  destruct (Z.le_gt_cases d s) as [Hds|Hds].
  - assert (c * 2^s = 2^d * (c * 2^(s - d))) as E.
    { rewrite <- (Z.sub_add d s) at 1. rewrite Z.pow_add_r by lia. ring. }
    rewrite E in Hx |- *. apply Z.mul_le_mono_nonneg_l; [lia|]. by apply Hq.
  - assert (2^52 <= q) as H52.
    { apply Hq. rewrite <- Z.pow_add_r by lia. replace (d + 52) with (Z.log2 x) by lia. by apply Z.log2_spec. }
    assert (2^(1 + s) <= 2^d) as Hp by (apply Z.pow_le_mono_r; lia). rewrite Z.pow_add_r in Hp by lia.
    change (2^53) with (2 * 2^52) in Hc. nia.
Qed.
End Round64.

Lemma round64_opp x : round64 (- x) = - round64 x.
Proof. unfold round64. rewrite Z.abs_opp, Z.sgn_opp. destruct (_ <=? _); lia. Qed.

Lemma round64_abs_le c s x : 0 <= c < 2^53 -> 0 <= s -> - (c * 2^s) <= x <= c * 2^s -> - (c * 2^s) <= round64 x <= c * 2^s.
Proof.
  intros Hc Hs Hx. destruct (Z.le_gt_cases 0 x) as [H|H].
  - pose proof (round64_le c s Hc Hs x H ltac:(lia)). pose proof (round64_ge 0 s ltac:(lia) Hs x ltac:(lia)). lia.
  - pose proof (round64_le c s Hc Hs (-x) ltac:(lia) ltac:(lia)) as H1.
    pose proof (round64_ge 0 s ltac:(lia) Hs (-x) ltac:(lia)) as H2. rewrite round64_opp in H1, H2. lia.
Qed.

(** The delays are those of the code's comment, and a fifth of each does not round. *)
Lemma delay_cases attempt : 0 <= attempt ->
  exists f, delay_of attempt = 5 * f /\ 0 < f < 2^40 /\ round64 (delay_of attempt * jitterFrac) = f * 2^54.
Proof.
  intros Ha. destruct (Z.le_gt_cases 6 attempt) as [H|H].
  - assert (delay_of attempt = max_delay) as ->.
    { unfold delay_of, min_delay, max_delay, Second. assert (2^6 <= 2^attempt) by (apply Z.pow_le_mono_r; lia). lia. }
    exists (12 * 10^9). by vm_compute.
  - assert (attempt = 0 \/ attempt = 1 \/ attempt = 2 \/ attempt = 3 \/ attempt = 4 \/ attempt = 5) as Hc by lia.
    destruct Hc as [->|[->|[->|[->|[->| ->]]]]];
      [exists (2*10^8)|exists (4*10^8)|exists (8*10^8)|exists (16*10^8)|exists (32*10^8)|exists (64*10^8)]; by vm_compute.
Qed.

Lemma Next_bounds (b : ExponentialBackoff) (k : Z) :
  0 <= bo_attempt b < 2^63 - 1 -> 0 <= k < 2^53 ->
  4 * delay_of (bo_attempt b) <= 5 * fst (Next k b) <= 6 * delay_of (bo_attempt b) /\
  8 * 10^8 <= fst (Next k b) <= 72 * 10^9 /\ bo_attempt (snd (Next k b)) = bo_attempt b + 1.
Proof.
  intros Ha Hk. unfold Next. cbn [bo_attempt fst snd]. destruct (delay_cases (bo_attempt b) ltac:(lia)) as (f & Hd & Hf & Hsh).
  unfold wait_of. rewrite Hsh, Hd.
  assert (- (f * 2^107) <= round64 (f * 2^54 * (2 * k - 2^53)) <= f * 2^107) as Hj.
  { apply round64_abs_le; [lia|lia|]. change (2^107) with (2^54 * 2^53). nia. }
  set (j := round64 (f * 2^54 * (2 * k - 2^53))) in *.
  assert ((4 * f) * 2^107 <= round64 (5 * f * 2^107 + j) <= (6 * f) * 2^107) as Hs.
  { split; [apply round64_ge|apply round64_le]; lia. }
  set (sum := round64 (5 * f * 2^107 + j)) in *.
  assert (4 * f <= Z.quot sum (2^107) <= 6 * f) as Hq.
  { rewrite Z.quot_div_nonneg by lia. split; [apply Z.div_le_lower_bound; lia|].
    apply Z.div_le_upper_bound; lia. }
  split; [lia|]. split.
  - assert (5 * f = delay_of (bo_attempt b)) as E by lia. unfold delay_of, min_delay, max_delay, Second in E.
    assert (1 <= 2^bo_attempt b) by (change 1 with (2^0); apply Z.pow_le_mono_r; lia). lia.
  - apply wrap64_id. unfold int64_min, int64_max. lia.
Qed.

(** C38. The wait after the n-th failure in a row is the delay of that attempt, one second
    doubled each time up to a minute, give or take a fifth, rounding included, whatever the
    random number: never below 0.8 s, never above 72 s; and each call counts one attempt. *)
Theorem backoff_bounds (b : ExponentialBackoff) (k : Z) :
  0 <= bo_attempt b < 2^63 - 1 -> 0 <= k < 2^53 ->
  let '(w, b') := Next k b in
  4 * delay_of (bo_attempt b) <= 5 * w <= 6 * delay_of (bo_attempt b) /\
  8 * 10^8 <= w <= 72 * 10^9 /\ bo_attempt b' = bo_attempt b + 1.
Proof. intros Ha Hk. apply (Next_bounds b k Ha Hk). Qed.

Lemma backoff_bounds_witness :
  fst (Next (2^52) (MkBackoff 3)) = 8 * 10^9 /\ 8 * 10^8 <= fst (Next (2^53 - 1) (MkBackoff 40)) <= 72 * 10^9.
Proof.
  split; [by vm_compute|]. pose proof (backoff_bounds (MkBackoff 40) (2^53 - 1)) as H.
  destruct (Next _ _) as [w b]. apply H; [cbn [bo_attempt]; lia|lia].
Defined.
