(* ===== verification/Conn.v ===== *)
(** internal/client/conn/conn.go: the client's connection to the server, kept up by a loop
    that dials, registers, reads until something fails, waits and starts again.

    The callbacks of [Run] are parameters that act on the application's state [A] and may
    send.  What the network does during one turn of the loop is a [session].  [cn_log] is
    what the client did to the network, in order; the time is not modelled, only the
    length of the waits. *)
From S2P Require Import Prelude GoStrings Json Proto Session Backoff.
Local Open Scope Z_scope.
Local Open Scope go_scope.

Definition ErrNotConnected : error := Errorf "conn: not connected".
(** [context.Canceled] *)
Definition Canceled : error := Errorf "context canceled".

Record Config : Type := MkConnConfig {
  cc_ClientID : string; cc_Hostname : string; cc_RootPath : string; cc_Version : string
}.

Inductive conn_action : Type :=
| Dialed
| Wrote (env : Envelope)
| ClosedSocket (code : Z) (reason : string)
| Waited (d : Z).

Record Conn (A : Type) : Type := MkClientConn {
  cn_bo : ExponentialBackoff;
  cn_ws : bool;                   (* c.ws != nil *)
  cn_app : A;
  cn_log : list conn_action
}.
Arguments MkClientConn {A} _ _ _ _.
Arguments cn_bo {A} _.
Arguments cn_ws {A} _.
Arguments cn_app {A} _.
Arguments cn_log {A} _.

(** What happens to one turn of the loop of [Run]: whether [ctx] is done at its start;
    the error of the dial; the error of writing the registration; what is read first, and
    then, and how reading ends; whether [ctx] is done when the turn asks again, and whether
    it ends the wait; the random number of the wait. *)
Record session : Type := MkSession {
  se_cancelled : bool;
  se_dial : option error;
  se_register : option error;
  se_first : ws_read;
  se_frames : list (option json);
  se_end : error;
  se_done : bool;
  se_wait_done : bool;
  se_random : Z
}.

Definition New {A} (a : A) : Conn A := MkClientConn NewExponentialBackoff false a [].

Section Conn.
Context {A : Type} (cfg : Config).
Notation C := (Conn A).
Context (onConnected : gmap string string -> C -> C) (onMessage : Envelope -> M C unit).

Definition set_bo (b : ExponentialBackoff) : M C unit := modify (fun c => MkClientConn b (cn_ws c) (cn_app c) (cn_log c)).
Definition set_ws (up : bool) : M C unit := modify (fun c => MkClientConn (cn_bo c) up (cn_app c) (cn_log c)).
Definition act (a : conn_action) : M C unit := modify (fun c =>
  MkClientConn (cn_bo c) (cn_ws c) (cn_app c) (cn_log c ++ [a])).

(** [Send], called by the application; [failure] is the error of the write. *)
Definition Send (failure : option error) (env : Envelope) : M C unit := fun c =>
  if negb (cn_ws c) then (Err ErrNotConnected, c)
  else match failure with
       | Some e => (Err e, c)
       | None => act (Wrote env) c
       end.

(** [Close], given whether [c.closed] is closed already; closing it again panics ([None]).
    [Run] looks at neither and dials again. *)
Definition Close (closed : bool) (c : C) : option (bool * C) :=
  if closed then None
  else Some (true, if cn_ws c then snd (act (ClosedSocket 1000 "client closed") c) else c).

(** [c.bo.Next()] and the wait. *)
Definition wait_next (k : Z) : M C unit := fun c =>
  let '(d, b) := Next k (cn_bo c) in
  (set_bo b;; act (Waited d)) c.

Definition register_request : RegisterRequest :=
  MkRegisterRequest (cc_ClientID cfg) (cc_Hostname cfg) (cc_RootPath cfg) (cc_Version cfg) ProtoVersion.

Definition read_register_response (first : ws_read) : result (gmap string string) :=
  match first with
  | ReadError e => Err (Wrap "conn: read register response" e)
  | ReadMessage _ j =>
      match Unmarshal j with
      | Err e => Err (Wrap "conn: unmarshal register response" e)
      | Ok resp =>
          if negb (bool_decide (env_Type resp = TypeRegisterResponse))
          then Err (Errorf ("conn: expected register_response, got " +:+ Quote (env_Type resp)))
          else match UnmarshalPayload (A:=RegisterResponse) (env_Payload resp) with
               | Err e => Err (Wrap "conn: decode register response payload" e)
               | Ok r =>
                   if negb (rs_OK r) then Err (Errorf ("conn: register rejected: " +:+ rs_Reason r))
                   else Ok (rs_Settings r)
               end
      end
  end.

Definition register (e : session) : M C (gmap string string) :=
  payload <- of_result (MarshalPayload register_request);;
  match se_register e with
  | Some err => throw (Wrap "conn: send register request" err)
  | None =>
      act (Wrote (MkEnvelope TypeRegisterRequest "" payload));;
      of_result (read_register_response (se_first e))
  end.

(** [readLoop]: the frames in turn, then the error that ends it.  It returns that error, or
    the handler's. *)
Fixpoint readLoop (frames : list (option json)) (end_ : error) : M C error :=
  match frames with
  | [] => ret end_
  | data :: rest =>
      match Unmarshal data with
      | Err _ => readLoop rest end_
      | Ok env =>
          if bool_decide (env_Type env = TypePong) then readLoop rest end_
          else
            r <-? onMessage env;;
            match r with
            | Err err => ret err
            | Ok _ => readLoop rest end_
            end
      end
  end.

(** The end of a turn after a failure: [true] when the loop goes on. *)
Definition turn_end (e : session) (stop : bool) : M C bool :=
  if se_done e || stop then ret false
  else wait_next (se_random e);; ret (negb (se_wait_done e)).

(** One turn of the loop of [Run]. *)
Definition turn (e : session) : M C bool :=
  if se_cancelled e then ret false
  else
    act Dialed;;
    match se_dial e with
    | Some _ => turn_end e false
    | None =>
        set_ws true;;
        (fun c => set_bo (Reset (cn_bo c)) c);;
        r <-? register e;;
        match r with
        | Err _ =>
            act (ClosedSocket StatusInternalError "register failed");;
            set_ws false;;
            turn_end e false
        | Ok settings =>
            modify (onConnected settings);;
            readErr <- readLoop (se_frames e) (se_end e);;
            act (ClosedSocket 1000 "closing");;
            set_ws false;;
            turn_end e (errors_Is readErr Canceled)
        end
    end.

(** [Run], for as long as [sessions] tells what happens. *)
Fixpoint Run (sessions : list session) : M C unit :=
  match sessions with
  | [] => ret tt
  | e :: rest => go_on <- turn e;; if (go_on : bool) then Run rest else ret tt
  end.
End Conn.
