(* ===== verification/ConnSpec.v ===== *)
(** What the client's connection loop (Conn.v, Backoff.v) guarantees: its messages reach the
    application in order, its dials are spaced, its registration is one the server of
    Session.v accepts, and no socket outlives its turn; and where its backoff does not
    grow. *)
From S2P Require Import Prelude GoStrings Json Proto Store StoreFacts Lww Engine EngineFacts Hub HubFacts Demo Session SessionFacts Backoff Conn.
Local Open Scope Z_scope.
Local Open Scope go_scope.

(** ** The log *)
Definition waited (a : conn_action) : Prop := exists d, a = Waited d /\ 8 * 10^8 <= d <= 72 * 10^9.

(** A wait follows the last dial. *)
Definition rested (log : list conn_action) : Prop :=
  forall l1 l2, log = l1 ++ Dialed :: l2 -> Exists waited l2.
(** A wait lies between any two dials. *)
Definition spaced (log : list conn_action) : Prop :=
  forall l1 l2 l3, log = l1 ++ Dialed :: l2 ++ Dialed :: l3 -> Exists waited l2.

Lemma snoc_inv {X} (l l1 l2 : list X) (x y : X) :
  l ++ [x] = l1 ++ y :: l2 -> (l2 = [] /\ x = y /\ l = l1) \/ (exists l2', l2 = l2' ++ [x] /\ l = l1 ++ y :: l2').
Proof.
  intros E. destruct (decide (l2 = [])) as [->|Hne].
  - left. apply app_inj_tail in E as [-> ->]. done.
  - right. destruct (exists_last Hne) as (l2' & z & ->). rewrite app_comm_cons, app_assoc in E.
    apply app_inj_tail in E as [-> ->]. by exists l2'.
Qed.

Lemma spaced_snoc log a : spaced log -> a <> Dialed -> spaced (log ++ [a]).
Proof.
  intros Hs Ha l1 l2 l3 E. replace (l1 ++ Dialed :: l2 ++ Dialed :: l3) with ((l1 ++ Dialed :: l2) ++ Dialed :: l3) in E
    by by rewrite <- app_assoc.
  apply snoc_inv in E as [(_ & -> & _)|(l3' & -> & E)]; [done|].
  apply (Hs l1 l2 l3'). by rewrite E, <- app_assoc.
Qed.

Lemma spaced_dial log : spaced log -> rested log -> spaced (log ++ [Dialed]).
Proof.
  intros Hs Hr l1 l2 l3 E. replace (l1 ++ Dialed :: l2 ++ Dialed :: l3) with ((l1 ++ Dialed :: l2) ++ Dialed :: l3) in E
    by by rewrite <- app_assoc.
  apply snoc_inv in E as [(_ & _ & E)|(l3' & -> & E)]; [by apply (Hr l1 l2)|].
  apply (Hs l1 l2 l3'). by rewrite E, <- app_assoc.
Qed.

Lemma rested_wait log a : waited a -> rested (log ++ [a]).
Proof.
  intros Ha l1 l2 E. apply snoc_inv in E as [(_ & -> & _)|(l2' & -> & _)].
  - by destruct Ha as (d & ? & _).
  - apply Exists_app. right. by apply Exists_cons_hd.
Qed.

Lemma spaced_nil : spaced [].
Proof. intros l1 l2 l3 E. by destruct l1. Qed.
Lemma rested_nil : rested [].
Proof. intros l1 l2 E. by destruct l1. Qed.

Section ConnSpec.
Context {A : Type} (cfg : Config).
Context (onConnected : gmap string string -> Conn A -> Conn A) (onMessage : Envelope -> M (Conn A) unit).
Implicit Types c : Conn A.

(** A callback changes the application's state and sends; the rest is the loop's. *)
Definition callback (c c' : Conn A) : Prop :=
  cn_bo c' = cn_bo c /\ cn_ws c' = cn_ws c /\ exists envs, cn_log c' = cn_log c ++ map Wrote envs.

Hypothesis connected_ok : forall m c, callback c (onConnected m c).
Hypothesis message_ok : forall env c, callback c (snd (onMessage env c)).

Lemma callback_refl c : callback c c.
Proof. split; [done|]. split; [done|]. exists []. by rewrite app_nil_r. Qed.

Lemma callback_trans c1 c2 c3 : callback c1 c2 -> callback c2 c3 -> callback c1 c3.
Proof.
  intros (B1 & W1 & e1 & L1) (B2 & W2 & e2 & L2). split; [congruence|]. split; [congruence|].
  exists (e1 ++ e2). by rewrite L2, L1, map_app, app_assoc.
Qed.

Lemma spaced_writes log envs : spaced log -> spaced (log ++ map Wrote envs).
Proof.
  intros H. induction envs as [|e envs IH] using rev_ind; [by rewrite app_nil_r|].
  rewrite map_app, app_assoc. by apply spaced_snoc.
Qed.

(** ** Messages *)

(** What is handed over: everything but pongs and what is no envelope. *)
Definition deliverable (frames : list (option json)) : list Envelope :=
  omap (fun data => match Unmarshal data with
                    | Ok env => if bool_decide (env_Type env = TypePong) then None else Some env
                    | Err _ => None
                    end) frames.

Fixpoint handle_all (envs : list Envelope) (end_ : error) : M (Conn A) error :=
  match envs with
  | [] => ret end_
  | env :: rest => r <-? onMessage env;; match r with Err e => ret e | Ok _ => handle_all rest end_ end
  end.

Lemma readLoop_eq frames end_ c : readLoop onMessage frames end_ c = handle_all (deliverable frames) end_ c.
Proof.
  revert c. induction frames as [|data rest IH]; intros c; [done|]. cbn [readLoop deliverable omap list_omap].
  destruct (Unmarshal data) as [env|e]; [|apply IH]. case_bool_decide; [apply IH|].
  cbn [handle_all]. unfold try. destruct (onMessage env c) as [[u|e] c']; [apply IH|done].
Qed.

Lemma handle_all_callback envs end_ c :
  exists e, fst (handle_all envs end_ c) = Ok e /\ callback c (snd (handle_all envs end_ c)).
Proof.
  revert c. induction envs as [|env rest IH]; intros c; [exists end_; split; [done|apply callback_refl]|].
  cbn [handle_all]. unfold try. pose proof (message_ok env c) as Hm.
  destruct (onMessage env c) as [[u|e] c']; cbn [snd] in *.
  - destruct (IH c') as (e & He & Hc). exists e. split; [done|]. by eapply callback_trans.
  - by exists e.
Qed.

(** ** One turn *)
Definition good (c : Conn A) : Prop := 0 <= bo_attempt (cn_bo c) /\ spaced (cn_log c).

Lemma turn_end_spaced e stop c :
  0 <= se_random e < 2^53 -> good c -> bo_attempt (cn_bo c) < 2^63 - 1 ->
  exists b, fst (turn_end e stop c) = Ok b /\ cn_ws (snd (turn_end e stop c)) = cn_ws c /\
    good (snd (turn_end e stop c)) /\ (b = true -> rested (cn_log (snd (turn_end e stop c)))) /\
    bo_attempt (cn_bo (snd (turn_end e stop c))) <= bo_attempt (cn_bo c) + 1.
Proof.
  intros Hk [Ha Hs] Hlt. unfold turn_end. destruct (se_done e || stop).
  - exists false. cbn. repeat split; try done. lia.
  - destruct (Next_bounds (cn_bo c) (se_random e) ltac:(lia) Hk) as (_ & Hw & Hb).
    unfold bind, wait_next. destruct (Next (se_random e) (cn_bo c)) as [d b]. cbn in Hw, Hb |- *.
    assert (waited (Waited d)) as Hwd by (exists d; done).
    eexists. split; [done|]. split; [done|]. split; [split; [cbn; lia|by apply spaced_snoc]|].
    split; [intros _; by apply rested_wait|lia].
Qed.

Lemma register_eq e c :
  exists r l, register cfg e c = (r, MkClientConn (cn_bo c) (cn_ws c) (cn_app c) (cn_log c ++ map Wrote l)).
Proof.
  unfold register, bind, of_result, MarshalPayload. destruct (se_register e) as [err|].
  - exists (Err (Wrap "conn: send register request" err)), []. cbn. rewrite app_nil_r. by destruct c.
  - eexists _, [_]. cbn. done.
Qed.

(** What a turn leaves: no socket, and the loop goes on only after a wait. *)
Definition turned (c : Conn A) (r : result bool * Conn A) : Prop :=
  exists b, fst r = Ok b /\ cn_ws (snd r) = false /\ good (snd r) /\ (b = true -> rested (cn_log (snd r))) /\
    bo_attempt (cn_bo (snd r)) <= Z.max (bo_attempt (cn_bo c)) 0 + 1.

Lemma closing e stop code reason c0 c :
  0 <= se_random e < 2^53 -> good c -> bo_attempt (cn_bo c) <= Z.max (bo_attempt (cn_bo c0)) 0 < 2^63 - 1 ->
  turned c0 ((act (ClosedSocket code reason);; set_ws false;; turn_end e stop) c).
Proof.
  intros Hk [Ha Hs] Hlt.
  destruct (turn_end_spaced e stop (MkClientConn (cn_bo c) false (cn_app c) (cn_log c ++ [ClosedSocket code reason])) Hk)
    as (b & Hb & Hws & Hg & Hr & Hat); [split; [done|by apply spaced_snoc]|cbn; lia|].
  exists b. split; [exact Hb|]. split; [exact Hws|]. split; [exact Hg|]. split; [exact Hr|]. cbn in Hat |- *. 
  unfold bind, act, set_ws, modify. cbn. lia.
Qed.

Lemma turn_spaced e c :
  0 <= se_random e < 2^53 -> good c -> rested (cn_log c) -> cn_ws c = false -> bo_attempt (cn_bo c) < 2^63 - 1 ->
  turned c (turn cfg onConnected onMessage e c).
Proof.
  intros Hk [Ha Hs] Hr Hws Hlt. unfold turn. destruct (se_cancelled e).
  { exists false. cbn. repeat split; try done. lia. }
  unfold bind at 1. unfold act at 1, modify at 1.
  set (c1 := MkClientConn (cn_bo c) (cn_ws c) (cn_app c) (cn_log c ++ [Dialed])).
  assert (good c1) as Hg1 by (split; [done|by apply spaced_dial]).
  destruct (se_dial e).
  { destruct (turn_end_spaced e false c1 Hk Hg1 Hlt) as (b & Hb & Hw & Hg & Hre & Hat).
    exists b. split; [exact Hb|]. split; [by rewrite Hw|]. split; [exact Hg|]. split; [exact Hre|]. cbn in Hat. lia. }
  unfold bind at 1. unfold set_ws at 1, modify at 1. unfold bind at 1. unfold set_bo at 1, modify at 1.
  match goal with |- turned c (try _ _ ?x) => set (c2 := x) end.
  destruct (register_eq e c2) as (r & l & Hreg). unfold try at 1. rewrite Hreg.
  match goal with |- turned c (match r with Ok _ => _ | Err _ => _ end ?x) => set (c3 := x) end.
  assert (good c3) as Hg3 by (split; [cbn; lia|apply spaced_writes, Hg1]).
  destruct r as [settings|err]; [|apply closing; [done|done|cbn; lia]].
  unfold bind at 1. unfold modify at 1. unfold bind at 1. rewrite readLoop_eq.
  destruct (connected_ok settings c3) as (Hbo & _ & envs & Hlog).
  destruct (handle_all_callback (deliverable (se_frames e)) (se_end e) (onConnected settings c3))
    as (err & He & (Hbo' & _ & envs' & Hlog')).
  destruct (handle_all _ _ _) as [r' c4]. cbn [fst snd] in He, Hbo', Hlog'. subst r'.
  apply closing; [done| |].
  - split; [rewrite Hbo', Hbo; cbn; lia|]. rewrite Hlog', Hlog. apply spaced_writes, spaced_writes, Hg3.
  - rewrite Hbo', Hbo. cbn. lia.
Qed.

Lemma Run_spaced sessions c :
  Forall (fun e => 0 <= se_random e < 2^53) sessions -> good c -> rested (cn_log c) -> cn_ws c = false ->
  bo_attempt (cn_bo c) + Z.of_nat (length sessions) < 2^63 - 1 ->
  let c' := snd (Run cfg onConnected onMessage sessions c) in spaced (cn_log c') /\ cn_ws c' = false.
Proof.
  intros Hk. revert c. induction Hk as [|e rest Hk _ IH]; intros c Hg Hr Hws Hlt; [by destruct Hg|].
  cbn [Run length] in *. unfold bind.
  destruct (turn_spaced e c Hk Hg Hr Hws ltac:(lia)) as (b & Hb & Hws' & Hg' & Hr' & Hat).
  destruct (turn _ _ _ e c) as [r c']. cbn [fst snd] in *. subst r. destruct b; [|by destruct Hg'].
  destruct Hg. apply IH; [done|by apply Hr'|done|lia].
Qed.

(** C25. The client never hammers the server: however the network and the server behave,
    between any two dials of [Run] there is a wait of 0.8 to 72 seconds; and whenever the
    loop is between two turns, or has ended, the client holds no socket, so that sending
    fails with [ErrNotConnected]. *)
Theorem dials_are_spaced sessions (a : A) :
  Forall (fun e => 0 <= se_random e < 2^53) sessions -> Z.of_nat (length sessions) < 2^63 - 1 ->
  let c := snd (Run cfg onConnected onMessage sessions (New a)) in
  (forall l1 l2 l3, cn_log c = l1 ++ Dialed :: l2 ++ Dialed :: l3 ->
     exists d, Waited d ∈ l2 /\ 8 * 10^8 <= d <= 72 * 10^9) /\
  forall failure env, Send failure env c = (Err ErrNotConnected, c).
Proof.
  intros Hk Hlen c. destruct (Run_spaced sessions (New a) Hk (conj (Z.le_refl _) spaced_nil) rested_nil eq_refl Hlen) as [Hs Hw].
  fold c in Hs, Hw. split.
  - intros l1 l2 l3 E. apply Hs in E. apply Exists_exists in E as (x & Hx & d & -> & Hd). by exists d.
  - intros failure env. unfold Send. by rewrite Hw.
Qed.

(** ** A server that cannot be reached, and one that refuses *)
Lemma wait_next_eq k c :
  wait_next k c = (Ok tt, MkClientConn (snd (Next k (cn_bo c))) (cn_ws c) (cn_app c) (cn_log c ++ [Waited (fst (Next k (cn_bo c)))])).
Proof. unfold wait_next. by destruct (Next k (cn_bo c)). Qed.

(** A turn whose dial fails. *)
Definition unreachable (e : session) : Prop :=
  se_cancelled e = false /\ is_Some (se_dial e) /\ se_done e = false /\ se_wait_done e = false /\ 0 <= se_random e < 2^53.

(** While the server cannot be reached the waits grow: after n failures in a row the
    client has dialed n times, each dial followed by its wait, the k-th wait being 2^k
    seconds up to a minute, give or take a fifth. *)
Theorem unreachable_server_backs_off sessions (a : A) :
  Forall unreachable sessions -> Z.of_nat (length sessions) < 2^63 - 1 ->
  exists ws, cn_log (snd (Run cfg onConnected onMessage sessions (New a))) = flat_map (fun d => [Dialed; Waited d]) ws /\
    length ws = length sessions /\
    forall k w, ws !! k = Some w -> 4 * delay_of (Z.of_nat k) <= 5 * w <= 6 * delay_of (Z.of_nat k).
Proof.
  intros Hu Hlen.
  enough (forall c, 0 <= bo_attempt (cn_bo c) -> bo_attempt (cn_bo c) + Z.of_nat (length sessions) < 2^63 - 1 ->
    exists ws, cn_log (snd (Run cfg onConnected onMessage sessions c)) = cn_log c ++ flat_map (fun d => [Dialed; Waited d]) ws /\
      length ws = length sessions /\
      forall k w, ws !! k = Some w ->
        4 * delay_of (bo_attempt (cn_bo c) + Z.of_nat k) <= 5 * w <= 6 * delay_of (bo_attempt (cn_bo c) + Z.of_nat k)) as H
    by exact (H (New a) (Z.le_refl 0) Hlen).
  clear Hlen. induction Hu as [|e rest (Hc & [err Hd] & Hdn & Hwd & Hk) _ IH]; intros c Ha Hlt.
  { exists []. cbn. by rewrite app_nil_r. }
  cbn [Run]. unfold bind at 1. unfold turn. rewrite Hc. unfold bind at 1, act, modify. rewrite Hd.
  unfold turn_end. rewrite Hdn. cbn [orb]. unfold bind at 1. rewrite wait_next_eq. cbn [ret]. rewrite Hwd. cbn [negb].
  cbn [cn_bo cn_ws cn_app cn_log] in *. cbn [length] in Hlt.
  destruct (Next_bounds (cn_bo c) (se_random e) ltac:(lia) Hk) as (Hw & _ & Hat).
  destruct (Next (se_random e) (cn_bo c)) as [d b]. cbn [fst snd] in *.
  match goal with |- context [Run _ _ _ rest ?x] => destruct (IH x) as (ws & Hlog & Hl & Hws) end;
    cbn [cn_bo cn_log] in *; [lia|lia|].
  exists (d :: ws). rewrite Hlog. cbn [flat_map length]. split; [by rewrite <- !app_assoc|]. split; [by rewrite Hl|].
  intros [|k] w Hk'; cbn in Hk'; [injection Hk' as <-; by rewrite Z.add_0_r|].
  specialize (Hws k w Hk'). rewrite Hat in Hws. by replace (bo_attempt (cn_bo c) + Z.of_nat (S k)) with (bo_attempt (cn_bo c) + 1 + Z.of_nat k) by lia.
Qed.

(** A turn in which the server answers the dial and refuses the registration. *)
Definition refused (e : session) : Prop :=
  se_cancelled e = false /\ se_dial e = None /\ is_Some (match read_register_response (se_first e) with Err x => Some x | Ok _ => None end) /\
  se_done e = false /\ se_wait_done e = false /\ 0 <= se_random e < 2^53.

(** The backoff is reset by the dial, before the registration: a client the server refuses,
    for its protocol version for one, comes back every second for ever. *)
Theorem refused_client_does_not_back_off sessions c d :
  Forall refused sessions -> Waited d ∈ cn_log (snd (Run cfg onConnected onMessage sessions c)) ->
  Waited d ∈ cn_log c \/ d <= 12 * 10^8.
Proof.
  intros Hr. revert c. induction Hr as [|e rest (Hc & Hd & [err Hf] & Hdn & Hwd & Hk) _ IH]; intros c; [by left|].
  cbn [Run]. unfold bind at 1. unfold turn. rewrite Hc. unfold bind at 1, act at 1, modify at 1. rewrite Hd.
  unfold bind at 1, set_ws at 1, modify at 1. unfold bind at 1, set_bo at 1, modify at 1. cbn [cn_bo cn_ws cn_app cn_log].
  match goal with |- context [try (register cfg e) _ ?x] => set (c2 := x) end.
  assert (exists x l, register cfg e c2 = (Err x, MkClientConn (cn_bo c2) (cn_ws c2) (cn_app c2) (cn_log c2 ++ map Wrote l))) as (x & l & E).
  { unfold register, bind, of_result, MarshalPayload. destruct (se_register e).
    - eexists _, []. cbn. by rewrite app_nil_r.
    - destruct (read_register_response (se_first e)) as [|y]; [done|]. by exists y, [MkEnvelope TypeRegisterRequest "" (Some (encode_json (register_request cfg)))]. }
  unfold try at 1. rewrite E. unfold bind at 1, act at 1, modify at 1. unfold bind at 1, set_ws at 1, modify at 1.
  cbn [cn_bo cn_ws cn_app cn_log]. unfold turn_end. rewrite Hdn. cbn [orb]. unfold bind at 1. rewrite wait_next_eq. cbn [ret].
  rewrite Hwd. cbn [negb cn_bo cn_ws cn_app cn_log].
  destruct (Next_bounds (cn_bo c2) (se_random e) ltac:(cbn; lia) Hk) as (Hw & _ & _).
  change (bo_attempt (cn_bo c2)) with 0 in Hw. change (delay_of 0) with (10^9) in Hw.
  intros H%IH. unfold c2 in H. cbn [cn_log] in H. destruct H as [H|H]; [|by right].
  rewrite !elem_of_app, !list_elem_of_singleton in H.
  match type of H with _ \/ _ = Waited ?y => change y with (fst (Next (se_random e) (cn_bo c2))) in H end.
  set (w := fst (Next (se_random e) (cn_bo c2))) in *. clearbody w.
  destruct H as [[[[H|H]|H]|H]|H]; [by left|done| |done|].
  - apply list_elem_of_fmap in H as (y & ? & _). done.
  - right. injection H as ->. lia.
Qed.

(** ** Registration *)

(** C34. The two ends agree on registering: the server accepts the client's request, which
    reaches it as the client made it, and the client accepts the server's answer and starts
    with the server's settings. *)
Theorem client_registers_with_server {clk : Clock} e (t : tables) (n : nat) (h : hub) (c : Conn A) :
  se_register e = None -> hub_reachable h ->
  let sent := MkEnvelope TypeRegisterRequest "" (Some (encode_json (register_request cfg))) in
  exists k answer t' h',
    ServeWS (ReadMessage true (Some (encode_json sent))) true (quiet t n h) = (Ok (Running k answer), quiet t' (S (S (S n))) h') /\
    is_Some (t_clients t' !! cc_ClientID cfg) /\ h_conns h' !! cc_ClientID cfg = Some k /\
    (se_first e = ReadMessage true (Some (encode_json answer)) -> in_int64 (clock (S (S n))) = true ->
     register cfg e c = (Ok (fst <$> t_settings t), MkClientConn (cn_bo c) (cn_ws c) (cn_app c) (cn_log c ++ [Wrote sent]))).
Proof.
  intros Hr Hre sent. destruct (register_hub (cc_ClientID cfg) h Hre) as (Hc & _).
  pose proof (ServeWS_eq (register_request cfg) t n h ltac:(by vm_compute)) as E.
  eexists _, _, _, _. split; [exact E|]. split.
  { cbn. unfold upsert_client_row. cbn. destruct (t_clients t !! cc_ClientID cfg); rewrite lookup_insert_eq; by eexists. }
  split.
  { exact Hc. }
  intros Hf Hi. unfold register, bind, of_result, MarshalPayload. rewrite Hr, Hf. unfold act, modify, read_register_response.
  rewrite Unmarshal_encode. cbn [env_Type env_Payload]. decide_closed. cbn [negb].
  by rewrite (UnmarshalPayload_encode (MkRegisterResponse true (clock (S (S n))) (fst <$> t_settings t) "")).
Qed.
End ConnSpec.

(** ** A concrete loop *)
Module Loop.
Definition loop_cfg : Config := MkConnConfig "alice" "host" "/data" "0.2.3".
(** The application counts the messages. *)
Definition count (env : Envelope) : M (Conn nat) unit :=
  modify (fun c => MkClientConn (cn_bo c) (cn_ws c) (S (cn_app c)) (cn_log c)).
Definition no_answer : session :=
  MkSession false (Some (Errorf "connection refused")) None (ReadError (Errorf "EOF")) [] (Errorf "EOF") false false (2^52).
Definition refusal : session :=
  MkSession false None None (ReadError (Errorf "closed with 4001")) [] (Errorf "EOF") false false 0.
Definition welcome : session :=
  MkSession false None None
    (ReadMessage true (Some (encode_json (MkEnvelope TypeRegisterResponse "" (Some (encode_json (MkRegisterResponse true 1 ∅ "")))))))
    [Some (encode_json (MkEnvelope "pong" "" None)); None; Some (encode_json (MkEnvelope "x" "" None))] (Errorf "EOF") false false 7.
End Loop.
Import Loop.

Lemma dials_are_spaced_witness :
  let c := snd (Run loop_cfg (fun _ c => c) count [no_answer; welcome; refusal] (New O)) in
  cn_app c = 1%nat /\ cn_ws c = false /\ exists d, Waited d ∈ [Waited (10^9)] /\ 8 * 10^8 <= d.
Proof.
  pose proof (dials_are_spaced loop_cfg (fun _ c => c) count (fun _ c => callback_refl c)
    (fun _ c => conj eq_refl (conj eq_refl (ex_intro _ [] (eq_sym (app_nil_r _))))) [no_answer; welcome; refusal] O
    ltac:(repeat (apply Forall_cons_2; [by vm_compute|]); apply Forall_nil_2) ltac:(done)) as [H _].
  cbv zeta. split; [by vm_compute|].
  destruct (H [] [Waited (10^9)] (drop 3 (cn_log (snd (Run loop_cfg (fun _ c => c) count [no_answer; welcome; refusal] (New O))))))
    as (d & Hd & Hb & _); [by vm_compute|]. split; [by vm_compute|]. exists d. by split.
Defined.

Lemma unreachable_server_backs_off_witness :
  exists w1 w2, cn_log (snd (Run loop_cfg (fun _ (c : Conn nat) => c) count [no_answer; no_answer] (New O))) =
    [Dialed; Waited w1; Dialed; Waited w2] /\ 8 * 10^8 <= w1 <= 12 * 10^8 /\ 16 * 10^8 <= w2 <= 24 * 10^8.
Proof.
  destruct (unreachable_server_backs_off loop_cfg (fun _ c => c) count [no_answer; no_answer] O
    ltac:(repeat (apply Forall_cons_2; [split; [done|]; split; [by eexists|]; split; [done|]; split; [done|]; by vm_compute|]);
      apply Forall_nil_2) ltac:(done)) as (ws & E & Hl & H).
  destruct ws as [|w1 [|w2 [|]]]; try discriminate Hl. exists w1, w2. split; [exact E|].
  pose proof (H 0%nat w1 eq_refl) as H1. pose proof (H 1%nat w2 eq_refl) as H2.
  change (delay_of (Z.of_nat 0)) with (10^9) in H1. change (delay_of (Z.of_nat 1)) with (2 * 10^9) in H2. lia.
Defined.

Lemma client_registers_with_server_witness : exists k answer t' h',
  ServeWS (clk:=Demo.demo_clock) (ReadMessage true (Some (encode_json (MkEnvelope TypeRegisterRequest ""
    (Some (encode_json (register_request loop_cfg))))))) true (quiet empty_tables 0 Hub.New) = (Ok (Running k answer), quiet t' 3 h') /\
  read_register_response (ReadMessage true (Some (encode_json answer))) = Ok ∅.
Proof.
  destruct (client_registers_with_server (A:=nat) (clk:=Demo.demo_clock) loop_cfg welcome empty_tables 0 Hub.New (New O)
    eq_refl ltac:(constructor)) as (k & answer & t' & h' & E & _).
  exists k, answer, t', h'. split; [exact E|].
  assert (fst (ServeWS (clk:=Demo.demo_clock) (ReadMessage true (Some (encode_json (MkEnvelope TypeRegisterRequest ""
    (Some (encode_json (register_request loop_cfg))))))) true (quiet empty_tables 0 Hub.New)) = Ok (Running k answer)) as E'
    by by rewrite E.
  clear E. assert (forall r, fst (ServeWS (clk:=Demo.demo_clock) (ReadMessage true (Some (encode_json (MkEnvelope TypeRegisterRequest ""
    (Some (encode_json (register_request loop_cfg))))))) true (quiet empty_tables 0 Hub.New)) = Ok (Running k r) ->
    read_register_response (ReadMessage true (Some (encode_json r))) = Ok ∅) as Hr; [|by apply Hr].
  clear. intros r E. vm_compute in E. injection E as <- <-. by vm_compute.
Defined.
