(* ===== verification/ClientApp.v ===== *)
(** internal/client/app/app.go: what the client does when its connection (Conn.v) is up and
    when a message arrives, with the runner (Runner.v) it makes for each connection.

    A runner whose watcher was started reacts to the changes under the jail until the
    process ends: the app drops its reference to it ([r] is the last one made) but only
    [Run]'s deferred call stops one, the last.  All runners share the disk and the
    connection.  The JSON parser is a parameter. *)
From S2P Require Import Prelude GoStrings Json Proto Paths Store Sha256 BlobStore Http HttpBlobs Ignore Registry Suppress Disk Jail JailCalm Transfer Watcher Runner RunnerSpec.
Local Open Scope Z_scope.
Local Open Scope go_scope.

(** What a runner keeps of its own. *)
Record live : Type := MkLive {
  lv_IgnoreList : list string;
  lv_reg : Registry;
  lv_supp : Suppressor;
  lv_commands : list FileSyncCommand;
  lv_watching : bool            (* Start succeeded *)
}.

Record App (W S : Type) : Type := MkApp {
  ap_peer : peer W;
  ap_conn : S;
  ap_tick : nat;
  ap_runners : list live
}.
Arguments MkApp {W S} _ _ _ _.
Arguments ap_peer {W S} _.
Arguments ap_conn {W S} _.
Arguments ap_tick {W S} _.
Arguments ap_runners {W S} _.

Section ClientApp.
Context {W S : Type} `{!Network W} `{!Sender S} {clk : Clock} {lstat : LstatInfo}.
Context (cfg : Config) (json_parse : string -> option json).
Notation A := (App W S).

(** [parseIgnoreList(settings["ignore_list"])] *)
Definition settings_ignore_list (settings : gmap string string) : list string :=
  parseIgnoreList (json_parse (default "" (settings !! "ignore_list"))).

(** The callback for a new connection; [started] tells whether the watcher could start. *)
Definition onConnected (settings : gmap string string) (started : bool) (a : A) : A :=
  let ignoreList := mergeIgnoreList [DefaultIgnoreList; settings_ignore_list settings] in
  MkApp (ap_peer a) (ap_conn a) (ap_tick a)
    (ap_runners a ++ [MkLive ignoreList NewRegistry NewSuppressor [] started]).

(** A method of the [i]-th runner. *)
Definition on_runner (i : nat) (m : live -> M (client W S) unit) : M A unit := fun a =>
  match ap_runners a !! i with
  | None => (Ok tt, a)
  | Some l =>
      let '(r, c) := m l (MkClientState (ap_peer a) (lv_reg l) (lv_supp l) (ap_conn a) (lv_commands l) (ap_tick a)) in
      (r, MkApp (c_peer c) (c_conn c) (c_tick c)
            (<[i := MkLive (lv_IgnoreList l) (c_reg c) (c_supp c) (c_commands c) (lv_watching l)]> (ap_runners a)))
  end.

(** The callback for a message: it goes to the newest runner. *)
Definition onMessage (env : Envelope) : M A unit := fun a =>
  match ap_runners a with
  | [] => (Ok tt, a)
  | _ => on_runner (length (ap_runners a) - 1) (fun l => HandleEnvelope cfg (lv_IgnoreList l) env) a
  end.

(** A goroutine of the [i]-th runner runs its [j]-th command. *)
Definition onCommand (i j : nat) : M A unit := on_runner i (fun _ => run_command cfg j).

(** The [i]-th runner's watcher delivers [wev]. *)
Definition onChange (i : nat) (wev : Event) : M A unit := on_runner i (fun l =>
  if lv_watching l then for_each (translate wev (lv_reg l)) (handleLocalChange cfg) else ret tt).

(** ** What a new connection starts with *)

(** The runner of a new connection ignores the default patterns and those of the server's
    settings, and nothing else; it knows no subscription and suppresses nothing. *)
Lemma onConnected_runner settings started a p :
  exists l, last (ap_runners (onConnected settings started a)) = Some l /\
    (p ∈ lv_IgnoreList l <-> p <> "" /\ (p ∈ DefaultIgnoreList \/ p ∈ settings_ignore_list settings)) /\
    lv_reg l = NewRegistry /\ lv_supp l = NewSuppressor /\ lv_commands l = [].
Proof.
  eexists. split; [apply last_snoc|]. split; [|done]. cbn [lv_IgnoreList].
  rewrite mergeIgnoreList_spec. generalize DefaultIgnoreList. intros l.
  setoid_rewrite elem_of_cons. setoid_rewrite list_elem_of_singleton. naive_solver.
Qed.

(** ** Runners that stay behind *)

(** What one runner does leaves what the others keep alone, and messages go to the newest. *)
Lemma on_runner_others i m (a : A) j : i <> j -> ap_runners (snd (on_runner i m a)) !! j = ap_runners a !! j.
Proof.
  intros Hne. unfold on_runner. destruct (ap_runners a !! i) as [l|]; [|done].
  destruct (m l _) as [r c]. cbn. by rewrite list_lookup_insert_ne.
Qed.

Lemma onMessage_others env (a : A) i : (Datatypes.S i < length (ap_runners a))%nat -> ap_runners (snd (onMessage env a)) !! i = ap_runners a !! i.
Proof.
  intros Hi. unfold onMessage. destruct (ap_runners a) as [|l rest] eqn:E; [cbn in Hi; lia|]. rewrite <- E.
  apply on_runner_others. rewrite E. cbn in *. lia.
Qed.

Lemma onChange_delete i l wev ev (a : A) :
  ap_runners a !! i = Some l -> lv_watching l = true -> translate wev (lv_reg l) = [ev] -> ev_Op ev = "delete" ->
  s_m (lv_supp l) !! ev_RelPath ev = None -> (forall e (s : S), fst (send_env e s) = Ok tt) ->
  let a' := snd (onChange i wev a) in
  ap_conn a' = snd (send_env (MkEnvelope TypeFileChangedEvent "" (Some (encode_json ev))) (ap_conn a)) /\
  ap_peer a' = ap_peer a /\ forall j, j <> i -> ap_runners a' !! j = ap_runners a !! j.
Proof.
  intros Hl Hw Ht Hop Hs Hsend a'. split; [|split].
  3:{ intros j Hj. by apply on_runner_others. }
  all: unfold a', onChange, on_runner; rewrite Hl, Hw, Ht; cbn [for_each];
    unfold handleLocalChange, suppressed, report; rewrite Hop; decide_closed; unfold try, bind, on_supp, Hit, live_entry;
    cbn [c_supp c_tick]; rewrite Hs; cbn; unfold Send; cbn [c_conn];
    (destruct (send_env _ _) as [r s]; done).
Qed.

(** A reconnection leaves the old runner watching, with the subscriptions of its own
    connection: the deletion of one file of a pair both runners know is reported twice. *)
Theorem reconnected_client_reports_twice i j li lj wev ev (a : A) :
  i <> j -> ap_runners a !! i = Some li -> ap_runners a !! j = Some lj ->
  lv_watching li = true -> lv_watching lj = true ->
  translate wev (lv_reg li) = [ev] -> translate wev (lv_reg lj) = [ev] -> ev_Op ev = "delete" ->
  s_m (lv_supp li) !! ev_RelPath ev = None -> s_m (lv_supp lj) !! ev_RelPath ev = None ->
  (forall e (s : S), fst (send_env e s) = Ok tt) ->
  let send s := snd (send_env (MkEnvelope TypeFileChangedEvent "" (Some (encode_json ev))) s) in
  ap_conn (snd (onChange j wev (snd (onChange i wev a)))) = send (send (ap_conn a)).
Proof.
  intros Hij Hi Hj Hwi Hwj Hti Htj Hop Hsi Hsj Hsend.
  destruct (onChange_delete i li wev ev a Hi Hwi Hti Hop Hsi Hsend) as (Hc & _ & Ho).
  destruct (onChange_delete j lj wev ev (snd (onChange i wev a))) as (Hc' & _); try done.
  { by rewrite Ho by done. }
  cbv zeta in *. by rewrite Hc', Hc.
Qed.
End ClientApp.

(** ** A reconnection *)
Module Reconnect.
Import Demo_client.
Definition subscribe : Envelope := MkEnvelope TypeSubscribePair "" (Some (encode_json demo_sub)).
Definition fetch : Envelope := MkEnvelope TypeFileSyncCommand "" (Some (encode_json demo_fetch)).
Definition start : App nat (list Envelope) := MkApp (MkPeer (JailCalm.quiet client_nodes 0) O) [] 0 [].
(** Connect and subscribe; connect again and subscribe again. *)
Definition twice : App nat (list Envelope) :=
  let connect a := snd (onMessage client_cfg subscribe (onConnected (fun _ => None) ∅ true a)) in connect (connect start).
(** The new runner fetches docs/n. *)
Definition fetched : App nat (list Envelope) := snd (onCommand client_cfg 1 0 (snd (onMessage client_cfg fetch twice))).
Definition seen : Event := MkEvent "docs/n" OpWrite abc_hex 3 (Some 7).
End Reconnect.
Import Demo_client Reconnect.

(** The echo of a fetch is absorbed by the runner that fetched, and reported by the one the
    reconnection left behind. *)
Theorem reconnected_client_echoes :
  map env_Type (ap_conn fetched) = [TypeFileSyncAck] /\
  ap_conn (snd (onChange client_cfg 1 seen fetched)) = ap_conn fetched /\
  map env_Type (ap_conn (snd (onChange client_cfg 0 seen fetched))) = [TypeFileSyncAck; TypeFileChangedEvent].
Proof. by vm_compute. Qed.
