(* ===== verification/Web.v ===== *)
(** internal/server/web: the administration pages (web.go, pairs.go, settings.go, runs.go,
    browse.go), the handlers that change the pairs, the clients and the settings.

    The state is the engine's [world] with the hub as its network.  A page is the template's
    name with its data, a [view]; what html/template makes of it is a parameter, the bytes
    written and the error, and so are the local time zone's rendering of a time.  A new
    UUID is an argument, and so is the query of the URL where a handler reads it.
    [handlePairUpdate] is in two parts, what it reads and what it writes, for another
    request may come between.  Static files and the browsers' socket are not modelled. *)
From S2P Require Import Prelude GoStrings Json Proto Store StoreFacts Lww Engine Hub Http HttpBlobs Paths Session ListDir.
From Stdlib Require Import Ascii.
Local Open Scope Z_scope.
Local Open Scope go_scope.

Definition StatusConflict := 409.
Definition StatusPreconditionFailed := 412.

(** ** Views *)
Record ClientView : Type := MkClientView { vw_Client : Client; vw_LastSeenString : string }.
Record PairView : Type := MkPairView {
  vw_SyncPair : SyncPair; vw_ClientAName : string; vw_ClientBName : string; vw_CSRFToken : string
}.
Record pairEditData : Type := MkPairEditData {
  pe_Action : string; pe_Pair : PairView; pe_Clients : list Client; pe_CSRFToken : string
}.
Record SettingView : Type := MkSettingView { vs_Key : string; vs_Value : string; vs_CSRFToken : string }.
Record RunView : Type := MkRunView {
  vr_ID : Z; vr_PairID : string; vr_PairName : string; vr_SrcClientID : string; vr_DstClientID : string;
  vr_RelPath : string; vr_SHA256Short : string; vr_Bytes : Z; vr_Status : string; vr_Error : string;
  vr_StartedAtString : string; vr_FinishedAtString : string; vr_DurationMs : Z
}.
Record runsPageData : Type := MkRunsPageData {
  rg_Runs : list RunView; rg_Pairs : list SyncPair; rg_SelectedPairID : string; rg_SelectedStatus : string;
  rg_Limit : Z; rg_CSRFToken : string
}.
Record browseData : Type := MkBrowseData {
  bd_Title : string; bd_ClientID : string; bd_ClientLabel : string; bd_CurrentPath : string; bd_Parent : string;
  bd_Entries : list DirEntry; bd_Error : string; bd_CSRFToken : string
}.

(** The templates the handlers execute, with their data. *)
Inductive view : Type :=
| clients_page (l : list ClientView) (csrf : string)
| client_edit_row (v : ClientView) (csrf : string)
| client_row (v : ClientView)
| pairs_page (l : list PairView)
| pairs_content (l : list PairView)
| pair_edit_form (d : pairEditData)
| pair_row (v : PairView)
| settings_page (l : list SettingView)
| setting_row (v : SettingView)
| setting_edit_row (v : SettingView)
| runs_page (d : runsPageData)
| browse_page (d : browseData)
| browse_listing (d : browseData).

(** [Config]: whether the dependencies are there. *)
Record Config : Type := MkWebConfig { wc_Publisher : bool; wc_Hub : bool }.

(** What [app.Run] passes to [web.NewServer]. *)
Definition app_web_config : Config := MkWebConfig true false.

(** ** Pure helpers *)
Definition clientDisplayName (c : Client) : string :=
  if negb (bool_decide (c_DisplayName c = "")) then c_DisplayName c else c_Hostname c.

Definition clientsMap (l : list Client) : gmap string Client := foldl (fun m c => <[c_ID c := c]> m) ∅ l.

Definition toPairView (p : SyncPair) (clientsByID : gmap string Client) (csrf : string) : PairView :=
  let name id := match clientsByID !! id with Some c => clientDisplayName c | None => "" end in
  MkPairView p (name (p_ClientAID p)) (name (p_ClientBID p)) csrf.

Definition defaultRunsLimit : Z := 100.
Definition maxRunsLimit : Z := 1000.

Definition parseRunsLimit (s : string) : Z :=
  match ParseInt s with
  | None => defaultRunsLimit
  | Some n => if n <=? 0 then defaultRunsLimit else if maxRunsLimit <? n then maxRunsLimit else n
  end.

Definition filterRunsByStatus (runs : list SyncRun) (status : string) : list SyncRun :=
  filter (fun r => r_Status r = status) runs.

Definition indexPairsByID (pairs : list SyncPair) : gmap string SyncPair := foldl (fun m p => <[p_ID p := p]> m) ∅ pairs.

(** [path.Dir] *)
Definition path_Dir (p : string) : string :=
  match reverse (split_slash p) with
  | _ :: (_ :: _) as front => Clean (join_slash (reverse (tail front)) +:+ "/")
  | _ => "."
  end.

Definition cleanBrowsePath (raw : string) : string := if bool_decide (raw = "") then "." else Clean raw.

Definition parentPath (p : string) : string :=
  if bool_decide (p = ".") || bool_decide (p = "/") then "." else path_Dir p.

Definition clientLabel (displayName hostname rootPath : string) : string :=
  (if bool_decide (displayName = "") then hostname else displayName) +:+ " (" +:+ rootPath +:+ ")".

Definition parseBrowsePath (urlPath : string) : option string :=
  match SplitN2 (TrimPrefix urlPath "/clients/") "/"%char with
  | [id; rest] => if bool_decide (rest = "browse") then Some id else None
  | _ => None
  end.

(** [Time.Sub], in nanoseconds: it saturates. *)
Definition sub_time (a b : Z) : Z := Z.max int64_min (Z.min int64_max (a - b)).

Definition PostFormValue (r : request) (k : string) : string :=
  match rq_Form r with Some form => form k | None => "" end.

Section Web.
Context {clk : Clock}.
Context (ExecuteTemplate : view -> string * option error) (Format : Z -> string) (Year : Z -> Z).
Context (cfg : Config).
Notation W := (world hub).

Definition html : list (string * string) := [("Content-Type", "text/html; charset=utf-8")].

(** A partial: an error of the template is only logged. *)
Definition render (v : view) : response := MkResponse StatusOK html (BodyText (fst (ExecuteTemplate v))).

(** A page: after an error [http.Error] is too late for the status if anything is written. *)
Definition or_Error (message : error -> string) (v : view) : response :=
  match ExecuteTemplate v with
  | (text, None) => MkResponse StatusOK html (BodyText text)
  | (text, Some e) =>
      if bool_decide (text = "") then http_Error (message e) StatusInternalServerError
      else MkResponse StatusOK html (BodyText (text +:+ message e))
  end.
Definition renderPage (v : view) : response := or_Error (fun _ => "internal server error") v.

Definition internal : response := http_Error "internal server error" StatusInternalServerError.
Definition not_allowed : response := http_Error "method not allowed" StatusMethodNotAllowed.
Definition store_failed (e : error) : response := http_Error (error_text e) StatusInternalServerError.

(** ** Clients (web.go) *)

(** A stored time is never Go's zero time. *)
Definition toClientView (c : Client) : ClientView :=
  MkClientView c (if 1970 <? Year (c_LastSeen c) then Format (c_LastSeen c) else "never").

Definition clientsListHandler (r : request) : M W response :=
  if negb (bool_decide (rq_Path r = "/")) then ret NotFound
  else
    l <-? on_store ListClients;;
    ret (match l with
         | Err e => store_failed e
         | Ok l => renderPage (clients_page (map toClientView l) (rq_CSRF r))
         end).

(** [GetClient], as the handlers use it: [None] for no row and for an error alike. *)
Definition found {A} (m : M store (option A)) : M W (option A) :=
  c <-? on_store m;; ret (match c with Ok c => c | Err _ => None end).

Definition handleClientEdit (r : request) (id : string) : M W response :=
  if negb (bool_decide (rq_Method r = "GET")) then ret not_allowed
  else
    c <- found (GetClient id);;
    ret (match c with None => NotFound | Some c => render (client_edit_row (toClientView c) (rq_CSRF r)) end).

Definition handleClientCancel (r : request) (id : string) : M W response :=
  if negb (bool_decide (rq_Method r = "GET")) then ret not_allowed
  else
    c <- found (GetClient id);;
    ret (match c with None => NotFound | Some c => render (client_row (toClientView c)) end).

Definition edit_conflict : response :=
  MkResponse StatusPreconditionFailed [] (BodyText ("<td colspan=" +:+ dquote +:+ "6" +:+ dquote +:+
    ">Edit conflict: client was modified by another user. <a href=" +:+ dquote +:+ "/" +:+ dquote +:+ ">Refresh</a></td>")).

Definition handleClientDisplayName (r : request) (id : string) : M W response :=
  if negb (bool_decide (rq_Method r = "POST")) then ret not_allowed
  else match ParseInt (PostFormValue r "etag") with
  | None => ret (http_Error "invalid etag" StatusBadRequest)
  | Some etag =>
      u <-? on_store (UpdateClientDisplayName id (PostFormValue r "display_name") etag);;
      match u with
      | Err e => if errors_Is e ErrEtagMismatch then ret edit_conflict else ret (store_failed e)
      | Ok _ =>
          c <- found (GetClient id);;
          ret (match c with
               | None => http_Error "client not found after update" StatusInternalServerError
               | Some c => render (client_row (toClientView c))
               end)
      end
  end.

Definition handleClientDelete (id : string) : M W response :=
  c <- found (GetClient id);;
  match c with
  | None => ret NotFound
  | Some c =>
      if bool_decide (c_Status c = "online") then ret (http_Error "cannot delete online client" StatusConflict)
      else
        d <-? on_store (DeleteClient id);;
        match d with
        | Err e => ret (store_failed e)
        | Ok _ =>
            let detail := "{" +:+ dquote +:+ "hostname" +:+ dquote +:+ ":" +:+ Quote (c_Hostname c) +:+ "," +:+
                          dquote +:+ "root_path" +:+ dquote +:+ ":" +:+ Quote (c_RootPath c) +:+ "}" in
            ws_audit "client_delete" id (Some detail);;
            ret (MkResponse StatusOK [] NoBody)
        end
  end.

Definition clientRowHandler (r : request) (id action : string) : M W response :=
  if bool_decide (action = "edit") then handleClientEdit r id
  else if bool_decide (action = "cancel") then handleClientCancel r id
  else if bool_decide (action = "display-name") then handleClientDisplayName r id
  else ret NotFound.

(** ** Pairs (pairs.go) *)
Definition auditPairAction (kind pairID : string) : M W unit :=
  t <- on_store now;;
  let d := "{" +:+ dquote +:+ "pair_id" +:+ dquote +:+ ":" +:+ Quote pairID +:+ "}" in
  _ <-? on_store (AppendAuditLog (MkAuditEntry t kind None (Some pairID) None (Some d)));;
  ret tt.

Definition publishPairUpdate (pairID : string) : M W unit :=
  if negb (wc_Publisher cfg) then ret tt else _ <-? PublishPairUpdate pairID;; ret tt.
Definition publishPairUnsubscribe (pairID : string) : M W unit :=
  if negb (wc_Publisher cfg) then ret tt else _ <-? PublishPairUnsubscribe pairID;; ret tt.

Definition loadPairsAndClients : M W (list SyncPair * list Client) :=
  pairs <- wrapped "list pairs" (on_store ListPairs);;
  clients <- wrapped "list clients" (on_store ListClients);;
  ret (pairs, clients).

Definition pair_views (csrf : string) (pc : list SyncPair * list Client) : list PairView :=
  map (fun p => toPairView p (clientsMap (snd pc)) csrf) (fst pc).

Definition pairsListHandler (r : request) : M W response :=
  if negb (bool_decide (rq_Method r = "GET")) then ret not_allowed
  else
    pc <-? loadPairsAndClients;;
    ret (match pc with
         | Err _ => internal
         | Ok pc => renderPage (pairs_page (pair_views (rq_CSRF r) pc))
         end).

Definition new_pair : SyncPair := MkSyncPair "" "" "" "" "" "" "" true 0 0 0.

Definition handlePairNewForm (r : request) : M W response :=
  l <-? on_store ListClients;;
  ret (match l with
       | Err _ => internal
       | Ok l => render (pair_edit_form (MkPairEditData "new" (MkPairView new_pair "" "" (rq_CSRF r)) l (rq_CSRF r)))
       end).

(** The pair a form describes. *)
Definition form_pair (form : string -> string) (id : string) (created updated : Z) : SyncPair :=
  MkSyncPair id (form "name") (form "client_a_id") (form "path_a") (form "client_b_id") (form "path_b")
    (form "direction") (bool_decide (form "enabled" = "1")) created updated 0.

Definition handlePairCreate (r : request) (uuid : string) : M W response :=
  match rq_Form r with
  | None => ret (http_Error "bad request" StatusBadRequest)
  | Some form =>
      created <- on_store now;;
      updated <- on_store now;;
      let p := form_pair form uuid created updated in
      u <-? on_store (UpsertPair p);;
      match u with
      | Err _ => ret internal
      | Ok _ =>
          auditPairAction "pair_create" (p_ID p);;
          publishPairUpdate (p_ID p);;
          pc <-? loadPairsAndClients;;
          ret (match pc with
               | Err _ => internal
               | Ok pc => render (pairs_content (pair_views (rq_CSRF r) pc))
               end)
      end
  end.

(** A page about one pair and the clients. *)
Definition pair_page (p : SyncPair) (r : request) (page : PairView -> list Client -> view) : M W response :=
  l <-? on_store ListClients;;
  ret (match l with
       | Err _ => internal
       | Ok l => render (page (toPairView p (clientsMap l) (rq_CSRF r)) l)
       end).

Definition handlePairEditForm (r : request) (id : string) : M W response :=
  p <- found (GetPair id);;
  match p with
  | None => ret NotFound
  | Some p => pair_page p r (fun v l => pair_edit_form (MkPairEditData id v l (rq_CSRF r)))
  end.

Definition handlePairCancelEdit (r : request) (id : string) : M W response :=
  p <- found (GetPair id);;
  match p with
  | None => ret NotFound
  | Some p => pair_page p r (fun v _ => pair_row v)
  end.

(** [handlePairUpdate] up to its write: the pair to store, with the one it replaces. *)
Definition pair_update_read (r : request) (id : string) : M W (response + (SyncPair * SyncPair)) :=
  match rq_Form r with
  | None => ret (inl (http_Error "bad request" StatusBadRequest))
  | Some form =>
      existing <- found (GetPair id);;
      match existing with
      | None => ret (inl NotFound)
      | Some existing =>
          if negb (bool_decide (ParseInt (form "etag") = Some (p_Etag existing)))
          then ret (inl (http_Error "precondition failed: etag mismatch" StatusPreconditionFailed))
          else
            updated <- on_store now;;
            ret (inr (form_pair form id (p_CreatedAt existing) updated, existing))
      end
  end.

(** The rest of it. *)
Definition pair_update_write (r : request) (id : string) (p existing : SyncPair) : M W response :=
  u <-? on_store (UpsertPair p);;
  match u with
  | Err _ => ret internal
  | Ok _ =>
      auditPairAction "pair_update" (p_ID p);;
      (if p_Enabled p then publishPairUpdate (p_ID p)
       else if p_Enabled existing then publishPairUnsubscribe (p_ID p) else ret tt);;
      updated <- found (GetPair id);;
      match updated with
      | None => ret internal
      | Some q => pair_page q r (fun v _ => pair_row v)
      end
  end.

Definition handlePairUpdate (r : request) (id : string) : M W response :=
  x <- pair_update_read r id;;
  match x with
  | inl p => ret p
  | inr (p, existing) => pair_update_write r id p existing
  end.

Definition handlePairDelete (id : string) : M W response :=
  d <-? on_store (DeletePair id);;
  match d with
  | Err _ => ret internal
  | Ok _ =>
      auditPairAction "pair_delete" id;;
      publishPairUnsubscribe id;;
      ret (MkResponse StatusOK [] NoBody)
  end.

Definition pairFormHandler (r : request) (uuid : string) : M W response :=
  let path := TrimPrefix (rq_Path r) "/pairs/" in
  let get := bool_decide (rq_Method r = "GET") in
  if bool_decide (path = "new") && get then handlePairNewForm r
  else if bool_decide (path = "new/cancel") && get then ret (MkResponse StatusOK html NoBody)
  else if bool_decide (path = "new") && bool_decide (rq_Method r = "POST") then handlePairCreate r uuid
  else if HasSuffix path "/edit" && get then handlePairEditForm r (TrimSuffix path "/edit")
  else if HasSuffix path "/cancel" && get then handlePairCancelEdit r (TrimSuffix path "/cancel")
  else if bool_decide (rq_Method r = "POST") then handlePairUpdate r path
  else if bool_decide (rq_Method r = "DELETE") then handlePairDelete path
  else ret NotFound.

(** ** Settings (settings.go) *)
Definition settingsListHandler (r : request) : M W response :=
  if negb (bool_decide (rq_Path r = "/settings")) then ret NotFound
  else
    all <-? on_store LoadAllSettings;;
    ret (match all with
         | Err e => store_failed e
         | Ok all => renderPage (settings_page (merge_sort (by_key String.le vs_Key)
             (map (fun '(k, v) => MkSettingView k v (rq_CSRF r)) (map_to_list all))))
         end).

Definition settingRowHandler (r : request) : M W response :=
  let path := TrimPrefix (rq_Path r) "/settings/" in
  if bool_decide (rq_Method r = "POST") then
    let key := TrimSuffix path "/" in
    let value := PostFormValue r "value" in
    u <-? on_store (SetSetting key value);;
    ret (match u with
         | Err e => store_failed e
         | Ok _ => render (setting_row (MkSettingView key value (rq_CSRF r)))
         end)
  else match SplitN2 path "/"%char with
  | [key; action] =>
      v <-? on_store (GetSetting key);;
      ret (match v with
           | Err _ => NotFound
           | Ok v =>
               if bool_decide (action = "edit") then render (setting_edit_row (MkSettingView key v (rq_CSRF r)))
               else if bool_decide (action = "cancel") then render (setting_row (MkSettingView key v (rq_CSRF r)))
               else NotFound
           end)
  | _ => ret NotFound
  end.

(** ** Runs (runs.go) *)
Definition toRunView (r : SyncRun) (pairsByID : gmap string SyncPair) : RunView :=
  MkRunView (r_ID r) (r_PairID r) (match pairsByID !! r_PairID r with Some p => p_Name p | None => "" end)
    (r_SrcClientID r) (r_DstClientID r) (r_RelPath r)
    (match r_SHA256 r with
     | Some sha => if (8 <=? String.length sha)%nat then String.substring 0 8 sha else ""
     | None => ""
     end)
    (r_Bytes r) (r_Status r) (default "" (r_Error r)) (Format (r_StartedAt r)) (Format (r_FinishedAt r))
    (Z.quot (sub_time (r_FinishedAt r) (r_StartedAt r)) (10^6)).

Definition toRunViews (runs : list SyncRun) (pairsByID : gmap string SyncPair) : list RunView :=
  map (fun r => toRunView r pairsByID) runs.

Definition runsListHandler (r : request) (q : string -> string) : M W response :=
  if negb (bool_decide (rq_Path r = "/runs")) then ret NotFound
  else
    let limit := parseRunsLimit (q "limit") in
    runs <-? on_store (ListRecentSyncRuns (q "pair_id") limit);;
    match runs with
    | Err e => ret (store_failed e)
    | Ok runs =>
        let runs := if bool_decide (q "status" = "") then runs else filterRunsByStatus runs (q "status") in
        pairs <-? on_store ListPairs;;
        ret (match pairs with
             | Err e => store_failed e
             | Ok pairs => renderPage (runs_page (MkRunsPageData (toRunViews runs (indexPairsByID pairs)) pairs
                 (q "pair_id") (q "status") limit (rq_CSRF r)))
             end)
    end.

(** ** Browsing a client (browse.go)

    Like the listing of ListDir.v it waits in [SendAndWait]: [browse_request] comes before,
    [browse_answer] after. *)
Definition renderBrowse (data : browseData) (isHTMX : bool) : response :=
  or_Error (fun e => "template error: " +:+ error_text e) (if isHTMX then browse_listing data else browse_page data).

Definition with_error (d : browseData) (msg : string) : browseData :=
  MkBrowseData (bd_Title d) (bd_ClientID d) (bd_ClientLabel d) (bd_CurrentPath d) (bd_Parent d) (bd_Entries d) msg (bd_CSRFToken d).
Definition with_entries (d : browseData) (l : list DirEntry) : browseData :=
  MkBrowseData (bd_Title d) (bd_ClientID d) (bd_ClientLabel d) (bd_CurrentPath d) (bd_Parent d) l (bd_Error d) (bd_CSRFToken d).

Definition isHTMX (r : request) : bool := bool_decide (Header r "HX-Request" = "true").

Definition browse_request (r : request) (path corrID : string) : M W (response + (browseData * Envelope)) :=
  match parseBrowsePath (rq_Path r) with
  | None => ret (inl NotFound)
  | Some clientID =>
      c <- found (GetClient clientID);;
      match c with
      | None => ret (inl NotFound)
      | Some c => fun w =>
          let curPath := cleanBrowsePath path in
          let data := MkBrowseData ("Browse: " +:+ c_DisplayName c +:+ " " +:+ c_RootPath c) clientID
            (clientLabel (c_DisplayName c) (c_Hostname c) (c_RootPath c)) curPath (parentPath curPath) [] "" (rq_CSRF r) in
          if negb (wc_Hub cfg) || negb (IsOnline clientID (w_net w))
          then (Ok (inl (renderBrowse (with_error data "client offline") (isHTMX r))), w)
          else match sendListDirRequest corrID curPath with
               | Err e => (Ok (inl (renderBrowse (with_error data (error_text e)) (isHTMX r))), w)
               | Ok env => (Ok (inr (data, env)), w)
               end
      end
  end.

Definition browse_answer (r : request) (data : browseData) (answer : result Envelope) : response :=
  match answer with
  | Err e => renderBrowse (with_error data ("client did not respond: " +:+ error_text e)) (isHTMX r)
  | Ok env =>
      match UnmarshalPayload (A:=ListDirResponse) (env_Payload env) with
      | Err e => renderBrowse (with_error data ("bad response: " +:+ error_text e)) (isHTMX r)
      | Ok resp =>
          let data := if negb (bool_decide (ldr_Error resp = "")) then with_error data (ldr_Error resp) else data in
          renderBrowse (with_entries data (default [] (ldr_Entries resp))) (isHTMX r)
      end
  end.

(** ** Routes (web.go)

    The paths [ServeMux] does not clean or redirect; browsing is the one handler that
    waits. *)
Definition clientsHandler (r : request) (q : string -> string) (corrID : string)
    : M W (response + (browseData * Envelope)) :=
  match SplitN2 (TrimPrefix (rq_Path r) "/clients/") "/"%char with
  | [id] =>
      if bool_decide (rq_Method r = "DELETE") then p <- handleClientDelete id;; ret (inl p) else ret (inl NotFound)
  | [id; action] =>
      if bool_decide (action = "browse") then browse_request r (q "path") corrID
      else p <- clientRowHandler r id action;; ret (inl p)
  | _ => ret (inl NotFound)
  end.

Definition buildHandler (q : string -> string) (fresh : string) (r : request) : M W (response + (browseData * Envelope)) :=
  let path := rq_Path r in
  let now_ (m : M W response) := p <- m;; ret (inl p) in
  if HasPrefix path "/clients/" then clientsHandler r q fresh
  else if bool_decide (path = "/pairs") then now_ (pairsListHandler r)
  else if HasPrefix path "/pairs/" then now_ (pairFormHandler r fresh)
  else if bool_decide (path = "/settings") then now_ (settingsListHandler r)
  else if HasPrefix path "/settings/" then now_ (settingRowHandler r)
  else if bool_decide (path = "/runs") then now_ (runsListHandler r q)
  else now_ (clientsListHandler r).
End Web.
