(* ===== verification/WebSpec.v ===== *)
(** What the administration pages (Web.v) do to the server: what only reads, what an edit
    stores and publishes, what a stale edit or an online client refuses; and where they
    fall short. *)
From S2P Require Import Prelude GoStrings Json Proto Store StoreFacts Lww Engine EngineFacts Hub HubFacts Demo DiffSpec Http HttpBlobs Paths Session SessionFacts ListDir Web.
From Stdlib Require Import Ascii.
Local Open Scope Z_scope.
Local Open Scope go_scope.

Section WebSpec.
Context {clk : Clock}.
Context (ExecuteTemplate : view -> string * option error) (Format : Z -> string) (Year : Z -> Z).
Notation W := (world hub).

(** ** Reading *)

(** The database's content and the hub, sent messages included, are those given. *)
Definition same (t : tables) (h : hub) (w : W) : Prop := db (w_store w) = t /\ w_net w = h.

Lemma same_on_store {A} t h (m : M store A) :
  preserves (fun s => db s = t) m -> preserves (same t h) (on_store m).
Proof.
  intros H [s n] [Hs Hn]. specialize (H s Hs). unfold on_store. cbn [w_store w_net] in *.
  destruct (m s) as [r s']. split; [exact H|exact Hn].
Qed.

Lemma same_query {A} t h (q : tables -> A) p : preserves (same t h) (on_store (wrapped p (query q))).
Proof. apply same_on_store, preserves_wrapped, (query_preserves (fun x => x = t)). Qed.

Lemma same_found {A} t h p (q : tables -> option A) :
  preserves (same t h) (found (a <- wrapped p (query_row q);; ret (Some a))).
Proof.
  unfold found. apply preserves_try; [|intros; apply preserves_ret].
  apply same_on_store, preserves_bind; [|intros; apply preserves_ret].
  apply preserves_wrapped, (query_row_preserves (fun x => x = t)).
Qed.

Lemma same_client t h id : preserves (same t h) (found (GetClient id)).
Proof. apply same_found. Qed.
Lemma same_pair t h id : preserves (same t h) (found (GetPair id)).
Proof. apply same_found. Qed.
Lemma same_setting t h k : preserves (same t h) (on_store (GetSetting k)).
Proof. apply same_on_store, preserves_wrapped, (query_row_preserves (fun x => x = t)). Qed.
Lemma same_load t h : preserves (same t h) loadPairsAndClients.
Proof. unfold loadPairsAndClients. keep; apply same_query. Qed.

#[local] Hint Resolve same_client same_pair same_setting same_query same_load : axion_keeps.
#[local] Hint Extern 1 (preserves (same _ _) (on_store ListClients)) => apply same_query : axion_keeps.
#[local] Hint Extern 1 (preserves (same _ _) (on_store ListPairs)) => apply same_query : axion_keeps.
#[local] Hint Extern 1 (preserves (same _ _) (on_store LoadAllSettings)) => apply same_query : axion_keeps.
#[local] Hint Extern 1 (preserves (same _ _) (on_store (ListRecentSyncRuns _ _))) => apply same_query : axion_keeps.

Lemma safe_not_unsafe m :
  safe_method m = true -> bool_decide (m = "POST") = false /\ bool_decide (m = "DELETE") = false.
Proof.
  unfold safe_method. rewrite !orb_true_iff, !bool_decide_eq_true. intros [[->| ->]| ->]; done.
Qed.

Lemma same_browse cfg t h r q c : preserves (same t h) (browse_request ExecuteTemplate cfg r q c).
Proof.
  unfold browse_request. keep. intros w Hw. cbv zeta. by repeat case_match.
Qed.

(** A GET, HEAD or OPTIONS request changes nothing, whatever it asks for and whichever
    statements fail. *)
Lemma safe_reads cfg q fresh r t h :
  safe_method (rq_Method r) = true ->
  preserves (same t h) (buildHandler ExecuteTemplate Format Year cfg q fresh r).
Proof.
  intros [Hp Hd]%safe_not_unsafe.
  unfold buildHandler, clientsHandler, clientRowHandler, handleClientEdit, handleClientCancel, handleClientDisplayName,
    pairsListHandler, pairFormHandler, handlePairNewForm, handlePairEditForm, handlePairCancelEdit, pair_page,
    settingsListHandler, settingRowHandler, runsListHandler, clientsListHandler.
  rewrite Hp, Hd, !andb_false_r. cbv zeta. cbn [negb].
  keep; apply same_browse.
Qed.

(** The pages behind the middleware: the state of Http.v with the hub in the place of the
    blobs; [wait] is the hub's [SendAndWait]. *)
Definition web_handler (cfg : Config) (q : string -> string) (fresh : string)
    (wait : browseData -> Envelope -> M W Envelope) (r : request) : M (server hub) response := fun s =>
  let '(p, w) := (x <- buildHandler ExecuteTemplate Format Year cfg q fresh r;;
                  match x with
                  | inl p => ret p
                  | inr (data, env) => a <-? wait data env;; ret (browse_answer ExecuteTemplate r data a)
                  end) (MkWorld (sv_store s) (sv_blobs s)) in
  (p, MkServer (w_store w) (w_net w)).

(** What [app.Run] configures never asks a client. *)
Lemma app_never_browses r q c : forall w x w', browse_request ExecuteTemplate app_web_config r q c w = (Ok (inr x), w') -> False.
Proof.
  intros w x w'. unfold browse_request. destruct (parseBrowsePath (rq_Path r)) as [id|]; [|done].
  unfold bind. destruct (found (GetClient id) w) as [[[c0|]|e] w1]; [|done|done]. by cbn.
Qed.

Lemma buildHandler_inl q fresh r w x w' :
  buildHandler ExecuteTemplate Format Year app_web_config q fresh r w = (Ok (inr x), w') -> False.
Proof.
  assert (forall (m : M W response) w, (p <- m;; ret (A:=response + (browseData * Envelope)) (inl p)) w = (Ok (inr x), w') -> False) as H.
  { intros m w0. unfold bind, ret. destruct (m w0) as [[p|e] w1]; discriminate. }
  unfold buildHandler, clientsHandler. cbv zeta.
  repeat case_match; try (apply H); try (unfold ret; discriminate). apply app_never_browses.
Qed.

(** C30. The administration pages cannot be driven from another site: with the
    configuration of [app.Run], a request that is neither safe nor carries the CSRF
    cookie's token changes nothing in the database and sends nothing to any client, and
    nor does any safe request, whatever its path and form and whichever statements fail. *)
Theorem pages_need_the_token q fresh wait r s :
  safe_method (rq_Method r) = true \/ submitted_token r = "" \/ submitted_token r <> fst (readOrIssueToken fresh r) ->
  let s' := snd (CSRF fresh (web_handler app_web_config q fresh wait) r s) in
  db (sv_store s') = db (sv_store s) /\ sv_blobs s' = sv_blobs s.
Proof.
  intros Hr. unfold CSRF. destruct (readOrIssueToken fresh r) as [token set] eqn:Et. cbn [fst] in Hr.
  change (rq_Method (with_csrf r token)) with (rq_Method r).
  change (submitted_token (with_csrf r token)) with (submitted_token r).
  destruct (safe_method (rq_Method r)) eqn:Es.
  - clear Hr. cbv zeta. unfold bind.
    enough (db (sv_store (snd (web_handler app_web_config q fresh wait (with_csrf r token) s))) = db (sv_store s) /\
            sv_blobs (snd (web_handler app_web_config q fresh wait (with_csrf r token) s)) = sv_blobs s) as H
      by (destruct (web_handler _ _ _ _ _ s) as [[p|e] s']; exact H).
    unfold web_handler, bind. set (w := MkWorld (sv_store s) (sv_blobs s)).
    pose proof (safe_reads app_web_config q fresh (with_csrf r token) (db (w_store w)) (w_net w) Es w (conj eq_refl eq_refl)) as H.
    destruct (buildHandler _ _ _ _ q fresh (with_csrf r token) w) as [[[p|x]|e] w'] eqn:E; [exact H| |exact H].
    exfalso. by eapply buildHandler_inl.
  - destruct Hr as [Hr|Hr]; [done|]. rewrite orb_comm.
    assert (negb (bool_decide (submitted_token r = token)) || bool_decide (submitted_token r = "") = true) as ->; [|done].
    destruct Hr as [Hr|Hr]; [rewrite Hr, (bool_decide_true ("" = "")), orb_true_r by done; done|].
    by rewrite bool_decide_false by done.
Qed.

(** The listing of a client's directories in the pages is never available: [app.Run] leaves
    [Hub] unset. *)
Theorem browsing_says_offline r q c w : exists x, fst (browse_request ExecuteTemplate app_web_config r q c w) = x /\
  forall y, x = Ok y -> y = inl NotFound \/ exists data, bd_Error data = "client offline" /\ y = inl (renderBrowse ExecuteTemplate data (isHTMX r)).
Proof.
  eexists. split; [done|]. intros y. unfold browse_request. destruct (parseBrowsePath (rq_Path r)) as [id|].
  - unfold bind. destruct (found (GetClient id) w) as [[[c0|]|e] w1]; cbn; intros E; [|left; congruence|done].
    right. injection E as <-. by eexists (with_error _ _).
  - cbn. intros E. left. congruence.
Qed.

(** ** Pairs *)
Notation runs := (runs_to (HL:=hub_sender_laws)).

Definition pair_audit (kind id : string) (ts : Z) : AuditEntry :=
  MkAuditEntry ts kind None (Some id) None
    (Some ("{" +:+ dquote +:+ "pair_id" +:+ dquote +:+ ":" +:+ Quote id +:+ "}")).
Definition add_audit (a : AuditEntry) (t : tables) : tables := set_audit (fun l => l ++ [a]) t.

Lemma runs_auditPairAction kind id t n h :
  runs (auditPairAction kind id) t n h (Ok tt) (add_audit (pair_audit kind id (clock n)) t) (S n) [].
Proof. by apply runs_to_done. Qed.

(** The messages about an edited pair. *)
Definition subscriptions (h : hub) (p : SyncPair) : list (string * Envelope) :=
  concat (map (fun c => if hub_up h c then [subscription c p] else []) [p_ClientAID p; p_ClientBID p]).
Definition unsubscriptions (h : hub) (p : SyncPair) : list (string * Envelope) :=
  concat (map (fun c => if hub_up h c then [(c, subscribe_envelope (p_ID p) (sideAndPathFor p c).1 "" "")] else [])
    [p_ClientAID p; p_ClientBID p]).

Lemma runs_publish cfg id p t n h :
  wc_Publisher cfg = true -> t_pairs t !! id = Some p ->
  runs (publishPairUpdate cfg id) t n h (Ok tt) t n
    (if p_Enabled p then subscriptions h p else unsubscriptions h p).
Proof.
  intros Hc Hp. unfold publishPairUpdate. rewrite Hc. cbn [negb]. rewrite <- (app_nil_r (if p_Enabled p then _ else _)).
  eapply runs_to_try; [|intros; apply runs_to_ret].
  destruct (p_Enabled p) eqn:E; [by apply (runs_pair_update (HL:=hub_sender_laws))|].
  unfold PublishPairUpdate. eapply (runs_to_bind _ _ _ _ _ (Some p) _ _ []).
  { apply runs_to_wrapped, runs_to_done. by rewrite GetPair_eq, Hp. }
  intros h1 Hh. rewrite E. cbn [negb]. unfold unsubscriptions. change (hub_up h) with (net_up h). rewrite <- Hh.
  by apply runs_unsubscribe.
Qed.

Lemma runs_publish_stop cfg id p t n h :
  wc_Publisher cfg = true -> t_pairs t !! id = Some p ->
  runs (publishPairUnsubscribe cfg id) t n h (Ok tt) t n (unsubscriptions h p).
Proof.
  intros Hc Hp. unfold publishPairUnsubscribe. rewrite Hc. cbn [negb]. rewrite <- (app_nil_r (unsubscriptions h p)).
  eapply runs_to_try; [by apply (runs_unsubscribe (HL:=hub_sender_laws) id p t n h)|intros; apply runs_to_ret].
Qed.

Lemma runs_load t n h :
  runs loadPairsAndClients t n h
    (Ok (sort_pairs (map_to_list (t_pairs t)).*2, merge_sort (by_key Z.le c_CreatedAt) (map_to_list (t_clients t)).*2)) t n [].
Proof. by apply runs_to_done. Qed.

(** A new pair between two known clients is stored as the form says under a new id, its
    creation is audited, and its reachable clients are told: each its own side and path,
    or, of a pair created disabled, to stop. *)
Theorem new_pair_is_announced cfg r uuid form t n h :
  wc_Publisher cfg = true -> rq_Form r = Some form -> t_pairs t !! uuid = None ->
  is_Some (t_clients t !! form "client_a_id") -> is_Some (t_clients t !! form "client_b_id") ->
  let p := form_pair form uuid (clock n) (clock (S n)) in
  let t' := add_audit (pair_audit "pair_create" uuid (clock (S (S n)))) (set_pairs (insert uuid p) t) in
  exists page, runs (handlePairCreate ExecuteTemplate cfg r uuid) t n h (Ok page) t' (S (S (S n)))
    (if p_Enabled p then subscriptions h p else unsubscriptions h p) /\
    page = render ExecuteTemplate (pairs_content (pair_views (rq_CSRF r)
      (sort_pairs (map_to_list (t_pairs t')).*2, merge_sort (by_key Z.le c_CreatedAt) (map_to_list (t_clients t)).*2))).
Proof.
  intros Hc Hf Hu [a Ha] [b Hb] p t'. eexists. split; [|done]. unfold handlePairCreate. rewrite Hf.
  eapply (runs_to_bind _ _ _ _ _ _ _ _ []); [apply runs_now|]. intros h1 Hh1.
  eapply (runs_to_bind _ _ _ _ _ _ _ _ []); [apply runs_now|]. intros h2 Hh2.
  eapply (runs_to_try _ _ _ _ _ (Ok tt) _ _ []).
  { apply runs_to_done. unfold on_store, UpsertPair, wrapped, sql, quiet. cbn. by rewrite Hu, Ha, Hb. }
  intros h3 Hh3. eapply (runs_to_bind _ _ _ _ _ _ _ _ []); [apply runs_auditPairAction|]. intros h4 Hh4.
  rewrite <- (app_nil_r (if p_Enabled p then _ else _)).
  eapply runs_to_bind.
  - assert (hub_up h4 = hub_up h) as E by (change hub_up with (@net_up hub _ _); congruence).
    unfold subscriptions, unsubscriptions. rewrite <- E.
    apply (runs_publish cfg uuid p); [done|]. unfold t'. cbn. by rewrite lookup_insert_eq.
  - intros h5 Hh5. rewrite <- (app_nil_l []). eapply runs_to_try; [apply runs_load|]. intros; apply runs_to_ret.
Qed.

(** What an edit makes of a pair: the form's name, paths, direction and state; its
    clients stay, whatever the form says. *)
Definition edited (form : string -> string) (e : SyncPair) (ts : Z) : SyncPair :=
  MkSyncPair (p_ID e) (form "name") (p_ClientAID e) (form "path_a") (p_ClientBID e) (form "path_b")
    (form "direction") (bool_decide (form "enabled" = "1")) (p_CreatedAt e) ts (p_Etag e + 1).

Lemma pair_update_read_eq r id form e t n h :
  rq_Form r = Some form -> t_pairs t !! id = Some e -> ParseInt (form "etag") = Some (p_Etag e) ->
  pair_update_read r id (quiet t n h) =
  (Ok (inr (form_pair form id (p_CreatedAt e) (clock n), e)), quiet t (S n) h).
Proof.
  intros Hf He Het. unfold pair_update_read. rewrite Hf. unfold bind at 1, found, try at 1. rewrite GetPair_eq, He.
  cbn [ret]. by rewrite Het, bool_decide_true.
Qed.

Lemma runs_pair_write cfg r id form e old ts t n h :
  wc_Publisher cfg = true -> t_pairs t !! id = Some e -> p_ID e = id ->
  let q := edited form e ts in
  let t' := add_audit (pair_audit "pair_update" id (clock n)) (set_pairs (insert id q) t) in
  exists page, runs (pair_update_write ExecuteTemplate cfg r id (form_pair form id (p_CreatedAt old) ts) old) t n h (Ok page) t' (S n)
    (if p_Enabled q then subscriptions h q else if p_Enabled old then unsubscriptions h q else []) /\
    page = render ExecuteTemplate (pair_row (toPairView q
      (clientsMap (merge_sort (by_key Z.le c_CreatedAt) (map_to_list (t_clients t)).*2)) (rq_CSRF r))).
Proof.
  intros Hc He Hid q t'. eexists. split; [|done]. unfold pair_update_write.
  eapply (runs_to_try _ _ _ _ _ (Ok tt) _ _ []).
  { apply runs_to_done. unfold on_store, UpsertPair, wrapped, sql, quiet. cbn. by rewrite He. }
  intros h1 Hh1. eapply (runs_to_bind _ _ _ _ _ _ _ _ []); [apply runs_auditPairAction|]. intros h2 Hh2.
  assert (t_pairs t' !! id = Some q) as Hq by (unfold t'; cbn; by rewrite lookup_insert_eq).
  assert (hub_up h2 = hub_up h) as E by (change hub_up with (@net_up hub _ _); congruence).
  rewrite <- (app_nil_r (if p_Enabled q then _ else _)).
  replace (set_pairs _ t) with (set_pairs (insert id q) t) by (unfold q, edited; by rewrite Hid).
  eapply runs_to_bind.
  - unfold subscriptions, unsubscriptions. rewrite <- E.
    change (p_Enabled (form_pair form id (p_CreatedAt old) ts)) with (p_Enabled q).
    pose proof (runs_publish cfg id q t' (S n) h2 Hc Hq) as H1. pose proof (runs_publish_stop cfg id q t' (S n) h2 Hc Hq) as H2.
    destruct (p_Enabled q); [exact H1|]. destruct (p_Enabled old); [exact H2|apply runs_to_ret].
  - intros h3 Hh3. unfold found. eapply (runs_to_bind _ _ _ _ _ (Some q) _ _ []).
    { apply runs_to_done. unfold try. by rewrite GetPair_eq, Hq. }
    intros h4 Hh4. apply runs_to_done. done.
Qed.

(** C36. An edit with the current etag is stored and published: the pair has the form's
    name, paths, direction and state and the next etag, its creation time and its clients
    unchanged; the edit is audited; an enabled pair is announced to its reachable clients,
    a pair just disabled is called off, a pair that stays disabled is left in peace; and
    the answer is the pair's new row. *)
Theorem pair_edit_is_published cfg r id form e t n h :
  wc_Publisher cfg = true -> rq_Form r = Some form -> t_pairs t !! id = Some e -> p_ID e = id ->
  ParseInt (form "etag") = Some (p_Etag e) ->
  let q := edited form e (clock n) in
  let t' := add_audit (pair_audit "pair_update" id (clock (S n))) (set_pairs (insert id q) t) in
  exists page, runs (handlePairUpdate ExecuteTemplate cfg r id) t n h (Ok page) t' (S (S n))
    (if p_Enabled q then subscriptions h q else if p_Enabled e then unsubscriptions h q else []) /\
    page = render ExecuteTemplate (pair_row (toPairView q
      (clientsMap (merge_sort (by_key Z.le c_CreatedAt) (map_to_list (t_clients t)).*2)) (rq_CSRF r))).
Proof.
  intros Hc Hf He Hid Het q t'.
  destruct (runs_pair_write cfg r id form e e (clock n) t (S n) h Hc He Hid) as (page & Hw & Hp).
  exists page. split; [|exact Hp]. destruct Hw as (h' & Hw & Hlog & Hup). exists h'. split; [|done].
  unfold handlePairUpdate, bind at 1. by rewrite (pair_update_read_eq r id form e t n h Hf He Het), Hw.
Qed.

(** An edit of something else than the current pair is refused: with another etag, or
    none, with 412; of a pair that is gone, with 404; a form that cannot be read, with
    400; and in each case nothing is changed and nobody is told. *)
Theorem stale_pair_edit_is_refused cfg r id t n h :
  (forall form e, rq_Form r = Some form -> t_pairs t !! id = Some e -> ParseInt (form "etag") <> Some (p_Etag e)) ->
  handlePairUpdate ExecuteTemplate cfg r id (quiet t n h) =
  (Ok (match rq_Form r, t_pairs t !! id with
       | None, _ => http_Error "bad request" StatusBadRequest
       | Some _, None => NotFound
       | Some _, Some _ => http_Error "precondition failed: etag mismatch" StatusPreconditionFailed
       end), quiet t n h).
Proof.
  intros Hst. unfold handlePairUpdate, pair_update_read. unfold bind at 1. destruct (rq_Form r) as [form|] eqn:Hf; [|done].
  unfold bind at 1, found, try at 1. rewrite GetPair_eq. destruct (t_pairs t !! id) as [e|] eqn:He; [|done].
  cbn [ret]. rewrite bool_decide_false; [done|]. by apply Hst.
Qed.

(** The etag is compared before the write and not by it: of two edits that both read before
    either writes, both are accepted and the first is lost. *)
Theorem concurrent_pair_edits_lose_one cfg r1 r2 id f1 f2 e t n h :
  wc_Publisher cfg = true -> rq_Form r1 = Some f1 -> rq_Form r2 = Some f2 -> t_pairs t !! id = Some e -> p_ID e = id ->
  ParseInt (f1 "etag") = Some (p_Etag e) -> ParseInt (f2 "etag") = Some (p_Etag e) ->
  exists p1 p2 page1 page2 t' n' h',
    (x1 <- pair_update_read r1 id;; x2 <- pair_update_read r2 id;; ret (x1, x2)) (quiet t n h) =
      (Ok (inr (p1, e), inr (p2, e)), quiet t (S (S n)) h) /\
    (y1 <- pair_update_write ExecuteTemplate cfg r1 id p1 e;; y2 <- pair_update_write ExecuteTemplate cfg r2 id p2 e;; ret (y1, y2))
      (quiet t (S (S n)) h) = (Ok (page1, page2), quiet t' n' h') /\
    rp_Status page1 = StatusOK /\ rp_Status page2 = StatusOK /\
    t_pairs t' !! id = Some (edited f2 (edited f1 e (clock n)) (clock (S n))).
Proof.
  intros Hc Hf1 Hf2 He Hid Het1 Het2.
  destruct (runs_pair_write cfg r1 id f1 e e (clock n) t (S (S n)) h Hc He Hid) as (page1 & (h1 & Hw1 & _ & Hu1) & Hp1).
  set (t1 := add_audit _ _) in Hw1.
  assert (t_pairs t1 !! id = Some (edited f1 e (clock n))) as H1 by (unfold t1; cbn; by rewrite lookup_insert_eq).
  destruct (runs_pair_write cfg r2 id f2 (edited f1 e (clock n)) e (clock (S n)) t1 (S (S (S n))) h1 Hc H1 Hid)
    as (page2 & (h2 & Hw2 & _ & _) & Hp2).
  do 7 eexists. split; [|split; [|split; [|split]]].
  - unfold bind at 1. rewrite (pair_update_read_eq r1 id f1 e t n h Hf1 He Het1).
    unfold bind at 1. by rewrite (pair_update_read_eq r2 id f2 e t (S n) h Hf2 He Het2).
  - unfold bind at 1. rewrite Hw1. unfold bind at 1. by rewrite Hw2.
  - by rewrite Hp1.
  - by rewrite Hp2.
  - cbn. by rewrite lookup_insert_eq.
Qed.

(** ** Clients *)

(** Deleting a client: one that is unknown is 404, one that is online is 409, and then
    nothing changes; any other is gone with every pair it is a member of and their rows,
    which is audited, while the other clients and the other pairs with their files stay as
    they are.  No client is told, not even the other member of a pair that is gone. *)
Theorem client_deletion id t n h :
  match t_clients t !! id with
  | None => handleClientDelete id (quiet t n h) = (Ok NotFound, quiet t n h)
  | Some c =>
      if bool_decide (c_Status c = "online")
      then handleClientDelete id (quiet t n h) = (Ok (http_Error "cannot delete online client" StatusConflict), quiet t n h)
      else exists t', handleClientDelete id (quiet t n h) = (Ok (MkResponse StatusOK [] NoBody), quiet t' (S n) h) /\
        t_clients t' = delete id (t_clients t) /\
        (forall k p, t_pairs t' !! k = Some p <-> t_pairs t !! k = Some p /\ p_ClientAID p <> id /\ p_ClientBID p <> id) /\
        (forall k side rel f, t_files t' !! (k, side, rel) = Some f <->
           t_files t !! (k, side, rel) = Some f /\
           forall p, t_pairs t !! k = Some p -> p_ClientAID p <> id /\ p_ClientBID p <> id) /\
        (exists detail, t_audit t' = t_audit t ++ [MkAuditEntry (clock n) "client_delete" (Some id) None None (Some detail)])
  end.
Proof.
  assert (found (GetClient id) (quiet t n h) = (Ok (t_clients t !! id), quiet t n h)) as Ef.
  { unfold found, try, on_store, GetClient, bind, wrapped, query_row, sql, quiet. cbn. by destruct (t_clients t !! id). }
  destruct (t_clients t !! id) as [c|] eqn:Hc; [case_bool_decide as Ho|];
    [by unfold handleClientDelete, bind; rewrite Ef, bool_decide_true| |by unfold handleClientDelete, bind; rewrite Ef].
  eexists (add_audit (MkAuditEntry (clock n) "client_delete" (Some id) None None (Some _))
    (delete_pairs_where (fun p => bool_decide (p_ClientAID p = id) || bool_decide (p_ClientBID p = id)) (set_clients (delete id) t))).
  split.
  { unfold handleClientDelete, bind at 1. rewrite Ef, bool_decide_false by done. reflexivity. }
  split; [done|]. split; [|split].
  all: unfold add_audit, delete_pairs_where, set_clients, set_audit; cbn [t_clients t_pairs t_files t_audit].
  - intros k p. rewrite map_lookup_filter_Some, orb_false_iff, !bool_decide_eq_false. naive_solver.
  - intros k side rel f. rewrite map_lookup_filter_Some, map_lookup_filter_None. cbn.
    split; intros [Hf Hp]; (split; [done|]).
    + intros p Hk. destruct Hp as [Hp|Hp]; [congruence|]. specialize (Hp p Hk). cbn in Hp.
      rewrite orb_true_iff, !bool_decide_eq_true in Hp. split; intros E; apply Hp; tauto.
    + right. intros p Hk. cbn. rewrite orb_true_iff, !bool_decide_eq_true. destruct (Hp p Hk). tauto.
  - by eexists.
Qed.

(** ** Settings *)

Lemma no_slash_suffix key :
  sall (fun c => bool_decide (c <> "/"%char)) key = true -> TrimSuffix key "/" = key.
Proof.
  intros Hk. unfold TrimSuffix. destruct (HasSuffix key "/") eqn:E; [|done].
  apply HasSuffix_spec in E as [t ->]. exfalso. revert Hk. rewrite sall_app. cbn. by rewrite andb_false_r.
Qed.

(** A setting that is saved is the one the page then shows for editing, and the one the
    clients are registered with. *)
Theorem saved_setting_is_shown r1 r2 key t n h :
  sall (fun c => bool_decide (c <> "/"%char)) key = true ->
  rq_Method r1 = "POST" -> rq_Path r1 = "/settings/" +:+ key -> rq_Method r2 = "GET" -> rq_Path r2 = "/settings/" +:+ key +:+ "/edit" ->
  exists t',
    settingRowHandler ExecuteTemplate r1 (quiet t n h) =
      (Ok (render ExecuteTemplate (setting_row (MkSettingView key (PostFormValue r1 "value") (rq_CSRF r1)))), quiet t' (S n) h) /\
    settingRowHandler ExecuteTemplate r2 (quiet t' (S n) h) =
      (Ok (render ExecuteTemplate (setting_edit_row (MkSettingView key (PostFormValue r1 "value") (rq_CSRF r2)))), quiet t' (S n) h) /\
    fst <$> t_settings t' = <[key := PostFormValue r1 "value"]> (fst <$> t_settings t).
Proof.
  intros Hk Hm1 Hp1 Hm2 Hp2. exists (set_settings (insert key (PostFormValue r1 "value", clock n)) t). split; [|split].
  - unfold settingRowHandler. rewrite Hm1, Hp1, TrimPrefix_app, no_slash_suffix by done. decide_closed. reflexivity.
  - unfold settingRowHandler. rewrite Hm2, Hp2. decide_closed. rewrite TrimPrefix_app. unfold SplitN2.
    rewrite (proj2 (cut_spec _ _ key "edit")) by done. unfold try, on_store, GetSetting, wrapped, query_row, sql, quiet. cbn.
    by rewrite lookup_insert_eq.
  - cbn. by rewrite fmap_insert.
Qed.
End WebSpec.

(** ** Concrete requests *)
Module Admin.
Definition plain (v : view) : string * option error := ("<tr>", None).
Definition form_edit (k : string) : string :=
  if bool_decide (k = "etag") then "0" else if bool_decide (k = "name") then "renamed"
  else if bool_decide (k = "path_a") then "docs" else if bool_decide (k = "path_b") then "copy"
  else if bool_decide (k = "direction") then "a_to_b" else if bool_decide (k = "enabled") then "1"
  else if bool_decide (k = "client_a_id") then "alice" else if bool_decide (k = "client_b_id") then "bob" else "".
Definition post (path : string) (form : string -> string) : request :=
  MkRequest "POST" path [] 0 (BlobStore.MkReader [] None) (Some "tok") (Some form) None "" "".
Notation T := (Demo.content "bidirectional" []).
End Admin.
Import Demo Admin.

Lemma pages_need_the_token_witness :
  let s := MkServer (MkStore T [] 0) both_online in
  db (sv_store (snd (CSRF "fresh" (web_handler plain (fun _ => "") (fun z => z) app_web_config (fun _ => "") "fresh"
    (fun _ _ => throw (Errorf "no"))) (post "/pairs/p1" form_edit) s))) = T.
Proof.
  intros s. apply (pages_need_the_token plain (fun _ => "") (fun z => z) (fun _ => "") "fresh" (fun _ _ => throw (Errorf "no"))
    (post "/pairs/p1" form_edit) s). right. left. by vm_compute.
Defined.

Lemma new_pair_is_announced_witness : exists page t' net',
  handlePairCreate (clk:=demo_clock) plain app_web_config (post "/pairs/new" form_edit) "p2" (quiet T 0 both_online) = (Ok page, quiet t' 3 net') /\
  h_sent net' = [("alice", subscribe_envelope "p2" "a" "docs" "a_to_b"); ("bob", subscribe_envelope "p2" "b" "copy" "a_to_b")].
Proof.
  destruct (new_pair_is_announced (clk:=demo_clock) plain app_web_config (post "/pairs/new" form_edit) "p2" form_edit T 0 both_online
    eq_refl eq_refl ltac:(by vm_compute) ltac:(by eexists; vm_compute) ltac:(by eexists; vm_compute))
    as (page & (net' & H & Hlog & _) & _).
  eexists page, _, net'. split; [exact H|]. exact Hlog.
Defined.

Lemma pair_edit_is_published_witness : exists page t' net',
  handlePairUpdate (clk:=demo_clock) plain app_web_config (post "/pairs/p1" form_edit) "p1" (quiet T 0 both_online) = (Ok page, quiet t' 2 net') /\
  h_sent net' = [("alice", subscribe_envelope "p1" "a" "docs" "a_to_b"); ("bob", subscribe_envelope "p1" "b" "copy" "a_to_b")].
Proof.
  destruct (pair_edit_is_published (clk:=demo_clock) plain app_web_config (post "/pairs/p1" form_edit) "p1" form_edit (the_pair "bidirectional") T 0 both_online
    eq_refl eq_refl ltac:(by vm_compute) eq_refl ltac:(by vm_compute))
    as (page & (net' & H & Hlog & _) & _).
  eexists page, _, net'. split; [exact H|]. exact Hlog.
Defined.

Lemma stale_pair_edit_is_refused_witness :
  handlePairUpdate (clk:=demo_clock) plain app_web_config (post "/pairs/p1" (fun k => if bool_decide (k = "etag") then "1" else ""))
    "p1" (quiet T 0 both_online) =
  (Ok (http_Error "precondition failed: etag mismatch" StatusPreconditionFailed), quiet T 0 both_online).
Proof.
  rewrite (stale_pair_edit_is_refused (clk:=demo_clock) plain app_web_config
    (post "/pairs/p1" (fun k => if bool_decide (k = "etag") then "1" else "")) "p1" T 0 both_online); [by vm_compute|].
  intros form e Hf He. injection Hf as <-. assert (e = the_pair "bidirectional") as ->; [|by vm_compute].
  assert (t_pairs T !! "p1" = Some (the_pair "bidirectional")) as E by by vm_compute. congruence.
Defined.
