(* ===== verification/ServerApp.v ===== *)
(** internal/server/app/app.go: the server's settings, and one round of its garbage
    collection (blobstore/gc.go's [RunGCLoop]) with the age the settings give.  The message
    handler and the connection callbacks of app.go are in Session.v.  Times are int64
    nanoseconds, and their products wrap. *)
From S2P Require Import Prelude GoStrings Json Proto Store StoreFacts Sha256 BlobStore BlobFacts BlobSpec Http HttpBlobs HttpSpec.
Local Open Scope Z_scope.
Local Open Scope go_scope.

Definition perClientQuotaBytes : Z := 10 * 1024 * 1024 * 1024.

Record Config : Type := MkAppConfig {
  ac_Bind : string; ac_DataDir : string; ac_AdminUser : string; ac_AdminPassword : string;
  ac_PSKFile : string; ac_ShutdownGrace : Z
}.

Definition applyDefaults (c : Config) : Config :=
  MkAppConfig (if bool_decide (ac_Bind c = "") then "127.0.0.1:8765" else ac_Bind c)
    (ac_DataDir c) (ac_AdminUser c) (ac_AdminPassword c) (ac_PSKFile c)
    (if ac_ShutdownGrace c =? 0 then 30 * 10^9 else ac_ShutdownGrace c).

Definition parseInt64Setting (settings : gmap string string) (key : string) (fallback : Z) : result Z :=
  match settings !! key with
  | None => Ok fallback
  | Some v =>
      match ParseInt v with
      | Some n => Ok n
      | None => Err (Wrap ("invalid setting " +:+ key +:+ "=" +:+ Quote v) (ParseInt_error v))
      end
  end.

Definition defaultBlobGCAge : Z := 7 * 24 * 3600 * 10^9.

Section ServerApp.
Context {clk : Clock}.

(** [blobGCMaxAge] *)
Definition blobGCMaxAge : M store Z :=
  settings <-? LoadAllSettings;;
  ret (match settings with
       | Err _ => defaultBlobGCAge
       | Ok m =>
           match m !! "blob_gc_age_seconds" with
           | None => defaultBlobGCAge
           | Some v => match ParseInt v with Some n => wrap64 (n * 10^9) | None => defaultBlobGCAge end
           end
       end).

(** One tick of [RunGCLoop]; an error is only logged. *)
Definition gc_tick (ctx_err : nat -> option error) : M (server fs) unit :=
  referenced <-? in_store collectReferencedSHAs;;
  match referenced with
  | Err _ => ret tt
  | Ok referenced =>
      age <- in_store blobGCMaxAge;;
      _ <-? in_blobs (GC ctx_err referenced age);;
      ret tt
  end.

(** The age the settings of [t] give. *)
Definition gc_age (t : tables) : Z :=
  match t_settings t !! "blob_gc_age_seconds" with
  | Some (v, _) => match ParseInt v with Some n => wrap64 (n * 10^9) | None => defaultBlobGCAge end
  | None => defaultBlobGCAge
  end.

Lemma blobGCMaxAge_eq t n : blobGCMaxAge (MkStore t [] n) = (Ok (gc_age t), MkStore t [] n).
Proof.
  unfold blobGCMaxAge, try, LoadAllSettings, wrapped, query, sql, gc_age. cbn. rewrite lookup_fmap.
  by destruct (t_settings t !! "blob_gc_age_seconds") as [[v x]|].
Qed.

(** C14. One round of garbage collection, with a database that answers: every blob a row of
    the database names is still there with its content; so is every blob younger than the
    configured age, and every upload in progress; and the database is as it was, however
    the file system fails. *)
Theorem gc_round_is_safe ctx_err t n b :
  tables_ok t -> blob_ok (f_files b) ->
  let '(r, s') := gc_tick ctx_err (MkServer (MkStore t [] n) b) in
  let m := f_files (sv_blobs s') in
  r = Ok tt /\ sv_store s' = MkStore t [] n /\
  (forall pid side rel row sha f,
     t_files t !! (pid, side, rel) = Some row -> side = "a" \/ side = "b" ->
     fs_SHA256 row = Some sha -> sha <> "" -> f_files b !! path sha = Some f -> m !! path sha = Some f) /\
  (forall key f, f_files b !! key = Some f -> clock (os_tick b) - gc_age t < fl_mtime f -> m !! key = Some f) /\
  (forall sha f, f_files b !! partialPath sha = Some f -> m !! partialPath sha = Some f).
Proof.
  intros Hok Hb. destruct (collectReferencedSHAs_eq t n Hok) as (refs & E & _).
  unfold gc_tick, try at 1, in_store at 1. cbn [sv_store sv_blobs]. rewrite E. unfold bind, in_store. cbn [sv_store sv_blobs].
  rewrite blobGCMaxAge_eq. unfold try, in_blobs. cbn [sv_store sv_blobs].
  pose proof (collector_keeps t n ctx_err (gc_age t) refs (MkStore t [] n) b Hok Hb E) as H. cbv zeta in H.
  destruct (GC ctx_err refs (gc_age t) b) as [r b']. cbn. done.
Qed.
End ServerApp.

(** The product with a second wraps: an age of more than 292 years in the settings is a
    negative one, and the next round deletes even a blob stored this very moment whose
    file has not been reported yet. *)
Theorem huge_gc_age_deletes_new_blobs (t : tables) (x : Z) :
  t_settings t !! "blob_gc_age_seconds" = Some ("9223372037", x) -> gc_age t = -9223372036709551616.
Proof. intros E. unfold gc_age. rewrite E. by vm_compute. Qed.

#[local] Instance ticking : Clock := fun n => Z.of_nat n.
Definition new_blob : files := {[path abc_sha := MkFile abc 100]}.
Definition with_age (v : string) (t : tables) : tables := set_settings (insert "blob_gc_age_seconds" (v, 0)) t.

Example new_blob_is_kept :
  f_files (sv_blobs (snd (gc_tick (fun _ => None) (MkServer (MkStore (with_age "3600" empty_tables) [] 0) (calm new_blob ∅ 100))))) !! path abc_sha = Some (MkFile abc 100).
Proof. by vm_compute. Qed.
Example new_blob_is_lost :
  f_files (sv_blobs (snd (gc_tick (fun _ => None) (MkServer (MkStore (with_age "9223372037" empty_tables) [] 0) (calm new_blob ∅ 100))))) !! path abc_sha = None.
Proof. by vm_compute. Qed.

Lemma gc_round_is_safe_witness :
  f_files (sv_blobs (snd (gc_tick (fun _ => None) (MkServer (MkStore (with_age "0" demo_tables) [] 0) (calm stored_abc ∅ 100))))) !! path abc_sha
    = Some (MkFile abc 0).
Proof.
  assert (tables_ok (with_age "0" demo_tables)) as Hok.
  { assert (tables_ok demo_tables) as [].
    { apply (preserves_for_each (fun s => tables_ok (db s))); [|apply empty_tables_ok]. intros c _. apply run_call_preserves. }
    by constructor. }
  pose proof (gc_round_is_safe (fun _ => None) (with_age "0" demo_tables) 0 (calm stored_abc ∅ 100) Hok stored_abc_ok) as H.
  destruct (gc_tick _ _) as [r s']. destruct H as (_ & _ & H & _).
  apply (H "p1" "a" "f" abc_row); [vm_compute; reflexivity|by left|reflexivity|done|].
  unfold stored_abc. apply lookup_singleton_eq.
Defined.
