(* ===== verification/Migrations.v ===== *)
(** internal/server/store/migrations.go: the scripts that bring a database up to date.

    What a script does to the database's content [D] is a parameter, SQLite's; the table
    schema_version is modelled.  Every call of the driver may fail.  A transaction that is
    not committed leaves nothing behind. *)
From S2P Require Import Prelude GoStrings Json Store.
From Stdlib Require Import Ascii.
Local Open Scope Z_scope.
Local Open Scope go_scope.

(** An embedded file: its name, and its content unless it is a directory. *)
Record entry : Type := MkEntry { en_name : string; en_data : option string }.

Section Migrations.
Context {D : Type} (run_script : string -> D -> result D) {clk : Clock}.

Record mdb : Type := MkMdb {
  m_content : D;
  m_versions : gmap Z Z;          (* schema_version: version, applied_at *)
  m_faults : list (option error); (* what becomes of the driver's next calls *)
  m_tick : nat
}.

(** A call of the driver. *)
Definition db_call {A} (m : M mdb A) : M mdb A := fun s =>
  match m_faults s with
  | Some e :: fl => (Err e, MkMdb (m_content s) (m_versions s) fl (m_tick s))
  | None :: fl => m (MkMdb (m_content s) (m_versions s) fl (m_tick s))
  | [] => m s
  end.

(** [strconv.Atoi(strings.SplitN(filename, "_", 2)[0])] *)
Definition extractVersion (filename : string) : result Z :=
  let part := hd "" (SplitN2 filename "_"%char) in
  match ParseInt part with
  | Some n => Ok n
  | None => Err (Errorf ("strconv.Atoi: parsing " +:+ Quote part))
  end.

(** The transaction of one script: its content and its version are stored together, or
    nothing is. *)
Definition applyMigrationFile (name data : string) (version : Z) : M mdb unit := fun s =>
  match (wrapped ("begin tx for migration " +:+ name) (db_call (ret tt)) s) with
  | (Err e, s) => (Err e, s)
  | (Ok _, s0) =>
      let '(r, s) := (
        wrapped ("exec migration " +:+ name) (db_call (fun s =>
          match run_script data (m_content s) with
          | Ok d => (Ok tt, MkMdb d (m_versions s) (m_faults s) (m_tick s))
          | Err e => (Err e, s)
          end));;
        wrapped ("record schema_version for " +:+ FormatInt version) (db_call (fun s =>
          match m_versions s !! version with
          | Some _ => (Err (Errorf "constraint failed: UNIQUE constraint failed"), s)
          | None => (Ok tt, MkMdb (m_content s) (<[version := clock (m_tick s)]> (m_versions s)) (m_faults s) (S (m_tick s)))
          end));;
        wrapped ("commit migration " +:+ name) (db_call (ret tt))) s0 in
      match r with
      | Ok _ => (Ok tt, s)
      | Err e => (Err e, MkMdb (m_content s0) (m_versions s0) (m_faults s) (m_tick s))
      end
  end.

(** The body of the loop over the directory's entries. *)
Definition apply_entry (e : entry) : M mdb unit :=
  match en_data e with
  | None => ret tt
  | Some data =>
      if negb (HasSuffix (en_name e) ".sql") then ret tt
      else match extractVersion (en_name e) with
           | Err x => throw (Wrap ("extract version from " +:+ en_name e) x)
           | Ok version =>
               existing <- wrapped ("check schema_version for " +:+ FormatInt version)
                 (db_call (fun s => (Ok (bool_decide (is_Some (m_versions s !! version))), s)));;
               if (existing : bool) then ret tt else applyMigrationFile (en_name e) data version
           end
  end.

Definition applyMigrations (entries : list entry) : M mdb unit :=
  wrapped "create schema_version" (db_call (ret tt));;
  each apply_entry (merge_sort (by_key String.le en_name) entries).

(** ** What is applied *)
Context (entries : list entry).

(** The scripts in the order of their names. *)
Definition script_of (e : entry) : option (Z * string) :=
  match en_data e, extractVersion (en_name e) with
  | Some data, Ok v => if HasSuffix (en_name e) ".sql" then Some (v, data) else None
  | _, _ => None
  end.
Definition scripts : list (Z * string) := omap script_of (merge_sort (by_key String.le en_name) entries).

Fixpoint run_all (l : list (Z * string)) (d : D) : option D :=
  match l with
  | [] => Some d
  | (_, data) :: l' => match run_script data d with Ok d' => run_all l' d' | Err _ => None end
  end.

(** The first [k] scripts have run on [d0], each once and in order, and these are the
    versions on record. *)
Definition applied (d0 : D) (k : nat) (s : mdb) : Prop :=
  (k <= length scripts)%nat /\ run_all (take k scripts) d0 = Some (m_content s) /\
  forall v, is_Some (m_versions s !! v) <-> v ∈ (take k scripts).*1.

Lemma run_all_app l1 l2 d : run_all (l1 ++ l2) d = run_all l1 d ≫= run_all l2.
Proof.
  revert d. induction l1 as [|[v data] l1 IH]; intros d; [done|]. cbn. destruct (run_script data d); [apply IH|done].
Qed.

Hypothesis versions_distinct : NoDup scripts.*1.

Lemma applied_faults d0 k s fl n :
  applied d0 k s -> applied d0 k (MkMdb (m_content s) (m_versions s) fl n).
Proof. done. Qed.

(** One transaction: the next script, or nothing. *)
Lemma applyMigrationFile_spec d0 k s name data v :
  applied d0 k s -> scripts !! k = Some (v, data) ->
  let '(r, s') := applyMigrationFile name data v s in
  match r with Ok _ => applied d0 (S k) s' | Err _ => applied d0 k s' end.
Proof.
  intros (Hk & Hrun & Hv) Hs.
  assert (m_versions s !! v = None) as Hnew.
  { apply eq_None_not_Some. rewrite Hv. intros Hin. apply list_elem_of_fmap in Hin as ([v' data'] & Ev & Hin).
    apply list_elem_of_lookup in Hin as [i Hi]. apply lookup_take_Some in Hi as [Hi Hlt]. cbn in Ev. subst v'.
    assert (i = k); [|lia]. apply (NoDup_lookup scripts.*1 i k v); [done| |]; rewrite list_lookup_fmap; by rewrite ?Hi, ?Hs. }
  assert (forall d' n fl, run_script data (m_content s) = Ok d' ->
            applied d0 (S k) (MkMdb d' (<[v := n]> (m_versions s)) fl (S (m_tick s)))) as Hok.
  { intros d' n fl Hd. split; [apply lookup_lt_Some in Hs; lia|].
    rewrite (take_S_r _ _ _ Hs). split.
    - rewrite run_all_app, Hrun. cbn. by rewrite Hd.
    - intros w. cbn. rewrite fmap_app, elem_of_app, <- Hv, lookup_insert_is_Some. cbn. rewrite list_elem_of_singleton.
      destruct (decide (v = w)); naive_solver. }
  unfold applyMigrationFile, bind, wrapped, db_call. destruct s as [c vs fl n]. cbn in *.
  destruct fl as [|[x|] fl]; [|done|]; cbn.
  - destruct (run_script data c) as [d'|] eqn:Ed; cbn; [|done]. rewrite Hnew. cbn. by apply Hok.
  - destruct fl as [|[x|] fl]; [|done|]; cbn; (destruct (run_script data c) as [d'|] eqn:Ed; cbn; [|done]).
    + rewrite Hnew. cbn. by apply Hok.
    + destruct fl as [|[x|] fl]; [|done|]; cbn; rewrite Hnew; cbn; [by apply Hok|].
      destruct fl as [|[x|] fl]; cbn; [by apply Hok|done|by apply Hok].
Qed.

Lemma apply_entry_spec d0 k s e done_ :
  applied d0 k s -> (length done_ <= k)%nat -> (forall x, script_of e = Some x -> scripts !! length done_ = Some x) ->
  let '(r, s') := apply_entry e s in
  exists k', (k <= k')%nat /\ applied d0 k' s' /\
    (r = Ok tt -> (length (done_ ++ option_list (script_of e)) <= k')%nat).
Proof.
  intros Hk Hd Hnext. unfold apply_entry, script_of in *. destruct (en_data e) as [data|].
  2:{ exists k. split; [lia|]. split; [done|]. intros _. cbn. by rewrite app_nil_r. }
  destruct (HasSuffix (en_name e) ".sql"); cbn [negb].
  2:{ exists k. split; [lia|]. split; [done|]. intros _. destruct (extractVersion _); cbn; by rewrite app_nil_r. }
  destruct (extractVersion (en_name e)) as [v|x]; [|by exists k].
  specialize (Hnext _ eq_refl). unfold bind, wrapped, db_call at 1.
  assert (forall fl, let s1 := MkMdb (m_content s) (m_versions s) fl (m_tick s) in
    let '(r, s') := (if bool_decide (is_Some (m_versions s !! v)) then ret tt else applyMigrationFile (en_name e) data v) s1 in
    exists k', (k <= k')%nat /\ applied d0 k' s' /\ (r = Ok tt -> (length (done_ ++ [(v, data)]) <= k')%nat)) as H.
  { intros fl s1. rewrite length_app. cbn [length]. case_bool_decide as Hin.
    - exists k. split; [lia|]. split; [done|]. intros _. destruct Hk as (Hle & _ & Hv). apply Hv in Hin.
      apply list_elem_of_fmap in Hin as ([v' data'] & Ev & Hin). cbn in Ev. subst v'.
      apply list_elem_of_lookup in Hin as [i Hi]. apply lookup_take_Some in Hi as [Hi Hlt].
      assert (i = length done_); [|lia].
      apply (NoDup_lookup scripts.*1 i (length done_) v); [done| |]; rewrite list_lookup_fmap; by rewrite ?Hi, ?Hnext.
    - destruct (decide (length done_ = k)) as [E|].
      + rewrite E in Hnext.
        pose proof (applyMigrationFile_spec d0 k s1 (en_name e) data v (applied_faults d0 k s fl (m_tick s) Hk) Hnext) as H.
        destruct (applyMigrationFile _ _ _ s1) as [[u|x] s']; [|by exists k].
        exists (S k). split; [lia|]. split; [done|]. lia.
      + exfalso. apply Hin. destruct Hk as (_ & _ & Hv). apply Hv. apply list_elem_of_fmap. exists (v, data). split; [done|].
        apply list_elem_of_lookup. exists (length done_). apply lookup_take_Some. split; [done|lia]. }
  destruct (m_faults s) as [|[x|] fl] eqn:Ef.
  - specialize (H (m_faults s)). destruct s; cbn in *. exact H.
  - by exists k.
  - exact (H fl).
Qed.

Lemma migrate_loop d0 l done_ k s :
  scripts = done_ ++ omap script_of l -> applied d0 k s -> (length done_ <= k)%nat ->
  let '(r, s') := each apply_entry l s in
  exists k', (k <= k')%nat /\ applied d0 k' s' /\ (r = Ok tt -> k' = length scripts).
Proof.
  revert done_ k s. induction l as [|e l IH]; intros done_ k s Hsc Hk Hd.
  { cbn. exists k. split; [lia|]. split; [done|]. intros _. cbn in Hsc. rewrite app_nil_r in Hsc.
    destruct Hk as [Hle _]. rewrite Hsc in *. lia. }
  cbn [each]. unfold bind.
  pose proof (apply_entry_spec d0 k s e done_ Hk Hd) as H.
  destruct (apply_entry e s) as [[u|x] s'].
  - destruct H as (k1 & Hk1 & Ha & Hdone).
    { intros x Hx. rewrite Hsc. cbn. rewrite Hx. rewrite lookup_app_r by lia. by rewrite Nat.sub_diag. }
    destruct u. specialize (Hdone eq_refl).
    assert (scripts = (done_ ++ option_list (script_of e)) ++ omap script_of l) as Hsc'.
    { rewrite Hsc, <- app_assoc. cbn. by destruct (script_of e). }
    specialize (IH _ k1 s' Hsc' Ha Hdone).
    destruct (each apply_entry l s') as [r s2]. destruct IH as (k2 & ? & ? & ?). exists k2. split; [lia|]. done.
  - destruct H as (k1 & Hk1 & Ha & _).
    { intros y Hy. rewrite Hsc. cbn. rewrite Hy. rewrite lookup_app_r by lia. by rewrite Nat.sub_diag. }
    by exists k1.
Qed.

(** However often the server starts and whatever fails on the way, a database has had
    the first scripts run on it, in the order of their names, each exactly once, and their
    versions on record: a start that succeeds has run them all, one that fails leaves a
    number of whole scripts, no fewer than before, and a start after one that succeeded
    changes nothing. *)
Theorem migrations_apply_once d0 k s :
  applied d0 k s ->
  let '(r, s') := applyMigrations entries s in
  exists k', (k <= k')%nat /\ applied d0 k' s' /\ (r = Ok tt -> k' = length scripts) /\
    (k = length scripts -> m_content s' = m_content s).
Proof.
  intros Hk. unfold applyMigrations, bind, wrapped, db_call at 1.
  assert (forall fl, let s1 := MkMdb (m_content s) (m_versions s) fl (m_tick s) in
    let '(r, s') := each apply_entry (merge_sort (by_key String.le en_name) entries) s1 in
    exists k', (k <= k')%nat /\ applied d0 k' s' /\ (r = Ok tt -> k' = length scripts) /\
      (k = length scripts -> m_content s' = m_content s)) as H.
  { intros fl s1. pose proof (migrate_loop d0 (merge_sort (by_key String.le en_name) entries) [] k s1 eq_refl Hk ltac:(cbn; lia)) as H.
    destruct (each _ _ s1) as [r s']. destruct H as (k' & Hle & Ha & Hr). exists k'. do 3 (split; [done|]).
    intros ->. destruct Hk as (_ & Hc & _), Ha as (Hle' & Hc' & _). assert (k' = length scripts) as -> by lia.
    rewrite Hc in Hc'. congruence. }
  destruct (m_faults s) as [|[x|] fl] eqn:Ef.
  - specialize (H (m_faults s)). destruct s; exact H.
  - exists k. do 2 (split; [done|]). split; [done|]. done.
  - exact (H fl).
Qed.

(** A new database. *)
Lemma applied_empty d0 fl n : applied d0 0 (MkMdb d0 ∅ fl n).
Proof. split; [lia|]. split; [done|]. intros v. cbn. rewrite lookup_empty. split; [by intros []|by intros ?%not_elem_of_nil]. Qed.
End Migrations.

(** ** The repository's two scripts *)
Module Repo.
#[export] Instance repo_clock : Clock := fun n => Z.of_nat n.
(** A database that only remembers what was run on it. *)
Definition remember (data : string) (d : list string) : result (list string) := Ok (d ++ [data]).
Definition entries : list entry :=
  [MkEntry "0002_settings.sql" (Some "settings"); MkEntry "README" (Some ""); MkEntry "0001_init.sql" (Some "init")].
(** The first script is committed, the second's transaction fails; then the server starts again. *)
Definition failing : mdb (D:=list string) := MkMdb [] ∅ [None; None; None; None; None; None; None; Some (Errorf "disk full")] 0.
End Repo.
Import Repo.

Lemma migrations_apply_once_witness :
  let s1 := snd (applyMigrations remember Repo.entries failing) in
  let s2 := snd (applyMigrations remember Repo.entries s1) in
  m_content s1 = ["init"] /\ m_content s2 = ["init"; "settings"] /\ m_content (snd (applyMigrations remember Repo.entries s2)) = m_content s2.
Proof.
  intros s1 s2. assert (NoDup (scripts Repo.entries).*1) as Hnd by (apply (bool_decide_unpack _); by vm_compute).
  assert (applied remember Repo.entries [] 2 s2) as Ha.
  { pose proof (migrations_apply_once remember Repo.entries Hnd [] 0 failing (applied_empty _ _ _ _ _)) as H.
    destruct (applyMigrations remember Repo.entries failing) as [r s'] eqn:E. destruct H as (k & _ & Ha & _ & _).
    pose proof (migrations_apply_once remember Repo.entries Hnd [] k s' Ha) as H2. 
    assert (fst (applyMigrations remember Repo.entries s') = Ok tt) as Hok.
    { assert (s' = snd (applyMigrations remember Repo.entries failing)) as -> by by rewrite E. by vm_compute. }
    change s2 with (snd (applyMigrations remember Repo.entries s')). destruct (applyMigrations remember Repo.entries s') as [r2 s2']. 
    destruct H2 as (k2 & _ & Ha2 & Hr & _). cbn [fst] in Hok. rewrite (Hr Hok) in Ha2. exact Ha2. }
  split; [by vm_compute|]. split; [by vm_compute|].
  pose proof (migrations_apply_once remember Repo.entries Hnd [] 2 s2 Ha) as H.
  destruct (applyMigrations remember Repo.entries s2) as [r s3]. destruct H as (k & _ & _ & _ & H). exact (H eq_refl).
Defined.
