(* ===== verification/Identity.v ===== *)
(** internal/client/id/id.go: the client's identity, a UUID kept in a file of the disk of
    Disk.v.

    A file name is resolved by the kernel from the process's working directory [cwd].  Any
    call may fail, and a write that fails may leave any prefix of what it was to write.
    Parsing a UUID and making one are parameters, the uuid package's. *)
From S2P Require Import Prelude GoStrings Paths Store Disk Jail JailSpec.
Local Open Scope Z_scope.
Local Open Scope go_scope.

(** The elements the kernel walks for a name. *)
Definition kernel_path (cwd : fpath) (name : string) : fpath :=
  if HasPrefix name "/" then split_slash name else cwd ++ split_slash name.

Section Identity.
Context {clk : Clock} (uuid_Parse : string -> option error).

Definition os_ReadFile (p : fpath) : M disk bytes :=
  data <- d_Open p;;
  d_call "read" (ret data).

(** [os.MkdirAll] of a name that is clean. *)
Definition os_MkdirAll (cwd : fpath) (name : string) : M disk unit :=
  let absolute := HasPrefix name "/" in
  mkdir_all absolute (if absolute then [] else cwd) (reverse (clean_elements absolute (split_slash name))).

Definition os_WriteFile (p : fpath) (data : bytes) : M disk unit :=
  q <- d_Create p;;
  w <- d_write q data None;;
  c <-? d_close;;
  match w.2, c with
  | Some e, _ => throw e
  | None, Err e => throw e
  | None, Ok _ => ret tt
  end.

(** [errors.Is(err, os.ErrNotExist)] *)
Definition is_not_exist (e : error) : bool := bool_decide (errors_As_PathError e = Some "ENOENT").

(** [LoadOrCreate]; [newID] is the UUID it makes. *)
Definition LoadOrCreate (cwd : fpath) (idFile newID : string) : M disk string :=
  data <-? os_ReadFile (kernel_path cwd idFile);;
  match data with
  | Ok data =>
      let id := TrimSpace (text_of data) in
      match uuid_Parse id with
      | Some e => throw (Wrap ("id: invalid uuid in " +:+ idFile) e)
      | None => ret id
      end
  | Err e =>
      if negb (is_not_exist e) then throw (Wrap "id: read file" e)
      else
        wrapped "id: mkdirall" (os_MkdirAll cwd (Dir idFile));;
        wrapped "id: write file" (os_WriteFile (kernel_path cwd idFile) (bytes_of newID));;
        ret newID
  end.

(** What the client answers when it starts again and again. *)
Fixpoint starts (cwd : fpath) (idFile : string) (news : list string) (d : disk) : list (result string) :=
  match news with
  | [] => []
  | new :: rest => let '(r, d') := LoadOrCreate cwd idFile new d in r :: starts cwd idFile rest d'
  end.

(** ** What is read *)

(** The content of the file a path leads to. *)
Definition read_at (m : nodes) (p : fpath) : option bytes :=
  match follow false m p with
  | Ok q => match node_at m q with Some (NFile data _) => Some data | _ => None end
  | Err _ => None
  end.

(** No failure to come says that a file is missing. *)
Definition honest_faults (l : list (option (nat * string))) : Prop :=
  Forall (fun f => match f with Some (_, errno) => errno <> "ENOENT" | None => True end) l.
Definition honest (d : disk) : Prop := honest_faults (d_faults d).

(** A property of the nodes, on a disk whose failures are honest. *)
Definition on_honest (P : nodes -> Prop) (d : disk) : Prop := P (d_nodes d) /\ honest d.

Lemma triple_fact {A : Type} (P : disk -> Prop) (H : Prop) (m : M disk A) (Q : result A -> disk -> Prop) :
  (H -> triple P m Q) -> triple (fun d => P d /\ H) m Q.
Proof. intros Hm d [HP Hf]. by apply Hm. Qed.

Lemma triple_fault (P : nodes -> Prop) :
  triple (on_honest P) d_fault (fun r d => on_honest P d /\
    exists f, r = Ok f /\ match f with Some (_, errno) => errno <> "ENOENT" | None => True end).
Proof.
  intros [m fl n] [HP Hh]. unfold on_honest, honest, d_fault in *. cbn in *.
  destruct fl as [|f fl]; cbn; [split; [done|by exists None]|].
  apply Forall_cons in Hh as [Hf Hfl]. split; [done|by exists f].
Qed.

(** A call fails with an errno that is not ENOENT, or does its work. *)
Lemma triple_call {A : Type} (P : nodes -> Prop) (op : string) (m : M disk A) (Q : result A -> disk -> Prop) :
  (forall errno d, errno <> "ENOENT" -> on_honest P d -> Q (Err (PathError op errno)) d) ->
  triple (on_honest P) m Q -> triple (on_honest P) (d_call op m) Q.
Proof.
  intros He Hm. unfold d_call. eapply triple_bind; [apply triple_fault| |by intros e d (_ & f & [=] & _)].
  intros [[n errno]|].
  - apply triple_throw. intros d (Hd & f & [= <-] & Hf). by apply He.
  - eapply triple_weaken; [exact Hm|by intros d [? _]|done].
Qed.

Lemma triple_find {A : Type} (P : nodes -> Prop) (op : string) (q : nodes -> result A) :
  triple (on_honest P) (d_query op q) (fun r d => on_honest P d /\
    ((exists errno, r = Err (PathError op errno) /\ errno <> "ENOENT") \/ r = q (d_nodes d))).
Proof. apply triple_call; [intros errno d Hn Hd; split; [done|]; left; by exists errno|]. intros d Hd. split; [done|by right]. Qed.

(** Reading a file answers its content or an error that does not say it is missing. *)
Lemma triple_ReadFile (m : nodes) (p : fpath) :
  triple (on_honest (eq m)) (os_ReadFile p) (fun r d => on_honest (eq m) d /\
    match r with Ok data => read_at m p = Some data | Err e => is_not_exist e = true -> read_at m p = None end).
Proof.
  assert (forall op errno, errno <> "ENOENT" -> is_not_exist (PathError op errno) = false) as Hne.
  { intros op errno H. unfold is_not_exist. cbn. apply bool_decide_false. congruence. }
  unfold os_ReadFile. eapply triple_bind with (R := fun r d => on_honest (eq m) d /\
    match r with Ok data => read_at m p = Some data | Err e => is_not_exist e = true -> read_at m p = None end); [|intros data|done].
  - unfold d_Open. eapply triple_bind; [apply (triple_find (eq m))|intros n|].
    + intros d [[Hm Hh] [(errno & [=] & _)|Hq]]. unfold found in Hq. rewrite <- Hm in Hq. unfold read_at.
      destruct (follow false m p) as [q|e]; [|done]. destruct (node_at m q) as [n'|]; [|done]. injection Hq as ->.
      by destruct n'.
    + intros e d [[Hm Hh] Hq]. split; [done|]. destruct Hq as [(errno & [= ->] & H)|Hq]; [by rewrite Hne|]. intros _.
      unfold found in Hq. rewrite <- Hm in Hq. unfold read_at. destruct (follow false m p) as [q|e']; [|done].
      by destruct (node_at m q).
  - apply triple_fact. intros Hr. apply triple_call; [|by apply triple_ret].
    intros errno d H Hd. split; [done|]. by rewrite Hne.
Qed.

(** ** What is written *)

(** Nothing has changed but that some directories have been made where nothing was. *)
Definition dirs_added (m m' : nodes) : Prop :=
  forall q, m' !! q = m !! q \/ (m !! q = None /\ exists t, m' !! q = Some (NDir t)).

Lemma dirs_added_refl m : dirs_added m m.
Proof. intros q. by left. Qed.

Lemma dirs_added_insert m m' q t : dirs_added m m' -> node_at m' q = None -> dirs_added m (<[q := NDir t]> m').
Proof.
  intros H Hn x. destruct (decide (x = q)) as [->|Hne].
  - right. rewrite lookup_insert_eq. assert (m' !! q = None) as E by by destruct q.
    destruct (H q) as [Hq|(_ & t' & Hq)]; [|congruence]. rewrite E in Hq. split; [done|by exists t].
  - rewrite lookup_insert_ne by done. apply H.
Qed.

Lemma triple_Mkdir_added m p :
  triple (on_honest (dirs_added m)) (d_Mkdir p) (fun _ => on_honest (dirs_added m)).
Proof.
  apply triple_call; [done|]. intros d [Hd Hh]. destruct (nofollow (d_nodes d) p) as [q|e]; [|done].
  destruct (node_at (d_nodes d) q) eqn:E; [done|]. cbn. split; [by apply dirs_added_insert|exact Hh].
Qed.

Lemma triple_find_added {A : Type} (m : nodes) (op : string) (q : nodes -> result A) :
  triple (on_honest (dirs_added m)) (d_query op q) (fun _ => on_honest (dirs_added m)).
Proof. eapply triple_weaken; [apply (triple_find (dirs_added m))|done|by intros r d [H _]]. Qed.

Lemma triple_mkdirs m absolute base rp :
  triple (on_honest (dirs_added m)) (mkdir_all absolute base rp) (fun _ => on_honest (dirs_added m)).
Proof.
  induction rp as [|x rp IH]; cbn [mkdir_all].
  all: eapply triple_try; [apply triple_find_added|]; intros [n|e];
    [destruct (is_dir n); (apply triple_ret || apply triple_throw); done|].
  all: eapply triple_bind with (R := fun _ => on_honest (dirs_added m)); [| |done].
  1: by apply triple_ret.
  2: destruct (negb absolute && _); [by apply triple_ret|exact IH].
  all: intros u; eapply triple_try; [apply triple_Mkdir_added|]; intros [v|e']; [by apply triple_ret|].
  all: eapply triple_try; [apply triple_find_added|]; intros [n|e'']; [destruct (is_dir n)|];
    (apply triple_ret || apply triple_throw); done.
Qed.

Definition free_or_file (m : nodes) (q : fpath) : Prop :=
  match m !! q with None | Some (NFile _ _) => True | _ => False end.

(** A file that has been made where a path led is where the path leads. *)
Lemma walk_made k : forall m d todo q data t,
  walk true k m d todo = Ok q -> free_or_file m q -> walk false k (<[q := NFile data t]> m) d todo = Ok q.
Proof.
  induction k as [k IHk] using lt_wf_ind. intros m d todo. revert d.
  induction todo as [|c rest IH]; intros d q data t Hw Hq; [by rewrite walk_nil in *|].
  rewrite walk_cons in Hw |- *.
  destruct (bool_decide (c = "") || _); [by apply IH|]. case_bool_decide; [by apply IH|].
  unfold free_or_file in Hq. destruct (decide (q = d ++ [c])) as [->|Hne].
  - rewrite lookup_insert_eq. destruct (m !! (d ++ [c])) as [[]|]; try done; case_bool_decide; done.
  - rewrite lookup_insert_ne by done. destruct (m !! (d ++ [c])) as [[| |tg|]|].
    + case_bool_decide; congruence.
    + by apply IH.
    + destruct k as [|k]; [done|]. by apply IHk; [lia| |].
    + case_bool_decide; congruence.
    + cbn in Hw. case_bool_decide; congruence.
Qed.

(** [w] has been written to the file [p] leads to. *)
Definition written (m : nodes) (p : fpath) (q : fpath) (w : bytes) (m' : nodes) : Prop :=
  exists m1 t, dirs_added m m1 /\ free_or_file m1 q /\ follow true m1 p = Ok q /\ m' = <[q := NFile w t]> m1.

Lemma written_read m p q w m' : q <> [] -> written m p q w m' -> follow false m' p = Ok q /\ read_at m' p = Some w.
Proof.
  intros Hq (m1 & t & _ & Hf & Hw & ->). pose proof (walk_made _ _ _ _ _ w t Hw Hf) as H.
  unfold read_at, follow in *. rewrite H. split; [done|]. destruct q as [|x q]; [done|]. unfold node_at. by rewrite lookup_insert_eq.
Qed.

Lemma triple_Create_made m p :
  triple (on_honest (dirs_added m)) (d_Create p) (fun r d => honest d /\
    match r with Ok q => q <> [] /\ written m p q [] (d_nodes d) | Err _ => dirs_added m (d_nodes d) end).
Proof.
  apply triple_call; [by intros errno d _ [Hd Hh]|]. intros d [Hd Hh].
  destruct (follow true (d_nodes d) p) as [q|e] eqn:E; [|done]. destruct q as [|x q]; [done|].
  assert (free_or_file (d_nodes d) (x :: q) ->
    written m p (x :: q) [] (<[x :: q := NFile [] (clock (d_tick d))]> (d_nodes d))) as H
    by (intros Hf; by exists (d_nodes d), (clock (d_tick d))).
  unfold free_or_file in H. cbn [node_at]. destruct (d_nodes d !! (x :: q)) as [[]|]; cbn; auto.
Qed.

Lemma triple_write_made m p q data :
  q <> [] ->
  triple (fun d => honest d /\ written m p q [] (d_nodes d)) (d_write q data None) (fun r d => honest d /\
    exists w e, r = Ok (w, e) /\ w `prefix_of` data /\ written m p q w (d_nodes d) /\ (e = None -> w = data)).
Proof.
  intros Hq [mm fl n] [Hh Hw]. unfold honest in *. cbn in *.
  assert (forall w t, written m p q w (alter (fun n => match n with NFile old _ => NFile (old ++ w) t | _ => n end) q mm)) as H.
  { intros w t. destruct Hw as (m1 & t1 & Hd & Hf & Hp & ->). exists m1, t. split; [done|]. split; [done|]. split; [done|].
    by rewrite alter_insert_eq. }
  unfold d_write, bind, d_fault, d_now, modify, ret.
  destruct fl as [|[[k errno]|] fl]; cbn; try (apply Forall_cons in Hh as [_ Hh]); (split; [done|]).
  - exists data, None. split; [done|]. by split.
  - exists (take k data), (Some (PathError "write" errno)). split; [done|]. split; [apply prefix_take|by split].
  - exists data, None. split; [done|]. by split.
Qed.

(** ** What a start does *)

(** What a start makes of the identity's file: directories where nothing was, and the file
    the path then leads to, with the beginning of [new]. *)
Definition made (m : nodes) (p : fpath) (new : bytes) (m' : nodes) : Prop :=
  dirs_added m m' \/ exists q w, q <> [] /\ w `prefix_of` new /\ written m p q w m'.

Definition parsed_id (idFile : string) (data : bytes) : result string :=
  match uuid_Parse (TrimSpace (text_of data)) with
  | None => Ok (TrimSpace (text_of data))
  | Some e => Err (Wrap ("id: invalid uuid in " +:+ idFile) e)
  end.

Lemma triple_WriteFile m p data :
  triple (on_honest (dirs_added m)) (os_WriteFile p data) (fun r d => honest d /\ made m p data (d_nodes d) /\
    (r = Ok tt -> read_at (d_nodes d) p = Some data)).
Proof.
  unfold os_WriteFile. eapply triple_bind; [apply triple_Create_made|intros q; cbn beta iota|].
  2: intros e d [Hh Hd]; split; [done|]; by split; [left|].
  intros d (Hh & Hq & Hw). unfold bind, try. pose proof (triple_write_made m p q data Hq d (conj Hh Hw)) as H.
  destruct (d_write q data None d) as [r d1]. cbn in H. destruct H as (Hh1 & w & e & -> & Hpre & Hw1 & Hall).
  assert (exists c d2, d_close d1 = (c, d2) /\ honest d2 /\ d_nodes d2 = d_nodes d1) as (c & d2 & -> & Hh2 & En).
  { revert Hh1. destruct d1 as [m1 fl n]. unfold honest, d_close, d_call, bind, d_fault. cbn.
    destruct fl as [|[[k errno]|] fl]; cbn; intros Hh1; try (apply Forall_cons in Hh1 as [_ Hh1]); by eexists _, _. }
  assert (made m p data (d_nodes d2)) as Hm by (right; exists q, w; by rewrite En).
  cbn [snd]. destruct e as [e|], c as [[]|e']; (split; [done|]); (split; [done|]); try done.
  intros _. cbn. rewrite En. rewrite Hall in Hw1 by done. by eapply written_read.
Qed.

Lemma LoadOrCreate_spec cwd idFile new d :
  honest d ->
  let p := kernel_path cwd idFile in
  let '(r, d') := LoadOrCreate cwd idFile new d in
  honest d' /\
  match read_at (d_nodes d) p with
  | Some data => d_nodes d' = d_nodes d /\ (r = parsed_id idFile data \/ exists e, r = Err (Wrap "id: read file" e))
  | None => made (d_nodes d) p (bytes_of new) (d_nodes d') /\
      forall id, r = Ok id -> id = new /\ read_at (d_nodes d') p = Some (bytes_of new)
  end.
Proof.
  intros Hh p. pose proof (triple_ReadFile (d_nodes d) p d (conj eq_refl Hh)) as H. unfold LoadOrCreate, try. fold p.
  destruct (os_ReadFile p d) as [[data|e] d1]; cbn in H; destruct H as [[Hm Hh1] Hr].
  { rewrite Hr. unfold parsed_id. destruct (uuid_Parse _); cbn; (split; [done|]); (split; [done|]); by left. }
  destruct (is_not_exist e) eqn:Ee; cbn [negb].
  2: { cbn. split; [done|]. destruct (read_at _ p); (split; [|]); [done|right; by eexists|left; rewrite <- Hm; apply dirs_added_refl|done]. }
  rewrite Hr by done. assert (on_honest (dirs_added (d_nodes d)) d1) as Hd1 by (split; [rewrite Hm; apply dirs_added_refl|done]).
  unfold bind, wrapped, os_MkdirAll.
  match goal with |- context [mkdir_all ?a ?b ?c d1] => pose proof (triple_mkdirs (d_nodes d) a b c d1 Hd1) as H2; destruct (mkdir_all a b c d1) as [[u|e'] d2] end;
    cbn in H2; [|destruct H2; split; [done|]; by split; [left|]].
  pose proof (triple_WriteFile (d_nodes d) p (bytes_of new) d2 H2) as H3.
  destruct (os_WriteFile p _ d2) as [[[]|e'] d3]; cbn in H3 |- *; destruct H3 as (Hh3 & Hm3 & Hr3); (split; [done|]); (split; [done|]); [|done].
  intros id [= <-]. by split; [|apply Hr3].
Qed.

(** A start with a file there reads it and leaves the disk alone, and so do all that
    follow. *)
Lemma starts_read cwd idFile news data d :
  read_at (d_nodes d) (kernel_path cwd idFile) = Some data -> honest d ->
  Forall (fun r => r = parsed_id idFile data \/ exists e, r = Err (Wrap "id: read file" e)) (starts cwd idFile news d).
Proof.
  revert d. induction news as [|new rest IH]; intros d Hd Hh; [constructor|]. cbn [starts].
  pose proof (LoadOrCreate_spec cwd idFile new d Hh) as H. cbn zeta in H. rewrite Hd in H.
  destruct (LoadOrCreate cwd idFile new d) as [r d']. destruct H as (Hh' & Hm & Hr).
  constructor; [done|]. apply IH; [by rewrite Hm|done].
Qed.

(** After a start that answered an identity the file holds it. *)
Lemma LoadOrCreate_keeps cwd idFile new d id :
  TrimSpace new = new -> uuid_Parse new = None -> honest d ->
  let '(r, d') := LoadOrCreate cwd idFile new d in
  r = Ok id -> honest d' /\ exists data, read_at (d_nodes d') (kernel_path cwd idFile) = Some data /\
    TrimSpace (text_of data) = id /\ uuid_Parse id = None.
Proof.
  intros Ht Hp Hh. pose proof (LoadOrCreate_spec cwd idFile new d Hh) as H. cbn zeta in H.
  destruct (LoadOrCreate cwd idFile new d) as [r d']. destruct H as [Hh' H]. intros ->. split; [done|].
  destruct (read_at (d_nodes d) _) as [data|] eqn:E.
  - destruct H as [Hm [Hr|[e [=]]]]. exists data. rewrite Hm. split; [done|]. unfold parsed_id in Hr.
    destruct (uuid_Parse (TrimSpace (text_of data))) eqn:Eu; [done|]. injection Hr as ->. by split.
  - destruct H as [_ H]. destruct (H id eq_refl) as [-> Hr]. exists (bytes_of new). rewrite text_of_bytes_of, Ht. by split.
Qed.

(** The identity is kept: once a start has answered an identity, every later one answers
    that identity, whatever UUID it would have made and whichever calls fail, or fails to
    read the file. *)
Theorem identity_is_kept cwd idFile new news d id :
  TrimSpace new = new -> uuid_Parse new = None -> honest d -> fst (LoadOrCreate cwd idFile new d) = Ok id ->
  Forall (fun r => r = Ok id \/ exists e, r = Err (Wrap "id: read file" e))
    (starts cwd idFile news (snd (LoadOrCreate cwd idFile new d))).
Proof.
  intros Ht Hp Hh. pose proof (LoadOrCreate_keeps cwd idFile new d id Ht Hp Hh) as H.
  destruct (LoadOrCreate cwd idFile new d) as [r d']. cbn. intros Hr. destruct (H Hr) as (Hh' & data & Hd & Hi & Hv).
  pose proof (starts_read cwd idFile news data d' Hd Hh') as Hs. unfold parsed_id in Hs. by rewrite Hi, Hv in Hs.
Qed.

(** A first start cut short may leave part of a UUID in the file, and then no later start
    succeeds: the write is not atomic. *)
Theorem torn_identity_is_fatal cwd idFile part news d e :
  read_at (d_nodes d) (kernel_path cwd idFile) = Some part -> uuid_Parse (TrimSpace (text_of part)) = Some e -> honest d ->
  Forall (fun r => is_ok r = false) (starts cwd idFile news d).
Proof.
  intros Hd Hp Hh. pose proof (starts_read cwd idFile news part d Hd Hh) as H. unfold parsed_id in H. rewrite Hp in H.
  eapply Forall_impl; [exact H|]. intros r [->|[x ->]]; done.
Qed.
End Identity.

(** ** A client that starts three times *)
Module Starts.
#[export] Instance start_clock : Clock := fun n => Z.of_nat n.
(** 36 characters, for a UUID. *)
Definition check (s : string) : option error := if (slen s =? 36)%nat then None else Some (Errorf "invalid UUID length").
Definition uuid1 : string := "11111111-1111-4111-8111-111111111111".
Definition uuid2 : string := "22222222-2222-4222-8222-222222222222".
(** The directory of the file is to be made, below a link; a later read fails. *)
Definition before : disk :=
  MkDisk (<[["home"] := NDir 0]> {[["home"; "conf"] := NLink "."]}) (repeat None 10 ++ [Some (0%nat, "EIO")]) 0.
End Starts.
Import Starts.

Lemma identity_is_kept_witness :
  starts check ["home"] "conf/axion/client.id" [uuid1; uuid2; uuid2; uuid2] before =
    [Ok uuid1; Ok uuid1; Err (Wrap "id: read file" (PathError "read" "EIO")); Ok uuid1] /\
  Forall (fun r => r = Ok uuid1 \/ exists e, r = Err (Wrap "id: read file" e))
    (starts check ["home"] "conf/axion/client.id" [uuid2] (snd (LoadOrCreate check ["home"] "conf/axion/client.id" uuid1 before))).
Proof.
  split; [by vm_compute|].
  apply (identity_is_kept check ["home"] "conf/axion/client.id" uuid1 [uuid2] before uuid1); try by vm_compute.
  by repeat constructor.
Defined.
