(* ===== verification/Router.v ===== *)
(** internal/server/http/router.go: the server's routes with the middleware of each, over
    the whole state: database, blobs, hub.

    A handler that waits for a client's answer is given it by [wait], the hub's
    [SendAndWait].  The WebSocket route answers 101 and the session goes on with
    [Session.ServeWS]; whether the handshake's headers are good is the parameter [upgrade],
    which gives the refusal if they are not.  [q] is the URL's query and [fresh] the new
    UUID or token of a request.  The paths are those [ServeMux] does not redirect. *)
From S2P Require Import Prelude GoStrings Json Proto Store StoreFacts Lww Engine Hub BlobStore Http HttpBlobs Session ListDir Web WebSpec Demo.
Local Open Scope Z_scope.
Local Open Scope go_scope.

Definition StatusSwitchingProtocols := 101.

Record Config : Type := MkRouterConfig {
  rc_PSK : string; rc_AdminUser : string; rc_AdminPassword : string;
  rc_MaxFileSizeBytes : Z; rc_PerClientQuotaBytes : Z
}.

Section Router.
Context {clk : Clock}.
Notation site := (server (fs * hub)).

Definition on_blobs {A} (m : M (server fs) A) : M site A := fun s =>
  let '(r, w) := m (MkServer (sv_store s) (sv_blobs s).1) in (r, MkServer (sv_store w) (sv_blobs w, (sv_blobs s).2)).
Definition on_world {A} (m : M (world hub) A) : M site A := fun s =>
  let '(r, w) := m (MkWorld (sv_store s) (sv_blobs s).2) in (r, MkServer (w_store w) ((sv_blobs s).1, w_net w)).
Definition on_web {A} (m : M (server hub) A) : M site A := fun s =>
  let '(r, w) := m (MkServer (sv_store s) (sv_blobs s).2) in (r, MkServer (sv_store w) ((sv_blobs s).1, sv_blobs w)).

Context (cfg : Config) (upgrade : request -> option response).
Context (wait : string -> Envelope -> M (world hub) Envelope).
Context (ExecuteTemplate : view -> string * option error) (Format : Z -> string) (Year : Z -> Z) (web : Web.Config).

Definition ws_route (r : request) : M site response :=
  ret (match upgrade r with Some p => p | None => MkResponse StatusSwitchingProtocols [] NoBody end).

Definition listdir_route (q : string -> string) (fresh : string) (r : request) : M site response := on_world (fun w =>
  match listdir_request r (q "path") fresh (w_net w) with
  | inl p => (Ok p, w)
  | inr (clientID, env) => (a <-? wait clientID env;; listdir_answer clientID a) w
  end).

Definition web_route (q : string -> string) (fresh : string) (r : request) : M site response :=
  on_web (web_handler ExecuteTemplate Format Year web q fresh (fun d env => wait (bd_ClientID d) env) r).

Definition NewRouter (q : string -> string) (fresh : string) (r : request) : M site response :=
  let path := rq_Path r in
  if bool_decide (path = "/v1/ws") then AuthBearer (rc_PSK cfg) ws_route r
  else if HasPrefix path "/v1/clients/" then AuthBearer (rc_PSK cfg) (listdir_route q fresh) r
  else if HasPrefix path "/v1/blobs/" then
    on_blobs (blobs_route (rc_MaxFileSizeBytes cfg) (rc_PerClientQuotaBytes cfg) (rc_PSK cfg) r)
  else BasicAuth (rc_AdminUser cfg) (rc_AdminPassword cfg) (CSRF fresh (web_route q fresh)) r.

(** ** Who gets in *)
Definition machine_path (path : string) : bool :=
  bool_decide (path = "/v1/ws") || HasPrefix path "/v1/clients/" || HasPrefix path "/v1/blobs/".

(** The request has the credentials its route asks for. *)
Definition admitted (r : request) : bool :=
  if machine_path (rq_Path r) then bool_decide (extractBearer (Header r "Authorization") = rc_PSK cfg)
  else bool_decide (rc_AdminUser cfg = "") || bool_decide (rc_AdminPassword cfg = "") ||
       bool_decide (rq_Basic r = Some (rc_AdminUser cfg, rc_AdminPassword cfg)).

(** Nothing but the audit log has changed, and that has only grown. *)
Definition audited (t t' : tables) : Prop := exists l, t' = set_audit (fun a => a ++ l) t.

Lemma audited_refl t : audited t t.
Proof. exists []. destruct t. unfold set_audit. cbn. by rewrite app_nil_r. Qed.

Lemma http_audit_audited {B} kind c d t (s : server B) :
  audited t (db (sv_store s)) ->
  exists s', http_audit kind c d s = (Ok tt, s') /\ sv_blobs s' = sv_blobs s /\ audited t (db (sv_store s')).
Proof.
  intros [l Hl]. unfold http_audit, bind, try, in_store, now, AppendAuditLog, wrapped, exec, sql.
  destruct s as [[tb fl n] b]. cbn in *. destruct fl as [|[e|] fl]; cbn; eexists; (split; [done|]); (split; [done|]); subst tb.
  - eexists (l ++ [_]). unfold set_audit. cbn. by rewrite <- app_assoc.
  - by exists l.
  - eexists (l ++ [_]). unfold set_audit. cbn. by rewrite <- app_assoc.
Qed.

(** C26. Nobody gets in without credentials: on every route of the server, a request without
    the key, or on the pages without the administrator's name and password once they are
    set, is answered 401; no blob changes, nothing is sent to any client, and the database
    changes at most by the entries its audit log gains, whatever the request is and
    whichever statements and calls fail. *)
Theorem no_entry_without_credentials q fresh r s :
  admitted r = false ->
  let '(res, s') := NewRouter q fresh r s in
  (exists p, res = Ok p /\ rp_Status p = StatusUnauthorized) /\
  sv_blobs s' = sv_blobs s /\ audited (db (sv_store s)) (db (sv_store s')).
Proof.
  intros Ha. unfold admitted, machine_path in Ha. unfold NewRouter.
  assert (forall B (next : request -> M (server B) response) (w : server B),
    bool_decide (extractBearer (Header r "Authorization") = rc_PSK cfg) = false ->
    forall h, h = AuthBearer (rc_PSK cfg) next \/ h = AuthBearerWithClientID (rc_PSK cfg) next ->
    let '(res, w') := h r w in (exists p, res = Ok p /\ rp_Status p = StatusUnauthorized) /\
      sv_blobs w' = sv_blobs w /\ audited (db (sv_store w)) (db (sv_store w'))) as Hb.
  { intros B next w Hk h Hh. destruct (http_audit_audited "psk_auth_failed" None None (db (sv_store w)) w (audited_refl _)) as (w' & E & H).
    destruct Hh as [-> | ->]; [unfold AuthBearer|unfold AuthBearerWithClientID]; rewrite Hk; unfold bind; cbn [negb]; cbv beta; rewrite E;
      (split; [by eexists|done]). }
  destruct (bool_decide (rq_Path r = "/v1/ws")); cbn [orb] in Ha; [by apply (Hb _ ws_route s Ha _ (or_introl eq_refl))|].
  destruct (HasPrefix (rq_Path r) "/v1/clients/"); cbn [orb] in Ha; [by apply (Hb _ (listdir_route q fresh) s Ha _ (or_introl eq_refl))|].
  destruct (HasPrefix (rq_Path r) "/v1/blobs/"); cbn [orb] in Ha.
  - unfold on_blobs, blobs_route. specialize (Hb fs (ServeBlobs (rc_MaxFileSizeBytes cfg) (rc_PerClientQuotaBytes cfg))
      (MkServer (sv_store s) (sv_blobs s).1) Ha _ (or_intror eq_refl)).
    destruct (AuthBearerWithClientID _ _ r _) as [res w]. destruct Hb as (Hp & Hbl & Hau). cbn in *.
    split; [exact Hp|]. split; [rewrite Hbl; by destruct (sv_blobs s)|exact Hau].
  - apply orb_false_iff in Ha as [[Hu Hpw]%orb_false_iff Hc]. unfold BasicAuth. rewrite Hu, Hpw. cbn [orb].
    assert (forall p : response, rp_Status p = StatusUnauthorized -> let '(res, s') := ret p s in
      (exists p, res = Ok p /\ rp_Status p = StatusUnauthorized) /\ sv_blobs s' = sv_blobs s /\ audited (db (sv_store s)) (db (sv_store s'))) as Hd.
    { intros p Hp. cbn. split; [by exists p|]. split; [done|apply audited_refl]. }
    destruct (rq_Basic r) as [[user pass]|]; [|by apply Hd].
    apply bool_decide_eq_false in Hc.
    destruct (bool_decide (user = rc_AdminUser cfg)) eqn:E1; [|by apply Hd].
    destruct (bool_decide (pass = rc_AdminPassword cfg)) eqn:E2; [|by apply Hd].
    apply bool_decide_eq_true in E1, E2. congruence.
Qed.

(** Without an administrator's name or password the pages are open to everyone who can
    reach the server. *)
Theorem pages_are_open_without_a_password q fresh r s :
  machine_path (rq_Path r) = false -> rc_AdminUser cfg = "" \/ rc_AdminPassword cfg = "" ->
  NewRouter q fresh r s = CSRF fresh (web_route q fresh) r s.
Proof.
  intros [[Hw Hc]%orb_false_iff Hb]%orb_false_iff Ha. unfold NewRouter. rewrite Hw, Hc, Hb. unfold BasicAuth.
  destruct Ha as [-> | ->]; rewrite (bool_decide_true ("" = "")) by done; [done|by rewrite orb_true_r].
Qed.
End Router.

Module Site.
Definition site_cfg : Config := MkRouterConfig "key" "admin" "secret" 100 1000.
Definition intruder (method path : string) : request :=
  MkRequest method path [("Authorization", "Bearer guess")] 0 (MkReader [] None) None None (Some ("admin", "guess")) "" "".
End Site.
Import Demo Site.

Lemma no_entry_without_credentials_witness :
  let s := MkServer (MkStore (Demo.content "bidirectional" []) [] 0) (MkFs ∅ ∅ [] 0, both_online) in
  let serve r := NewRouter (clk:=demo_clock) site_cfg (fun _ => None) (fun _ _ => throw (Errorf "no")) Admin.plain (fun _ => "") (fun z => z)
    app_web_config (fun _ => "") "fresh" r s in
  (exists p, fst (serve (intruder "DELETE" "/pairs/p1")) = Ok p /\ rp_Status p = 401) /\
  sv_blobs (snd (serve (intruder "PUT" "/v1/blobs/00"))) = sv_blobs s.
Proof.
  intros s serve. split.
  - pose proof (no_entry_without_credentials (clk:=demo_clock) site_cfg (fun _ => None) (fun _ _ => throw (Errorf "no")) Admin.plain
      (fun _ => "") (fun z => z) app_web_config (fun _ => "") "fresh" (intruder "DELETE" "/pairs/p1") s ltac:(by vm_compute)) as H.
    unfold serve. destruct (NewRouter _ _ _ _ _ _ _ _ _ _ s) as [res s']. apply H.
  - pose proof (no_entry_without_credentials (clk:=demo_clock) site_cfg (fun _ => None) (fun _ _ => throw (Errorf "no")) Admin.plain
      (fun _ => "") (fun z => z) app_web_config (fun _ => "") "fresh" (intruder "PUT" "/v1/blobs/00") s ltac:(by vm_compute)) as H.
    unfold serve. destruct (NewRouter _ _ _ _ _ _ _ _ _ _ s) as [res s']. apply H.
Defined.
