(* ===== verification/Broadcast.v ===== *)
(** internal/server/web/htmx.go: pushing rendered rows to the browsers that are connected.

    A channel is its buffer, with whether it is closed.  [Publish] holds the read lock while
    it sends, so it and the two halves of a cancellation, the removal under the write lock
    and the [close] after it, are steps that interleave with those of other goroutines.
    The browser's socket is not modelled: its loop receives from its channel.  The text of a
    row is what the template gives, a parameter. *)
From S2P Require Import Prelude Store Web.

Definition sub_cap : nat := 16.

Record channel : Type := MkChannel { ch_buf : list string; ch_closed : bool }.

Record Broadcaster : Type := MkBroadcaster {
  bc_subs : gset nat;              (* b.subs, by channel *)
  bc_chans : gmap nat channel;     (* every channel made *)
  bc_next : nat
}.

Definition NewBroadcaster : Broadcaster := MkBroadcaster ∅ ∅ 0.

(** [Subscribe] gives the channel; its cancellation is [cancel_delete] and then
    [cancel_close]. *)
Definition Subscribe (b : Broadcaster) : nat * Broadcaster :=
  (bc_next b, MkBroadcaster ({[bc_next b]} ∪ bc_subs b) (<[bc_next b := MkChannel [] false]> (bc_chans b)) (S (bc_next b))).

Definition cancel_delete (c : nat) (b : Broadcaster) : Broadcaster :=
  MkBroadcaster (bc_subs b ∖ {[c]}) (bc_chans b) (bc_next b).
Definition cancel_close (c : nat) (b : Broadcaster) : Broadcaster :=
  MkBroadcaster (bc_subs b) (alter (fun ch => MkChannel (ch_buf ch) true) c (bc_chans b)) (bc_next b).

(** [select { case ch <- html: default: }]: [None] is the panic of a send on a closed
    channel. *)
Definition offer (html : string) (ch : channel) : option channel :=
  if ch_closed ch then None
  else if length (ch_buf ch) <? sub_cap then Some (MkChannel (ch_buf ch ++ [html]) false) else Some ch.

(** [Publish]; [None] when it panics. *)
Definition Publish (html : string) (b : Broadcaster) : option Broadcaster :=
  m ← set_fold (fun c acc => m ← acc; ch ← m !! c; ch' ← offer html ch; Some (<[c := ch']> m)) (Some (bc_chans b)) (bc_subs b);
  Some (MkBroadcaster (bc_subs b) m (bc_next b)).

(** The row of one client, to everybody; a template that fails sends nothing.  [NotifyClientChange]
    does nothing without a broadcaster. *)
Section Rows.
Context (client_row_with_tr : ClientView -> string * option error) (Format : Z -> string) (Year : Z -> Z).

Definition PublishClientStatus (v : ClientView) (b : Broadcaster) : option Broadcaster :=
  match client_row_with_tr v with
  | (_, Some _) => Some b
  | (html, None) => Publish html b
  end.

Definition NotifyClientChange (c : Client) (b : option Broadcaster) : option (option Broadcaster) :=
  match b with
  | None => Some None
  | Some b => Some <$> PublishClientStatus (toClientView Format Year c) b
  end.
End Rows.

(** A browser's loop takes the next row. *)
Definition receive (c : nat) (b : Broadcaster) : option (string * Broadcaster) :=
  ch ← bc_chans b !! c;
  match ch_buf ch with
  | [] => None
  | html :: rest => Some (html, MkBroadcaster (bc_subs b) (<[c := MkChannel rest (ch_closed ch)]> (bc_chans b)) (bc_next b))
  end.

(** A browser cancels once, in this order. *)
Inductive broadcast_step : Broadcaster -> Broadcaster -> Prop :=
| step_subscribe b : broadcast_step b (Subscribe b).2
| step_publish html b b' : Publish html b = Some b' -> broadcast_step b b'
| step_receive c html b b' : receive c b = Some (html, b') -> broadcast_step b b'
| step_delete c b : broadcast_step b (cancel_delete c b)
| step_close c b : c ∉ bc_subs b -> broadcast_step b (cancel_close c b).

Inductive broadcast_reachable : Broadcaster -> Prop :=
| broadcast_init : broadcast_reachable NewBroadcaster
| broadcast_next b b' : broadcast_reachable b -> broadcast_step b b' -> broadcast_reachable b'.

(** The channel of a subscriber is open, no buffer is over its capacity, and no channel is
    yet to come. *)
Record broadcast_ok (b : Broadcaster) : Prop := {
  bo_open c : c ∈ bc_subs b -> exists ch, bc_chans b !! c = Some ch /\ ch_closed ch = false;
  bo_cap c ch : bc_chans b !! c = Some ch -> length (ch_buf ch) <= sub_cap;
  bo_fresh c : is_Some (bc_chans b !! c) -> c < bc_next b
}.

(** One row offered to every channel of [s]. *)
Definition offered (html : string) (ch : channel) : channel :=
  if length (ch_buf ch) <? sub_cap then MkChannel (ch_buf ch ++ [html]) (ch_closed ch) else ch.

Lemma publish_eq html b :
  broadcast_ok b ->
  exists m, Publish html b = Some (MkBroadcaster (bc_subs b) m (bc_next b)) /\
    forall c, m !! c = if decide (c ∈ bc_subs b) then offered html <$> bc_chans b !! c else bc_chans b !! c.
Proof.
  intros Hok. unfold Publish.
  enough (exists m, set_fold (fun c acc => m ← acc; ch ← m !! c; ch' ← offer html ch; Some (<[c := ch']> m))
            (Some (bc_chans b)) (bc_subs b) = Some m /\
          forall c, m !! c = if decide (c ∈ bc_subs b) then offered html <$> bc_chans b !! c else bc_chans b !! c)
    as (m & -> & Hm) by by exists m.
  assert (forall c, c ∈ bc_subs b -> exists ch, bc_chans b !! c = Some ch /\ ch_closed ch = false) as Ho by apply Hok.
  revert Ho. generalize (bc_subs b). intros s.
  refine (set_fold_ind_L (fun (r : option (gmap nat channel)) (X : gset nat) =>
    (forall c, c ∈ X -> exists ch, bc_chans b !! c = Some ch /\ ch_closed ch = false) ->
    exists m, r = Some m /\ forall c, m !! c = if decide (c ∈ X) then offered html <$> bc_chans b !! c else bc_chans b !! c) _ _ _ _ s).
  - intros _. exists (bc_chans b). split; [done|]. intros c. by rewrite decide_False by set_solver.
  - intros c X r Hc IH Ho. destruct IH as (m & -> & Hm); [intros; apply Ho; set_solver|]. cbn.
    destruct (Ho c ltac:(set_solver)) as (ch & Hch & Hop).
    rewrite Hm, decide_False, Hch by done. cbn. unfold offer. rewrite Hop.
    assert ((if length (ch_buf ch) <? sub_cap then Some (MkChannel (ch_buf ch ++ [html]) false) else Some ch) = Some (offered html ch)) as E.
    { unfold offered. rewrite Hop. by destruct (_ <? _). }
    rewrite E. cbn. eexists. split; [done|]. intros c'. destruct (decide (c = c')) as [<-|Hne].
    + rewrite lookup_insert_eq, decide_True by set_solver. by rewrite Hch.
    + rewrite lookup_insert_ne, Hm by done. destruct (decide (c' ∈ X)); [rewrite decide_True by set_solver|rewrite decide_False by set_solver]; done.
Qed.

Lemma offered_cap html ch : length (ch_buf ch) <= sub_cap -> length (ch_buf (offered html ch)) <= sub_cap.
Proof.
  intros H. unfold offered. destruct (Nat.ltb_spec (length (ch_buf ch)) sub_cap); [|done]. cbn. rewrite length_app. cbn. lia.
Qed.

Lemma broadcast_step_ok b b' : broadcast_step b b' -> broadcast_ok b -> broadcast_ok b'.
Proof.
  intros Hstep Hok. destruct Hok as [Ho Hc Hf] eqn:E. clear E. destruct Hstep as [b|html b b' Hp|c html b b' Hr|c b|c b Hn].
  - constructor; cbn [Subscribe snd bc_subs bc_chans bc_next].
    + intros c. destruct (decide (c = bc_next b)) as [->|Hne]; [rewrite lookup_insert_eq; by eexists|].
      rewrite lookup_insert_ne by done. intros Hin. apply Ho. set_solver.
    + intros c ch. rewrite lookup_insert_Some. intros [[_ <-]|[_ H]]; [cbn; unfold sub_cap; lia|by eapply Hc].
    + intros c [ch Hch]. apply lookup_insert_Some in Hch as [[<- _]|[_ H]]; [lia|]. assert (c < bc_next b) by (apply Hf; by eexists). lia.
  - destruct (publish_eq html b) as (m & E & Hm); [by constructor|]. rewrite E in Hp. injection Hp as <-.
    constructor; cbn.
    + intros c Hin. rewrite Hm, decide_True by done. destruct (Ho c Hin) as (ch & -> & Hcl). eexists. split; [done|].
      unfold offered. by destruct (_ <? _).
    + intros c ch. rewrite Hm. destruct (decide _); [|apply Hc]. rewrite fmap_Some. intros (ch0 & H & ->). apply offered_cap. by eapply Hc.
    + intros c. rewrite Hm. destruct (decide _); [rewrite fmap_is_Some|]; apply Hf.
  - unfold receive in Hr. destruct (bc_chans b !! c) as [ch|] eqn:Hch; [|done]. cbn in Hr.
    destruct (ch_buf ch) as [|x rest] eqn:Eb; [done|]. injection Hr as -> <-. constructor; cbn.
    + intros c' Hin. destruct (Ho c' Hin) as (ch' & Hch' & Hcl). destruct (decide (c = c')) as [<-|Hne].
      * rewrite lookup_insert_eq. eexists. split; [done|]. cbn. congruence.
      * rewrite lookup_insert_ne by done. by exists ch'.
    + intros c' ch'. rewrite lookup_insert_Some. intros [[<- <-]|[_ H]]; [|by eapply Hc].
      specialize (Hc c ch Hch). rewrite Eb in Hc. cbn in *. lia.
    + intros c' [ch' H']. apply lookup_insert_Some in H' as [[<- _]|[_ H']]; apply Hf; by eexists.
  - constructor; cbn; [intros c' Hin; apply Ho; set_solver|done|done].
  - constructor; cbn.
    + intros c' Hin. rewrite lookup_alter_ne by (intros ->; done). by apply Ho.
    + intros c' ch'. destruct (decide (c = c')) as [<-|Hne].
      * rewrite lookup_alter_eq, fmap_Some. intros (ch0 & H & ->). cbn. by eapply Hc.
      * rewrite lookup_alter_ne by done. apply Hc.
    + intros c'. destruct (decide (c = c')) as [<-|Hne]; [rewrite lookup_alter_eq, fmap_is_Some|rewrite lookup_alter_ne by done]; apply Hf.
Qed.

Lemma broadcast_reachable_ok b : broadcast_reachable b -> broadcast_ok b.
Proof.
  induction 1 as [|b b' _ IH Hstep]; [|by eapply broadcast_step_ok].
  constructor; cbn; [set_solver|intros c ch; by rewrite lookup_empty|intros c [ch H]; by rewrite lookup_empty in H].
Qed.

(** Publishing never panics and never blocks: in every interleaving of subscriptions,
    cancellations, publications and reading browsers, a row goes to the end of the buffer
    of every subscriber that has room, is dropped for one that has sixteen rows waiting,
    and touches no other channel. *)
Theorem publish_is_safe b html :
  broadcast_reachable b ->
  exists b', Publish html b = Some b' /\ bc_subs b' = bc_subs b /\
    forall c ch, bc_chans b !! c = Some ch ->
      bc_chans b' !! c = Some (if decide (c ∈ bc_subs b)
                               then if length (ch_buf ch) <? sub_cap then MkChannel (ch_buf ch ++ [html]) false else ch
                               else ch).
Proof.
  intros Hr. pose proof (broadcast_reachable_ok b Hr) as Hok. destruct (publish_eq html b Hok) as (m & E & Hm).
  eexists. split; [exact E|]. split; [done|]. intros c ch Hch. cbn. rewrite Hm. destruct (decide _) as [Hin|]; [|done].
  rewrite Hch. cbn. unfold offered. destruct (bo_open b Hok c Hin) as (ch' & Hch' & Hcl).
  assert (ch' = ch) as -> by congruence. by rewrite Hcl.
Qed.

(** The row of a client that has come or gone reaches every browser with room in its buffer. *)
Lemma notified_row_is_pushed row Format Year c html b :
  broadcast_reachable b -> row (toClientView Format Year c) = (html, None) ->
  exists b', NotifyClientChange row Format Year c (Some b) = Some (Some b') /\
    forall ch buf, ch ∈ bc_subs b -> bc_chans b !! ch = Some (MkChannel buf false) -> length buf < sub_cap ->
      bc_chans b' !! ch = Some (MkChannel (buf ++ [html]) false).
Proof.
  intros Hb Hrow. pose proof (broadcast_reachable_ok b Hb) as Hok. destruct (publish_eq html b Hok) as (m & E & Hm).
  unfold NotifyClientChange, PublishClientStatus. rewrite Hrow, E. eexists. split; [done|].
  intros ch buf Hin Hch Hlt. cbn. rewrite Hm, decide_True, Hch by done. cbn. unfold offered. cbn [ch_buf ch_closed].
  by rewrite (proj2 (Nat.ltb_lt _ _) Hlt).
Qed.

Lemma publish_is_safe_witness : exists b',
  Publish "row" (Subscribe NewBroadcaster).2 = Some b' /\ bc_chans b' !! 0 = Some (MkChannel ["row"] false).
Proof.
  destruct (publish_is_safe (Subscribe NewBroadcaster).2 "row") as (b' & E & _ & H).
  - eapply broadcast_next; [apply broadcast_init|apply step_subscribe].
  - exists b'. split; [exact E|]. exact (H 0 (MkChannel [] false) eq_refl).
Defined.
