(* ===== verification/Startup.v ===== *)
(** internal/server/app/app.go and internal/server/store/sqlite.go: from the command line to
    a server that listens, and from a signal to its end.

    The state of the start is the database file (Migrations.v, its content the tables of
    Store.v) and the blob directory (BlobStore.v); what the operating system answers for the
    data directory and the key file are arguments.  [NewRouter] of Router.v is what the
    started server serves; listening is net/http's. *)
From S2P Require Import Prelude GoStrings Json Proto Store StoreFacts Lww Engine Hub HubFacts BlobStore Http HttpBlobs Session ListDir Web Router ServerApp Migrations.
Local Open Scope Z_scope.
Local Open Scope go_scope.

(** ** The start *)

(** [readPSK] *)
Definition readPSK (file : result string) : result string :=
  match file with Err e => Err e | Ok data => Ok (TrimSpace data) end.

Record boot : Type := MkBoot { bt_db : mdb (D:=tables); bt_fs : fs }.

(** What [Run] has made when it starts listening. *)
Record running : Type := MkRunning {
  rn_Addr : string;
  rn_Router : Router.Config;
  rn_grace : Z
}.

Section Startup.
Context {clk : Clock} (run_script : string -> tables -> result tables) (entries : list entry).

(** A method of the store on the database of the start. *)
Definition in_opened {A} (m : M store A) : M (mdb (D:=tables)) A := fun s =>
  let '(r, s') := m (MkStore (m_content s) (m_faults s) (m_tick s)) in
  (r, MkMdb (db s') (m_versions s) (db_faults s') (tick s')).

(** [store.Open]; closing the handle after a failure changes nothing. *)
Definition Open : M (mdb (D:=tables)) unit :=
  wrapped "open sqlite" (db_call (ret tt));;
  wrapped "apply migrations" (applyMigrations run_script entries);;
  in_opened checkMonotonic.

Definition on_db {A} (m : M (mdb (D:=tables)) A) : M boot A := fun b =>
  let '(r, s) := m (bt_db b) in (r, MkBoot s (bt_fs b)).
Definition on_fs {A} (m : M fs A) : M boot A := fun b =>
  let '(r, s) := m (bt_fs b) in (r, MkBoot (bt_db b) s).

(** [Run] up to [runServer].  [mkdir] and [pskFile] are what [os.MkdirAll] and [os.ReadFile]
    answer. *)
Definition Run (cfg : ServerApp.Config) (mkdir : result unit) (pskFile : result string) : M boot running :=
  let cfg := applyDefaults cfg in
  wrapped "create data dir" (of_result mkdir);;
  psk <- wrapped "read psk" (of_result (readPSK pskFile));;
  wrapped "open store" (on_db Open);;
  settings <- wrapped "load settings" (on_db (in_opened LoadAllSettings));;
  maxFileSize <- of_result (parseInt64Setting settings "max_file_size_bytes" (1024 * 1024 * 1024));;
  wrapped "init blobstore" (on_fs New_blobstore);;
  ret (MkRunning (ac_Bind cfg)
    (MkRouterConfig psk (ac_AdminUser cfg) (ac_AdminPassword cfg) maxFileSize perClientQuotaBytes)
    (ac_ShutdownGrace cfg)).
End Startup.

(** ** The end *)

(** How waiting ends: the listener fails, or the context is cancelled and then
    [http.Server.Shutdown] and [ListenAndServe] answer. *)
Inductive server_end : Type :=
| ListenFailed (e : error)
| Signalled (shutdown listen : option error).

(** [runServer]: the error it returns, and the hub it leaves. *)
Definition runServer (how : server_end) (h : hub) : option error * hub :=
  match how with
  | ListenFailed e => (Some e, h)
  | Signalled shutdown listen =>
      let h := Hub_Close h in
      match shutdown with
      | Some e => (Some (Wrap "server shutdown" e), h)
      | None => (listen, h)
      end
  end.

(** ** What a start does *)
Lemma max_server_mod_time_spec t :
  match max_server_mod_time t with
  | None => t_files t = ∅
  | Some x => forall key f, t_files t !! key = Some f -> fs_ServerModTime f <= x
  end.
Proof.
  unfold max_server_mod_time. generalize (t_files t). intros m.
  apply (map_fold_weak_ind (fun acc m => match acc with
    | None => m = ∅ | Some x => forall key f, m !! key = Some f -> fs_ServerModTime f <= x end)); [done|].
  intros key f m' acc _ IH. destruct acc as [x|].
  - intros key' f' [[_ <-]|[_ H]]%lookup_insert_Some; [lia|]. specialize (IH key' f' H). lia.
  - subst m'. intros key' f' [[_ <-]|[_ H]]%lookup_insert_Some; [lia|]. by rewrite lookup_empty in H.
Qed.

Section StartupSpec.
Context {clk : Clock} (run_script : string -> tables -> result tables) (entries : list entry).
Hypothesis versions_distinct : NoDup (scripts entries).*1.
Notation applied := (applied run_script entries).
Notation mdb := (mdb (D:=tables)).

(** Nothing is later than a reading of the clock before the [n]-th. *)
Definition not_ahead (n : nat) (t : tables) : Prop :=
  forall key f, t_files t !! key = Some f -> exists j, (j < n)%nat /\ fs_ServerModTime f <= clock j.

(** Like [s], but for the calls made and the clock readings. *)
Definition same_db (s s' : mdb) : Prop := m_content s' = m_content s /\ m_versions s' = m_versions s.

Lemma applied_same d0 k s s' : same_db s s' -> applied d0 k s -> applied d0 k s'.
Proof. intros [Hc Hv] (H1 & H2 & H3). split; [done|]. split; [by rewrite Hc|]. intros v. by rewrite Hv. Qed.

Lemma checkMonotonic_spec s :
  let '(r, s') := in_opened checkMonotonic s in
  same_db s s' /\ (r = Ok tt -> not_ahead (m_tick s') (m_content s')).
Proof.
  pose proof (max_server_mod_time_spec (m_content s)) as Hmax.
  unfold in_opened, checkMonotonic, bind, wrapped, query, sql. destruct s as [c v fl n]. cbn in *.
  destruct fl as [|[e|] fl]; cbn; [|done|];
    (destruct (max_server_mod_time c) as [x|]; cbn; [|split; [done|]; intros _ key f Hf; rewrite Hmax in Hf; by rewrite lookup_empty in Hf];
     destruct (Z.ltb_spec (clock n) x); cbn; [done|]; split; [done|]; intros _ key f Hf;
     exists n; split; [cbn; lia|]; specialize (Hmax key f Hf); cbn in *; lia).
Qed.

Lemma LoadAllSettings_spec s :
  let '(r, s') := in_opened LoadAllSettings s in
  same_db s s' /\ m_tick s' = m_tick s /\ (forall m, r = Ok m -> m = fst <$> t_settings (m_content s')).
Proof.
  unfold in_opened, LoadAllSettings, wrapped, query, sql. destruct s as [c v fl n]. cbn.
  destruct fl as [|[e|] fl]; cbn; repeat split; try done; by intros m [= <-].
Qed.

(** Opening a database leaves some number of whole scripts applied; a success, all of
    them, and a clock that is not behind any row. *)
Lemma Open_spec d0 k s :
  applied d0 k s ->
  let '(r, s') := Open run_script entries s in
  exists k', (k <= k')%nat /\ applied d0 k' s' /\ (k = length (scripts entries) -> m_content s' = m_content s) /\
    (r = Ok tt -> k' = length (scripts entries) /\ not_ahead (m_tick s') (m_content s')).
Proof.
  intros Ha. unfold Open. unfold bind at 1, wrapped at 1, db_call at 1.
  assert (forall fl, let s0 := MkMdb (m_content s) (m_versions s) fl (m_tick s) in
    let '(r, s') := (wrapped "apply migrations" (applyMigrations run_script entries);; in_opened checkMonotonic) s0 in
    exists k', (k <= k')%nat /\ applied d0 k' s' /\ (k = length (scripts entries) -> m_content s' = m_content s) /\
      (r = Ok tt -> k' = length (scripts entries) /\ not_ahead (m_tick s') (m_content s'))) as H.
  { intros fl s0. assert (applied d0 k s0) as Ha0 by (by apply (applied_same d0 k s)).
    pose proof (migrations_apply_once run_script entries versions_distinct d0 k s0 Ha0) as Hm.
    unfold bind, wrapped. destruct (applyMigrations run_script entries s0) as [[[]|e] s1].
    - destruct Hm as (k' & Hk & Ha1 & Hok & Hsame). pose proof (checkMonotonic_spec s1) as Hc.
      destruct (in_opened checkMonotonic s1) as [r s2]. destruct Hc as [Hs2 Hr]. exists k'. split; [done|].
      split; [by apply (applied_same d0 k' s1)|]. split; [intros E; rewrite (proj1 Hs2); by apply Hsame|].
      intros E. split; [by apply Hok|by apply Hr].
    - destruct Hm as (k' & Hk & Ha1 & _ & Hsame). by exists k'. }
  destruct s as [c v [|[e|] fl] n]; cbn.
  - exact (H []).
  - by exists k.
  - exact (H fl).
Qed.

(** What is so at every moment of a start: the scripts only advance, and only they change
    the database; no blob changes. *)
Definition advanced (d0 : tables) (k : nat) (b b' : boot) : Prop :=
  (exists k', (k <= k')%nat /\ applied d0 k' (bt_db b')) /\
  (k = length (scripts entries) -> m_content (bt_db b') = m_content (bt_db b)) /\
  f_files (bt_fs b') = f_files (bt_fs b).

Lemma New_blobstore_files b : f_files (New_blobstore b).2 = f_files b.
Proof. unfold New_blobstore, wrapped, os_call, bind, os_fault. destruct b as [m d [|[[j e]|] fl] n]; done. Qed.

(** C27. A server that starts is ready, and one that does not start has broken nothing.
    Whatever fails, the database has had a prefix of the scripts run on it, no shorter than
    before, nothing else in it has changed, and no blob has.  If [Run] gets as far as
    listening, all scripts have run; no stored row is later than the clock, so that
    last-writer-wins will not drop what is reported from now on; the key is the key file's
    text without the space around it, the size limit the setting's or 1 GiB, and the
    address, credentials and grace period those of the command line or their defaults. *)
Theorem server_starts_ready cfg mkdir pskFile d0 k b :
  applied d0 k (bt_db b) ->
  let '(r, b') := Run run_script entries cfg mkdir pskFile b in
  advanced d0 k b b' /\
  forall rn, r = Ok rn ->
    applied d0 (length (scripts entries)) (bt_db b') /\
    not_ahead (m_tick (bt_db b')) (m_content (bt_db b')) /\
    (exists key, pskFile = Ok key /\ rc_PSK (rn_Router rn) = TrimSpace key) /\
    parseInt64Setting (fst <$> t_settings (m_content (bt_db b'))) "max_file_size_bytes" (1024 * 1024 * 1024) =
      Ok (rc_MaxFileSizeBytes (rn_Router rn)) /\
    rc_AdminUser (rn_Router rn) = ac_AdminUser cfg /\ rc_AdminPassword (rn_Router rn) = ac_AdminPassword cfg /\
    rn_Addr rn = ac_Bind (applyDefaults cfg) /\ rn_grace rn = ac_ShutdownGrace (applyDefaults cfg).
Proof.
  intros Ha. assert (advanced d0 k b b) as Hrefl by (split; [by exists k|done]).
  unfold Run. unfold bind at 1, wrapped at 1. destruct mkdir as [[]|e]; cbn [of_result]; [|by split].
  unfold bind at 1, wrapped at 1, readPSK. destruct pskFile as [key|e]; cbn [of_result]; [|by split].
  unfold bind at 1, wrapped at 1, on_db at 1. pose proof (Open_spec d0 k (bt_db b) Ha) as Ho.
  destruct (Open run_script entries (bt_db b)) as [[[]|e] s1]; destruct Ho as (k1 & Hk1 & Ha1 & Hsame & Hr).
  2:{ split; [|done]. split; [by exists k1|by split]. }
  destruct (Hr eq_refl) as [-> Hnot]. unfold bind at 1, wrapped at 1, on_db at 1. cbn [bt_db bt_fs].
  pose proof (LoadAllSettings_spec s1) as Hl. destruct (in_opened LoadAllSettings s1) as [r2 s2]. destruct Hl as (Hs2 & Ht & Hset).
  assert (forall f, f_files f = f_files (bt_fs b) -> advanced d0 k b (MkBoot s2 f)) as Hadv.
  { intros f Hf. split; [exists (length (scripts entries)); split; [done|by apply (applied_same d0 _ s1)]|].
    split; [intros E; cbn; by rewrite (proj1 Hs2), Hsame|done]. }
  destruct r2 as [settings|e]; [|split; [by apply Hadv|done]].
  unfold bind at 1. destruct (parseInt64Setting settings _ _) as [maxFileSize|e] eqn:Ep; cbn [of_result];
    [|split; [by apply Hadv|done]].
  unfold bind, wrapped, on_fs. cbn [bt_db bt_fs]. pose proof (New_blobstore_files (bt_fs b)) as Hf.
  destruct (New_blobstore (bt_fs b)) as [[[]|e] f']; cbn [snd] in Hf; [|split; [by apply Hadv|done]].
  split; [by apply Hadv|]. intros rn [= <-]. cbn [bt_db rn_Router rn_Addr rn_grace rc_PSK rc_MaxFileSizeBytes rc_AdminUser rc_AdminPassword].
  split; [by apply (applied_same d0 _ s1)|].
  split; [rewrite Ht; intros key' f0; rewrite (proj1 Hs2); apply Hnot|].
  split; [by exists key|]. by rewrite <- (Hset settings eq_refl).
Qed.

(** The key a started server asks for. *)
Lemma Run_key cfg mkdir key b rn :
  fst (Run run_script entries cfg mkdir (Ok key) b) = Ok rn -> rc_PSK (rn_Router rn) = TrimSpace key.
Proof.
  unfold Run, bind, wrapped, of_result, readPSK. destruct mkdir as [[]|e]; [|done].
  destruct (on_db (Open _ _) b) as [[[]|e] b1]; [|done].
  destruct (on_db (in_opened LoadAllSettings) b1) as [[settings|e] b2]; [|done].
  destruct (parseInt64Setting _ _ _) as [n|e]; [|done].
  destruct (on_fs New_blobstore b2) as [[[]|e] b3]; [|done]. cbn. by intros [= <-].
Qed.
End StartupSpec.

(** With a clock that goes forward the first report of any file after a start replaces what
    was stored. *)
Lemma first_report_is_stored {clk : Clock} t n ev m :
  (forall i j, (i < j)%nat -> clock i < clock j) -> not_ahead n t -> (n <= m)%nat ->
  upsert_file_row (file_state_of ev (clock m)) (t_files t) !! fileKey (file_state_of ev (clock m)) =
    Some (file_state_of ev (clock m)).
Proof.
  intros Hclk Hnot Hm. unfold upsert_file_row. destruct (t_files t !! _) as [o|] eqn:E; [|apply lookup_insert_eq].
  destruct (Hnot _ _ E) as (j & Hj & Hle). specialize (Hclk j m ltac:(lia)).
  rewrite (proj2 (Z.ltb_lt _ _)); [apply lookup_insert_eq|]. cbn. lia.
Qed.

(** ** What an end does *)
Lemma close_all_objs l h c : h_objs (foldr (fun c h => Conn_Close c h) h l) !! c =
  if decide (c ∈ l) then close_conn <$> h_objs h !! c else h_objs h !! c.
Proof.
  induction l as [|d l IH]; cbn; [by rewrite decide_False by apply not_elem_of_nil|].
  destruct (decide (d = c)) as [->|Hne].
  - rewrite lookup_alter_eq, IH, (decide_True (P:=c ∈ c :: l)) by by left. destruct (decide _); [|done]. by destruct (h_objs h !! c).
  - rewrite lookup_alter_ne, IH by done. destruct (decide (c ∈ l)); [rewrite decide_True by by right|rewrite decide_False]; try done.
    by intros [|]%elem_of_cons.
Qed.

Lemma close_all_conns l h : h_conns (foldr (fun c h => Conn_Close c h) h l) = h_conns h.
Proof. by induction l. Qed.

Lemma hub_Close_conns h : h_conns (Hub_Close h) = h_conns h.
Proof. apply close_all_conns. Qed.

Lemma registered_values h c : c ∈ (map_to_list (h_conns h)).*2 <-> exists id, h_conns h !! id = Some c.
Proof.
  rewrite list_elem_of_fmap. split.
  - intros ([id d] & -> & Hx%elem_of_map_to_list). by exists id.
  - intros [id Hid]. exists (id, c). split; [done|by apply elem_of_map_to_list].
Qed.

Lemma hub_Close_registered h id c : h_conns h !! id = Some c -> h_objs (Hub_Close h) !! c = close_conn <$> h_objs h !! c.
Proof. intros Hc. unfold Hub_Close. rewrite close_all_objs, decide_True; [done|]. apply registered_values. by exists id. Qed.

Lemma hub_Close_other h c : (forall id, h_conns h !! id <> Some c) -> h_objs (Hub_Close h) !! c = h_objs h !! c.
Proof. intros Hc. unfold Hub_Close. rewrite close_all_objs, decide_False; [done|]. intros [id Hid]%registered_values. by apply (Hc id). Qed.

Lemma hub_Close_up h id : hub_up (Hub_Close h) id = false.
Proof.
  unfold hub_up. rewrite hub_Close_conns. destruct (h_conns h !! id) as [c|] eqn:Hc; [|done].
  rewrite (hub_Close_registered h id c Hc). by destruct (h_objs h !! c).
Qed.

(** Stopping closes every connection: when [runServer] has returned because of a signal,
    with or without an error of the HTTP server, every connection whose [Run] has not
    returned is closed and no message goes to any client any more; connections that were
    replaced before, what was written and what is registered stay as they are; the error is
    the one of [Shutdown], or else the listener's. *)
Theorem stopping_closes_connections shutdown listen h :
  hub_reachable h ->
  let '(err, h') := runServer (Signalled shutdown listen) h in
  (forall c k, h_objs h' !! c = Some k -> k_running k = true -> k_closed k = true) /\
  (forall id, hub_up h' id = false) /\
  h_conns h' = h_conns h /\ h_sent h' = h_sent h /\
  (forall c, (forall id, h_conns h !! id <> Some c) -> h_objs h' !! c = h_objs h !! c) /\
  err = match shutdown with Some e => Some (Wrap "server shutdown" e) | None => listen end.
Proof.
  intros Hre. destruct (hub_reachable_ok _ Hre) as [Hok _].
  set (e := match shutdown with Some e => _ | None => listen end).
  assert (runServer (Signalled shutdown listen) h = (e, Hub_Close h)) as -> by (by destruct shutdown).
  split_and!; [| |apply hub_Close_conns| | |done].
  - intros c k Hk Hrun. destruct (decide (c ∈ (map_to_list (h_conns h)).*2)) as [[id Hid]%registered_values|Hnot].
    + rewrite (hub_Close_registered h id c Hid) in Hk. destruct (h_objs h !! c) as [k0|]; [|done]. by injection Hk as <-.
    + assert (forall id, h_conns h !! id <> Some c) as Hno by (intros id Hid; apply Hnot, registered_values; by exists id).
      rewrite hub_Close_other in Hk by done. destruct (k_closed k) eqn:Hcl; [done|]. destruct (Hno (k_client k)). by apply (co_live h Hok).
  - apply hub_Close_up.
  - unfold Hub_Close. generalize (map_to_list (h_conns h)).*2. intros l. by induction l.
  - apply hub_Close_other.
Qed.

(** The hub does not refuse connections afterwards, and the listener is closed only after
    the hub: a client that dials again as soon as its socket is closed is registered, and
    nothing closes it. *)
Theorem late_connection_survives id h :
  hub_reachable h ->
  let '(c, h1) := NewConn id (Hub_Close h) in hub_up (Register c h1) id = true.
Proof.
  intros Hre. destruct (hub_reachable_ok _ Hre) as [Hok _].
  assert (h_fresh (Hub_Close h) = h_fresh h) as Ef.
  { unfold Hub_Close. generalize (map_to_list (h_conns h)).*2. intros l. by induction l. }
  cbn. unfold Register. cbn. rewrite lookup_insert_eq. cbn. rewrite hub_Close_conns, Ef. unfold hub_up.
  destruct (h_conns h !! id) as [old|] eqn:Ho; cbn; rewrite lookup_insert_eq, lookup_alter_eq.
  - destruct (co_registered h Hok _ _ Ho) as (k & Hk & _). apply (co_fresh h Hok) in Hk.
    by rewrite lookup_alter_ne, lookup_insert_eq by lia.
  - by rewrite lookup_insert_eq.
Qed.

(** ** Concrete runs *)
Lemma stopping_closes_connections_witness : hub_up demo_online "c1" = true /\
  let '(_, h') := runServer (Signalled None None) demo_online in
  (forall id, hub_up h' id = false) /\ h_conns h' = h_conns demo_online.
Proof.
  split; [reflexivity|].
  pose proof (stopping_closes_connections None None demo_online demo_online_reachable) as H.
  destruct (runServer (Signalled None None) demo_online) as [err h'].
  destruct H as (_ & H1 & H2 & _). split; assumption.
Defined.

(** A first start on an empty database and an empty directory, the key file ending in a
    newline. *)
Definition first_boot : boot := MkBoot (MkMdb empty_tables ∅ [] 0) (MkFs ∅ ∅ [] 0).
Definition schema_only (data : string) (t : tables) : result tables := Ok t.
Definition first_cfg : ServerApp.Config := MkAppConfig "" "/data" "admin" "secret" "/psk" 0.

Lemma server_starts_ready_witness : exists rn,
  let b := snd (Run (clk:=Repo.repo_clock) schema_only Repo.entries first_cfg (Ok tt) (Ok (utf8 [107; 10]%nat)) first_boot) in
  fst (Run (clk:=Repo.repo_clock) schema_only Repo.entries first_cfg (Ok tt) (Ok (utf8 [107; 10]%nat)) first_boot) = Ok rn /\
  rc_PSK (rn_Router rn) = "k" /\ rn_Addr rn = "127.0.0.1:8765" /\ dom (m_versions (bt_db b)) = {[1; 2]} /\
  not_ahead (clk:=Repo.repo_clock) (m_tick (bt_db b)) (m_content (bt_db b)).
Proof.
  assert (NoDup (scripts Repo.entries).*1) as Hnd by (apply (bool_decide_unpack _); by vm_compute).
  pose proof (server_starts_ready (clk:=Repo.repo_clock) schema_only Repo.entries Hnd first_cfg (Ok tt)
    (Ok (utf8 [107; 10]%nat)) empty_tables 0 first_boot (applied_empty _ _ _ _ _)) as H.
  destruct (Run _ _ first_cfg _ _ first_boot) as [r b] eqn:E.
  assert (r = fst (Run (clk:=Repo.repo_clock) schema_only Repo.entries first_cfg (Ok tt) (Ok (utf8 [107; 10]%nat)) first_boot)) as Er by by rewrite E.
  assert (b = snd (Run (clk:=Repo.repo_clock) schema_only Repo.entries first_cfg (Ok tt) (Ok (utf8 [107; 10]%nat)) first_boot)) as Eb by by rewrite E.
  vm_compute in Er. destruct H as (_ & H). destruct r as [rn|e]; [|discriminate Er]. exists rn.
  destruct (H rn eq_refl) as (_ & Hna & (key & [= <-] & Hk) & _ & _ & _ & Ha & _).
  split; [reflexivity|]. split; [rewrite Hk; by vm_compute|]. split; [rewrite Ha; by vm_compute|].
  split; [rewrite Eb; by vm_compute|exact Hna].
Defined.
