(* ===== verification/ClientStart.v ===== *)
(** internal/client/app/app.go, from the command line to the connection's loop, with
    clientfs.New, transfer.New and the request conn.go's [dial] makes.

    What the operating system answers for the working directory, the key file and the host
    name are arguments, as is what net/url makes of a URL; the jail and the identity's file
    are on one disk, that of Disk.v.  What happens once the loop runs is in Conn.v and
    ClientApp.v. *)
From S2P Require Import Prelude GoStrings Store BlobStore Http HttpBlobs Engine Session Paths Disk Jail JailSpec Transfer Identity Conn Hub Web Router Startup.
Local Open Scope Z_scope.
Local Open Scope go_scope.

Record Config : Type := MkClientConfig {
  cl_ServerURL : string; cl_Root : string; cl_IDFile : string; cl_PSKFile : string
}.

Definition ClientVersion : string := "0.2.3".

(** What the client's machine answers, and the directory from which the kernel resolves
    names that are not absolute. *)
Record machine : Type := MkMachine {
  mc_Getwd : result string;
  mc_Cwd : fpath;
  mc_PSK : result string;
  mc_Hostname : result string
}.

(** What the client has when it starts to dial: the configuration of its transfers, of its
    connection, and the key the connection sends. *)
Record connecting : Type := MkConnecting {
  cg_transfer : Transfer.Config;
  cg_conn : Conn.Config;
  cg_PSK : string
}.

(** [filepath.Abs], but for the cleaning, which [Jail.New] does. *)
Definition Abs (wd : result string) (path : string) : result string :=
  if HasPrefix path "/" then Ok path
  else match wd with Ok d => Ok (d +:+ "/" +:+ path) | Err e => Err e end.

(** [j.root] as text. *)
Definition root_text (root : fpath) : string := String slash (join_slash root).

Section ClientStart.
Context {clk : Clock} (uuid_Parse : string -> option error).
(** [url.Parse], and the path of what it makes. *)
Context (url_path : string -> result string).

(** [transfer.New] *)
Definition transfer_New (serverURL psk clientID : string) (jail : fpath) : result Transfer.Config :=
  match url_path (http_scheme serverURL) with
  | Err e => Err (Wrap "transfer: invalid ServerURL" e)
  | Ok base => Ok (MkConfig base psk clientID jail)
  end.

(** [clientfs.New] *)
Definition clientfs_New (wd : result string) (root : string) : M disk fpath :=
  abs <- wrapped "clientfs: abs failed" (of_result (Abs wd root));;
  Jail.New abs.

(** [Run] up to the connection's own [Run]; [newID] is the UUID a first start makes. *)
Definition Run (cfg : Config) (mc : machine) (newID : string) : M disk connecting :=
  root <- (if bool_decide (cl_Root cfg = "") then wrapped "app: getwd" (of_result (mc_Getwd mc)) else ret (cl_Root cfg));;
  pskData <- wrapped "app: read psk" (of_result (mc_PSK mc));;
  let psk := TrimSpace pskData in
  jail <- wrapped "app: create jail" (clientfs_New (mc_Getwd mc) root);;
  clientID <- wrapped "app: load client id" (LoadOrCreate uuid_Parse (mc_Cwd mc) (cl_IDFile cfg) newID);;
  hostname <- wrapped "app: hostname" (of_result (mc_Hostname mc));;
  transferClient <- wrapped "app: create transfer client" (of_result (transfer_New (cl_ServerURL cfg) psk clientID jail));;
  ret (MkConnecting transferClient (MkConnConfig clientID hostname (root_text jail) ClientVersion) psk).

(** The request of [dial]. *)
Definition dial (c : connecting) : request :=
  MkRequest "GET" (cf_BasePath (cg_transfer c) +:+ "/v1/ws") [("Authorization", "Bearer " +:+ cg_PSK c)]
    0 (MkReader [] None) None None None "" "".

(** ** What a start leads to *)

Lemma d_query_answer {A} (op : string) (q : nodes -> result A) d :
  d_nodes (snd (d_query op q d)) = d_nodes d /\ (honest d -> honest (snd (d_query op q d))) /\
  forall a, fst (d_query op q d) = Ok a -> q (d_nodes d) = Ok a.
Proof.
  unfold honest, honest_faults, d_query, d_call, bind, d_fault. destruct d as [m [|[[j e]|] fl] n]; cbn; (split; [done|]); (split; [|done]);
    try done; by intros [_ H]%Forall_cons.
Qed.

(** The root of a jail is a directory with no link on the way to it, which is what
    [JailSpec] asks of one. *)
Lemma New_rdir abs d :
  let '(r, d') := Jail.New abs d in
  d_nodes d' = d_nodes d /\ (honest d -> honest d') /\ forall root, r = Ok root -> rdir (d_nodes d) root.
Proof.
  unfold Jail.New, bind, wrapped. set (p := clean_elements true (split_slash abs)).
  destruct (d_query_answer "lstat" (fun m => walk false go_links m [] p) d) as (H1 & H1' & H2).
  unfold EvalSymlinks. destruct (d_query "lstat" _ d) as [[real|e] d1]; cbn [fst snd] in *; [|done].
  destruct (d_query_answer "stat" (fun m => Disk.found "stat" m (follow false m real)) d1) as (H3 & H3' & H4).
  unfold d_Stat. destruct (d_query "stat" _ d1) as [[info|e] d2]; cbn [fst snd] in *; [|split; [congruence|by split; [auto|]]].
  assert (d_nodes d2 = d_nodes d) as E by congruence.
  destruct (is_dir info) eqn:Ei; cbn; (split; [done|]); (split; [by auto|]); [|done].
  intros root [= <-]. specialize (H2 _ eq_refl). specialize (H4 _ eq_refl). rewrite H1 in H4.
  assert (JailSpec.real (d_nodes d) real) as Hr.
  { apply (walk_real go_links _ [] p); [apply rdir_nil| |done].
    exact (clean_form_no_slash _ _ (clean_elements_form true _ (split_no_slash abs))). }
  split; [done|]. destruct (follow false (d_nodes d) real) as [q|e] eqn:Ef; [|done].
  apply follow_link_free in Ef as ->; [|by apply real_link_free|by eapply real_names].
  cbn in H4. destruct real as [|x l]; [by left|right]. cbn [node_at] in H4.
  destruct (d_nodes d !! (x :: l)) as [[]|]; try discriminate H4; injection H4 as <-; try discriminate Ei. by eexists.
Qed.

Lemma clientfs_New_rdir wd root d :
  let '(r, d') := clientfs_New wd root d in
  d_nodes d' = d_nodes d /\ (honest d -> honest d') /\ forall root, r = Ok root -> rdir (d_nodes d) root.
Proof.
  unfold clientfs_New, bind, wrapped, of_result. destruct (Abs wd root) as [abs|e]; [|done]. apply New_rdir.
Qed.

(** Directories stay directories when an identity's file is made. *)
Lemma rdir_kept m m' p :
  (forall x t, m !! x = Some (NDir t) -> exists t', m' !! x = Some (NDir t')) -> rdir m p -> rdir m' p.
Proof.
  intros Hk [Hr Hd]. split.
  - intros q b s E. destruct (Hr q b s E) as (Hb & n & Hn & Hl & Hdir). split; [done|].
    assert (exists t, n = NDir t) as [t ->].
    { destruct s as [|c s]; [|specialize (Hdir ltac:(done)); destruct n; try done; by eexists].
      destruct Hd as [Hd|[t Ht]]; [by subst p; destruct q|]. rewrite E, Hn in Ht. injection Ht as ->. by exists t. }
    destruct (Hk _ _ Hn) as [t' Ht']. by exists (NDir t').
  - destruct Hd as [->|[t Ht]]; [by left|right]. by eapply Hk.
Qed.

Lemma dirs_added_dir m m' x t : dirs_added m m' -> m !! x = Some (NDir t) -> m' !! x = Some (NDir t).
Proof. intros H Hx. destruct (H x) as [E|[E _]]; congruence. Qed.

Lemma made_rdir m p new m' root : made m p new m' -> rdir m root -> rdir m' root.
Proof.
  intros Hm. apply rdir_kept. intros x t Hx. exists t. destruct Hm as [Hd|(q & w & _ & _ & m1 & t1 & Hd & Hf & _ & ->)].
  - by eapply dirs_added_dir.
  - pose proof (dirs_added_dir _ _ _ _ Hd Hx) as Hx1. rewrite lookup_insert_ne; [done|]. intros ->.
    unfold free_or_file in Hf. by rewrite Hx1 in Hf.
Qed.

(** A start gets as far as the identity's file with the jail's root found, or changes nothing
    and fails. *)
Lemma Run_spec cfg mc newID d :
  let '(r, d') := Run cfg mc newID d in
  (d_nodes d' = d_nodes d /\ is_ok r = false) \/
  exists jail d1, d_nodes d1 = d_nodes d /\ (honest d -> honest d1) /\ rdir (d_nodes d) jail /\
    d' = snd (LoadOrCreate uuid_Parse (mc_Cwd mc) (cl_IDFile cfg) newID d1) /\
    forall c, r = Ok c ->
      fst (LoadOrCreate uuid_Parse (mc_Cwd mc) (cl_IDFile cfg) newID d1) = Ok (cc_ClientID (cg_conn c)) /\
      cf_Jail (cg_transfer c) = jail /\ cc_RootPath (cg_conn c) = root_text jail /\
      cf_ClientID (cg_transfer c) = cc_ClientID (cg_conn c) /\
      url_path (http_scheme (cl_ServerURL cfg)) = Ok (cf_BasePath (cg_transfer c)) /\
      exists key, mc_PSK mc = Ok key /\ cg_PSK c = TrimSpace key /\ cf_PSK (cg_transfer c) = TrimSpace key.
Proof.
  destruct (Run cfg mc newID d) as [r d'] eqn:E. unfold Run in E.
  assert (exists res, (if bool_decide (cl_Root cfg = "") then wrapped "app: getwd" (of_result (mc_Getwd mc)) else ret (cl_Root cfg)) d
    = (res, d)) as [res Eres].
  { case_bool_decide; [unfold wrapped, of_result; destruct (mc_Getwd mc)|]; by eexists. }
  unfold bind at 1 in E. rewrite Eres in E. destruct res as [root|e]; [|injection E as <- <-; by left].
  unfold bind at 1, wrapped at 1, of_result at 1 in E. destruct (mc_PSK mc) as [key|e] eqn:Ek; [|injection E as <- <-; by left].
  unfold bind at 1, wrapped at 1 in E. pose proof (clientfs_New_rdir (mc_Getwd mc) root d) as Hn.
  destruct (clientfs_New _ root _) as [[jail|e] d1]; destruct Hn as (Hn & Hh & Hr); [|injection E as <- <-; by left].
  right. exists jail, d1. split; [exact Hn|]. split; [exact Hh|]. split; [by apply Hr|].
  unfold bind at 1, wrapped at 1 in E.
  destruct (LoadOrCreate uuid_Parse _ _ newID d1) as [[cid|e] s1]; cbn [fst snd]; [|by injection E as <- <-].
  unfold bind at 1, wrapped at 1, of_result at 1 in E. destruct (mc_Hostname mc) as [hostname|e]; [|by injection E as <- <-].
  unfold bind, wrapped, of_result, transfer_New in E. destruct (url_path _) as [base|e]; [|by injection E as <- <-].
  injection E as <- <-. split; [done|]. intros c [= <-]. cbn. do 5 (split; [done|]). by exists key.
Qed.

(** C29. A client that starts is ready to be confined and known.  Take a disk whose failures
    do not pretend that a file is missing.  If the identity's file is there, a start changes
    nothing on the disk.  If it is not, a start changes nothing but this, whatever fails: it
    makes directories where nothing was, and the file that the identity's path then leads to
    holds the new identity or, after a failed write, the beginning of it.  If the start gets
    as far as dialling, the root of the jail is a directory reached through no link, the path
    the client registers with is that root's, transfers and connection use one identity and
    one key, the key file's text without the space around it; and any later start that finds
    the same content in its identity's file, whatever its flags, whatever else has happened to
    the disk and whatever fails then, dials with the same identity if it dials at all. *)
Theorem client_starts_known cfg mc newID d :
  TrimSpace newID = newID -> uuid_Parse newID = None -> honest d ->
  let '(r, d') := Run cfg mc newID d in
  let idPath := kernel_path (mc_Cwd mc) (cl_IDFile cfg) in
  (read_at (d_nodes d) idPath <> None -> d_nodes d' = d_nodes d) /\
  (forall q, d_nodes d' !! q = d_nodes d !! q \/
     (d_nodes d !! q = None /\ exists t, d_nodes d' !! q = Some (NDir t)) \/
     (follow false (d_nodes d') idPath = Ok q /\
      exists w t, w `prefix_of` bytes_of newID /\ d_nodes d' !! q = Some (NFile w t))) /\
  forall c, r = Ok c ->
    rdir (d_nodes d') (cf_Jail (cg_transfer c)) /\
    cc_RootPath (cg_conn c) = root_text (cf_Jail (cg_transfer c)) /\
    cf_ClientID (cg_transfer c) = cc_ClientID (cg_conn c) /\
    (exists key, mc_PSK mc = Ok key /\ cg_PSK c = TrimSpace key /\ cf_PSK (cg_transfer c) = TrimSpace key) /\
    forall cfg2 mc2 newID2 d2 c2,
      read_at (d_nodes d2) (kernel_path (mc_Cwd mc2) (cl_IDFile cfg2)) = read_at (d_nodes d') idPath -> honest d2 ->
      fst (Run cfg2 mc2 newID2 d2) = Ok c2 -> cc_ClientID (cg_conn c2) = cc_ClientID (cg_conn c).
Proof.
  intros Ht Hp Hh. pose proof (Run_spec cfg mc newID d) as H. destruct (Run cfg mc newID d) as [r d'].
  destruct H as [[Hd Hr]|(jail & d1 & Hn & Hh1 & Hjail & Hd' & Hr)].
  { rewrite Hd. split; [done|]. split; [intros q; by left|]. by intros c ->. }
  specialize (Hh1 Hh). pose proof (LoadOrCreate_spec uuid_Parse (mc_Cwd mc) (cl_IDFile cfg) newID d1 Hh1) as Hs.
  pose proof (fun id => LoadOrCreate_keeps uuid_Parse (mc_Cwd mc) (cl_IDFile cfg) newID d1 id Ht Hp Hh1) as Hk.
  destruct (LoadOrCreate uuid_Parse _ _ newID d1) as [ri di]. cbn [fst snd] in Hd', Hr. cbn zeta in Hs |- *. subst di.
  destruct Hs as [_ Hs]. rewrite Hn in Hs.
  assert (match read_at (d_nodes d) (kernel_path (mc_Cwd mc) (cl_IDFile cfg)) with
          | Some _ => d_nodes d' = d_nodes d
          | None => made (d_nodes d) (kernel_path (mc_Cwd mc) (cl_IDFile cfg)) (bytes_of newID) (d_nodes d') end) as Hm
    by (destruct (read_at (d_nodes d) _); apply Hs).
  assert (made (d_nodes d) (kernel_path (mc_Cwd mc) (cl_IDFile cfg)) (bytes_of newID) (d_nodes d')) as Hmade
    by (destruct (read_at (d_nodes d) _); [rewrite Hm; left; apply dirs_added_refl|exact Hm]).
  split; [|split].
  - intros Hsome. by destruct (read_at (d_nodes d) _).
  - intros q. destruct Hmade as [Ha|(q' & w & Hq' & Hw & Hwr)]; [destruct (Ha q); auto|].
    destruct (written_read _ _ _ _ _ Hq' Hwr) as [Hf _]. destruct Hwr as (m1 & t & Ha & _ & _ & E).
    destruct (decide (q = q')) as [->|Hne].
    + right. right. split; [exact Hf|]. exists w, t. split; [done|]. by rewrite E, lookup_insert_eq.
    + rewrite E, lookup_insert_ne by done. destruct (Ha q); auto.
  - intros c Hc. destruct (Hr c Hc) as (El & <- & Hroot & Hid & _ & Hkey).
    split; [by eapply made_rdir|]. do 3 (split; [done|]).
    intros cfg2 mc2 newID2 d2 c2 Eread Hh2 Hr2. destruct (Hk _ El) as (_ & data & Hdata & Hi & Hv). rewrite Hdata in Eread.
    pose proof (Run_spec cfg2 mc2 newID2 d2) as H2. destruct (Run cfg2 mc2 newID2 d2) as [r2 d2']. cbn [fst] in Hr2. subst r2.
    destruct H2 as [[_ H2]|(jail2 & d3 & Hn2 & Hh3 & _ & _ & H2)]; [done|]. destruct (H2 c2 eq_refl) as (El2 & _).
    pose proof (LoadOrCreate_spec uuid_Parse (mc_Cwd mc2) (cl_IDFile cfg2) newID2 d3 (Hh3 Hh2)) as H3. cbn zeta in H3.
    rewrite Hn2, Eread in H3. destruct (LoadOrCreate uuid_Parse _ _ newID2 d3) as [r3 d3']. cbn [fst] in El2. subst r3.
    destruct H3 as (_ & _ & [H3|[e [=]]]). unfold parsed_id in H3. rewrite Hi, Hv in H3. by injection H3.
Qed.
End ClientStart.

(** ** The client and the server *)

(** What a client's request says for itself. *)
Lemma bearer_header psk l : extractBearer (h_get (("Authorization", "Bearer " +:+ psk) :: l) "Authorization") = psk.
Proof.
  assert (h_get (("Authorization", "Bearer " +:+ psk) :: l) "Authorization" = "Bearer " +:+ psk) as -> by done.
  unfold extractBearer. by rewrite HasPrefix_app, TrimPrefix_app.
Qed.

Lemma client_id_header psk id l :
  h_get (("Authorization", "Bearer " +:+ psk) :: ("X-Axion-Client-Id", id) :: l) "X-Axion-Client-Id" = id.
Proof. done. Qed.

Section SameKey.
Context {clk : Clock} (run_script : string -> tables -> result tables) (entries : list Migrations.entry).
Context (uuid_Parse : string -> option error) (url_path : string -> result string).
Context (upgrade : request -> option response) (wait : string -> Proto.Envelope -> M (world hub) Proto.Envelope).
Context (ExecuteTemplate : view -> string * option error) (Format : Z -> string) (Year : Z -> Z) (web : Web.Config).
Notation serve rn := (NewRouter (rn_Router rn) upgrade wait ExecuteTemplate Format Year web).

(** What the routes a client calls do with a request that has the server's key. *)
Lemma ws_with_key rn q fresh r s :
  rq_Path r = "/v1/ws" -> extractBearer (Header r "Authorization") = rc_PSK (rn_Router rn) ->
  serve rn q fresh r s = (Ok (default (MkResponse StatusSwitchingProtocols [] NoBody) (upgrade r)), s).
Proof.
  intros Hp Hk. unfold NewRouter. rewrite Hp, bool_decide_true by done. unfold AuthBearer.
  rewrite bool_decide_true by done. cbn [negb]. unfold ws_route, ret. by destruct (upgrade r).
Qed.

Lemma blobs_with_key rn q fresh r s sha :
  rq_Path r = "/v1/blobs/" +:+ sha -> extractBearer (Header r "Authorization") = rc_PSK (rn_Router rn) ->
  serve rn q fresh r s =
  on_blobs (ServeBlobs (rc_MaxFileSizeBytes (rn_Router rn)) (rc_PerClientQuotaBytes (rn_Router rn))
              (with_client r (Header r "X-Axion-Client-Id"))) s.
Proof.
  intros Hp Hk. unfold NewRouter. rewrite Hp. rewrite HasPrefix_app.
  change (bool_decide ("/v1/blobs/" +:+ sha = "/v1/ws")) with false. change (HasPrefix ("/v1/blobs/" +:+ sha) "/v1/clients/") with false.
  unfold on_blobs, blobs_route, AuthBearerWithClientID. by rewrite bool_decide_true.
Qed.

(** A started server and a started client whose key files have the same text but for the
    space around it, and whose server URL has no path: the dial is answered 101, or as the
    handshake asks, and every transfer is served, as that client's. *)
Lemma same_key_serves cfgS mkdir keyS b rn cfg mc keyC newID d c :
  fst (Startup.Run run_script entries cfgS mkdir (Ok keyS) b) = Ok rn ->
  mc_PSK mc = Ok keyC -> fst (Run uuid_Parse url_path cfg mc newID d) = Ok c ->
  url_path (http_scheme (cl_ServerURL cfg)) = Ok "" -> TrimSpace keyC = TrimSpace keyS ->
  forall q fresh s,
    serve rn q fresh (dial c) s = (Ok (default (MkResponse StatusSwitchingProtocols [] NoBody) (upgrade (dial c))), s) /\
    forall method sha headers size body, let r := blob_call (cg_transfer c) method sha headers size body in
      serve rn q fresh r s =
      on_blobs (ServeBlobs (rc_MaxFileSizeBytes (rn_Router rn)) (rc_PerClientQuotaBytes (rn_Router rn))
                  (with_client r (cc_ClientID (cg_conn c)))) s.
Proof.
  intros Hs%Run_key Hk Hc Hu Hkey. pose proof (Run_spec uuid_Parse url_path cfg mc newID d) as H.
  destruct (Run _ _ cfg mc newID d) as [r d']. cbn [fst] in Hc. subst r.
  destruct H as [[_ H]|(jail & d1 & _ & _ & _ & _ & H)]; [done|].
  destruct (H c eq_refl) as (_ & _ & _ & Hid & Hb & key & Ek & E1 & E2). rewrite Hu in Hb. injection Hb as Hb.
  rewrite Hk in Ek. injection Ek as <-. intros q fresh s. split.
  - apply ws_with_key; unfold dial, Header; cbn [rq_Path rq_Header]; [by rewrite <- Hb|].
    by rewrite bearer_header, E1, Hs, Hkey.
  - intros method sha headers size body. cbn zeta. rewrite (blobs_with_key rn q fresh _ s sha).
    + unfold blob_call, setAuthHeaders, Header. cbn [rq_Header app]. by rewrite client_id_header, Hid.
    + unfold blob_call, blobURL. cbn [rq_Path]. by rewrite <- Hb.
    + unfold blob_call, setAuthHeaders, Header. cbn [rq_Header app]. by rewrite bearer_header, E2, Hs, Hkey.
Qed.
End SameKey.

(** ** A client whose root is behind a link *)
Import Starts.
Module Start.
Definition disk0 : disk := MkDisk (<[["srv"] := NDir 0]> (<[["srv"; "data"] := NDir 0]> {[["data"] := NLink "srv/data"]})) [] 0.
Definition flags : Config := MkClientConfig "ws://host:8765" "data" "conf/client.id" "server.token".
Definition answers : machine := MkMachine (Ok "/") [] (Ok (" key" +:+ utf8 [10]%nat)) (Ok "box").
Definition no_path (url : string) : result string := Ok "".
Definition start : result connecting * disk := Run Starts.check no_path flags answers Starts.uuid1 disk0.
Definition dialling : connecting :=
  MkConnecting (MkConfig "" "key" Starts.uuid1 ["srv"; "data"]) (MkConnConfig Starts.uuid1 "box" "/srv/data" "0.2.3") "key".
Lemma start_ok : fst start = Ok dialling.
Proof. by vm_compute. Qed.
End Start.

Lemma client_starts_known_witness :
  read_at (d_nodes (snd Start.start)) ["conf"; "client.id"] = Some (bytes_of Starts.uuid1) /\
  rdir (d_nodes (snd Start.start)) ["srv"; "data"] /\
  forall mc2 c2, mc_Cwd mc2 = [] -> fst (Run Starts.check Start.no_path Start.flags mc2 Starts.uuid2 (snd Start.start)) = Ok c2 ->
    cc_ClientID (cg_conn c2) = Starts.uuid1.
Proof.
  split; [by vm_compute|].
  pose proof (client_starts_known Starts.check Start.no_path Start.flags Start.answers Starts.uuid1 Start.disk0
    ltac:(by vm_compute) ltac:(by vm_compute) ltac:(by constructor)) as H.
  assert (honest (snd Start.start)) as Hh by (vm_compute; constructor).
  pose proof Start.start_ok as Hs. unfold Start.start in *.
  destruct (Run _ _ Start.flags Start.answers _ Start.disk0) as [r d']. cbn [fst snd] in *. destruct H as (_ & _ & H).
  destruct (H _ Hs) as (Hr & _ & _ & _ & Hid). split; [exact Hr|].
  intros mc2 c2 Hc H2. apply (Hid Start.flags mc2 Starts.uuid2 d' c2); [by rewrite Hc|exact Hh|exact H2].
Defined.
