(* ===== verification/CommandLine.v ===== *)
(** cmd/axion: the command line of both programs, with the part of package flag they use
    (string flags, [flag.ExitOnError]) and the defaults of their flags.

    [main] answers what the process goes on to do: end with a status, or run the server
    (Startup.v) or the client (ClientStart.v) with a configuration.  What
    [os.UserConfigDir] answers is an argument. *)
From S2P Require Import Prelude GoStrings Proto Store Engine Hub Session Http BlobStore Paths Ignore HttpBlobs Disk Transfer Conn ServerApp Web WebSpec Router Identity Startup ClientStart.
From Stdlib Require Import Ascii.
Local Open Scope Z_scope.
Local Open Scope go_scope.

(** ** Package flag *)
Inductive parsed : Type :=
| Flags (given : gmap string string) (args : list string)
| ExitHelp                     (* ErrHelp: status 0 *)
| ExitUsage (msg : string).    (* status 2 *)

(** The name of the flag in an argument and its inline value; [None] ends the flags. *)
Inductive arg_form : Type :=
| NoFlag
| Terminator
| BadSyntax
| Named (name : string) (inline : option string).

Definition form_of (s : string) : arg_form :=
  match s with
  | String "-" (String c rest) =>
      let name := if bool_decide (c = "-"%char) then rest else String c rest in
      match name with
      | EmptyString => Terminator
      | String d name' =>
          if bool_decide (d = "-"%char) || bool_decide (d = "="%char) then BadSyntax
          else match cut "=" name' with
               | Some (n, v) => Named (String d n) (Some v)
               | None => Named name None
               end
      end
  | _ => NoFlag
  end.

(** [FlagSet.Parse]: the last value given for a flag holds. *)
Fixpoint Parse (formal : list string) (given : gmap string string) (args : list string) : parsed :=
  match args with
  | [] => Flags given []
  | s :: rest =>
      match form_of s with
      | NoFlag => Flags given args
      | Terminator => Flags given rest
      | BadSyntax => ExitUsage ("bad flag syntax: " +:+ s)
      | Named name inline =>
          if negb (bool_decide (name ∈ formal)) then
            if bool_decide (name = "help") || bool_decide (name = "h") then ExitHelp
            else ExitUsage ("flag provided but not defined: -" +:+ name)
          else match inline with
               | Some value => Parse formal (<[name := value]> given) rest
               | None =>
                   match rest with
                   | value :: rest' => Parse formal (<[name := value]> given) rest'
                   | [] => ExitUsage ("flag needs an argument: -" +:+ name)
                   end
               end
      end
  end.

(** [fs.String(name, value, ...)] *)
Definition flag_String (given : gmap string string) (name value : string) : string := default value (given !! name).

(** ** The defaults *)

Definition defaultDataDir (configDir : option string) : string :=
  match configDir with Some h => Join [Dir h; "share"; "axion"] | None => "./axion-data" end.
Definition defaultPSKFile (configDir : option string) : string :=
  match configDir with Some h => Join [h; "axion"; "server.token"] | None => "./axion-server.token" end.
Definition defaultClientIDFile (configDir : option string) : string :=
  match configDir with Some h => Join [h; "axion"; "client.id"] | None => "./axion.client.id" end.
Definition defaultClientPSKFile (configDir : option string) : string :=
  match configDir with Some h => Join [h; "axion"; "server.token"] | None => "./axion.server.token" end.

(** ** The commands *)
Inductive command : Type :=
| Exit (status : Z)
| Serve (cfg : ServerApp.Config)
| Connect (cfg : ClientStart.Config).

Definition exits (p : parsed) (k : gmap string string -> command) : command :=
  match p with Flags given _ => k given | ExitHelp => Exit 0 | ExitUsage _ => Exit 2 end.

Definition server_flags : list string := ["bind"; "data-dir"; "admin-user"; "admin-password"; "psk-file"].
Definition client_flags : list string := ["server"; "root"; "id-file"; "psk-file"].

Section CommandLine.
Context (configDir : option string).

Definition server_config (given : gmap string string) : ServerApp.Config :=
  MkAppConfig (flag_String given "bind" "127.0.0.1:8765") (flag_String given "data-dir" (defaultDataDir configDir))
    (flag_String given "admin-user" "") (flag_String given "admin-password" "")
    (flag_String given "psk-file" (defaultPSKFile configDir)) (30 * 10^9).

Definition client_config (given : gmap string string) : ClientStart.Config :=
  MkClientConfig (flag_String given "server" "ws://127.0.0.1:8765") (flag_String given "root" "")
    (flag_String given "id-file" (defaultClientIDFile configDir)) (flag_String given "psk-file" (defaultClientPSKFile configDir)).

Definition runServer (args : list string) : command :=
  exits (Parse server_flags ∅ args) (fun given => Serve (server_config given)).
Definition runClient (args : list string) : command :=
  exits (Parse client_flags ∅ args) (fun given => Connect (client_config given)).

(** [main], of the arguments after the program's name. *)
Definition main (args : list string) : command :=
  match args with
  | [] => Exit 2
  | c :: args =>
      if bool_decide (c = "server") then runServer args
      else if bool_decide (c = "client") then runClient args
      else if bool_decide (c ∈ ["-h"; "--help"; "help"]) then Exit 0
      else Exit 2
  end.

(** The status a command that has been run ends with. *)
Definition status_of (err : option error) : Z := match err with Some _ => 1 | None => 0 end.

(** ** What is written is what is read *)

(** A flag as a user writes it: -name value, -name=value, --name value or --name=value. *)
Record setting : Type := MkSetting { st_name : string; st_value : string; st_double : bool; st_inline : bool }.

Definition write (x : setting) : list string :=
  let dashes := if st_double x then "--" else "-" in
  if st_inline x then [dashes +:+ st_name x +:+ "=" +:+ st_value x] else [dashes +:+ st_name x; st_value x].

Definition given_by (l : list setting) : gmap string string := foldl (fun m x => <[st_name x := st_value x]> m) ∅ l.

(** A name as this program's flags have one. *)
Definition plain_name (s : string) : bool :=
  match s with String c s' => negb (bool_decide (c = "-"%char)) && sall (fun x => bool_decide (x <> "="%char)) s | EmptyString => false end.

Lemma form_of_write (x : setting) :
  plain_name (st_name x) = true ->
  form_of (hd "" (write x)) = Named (st_name x) (if st_inline x then Some (st_value x) else None).
Proof.
  destruct x as [name value db inl]. cbn [st_name st_value st_double st_inline]. unfold write. cbn [st_name st_value st_double st_inline].
  destruct name as [|c name]; [done|]. cbn [plain_name sall]. intros [Hc [He Hs]%andb_true_iff]%andb_true_iff.
  apply negb_true_iff in Hc. pose proof (proj1 (bool_decide_eq_true _) He) as Hne.
  assert (forall (s : string) inline, cut "=" s = match inline with Some v => Some (name, v) | None => None end ->
    (inline = None -> s = name) ->
    form_of ((if db then "--" else "-") +:+ String c s) = Named (String c name) inline) as H.
  { intros s inline Hcut Hn. assert (form_of ((if db then "--" else "-") +:+ String c s) =
      match cut "=" s with Some (n, v) => Named (String c n) (Some v) | None => Named (String c s) None end) as ->.
    { destruct db.
      - change ("--" +:+ String c s) with (String "-" (String "-" (String c s))). unfold form_of.
        rewrite (bool_decide_true ("-"%char = "-"%char)), Hc, (bool_decide_false (c = "="%char)) by done. done.
      - change ("-" +:+ String c s) with (String "-" (String c s)). unfold form_of.
        rewrite Hc, (bool_decide_false (c = "="%char)) by done. by rewrite Hc. }
    rewrite Hcut. destruct inline; [done|]. by rewrite Hn. }
  destruct inl; cbn [hd].
  - apply (H (name +:+ "=" +:+ value) (Some value)); [|done]. by apply cut_spec.
  - apply (H name None); [|done]. by apply cut_None.
Qed.

Lemma Parse_write formal l rest given :
  Forall (fun x => st_name x ∈ formal /\ plain_name (st_name x) = true) l ->
  Parse formal given (flat_map write l ++ rest) =
  Parse formal (foldl (fun m x => <[st_name x := st_value x]> m) given l) rest.
Proof.
  intros Hl. revert given. induction Hl as [|x l [Hin Hx] _ IH]; intros given; [done|].
  pose proof (form_of_write x Hx) as Hf. cbn [flat_map foldl]. unfold write in Hf |- *.
  destruct (st_inline x); cbn [hd app] in *; cbn [Parse]; rewrite Hf, bool_decide_true by done; cbn [negb]; apply IH.
Qed.

Lemma given_by_lookup l name value :
  given_by l !! name = Some value <->
  exists l1 x l2, l = l1 ++ x :: l2 /\ st_name x = name /\ st_value x = value /\ Forall (fun y => st_name y <> name) l2.
Proof.
  unfold given_by. induction l as [|y l IH] using rev_ind.
  { cbn. rewrite lookup_empty. split; [done|]. by intros (l1 & x & l2 & E & _); destruct l1. }
  rewrite foldl_app. cbn. destruct (decide (st_name y = name)) as [E|Hne].
  - rewrite E, lookup_insert_eq. split.
    + intros [= H]. exists l, y, []. by repeat split.
    + intros (l1 & x & l2 & El & Hx & Hv & Hl2). destruct l2 as [|z l2 _] using rev_ind.
      * apply app_inj_tail in El as [_ ->]. by rewrite Hv.
      * rewrite app_comm_cons, app_assoc in El. apply app_inj_tail in El as [_ <-].
        apply Forall_app in Hl2 as [_ Hl2]. by apply Forall_cons in Hl2 as [? _].
  - rewrite lookup_insert_ne by done. rewrite IH. split.
    + intros (l1 & x & l2 & -> & Hx & Hv & Hl2). exists l1, x, (l2 ++ [y]). rewrite <- app_assoc.
      repeat split; try done. apply Forall_app. by repeat constructor.
    + intros (l1 & x & l2 & El & Hx & Hv & Hl2). destruct l2 as [|z l2 _] using rev_ind.
      * apply app_inj_tail in El as [_ ->]. done.
      * rewrite app_comm_cons, app_assoc in El. apply app_inj_tail in El as [-> <-].
        apply Forall_app in Hl2 as [Hl2 _]. by exists l1, x, l2.
Qed.

Definition written_for (formal : list string) (l : list setting) : Prop :=
  Forall (fun x => st_name x ∈ formal) l.

Lemma Parse_settings formal l :
  forallb plain_name formal = true -> written_for formal l -> Parse formal ∅ (flat_map write l) = Flags (given_by l) [].
Proof.
  intros Hf Hl. rewrite <- (app_nil_r (flat_map write l)), Parse_write; [done|]. eapply Forall_impl; [exact Hl|].
  intros x Hx. split; [done|]. rewrite forallb_forall in Hf. apply Hf. by apply list_elem_of_In.
Qed.

Lemma main_server l : written_for server_flags l -> main ("server" :: flat_map write l) = Serve (server_config (given_by l)).
Proof. intros Hl. cbn [main]. rewrite bool_decide_true by done. unfold runServer. by rewrite Parse_settings. Qed.

Lemma main_client l : written_for client_flags l -> main ("client" :: flat_map write l) = Connect (client_config (given_by l)).
Proof.
  intros Hl. cbn [main]. rewrite bool_decide_false, bool_decide_true by done. unfold runClient. by rewrite Parse_settings.
Qed.

Lemma flag_default l name value : Forall (fun x => st_name x <> name) l -> flag_String (given_by l) name value = value.
Proof.
  intros Hl. unfold flag_String. destruct (given_by l !! name) as [v|] eqn:E; [|done].
  apply given_by_lookup in E as (l1 & x & l2 & -> & Hx & _). apply Forall_app in Hl as [_ [H _]%Forall_cons]. done.
Qed.

Lemma flag_last l1 x l2 value :
  Forall (fun y => st_name y <> st_name x) l2 -> flag_String (given_by (l1 ++ x :: l2)) (st_name x) value = st_value x.
Proof.
  intros Hl. unfold flag_String. assert (given_by (l1 ++ x :: l2) !! st_name x = Some (st_value x)) as ->; [|done].
  apply given_by_lookup. by exists l1, x, l2.
Qed.
End CommandLine.

(** ** The quick start *)
Section QuickStart.
Context {clk : Clock} (run_script : string -> tables -> result tables) (entries : list Migrations.entry).
Context (uuid_Parse : string -> option error) (url_path : string -> result string).
Context (upgrade : request -> option response) (wait : string -> Proto.Envelope -> M (world hub) Proto.Envelope).
Context (ExecuteTemplate : view -> string * option error) (Format : Z -> string) (Year : Z -> Z) (web : Web.Config).

End QuickStart.

(** Without a configuration directory the two commands read different files by default. *)
Theorem default_key_files_differ : exists cs cc,
  main None ["server"] = Serve cs /\ main None ["client"] = Connect cc /\ ac_PSKFile cs <> cl_PSKFile cc.
Proof. by eexists _, _. Qed.

(** ** One machine *)
Module Quick.
Definition bind_all : setting := MkSetting "bind" "0.0.0.0:8765" true false.
Definition sync_data : setting := MkSetting "root" "data" false true.
Definition key_file (path : string) : result string :=
  if bool_decide (path = "/home/u/.config/axion/server.token") then Ok (" key" +:+ utf8 [10]%nat) else Err (Errorf "ENOENT").
End Quick.

